(* ===== verification/_CoqProject ===== *)
-Q . S2P
Prelude.v
GoStrings.v
GoRegexp.v
GoJson.v
Pattern.v
Common.v
ReqContext.v
Profile.v
SigningProfile.v
Policy.v
ShieldConfig.v
Cache.v
MapNode.v
Diff.v
Mutation.v
RuleTable.v
Signing.v
ResourceSignature.v
SignVerifier.v
Sign.v
World.v
Loader.v
SharedCache.v
Frame.v
Validation.v
CheckContext.v
Check.v
SharedStatus.v
SharedEvents.v
Handler.v
HandlerFacts.v
HandlerReports.v
HandlerSamples.v
Server.v
SharedConfig.v
ServerSamples.v
GoState.v
RestClients.v
GoHeap.v
DeepCopies.v
Helm.v
Logger.v
ContextLog.v
DryRun.v
X509Sign.v
PgpKeys.v
LongKey.v
Observer.v
OperatorTypes.v
KubeObjects.v
OperatorResources.v
Certificates.v
Controller.v
ControllerFacts.v
ControllerLiveness.v
OperatorFacts.v
Deployed.v
OperatorSamples.v
Permissions.v
