(* ===== verification/Prelude.v ===== *)
(** * Integrity Shield: a verification library

    Integrity Shield is a Kubernetes admission webhook.  For every request the API
    server sends it, it decides whether the object may be created or changed: a
    resource protected by a [ResourceSigningProfile] is admitted only when the
    request changes nothing that is protected, or carries a signature of an
    accepted signer over the object.  Beside the webhook server run an observer,
    which counts its decisions, and an operator, which installs all of it.  This
    library models the three programs, the Go packages under [src/shield],
    [src/observer] and [src/integrity-shield-operator], and proves what makes them
    correct.

    ** The program and its model

    The handler ([shield/handler.go]) takes a request through a fixed sequence of
    checks ([checkFunctions.go], [checkUtils.go]): scope, format, the shield's own
    resources, deletion, protection by profiles, and per profile the mutation
    check ([utilMutation.go]) and the signature check ([sign.go],
    [signVerifier.go]).  Profiles, namespaces, signer configurations and
    signatures come from the API server through loaders with a process-wide cache
    ([*Loader.go], [runData.go], [util/cache]).  A denial is written to an event
    and to the status of the profile that denied.  The server ([shield/cmd])
    reloads its configuration, decodes an admission review, hands it to the
    handler and answers.  Each decision is a line of the context log, a file that
    is rotated by size ([util/logger]); the observer ([observer/pkg]) reads its
    lines and reports their numbers once per interval.  A signed document that does
    not match as it is, is compared with what the API server makes of it in a dry
    run ([util/kubeutil]).  The
    operator ([integrity-shield-operator]) builds the objects of an installation
    from a custom resource, creates or updates them one at a time, registers the
    webhook when the server is up, and removes what is left when the resource is
    deleted.

    - [Prelude]: Go results, loops that stop early, shared lemmas and tactics.
    - [GoStrings], [GoRegexp], [GoJson]: what the program uses of [strings],
      [strconv], [regexp] and [encoding/json].
    - [Pattern], [Common], [ReqContext], [Profile], [Policy] for [common/*.go];
      [SigningProfile], [ResourceSignature] for [apis/*/v1alpha1/types.go] and
      [util/yaml]; [ShieldConfig] for [shield/config] and the level comparison of
      [util/logger]; [Cache] for [util/cache]; [MapNode], [Diff] and [LongKey] for
      [util/mapnode]; [Signing] for what verifies in [util/sign], [X509Sign] and
      [PgpKeys] for what makes and lists keys, there and in the operator's
      [pgpkey].
    - [Logger] for [util/logger/logger.go] and what a request does to the levels;
      [ContextLog] for [util/logger/context.go]; [DryRun] for [util/kubeutil], which
      implements the interface [KubeUtil] that [SignVerifier] is proved against.
    - [Mutation], [RuleTable], [SignVerifier], [Sign], [Validation],
      [CheckContext] (also [decisionResult.go] and [utilPatch.go]), [Check],
      [Handler]: the files of [shield/] of the same purpose.
    - [World]: the state a handler shares with others or changes (cache, clock,
      events, statuses, logs) and the API server as a class of answers by time;
      computations on it are [M A := World -> go (A * World)].  [Loader] models
      the loaders and [RunData] on it, one request at a time, [SharedCache] the
      loaders, [SharedStatus] the denials, [SharedEvents] the events and
      [SharedConfig] the reloads of the configuration of many requests.
    - [Frame]: which cache keys a computation may write; [HandlerFacts],
      [HandlerReports]: the theorems about [Run]; [HandlerSamples]: requests
      evaluated from end to end, and instances of those theorems.
    - [Helm]: [plugins/helm], which implements the interface [HelmPlugin] that
      [SignVerifier] and [Sign] are proved against.
    - [Server] for [shield/cmd/ishield-server/*.go]; [ServerSamples]: its instances.
    - [GoState]: computations [ST S A] on a state of a program's own, and machine
      integers; [Observer] for [observer/pkg/observer/*.go].
    - [RestClients]: the generated clients ([shield/pkg/client/*/clientset/versioned])
      as instances of the pattern they are generated from, and the API server of
      [World] through them; [GoHeap]: Go values with pointers, slices and maps on a
      heap, and what copying one means; [DeepCopies]: every generated and hand-written
      [DeepCopyInto] ([zz_generated.deepcopy.go], [shield/pkg/common], [shield/config]).
    - [OperatorTypes] for the operator's [api/v1alpha1/integrityshield_types.go],
      [KubeObjects] for the parts of Kubernetes objects it sets,
      [OperatorResources] for [resources/*.go], [Certificates] for [cert/cert.go],
      [Controller] for [controllers/*.go].  [ControllerFacts],
      [ControllerLiveness] and [OperatorFacts] hold the theorems about them,
      [Deployed] those about an installation, where the operator's objects meet
      the server and the observer, [OperatorSamples] their instances.
    - [Permissions]: the calls of the server, the observer and the Helm plug-in
      against the roles and the definitions of custom resources of an installation.

    ** Correspondence

    Structs are records with a prefix per struct, pointers that the code tests or
    may dereference as nil are [option]s, maps are [gmap string string], JSON
    objects are association lists in the order of the text, machine integers are
    [Z] with their wrap-around written out where the code depends on it.  A
    function that can dereference nil returns [go A]: a value or [Panic], which
    the HTTP server turns into a dropped request.  A slice the callee rewrites
    ([Mask], [Extract]) is returned next to the result and passed on, so that the
    second use sees the rewritten slice.  Code outside of the repository is a
    class whose methods are parameters (Kubernetes selectors, the diff library,
    gjson, YAML, OpenPGP, X.509, logrus, the API server), with a second class of
    documented facts where a theorem needs them ([DiffLibOk], [ManifestLibOk],
    [ClusterOk], [CodecFor], [ProvenanceOk], [LogrusOk], [X509MakerOk],
    [MountedRing], [RestLibOk], [CopiesOk]); every theorem that uses one is applied to a concrete instance.
    Most models take structs as values; where it matters that two of them
    share memory, in the deep copies, they are on a heap.  The operator's API server is the class
    [KubeApi] with the laws [KubeApiOk] and [KubeApiUp]: a read is current, a created or
    updated object is stored as the server completes it ([stored_as]), a deleted
    one is gone at once.  The liveness theorem also assumes that the server
    accepts the deployment, that the owner of the objects stays, and that the pods
    of a deployment come up between two reconciliations.  Requests share
    the cache, the configuration, the context log and the statuses and events in the API server.  For
    these, handlers are goroutines of a step relation whose steps are single calls of
    the cache, of the file system or of the API server, or accesses to the
    configuration, in any order, and a theorem for each says that
    a goroutine alone takes the steps of the function that models it
    ([SharedCache.load_list_steps], [SharedConfig.InitShieldConfig_alone],
    [ContextLog.writeToFile_calls], [SharedStatus.UpdateStatus_alone],
    [SharedEvents.createOrUpdateEvent_alone]); the rest of a handler is taken at once.  The
    API server takes a write only for the version that was read.  A file
    is an inode with a text, which stays readable for those who have opened it when
    its name is removed.  The observer's two channels are one sequence of inputs in
    the order they are received.

    ** What is proved

    - Admission: [HandlerFacts.Run_sound] lists the reasons an allowed request
      has; it rests on [Sign.Signature_Eval_sound],
      [RuleTable.CheckIfProtected_correct], [Mutation.Mutation_Eval_correct] and
      on the freshness of the cached lists ([Loader], [Frame]).
    - Reports and state: denials leave an event, allowed changes of the rules
      empty the cache, the cache refines a map,
      the label of a patch is the verdict.
    - Matching: patterns, rules, profiles, selectors, kustomize names and signer
      policies mean what their documentation says; masks, flattening and
      differences of object trees are exact.
    - Concurrency: whatever the order of the calls, a list in use is no older than
      the cache lifetime and the delay of storing it, the configuration no older than
      its interval and such a delay ([SharedConfig]), a reset is effective unless an
      older answer is about to be stored or is given again, and the context log
      keeps whole lines and its bound ([SharedCache], [ContextLog]); the status of a
      profile is the outcome of the writes that were taken, one after the other, and
      none undoes another ([SharedStatus]), and so is an event, which counts them
      ([SharedEvents]).  A record of the log can be lost
      ([ContextLog.record_lost_in_rotation]), and a denial can go uncounted
      ([SharedStatus.simultaneous_denial_not_counted],
      [SharedEvents.failed_read_not_counted]).
    - Dry runs: nothing is changed by them, and a match is one with the object the
      API server answered ([DryRun]).
    - Keys: what [X509Sign] signs the verifiers accept; a public ring leaves the
      unknown signers out ([PgpKeys]).
    - Server: what an answer says is the handler's verdict on the request, under a
      configuration no older than the reload interval
      ([Server.serveRequest_sound], [Server.configuration_age_bounded],
      [SharedConfig.configuration_in_use_recent]).
    - Observer: each report has the counts of the events of its interval, no event
      twice, until a report fails ([Observer.Run_reports_batches]); through the
      context log these are the decisions of the server
      ([Deployed.observer_counts_decisions]).
    - Operator: reconciling ends with everything installed and nothing left to do
      ([ControllerLiveness.Reconcile_converges]), the webhook exists only after the
      server was available, the finalizer goes last ([ControllerFacts]); the
      objects it builds are protected, keys are mounted where the configuration
      looks for them, the certificate is valid for the webhook's service, a changed
      deployment is noticed ([OperatorFacts]).
    - Clients: with the roles the operator installs, the account of the server may
      make every call it makes, apart from dry runs of most objects without a
      namespace ([Permissions.server_calls_permitted]), and what it asks for is
      defined ([Permissions.custom_resources_served]).
    - Copies: every generated deep copy has the contents of its original
      ([DeepCopies.generated_copies_copy]); when [copier.Copy] copies deeply, writing to
      one does not change the other ([DeepCopies.DeepCopyObject_isolates]), and when
      it assigns the fields, which its documentation allows, it may
      ([DeepCopies.field_copier_shares]).
    - Helm: which release an object is traced to, and what of a release is
      compared ([Helm]).
    - Failures and divergences: theorems that show where the code panics, does
      not end, admits without checking, or never accepts what it means to.

    ** Bounds

    [MatchPattern] recurs once on the entries of a comma list; two rounds are
    enough because an entry has no comma, and [MatchPattern_unfold] shows the
    source's equation.  [Itoa] has one round per digit at most.  The JSON and
    regular expression readers consume a character every other round and get
    twice the length of the text.  [generateKeyList] gets the size of the tree
    plus the number of markers, which [generateKeyList_total] shows to be enough
    for keys without quotes; for a key with unbalanced quotes the source does not
    return ([generateKeyList_diverges]) and the executable function yields no key.
    Reconciling until nothing is left to do gets one round per object to install
    and one more, because a round that asks to be repeated has installed or
    updated one.  A goroutine that writes to the context log makes five calls at
    most and gets six, one that loads a list makes three.  The loops of the observer
    and of the key rings follow their lists.  [sort.Slice] is modelled by a stable sort.  [ToLower] and white space
    are the ASCII ones.

    ** Not modelled

    Fake clients, the registration of types with a scheme of the Kubernetes
    libraries, and whatever else of the generated code only tests use; printing of
    rules as JSON, which only logs use; the text of log messages on the console; the
    [main] functions, which start a TLS listener, a ticker and the reading of a
    file; the end-to-end test framework of the operator.  An access to an
    unsynchronised variable is one step, as on a machine that does not reorder them,
    and the level of the shared logger is followed through one request at a time. *)
From stdpp Require Export base list gmap strings.
From stdpp Require Import options.
From Stdlib Require Export ZArith Lia Ascii.

(** ** Scope of the development *)
Declare Scope shield_scope.
Delimit Scope shield_scope with shield.
Open Scope shield_scope.

Create HintDb shield.

#[global] Arguments String.append !_ _ / : simpl nomatch.

(** ** Go results: a value or a run-time panic

    A Go function that dereferences a nil pointer panics; [net/http] recovers
    the panic and drops the request.  [go A] keeps the two outcomes apart. *)
Inductive go (A : Type) : Type :=
| Ret (a : A)
| Panic.
Arguments Ret {A} a.
Arguments Panic {A}.

#[global] Instance go_ret : MRet go := fun A a => Ret a.
#[global] Instance go_bind : MBind go := fun A B f m =>
  match m with Ret a => f a | Panic => Panic end.
#[global] Instance go_fmap : FMap go := fun A B f m =>
  match m with Ret a => Ret (f a) | Panic => Panic end.

(** Whether a Go computation returns without panicking. *)
Definition returns {A} (m : go A) : bool :=
  match m with Ret _ => true | Panic => false end.

Lemma go_bind_Ret {A B} (m : go A) (f : A -> go B) b :
  m ≫= f = Ret b <-> exists a, m = Ret a /\ f a = Ret b.
Proof. destruct m; cbn; naive_solver. Qed.

(** ** Loops that stop at the first hit

    [for _, x := range l { if p(x) { return true } }; return false], in plain
    and in panicking form. *)
Fixpoint go_existsb {A} (p : A -> go bool) (l : list A) : go bool :=
  match l with
  | [] => Ret false
  | x :: l' =>
      match p x with
      | Panic => Panic
      | Ret true => Ret true
      | Ret false => go_existsb p l'
      end
  end.

Lemma go_existsb_pure {A} (p : A -> bool) (l : list A) :
  go_existsb (fun x => Ret (p x)) l = Ret (existsb p l).
Proof. induction l as [|x l IH]; cbn; [done|]. by destruct (p x). Qed.

Lemma existsb_true {A} (p : A -> bool) (l : list A) :
  existsb p l = true <-> exists x, x ∈ l /\ p x = true.
Proof.
  rewrite existsb_exists. split; intros (x & Hx & Hp); exists x; split; auto;
    by apply list_elem_of_In.
Qed.

Lemma existsb_false {A} (p : A -> bool) (l : list A) :
  existsb p l = false <-> forall x, x ∈ l -> p x = false.
Proof.
  induction l as [|y l IH]; cbn; [split; [intros _ x Hx; inversion Hx|done]|].
  rewrite orb_false_iff, IH. setoid_rewrite elem_of_cons. naive_solver.
Qed.

Lemma existsb_app_or {A} (p : A -> bool) (l k : list A) :
  existsb p (l ++ k) = existsb p l || existsb p k.
Proof. apply existsb_app. Qed.

(** [find] over a list, as Go's [for .. { if p { return x } }]. *)
Lemma find_Some_first {A} (p : A -> bool) (l : list A) x :
  List.find p l = Some x <->
  exists l1 l2, l = l1 ++ x :: l2 /\ p x = true /\ (forall y, y ∈ l1 -> p y = false).
Proof.
  induction l as [|y l IH]; cbn.
  - split; [done|]. intros (l1 & l2 & H & _). by destruct l1.
  - destruct (p y) eqn:E.
    + split.
      * intros [= <-]. exists [], l. repeat split; auto. intros z Hz; inversion Hz.
      * intros (l1 & l2 & H & Hp & Hn). destruct l1 as [|z l1]; simplify_list_eq; [done|].
        specialize (Hn z). rewrite Hn in E; [done|]. left.
    + rewrite IH. split.
      * intros (l1 & l2 & -> & Hp & Hn). exists (y :: l1), l2. repeat split; auto.
        intros z [->|Hz]%elem_of_cons; auto.
      * intros (l1 & l2 & H & Hp & Hn). destruct l1 as [|z l1]; simplify_list_eq; [congruence|].
        exists l1, l2. repeat split; auto. intros w Hw. apply Hn. by right.
Qed.

Lemma find_None_all {A} (p : A -> bool) (l : list A) :
  List.find p l = None <-> forall x, x ∈ l -> p x = false.
Proof.
  induction l as [|y l IH]; cbn.
  - split; [intros _ x Hx; inversion Hx|done].
  - destruct (p y) eqn:E.
    + split; [done|]. intros H. specialize (H y). rewrite H in E; [done|left].
    + rewrite IH. setoid_rewrite elem_of_cons. naive_solver.
Qed.

(** ** Counting what a predicate keeps *)

Lemma filter_mono_length {A} (f g : A -> bool) l : (forall x, x ∈ l -> g x = true -> f x = true) ->
  length (List.filter g l) <= length (List.filter f l).
Proof.
  induction l as [|y l IH]; intros Hsub; [done|]. cbn.
  assert (g y = true -> f y = true) as Hy by (apply Hsub; left).
  specialize (IH ltac:(intros z Hz; apply Hsub; by right)).
  destruct (g y); [rewrite Hy by done|destruct (f y)]; cbn; lia.
Qed.

Lemma filter_shrinks {A} (f g : A -> bool) l : (forall x, x ∈ l -> g x = true -> f x = true) ->
  (exists x, x ∈ l /\ f x = true /\ g x = false) -> length (List.filter g l) < length (List.filter f l).
Proof.
  intros Hsub (x & Hx & Hf & Hg). induction l as [|y l IH]; [by apply elem_of_nil in Hx|]. cbn.
  assert (forall z, z ∈ l -> g z = true -> f z = true) as Hl by (intros z Hz; apply Hsub; by right).
  apply elem_of_cons in Hx as [<-|Hx].
  - rewrite Hf, Hg. cbn. pose proof (filter_mono_length f g l Hl). lia.
  - specialize (IH Hl Hx). assert (g y = true -> f y = true) as Hy by (apply Hsub; left).
    destruct (g y); [rewrite Hy by done|destruct (f y)]; cbn; lia.
Qed.

(** ** Sums over a list *)

Lemma sum_list_with_insert {A} (f : A -> nat) l k x y :
  l !! k = Some x -> sum_list_with f (<[k := y]> l) + f x = sum_list_with f l + f y.
Proof.
  revert k. induction l as [|z l IH]; intros [|k] Hk; simplify_eq/=; [lia|]. specialize (IH k Hk). lia.
Qed.

Lemma sum_list_with_mono {A} (f g : A -> nat) l : (forall x, x ∈ l -> f x <= g x) -> sum_list_with f l <= sum_list_with g l.
Proof.
  induction l as [|x l IH]; intros Hl; [done|]. cbn. specialize (Hl x ltac:(left)) as Hx.
  specialize (IH ltac:(intros y Hy; apply Hl; by right)). lia.
Qed.

Lemma sum_list_with_length {A} (f : A -> nat) l : (forall x, f x <= 1) -> sum_list_with f l <= length l.
Proof. intros Hf. induction l as [|x l IH]; [done|]. cbn. specialize (Hf x). lia. Qed.

(** ** Invariants along steps *)

Lemma rtc_preserves {A} (R : relation A) (P : A -> Prop) :
  (forall x y, R x y -> P x -> P y) -> forall x y, rtc R x y -> P x -> P y.
Proof. intros Hp x y Hr. induction Hr; eauto. Qed.

(** ** Automation *)

(** Split on the discriminee of the first [match] or [if] of the goal. *)
Ltac case_goal :=
  match goal with
  | |- context [match ?x with _ => _ end] => destruct x eqn:?
  end.

(** The same for a hypothesis. *)
Ltac case_hyp H :=
  match type of H with
  | context [match ?x with _ => _ end] => destruct x eqn:?
  end.

(** Turn boolean facts of the context into propositions. *)
Ltac bool_prop :=
  repeat match goal with
  | H : _ && _ = true |- _ => apply andb_true_iff in H as [? ?]
  | H : _ || _ = false |- _ => apply orb_false_iff in H as [? ?]
  | H : negb _ = true |- _ => apply negb_true_iff in H
  | H : negb _ = false |- _ => apply negb_false_iff in H
  | H : String.eqb _ _ = true |- _ => apply String.eqb_eq in H
  | H : String.eqb _ _ = false |- _ => apply String.eqb_neq in H
  | H : bool_decide _ = true |- _ => apply bool_decide_eq_true in H
  | H : bool_decide _ = false |- _ => apply bool_decide_eq_false in H
  end.

#[export] Hint Resolve existsb_true existsb_false : shield.
