(* ===== verification/GoStrings.v ===== *)
(** * The parts of Go's [strings] and [strconv] that the shield uses

    A Go string is a sequence of bytes; here it is a Rocq [string], a sequence
    of 8-bit [ascii].  Every function below is total and executable.  White
    space and letter case are those of ASCII, which is what Kubernetes names,
    user names and label keys are made of. *)
From S2P Require Import Prelude.
From stdpp Require Import options.

Notation slen := String.length (only parsing).

(** ** Characters *)

Definition is_space_b (c : ascii) : bool :=
  let n := nat_of_ascii c in
  Nat.leb 9 n && Nat.leb n 13 || Nat.eqb n 32.

Definition is_digit_b (c : ascii) : bool :=
  let n := nat_of_ascii c in Nat.leb 48 n && Nat.leb n 57.

Definition digit_val (c : ascii) : Z := Z.of_nat (nat_of_ascii c) - 48.

(** The value of a hexadecimal digit. *)
Definition hex_val (c : ascii) : option Z :=
  let n := nat_of_ascii c in
  if Nat.leb 48 n && Nat.leb n 57 then Some (Z.of_nat n - 48)%Z
  else if Nat.leb 97 n && Nat.leb n 102 then Some (Z.of_nat n - 87)%Z
  else if Nat.leb 65 n && Nat.leb n 70 then Some (Z.of_nat n - 55)%Z
  else None.

Definition to_lower_c (c : ascii) : ascii :=
  let n := nat_of_ascii c in
  if Nat.leb 65 n && Nat.leb n 90 then ascii_of_nat (n + 32) else c.

(** ** Character-level string functions *)

Fixpoint str_forall (p : ascii -> bool) (s : string) : bool :=
  match s with EmptyString => true | String c s' => p c && str_forall p s' end.

Fixpoint str_exists (p : ascii -> bool) (s : string) : bool :=
  match s with EmptyString => false | String c s' => p c || str_exists p s' end.

Fixpoint str_map (f : ascii -> ascii) (s : string) : string :=
  match s with EmptyString => EmptyString | String c s' => String (f c) (str_map f s') end.

(** [strings.ToLower] *)
Definition ToLower (s : string) : string := str_map to_lower_c s.

(** Drop the longest prefix whose characters satisfy [p]. *)
Fixpoint trim_left_p (p : ascii -> bool) (s : string) : string :=
  match s with
  | EmptyString => EmptyString
  | String c s' => if p c then trim_left_p p s' else s
  end.

(** Drop the longest suffix whose characters satisfy [p]. *)
Fixpoint trim_right_p (p : ascii -> bool) (s : string) : string :=
  match s with
  | EmptyString => EmptyString
  | String c s' =>
      if p c && str_forall p s' then EmptyString else String c (trim_right_p p s')
  end.

(** [strings.TrimSpace] *)
Definition TrimSpace (s : string) : string :=
  trim_right_p is_space_b (trim_left_p is_space_b s).

Definition in_cutset (cutset : string) (c : ascii) : bool :=
  str_exists (fun d => bool_decide (c = d)) cutset.

(** [strings.TrimRight] and [strings.Trim]: every trailing (and leading)
    character of the cutset goes. *)
Definition TrimRight (s cutset : string) : string := trim_right_p (in_cutset cutset) s.
Definition Trim (s cutset : string) : string :=
  trim_right_p (in_cutset cutset) (trim_left_p (in_cutset cutset) s).

(** ** Substrings *)

(** [strings.HasPrefix] *)
Fixpoint HasPrefix (s pre : string) {struct pre} : bool :=
  match pre, s with
  | EmptyString, _ => true
  | String a pre', String b s' => bool_decide (a = b) && HasPrefix s' pre'
  | String _ _, EmptyString => false
  end.

(** Drop the first [n] bytes. *)
Fixpoint str_drop (n : nat) (s : string) : string :=
  match n, s with
  | O, _ => s
  | S n', String _ s' => str_drop n' s'
  | S _, EmptyString => EmptyString
  end.

(** Keep the first [n] bytes: Go's [s\[:n\]]. *)
Fixpoint str_take (n : nat) (s : string) : string :=
  match n, s with
  | O, _ => EmptyString
  | S n', String c s' => String c (str_take n' s')
  | S _, EmptyString => EmptyString
  end.

(** [strings.HasSuffix]: the last [len(suf)] bytes are [suf]. *)
Definition HasSuffix (s suf : string) : bool :=
  Nat.leb (slen suf) (slen s) && bool_decide (str_drop (slen s - slen suf) s = suf).

(** [strings.TrimSuffix] *)
Definition TrimSuffix (s suf : string) : string :=
  if HasSuffix s suf then str_take (slen s - slen suf) s else s.

(** [strings.Contains] *)
Fixpoint Contains (s sub : string) : bool :=
  HasPrefix s sub ||
  match s with EmptyString => false | String _ s' => Contains s' sub end.

(** [strings.Split] for a non-empty separator; [skip] counts the bytes of a
    separator already recognised. *)
Fixpoint split_aux (sep : string) (skip : nat) (s : string) : string * list string :=
  match s with
  | EmptyString => (EmptyString, [])
  | String c s' =>
      match skip with
      | S k => split_aux sep k s'
      | O =>
          if HasPrefix s sep then
            let '(p, r) := split_aux sep (slen sep - 1) s' in (EmptyString, p :: r)
          else
            let '(p, r) := split_aux sep 0 s' in (String c p, r)
      end
  end.

Definition Split (s sep : string) : list string :=
  let '(p, r) := split_aux sep 0 s in p :: r.

(** [strings.Join] *)
Fixpoint Join (l : list string) (sep : string) : string :=
  match l with
  | [] => ""
  | [x] => x
  | x :: l' => x +:+ sep +:+ Join l' sep
  end.

(** [strings.ReplaceAll] for a non-empty [old]; [strings.Replace] with -1. *)
Definition ReplaceAll (s old new : string) : string := Join (Split s old) new.

(** [strings.Replace(s, old, "", 1)]: remove the first occurrence. *)
Fixpoint remove_first (s old : string) : string :=
  if HasPrefix s old then str_drop (slen old) s
  else match s with
       | EmptyString => EmptyString
       | String c s' => String c (remove_first s' old)
       end.

(** The reversed byte sequence. *)
Fixpoint str_rev (s : string) : string :=
  match s with
  | EmptyString => EmptyString
  | String c s' => str_rev s' +:+ String c EmptyString
  end.

(** ** Numbers *)

(** Decimal digits of a natural number, as [strconv.Itoa] prints them. *)
Definition digit_char (n : nat) : ascii := ascii_of_nat (48 + n).

Fixpoint itoa_aux (fuel n : nat) (acc : string) : string :=
  match fuel with
  | O => acc
  | S f =>
      let acc' := String (digit_char (n `mod` 10)) acc in
      if Nat.ltb n 10 then acc' else itoa_aux f (n `div` 10) acc'
  end.

Definition Itoa (n : nat) : string := itoa_aux (S n) n "".
#[global] Arguments Itoa : simpl never.

Fixpoint parse_digits (acc : Z) (s : string) : option Z :=
  match s with
  | EmptyString => Some acc
  | String c s' => if is_digit_b c then parse_digits (10 * acc + digit_val c) s' else None
  end.

Definition int64_min : Z := -9223372036854775808.
Definition int64_max : Z := 9223372036854775807.

(** [strconv.Atoi] on a 64-bit platform: an optional sign, at least one decimal
    digit, and a value that fits an [int]. *)
Definition Atoi (s : string) : option Z :=
  let signed neg ds :=
    match ds with
    | EmptyString => None
    | _ => match parse_digits 0 ds with
           | Some v => let v' := if neg : bool then (- v)%Z else v in
                       if (Z.leb int64_min v' && Z.leb v' int64_max)%bool
                       then Some v' else None
           | None => None
           end
    end in
  match s with
  | String "-" ds => signed true ds
  | String "+" ds => signed false ds
  | _ => signed false s
  end.

(** The value [strconv.Atoi] returns when its error is ignored: zero for a text
    that is no number, the nearest bound for one out of range. *)
Definition Atoi_value (s : string) : Z :=
  let signed neg ds :=
    match ds with
    | EmptyString => 0%Z
    | _ => match parse_digits 0 ds with
           | Some v => let v' := if neg : bool then (- v)%Z else v in
                       Z.max int64_min (Z.min v' int64_max)
           | None => 0%Z
           end
    end in
  match s with
  | String "-" ds => signed true ds
  | String "+" ds => signed false ds
  | _ => signed false s
  end.

(** [strconv.ParseBool] *)
Definition ParseBool (s : string) : option bool :=
  if bool_decide (s ∈ ["1"; "t"; "T"; "true"; "TRUE"; "True"]) then Some true
  else if bool_decide (s ∈ ["0"; "f"; "F"; "false"; "FALSE"; "False"]) then Some false
  else None.

(** ** Facts *)

Lemma str_app_nil_r s : s +:+ "" = s.
Proof. induction s as [|c s IH]; simpl; [done|]. by rewrite IH. Qed.

Lemma str_app_assoc a b c : (a +:+ b) +:+ c = a +:+ b +:+ c.
Proof. induction a as [|x a IH]; simpl; [done|]. by rewrite IH. Qed.

Lemma slen_app a b : slen (a +:+ b) = slen a + slen b.
Proof. induction a as [|x a IH]; simpl; [done|]. by rewrite IH. Qed.

Lemma str_drop_app a b : str_drop (slen a) (a +:+ b) = b.
Proof. by induction a. Qed.

Lemma str_take_app a b : str_take (slen a) (a +:+ b) = a.
Proof. induction a as [|x a IH]; simpl; [done|]. by rewrite IH. Qed.

Lemma str_take_drop n s : str_take n s +:+ str_drop n s = s.
Proof.
  revert s. induction n as [|n IH]; intros [|c s]; simpl; try done. by rewrite IH.
Qed.

Lemma slen_str_take n s : n <= slen s -> slen (str_take n s) = n.
Proof.
  revert s. induction n as [|n IH]; intros [|c s]; simpl; intros; try done; try lia.
  rewrite IH; lia.
Qed.

Lemma HasPrefix_spec s pre : HasPrefix s pre = true <-> exists r, s = pre +:+ r.
Proof.
  revert s. induction pre as [|a pre IH]; intros s; simpl.
  - split; [intros _; by exists s|done].
  - destruct s as [|b s]; [split; [done|intros [r [=]]]|].
    rewrite andb_true_iff, bool_decide_eq_true, IH.
    split; [intros [-> [r ->]]; eauto | intros [r [= -> ->]]; eauto].
Qed.

Lemma HasPrefix_app s r : HasPrefix (s +:+ r) s = true.
Proof. apply HasPrefix_spec. eauto. Qed.

Lemma HasPrefix_refl s : HasPrefix s s = true.
Proof. apply HasPrefix_spec. exists "". by rewrite str_app_nil_r. Qed.

Lemma HasPrefix_nil s : HasPrefix s "" = true.
Proof. by destruct s. Qed.

Lemma HasSuffix_spec s suf : HasSuffix s suf = true <-> exists r, s = r +:+ suf.
Proof.
  unfold HasSuffix. rewrite andb_true_iff, Nat.leb_le, bool_decide_eq_true. split.
  - intros [Hle Hd]. exists (str_take (slen s - slen suf) s).
    rewrite <-Hd at 2. by rewrite str_take_drop.
  - intros [r ->]. rewrite slen_app. split; [lia|].
    replace (slen r + slen suf - slen suf) with (slen r) by lia. apply str_drop_app.
Qed.

Lemma Contains_spec s sub : Contains s sub = true <-> exists a b, s = a +:+ sub +:+ b.
Proof.
  induction s as [|c s IH]; simpl; rewrite orb_true_iff, HasPrefix_spec.
  - split.
    + intros [[r Hr]|]; [|done]. by exists "", r.
    + intros (a & b & H). left. destruct a; simpl in H; [eauto|done].
  - rewrite IH. split.
    + intros [[r Hr]|(a & b & ->)]; [by exists "", r|]. by exists (String c a), b.
    + intros (a & b & H). destruct a as [|x a]; simpl in H; [left; eauto|].
      right. injection H as -> ->. eauto.
Qed.

Lemma HasPrefix_Contains s sub : HasPrefix s sub = true -> Contains s sub = true.
Proof. intros [r ->]%HasPrefix_spec. apply Contains_spec. by exists "", r. Qed.

(** *** Characters of a string *)

Lemma str_forall_app p a b : str_forall p (a +:+ b) = str_forall p a && str_forall p b.
Proof. induction a as [|x a IH]; simpl; [done|]. by rewrite IH, andb_assoc. Qed.

Lemma str_forall_impl (p q : ascii -> bool) s :
  (forall c, p c = true -> q c = true) -> str_forall p s = true -> str_forall q s = true.
Proof.
  intros H. induction s as [|c s IH]; simpl; [done|].
  rewrite !andb_true_iff. naive_solver.
Qed.

Lemma str_forall_trim_left p q s : str_forall q s = true -> str_forall q (trim_left_p p s) = true.
Proof.
  induction s as [|c s IH]; simpl; [done|]. rewrite andb_true_iff. intros [? ?].
  destruct (p c); [auto|]. simpl. by apply andb_true_iff.
Qed.

Lemma str_forall_trim_right p q s :
  str_forall q s = true -> str_forall q (trim_right_p p s) = true.
Proof.
  induction s as [|c s IH]; simpl; [done|]. rewrite andb_true_iff. intros [? ?].
  destruct (p c && str_forall p s); [done|]. simpl. apply andb_true_iff; auto.
Qed.

Lemma str_forall_TrimSpace q s : str_forall q s = true -> str_forall q (TrimSpace s) = true.
Proof. intros. by apply str_forall_trim_right, str_forall_trim_left. Qed.

Lemma trim_right_p_decomp p s :
  exists t, s = trim_right_p p s +:+ t /\ str_forall p t = true.
Proof.
  induction s as [|c s (t & Ht & Hp)]; [by exists ""|]. simpl.
  destruct (p c && str_forall p s) eqn:E.
  - exists (String c s). split; [done|]. simpl. done.
  - exists t. split; [|done]. simpl. by f_equal.
Qed.

Lemma trim_right_p_idem p s : trim_right_p p (trim_right_p p s) = trim_right_p p s.
Proof.
  induction s as [|c s IH]; simpl; [done|].
  destruct (p c && str_forall p s) eqn:E; [done|]. simpl. rewrite IH.
  destruct (p c && str_forall p (trim_right_p p s)) eqn:E'; [|done].
  bool_prop. apply andb_false_iff in E as [E|E]; [congruence|].
  destruct (trim_right_p_decomp p s) as (t & Ht & Hp).
  rewrite Ht, str_forall_app in E. bool_prop.
  apply andb_false_iff in E as [?|?]; congruence.
Qed.

Lemma trim_left_p_idem p s : trim_left_p p (trim_left_p p s) = trim_left_p p s.
Proof.
  induction s as [|c s IH]; simpl; [done|]. destruct (p c) eqn:E; [done|].
  simpl. by rewrite E.
Qed.

Lemma trim_left_trim_right_p p s :
  trim_left_p p (trim_right_p p (trim_left_p p s)) = trim_right_p p (trim_left_p p s).
Proof.
  induction s as [|c s IH]; simpl; [done|]. destruct (p c) eqn:E; [done|].
  simpl. rewrite E. simpl. by rewrite E.
Qed.

Lemma TrimSpace_idem s : TrimSpace (TrimSpace s) = TrimSpace s.
Proof. unfold TrimSpace. rewrite trim_left_trim_right_p. apply trim_right_p_idem. Qed.

(** *** Split and Join *)

Lemma Join_cons x l sep : l <> [] -> Join (x :: l) sep = x +:+ sep +:+ Join l sep.
Proof. by destruct l. Qed.

Lemma split_aux_Join sep skip s :
  sep <> "" ->
  let '(p, r) := split_aux sep skip s in Join (p :: r) sep = str_drop skip s.
Proof.
  intros Hsep. revert skip. induction s as [|c s IH]; intros skip; [by destruct skip|].
  cbn [split_aux]. destruct skip as [|k]; [|apply (IH k)].
  destruct (HasPrefix (String c s) sep) eqn:E.
  - apply HasPrefix_spec in E as [r Hr]. destruct sep as [|d sep]; [done|].
    simpl in Hr. injection Hr as -> ->.
    specialize (IH (slen (String d sep) - 1)).
    destruct (split_aux (String d sep) _ (sep +:+ r)) as [p rs].
    rewrite Join_cons by done. rewrite IH. simpl. rewrite Nat.sub_0_r, str_drop_app. done.
  - specialize (IH 0). destruct (split_aux sep 0 s) as [p rs]. simpl in IH |- *.
    destruct rs; simpl; by rewrite <-IH.
Qed.

(** Joining what [Split] returns gives the string back. *)
Lemma Join_Split s sep : sep <> "" -> Join (Split s sep) sep = s.
Proof.
  intros H. pose proof (split_aux_Join sep 0 s H) as Hj. unfold Split.
  destruct (split_aux sep 0 s). exact Hj.
Qed.

(** For a one-character separator, the pieces do not contain it. *)
Lemma split_aux_no_sep c s :
  let '(p, r) := split_aux (String c "") 0 s in
  Forall (fun x => str_forall (fun d => negb (bool_decide (c = d))) x = true) (p :: r).
Proof.
  induction s as [|d s IH]; simpl; [by repeat constructor|].
  destruct (bool_decide (c = d)) eqn:E; simpl; rewrite ?HasPrefix_nil; simpl;
    destruct (split_aux (String c "") 0 s) as [p r].
  - by constructor.
  - inversion IH; subst. constructor; [|done]. simpl. rewrite E. done.
Qed.

Lemma Split_no_sep c s x :
  x ∈ Split s (String c "") -> str_forall (fun d => negb (bool_decide (c = d))) x = true.
Proof.
  unfold Split. pose proof (split_aux_no_sep c s) as H.
  destruct (split_aux _ 0 s) as [p r]. rewrite Forall_forall in H. apply H.
Qed.

Lemma Contains_char c s :
  Contains s (String c "") = negb (str_forall (fun d => negb (bool_decide (c = d))) s).
Proof.
  induction s as [|d s IH]; simpl; [done|]. rewrite IH.
  by destruct (bool_decide (c = d)).
Qed.

Lemma Split_no_occurrence c s : Contains s (String c "") = false -> Split s (String c "") = [s].
Proof.
  rewrite Contains_char. unfold Split. induction s as [|d s IH]; simpl; [done|].
  destruct (bool_decide (c = d)); simpl; [done|]. intros H. specialize (IH H).
  destruct (split_aux _ 0 s) as [p r]. by simplify_eq/=.
Qed.

(** *** Itoa and Atoi *)

Lemma digit_char_ok n : n < 10 -> is_digit_b (digit_char n) = true /\ digit_val (digit_char n) = Z.of_nat n.
Proof. intros. do 10 (destruct n as [|n]; [by vm_compute|]). lia. Qed.

Lemma parse_digits_itoa fuel n acc z :
  n < fuel ->
  exists k, (0 < k)%Z /\ parse_digits z (itoa_aux fuel n acc) = parse_digits (z * k + Z.of_nat n) acc.
Proof.
  revert n acc. induction fuel as [|f IH]; intros n acc Hn; [lia|]. cbn [itoa_aux].
  destruct (digit_char_ok (n mod 10)) as [Hd Hv]; [apply Nat.mod_upper_bound; lia|].
  destruct (Nat.ltb_spec n 10) as [Hlt|Hge].
  - exists 10%Z. split; [lia|]. cbn [parse_digits]. rewrite Hd, Hv, Nat.mod_small by lia.
    f_equal. lia.
  - destruct (IH (n `div` 10) (String (digit_char (n mod 10)) acc)) as (k & Hk & Heq).
    { pose proof (Nat.div_lt n 10). lia. }
    exists (10 * k)%Z. split; [lia|]. rewrite Heq. cbn [parse_digits]. rewrite Hd, Hv. f_equal.
    pose proof (Nat.div_mod_eq n 10). lia.
Qed.

Lemma itoa_aux_cons fuel n acc :
  0 < fuel -> exists m s, m < 10 /\ itoa_aux fuel n acc = String (digit_char m) s.
Proof.
  revert n acc. induction fuel as [|f IH]; intros n acc Hf; [lia|]. cbn [itoa_aux].
  pose proof (Nat.mod_upper_bound n 10).
  destruct (Nat.ltb_spec n 10); [exists (n mod 10); eexists; split; [lia|done]|].
  destruct f as [|f]; [simpl; exists (n mod 10); eexists; split; [lia|done]|]. apply IH; lia.
Qed.

(** [Atoi] reads back what [Itoa] prints, for every [int], and rejects the rest. *)
Lemma Atoi_Itoa_range n :
  Atoi (Itoa n) = if Z.leb (Z.of_nat n) int64_max then Some (Z.of_nat n) else None.
Proof.
  unfold Itoa.
  destruct (itoa_aux_cons (S n) n "") as (m & s & Hm & Heq); [lia|].
  destruct (parse_digits_itoa (S n) n "" 0) as (k & Hk & Hp); [lia|].
  rewrite Z.mul_0_l, Z.add_0_l in Hp. cbn [parse_digits] in Hp.
  assert (Hrng : Z.leb int64_min (Z.of_nat n) = true).
  { apply Z.leb_le; unfold int64_min in *; lia. }
  rewrite Heq in Hp |- *. unfold Atoi.
  do 10 (destruct m as [|m]; [rewrite Hp, Hrng; done|]). lia.
Qed.

Lemma Atoi_Itoa n : (Z.of_nat n <= int64_max)%Z -> Atoi (Itoa n) = Some (Z.of_nat n).
Proof. intros H%Z.leb_le. by rewrite Atoi_Itoa_range, H. Qed.

Lemma Atoi_range s i : Atoi s = Some i -> (int64_min <= i <= int64_max)%Z.
Proof.
  unfold Atoi. cbv zeta. intros H.
  repeat (case_match; [|try done]); repeat case_match; try done; simplify_eq;
    match goal with Hb : (_ && _)%bool = true |- _ => apply andb_true_iff in Hb; lia end.
Qed.
