(* ===== verification/GoRegexp.v ===== *)
(** * The part of Go's [regexp] that the shield uses

    [regexp.MatchString], [FindString] and [ReplaceAllString] with RE2's
    leftmost-first semantics.  The syntax read is: literals, [.], character
    classes, the escapes of [\d \w \s] and of punctuation, groups, alternation,
    greedy and lazy [* + ?], counted repetition, [^] and [$].  Inline flags,
    named groups, Unicode classes, POSIX classes and word boundaries are
    outside it and are reported as a compile error. *)
From S2P Require Import Prelude GoStrings.
From stdpp Require Import options.

(** ** Expressions *)

(** A set of characters: inclusive ranges of codes, possibly complemented. *)
Record cset := mkCset { cs_neg : bool; cs_ranges : list (nat * nat) }.

Definition cset_mem (p : cset) (c : ascii) : bool :=
  let n := nat_of_ascii c in
  xorb (cs_neg p) (existsb (fun r => Nat.leb (r.1) n && Nat.leb n (r.2)) (cs_ranges p)).

Inductive re :=
| REps
| RSet (p : cset)
| RCat (a b : re)
| RAlt (a b : re)
| RStar (greedy : bool) (a : re)
| RBegin
| REnd.

Definition lit (c : ascii) : cset := mkCset false [(nat_of_ascii c, nat_of_ascii c)].
(** [.] without the [s] flag: any character but a newline. *)
Definition any_char : cset := mkCset true [(10, 10)].
Definition digit_set : list (nat * nat) := [(48, 57)].
Definition word_set : list (nat * nat) := [(48, 57); (65, 90); (95, 95); (97, 122)].
Definition space_set : list (nat * nat) := [(9, 10); (12, 13); (32, 32)].

(** ** Matching *)

(** [rmatch r len s s']: [r] consumes a prefix of [s] and leaves [s'], where
    [len] is the length of the whole text. *)
Inductive rmatch (len : nat) : re -> string -> string -> Prop :=
| M_eps s : rmatch len REps s s
| M_set p c s : cset_mem p c = true -> rmatch len (RSet p) (String c s) s
| M_cat a b s s1 s2 : rmatch len a s s1 -> rmatch len b s1 s2 -> rmatch len (RCat a b) s s2
| M_alt_l a b s s' : rmatch len a s s' -> rmatch len (RAlt a b) s s'
| M_alt_r a b s s' : rmatch len b s s' -> rmatch len (RAlt a b) s s'
| M_star_nil g a s : rmatch len (RStar g a) s s
| M_star_cons g a s s1 s2 :
    rmatch len a s s1 -> slen s1 < slen s ->
    rmatch len (RStar g a) s1 s2 -> rmatch len (RStar g a) s s2
| M_begin s : slen s = len -> rmatch len RBegin s s
| M_end : rmatch len REnd "" "".

(** Backtracking search in RE2's preference order; [k] is what remains to be
    matched.  An iteration of a star consumes at least one character, so the
    length of the text bounds the number of iterations. *)
Fixpoint bt {B} (len : nat) (r : re) (s : string) (k : string -> option B) {struct r} : option B :=
  match r with
  | REps => k s
  | RSet p => match s with
              | String c s' => if cset_mem p c then k s' else None
              | EmptyString => None
              end
  | RCat a b => bt len a s (fun s' => bt len b s' k)
  | RAlt a b => match bt len a s k with Some x => Some x | None => bt len b s k end
  | RStar greedy a =>
      (fix loop (n : nat) (s : string) {struct n} : option B :=
         match n with
         | O => k s
         | S n' =>
             let more := bt len a s (fun s' => if Nat.ltb (slen s') (slen s) then loop n' s' else None) in
             if greedy : bool
             then match more with Some x => Some x | None => k s end
             else match k s with Some x => Some x | None => more end
         end) (slen s) s
  | RBegin => if Nat.eqb (slen s) len then k s else None
  | REnd => match s with EmptyString => k s | _ => None end
  end.

(** Leftmost match: the text before it and the text after it. *)
Fixpoint find_from (r : re) (len : nat) (s : string) : option (string * string) :=
  match bt len r s Some with
  | Some rest => Some ("", rest)
  | None => match s with
            | EmptyString => None
            | String c s' => match find_from r len s' with
                             | Some (pre, rest) => Some (String c pre, rest)
                             | None => None
                             end
            end
  end.

(** ** Parsing *)

Definition is_punct (c : ascii) : bool :=
  let n := nat_of_ascii c in
  Nat.leb 33 n && Nat.leb n 47 || Nat.leb 58 n && Nat.leb n 64 ||
  Nat.leb 91 n && Nat.leb n 96 || Nat.leb 123 n && Nat.leb n 126.

(** The characters that are not literals outside a class. *)
Definition is_meta (c : ascii) : bool :=
  in_cutset "\.+*?()|[{^$" c.

(** An escape, as a set of characters. *)
Definition escape_set (c : ascii) : option cset :=
  if bool_decide (c = "d"%char) then Some (mkCset false digit_set)
  else if bool_decide (c = "D"%char) then Some (mkCset true digit_set)
  else if bool_decide (c = "w"%char) then Some (mkCset false word_set)
  else if bool_decide (c = "W"%char) then Some (mkCset true word_set)
  else if bool_decide (c = "s"%char) then Some (mkCset false space_set)
  else if bool_decide (c = "S"%char) then Some (mkCset true space_set)
  else if bool_decide (c = "n"%char) then Some (lit (ascii_of_nat 10))
  else if bool_decide (c = "r"%char) then Some (lit (ascii_of_nat 13))
  else if bool_decide (c = "t"%char) then Some (lit (ascii_of_nat 9))
  else if is_punct c then Some (lit c)
  else None.

(** One end of a range in a class. *)
Definition class_char (s : string) : option (nat * string) :=
  match s with
  | EmptyString => None
  | String c s' =>
      if bool_decide (c = "\"%char) then
        match s' with
        | String d s'' => if is_punct d then Some (nat_of_ascii d, s'') else None
        | EmptyString => None
        end
      else Some (nat_of_ascii c, s')
  end.

(** The members of a class, after [\[] and a possible [^]; [first] allows a
    leading [\]] as a literal. *)
Fixpoint parse_class (fuel : nat) (first : bool) (acc : list (nat * nat)) (s : string)
  : option (list (nat * nat) * string) :=
  match fuel with
  | O => None
  | S n =>
      match s with
      | EmptyString => None
      | String c s' =>
          if bool_decide (c = "]"%char) && negb first then Some (acc, s')
          else
            let esc := match s' with
                       | String d s'' =>
                           if bool_decide (c = "\"%char) then
                             match escape_set d with
                             | Some (mkCset false rs) =>
                                 if is_punct d then None else Some (rs, s'')
                             | _ => None
                             end
                           else None
                       | EmptyString => None
                       end in
            match esc with
            | Some (rs, s'') => parse_class n false (acc ++ rs) s''
            | None =>
                match class_char s with
                | None => None
                | Some (lo, s1) =>
                    match s1 with
                    | String d s2 =>
                        let closes := match s2 with String e _ => bool_decide (e = "]"%char) | _ => true end in
                        if bool_decide (d = "-"%char) && negb closes then
                          match class_char s2 with
                          | Some (hi, s3) =>
                              if Nat.ltb hi lo then None else parse_class n false (acc ++ [(lo, hi)]) s3
                          | None => None
                          end
                        else parse_class n false (acc ++ [(lo, lo)]) s1
                    | EmptyString => None
                    end
                end
            end
      end
  end.

Fixpoint rrep (n : nat) (r : re) : re :=
  match n with O => REps | S n' => RCat r (rrep n' r) end.
Definition ropt (greedy : bool) (r : re) : re := if greedy then RAlt r REps else RAlt REps r.
Fixpoint roptn (greedy : bool) (n : nat) (r : re) : re :=
  match n with O => REps | S n' => ropt greedy (RCat r (roptn greedy n' r)) end.

(** [{n}], [{n,}] and [{n,m}] after the brace: minimum and maximum. *)
Definition parse_count (s : string) : option (nat * option nat * string) :=
  let fix digits (s : string) : string * string :=
    match s with
    | String c s' => if is_digit_b c then let '(d, r) := digits s' in (String c d, r) else ("", s)
    | EmptyString => ("", "")
    end in
  let num d := match d with "" => None | _ => Z.to_nat <$> parse_digits 0 d end in
  let '(d1, s1) := digits s in
  match num d1 with
  | None => None
  | Some lo =>
      if HasPrefix s1 "}" then Some (lo, Some lo, str_drop 1 s1)
      else if HasPrefix s1 ",}" then Some (lo, None, str_drop 2 s1)
      else if HasPrefix s1 "," then
        let '(d2, s2) := digits (str_drop 1 s1) in
        match num d2 with
        | Some hi => if HasPrefix s2 "}" then Some (lo, Some hi, str_drop 1 s2) else None
        | None => None
        end
      else None
  end.

(** A repetition operator after an atom: the new expression and what follows.
    [None] is a syntax error (a second operator, or a count out of range). *)
Definition apply_op (r : re) (s : string) : option (re * string) :=
  let lazy_of s := if HasPrefix s "?" then (false, str_drop 1 s) else (true, s) in
  let no_more r s := match s with
                     | String c _ => if bool_decide (c = "*"%char) || bool_decide (c = "+"%char) ||
                                        bool_decide (c = "?"%char) then None else Some (r, s)
                     | EmptyString => Some (r, s)
                     end in
  match s with
  | EmptyString => Some (r, s)
  | String c s' =>
      if bool_decide (c = "*"%char) then
        let '(g, s1) := lazy_of s' in no_more (RStar g r) s1
      else if bool_decide (c = "+"%char) then
        let '(g, s1) := lazy_of s' in no_more (RCat r (RStar g r)) s1
      else if bool_decide (c = "?"%char) then
        let '(g, s1) := lazy_of s' in no_more (ropt g r) s1
      else if bool_decide (c = "{"%char) then
        match parse_count s' with
        | None => Some (r, s)
        | Some (lo, hi, s1) =>
            let '(g, s2) := lazy_of s1 in
            match hi with
            | None => if Nat.ltb 1000 lo then None else no_more (RCat (rrep lo r) (RStar g r)) s2
            | Some hi => if Nat.ltb 1000 hi || Nat.ltb hi lo then None
                         else no_more (RCat (rrep lo r) (roptn g (hi - lo) r)) s2
            end
        end
      else Some (r, s)
  end.

(** Alternation of concatenations, up to the end of the text or a [)]. *)
Fixpoint parse_alt (fuel : nat) (s : string) : option (re * string) :=
  match fuel with
  | O => None
  | S n =>
      match parse_concat n s with
      | None => None
      | Some (r, s1) =>
          match s1 with
          | String c s2 =>
              if bool_decide (c = "|"%char) then
                match parse_alt n s2 with
                | Some (r2, s3) => Some (RAlt r r2, s3)
                | None => None
                end
              else Some (r, s1)
          | EmptyString => Some (r, s1)
          end
      end
  end
with parse_concat (fuel : nat) (s : string) : option (re * string) :=
  match fuel with
  | O => None
  | S n =>
      match s with
      | EmptyString => Some (REps, "")
      | String c s' =>
          if bool_decide (c = "|"%char) || bool_decide (c = ")"%char) then Some (REps, s)
          else
            let atom :=
              if bool_decide (c = "."%char) then Some (RSet any_char, s')
              else if bool_decide (c = "^"%char) then Some (RBegin, s')
              else if bool_decide (c = "$"%char) then Some (REnd, s')
              else if bool_decide (c = "*"%char) || bool_decide (c = "+"%char) || bool_decide (c = "?"%char)
              then None
              else if bool_decide (c = "\"%char) then
                match s' with
                | String d s1 => match escape_set d with Some p => Some (RSet p, s1) | None => None end
                | EmptyString => None
                end
              else if bool_decide (c = "["%char) then
                let '(neg, s1) := if HasPrefix s' "^" then (true, str_drop 1 s') else (false, s') in
                match parse_class n true [] s1 with
                | Some (rs, s2) => Some (RSet (mkCset neg rs), s2)
                | None => None
                end
              else if bool_decide (c = "("%char) then
                let body := if HasPrefix s' "?:" then Some (str_drop 2 s')
                            else if HasPrefix s' "?" then None else Some s' in
                match body with
                | None => None
                | Some s1 =>
                    match parse_alt n s1 with
                    | Some (r, s2) => if HasPrefix s2 ")" then Some (r, str_drop 1 s2) else None
                    | None => None
                    end
                end
              else Some (RSet (lit c), s') in
            match atom with
            | None => None
            | Some (r, s1) =>
                match apply_op r s1 with
                | None => None
                | Some (r1, s2) =>
                    match parse_concat n s2 with
                    | Some (r2, s3) => Some (RCat r1 r2, s3)
                    | None => None
                    end
                end
            end
      end
  end.

(** [regexp.Compile] *)
Definition Compile (expr : string) : option re :=
  match parse_alt (2 * slen expr + 2) expr with
  | Some (r, "") => Some r
  | _ => None
  end.

(** ** The API *)

Definition re_match (r : re) (s : string) : bool :=
  match find_from r (slen s) s with Some _ => true | None => false end.

(** [regexp.MatchString]: [None] is the compile error. *)
Definition MatchString (pattern s : string) : option bool :=
  match Compile pattern with Some r => Some (re_match r s) | None => None end.

(** The callers drop the error: [if m, _ := regexp.MatchString(..); m]. *)
Definition MatchString_ok (pattern s : string) : bool := default false (MatchString pattern s).

(** [Regexp.FindString]: the leftmost match, [""] when there is none. *)
Definition FindString (r : re) (s : string) : string :=
  match find_from r (slen s) s with
  | Some (pre, rest) => str_take (slen s - slen pre - slen rest) (str_drop (slen pre) s)
  | None => ""
  end.

(** [Regexp.ReplaceAllString] for a replacement without [$].  [fresh] says that
    the last match ended here, where an empty match is then not taken again. *)
Fixpoint replace_all (fuel : nat) (r : re) (repl : string) (len : nat) (fresh : bool) (s : string) : string :=
  match fuel with
  | O => s
  | S n =>
      match bt len r s Some with
      | Some rest =>
          if Nat.eqb (slen rest) (slen s) then
            let here := if fresh then "" else repl in
            match s with
            | EmptyString => here
            | String c s' => here +:+ String c (replace_all n r repl len false s')
            end
          else repl +:+ replace_all n r repl len true rest
      | None => match s with
                | EmptyString => ""
                | String c s' => String c (replace_all n r repl len false s')
                end
      end
  end.

Definition ReplaceAllString (r : re) (src repl : string) : string :=
  replace_all (S (slen src)) r repl (slen src) false src.

(** ** The matcher decides [rmatch] *)

#[local] Hint Constructors rmatch : core.

Lemma rmatch_length len r s s' : rmatch len r s s' -> slen s' <= slen s.
Proof. induction 1; simpl; lia. Qed.

(** The loop of [bt (RStar ..)] as a definition of its own. *)
Section star_loop.
Context {B : Type} (len : nat) (a : re) (k : string -> option B) (greedy : bool).
Fixpoint star_loop (n : nat) (s : string) : option B :=
  match n with
  | O => k s
  | S n' =>
      let more := bt len a s (fun s' => if Nat.ltb (slen s') (slen s) then star_loop n' s' else None) in
      if greedy
      then match more with Some x => Some x | None => k s end
      else match k s with Some x => Some x | None => more end
  end.
End star_loop.

Lemma bt_star {B} len g a s (k : string -> option B) :
  bt len (RStar g a) s k = star_loop len a k g (slen s) s.
Proof. reflexivity. Qed.

(** What the two directions say of an expression [a], for every continuation. *)
Definition bt_sound_for (B : Type) len a := forall (k : string -> option B) s y,
  bt len a s k = Some y -> exists s', rmatch len a s s' /\ k s' = Some y.
Definition bt_complete_for (B : Type) len a := forall (k : string -> option B) s s',
  rmatch len a s s' -> k s' <> None -> bt len a s k <> None.

Lemma star_loop_sound {B} len g a (k : string -> option B) n s x :
  bt_sound_for B len a -> star_loop len a k g n s = Some x ->
  exists s', rmatch len (RStar g a) s s' /\ k s' = Some x.
Proof.
  intros IHa. revert s x. induction n as [|n IH]; intros s x; cbn [star_loop]; [eauto|].
  assert (forall y, bt len a s (fun s' => if Nat.ltb (slen s') (slen s)
                                  then star_loop len a k g n s' else None) = Some y ->
          exists s', rmatch len (RStar g a) s s' /\ k s' = Some y) as Hm.
  { intros y (s1 & Hm & Hk)%IHa. destruct (Nat.ltb_spec (slen s1) (slen s)); [|done].
    apply IH in Hk as (s2 & ? & ?). eauto. }
  destruct g; case_goal; intros; simplify_eq; eauto.
Qed.

Lemma star_loop_complete {B} len g a (k : string -> option B) n s s' :
  bt_complete_for B len a -> slen s <= n -> rmatch len (RStar g a) s s' ->
  k s' <> None -> star_loop len a k g n s <> None.
Proof.
  intros IHa Hn Hm Hk. revert s Hn Hm. induction n as [|n IH]; intros s Hn Hm; cbn [star_loop].
  - inversion Hm as [| | | | |? ? ?|? ? ? s1 ? ? Hlt| |]; subst; [done|lia].
  - inversion Hm as [| | | | |? ? ?|? ? ? s1 ? Ha Hlt Hs| |]; subst.
    + destruct g; [|by destruct (k s')]. by case_goal.
    + assert (bt len a s (fun s' => if Nat.ltb (slen s') (slen s)
                            then star_loop len a k g n s' else None) <> None) as Hne.
      { apply (IHa _ s s1 Ha). rewrite (proj2 (Nat.ltb_lt _ _) Hlt). apply IH; [lia|done]. }
      destruct g; [by case_goal|]. by destruct (k s).
Qed.

Lemma bt_sound {B} len r : bt_sound_for B len r.
Proof.
  induction r as [|p|a IHa b IHb|a IHa b IHb|g a IHa| |]; intros k s y; try rewrite bt_star; cbn [bt].
  - eauto.
  - destruct s as [|c s]; [done|]. destruct (cset_mem p c) eqn:E; [eauto|done].
  - intros (s1 & H1 & (s2 & H2 & H3)%IHb)%IHa. eauto.
  - destruct (bt len a s k) eqn:E; intros; simplify_eq;
      [apply IHa in E as (? & ? & ?)|apply IHb in H as (? & ? & ?)]; eauto.
  - by apply star_loop_sound.
  - destruct (Nat.eqb_spec (slen s) len); [eauto|done].
  - destruct s; [eauto|done].
Qed.

Lemma bt_complete {B} len r : bt_complete_for B len r.
Proof.
  induction r as [|p|a IHa b IHb|a IHa b IHb|g a IHa| |]; intros k s s' Hm Hk;
    try rewrite bt_star; cbn [bt].
  - by inversion Hm; subst.
  - inversion Hm as [|? ? ? Hp| | | | | | |]; subst. by rewrite Hp.
  - inversion Hm as [| |? ? ? s1 ? Ha Hb| | | | | |]; subst.
    apply (IHa _ s s1 Ha). by apply (IHb _ s1 s').
  - inversion Hm as [| | |? ? ? ? Ha|? ? ? ? Hb| | | |]; subst.
    + pose proof (IHa k s s' Ha Hk). by destruct (bt len a s k).
    + destruct (bt len a s k); [done|]. by apply (IHb k s s').
  - by apply (star_loop_complete len g a k (slen s) s s').
  - inversion Hm; subst. by rewrite Nat.eqb_refl.
  - by inversion Hm; subst.
Qed.

(** A text matches when some substring of it does. *)
Definition matches (r : re) (s : string) : Prop :=
  exists pre mid rest, s = pre +:+ mid /\ rmatch (slen s) r mid rest.

Lemma find_from_Some r len s :
  find_from r len s <> None <-> exists pre mid rest, s = pre +:+ mid /\ rmatch len r mid rest.
Proof.
  induction s as [|c s IH]; cbn [find_from].
  - destruct (bt len r "" Some) eqn:E.
    + split; [intros _|done]. apply bt_sound in E as (s' & Hm & _). exists "", "", s'. done.
    + split; [done|]. intros (pre & mid & rest & Hs & Hm). exfalso.
      destruct pre; [|done]. simpl in Hs. subst mid.
      by apply (bt_complete len r Some "" rest Hm).
  - destruct (bt len r (String c s) Some) eqn:E.
    + split; [intros _|done]. apply bt_sound in E as (s' & Hm & _). exists "", (String c s), s'. done.
    + assert ((match find_from r len s with
               | Some (pre, rest) => Some (String c pre, rest) | None => None end) <> None <->
              find_from r len s <> None) as -> by (destruct (find_from r len s) as [[]|]; split; congruence).
      rewrite IH. split.
      * intros (pre & mid & rest & -> & Hm). by exists (String c pre), mid, rest.
      * intros (pre & mid & rest & Hs & Hm). destruct pre as [|d pre]; simpl in Hs.
        -- subst mid. by destruct (bt_complete len r Some _ rest Hm).
        -- injection Hs as -> ->. eauto.
Qed.

(** [re_match] decides whether an expression occurs in a text. *)
Lemma re_match_iff r s : re_match r s = true <-> matches r s.
Proof.
  unfold re_match, matches. rewrite <-find_from_Some.
  destruct (find_from r (slen s) s); split; congruence.
Qed.

(** ** Literal texts followed by a wildcard *)

(** The expression of a literal text. *)
Fixpoint lits (s : string) (tail : re) : re :=
  match s with EmptyString => tail | String c s' => RCat (RSet (lit c)) (lits s' tail) end.

Definition plain (s : string) : bool := str_forall (fun c => negb (is_meta c)) s.

Definition dotstar : re := RCat (RStar true (RSet any_char)) REps.

Lemma cset_mem_lit c d : cset_mem (lit c) d = bool_decide (c = d).
Proof.
  unfold cset_mem, lit. cbn. rewrite orb_false_r. case_bool_decide as H.
  - subst. by rewrite Nat.leb_refl.
  - apply andb_false_iff. rewrite !Nat.leb_gt. destruct (Nat.lt_trichotomy (nat_of_ascii c) (nat_of_ascii d)) as [?|[E|?]]; auto.
    destruct H. rewrite <-(ascii_nat_embedding c), <-(ascii_nat_embedding d). by rewrite E.
Qed.

Lemma rmatch_lits len q tail s rest :
  rmatch len (lits q tail) s rest <-> exists t, s = q +:+ t /\ rmatch len tail t rest.
Proof.
  revert s. induction q as [|c q IH]; intros s; cbn [lits].
  - split; [by exists s|]. by intros (t & -> & H).
  - split.
    + intros Hm. inversion Hm as [| |? ? ? s1 ? Ha Hb| | | | | |]; subst.
      inversion Ha as [|? d ? Hd| | | | | | |]; subst. rewrite cset_mem_lit in Hd. bool_prop. subst.
      apply IH in Hb as (t & -> & Ht). by exists t.
    + intros (t & -> & Ht). apply (M_cat _ _ _ _ (q +:+ t)); [|apply IH; eauto].
      apply M_set. rewrite cset_mem_lit. by apply bool_decide_eq_true.
Qed.

Lemma rmatch_dotstar len t : rmatch len dotstar t t.
Proof. apply (M_cat _ _ _ _ t); auto. Qed.

Lemma matches_lits_dotstar q s : matches (lits q dotstar) s <-> Contains s q = true.
Proof.
  rewrite Contains_spec. unfold matches. split.
  - intros (pre & mid & rest & -> & (t & -> & _)%rmatch_lits). eauto.
  - intros (a & b & ->). exists a, (q +:+ b), b. split; [done|].
    apply rmatch_lits. eauto using rmatch_dotstar.
Qed.

Lemma not_meta_dec c :
  is_meta c = false ->
  Forall (fun d => bool_decide (c = d) = false)
    ["|"; ")"; "."; "^"; "$"; "*"; "+"; "?"; "\"; "["; "("; "{"]%char.
Proof.
  unfold is_meta, in_cutset. intros H.
  repeat (constructor; [apply bool_decide_eq_false; intros ->; by vm_compute in H|]). constructor.
Qed.

Lemma apply_op_none r s :
  match s with EmptyString => true | String c _ => negb (is_meta c) || bool_decide (c = "."%char) end = true ->
  apply_op r s = Some (r, s).
Proof.
  destruct s as [|c s]; [done|]. intros H. apply orb_true_iff in H as [H|H]; bool_prop; [|by subst].
  apply not_meta_dec in H. rewrite Forall_forall in H. unfold apply_op.
  rewrite !H by set_solver. done.
Qed.

Lemma parse_concat_dotstar n : 3 <= n -> parse_concat n ".*" = Some (dotstar, "").
Proof. intros. do 3 (destruct n as [|n]; [lia|]). reflexivity. Qed.

Lemma parse_concat_lits n q :
  plain q = true -> slen q + 3 <= n -> parse_concat n (q +:+ ".*") = Some (lits q dotstar, "").
Proof.
  revert n. induction q as [|c q IH]; intros n Hp Hn; [by apply parse_concat_dotstar|].
  cbn [plain str_forall] in Hp. apply andb_true_iff in Hp as [Hc Hq].
  simpl in Hn. destruct n as [|n]; [lia|]. specialize (IH n Hq ltac:(lia)).
  apply negb_true_iff, not_meta_dec in Hc. rewrite Forall_forall in Hc.
  cbn [parse_concat String.append lits]. rewrite !Hc by set_solver. cbn [orb].
  rewrite apply_op_none; [by rewrite IH|].
  destruct q as [|d q]; [done|]. cbn [plain str_forall] in Hq.
  apply andb_true_iff in Hq as [Hd _]. cbn [String.append]. by rewrite Hd.
Qed.

(** [q ++ ".*"] for a text without metacharacters is an unanchored substring
    test: the trailing wildcard adds nothing. *)
Lemma MatchString_plain_star q s :
  plain q = true -> MatchString_ok (q +:+ ".*") s = Contains s q.
Proof.
  intros Hp. unfold MatchString_ok, MatchString, Compile. rewrite slen_app.
  replace (2 * (slen q + slen ".*") + 2) with (S (2 * slen q + 5)) by (simpl; lia).
  cbn [parse_alt]. rewrite parse_concat_lits by (done || lia). cbn [default from_option].
  apply eq_true_iff_eq. unfold id. rewrite re_match_iff. apply matches_lits_dotstar.
Qed.
