(* ===== verification/GoJson.v ===== *)
(** * The part of Go's [encoding/json] that the shield uses

    Decoding a document into an [interface{}] tree, and printing strings and
    string maps.  Numbers become IEEE doubles, as Go's decoder makes them
    ([SpecFloat] with 53 bits of precision); negative zero is read as zero.
    Documents are taken to be UTF-8, as the API server sends them. *)
From S2P Require Import Prelude GoStrings.
From Stdlib Require Import SpecFloat.
From stdpp Require Import options.

(** ** Values *)

(** A leaf [interface{}]: [bool], [float64] or [string]. *)
Inductive scalar := SBool (b : bool) | SNum (f : spec_float) | SStr (s : string).

#[global] Instance spec_float_eq_dec : EqDecision spec_float.
Proof. solve_decision. Defined.
#[global] Instance scalar_eq_dec : EqDecision scalar.
Proof. solve_decision. Defined.

(** An [interface{}] tree.  A Go map is the list of its entries in the order a
    [range] loop visits them; every statement below holds for any order. *)
Inductive value :=
| VNull
| VScalar (s : scalar)
| VArr (l : list value)
| VObj (m : list (string * value)).

(** Storing into a Go map: an existing key keeps its place. *)
Fixpoint obj_set {A} (m : list (string * A)) (k : string) (v : A) : list (string * A) :=
  match m with
  | [] => [(k, v)]
  | (k', v') :: m' => if bool_decide (k = k') then (k, v) :: m' else (k', v') :: obj_set m' k v
  end.

(** ** Scanner *)

Definition ch (n : nat) : ascii := ascii_of_nat n.
Definition dquote : ascii := ch 34.
Definition backslash : ascii := ch 92.

Definition json_ws (c : ascii) : bool :=
  let n := nat_of_ascii c in Nat.eqb n 32 || Nat.eqb n 9 || Nat.eqb n 10 || Nat.eqb n 13.

Definition skip_ws (s : string) : string := trim_left_p json_ws s.

(** UTF-8 encoding of a code point. *)
Definition utf8 (cp : Z) : string :=
  let b z := ascii_of_nat (Z.to_nat z) in
  if Z.ltb cp 128 then String (b cp) ""
  else if Z.ltb cp 2048 then
    String (b (192 + cp / 64)%Z) (String (b (128 + cp mod 64)%Z) "")
  else if Z.ltb cp 65536 then
    String (b (224 + cp / 4096)%Z) (String (b (128 + (cp / 64) mod 64)%Z)
      (String (b (128 + cp mod 64)%Z) ""))
  else
    String (b (240 + cp / 262144)%Z) (String (b (128 + (cp / 4096) mod 64)%Z)
      (String (b (128 + (cp / 64) mod 64)%Z) (String (b (128 + cp mod 64)%Z) ""))).

Definition hex4 (a b c d : ascii) : option Z :=
  match hex_val a, hex_val b, hex_val c, hex_val d with
  | Some a, Some b, Some c, Some d => Some (((a * 16 + b) * 16 + c) * 16 + d)%Z
  | _, _, _, _ => None
  end.

Definition is_high_surrogate (z : Z) : bool := (Z.leb 55296 z && Z.leb z 56319)%bool.
Definition is_low_surrogate (z : Z) : bool := (Z.leb 56320 z && Z.leb z 57343)%bool.

Definition simple_escape (e : ascii) : option ascii :=
  let n := nat_of_ascii e in
  if Nat.eqb n 34 || Nat.eqb n 92 || Nat.eqb n 47 then Some e
  else if Nat.eqb n 98 then Some (ch 8)
  else if Nat.eqb n 102 then Some (ch 12)
  else if Nat.eqb n 110 then Some (ch 10)
  else if Nat.eqb n 114 then Some (ch 13)
  else if Nat.eqb n 116 then Some (ch 9)
  else None.

Definition cons_str (p : string) (r : option (string * string)) : option (string * string) :=
  match r with Some (t, rest) => Some (p +:+ t, rest) | None => None end.

(** The body of a string literal, after the opening quote. *)
Fixpoint parse_str (s : string) : option (string * string) :=
  match s with
  | EmptyString => None
  | String c s' =>
      if bool_decide (c = dquote) then Some ("", s')
      else if Nat.ltb (nat_of_ascii c) 32 then None
      else if bool_decide (c = backslash) then
        match s' with
        | EmptyString => None
        | String e s1 =>
            if Nat.eqb (nat_of_ascii e) 117 then
              match s1 with
              | String a (String b (String c (String d s2))) =>
                  match hex4 a b c d with
                  | None => None
                  | Some hi =>
                      if is_high_surrogate hi then
                        match s2 with
                        | String bs (String u (String a' (String b' (String c' (String d' s3))))) =>
                            match hex4 a' b' c' d' with
                            | Some lo =>
                                if bool_decide (bs = backslash) && Nat.eqb (nat_of_ascii u) 117 &&
                                   is_low_surrogate lo
                                then cons_str (utf8 (65536 + (hi - 55296) * 1024 + (lo - 56320))%Z)
                                       (parse_str s3)
                                else cons_str (utf8 65533) (parse_str s2)
                            | None => cons_str (utf8 65533) (parse_str s2)
                            end
                        | _ => cons_str (utf8 65533) (parse_str s2)
                        end
                      else if is_low_surrogate hi then cons_str (utf8 65533) (parse_str s2)
                      else cons_str (utf8 hi) (parse_str s2)
                  end
              | _ => None
              end
            else match simple_escape e with
                 | Some x => cons_str (String x "") (parse_str s1)
                 | None => None
                 end
        end
      else cons_str (String c "") (parse_str s')
  end.

(** ** Numbers *)

Fixpoint take_digits (s : string) : string * string :=
  match s with
  | String c s' => if is_digit_b c then let '(d, r) := take_digits s' in (String c d, r) else ("", s)
  | EmptyString => ("", "")
  end.

(** [strconv.ParseFloat] to the nearest double of [m * 10^e]; [None] when the
    magnitude overflows. *)
Definition decimal_to_float (neg : bool) (m e : Z) (ndigits : nat) : option spec_float :=
  if Z.eqb m 0 then Some (S754_zero false)
  else if Z.ltb 400 (Z.of_nat ndigits + e) then None
  else if Z.ltb (Z.of_nat ndigits + e) (-400) then Some (S754_zero false)
  else
    let f :=
      if Z.leb 0 e then binary_normalize 53 1024 (if neg then - (m * 10 ^ e) else m * 10 ^ e)%Z 0 false
      else match m, (10 ^ (- e))%Z with
           | Zpos m', Zpos d => SFdiv 53 1024 (S754_finite neg m' 0) (S754_finite false d 0)
           | _, _ => S754_zero false
           end in
    match f with
    | S754_infinity _ => None
    | S754_zero _ => Some (S754_zero false)
    | _ => Some f
    end.

(** The exponent part: [e], an optional sign, digits. *)
Definition parse_exp (s : string) : option (Z * string) :=
  match s with
  | String c s1 =>
      if bool_decide (c = ch 101) || bool_decide (c = ch 69) then
        let '(neg, s2) := match s1 with
                          | String x s' => if bool_decide (x = ch 45) then (true, s')
                                           else if bool_decide (x = ch 43) then (false, s') else (false, s1)
                          | EmptyString => (false, s1)
                          end in
        let '(d, r) := take_digits s2 in
        match d with
        | EmptyString => None
        | _ => match parse_digits 0 d with
               | Some v => Some ((if neg : bool then - v else v)%Z, r)
               | None => None
               end
        end
      else Some (0%Z, s)
  | EmptyString => Some (0%Z, s)
  end.

(** The fraction part: a dot and at least one digit. *)
Definition parse_frac (s : string) : option (string * string) :=
  match s with
  | String c s1 =>
      if bool_decide (c = ch 46) then
        let '(d, r) := take_digits s1 in
        match d with EmptyString => None | _ => Some (d, r) end
      else Some ("", s)
  | EmptyString => Some ("", s)
  end.

Definition parse_number (s : string) : option (spec_float * string) :=
  let '(neg, s0) := match s with
                    | String c s' => if bool_decide (c = ch 45) then (true, s') else (false, s)
                    | EmptyString => (false, s)
                    end in
  let '(ip, s1) := take_digits s0 in
  let leading_zero := match ip with
                      | String c (String _ _) => bool_decide (c = ch 48)
                      | _ => false
                      end in
  match ip with
  | EmptyString => None
  | _ =>
      if leading_zero then None
      else match parse_frac s1 with
           | None => None
           | Some (fp, s2) =>
               match parse_exp s2 with
               | None => None
               | Some (e, s3) =>
                   match parse_digits 0 (ip +:+ fp) with
                   | None => None
                   | Some m =>
                       match decimal_to_float neg m (e - Z.of_nat (slen fp)) (slen (ip +:+ fp)) with
                       | Some f => Some (f, s3)
                       | None => None
                       end
                   end
               end
           end
  end.

(** ** Documents *)

(** One value; [fuel] bounds the number of values, members and elements, and
    twice the length of the text is always enough: a bracket opens a list and its
    first element, every other step reads a character. *)
Fixpoint parse_value (fuel : nat) (s : string) : option (value * string) :=
  match fuel with
  | O => None
  | S n =>
      match skip_ws s with
      | EmptyString => None
      | String c s' =>
          if bool_decide (c = dquote) then
            match parse_str s' with Some (t, r) => Some (VScalar (SStr t), r) | None => None end
          else if bool_decide (c = ch 123) then
            match skip_ws s' with
            | String d r => if bool_decide (d = ch 125) then Some (VObj [], r)
                            else parse_members n [] s'
            | EmptyString => None
            end
          else if bool_decide (c = ch 91) then
            match skip_ws s' with
            | String d r => if bool_decide (d = ch 93) then Some (VArr [], r)
                            else parse_elems n [] s'
            | EmptyString => None
            end
          else if HasPrefix (String c s') "true" then Some (VScalar (SBool true), str_drop 4 (String c s'))
          else if HasPrefix (String c s') "false" then Some (VScalar (SBool false), str_drop 5 (String c s'))
          else if HasPrefix (String c s') "null" then Some (VNull, str_drop 4 (String c s'))
          else match parse_number (String c s') with
               | Some (f, r) => Some (VScalar (SNum f), r)
               | None => None
               end
      end
  end
with parse_members (fuel : nat) (acc : list (string * value)) (s : string) : option (value * string) :=
  match fuel with
  | O => None
  | S n =>
      match skip_ws s with
      | String c s1 =>
          if bool_decide (c = dquote) then
            match parse_str s1 with
            | None => None
            | Some (k, s2) =>
                match skip_ws s2 with
                | String d s3 =>
                    if bool_decide (d = ch 58) then
                      match parse_value n s3 with
                      | None => None
                      | Some (v, s4) =>
                          match skip_ws s4 with
                          | String e s5 =>
                              if bool_decide (e = ch 44) then parse_members n (obj_set acc k v) s5
                              else if bool_decide (e = ch 125) then Some (VObj (obj_set acc k v), s5)
                              else None
                          | EmptyString => None
                          end
                      end
                    else None
                | EmptyString => None
                end
            end
          else None
      | EmptyString => None
      end
  end
with parse_elems (fuel : nat) (acc : list value) (s : string) : option (value * string) :=
  match fuel with
  | O => None
  | S n =>
      match parse_value n s with
      | None => None
      | Some (v, s1) =>
          match skip_ws s1 with
          | String e s2 =>
              if bool_decide (e = ch 44) then parse_elems n (acc ++ [v]) s2
              else if bool_decide (e = ch 93) then Some (VArr (acc ++ [v]), s2)
              else None
          | EmptyString => None
          end
      end
  end.

(** [json.Unmarshal] into an [interface{}]: one value and nothing after it. *)
Definition Unmarshal (s : string) : option value :=
  match parse_value (2 * slen s + 2) s with
  | Some (v, r) => if bool_decide (skip_ws r = "") then Some v else None
  | None => None
  end.

(** [json.Unmarshal] into a [map\[string\]interface{}]: [null] leaves the map
    nil, every other non-object is an error. *)
Definition UnmarshalMap (s : string) : option (list (string * value)) :=
  match Unmarshal s with
  | Some (VObj m) => Some m
  | Some VNull => Some []
  | _ => None
  end.

(** ** Printing *)

Definition hex_char (n : nat) : ascii :=
  if Nat.ltb n 10 then ascii_of_nat (48 + n) else ascii_of_nat (87 + n).

(** One byte of a string literal, with Go's default HTML escaping. *)
Definition escape_char (c : ascii) : string :=
  let n := nat_of_ascii c in
  if Nat.eqb n 34 then String backslash (String dquote "")
  else if Nat.eqb n 92 then String backslash (String backslash "")
  else if Nat.eqb n 10 then String backslash "n"
  else if Nat.eqb n 13 then String backslash "r"
  else if Nat.eqb n 9 then String backslash "t"
  else if Nat.ltb n 32 || Nat.eqb n 60 || Nat.eqb n 62 || Nat.eqb n 38 then
    String backslash ("u00" +:+ String (hex_char (n `div` 16)) (String (hex_char (n `mod` 16)) ""))
  else String c "".

Fixpoint escape_str (s : string) : string :=
  match s with EmptyString => "" | String c s' => escape_char c +:+ escape_str s' end.

Definition marshal_str (s : string) : string :=
  String dquote (escape_str s +:+ String dquote "").

(** [json.Marshal] of a [map\[string\]string] whose keys are listed in order. *)
Definition marshal_strmap (m : list (string * string)) : string :=
  "{" +:+ Join ((fun kv => marshal_str (kv.1) +:+ ":" +:+ marshal_str (kv.2)) <$> m) "," +:+ "}".
