(* ===== verification/Pattern.v ===== *)
(** * Pattern functions  ([shield/pkg/common/pattern.go])

    The wildcard language every rule of the shield is written in: profile
    rules, ignore rules, namespace selectors, signer subjects and admin names
    all end in [MatchPattern]. *)
From S2P Require Import Prelude GoStrings.
From stdpp Require Import options.

(** ** Operations *)

(** [SplitRule]: the comma-separated entries, each trimmed. *)
Definition SplitRule (rules : string) : list string := TrimSpace <$> Split rules ",".

(** [MatchPattern] calls [MatchWithPatternArray] on the entries of a comma list,
    which calls [MatchPattern] again.  [fuel] bounds that mutual recursion;
    [MatchPattern_unfold] below shows two rounds are always enough. *)
Fixpoint MatchPattern_fuel (fuel : nat) (pattern value : string) : bool :=
  match fuel with
  | O => false
  | S n =>
      let pattern := TrimSpace pattern in
      if bool_decide (pattern = "") then true
      else if bool_decide (pattern = "*") then true
      else if bool_decide (pattern = "-") && bool_decide (value = "") then true
      else if HasSuffix pattern "*" then HasPrefix value (TrimRight pattern "*")
      else if bool_decide (pattern = value) then true
      else if Contains pattern "," then
        existsb (fun p => MatchPattern_fuel n p value) (SplitRule pattern)
      else false
  end.

Definition MatchPattern (pattern value : string) : bool := MatchPattern_fuel 2 pattern value.

Definition ExactMatch (pattern value : string) : bool := bool_decide (pattern = value).

Definition ExactMatchWithPatternArray (value : string) (patternArray : list string) : bool :=
  existsb (fun pattern => ExactMatch pattern value) patternArray.

(** The body of both loops of [GetUnionOfArrays]. *)
Definition union_step (newArray : list string) (val : string) : list string :=
  if ExactMatchWithPatternArray val newArray then newArray else newArray ++ [val].

Definition GetUnionOfArrays (array1 array2 : list string) : list string :=
  foldl union_step (foldl union_step [] array1) array2.

Definition MatchPatternWithArray (pattern : string) (valueArray : list string) : bool :=
  existsb (fun value => MatchPattern pattern value) valueArray.

Definition MatchWithPatternArray (value : string) (patternArray : list string) : bool :=
  existsb (fun pattern => MatchPattern pattern value) patternArray.

(** [big.Int.SetString(a, 16)] as [math/big] leaves the receiver: an optional
    sign and the longest run of hexadecimal digits, whatever follows. *)
Fixpoint scan_hex (acc : Z) (s : string) : Z :=
  match s with
  | EmptyString => acc
  | String c s' => match hex_val c with
                   | Some d => scan_hex (16 * acc + d) s'
                   | None => acc
                   end
  end.

Definition SetString16 (a : string) : Z :=
  match a with
  | String "-" s => (- scan_hex 0 s)%Z
  | String "+" s => scan_hex 0 s
  | _ => scan_hex 0 a
  end.

Definition pattern2BigInt (pattern : string) : Z := SetString16 (ReplaceAll pattern ":" "").

(** [big.Int.Int64]: the low 64 bits of the magnitude as a signed word, then
    the sign. *)
Definition int64_of (z : Z) : Z :=
  let low := (Z.abs z mod 2 ^ 64)%Z in
  let v := if Z.ltb low (2 ^ 63) then low else (low - 2 ^ 64)%Z in
  if Z.ltb z 0 then (if Z.eqb v int64_min then v else - v)%Z else v.

(** [MatchBigInt]; a nil [value] is [None], and reading it panics. *)
Definition MatchBigInt (pattern : string) (value : option Z) : go bool :=
  let pattern := TrimSpace pattern in
  if bool_decide (pattern = "") then Ret true
  else if bool_decide (pattern = "*") then Ret true
  else if bool_decide (pattern = "-") && bool_decide (value = None) then Ret true
  else if Contains pattern ":" then
    match value with
    | None => Panic
    | Some v => Ret (Z.eqb (pattern2BigInt pattern) v)
    end
  else match Atoi pattern with
       | Some i => match value with
                   | None => Panic
                   | Some v => Ret (Z.eqb i (int64_of v))
                   end
       | None => Ret false
       end.

(** ** [MatchPattern]: the recursion, and what a pattern denotes *)

Lemma no_comma_once n q value :
  Contains q "," = false -> MatchPattern_fuel (S n) q value = MatchPattern_fuel 1 q value.
Proof.
  intros H. cbn [MatchPattern_fuel].
  assert (Contains (TrimSpace q) "," = false) as ->; [|done].
  rewrite Contains_char in *. apply negb_false_iff.
  apply str_forall_TrimSpace. by apply negb_false_iff.
Qed.

Lemma SplitRule_no_comma p q : q ∈ SplitRule p -> Contains q "," = false.
Proof.
  unfold SplitRule. intros (s & -> & Hs)%list_elem_of_fmap.
  rewrite Contains_char. apply negb_false_iff, str_forall_TrimSpace. by apply Split_no_sep in Hs.
Qed.

Lemma existsb_ext_in {A} (p q : A -> bool) (l : list A) :
  (forall x, x ∈ l -> p x = q x) -> existsb p l = existsb q l.
Proof.
  induction l as [|x l IH]; intros H; cbn; [done|].
  rewrite (H x) by left. f_equal. apply IH. intros y Hy. apply H. by right.
Qed.

Lemma split_rounds n pattern value :
  existsb (fun p => MatchPattern_fuel (S n) p value) (SplitRule pattern) =
  existsb (fun p => MatchPattern_fuel 1 p value) (SplitRule pattern).
Proof.
  apply existsb_ext_in. intros q Hq. apply no_comma_once. by eapply SplitRule_no_comma.
Qed.

(** The source equation of [MatchPattern]: the fuel is invisible. *)
Lemma MatchPattern_unfold pattern value :
  MatchPattern pattern value =
  let pattern := TrimSpace pattern in
  if bool_decide (pattern = "") then true
  else if bool_decide (pattern = "*") then true
  else if bool_decide (pattern = "-") && bool_decide (value = "") then true
  else if HasSuffix pattern "*" then HasPrefix value (TrimRight pattern "*")
  else if bool_decide (pattern = value) then true
  else if Contains pattern "," then MatchWithPatternArray value (SplitRule pattern)
  else false.
Proof.
  unfold MatchPattern at 1, MatchWithPatternArray. unfold MatchPattern.
  rewrite split_rounds. done.
Qed.

(** What a pattern denotes, read off the documentation: a set of values. *)
Inductive denotes : string -> string -> Prop :=
| D_any p v : TrimSpace p = "" \/ TrimSpace p = "*" -> denotes p v
| D_empty p : TrimSpace p = "-" -> denotes p ""
| D_prefix p v r :
    HasSuffix (TrimSpace p) "*" = true -> v = TrimRight (TrimSpace p) "*" +:+ r -> denotes p v
| D_exact p v : TrimSpace p = v -> denotes p v
| D_entry p q v :
    HasSuffix (TrimSpace p) "*" = false -> Contains (TrimSpace p) "," = true ->
    q ∈ Split (TrimSpace p) "," -> denotes q v -> denotes p v.

Lemma trim_star_prefix p : HasPrefix p (TrimRight p "*") = true.
Proof.
  unfold TrimRight. destruct (trim_right_p_decomp (in_cutset "*") p) as (t & Ht & _).
  rewrite Ht at 1. apply HasPrefix_app.
Qed.

Lemma MatchPattern_TrimSpace p v : MatchPattern (TrimSpace p) v = MatchPattern p v.
Proof. rewrite !MatchPattern_unfold, TrimSpace_idem. done. Qed.

Lemma MatchPattern_complete p v : denotes p v -> MatchPattern p v = true.
Proof.
  induction 1 as [p v H|p H|p v r Hs Hv|p v H|p q v Hs Hc Hq _ IH];
    rewrite MatchPattern_unfold; cbv zeta.
  - destruct H as [-> | ->]; by repeat case_bool_decide.
  - rewrite H. done.
  - subst v. rewrite Hs. repeat case_bool_decide; try done; simpl; apply HasPrefix_app.
  - subst v. destruct (HasSuffix (TrimSpace p) "*").
    + repeat case_bool_decide; try done; simpl; apply trim_star_prefix.
    + rewrite (bool_decide_eq_true_2 (TrimSpace p = TrimSpace p)) by done.
      by repeat case_bool_decide.
  - rewrite Hs, Hc. repeat case_bool_decide; try done; simpl.
    all: apply existsb_true; exists (TrimSpace q); split;
      [by apply list_elem_of_fmap_2 | by rewrite MatchPattern_TrimSpace].
Qed.

Lemma denotes_TrimSpace s v : denotes (TrimSpace s) v -> denotes s v.
Proof.
  intros Hd. inversion Hd as [? ? H|? H|? ? ? H|? ? H|? ? ? H]; subst;
    rewrite TrimSpace_idem in *;
    [by apply D_any|by apply D_empty|by eapply D_prefix|by apply D_exact|by eapply D_entry].
Qed.

Lemma MatchPattern_sound_fuel n p v : MatchPattern_fuel n p v = true -> denotes p v.
Proof.
  revert p. induction n as [|n IH]; intros p; [done|]. cbn [MatchPattern_fuel]. cbv zeta.
  destruct (bool_decide_reflect (TrimSpace p = "")); [by constructor; left|].
  destruct (bool_decide_reflect (TrimSpace p = "*")); [by constructor; right|].
  destruct (bool_decide (TrimSpace p = "-") && bool_decide (v = "")) eqn:Ed.
  { bool_prop. subst. by constructor. }
  destruct (HasSuffix (TrimSpace p) "*") eqn:Es.
  { intros [r Hr]%HasPrefix_spec. by eapply D_prefix. }
  destruct (bool_decide_reflect (TrimSpace p = v)); [intros _; by apply D_exact|].
  destruct (Contains (TrimSpace p) ",") eqn:Ec; [|done].
  intros (q & Hq & Hm)%existsb_true. unfold SplitRule in Hq.
  apply list_elem_of_fmap in Hq as (s & -> & Hs). apply IH in Hm.
  eapply D_entry; [done..|]. by apply denotes_TrimSpace.
Qed.

Lemma MatchPattern_denotes p v : MatchPattern p v = true <-> denotes p v.
Proof. split; [apply MatchPattern_sound_fuel|apply MatchPattern_complete]. Qed.

(** A comma list whose last entry ends in [*] is not split: the whole text
    before the star is one prefix. *)
Lemma MatchPattern_star p v :
  HasSuffix (TrimSpace p) "*" = true ->
  MatchPattern p v = HasPrefix v (TrimRight (TrimSpace p) "*").
Proof.
  intros Hs. rewrite MatchPattern_unfold. cbv zeta. rewrite Hs.
  destruct (bool_decide_reflect (TrimSpace p = "")) as [H|H]; [by rewrite H in Hs|].
  destruct (bool_decide_reflect (TrimSpace p = "*")) as [H'|H']; [by rewrite H'|].
  destruct (bool_decide_reflect (TrimSpace p = "-")) as [Hd|Hd]; [by rewrite Hd in Hs|done].
Qed.

Lemma MatchPattern_empty v : MatchPattern "" v = true.
Proof. done. Qed.

Lemma MatchPattern_any v : MatchPattern "*" v = true.
Proof. done. Qed.

(** ** Exact matches and unions *)

Lemma ExactMatch_iff p v : ExactMatch p v = true <-> p = v.
Proof. apply bool_decide_eq_true. Qed.

Lemma ExactMatchWithPatternArray_iff v l : ExactMatchWithPatternArray v l = true <-> v ∈ l.
Proof.
  unfold ExactMatchWithPatternArray. rewrite existsb_true.
  setoid_rewrite ExactMatch_iff. naive_solver.
Qed.

Lemma ExactMatchWithPatternArray_not v l : ExactMatchWithPatternArray v l = false <-> v ∉ l.
Proof.
  rewrite <-ExactMatchWithPatternArray_iff. by destruct (ExactMatchWithPatternArray v l).
Qed.

Lemma union_fold_spec l acc :
  NoDup acc ->
  NoDup (foldl union_step acc l) /\
  (forall x, x ∈ foldl union_step acc l <-> x ∈ acc \/ x ∈ l) /\
  acc `prefix_of` foldl union_step acc l.
Proof.
  revert acc. induction l as [|v l IH]; intros acc Hnd; cbn.
  - split; [done|]. split; [set_solver|done].
  - assert (NoDup (union_step acc v)) as Hnd'.
    { unfold union_step. destruct (ExactMatchWithPatternArray v acc) eqn:E; [done|].
      apply ExactMatchWithPatternArray_not in E. apply NoDup_app. split; [done|].
      split; [set_solver|apply NoDup_singleton]. }
    destruct (IH _ Hnd') as (H1 & H2 & H3). split; [done|]. split.
    + intros x. rewrite H2. unfold union_step.
      destruct (ExactMatchWithPatternArray v acc) eqn:E; [|set_solver].
      apply ExactMatchWithPatternArray_iff in E. set_solver.
    + etrans; [|exact H3]. unfold union_step.
      destruct (ExactMatchWithPatternArray v acc); [done|by apply prefix_app_r].
Qed.

Lemma GetUnionOfArrays_spec a1 a2 :
  NoDup (GetUnionOfArrays a1 a2) /\
  (forall x, x ∈ GetUnionOfArrays a1 a2 <-> x ∈ a1 \/ x ∈ a2).
Proof.
  unfold GetUnionOfArrays.
  destruct (union_fold_spec a1 []) as (H1 & H2 & _); [apply NoDup_nil_2|].
  destruct (union_fold_spec a2 _ H1) as (H3 & H4 & _).
  split; [done|]. intros x. rewrite H4, H2. set_solver.
Qed.

(** ** [MatchBigInt] *)

(** Serial numbers are compared modulo the 64-bit word: a decimal pattern also
    matches every serial that differs by a multiple of 2^64. *)
Lemma int64_of_small z : (int64_min <= z <= int64_max)%Z -> int64_of z = z.
Proof.
  unfold int64_of, int64_min, int64_max. intros H.
  destruct (Z.ltb_spec z 0).
  - rewrite Z.abs_neq by lia. destruct (Z.eq_dec z (- 2 ^ 63)) as [->|]; [done|].
    rewrite Z.mod_small by lia. destruct (Z.ltb_spec (- z) (2 ^ 63)); [|lia].
    destruct (Z.eqb_spec (- z) (-9223372036854775808)); lia.
  - rewrite Z.abs_eq, Z.mod_small by lia. destruct (Z.ltb_spec z (2 ^ 63)); lia.
Qed.

Lemma int64_of_wrap z k : (0 <= z)%Z -> (0 <= k)%Z -> int64_of (z + k * 2 ^ 64) = int64_of z.
Proof.
  intros Hz Hk. unfold int64_of. rewrite !Z.abs_eq by lia.
  rewrite Z.mod_add by lia. destruct (Z.ltb_spec (z + k * 2 ^ 64) 0), (Z.ltb_spec z 0); lia || done.
Qed.

Lemma MatchBigInt_decimal p i v :
  Contains (TrimSpace p) ":" = false -> Atoi (TrimSpace p) = Some i ->
  MatchBigInt p (Some v) = Ret (Z.eqb i (int64_of v)).
Proof.
  intros Hc Ha. unfold MatchBigInt. rewrite Hc, Ha.
  destruct (bool_decide_reflect (TrimSpace p = "")) as [H|H]; [by rewrite H in Ha|].
  destruct (bool_decide_reflect (TrimSpace p = "*")) as [H'|H']; [by rewrite H' in Ha|].
  rewrite andb_false_r. done.
Qed.

Lemma MatchBigInt_nil_panics p i :
  Atoi (TrimSpace p) = Some i -> MatchBigInt p None = Panic.
Proof.
  intros Ha. unfold MatchBigInt. rewrite Ha.
  destruct (bool_decide_reflect (TrimSpace p = "")) as [H|H]; [by rewrite H in Ha|].
  destruct (bool_decide_reflect (TrimSpace p = "*")) as [H'|H']; [by rewrite H' in Ha|].
  destruct (bool_decide_reflect (TrimSpace p = "-")) as [Hd|Hd]; [by rewrite Hd in Ha|].
  simpl. by destruct (Contains (TrimSpace p) ":").
Qed.


(** A decimal serial number in a signer condition does not pin the serial
    down: it accepts every serial that is equal to it modulo 2^64. *)
Theorem decimal_serial_wraps p i k :
  Contains (TrimSpace p) ":" = false -> Atoi (TrimSpace p) = Some i -> (0 <= i)%Z -> (0 <= k)%Z ->
  MatchBigInt p (Some (i + k * 2 ^ 64)%Z) = Ret true.
Proof.
  intros Hc Ha Hi Hk. rewrite (MatchBigInt_decimal p i) by done. rewrite int64_of_wrap by lia.
  rewrite int64_of_small; [by rewrite Z.eqb_refl|]. pose proof (Atoi_range _ _ Ha). lia.
Qed.

Lemma decimal_serial_wraps_witness : MatchBigInt "17" (Some (17 + 3 * 2 ^ 64)%Z) = Ret true.
Proof.
  apply (decimal_serial_wraps "17" 17 3); [vm_compute; reflexivity|vm_compute; reflexivity|lia|lia].
Defined.

#[global] Arguments MatchPattern : simpl never.
#[global] Arguments TrimSpace : simpl never.
