(* ===== verification/Common.v ===== *)
(** * Shared data of the shield  ([shield/pkg/common/common.go])

    Constants, reason codes, resource references, labels and annotations,
    evaluation results and the namespace selector, with the Kubernetes metadata
    they are built from. *)
From S2P Require Import Prelude GoStrings Pattern.
From stdpp Require Import options.

(** ** Constants *)

Definition IShieldCustomResourceAPIVersion := "apis.integrityshield.io/v1alpha1".
Definition IShieldCustomResourceKind := "IntegrityShield".
Definition SignatureCustomResourceKind := "ResourceSignature".
Definition ShieldConfigCustomResourceAPIVersion := "apis.integrityshield.io/v1alpha1".
Definition ShieldConfigCustomResourceKind := "ShieldConfig".
Definition SignerConfigCustomResourceKind := "SignerConfig".
Definition ProfileCustomResourceKind := "ResourceSigningProfile".
Definition HelmReleaseMetadataCustomResourceAPIVersion := "apis.integrityshield.io/v1alpha1".
Definition HelmReleaseMetadataCustomResourceKind := "HelmReleasemetadata".

Definition ResourceIntegrityLabelKey := "integrityshield.io/resourceIntegrity".
Definition SignedByAnnotationKey := "integrityshield.io/signedBy".
Definition LastVerifiedTimestampAnnotationKey := "integrityshield.io/lastVerifiedTimestamp".
Definition ResourceSignatureUIDAnnotationKey := "integrityshield.io/resourceSignatureUID".
Definition SignatureAnnotationKey := "integrityshield.io/signature".
Definition MessageAnnotationKey := "integrityshield.io/message".
Definition CertificateAnnotationKey := "integrityshield.io/certificate".
Definition SignatureTypeAnnotationKey := "integrityshield.io/signatureType".
Definition MessageScopeAnnotationKey := "integrityshield.io/messageScope".
Definition MutableAttrsAnnotationKey := "integrityshield.io/mutableAttrs".
Definition ResSigLabelApiVer := "integrityshield.io/sigobject-apiversion".
Definition ResSigLabelKind := "integrityshield.io/sigobject-kind".
Definition ResSigLabelTime := "integrityshield.io/sigtime".
Definition LabelValueVerified := "verified".
Definition LabelValueUnverified := "unverified".

Definition EventTypeAnnotationKey := "integrityshield.io/eventType".
Definition EventResultAnnotationKey := "integrityshield.io/eventResult".
Definition EventTypeValueVerifyResult := "verify-result".
Definition EventResultValueAllow := "allow".
Definition EventResultValueDeny := "deny".

Definition SignatureTypePGP := "pgp".
Definition SignatureTypeX509 := "x509".

(** [DecisionType]; the source uses the four string constants. *)
Inductive DecisionType := DecisionUndetermined | DecisionAllow | DecisionDeny | DecisionError.
#[global] Instance DecisionType_eq_dec : EqDecision DecisionType.
Proof. solve_decision. Defined.

(** ** Kubernetes metadata read by the shield *)

(** A Go [map\[string\]string]. *)
Notation strmap := (gmap string string) (only parsing).

(** Reading a missing key of a Go map gives the zero value. *)
Definition map_str (m : gmap string string) (k : string) : string := default "" (m !! k).

Record ObjectMeta := mkObjectMeta {
  om_Name : string;
  om_Namespace : string;
  om_UID : string;
  om_Labels : gmap string string;
}.
#[global] Instance ObjectMeta_eq_dec : EqDecision ObjectMeta.
Proof. solve_decision. Defined.

(** [v1.Namespace]: only its metadata is read. *)
Record Namespace := mkNamespace { ns_meta : ObjectMeta }.

(** [metav1.LabelSelector], the API type. *)
Record LabelSelectorRequirement := mkRequirement {
  lsr_Key : string; lsr_Operator : string; lsr_Values : list string }.
#[global] Instance LabelSelectorRequirement_eq_dec : EqDecision LabelSelectorRequirement.
Proof. solve_decision. Defined.
Record LabelSelector := mkLabelSelector {
  ls_MatchLabels : gmap string string;
  ls_MatchExpressions : list LabelSelectorRequirement }.
#[global] Instance LabelSelector_eq_dec : EqDecision LabelSelector.
Proof. solve_decision. Defined.

(** What the shield uses of [k8s.io/apimachinery]: compiling a selector, which
    can fail, into a predicate on label sets, and the printed forms of a
    group-version and of a group-version-kind. *)
Class K8sApi := {
  LabelSelectorAsSelector : LabelSelector -> option (gmap string string -> bool);
  gv_String : string -> string -> string;
  gvk_String : string -> string -> string -> string
}.

(** ** NamespaceSelector *)

Record NamespaceSelector := mkNamespaceSelector {
  nss_LabelSelector : option LabelSelector;
  nss_Include : list string;
  nss_Exclude : list string;
}.
#[global] Instance NamespaceSelector_eq_dec : EqDecision NamespaceSelector.
Proof. solve_decision. Defined.

(** [kubeutil.MatchLabels]; the error is [None]. *)
Definition MatchLabels `{K8sApi} (labels : gmap string string) (sel : LabelSelector) : option bool :=
  match LabelSelectorAsSelector sel with
  | None => None
  | Some matches => Some (matches labels)
  end.

Definition MatchNamespaceName (self : NamespaceSelector) (nsName : string) : bool :=
  let included := MatchWithPatternArray nsName (nss_Include self) in
  let excluded := MatchWithPatternArray nsName (nss_Exclude self) in
  included && negb excluded.

Definition MatchNamespace `{K8sApi} (self : NamespaceSelector) (namespace : Namespace) : bool :=
  let labelMatched :=
    match nss_LabelSelector self with
    | Some sel => match MatchLabels (om_Labels (ns_meta namespace)) sel with
                  | Some true => true
                  | _ => false
                  end
    | None => false
    end in
  match nss_Include self, nss_Exclude self with
  | [], [] => labelMatched
  | _, _ => MatchNamespaceName self (om_Name (ns_meta namespace))
  end.

(** [NamespaceSelector.Merge]; a nil argument gives the receiver back, and the
    label selector of both is dropped otherwise. *)
Definition MergeNamespaceSelector (s1 : NamespaceSelector) (s2 : option NamespaceSelector) : NamespaceSelector :=
  match s2 with
  | None => s1
  | Some s2 => mkNamespaceSelector None
                 (GetUnionOfArrays (nss_Include s1) (nss_Include s2))
                 (GetUnionOfArrays (nss_Exclude s1) (nss_Exclude s2))
  end.

(** ** ResourceRef *)

Record ResourceRef := mkResourceRef {
  ref_Name : string; ref_Namespace : string; ref_Kind : string; ref_ApiVersion : string }.
#[global] Instance ResourceRef_eq_dec : EqDecision ResourceRef.
Proof. solve_decision. Defined.

Definition RefEquals (self : ResourceRef) (ref : option ResourceRef) : bool :=
  match ref with
  | None => false
  | Some r => bool_decide (ref_Name self = ref_Name r) &&
              bool_decide (ref_Namespace self = ref_Namespace r) &&
              bool_decide (ref_Kind self = ref_Kind r) &&
              bool_decide (ref_ApiVersion self = ref_ApiVersion r)
  end.

Definition EqualsWithoutVersionCheck (self : ResourceRef) (ref : option ResourceRef) : bool :=
  match ref with
  | None => false
  | Some r => bool_decide (ref_Name self = ref_Name r) &&
              bool_decide (ref_Namespace self = ref_Namespace r) &&
              bool_decide (ref_Kind self = ref_Kind r)
  end.

(** ** CheckError *)

(** A Go [error] value is the text of its [Error()] method. *)
Record CheckError := mkCheckError {
  ce_Msg : string; ce_Reason : string; ce_Error : option string }.
#[global] Instance CheckError_eq_dec : EqDecision CheckError.
Proof. solve_decision. Defined.

Definition MakeMessage (self : CheckError) : string :=
  match ce_Error self with
  | Some e => if bool_decide (ce_Reason self = "") then e else ce_Reason self
  | None => if bool_decide (ce_Reason self = "") then ce_Msg self else ce_Reason self
  end.

(** ** Labels and annotations *)

Record ResourceLabel := mkResourceLabel { rl_values : gmap string string }.
Record ResourceAnnotation := mkResourceAnnotation { ra_values : gmap string string }.

Definition NewResourceLabel (values : gmap string string) : ResourceLabel := mkResourceLabel values.

(** [getString], [getBool] and [isDefined], the same for both types. *)
Definition values_getString (values : gmap string string) (key : string) : string :=
  match values !! key with Some s => s | None => "" end.

Definition values_getBool (values : gmap string string) (key : string) (defaultValue : bool) : bool :=
  match values !! key with
  | Some s => match ParseBool s with Some b => b | None => defaultValue end
  | None => defaultValue
  end.

Definition values_isDefined (values : gmap string string) (key : string) : bool :=
  match values !! key with Some _ => true | None => false end.

Definition IntegrityVerified (self : ResourceLabel) : bool :=
  bool_decide (values_getString (rl_values self) ResourceIntegrityLabelKey = LabelValueVerified).

Record SignatureAnnotation := mkSignatureAnnotation {
  sa_SignatureType : string;
  sa_Signature : string;
  sa_Certificate : string;
  sa_Message : string;
  sa_MessageScope : string;
  sa_MutableAttrs : string;
}.

Definition SignatureAnnotations (self : ResourceAnnotation) : SignatureAnnotation :=
  {| sa_Signature := values_getString (ra_values self) SignatureAnnotationKey;
     sa_SignatureType := values_getString (ra_values self) SignatureTypeAnnotationKey;
     sa_Certificate := values_getString (ra_values self) CertificateAnnotationKey;
     sa_Message := values_getString (ra_values self) MessageAnnotationKey;
     sa_MessageScope := values_getString (ra_values self) MessageScopeAnnotationKey;
     sa_MutableAttrs := values_getString (ra_values self) MutableAttrsAnnotationKey |}.

(** ** Results *)

Record SignerInfo := mkSignerInfo {
  si_Email : string;
  si_Name : string;
  si_Comment : string;
  si_Uid : string;
  si_Country : string;
  si_Organization : string;
  si_OrganizationalUnit : string;
  si_Locality : string;
  si_Province : string;
  si_StreetAddress : string;
  si_PostalCode : string;
  si_CommonName : string;
  si_SerialNumber : option Z;
  si_Fingerprint : option string;
}.
#[global] Instance SignerInfo_eq_dec : EqDecision SignerInfo.
Proof. solve_decision. Defined.

(** The literal [&SignerInfo{Email, Name, Comment, Fingerprint}] of the PGP
    branches: every X.509 field keeps its zero value. *)
Definition pgpSignerInfo (email name comment : string) (fingerprint : option string) : SignerInfo :=
  mkSignerInfo email name comment "" "" "" "" "" "" "" "" "" None fingerprint.

Definition SignerInfo_GetName (self : SignerInfo) : string :=
  if bool_decide (si_CommonName self = "") then
    if bool_decide (si_Email self = "") then
      if bool_decide (si_Name self = "") then "" else si_Name self
    else si_Email self
  else si_CommonName self.

Definition GetNameWithFingerprint (self : SignerInfo) : string :=
  let name := SignerInfo_GetName self in
  match si_Fingerprint self with
  | Some fp => name +:+ " (" +:+ fp +:+ ")"
  | None => name
  end.

Record SignatureEvalResult := mkSignatureEvalResult {
  ser_Signer : option SignerInfo;
  ser_SignerName : string;
  ser_Checked : bool;
  ser_Allow : bool;
  ser_MatchedSignerConfig : string;
  ser_ResourceSignatureUID : string;
  ser_Error : option CheckError;
}.

Definition GetSignerName (self : SignatureEvalResult) : string :=
  if bool_decide (ser_SignerName self = "") then
    match ser_Signer self with Some s => SignerInfo_GetName s | None => "" end
  else ser_SignerName self.

Record MutationEvalResult := mkMutationEvalResult {
  mer_IsMutated : bool;
  mer_Diff : string;
  mer_Filtered : string;
  mer_Checked : bool;
  mer_Error : option CheckError;
}.

(** ** Reason codes *)

Record ReasonCode := mkReasonCode { rc_Message : string; rc_Code : string }.

(** The [iota] constants. *)
Definition REASON_INTERNAL := 0.
Definition REASON_VALIDATION_FAIL := 1.
Definition REASON_RULE_MATCH := 2.
Definition REASON_VALID_SIG := 3.
Definition REASON_VERIFIED_OWNER := 4.
Definition REASON_UPDATE_BY_SA := 5.
Definition REASON_VERIFIED_SA := 6.
Definition REASON_NO_MUTATION := 7.
Definition REASON_ISHIELD_ADMIN := 8.
Definition REASON_IGNORED_SA := 9.
Definition REASON_NOT_PROTECTED := 10.
Definition REASON_IGNORE_RULE_MATCHED := 11.
Definition REASON_BLOCK_ISHIELD_RESOURCE_OPERATION := 12.
Definition REASON_NOT_VERIFIED := 13.
Definition REASON_SKIP_DELETE := 14.
Definition REASON_ABORTED := 15.
Definition REASON_BREAK_GLASS := 16.
Definition REASON_DETECTION := 17.
Definition REASON_INVALID_SIG := 18.
Definition REASON_NO_SIG := 19.
Definition REASON_NO_VALID_KEYRING := 20.
Definition REASON_NO_MATCH_SIGNER_CONFIG := 21.
Definition REASON_UNEXPECTED := 22.
Definition REASON_ERROR := 23.

(** [ReasonCodeMap]; a missing code reads as the zero [ReasonCode]. *)
Definition ReasonCodeMap (code : nat) : ReasonCode :=
  match code with
  | 0 => mkReasonCode "internal request" "internal"
  | 1 => mkReasonCode "Format validation failed" "validation-fail"
  | 2 => mkReasonCode "allowed by rule" "rule-match"
  | 3 => mkReasonCode "allowed by valid signer's signature" "valid-sig"
  | 4 => mkReasonCode "owned by verified owner" "verified-owner"
  | 5 => mkReasonCode "updated by creator" "updated-by-sa"
  | 6 => mkReasonCode "operated by verified sa" "verified-sa"
  | 7 => mkReasonCode "allowed because no mutation found" "no-mutation"
  | 8 => mkReasonCode "ishield admin operation" "ishield-admin"
  | 9 => mkReasonCode "ignored sa" "ignored-sa"
  | 10 => mkReasonCode "not protected" "unprotected"
  | 11 => mkReasonCode "ignore rule matched" "ignore-rule-matched"
  | 12 => mkReasonCode "Direct access to Integrity Shield resource is prohibited. To update them, please update configurations in Integrity Shield CR." "direct-access-prohibited"
  | 14 => mkReasonCode "skip delete request" "skip-delete"
  | 15 => mkReasonCode "aborted" "aborted"
  | 16 => mkReasonCode "allowed by breakglass mode" "breakglass"
  | 17 => mkReasonCode "allowed by detection mode" "detection"
  | 18 => mkReasonCode "Signature verification is required for this request, but failed to verify signature" "invalid-signature"
  | 19 => mkReasonCode "Signature verification is required for this request, but no signature is found. Please attach a valid signature." "no-signature"
  | 20 => mkReasonCode "Signature verification is required for this request, but no verification keys are correctly loaded. Please set valid key secrets for verification or contact Integrity Shield admins." "no-valid-keyring"
  | 21 => mkReasonCode "Signature verification is required for this request, but no signer config matches with this resource. Please configure SignerConfig for this resource or contact Integrity Shield admins." "no-match-signer-config"
  | 22 => mkReasonCode "unexpected" "unexpected"
  | 23 => mkReasonCode "error" "error"
  | _ => mkReasonCode "" ""
  end.

Definition ReasonMessage (code : nat) : string := rc_Message (ReasonCodeMap code).

(** ** Facts *)

Lemma EqualsWithoutVersionCheck_iff self r :
  EqualsWithoutVersionCheck self (Some r) = true <->
  ref_Name self = ref_Name r /\ ref_Namespace self = ref_Namespace r /\ ref_Kind self = ref_Kind r.
Proof. cbn. rewrite !andb_true_iff, !bool_decide_eq_true. tauto. Qed.

Lemma RefEquals_iff self r : RefEquals self (Some r) = true <-> self = r.
Proof.
  cbn. rewrite !andb_true_iff, !bool_decide_eq_true. destruct self, r; cbn. split.
  - by intros [[[-> ->] ->] ->].
  - by intros [= -> -> -> ->].
Qed.

Lemma MatchWithPatternArray_union v a1 a2 :
  MatchWithPatternArray v (GetUnionOfArrays a1 a2) =
  MatchWithPatternArray v a1 || MatchWithPatternArray v a2.
Proof.
  destruct (GetUnionOfArrays_spec a1 a2) as [_ H]. apply eq_true_iff_eq.
  unfold MatchWithPatternArray. rewrite orb_true_iff, !existsb_true.
  setoid_rewrite H. naive_solver.
Qed.

(** Merging two namespace selectors takes the union on both sides: a name is
    selected by the result exactly when one of the two includes it and neither
    excludes it. *)
Theorem MergeNamespaceSelector_selects s1 s2 nsName :
  MatchNamespaceName (MergeNamespaceSelector s1 (Some s2)) nsName =
  (MatchWithPatternArray nsName (nss_Include s1) || MatchWithPatternArray nsName (nss_Include s2)) &&
  negb (MatchWithPatternArray nsName (nss_Exclude s1) || MatchWithPatternArray nsName (nss_Exclude s2)).
Proof.
  unfold MatchNamespaceName, MergeNamespaceSelector. cbn [nss_Include nss_Exclude].
  by rewrite !MatchWithPatternArray_union.
Qed.
