(* ===== verification/ReqContext.v ===== *)
(** * The request context  ([shield/pkg/common/reqcontext.go])

    What the shield keeps of an admission request, and the field table the rule
    patterns are matched against. *)
From S2P Require Import Prelude GoStrings GoJson Pattern Common.
From stdpp Require Import options.

(** ** The admission request ([k8s.io/api/admission/v1]) *)

Record GroupVersionKind := mkGVK { gvk_Group : string; gvk_Version : string; gvk_Kind : string }.

(** Raw object bytes; [None] is a nil slice. *)
Record AdmissionRequest := mkAdmissionRequest {
  ar_UID : string;
  ar_Kind : GroupVersionKind;
  ar_Name : string;
  ar_Namespace : string;
  ar_Operation : string;
  ar_Object : option string;
  ar_OldObject : option string;
  ar_DryRun : option bool;
}.

(** What the shield reads of a [gjson.Result]: its text, the texts of its array
    elements and map entries, the string entries of its value when that is a
    map, and whether a sub-path exists. *)
Record gjson_result := mkGjsonResult {
  gr_String : string;
  gr_Array : list string;
  gr_Map : gmap string string;
  gr_StringFields : option (gmap string string);
  gr_Has : string -> bool;
}.

(** [github.com/tidwall/gjson] and the JSON form of the request. *)
Class Gjson := {
  gjson_Get : string -> string -> option gjson_result;
  marshal_request : AdmissionRequest -> option string
}.

(** ** The context *)

Record ObjectMetadata := mkObjectMetadata {
  omd_Annotations : ResourceAnnotation;
  omd_Labels : ResourceLabel;
}.

Record ReqContext := mkReqContext {
  rc_ResourceScope : string;
  rc_DryRun : bool;
  rc_RawObject : option string;
  rc_RawOldObject : option string;
  rc_RequestJsonStr : string;
  rc_RequestUid : string;
  rc_Namespace : string;
  rc_Name : string;
  rc_ApiGroup : string;
  rc_ApiVersion : string;
  rc_Kind : string;
  rc_Operation : string;
  rc_OrgMetadata : ObjectMetadata;
  rc_ClaimedMetadata : ObjectMetadata;
  rc_UserInfo : string;
  rc_ObjLabels : string;
  rc_ObjMetaName : string;
  rc_UserName : string;
  rc_UserGroups : list string;
  rc_Type : string;
  rc_ObjectHashType : string;
  rc_ObjectHash : string;
}.

(** [ReqContext.Map]: reflection over the fields of type [string]; the boolean,
    byte, list and pointer fields are skipped. *)
Definition reqFieldList (reqc : ReqContext) : list (string * string) :=
  [("ResourceScope", rc_ResourceScope reqc); ("RequestJsonStr", rc_RequestJsonStr reqc);
   ("RequestUid", rc_RequestUid reqc); ("Namespace", rc_Namespace reqc); ("Name", rc_Name reqc);
   ("ApiGroup", rc_ApiGroup reqc); ("ApiVersion", rc_ApiVersion reqc); ("Kind", rc_Kind reqc);
   ("Operation", rc_Operation reqc); ("UserInfo", rc_UserInfo reqc); ("ObjLabels", rc_ObjLabels reqc);
   ("ObjMetaName", rc_ObjMetaName reqc); ("UserName", rc_UserName reqc); ("Type", rc_Type reqc);
   ("ObjectHashType", rc_ObjectHashType reqc); ("ObjectHash", rc_ObjectHash reqc)].

Definition ReqMap (reqc : ReqContext) : gmap string string := list_to_map (reqFieldList reqc).

Definition GroupVersion `{K8sApi} (reqc : ReqContext) : string :=
  gv_String (rc_ApiGroup reqc) (rc_ApiVersion reqc).

Definition ResourceRefOf `{K8sApi} (reqc : ReqContext) : ResourceRef :=
  mkResourceRef (rc_Name reqc) (rc_Namespace reqc) (rc_Kind reqc)
    (gv_String (rc_ApiGroup reqc) (rc_ApiVersion reqc)).

(** [Info(nil)]: [json.Marshal] sorts the keys of the map. *)
Definition Info (reqc : ReqContext) : string :=
  marshal_strmap
    [("kind", rc_Kind reqc); ("name", rc_Name reqc); ("namespace", rc_Namespace reqc);
     ("operation", rc_Operation reqc); ("request.uid", rc_RequestUid reqc);
     ("scope", rc_ResourceScope reqc); ("userName", rc_UserName reqc)].

Definition IsUpdateRequest (rc : ReqContext) : bool := bool_decide (rc_Operation rc = "UPDATE").
Definition IsCreateRequest (rc : ReqContext) : bool := bool_decide (rc_Operation rc = "CREATE").
Definition IsDeleteRequest (rc : ReqContext) : bool := bool_decide (rc_Operation rc = "DELETE").
Definition IsSecret `{K8sApi} (rc : ReqContext) : bool :=
  bool_decide (rc_Kind rc = "Secret") && bool_decide (GroupVersion rc = "v1").
Definition IsServiceAccount `{K8sApi} (rc : ReqContext) : bool :=
  bool_decide (rc_Kind rc = "ServiceAccount") && bool_decide (GroupVersion rc = "v1").
Definition ExcludeDiffValue (rc : ReqContext) : bool :=
  if bool_decide (rc_Kind rc = "Secret") then true else false.

(** ** Construction *)

Record ParsedRequest := mkParsedRequest { pr_UID : string; pr_JsonStr : string }.

(** A marshalling failure is logged and leaves the text empty. *)
Definition NewParsedRequest `{Gjson} (request : AdmissionRequest) : ParsedRequest :=
  mkParsedRequest (ar_UID request) (default "" (marshal_request request)).

Section construction.
Context `{Gjson}.

Definition getValue (pr : ParsedRequest) (path : string) : string :=
  match gjson_Get (pr_JsonStr pr) path with Some w => gr_String w | None => "" end.

Definition getArrayValue (pr : ParsedRequest) (path : string) : list string :=
  match gjson_Get (pr_JsonStr pr) path with Some w => gr_Array w | None => [] end.

Definition getAnnotations (pr : ParsedRequest) (path : string) : ResourceAnnotation :=
  mkResourceAnnotation
    match gjson_Get (pr_JsonStr pr) path with Some w => gr_Map w | None => ∅ end.

Definition getLabels (pr : ParsedRequest) (path : string) : ResourceLabel :=
  mkResourceLabel
    match gjson_Get (pr_JsonStr pr) path with Some w => gr_Map w | None => ∅ end.

Definition pr_getBool (pr : ParsedRequest) (path : string) (defaultValue : bool) : bool :=
  match gjson_Get (pr_JsonStr pr) path with
  | Some w => match ParseBool (gr_String w) with Some b => b | None => defaultValue end
  | None => defaultValue
  end.

(** [if name == "" { name = next }] *)
Definition or_else (x y : string) : string := if bool_decide (x = "") then y else x.

(** [NewReqContext]; [*req.DryRun] panics when the pointer is nil. *)
Definition NewReqContext (req : AdmissionRequest) : go ReqContext :=
  let pr := NewParsedRequest req in
  let name := or_else (or_else (getValue pr "name") (getValue pr "metadata.name"))
                      (getValue pr "object.metadata.name") in
  let namespace := or_else (getValue pr "namespace") (getValue pr "object.metdata.namespace") in
  let orgMetadata := mkObjectMetadata (getAnnotations pr "oldObject.metadata.annotations")
                                      (getLabels pr "oldObject.metadata.labels") in
  let claimedMetadata := mkObjectMetadata (getAnnotations pr "object.metadata.annotations")
                                          (getLabels pr "object.metadata.labels") in
  let resourceScope := if bool_decide (namespace = "") then "Cluster" else "Namespaced" in
  match ar_DryRun req with
  | None => Panic
  | Some dryRun => Ret
    {| rc_DryRun := dryRun;
       rc_RawObject := ar_Object req;
       rc_RawOldObject := ar_OldObject req;
       rc_ResourceScope := resourceScope;
       rc_RequestUid := pr_UID pr;
       rc_RequestJsonStr := pr_JsonStr pr;
       rc_Name := name;
       rc_Operation := getValue pr "operation";
       rc_ApiGroup := getValue pr "kind.group";
       rc_ApiVersion := getValue pr "kind.version";
       rc_Kind := getValue pr "kind.kind";
       rc_Namespace := namespace;
       rc_UserInfo := getValue pr "userInfo";
       rc_ObjLabels := getValue pr "object.metadata.labels";
       rc_ObjMetaName := getValue pr "object.metadata.name";
       rc_UserName := getValue pr "userInfo.username";
       rc_UserGroups := getArrayValue pr "userInfo.groups";
       rc_Type := getValue pr "object.type";
       rc_OrgMetadata := orgMetadata;
       rc_ClaimedMetadata := claimedMetadata;
       rc_ObjectHashType := "";
       rc_ObjectHash := "" |}
  end.
End construction.

(** ** Facts *)

(** Every context the constructor makes satisfies this: the scope is exactly
    whether there is a namespace. *)
Definition scope_ok (rc : ReqContext) : Prop :=
  rc_ResourceScope rc = "Cluster" /\ rc_Namespace rc = "" \/
  rc_ResourceScope rc = "Namespaced" /\ rc_Namespace rc <> "".

Lemma NewReqContext_scope `{Gjson} req rc : NewReqContext req = Ret rc -> scope_ok rc.
Proof.
  unfold NewReqContext. destruct (ar_DryRun req); [|done]. intros [= <-].
  unfold scope_ok; cbn. destruct (bool_decide_reflect (or_else (getValue (NewParsedRequest req) "namespace")
    (getValue (NewParsedRequest req) "object.metdata.namespace") = "")); auto.
Qed.

(** The lookups of [reqc.Map()] used by the rules. *)
Lemma ReqMap_Namespace rc : ReqMap rc !! "Namespace" = Some (rc_Namespace rc).
Proof. reflexivity. Qed.
Lemma ReqMap_ResourceScope rc : ReqMap rc !! "ResourceScope" = Some (rc_ResourceScope rc).
Proof. reflexivity. Qed.
Lemma ReqMap_Kind rc : ReqMap rc !! "Kind" = Some (rc_Kind rc).
Proof. reflexivity. Qed.
Lemma ReqMap_Name rc : ReqMap rc !! "Name" = Some (rc_Name rc).
Proof. reflexivity. Qed.
Lemma ReqMap_Operation rc : ReqMap rc !! "Operation" = Some (rc_Operation rc).
Proof. reflexivity. Qed.
Lemma ReqMap_UserName rc : ReqMap rc !! "UserName" = Some (rc_UserName rc).
Proof. reflexivity. Qed.
(** The table has no entry for the pattern fields [Scope] and [UserGroup]. *)
Lemma ReqMap_Scope rc : ReqMap rc !! "Scope" = None.
Proof. reflexivity. Qed.
Lemma ReqMap_UserGroup rc : ReqMap rc !! "UserGroup" = None.
Proof. reflexivity. Qed.
