(* ===== verification/Profile.v ===== *)
(** * Rules of a signing profile  ([shield/pkg/common/profile.go])

    Request patterns, rules, kustomize and attribute patterns, and the request
    summary stored in a profile's status.  The slices of pointers of the source
    hold non-nil pointers: the CRD schema admits no null item. *)
From S2P Require Import Prelude GoStrings GoRegexp Pattern Common ReqContext.
From stdpp Require Import options.

(** ** Data *)

Record RequestPattern := mkRequestPattern {
  rp_Scope : option string;
  rp_ApiGroup : option string;
  rp_ApiVersion : option string;
  rp_Kind : option string;
  rp_Name : option string;
  rp_Operation : option string;
  rp_UserName : option string;
  rp_UserGroup : option string;
}.
#[global] Instance RequestPattern_eq_dec : EqDecision RequestPattern.
Proof. solve_decision. Defined.

Record Rule := mkRule { rule_Match : list RequestPattern; rule_Exclude : list RequestPattern }.
#[global] Instance Rule_eq_dec : EqDecision Rule.
Proof. solve_decision. Defined.

Record AttrsPattern := mkAttrsPattern { ap_Match : list RequestPattern; ap_Attrs : list string }.
#[global] Instance AttrsPattern_eq_dec : EqDecision AttrsPattern.
Proof. solve_decision. Defined.

Record CommonProfile := mkCommonProfile {
  cp_IgnoreRules : list Rule; cp_IgnoreAttrs : list AttrsPattern }.

Record KustomizePattern := mkKustomizePattern {
  kp_Match : list RequestPattern;
  kp_NamePrefix : option string;
  kp_NameSuffix : option string;
  kp_AllowNamespaceChange : bool;
}.
#[global] Instance KustomizePattern_eq_dec : EqDecision KustomizePattern.
Proof. solve_decision. Defined.

(** The embedded [*RequestPattern] and the namespace, both possibly nil. *)
Record RequestPatternWithNamespace := mkRequestPatternWithNamespace {
  rpn_RequestPattern : option RequestPattern;
  rpn_Namespace : option string;
}.

(** ** Request patterns *)

(** The fields the reflection loop of [match] visits, in declaration order. *)
Definition rp_fields (self : RequestPattern) : list (string * option string) :=
  [("Scope", rp_Scope self); ("ApiGroup", rp_ApiGroup self); ("ApiVersion", rp_ApiVersion self);
   ("Kind", rp_Kind self); ("Name", rp_Name self); ("Operation", rp_Operation self);
   ("UserName", rp_UserName self); ("UserGroup", rp_UserGroup self)].

(** [scope := "Namespaced"; if the request says "Cluster" { scope = "Cluster" }] *)
Definition reqScope (reqFields : gmap string string) : string :=
  match reqFields !! "ResourceScope" with
  | Some s => if bool_decide (s = "Cluster") then s else "Namespaced"
  | None => "Namespaced"
  end.

(** One round of the loop: [matched] and [patternCount]. *)
Definition rp_step (reqFields : gmap string string) (exactMatchForName : bool)
    (acc : bool * nat) (field : string * option string) : bool * nat :=
  let '(matched, patternCount) := acc in
  let '(fieldName, value) := field in
  match value with
  | None => acc
  | Some pattern =>
      let reqValue := map_str reqFields fieldName in
      let m := if bool_decide (fieldName = "Name") && exactMatchForName
               then ExactMatch pattern reqValue else MatchPattern pattern reqValue in
      (matched && m, S patternCount)
  end.

Definition rp_match (self : RequestPattern) (reqFields : gmap string string) (exactMatchForName : bool) : bool :=
  let scope := reqScope reqFields in
  if exactMatchForName && bool_decide (scope = "Cluster") && bool_decide (rp_Name self = None) then false
  else
    let '(matched, patternCount) := foldl (rp_step reqFields exactMatchForName) (true, 0) (rp_fields self) in
    Nat.ltb 0 patternCount && matched.

(** [Match] allows wildcards in the name, [StrictMatch] compares it exactly. *)
Definition RequestPattern_Match (self : RequestPattern) (reqFields : gmap string string) : bool :=
  rp_match self reqFields false.
Definition RequestPattern_StrictMatch (self : RequestPattern) (reqFields : gmap string string) : bool :=
  rp_match self reqFields true.

Definition RequestPatternWithNamespace_Match (self : RequestPatternWithNamespace)
    (reqFields : gmap string string) : bool :=
  match rpn_Namespace self, rpn_RequestPattern self with
  | None, None => false
  | ns, rp =>
      let nsMatched := match ns with
                       | Some p => MatchPattern p (map_str reqFields "Namespace")
                       | None => true
                       end in
      let otherMatched := match rp with Some p => RequestPattern_Match p reqFields | None => true end in
      nsMatched && otherMatched
  end.

(** ** Rules *)

Definition rule_with (m : RequestPattern -> gmap string string -> bool) (self : Rule)
    (reqFields : gmap string string) : bool :=
  let matched := existsb (fun p => m p reqFields) (rule_Match self) in
  let excluded := matched && existsb (fun p => m p reqFields) (rule_Exclude self) in
  matched && negb excluded.

Definition MatchWithRequest (self : Rule) (reqFields : gmap string string) : bool :=
  rule_with RequestPattern_Match self reqFields.
Definition StrictMatchWithRequest (self : Rule) (reqFields : gmap string string) : bool :=
  rule_with RequestPattern_StrictMatch self reqFields.

Definition Attrs_MatchWith (self : AttrsPattern) (reqFields : gmap string string) : bool :=
  existsb (fun p => RequestPattern_Match p reqFields) (ap_Match self).

(** ** Kustomize patterns *)

Definition Kustomize_MatchWith (self : KustomizePattern) (reqFields : gmap string string) : bool :=
  existsb (fun p => RequestPattern_Match p reqFields) (kp_Match self).

(** A wildcard affix as a regular expression: dots quoted, stars widened. *)
Definition affix_expr (affix : string) : string :=
  let affix := if Contains affix "." then ReplaceAll affix "." "\." else affix in
  ReplaceAll affix "*" ".*".

(** The [else if strings.Contains(affix, "*")] branch, the same for both ends:
    every match of the unanchored expression is removed. *)
Definition strip_wildcard (affix name : string) : string :=
  if Contains affix "*" then
    match Compile (affix_expr affix) with
    | Some rep => if re_match rep name then ReplaceAllString rep name "" else name
    | None => name
    end
  else name.

Definition strip_prefix (namePrefix name : string) : string :=
  if HasPrefix name namePrefix then remove_first name namePrefix
  else strip_wildcard namePrefix name.

(** The suffix is removed on the reversed strings. *)
Definition strip_suffix (nameSuffix name : string) : string :=
  if HasSuffix name nameSuffix then str_rev (remove_first (str_rev name) (str_rev nameSuffix))
  else strip_wildcard nameSuffix name.

Definition overrideName (self : KustomizePattern) (ref : ResourceRef) : ResourceRef :=
  match kp_NamePrefix self, kp_NameSuffix self with
  | None, None => ref
  | pre, suf =>
      let name := ref_Name ref in
      let name := match pre with Some p => strip_prefix p name | None => name end in
      let name := match suf with Some s => strip_suffix s name | None => name end in
      mkResourceRef name (ref_Namespace ref) (ref_Kind ref) (ref_ApiVersion ref)
  end.

Definition overrideNamespace (self : KustomizePattern) (ref : ResourceRef) : ResourceRef :=
  let namespace := if kp_AllowNamespaceChange self then "*" else ref_Namespace ref in
  mkResourceRef (ref_Name ref) namespace (ref_Kind ref) (ref_ApiVersion ref).

(** [Override] writes through the pointer it is given; the new contents are
    returned, and callers that share the pointer thread them. *)
Definition Override (self : KustomizePattern) (ref : ResourceRef) : ResourceRef :=
  overrideNamespace self (overrideName self ref).

(** ** The request stored in a status *)

Record Request := mkRequest {
  req_Operation : string;
  req_Namespace : string;
  req_ApiGroup : string;
  req_ApiVersion : string;
  req_Kind : string;
  req_Name : string;
  req_UserName : string;
}.
#[global] Instance Request_eq_dec : EqDecision Request.
Proof. solve_decision. Defined.

Definition Request_GroupVersionKind `{K8sApi} (self : Request) : string :=
  gvk_String (req_ApiGroup self) (req_ApiVersion self) (req_Kind self).

Definition Request_Equal (self req : Request) : bool := bool_decide (self = req).

Definition NewRequestFromReqContext (reqc : ReqContext) : Request :=
  {| req_Operation := rc_Operation reqc;
     req_Namespace := rc_Namespace reqc;
     req_ApiGroup := rc_ApiGroup reqc;
     req_ApiVersion := rc_ApiVersion reqc;
     req_Kind := rc_Kind reqc;
     req_Name := rc_Name reqc;
     req_UserName := rc_UserName reqc |}.

Record Result := mkResult { res_Message : string; res_Timestamp : string }.

(** ** Facts: request patterns *)

(** The test a single field of a pattern makes. *)
Definition field_test (reqFields : gmap string string) (exact : bool) (f : string * option string) : bool :=
  match f.2 with
  | None => true
  | Some pattern =>
      if bool_decide (f.1 = "Name") && exact
      then ExactMatch pattern (map_str reqFields f.1) else MatchPattern pattern (map_str reqFields f.1)
  end.

Lemma rp_fold reqFields exact fs b n :
  foldl (rp_step reqFields exact) (b, n) fs =
  (b && forallb (field_test reqFields exact) fs,
   n + length (filter (fun f => f.2 <> None) fs)).
Proof.
  revert b n. induction fs as [|[fn [p|]] fs IH]; intros b n; cbn [foldl].
  - cbn. by rewrite andb_true_r, Nat.add_0_r.
  - unfold rp_step at 2. rewrite IH. rewrite filter_cons_True by done. cbn. f_equal; [by rewrite andb_assoc|lia].
  - unfold rp_step at 2. rewrite IH. rewrite filter_cons_False by (cbn; naive_solver). done.
Qed.

(** A pattern with no field at all. *)
Definition no_fields (self : RequestPattern) : bool :=
  forallb (fun f => bool_decide (f.2 = None)) (rp_fields self).

Lemma rp_count self :
  Nat.ltb 0 (length (filter (fun f => f.2 <> None) (rp_fields self))) = negb (no_fields self).
Proof.
  unfold no_fields. induction (rp_fields self) as [|[fn [p|]] fs IH]; [done| |].
  - rewrite filter_cons_True by done. done.
  - rewrite filter_cons_False by (cbn; naive_solver). done.
Qed.

Lemma rp_match_eq self reqFields exact :
  rp_match self reqFields exact =
  negb (exact && bool_decide (reqScope reqFields = "Cluster") && bool_decide (rp_Name self = None)) &&
  (negb (no_fields self) && forallb (field_test reqFields exact) (rp_fields self)).
Proof.
  unfold rp_match. rewrite rp_fold, Nat.add_0_l, rp_count. by destruct (exact && _ && _).
Qed.

Lemma forallb_true {A} (p : A -> bool) l : forallb p l = true <-> forall x, x ∈ l -> p x = true.
Proof. rewrite forallb_forall. split; intros H x Hx; apply H; by apply list_elem_of_In. Qed.

Lemma forallb_false {A} (p : A -> bool) l : forallb p l = false <-> exists x, x ∈ l /\ p x = false.
Proof.
  induction l as [|y l IH]; cbn; [split; [done|intros (x & Hx & _); inversion Hx]|].
  rewrite andb_false_iff, IH. setoid_rewrite elem_of_cons. naive_solver.
Qed.

Lemma RequestPattern_Match_iff self reqFields :
  RequestPattern_Match self reqFields = true <->
  no_fields self = false /\
  forall fn p, (fn, Some p) ∈ rp_fields self -> MatchPattern p (map_str reqFields fn) = true.
Proof.
  unfold RequestPattern_Match. rewrite rp_match_eq. cbn [andb negb].
  rewrite andb_true_iff, negb_true_iff, forallb_true. apply and_iff_compat_l. split.
  - intros H fn p Hin. specialize (H _ Hin). unfold field_test in H. cbn [fst snd] in H.
    by rewrite andb_false_r in H.
  - intros H [fn [p|]] Hin; unfold field_test; cbn [fst snd]; [|done].
    rewrite andb_false_r. by apply H.
Qed.

(** An empty pattern matches nothing. *)
Lemma no_fields_match self reqFields exact : no_fields self = true -> rp_match self reqFields exact = false.
Proof. intros H. rewrite rp_match_eq, H. by rewrite andb_false_r. Qed.

Lemma rule_with_iff m self reqFields :
  rule_with m self reqFields = true <->
  (exists p, p ∈ rule_Match self /\ m p reqFields = true) /\
  (forall p, p ∈ rule_Exclude self -> m p reqFields = false).
Proof.
  unfold rule_with. rewrite <-existsb_true, <-existsb_false.
  destruct (existsb _ (rule_Match self)), (existsb _ (rule_Exclude self)); naive_solver.
Qed.

(** ** Facts: kustomize *)

Lemma str_rev_app a b : str_rev (a +:+ b) = str_rev b +:+ str_rev a.
Proof.
  induction a as [|c a IH]; simpl; [by rewrite str_app_nil_r|]. by rewrite IH, str_app_assoc.
Qed.

Lemma str_rev_involutive s : str_rev (str_rev s) = s.
Proof. induction s as [|c s IH]; simpl; [done|]. by rewrite str_rev_app, IH. Qed.

Lemma remove_first_prefix p s : remove_first (p +:+ s) p = s.
Proof.
  assert (forall t q, HasPrefix t q = true -> remove_first t q = str_drop (slen q) t) as H.
  { intros [|c t] q Hq; cbn [remove_first]; by rewrite Hq. }
  rewrite H by apply HasPrefix_app. apply str_drop_app.
Qed.

Lemma strip_prefix_app p n : strip_prefix p (p +:+ n) = n.
Proof. unfold strip_prefix. by rewrite HasPrefix_app, remove_first_prefix. Qed.

Lemma strip_suffix_app n s : strip_suffix s (n +:+ s) = n.
Proof.
  unfold strip_suffix. rewrite (proj2 (HasSuffix_spec _ _)) by eauto.
  by rewrite str_rev_app, remove_first_prefix, str_rev_involutive.
Qed.

(** An affix without wildcard leaves a name that does not carry it. *)
Lemma strip_prefix_other p n :
  Contains p "*" = false -> HasPrefix n p = false -> strip_prefix p n = n.
Proof. intros Hc Hp. unfold strip_prefix, strip_wildcard. by rewrite Hp, Hc. Qed.

(** A request pattern matches exactly when it names at least one field and
    every field it names matches the request's field of that name. *)
Theorem RequestPattern_Match_correct self reqFields :
  RequestPattern_Match self reqFields = true <->
  (exists fn p, (fn, Some p) ∈ rp_fields self) /\
  (forall fn p, (fn, Some p) ∈ rp_fields self -> denotes p (map_str reqFields fn)).
Proof.
  rewrite RequestPattern_Match_iff. setoid_rewrite MatchPattern_denotes.
  apply and_iff_compat_r. unfold no_fields. rewrite forallb_false. split.
  - intros ([fn [p|]] & Hin & Hp); [by eauto|]. by rewrite bool_decide_eq_true_2 in Hp.
  - intros (fn & p & Hin). exists (fn, Some p). split; [done|]. by apply bool_decide_eq_false.
Qed.

(** A rule applies to a request exactly when one of its match patterns does
    and none of its exclude patterns does. *)
Theorem MatchWithRequest_correct self reqFields :
  MatchWithRequest self reqFields = true <->
  (exists p, p ∈ rule_Match self /\ RequestPattern_Match p reqFields = true) /\
  (forall p, p ∈ rule_Exclude self -> RequestPattern_Match p reqFields = false).
Proof. apply rule_with_iff. Qed.

(** Strict matching narrows ordinary matching when the name pattern carries no
    surrounding white space. *)
Lemma field_test_strict reqFields f :
  (forall p, f.2 = Some p -> TrimSpace p = p) ->
  field_test reqFields true f = true -> field_test reqFields false f = true.
Proof.
  destruct f as [fn [p|]]; unfold field_test; cbn [fst snd]; [|done].
  rewrite andb_true_r, andb_false_r. intros Ht. case_bool_decide; [|done].
  intros Hx%ExactMatch_iff. apply MatchPattern_complete. subst p. apply D_exact. auto.
Qed.

(** A profile outside the shield's namespace matches cluster-scope requests
    strictly, and strict matching never accepts a request the ordinary matching
    rejects (for patterns without surrounding white space), nor any cluster-scope
    request when the pattern names no resource. *)
Theorem StrictMatch_narrows self reqFields
    (Htrim : forall fn p, (fn, Some p) ∈ rp_fields self -> TrimSpace p = p) :
  RequestPattern_StrictMatch self reqFields = true ->
  RequestPattern_Match self reqFields = true /\
  (reqScope reqFields = "Cluster" -> rp_Name self <> None).
Proof.
  unfold RequestPattern_StrictMatch, RequestPattern_Match. rewrite !rp_match_eq.
  rewrite !andb_true_iff, !forallb_true. intros (Hg & Hn & Hf). split.
  - split; [done|]. split; [done|]. intros [fn o] Hin. apply field_test_strict; [|by apply Hf].
    cbn. intros p ->. by eapply Htrim.
  - intros Hc He. rewrite Hc, He in Hg. done.
Qed.

Definition cm_pattern : RequestPattern :=
  mkRequestPattern None None None (Some "ClusterRole") (Some "admin") None None None.
Definition cm_fields : gmap string string :=
  <["ResourceScope" := "Cluster"]> (<["Kind" := "ClusterRole"]> {["Name" := "admin"]}).

Lemma StrictMatch_narrows_witness :
  RequestPattern_Match cm_pattern cm_fields = true /\
  (reqScope cm_fields = "Cluster" -> rp_Name cm_pattern <> None).
Proof.
  apply (StrictMatch_narrows cm_pattern cm_fields); [|vm_compute; reflexivity].
  intros fn p Hin.
  repeat (apply elem_of_cons in Hin as [Hin|Hin]; [injection Hin; intros; simplify_eq; reflexivity|]).
  by apply elem_of_nil in Hin.
Defined.

(** Removing a kustomize prefix and suffix undoes adding them: the override
    of the name [prefix ++ name ++ suffix] is [name], and the namespace becomes
    the wildcard exactly when the pattern allows namespace changes. *)
Theorem Override_roundtrip pats pre suf chg name ns kind ver :
  Override (mkKustomizePattern pats (Some pre) (Some suf) chg)
           (mkResourceRef (pre +:+ name +:+ suf) ns kind ver) =
  mkResourceRef name (if chg then "*" else ns) kind ver.
Proof.
  unfold Override, overrideName. cbn [kp_NamePrefix kp_NameSuffix ref_Name].
  by rewrite strip_prefix_app, strip_suffix_app.
Qed.

(** The [scope] field of a request pattern is compared with a request field
    that no request has, so a pattern that asks for a scope matches no request. *)
Theorem scope_pattern_never_matches self scope reqc :
  rp_Scope self = Some scope ->
  MatchPattern scope "" = false ->
  RequestPattern_Match self (ReqMap reqc) = false.
Proof.
  intros Hs Hm. apply not_true_iff_false. intros [_ H]%RequestPattern_Match_iff.
  specialize (H "Scope" scope). unfold map_str in H. rewrite ReqMap_Scope in H. cbn in H.
  unfold rp_fields in H. rewrite Hs in H. rewrite H in Hm; [done|set_solver].
Qed.

Definition cluster_pattern : RequestPattern :=
  mkRequestPattern (Some "Cluster") None None None None None None None.
Definition sample_meta : ObjectMetadata := mkObjectMetadata (mkResourceAnnotation ∅) (mkResourceLabel ∅).
Definition cluster_request : ReqContext :=
  mkReqContext "Cluster" false None None "" "uid" "" "admin" "rbac.authorization.k8s.io" "v1" "ClusterRole"
    "CREATE" sample_meta sample_meta "" "" "" "alice" [] "" "" "".

Lemma scope_pattern_never_matches_witness :
  rc_ResourceScope cluster_request = "Cluster" /\
  RequestPattern_Match cluster_pattern (ReqMap cluster_request) = false.
Proof.
  split; [reflexivity|].
  apply (scope_pattern_never_matches cluster_pattern "Cluster" cluster_request); reflexivity.
Defined.
