(* ===== verification/SigningProfile.v ===== *)
(** * ResourceSigningProfile  ([shield/pkg/apis/resourcesigningprofile/v1alpha1/types.go])

    The custom resource that says which requests need a signature, with its
    matching, merging and status operations. *)
From S2P Require Import Prelude GoStrings Pattern Common ReqContext Profile.
From stdpp Require Import options.

Definition maxHistoryLength : nat := 3.

(** ** Data *)

Record ResourceSigningProfileSpec := mkRSPSpec {
  rsps_Disabled : bool;
  rsps_TargetNamespaceSelector : option NamespaceSelector;
  rsps_ProtectRules : list Rule;
  rsps_IgnoreRules : list Rule;
  rsps_ForceCheckRules : list Rule;
  rsps_KustomizePatterns : list KustomizePattern;
  rsps_ProtectAttrs : list AttrsPattern;
  rsps_UnprotectAttrs : list AttrsPattern;
  rsps_IgnoreAttrs : list AttrsPattern;
}.

Record ProfileStatusSummary := mkSummary { pss_GroupVersionKind : string; pss_Count : nat }.
Record ProfileStatusDetail := mkDetail { psd_Request : Request; psd_Result : Result }.

Record ResourceSigningProfileStatus := mkRSPStatus {
  rspst_DenyCount : nat;
  rspst_Summary : list ProfileStatusSummary;
  rspst_Latest : list ProfileStatusDetail;
}.

Record ResourceSigningProfile := mkRSP {
  rsp_meta : ObjectMeta;
  rsp_Spec : ResourceSigningProfileSpec;
  rsp_Status : ResourceSigningProfileStatus;
}.

(** The zero values of the structs. *)
Definition emptyRSPSpec : ResourceSigningProfileSpec := mkRSPSpec false None [] [] [] [] [] [] [].
Definition emptyRSPStatus : ResourceSigningProfileStatus := mkRSPStatus 0 [] [].
Definition emptyMeta : ObjectMeta := mkObjectMeta "" "" "" ∅.
Definition emptyRSP : ResourceSigningProfile := mkRSP emptyMeta emptyRSPSpec emptyRSPStatus.

Definition rsp_Namespace (self : ResourceSigningProfile) : string := om_Namespace (rsp_meta self).
Definition rsp_Name (self : ResourceSigningProfile) : string := om_Name (rsp_meta self).

(** ** Operations *)

Definition RSP_IsEmpty (self : ResourceSigningProfile) : bool :=
  bool_decide (length (rsps_ProtectRules (rsp_Spec self)) = 0).

(** Strict matching applies to cluster-scope requests under a profile that is
    not in the shield's own namespace. *)
Definition rsp_strict (self : ResourceSigningProfile) (reqFields : gmap string string) (iShieldNS : string) : bool :=
  bool_decide (reqScope reqFields = "Cluster") && negb (bool_decide (rsp_Namespace self = iShieldNS)).

(** The test of the three loops of [Match]. *)
Definition rule_hits (strictMatch : bool) (reqFields : gmap string string) (rule : Rule) : bool :=
  if strictMatch && StrictMatchWithRequest rule reqFields then true
  else if negb strictMatch && MatchWithRequest rule reqFields then true
  else false.

(** [Match]: whether the request is protected, and the rule that decided. *)
Definition RSP_Match (self : ResourceSigningProfile) (reqFields : gmap string string) (iShieldNS : string)
  : bool * option Rule :=
  let strictMatch := rsp_strict self reqFields iShieldNS in
  let hits := rule_hits strictMatch reqFields in
  match List.find hits (rsps_ForceCheckRules (rsp_Spec self)) with
  | Some rule => (true, Some rule)
  | None =>
      match List.find hits (rsps_IgnoreRules (rsp_Spec self)) with
      | Some rule => (false, Some rule)
      | None =>
          match List.find hits (rsps_ProtectRules (rsp_Spec self)) with
          | Some rule => (true, Some rule)
          | None => (false, None)
          end
      end
  end.

(** [Merge]: the rules and attributes of [another] go after those of [self];
    kustomize patterns and [UnprotectAttrs] are kept from [self]. *)
Definition RSP_Merge (self another : ResourceSigningProfile) : ResourceSigningProfile :=
  let s := rsp_Spec self in
  let a := rsp_Spec another in
  mkRSP (rsp_meta self)
    {| rsps_Disabled := rsps_Disabled s;
       rsps_TargetNamespaceSelector := rsps_TargetNamespaceSelector s;
       rsps_ProtectRules := rsps_ProtectRules s ++ rsps_ProtectRules a;
       rsps_IgnoreRules := rsps_IgnoreRules s ++ rsps_IgnoreRules a;
       rsps_ForceCheckRules := rsps_ForceCheckRules s ++ rsps_ForceCheckRules a;
       rsps_KustomizePatterns := rsps_KustomizePatterns s;
       rsps_ProtectAttrs := rsps_ProtectAttrs s ++ rsps_ProtectAttrs a;
       rsps_UnprotectAttrs := rsps_UnprotectAttrs s;
       rsps_IgnoreAttrs := rsps_IgnoreAttrs s ++ rsps_IgnoreAttrs a |}
    (rsp_Status self).

(** The loops that collect the matching patterns. *)
Definition RSP_Kustomize (self : ResourceSigningProfile) (reqFields : gmap string string) : list KustomizePattern :=
  List.filter (fun p => Kustomize_MatchWith p reqFields) (rsps_KustomizePatterns (rsp_Spec self)).

Definition RSP_ProtectAttrs (self : ResourceSigningProfile) (reqFields : gmap string string) : list AttrsPattern :=
  List.filter (fun p => Attrs_MatchWith p reqFields) (rsps_ProtectAttrs (rsp_Spec self)).

Definition RSP_IgnoreAttrs (self : ResourceSigningProfile) (reqFields : gmap string string) : list AttrsPattern :=
  List.filter (fun p => Attrs_MatchWith p reqFields) (rsps_IgnoreAttrs (rsp_Spec self)) ++
  List.filter (fun p => Attrs_MatchWith p reqFields) (rsps_UnprotectAttrs (rsp_Spec self)).

(** The index of the last summary with this group-version-kind. *)
Fixpoint last_index (gvk : string) (i : nat) (l : list ProfileStatusSummary) : option nat :=
  match l with
  | [] => None
  | s :: l' =>
      match last_index gvk (S i) l' with
      | Some j => Some j
      | None => if bool_decide (gvk = pss_GroupVersionKind s) then Some i else None
      end
  end.

Definition bump_summary (gvk : string) (l : list ProfileStatusSummary) : list ProfileStatusSummary :=
  match last_index gvk 0 l with
  | None => l ++ [mkSummary gvk 1]
  | Some i => alter (fun s => mkSummary (pss_GroupVersionKind s) (S (pss_Count s))) i l
  end.

(** [UpdateStatus]; [now] is the formatted current time. *)
Definition UpdateStatus `{K8sApi} (self : ResourceSigningProfile) (request : Request) (errMsg now : string)
  : ResourceSigningProfile :=
  let st := rsp_Status self in
  let latest := mkDetail request (mkResult errMsg now) :: rspst_Latest st in
  mkRSP (rsp_meta self) (rsp_Spec self)
    {| rspst_DenyCount := rspst_DenyCount st + 1;
       rspst_Summary := bump_summary (Request_GroupVersionKind request) (rspst_Summary st);
       rspst_Latest := if Nat.ltb maxHistoryLength (length latest) then take maxHistoryLength latest else latest |}.

(** ** Facts: matching *)

Lemma rule_hits_eq strict reqFields rule :
  rule_hits strict reqFields rule =
  (if strict then StrictMatchWithRequest rule reqFields else MatchWithRequest rule reqFields).
Proof.
  unfold rule_hits. destruct strict; cbn [andb negb];
    [by destruct (StrictMatchWithRequest _ _)|by destruct (MatchWithRequest _ _)].
Qed.

Lemma find_existsb {A} (p : A -> bool) l : bool_decide (List.find p l <> None) = existsb p l.
Proof.
  induction l as [|x l IH]; cbn; [done|]. destruct (p x); cbn; [done|]. by rewrite <-IH.
Qed.

Lemma find_existsb_None {A} (p : A -> bool) l : List.find p l = None <-> existsb p l = false.
Proof. rewrite find_None_all, existsb_false. done. Qed.

(** What the three rule lists say of a request, as a decision table. *)
Inductive verdict := Forced | Ignored | Protected | Unmatched.

Definition rsp_verdict (self : ResourceSigningProfile) (reqFields : gmap string string) (iShieldNS : string) : verdict :=
  let any rules := existsb (rule_hits (rsp_strict self reqFields iShieldNS) reqFields) rules in
  if any (rsps_ForceCheckRules (rsp_Spec self)) then Forced
  else if any (rsps_IgnoreRules (rsp_Spec self)) then Ignored
  else if any (rsps_ProtectRules (rsp_Spec self)) then Protected
  else Unmatched.

Definition verdict_protects (v : verdict) : bool :=
  match v with Forced | Protected => true | Ignored | Unmatched => false end.
Definition verdict_matched (v : verdict) : bool :=
  match v with Unmatched => false | _ => true end.

Lemma RSP_Match_verdict self reqFields ns :
  (RSP_Match self reqFields ns).1 = verdict_protects (rsp_verdict self reqFields ns) /\
  bool_decide ((RSP_Match self reqFields ns).2 <> None) = verdict_matched (rsp_verdict self reqFields ns).
Proof.
  unfold RSP_Match, rsp_verdict. rewrite <-!find_existsb.
  destruct (List.find _ (rsps_ForceCheckRules _)); [done|]. cbn.
  destruct (List.find _ (rsps_IgnoreRules _)); [done|]. cbn.
  destruct (List.find _ (rsps_ProtectRules _)); done.
Qed.

(** A profile protects a request exactly when a force-check rule applies, or
    no ignore rule applies and a protect rule does; a deciding rule is reported
    exactly when one of the three lists applies. *)
Theorem RSP_Match_priority self reqFields ns :
  let any rules := existsb (rule_hits (rsp_strict self reqFields ns) reqFields) rules in
  let force := any (rsps_ForceCheckRules (rsp_Spec self)) in
  let ignore := any (rsps_IgnoreRules (rsp_Spec self)) in
  let protect := any (rsps_ProtectRules (rsp_Spec self)) in
  (RSP_Match self reqFields ns).1 = force || (negb ignore && protect) /\
  ((RSP_Match self reqFields ns).2 = None <-> force || ignore || protect = false).
Proof.
  intros any force ignore protect. destruct (RSP_Match_verdict self reqFields ns) as [-> H].
  unfold rsp_verdict in *. subst any force ignore protect. cbv zeta beta in *.
  split; [repeat case_goal; done|].
  destruct ((RSP_Match self reqFields ns).2); cbn in H; repeat case_hyp H; naive_solver.
Qed.

Lemma strict_Merge self another reqFields ns :
  rsp_strict (RSP_Merge self another) reqFields ns = rsp_strict self reqFields ns.
Proof. done. Qed.

(** Merging the common profile into a profile can only widen what is
    ignored: a request protected after the merge with a profile that has only
    ignore rules was protected before, unless it is forced. *)
Theorem RSP_Merge_common_weakens self common reqFields ns :
  rsps_ProtectRules (rsp_Spec common) = [] ->
  rsps_ForceCheckRules (rsp_Spec common) = [] ->
  (RSP_Match (RSP_Merge self common) reqFields ns).1 = true ->
  (RSP_Match self reqFields ns).1 = true.
Proof.
  intros Hp Hf. rewrite !(proj1 (RSP_Match_verdict _ _ _)). unfold rsp_verdict.
  rewrite strict_Merge. cbn [RSP_Merge rsp_Spec rsps_ForceCheckRules rsps_IgnoreRules rsps_ProtectRules].
  rewrite Hp, Hf, !app_nil_r, existsb_app_or.
  repeat case_goal; cbn; try done; bool_prop; congruence.
Qed.

(** ** Facts: status *)

Definition total (l : list ProfileStatusSummary) : nat := sum_list_with pss_Count l.

Lemma last_index_Some gvk i l j :
  last_index gvk i l = Some j ->
  i <= j /\ exists s, l !! (j - i) = Some s /\ pss_GroupVersionKind s = gvk.
Proof.
  revert i. induction l as [|s l IH]; intros i; cbn; [done|].
  destruct (last_index gvk (S i) l) as [j'|] eqn:E.
  - intros [= ->]. apply IH in E as (Hle & s' & Hs & Hg). split; [lia|].
    exists s'. split; [|done]. by replace (j - i) with (S (j - S i)) by lia.
  - case_bool_decide as Hg; [|done]. intros [= ->]. split; [lia|]. exists s.
    by rewrite Nat.sub_diag.
Qed.

Lemma last_index_None gvk i l :
  last_index gvk i l = None -> gvk ∉ (pss_GroupVersionKind <$> l).
Proof.
  revert i. induction l as [|s l IH]; intros i; cbn; [set_solver|].
  destruct (last_index gvk (S i) l) eqn:E; [done|]. case_bool_decide; [done|].
  apply IH in E. set_solver.
Qed.

Lemma total_app l k : total (l ++ k) = total l + total k.
Proof. apply sum_list_with_app. Qed.

Lemma total_alter i l s :
  l !! i = Some s ->
  total (alter (fun s => mkSummary (pss_GroupVersionKind s) (S (pss_Count s))) i l) = S (total l).
Proof.
  revert i. induction l as [|x l IH]; intros [|i] H; simplify_eq/=; [done|].
  unfold total in *. cbn. rewrite IH by done. lia.
Qed.

Lemma gvks_alter i (l : list ProfileStatusSummary) :
  pss_GroupVersionKind <$> alter (fun s => mkSummary (pss_GroupVersionKind s) (S (pss_Count s))) i l =
  pss_GroupVersionKind <$> l.
Proof. revert i. induction l as [|x l IH]; intros [|i]; cbn; try done. by rewrite IH. Qed.

Lemma bump_summary_total gvk l : total (bump_summary gvk l) = S (total l).
Proof.
  unfold bump_summary. destruct (last_index gvk 0 l) as [i|] eqn:E.
  - apply last_index_Some in E as (_ & s & Hs & _). rewrite Nat.sub_0_r in Hs. by eapply total_alter.
  - rewrite total_app. cbn. lia.
Qed.

Lemma bump_summary_NoDup gvk l :
  NoDup (pss_GroupVersionKind <$> l) -> NoDup (pss_GroupVersionKind <$> bump_summary gvk l).
Proof.
  unfold bump_summary. destruct (last_index gvk 0 l) as [i|] eqn:E; [by rewrite gvks_alter|].
  apply last_index_None in E. rewrite fmap_app. intros. apply NoDup_app.
  split; [done|]. split; [set_solver|apply NoDup_singleton].
Qed.

(** The status invariant: one summary per group-version-kind, whose counts add
    up to the deny count, and at most three latest events. *)
Definition status_ok (st : ResourceSigningProfileStatus) : Prop :=
  NoDup (pss_GroupVersionKind <$> rspst_Summary st) /\
  total (rspst_Summary st) = rspst_DenyCount st /\
  length (rspst_Latest st) <= maxHistoryLength.

Lemma status_ok_empty : status_ok emptyRSPStatus.
Proof. split; [apply NoDup_nil_2|]. split; [done|cbn; lia]. Qed.

(** Every denial recorded by [UpdateStatus] keeps the status consistent: the
    summary counts add up to the deny count, which grows by one, there is one
    summary line per kind, and the history holds the new event first and at most
    three events. *)
Theorem UpdateStatus_invariant `{K8sApi} self request errMsg now :
  status_ok (rsp_Status self) ->
  let st := rsp_Status (UpdateStatus self request errMsg now) in
  status_ok st /\
  rspst_DenyCount st = S (rspst_DenyCount (rsp_Status self)) /\
  head (rspst_Latest st) = Some (mkDetail request (mkResult errMsg now)).
Proof.
  intros (Hnd & Ht & Hl). unfold UpdateStatus; cbn [rsp_Status].
  split; [|split; [cbn; lia|cbn [rspst_Latest]; by case_goal]].
  split; [by apply bump_summary_NoDup|]. cbn [rspst_Summary rspst_DenyCount rspst_Latest].
  split; [rewrite bump_summary_total; lia|]. case_goal; [rewrite length_take; lia|].
  apply Nat.ltb_ge in Heqb. done.
Qed.

(** ** Concrete instances *)

(** A Kubernetes API whose selectors compare [matchLabels] only. *)
Definition sample_k8s : K8sApi := {|
  LabelSelectorAsSelector sel :=
    Some (fun labels => forallb (fun kv => bool_decide (labels !! kv.1 = Some kv.2))
                          (map_to_list (ls_MatchLabels sel)));
  gv_String g v := if bool_decide (g = "") then v else g +:+ "/" +:+ v;
  gvk_String g v k := g +:+ "/" +:+ v +:+ ", Kind=" +:+ k |}.

Definition kind_pattern (k : string) : RequestPattern :=
  mkRequestPattern None None None (Some k) None None None None.
Definition kind_rule (k : string) : Rule := mkRule [kind_pattern k] [].
Definition protect_kind (k : string) : ResourceSigningProfile :=
  mkRSP emptyMeta (mkRSPSpec false None [kind_rule k] [] [] [] [] [] []) emptyRSPStatus.
Definition ignore_kind (k : string) : ResourceSigningProfile :=
  mkRSP emptyMeta (mkRSPSpec false None [] [kind_rule k] [] [] [] [] []) emptyRSPStatus.

Lemma RSP_Merge_common_weakens_witness :
  (RSP_Match (protect_kind "ClusterRole") (ReqMap cluster_request) "").1 = true.
Proof.
  apply (RSP_Merge_common_weakens (protect_kind "ClusterRole") (ignore_kind "Pod")); vm_compute; reflexivity.
Defined.

Lemma UpdateStatus_invariant_witness :
  status_ok (rsp_Status (@UpdateStatus sample_k8s emptyRSP (NewRequestFromReqContext cluster_request) "no signature" "now")).
Proof.
  apply (@UpdateStatus_invariant sample_k8s emptyRSP (NewRequestFromReqContext cluster_request) "no signature" "now").
  exact status_ok_empty.
Defined.
