(* ===== verification/Policy.v ===== *)
(** * Signer configuration  ([shield/pkg/common/policy.go])

    Which keys may sign for a namespace, and whether a verified signer is one
    the configuration accepts. *)
From S2P Require Import Prelude GoStrings Pattern Common.
From stdpp Require Import options.

(** ** Data *)

(** [ScopeType] is a string type with three named values. *)
Definition ScopeUndefined : string := "".
Definition ScopeNamespaced : string := "Namespaced".
Definition ScopeCluster : string := "Cluster".

Record SignerConfigCondition := mkSignerConfigCondition {
  scc_Scope : string;
  scc_Namespaces : list string;
  scc_ExcludeNamespaces : list string;
  scc_Signers : list string;
}.

Record SubjectMatchPattern := mkSubjectMatchPattern {
  smp_Email : string;
  smp_Uid : string;
  smp_Country : string;
  smp_Organization : string;
  smp_OrganizationalUnit : string;
  smp_Locality : string;
  smp_Province : string;
  smp_StreetAddress : string;
  smp_PostalCode : string;
  smp_CommonName : string;
  smp_SerialNumber : string;
}.

Record SignerCondition := mkSignerCondition {
  sc_Name : string;
  sc_KeyConfig : string;
  sc_Subjects : list SubjectMatchPattern;
}.

Record BreakGlassCondition := mkBreakGlassCondition { bgc_Scope : string; bgc_Namespaces : list string }.

Record SubjectCondition := mkSubjectCondition {
  sjc_Name : string;
  sjc_KeyConfig : string;
  sjc_Subject : SubjectMatchPattern;
}.

Record SignerConfig := mkSignerConfig {
  sgc_Policies : list SignerConfigCondition;
  sgc_Signers : list SignerCondition;
  sgc_BreakGlass : list BreakGlassCondition;
  sgc_Description : string;
}.

(** ** Operations *)

(** [SubjectCondition.Match]; the conjunction stops at the first failure, so the
    serial number, whose test may panic, is only read when the rest matches. *)
Definition SubjectCondition_Match (self : SubjectCondition) (signer : SignerInfo) : go bool :=
  let p := sjc_Subject self in
  if MatchPattern (smp_Email p) (si_Email signer) &&
     MatchPattern (smp_Uid p) (si_Uid signer) &&
     MatchPattern (smp_Country p) (si_Country signer) &&
     MatchPattern (smp_Organization p) (si_Organization signer) &&
     MatchPattern (smp_OrganizationalUnit p) (si_OrganizationalUnit signer) &&
     MatchPattern (smp_Locality p) (si_Locality signer) &&
     MatchPattern (smp_Province p) (si_Province signer) &&
     MatchPattern (smp_StreetAddress p) (si_StreetAddress signer) &&
     MatchPattern (smp_PostalCode p) (si_PostalCode signer) &&
     MatchPattern (smp_CommonName p) (si_CommonName signer)
  then MatchBigInt (smp_SerialNumber p) (si_SerialNumber signer)
  else Ret false.

Definition subject_conditions (si : SignerCondition) : list SubjectCondition :=
  (fun sj => mkSubjectCondition (sc_Name si) (sc_KeyConfig si) sj) <$> sc_Subjects si.

(** [GetSignerMap]: a later signer of the same name replaces an earlier one. *)
Definition GetSignerMap (self : SignerConfig) : gmap string (list SubjectCondition) :=
  foldl (fun m si => <[sc_Name si := subject_conditions si]> m) ∅ (sgc_Signers self).

Definition SignerConfig_Merge (self data : SignerConfig) : SignerConfig :=
  mkSignerConfig (sgc_Policies self ++ sgc_Policies data) (sgc_Signers self ++ sgc_Signers data)
    (sgc_BreakGlass self ++ sgc_BreakGlass data) (sgc_Description self).

(** [included] and [excluded] of a policy for a namespace, as both methods
    compute them. *)
Definition policy_included (namespace : string) (spc : SignerConfigCondition) : bool :=
  if bool_decide (namespace = "") then bool_decide (scc_Scope spc = ScopeCluster)
  else if bool_decide (scc_Scope spc = ScopeCluster) then false
  else MatchWithPatternArray namespace (scc_Namespaces spc).

Definition policy_excluded (namespace : string) (spc : SignerConfigCondition) : bool :=
  if bool_decide (namespace = "") then false
  else if bool_decide (scc_Scope spc = ScopeCluster) then false
  else MatchWithPatternArray namespace (scc_ExcludeNamespaces spc).

(** The key configurations of the signers of the policies in scope. *)
Definition candidate_configs (self : SignerConfig) (namespace : string) : list string :=
  spc ← sgc_Policies self;
  if negb (policy_included namespace spc) || policy_excluded namespace spc then []
  else signerName ← scc_Signers spc;
       sc_KeyConfig <$> List.filter (fun sc => bool_decide (sc_Name sc = signerName)) (sgc_Signers self).

(** Which list a key path goes to: the first candidate whose PGP or X.509
    directory occurs in it decides. *)
Inductive key_class := KeyPGP | KeyX509.
Fixpoint classify (keyPath : string) (candidates : list string) : option key_class :=
  match candidates with
  | [] => None
  | keyConfName :: l =>
      let pgpPattern := "/" +:+ keyConfName +:+ "/" +:+ SignatureTypePGP +:+ "/" in
      let x509Pattern := "/" +:+ keyConfName +:+ "/" +:+ SignatureTypeX509 +:+ "/" in
      if Contains keyPath pgpPattern then Some KeyPGP
      else if Contains keyPath x509Pattern then Some KeyX509
      else classify keyPath l
  end.

#[global] Instance key_class_eq_dec : EqDecision key_class.
Proof. solve_decision. Defined.

(** [GetCandidatePubkeys]: the PGP and the X.509 entries of the result map. *)
Definition GetCandidatePubkeys (self : SignerConfig) (keyPathList : list string) (namespace : string)
  : list string * list string :=
  let candidates := candidate_configs self namespace in
  (List.filter (fun k => bool_decide (classify k candidates = Some KeyPGP)) keyPathList,
   List.filter (fun k => bool_decide (classify k candidates = Some KeyX509)) keyPathList).

(** The loop over the conditions of one signer: no early exit, so every
    condition is tried. *)
Fixpoint subjects_loop (signer : SignerInfo) (verifiedKeyPathList : list string) (acc : bool)
    (conds : list SubjectCondition) : go bool :=
  match conds with
  | [] => Ret acc
  | c :: conds' =>
      match SubjectCondition_Match c signer with
      | Panic => Panic
      | Ret false => subjects_loop signer verifiedKeyPathList acc conds'
      | Ret true =>
          let hit := existsb (fun keyPath => Contains keyPath ("/" +:+ sjc_KeyConfig c +:+ "/")) verifiedKeyPathList in
          subjects_loop signer verifiedKeyPathList (acc || hit) conds'
      end
  end.

(** [signerMatched] for one policy: stops at the first signer that matches. *)
Definition policy_signer_matched (signerMap : gmap string (list SubjectCondition)) (signer : SignerInfo)
    (verifiedKeyPathList : list string) (spc : SignerConfigCondition) : go bool :=
  go_existsb (fun signerName =>
      match signerMap !! signerName with
      | None => Ret false
      | Some conds => subjects_loop signer verifiedKeyPathList false conds
      end) (scc_Signers spc).

Fixpoint policies_loop (signerMap : gmap string (list SubjectCondition)) (namespace : string) (signer : SignerInfo)
    (verifiedKeyPathList : list string) (l : list SignerConfigCondition) : go (bool * option SignerConfigCondition) :=
  match l with
  | [] => Ret (false, None)
  | spc :: l' =>
      match policy_signer_matched signerMap signer verifiedKeyPathList spc with
      | Panic => Panic
      | Ret signerMatched =>
          if policy_included namespace spc && negb (policy_excluded namespace spc) && signerMatched
          then Ret (true, Some spc)
          else policies_loop signerMap namespace signer verifiedKeyPathList l'
      end
  end.

Definition SignerConfig_Match (self : SignerConfig) (namespace : string) (signer : SignerInfo)
    (verifiedKeyPathList : list string) : go (bool * option SignerConfigCondition) :=
  policies_loop (GetSignerMap self) namespace signer verifiedKeyPathList (sgc_Policies self).

(** ** Facts *)

Definition policy_in_scope (namespace : string) (spc : SignerConfigCondition) : bool :=
  policy_included namespace spc && negb (policy_excluded namespace spc).

(** A condition is satisfied by a signer and the keys its signature verified with. *)
Definition condition_ok (signer : SignerInfo) (keys : list string) (c : SubjectCondition) : Prop :=
  SubjectCondition_Match c signer = Ret true /\
  exists k, k ∈ keys /\ Contains k ("/" +:+ sjc_KeyConfig c +:+ "/") = true.

Lemma subjects_loop_true signer keys acc conds :
  subjects_loop signer keys acc conds = Ret true ->
  acc = true \/ exists c, c ∈ conds /\ condition_ok signer keys c.
Proof.
  revert acc. induction conds as [|c conds IH]; intros acc; cbn [subjects_loop]; [naive_solver|].
  destruct (SubjectCondition_Match c signer) as [[]|] eqn:E; [| |done].
  - intros [H|(c' & ? & ?)]%IH; [|right; exists c'; set_solver].
    apply orb_true_iff in H as [H|H]; [by left|]. right. exists c. split; [left|].
    split; [done|]. by apply existsb_true in H.
  - intros [H|(c' & ? & ?)]%IH; [by left|]. right. exists c'. set_solver.
Qed.

Lemma subjects_loop_complete signer keys acc conds b :
  subjects_loop signer keys acc conds = Ret b ->
  (acc = true \/ exists c, c ∈ conds /\ condition_ok signer keys c) -> b = true.
Proof.
  revert acc. induction conds as [|c conds IH]; intros acc; cbn [subjects_loop].
  - intros [= ->] [H|(c & Hc & _)]; [done|inversion Hc].
  - destruct (SubjectCondition_Match c signer) as [[]|] eqn:E; [| |done]; intros HL H; apply (IH _ HL).
    + destruct H as [->|(c' & [->|Hc]%elem_of_cons & Hok)]; [by left| |right; eauto].
      left. destruct Hok as [_ Hk]. apply existsb_true in Hk. rewrite Hk. apply orb_true_r.
    + destruct H as [->|(c' & [->|Hc]%elem_of_cons & Hok)]; [by left| |right; eauto].
      destruct Hok as [Hm _]. congruence.
Qed.

Lemma go_existsb_true {A} (p : A -> go bool) l :
  go_existsb p l = Ret true -> exists x, x ∈ l /\ p x = Ret true.
Proof.
  induction l as [|x l IH]; cbn; [done|]. destruct (p x) as [[]|] eqn:E; [| |done].
  - intros _. exists x. split; [left|done].
  - intros (y & Hy & Hp)%IH. exists y. split; [by right|done].
Qed.

Lemma go_existsb_false {A} (p : A -> go bool) l :
  go_existsb p l = Ret false -> forall x, x ∈ l -> p x = Ret false.
Proof.
  induction l as [|x l IH]; cbn; [intros _ x Hx; inversion Hx|].
  destruct (p x) as [[]|] eqn:E; [done| |done].
  intros H y [->|Hy]%elem_of_cons; auto.
Qed.

Lemma policies_loop_true m ns signer keys l b o :
  policies_loop m ns signer keys l = Ret (b, o) ->
  (b = true -> exists spc, o = Some spc /\ spc ∈ l /\ policy_in_scope ns spc = true /\
                 policy_signer_matched m signer keys spc = Ret true) /\
  (b = false -> o = None /\ forall spc, spc ∈ l -> policy_in_scope ns spc = true ->
                 policy_signer_matched m signer keys spc = Ret false).
Proof.
  induction l as [|spc l IH]; cbn.
  - intros [= <- <-]. split; [done|]. intros _. split; [done|]. intros spc H. inversion H.
  - destruct (policy_signer_matched m signer keys spc) as [sm|] eqn:E; [|done].
    unfold policy_in_scope in *.
    destruct (policy_included ns spc && negb (policy_excluded ns spc)) eqn:Es; cbn.
    + destruct sm.
      * intros [= <- <-]. split; [|done]. intros _. exists spc. repeat split; auto. left.
      * intros H. destruct (IH H) as [H1 H2]. split.
        -- intros Hb. destruct (H1 Hb) as (s & ? & ? & ? & ?). exists s. repeat split; auto. by right.
        -- intros Hb. destruct (H2 Hb) as [? H3]. split; [done|].
           intros s [->|Hs]%elem_of_cons; auto.
    + intros H. destruct (IH H) as [H1 H2]. split.
      * intros Hb. destruct (H1 Hb) as (s & ? & ? & ? & ?). exists s. repeat split; auto. by right.
      * intros Hb. destruct (H2 Hb) as [? H3]. split; [done|].
        intros s [->|Hs]%elem_of_cons Hsc; [congruence|auto].
Qed.

(** Some signer of the policy, looked up in the signer map, has a satisfied
    condition. *)
Definition signer_ok (self : SignerConfig) (signer : SignerInfo) (keys : list string)
    (spc : SignerConfigCondition) : Prop :=
  exists name conds c, name ∈ scc_Signers spc /\ GetSignerMap self !! name = Some conds /\
    c ∈ conds /\ condition_ok signer keys c.

Lemma policy_signer_matched_true self signer keys spc :
  policy_signer_matched (GetSignerMap self) signer keys spc = Ret true -> signer_ok self signer keys spc.
Proof.
  intros (name & Hn & Hl)%go_existsb_true. destruct (GetSignerMap self !! name) as [conds|] eqn:E; [|done].
  apply subjects_loop_true in Hl as [|(c & Hc & Hok)]; [done|]. by exists name, conds, c.
Qed.

Lemma policy_signer_matched_false self signer keys spc :
  policy_signer_matched (GetSignerMap self) signer keys spc = Ret false -> ~ signer_ok self signer keys spc.
Proof.
  intros H (name & conds & c & Hn & Hm & Hc & Hok).
  apply (go_existsb_false _ _ H) in Hn. rewrite Hm in Hn.
  apply subjects_loop_complete in Hn; [done|]. right. eauto.
Qed.

(** C27: when the signer check does not panic, it accepts exactly the signers for
    which some policy in scope of the namespace names a signer with a subject
    that matches and a key configuration one of the verified keys belongs to;
    the policy it returns is such a policy. *)
Theorem SignerConfig_Match_correct self ns signer keys b o :
  SignerConfig_Match self ns signer keys = Ret (b, o) ->
  (b = true <-> exists spc, spc ∈ sgc_Policies self /\ policy_in_scope ns spc = true /\
                            signer_ok self signer keys spc) /\
  (forall spc, o = Some spc -> policy_in_scope ns spc = true /\ signer_ok self signer keys spc).
Proof.
  intros [Ht Hf]%policies_loop_true. split.
  - split.
    + intros Hb. destruct (Ht Hb) as (spc & -> & Hin & Hsc & Hm). exists spc. repeat split; auto.
      by apply policy_signer_matched_true.
    + intros (spc & Hin & Hsc & Hok). destruct b; [done|]. destruct (Hf eq_refl) as [_ H].
      by destruct (policy_signer_matched_false _ _ _ _ (H spc Hin Hsc)).
  - intros spc ->. destruct b; [|by destruct (Hf eq_refl)].
    destruct (Ht eq_refl) as (spc' & [= <-] & _ & Hsc & Hm). split; [done|].
    by apply policy_signer_matched_true.
Qed.

(** ** Candidate keys *)

Lemma classify_Some k cands c :
  classify k cands = Some c ->
  exists kc, kc ∈ cands /\
    Contains k ("/" +:+ kc +:+ "/" +:+ (if c then SignatureTypePGP else SignatureTypeX509) +:+ "/") = true.
Proof.
  induction cands as [|kc cands IH]; cbn [classify]; [done|].
  case_goal; [intros [= <-]; exists kc; split; [left|done]|].
  case_goal; [intros [= <-]; exists kc; split; [left|done]|].
  intros (kc' & ? & ?)%IH. exists kc'. split; [by right|done].
Qed.

Lemma candidate_configs_elem self ns kc :
  kc ∈ candidate_configs self ns <->
  exists spc sc, spc ∈ sgc_Policies self /\ policy_in_scope ns spc = true /\
    sc ∈ sgc_Signers self /\ sc_Name sc ∈ scc_Signers spc /\ sc_KeyConfig sc = kc.
Proof.
  unfold candidate_configs. rewrite list_elem_of_bind. split.
  - intros (spc & H & Hin). destruct (negb (policy_included ns spc) || policy_excluded ns spc) eqn:E.
    { by apply elem_of_nil in H. }
    apply orb_false_iff in E as [E1 E2]. apply list_elem_of_bind in H as (name & H & Hn).
    apply list_elem_of_fmap in H as (sc & -> & H). apply list_elem_of_In, filter_In in H as [H Hb].
    bool_prop. subst name. exists spc, sc. unfold policy_in_scope. rewrite E1, E2.
    repeat split; auto. by apply list_elem_of_In.
  - intros (spc & sc & Hin & Hs & Hsc & Hn & <-). exists spc. split; [|done].
    unfold policy_in_scope in Hs. bool_prop. rewrite H, H0. cbn.
    apply list_elem_of_bind. exists (sc_Name sc). split; [|done]. apply list_elem_of_fmap.
    exists sc. split; [done|]. apply list_elem_of_In, filter_In. split; [by apply list_elem_of_In|].
    by apply bool_decide_eq_true.
Qed.

(** A key offered under one of the two types. *)
Lemma GetCandidatePubkeys_elem self keyPathList ns k :
  k ∈ (GetCandidatePubkeys self keyPathList ns).1 \/ k ∈ (GetCandidatePubkeys self keyPathList ns).2 ->
  k ∈ keyPathList /\
  exists spc sc, spc ∈ sgc_Policies self /\ policy_in_scope ns spc = true /\
    sc ∈ sgc_Signers self /\ sc_Name sc ∈ scc_Signers spc /\
    Contains k ("/" +:+ sc_KeyConfig sc +:+ "/") = true.
Proof.
  unfold GetCandidatePubkeys. cbn [fst snd]. rewrite !list_elem_of_In, !filter_In, !bool_decide_eq_true.
  intros Hk. assert (In k keyPathList /\ exists c, classify k (candidate_configs self ns) = Some c) as [Hin (c & Hc)]
    by (destruct Hk as [[? ?]|[? ?]]; eauto).
  split; [done|]. apply classify_Some in Hc as (kc & (spc & sc & ? & ? & ? & ? & <-)%candidate_configs_elem & Hk').
  exists spc, sc. repeat split; auto. apply Contains_spec in Hk' as (a & b & ->). apply Contains_spec.
  exists a, ((if c then SignatureTypePGP else SignatureTypeX509) +:+ "/" +:+ b).
  by rewrite !str_app_assoc.
Qed.

(** The keys offered for verification are mounted keys, each stored under
    the key configuration of a signer named by a policy in scope of the
    namespace, and no key is offered as both PGP and X.509. *)
Theorem GetCandidatePubkeys_sound self keyPathList ns k :
  let '(pgp, x509) := GetCandidatePubkeys self keyPathList ns in
  (k ∈ pgp \/ k ∈ x509 ->
     k ∈ keyPathList /\
     exists spc sc, spc ∈ sgc_Policies self /\ policy_in_scope ns spc = true /\
       sc ∈ sgc_Signers self /\ sc_Name sc ∈ scc_Signers spc /\
       Contains k ("/" +:+ sc_KeyConfig sc +:+ "/") = true) /\
  ~ (k ∈ pgp /\ k ∈ x509).
Proof.
  pose proof (GetCandidatePubkeys_elem self keyPathList ns k) as He.
  unfold GetCandidatePubkeys in *. cbn [fst snd] in He. split; [done|].
  rewrite !list_elem_of_In, !filter_In, !bool_decide_eq_true. intros [[_ ?] [_ ?]]. congruence.
Qed.

(** A policy never applies outside its scope: cluster-scope requests are
    judged by the cluster policies only, and namespaced requests by the others
    only. *)
Theorem policy_scope_separated ns spc :
  policy_in_scope ns spc = true -> (ns = "" <-> scc_Scope spc = ScopeCluster).
Proof.
  unfold policy_in_scope, policy_included, policy_excluded.
  repeat case_bool_decide; cbn; naive_solver.
Qed.

(** A PGP signer has no serial number, so a subject that asks for one and
    whose other fields match makes the check panic. *)
Theorem pgp_serial_panics c email name comment fp i :
  MatchPattern (smp_Email (sjc_Subject c)) email = true ->
  Forall (fun p => MatchPattern p "" = true)
    [smp_Uid (sjc_Subject c); smp_Country (sjc_Subject c); smp_Organization (sjc_Subject c);
     smp_OrganizationalUnit (sjc_Subject c); smp_Locality (sjc_Subject c); smp_Province (sjc_Subject c);
     smp_StreetAddress (sjc_Subject c); smp_PostalCode (sjc_Subject c); smp_CommonName (sjc_Subject c)] ->
  Atoi (TrimSpace (smp_SerialNumber (sjc_Subject c))) = Some i ->
  SubjectCondition_Match c (pgpSignerInfo email name comment fp) = Panic.
Proof.
  intros He Hf Hi. unfold SubjectCondition_Match. rewrite Forall_forall in Hf.
  cbn [pgpSignerInfo si_Email si_Uid si_Country si_Organization si_OrganizationalUnit si_Locality
       si_Province si_StreetAddress si_PostalCode si_CommonName si_SerialNumber].
  rewrite He, !Hf by set_solver. by apply MatchBigInt_nil_panics with i.
Qed.

(** ** Concrete instances *)

Definition any_subject (email serial : string) : SubjectMatchPattern :=
  mkSubjectMatchPattern email "" "" "" "" "" "" "" "" "" serial.
Definition sample_config : SignerConfig :=
  mkSignerConfig
    [mkSignerConfigCondition "" ["secure-*"] ["secure-dev"] ["team-a"];
     mkSignerConfigCondition ScopeCluster [] [] ["admins"]]
    [mkSignerCondition "team-a" "keyring-a" [any_subject "alice@example.com" ""];
     mkSignerCondition "admins" "keyring-admin" [any_subject "root@example.com" ""]] [] "sample".
Definition alice : SignerInfo := pgpSignerInfo "alice@example.com" "Alice" "" (Some "0A").
Definition alice_keys : list string := ["/keyring-a/pgp/pubring.gpg"].

Lemma SignerConfig_Match_correct_witness :
  SignerConfig_Match sample_config "secure-ns" alice alice_keys =
    Ret (true, head (sgc_Policies sample_config)) /\
  policy_in_scope "secure-ns" (mkSignerConfigCondition "" ["secure-*"] ["secure-dev"] ["team-a"]) = true.
Proof.
  split; [vm_compute; reflexivity|].
  refine (proj1 (proj2 (SignerConfig_Match_correct sample_config "secure-ns" alice alice_keys true
                   (head (sgc_Policies sample_config)) _) _ _)); vm_compute; reflexivity.
Defined.

Lemma policy_scope_separated_witness :
  "" = "" <-> scc_Scope (mkSignerConfigCondition ScopeCluster [] [] ["admins"]) = ScopeCluster.
Proof.
  apply (policy_scope_separated "" (mkSignerConfigCondition ScopeCluster [] [] ["admins"])).
  vm_compute; reflexivity.
Defined.

Lemma pgp_serial_panics_witness :
  SubjectCondition_Match (mkSubjectCondition "team-a" "keyring-a" (any_subject "alice@example.com" "17")) alice = Panic.
Proof.
  apply (pgp_serial_panics (mkSubjectCondition "team-a" "keyring-a" (any_subject "alice@example.com" "17"))
           "alice@example.com" "Alice" "" (Some "0A") 17);
    [vm_compute; reflexivity| |vm_compute; reflexivity].
  repeat constructor; vm_compute; reflexivity.
Defined.
