(* ===== verification/ShieldConfig.v ===== *)
(** * Shield configuration
    ([shield/pkg/shield/config/shieldconfig.go], [shield/pkg/util/logger/logger.go]) *)
From S2P Require Import Prelude GoStrings Pattern Common ReqContext Profile.
From stdpp Require Import options.

(** ** Data *)

(** [IntegrityShieldMode] *)
Definition UnknownMode : string := "".
Definition EnforceMode : string := "enforce".
Definition DetectMode : string := "detect".

Record PatchConfig := mkPatchConfig { pc_Enabled : bool }.

Record IShieldResourceCondition := mkIShieldResourceCondition {
  irc_OperatorResources : list ResourceRef;
  irc_ServerResources : list ResourceRef;
  irc_OperatorServiceAccount : string;
}.

Record LogRequestPattern := mkLogRequestPattern {
  lrp_Pattern : RequestPatternWithNamespace;
  lrp_LogLevel : string;
}.

Record LogScopeConfig := mkLogScopeConfig {
  lsc_Enabled : bool;
  lsc_InScope : list LogRequestPattern;
  lsc_Ignore : list LogRequestPattern;
}.

Record LoggingScopeConfig := mkLoggingScopeConfig {
  lg_LogLevel : string;
  lg_LogAllResponse : bool;
  lg_IncludeRequest : bool;
  lg_IncludeRelease : bool;
  lg_ConsoleLog : option LogScopeConfig;
  lg_ContextLog : option LogScopeConfig;
  lg_ConsoleLogFormat : string;
  lg_ConsoleLogFile : string;
  lg_ContextLogFile : string;
  lg_ContextLogRotateSize : Z;
}.

Record PluginConfig := mkPluginConfig { plg_Name : string; plg_Enabled : bool }.

Record ShieldConfig := mkShieldConfig {
  cfg_Patch : option PatchConfig;
  cfg_Log : option LoggingScopeConfig;
  cfg_InScopeNamespaceSelector : option NamespaceSelector;
  cfg_Allow : list RequestPattern;
  cfg_Ignore : list RequestPattern;
  cfg_Mode : string;
  cfg_Plugin : list PluginConfig;
  cfg_CommonProfile : option CommonProfile;
  cfg_Namespace : string;
  cfg_SignatureNamespace : string;
  cfg_ProfileNamespace : string;
  cfg_KeyPathList : list string;
  cfg_ChartDir : string;
  cfg_ChartRepo : string;
  cfg_IShieldResource : string;
  cfg_IShieldResourceCondition : option IShieldResourceCondition;
  cfg_IShieldAdminUserGroup : string;
  cfg_IShieldAdminUserName : string;
  cfg_IShieldCRName : string;
  cfg_IShieldServerUserName : string;
  cfg_Options : list string;
}.

(** ** Operations *)

Definition IsOperatorResource (self : IShieldResourceCondition) (ref : ResourceRef) : bool :=
  existsb (fun refi => EqualsWithoutVersionCheck refi (Some ref)) (irc_OperatorResources self).

Definition IsServerResource (self : IShieldResourceCondition) (ref : ResourceRef) : bool :=
  existsb (fun refi => EqualsWithoutVersionCheck refi (Some ref)) (irc_ServerResources self).

Definition PatchEnabled (ec : ShieldConfig) (reqc : ReqContext) : bool :=
  if bool_decide (rc_Kind reqc = "Policy") && bool_decide (rc_ApiGroup reqc = "policy.open-cluster-management.io")
  then false
  else match cfg_Patch ec with None => false | Some p => pc_Enabled p end.

(** [GetEnabledPlugins]: the set of names mapped to [true]. *)
Definition GetEnabledPlugins (ec : ShieldConfig) : gset string :=
  list_to_set (plg_Name <$> List.filter plg_Enabled (cfg_Plugin ec)).

(** [github.com/sirupsen/logrus]: levels by name; an unknown name is an error
    whose level value is [PanicLevel], zero. *)
Class Logrus := {
  ParseLevel : string -> option nat;
  Level_String : nat -> string
}.

Section logging.
Context `{Logrus}.

Definition GetGreaterLevel (lvStr1 lvStr2 : string) : string :=
  let lvStr1 := if bool_decide (lvStr1 = "") then "error" else lvStr1 in
  let lvStr2 := if bool_decide (lvStr2 = "") then "error" else lvStr2 in
  match ParseLevel lvStr1, ParseLevel lvStr2 with
  | None, None => "error"
  | o1, o2 => let lv1 := default 0 o1 in
              let lv2 := default 0 o2 in
              if Nat.ltb lv2 lv1 then Level_String lv1 else Level_String lv2
  end.

Definition IsInScope (sc : LogScopeConfig) (reqc : ReqContext) : bool * string :=
  if negb (lsc_Enabled sc) then (false, "")
  else
    let reqFields := ReqMap reqc in
    let hit v := RequestPatternWithNamespace_Match (lrp_Pattern v) reqFields in
    let '(isInScope, level) :=
      match List.find hit (lsc_InScope sc) with
      | Some v => (true, GetGreaterLevel "" (lrp_LogLevel v))
      | None => (false, "")
      end in
    let isIgnored := existsb hit (lsc_Ignore sc) in
    (isInScope && negb isIgnored, level).

(** [ConsoleLogEnabled] and [ContextLogEnabled]; a nil [Log] or a nil scope
    panics. *)
Definition ConsoleLogEnabled (ec : ShieldConfig) (reqc : ReqContext) : go (bool * string) :=
  match cfg_Log ec with
  | None => Panic
  | Some lc => match lg_ConsoleLog lc with
               | None => Panic
               | Some sc => let '(enabled, level) := IsInScope sc reqc in
                            Ret (enabled, GetGreaterLevel (lg_LogLevel lc) level)
               end
  end.

Definition ContextLogEnabled (ec : ShieldConfig) (reqc : ReqContext) : go bool :=
  match cfg_Log ec with
  | None => Panic
  | Some lc => match lg_ContextLog lc with
               | None => Panic
               | Some sc => Ret (IsInScope sc reqc).1
               end
  end.
End logging.

Definition defaultRotateSize : Z := 10485760.

(** [LogConfig]: the configured logging scope with its defaults filled in; the
    source fills them into the shared record. *)
Definition LogConfig (ec : ShieldConfig) : LoggingScopeConfig :=
  let lc := match cfg_Log ec with
            | Some conf => conf
            | None => mkLoggingScopeConfig "info" false false false None None "" "" "" 0
            end in
  {| lg_LogLevel := lg_LogLevel lc;
     lg_LogAllResponse := lg_LogAllResponse lc;
     lg_IncludeRequest := lg_IncludeRequest lc;
     lg_IncludeRelease := lg_IncludeRelease lc;
     lg_ConsoleLog := match lg_ConsoleLog lc with Some c => Some c | None => Some (mkLogScopeConfig true [] []) end;
     lg_ContextLog := match lg_ContextLog lc with Some c => Some c | None => Some (mkLogScopeConfig false [] []) end;
     lg_ConsoleLogFormat := if bool_decide (lg_ConsoleLogFormat lc = "") then "json" else lg_ConsoleLogFormat lc;
     lg_ConsoleLogFile := if bool_decide (lg_ConsoleLogFile lc = "") then "" else lg_ConsoleLogFile lc;
     lg_ContextLogFile := if bool_decide (lg_ContextLogFile lc = "") then "/ishield-app/public/events.txt"
                          else lg_ContextLogFile lc;
     lg_ContextLogRotateSize := if Z.eqb (lg_ContextLogRotateSize lc) 0 then defaultRotateSize
                                else lg_ContextLogRotateSize lc |}.

(** [LoggerConfig] runs [LogConfig] on the shared configuration: a present [Log]
    is completed in place, a missing one stays missing. *)
Definition complete_log (ec : ShieldConfig) : ShieldConfig :=
  match cfg_Log ec with
  | None => ec
  | Some _ =>
      {| cfg_Patch := cfg_Patch ec; cfg_Log := Some (LogConfig ec);
         cfg_InScopeNamespaceSelector := cfg_InScopeNamespaceSelector ec;
         cfg_Allow := cfg_Allow ec; cfg_Ignore := cfg_Ignore ec; cfg_Mode := cfg_Mode ec;
         cfg_Plugin := cfg_Plugin ec; cfg_CommonProfile := cfg_CommonProfile ec;
         cfg_Namespace := cfg_Namespace ec; cfg_SignatureNamespace := cfg_SignatureNamespace ec;
         cfg_ProfileNamespace := cfg_ProfileNamespace ec; cfg_KeyPathList := cfg_KeyPathList ec;
         cfg_ChartDir := cfg_ChartDir ec; cfg_ChartRepo := cfg_ChartRepo ec;
         cfg_IShieldResource := cfg_IShieldResource ec;
         cfg_IShieldResourceCondition := cfg_IShieldResourceCondition ec;
         cfg_IShieldAdminUserGroup := cfg_IShieldAdminUserGroup ec;
         cfg_IShieldAdminUserName := cfg_IShieldAdminUserName ec;
         cfg_IShieldCRName := cfg_IShieldCRName ec;
         cfg_IShieldServerUserName := cfg_IShieldServerUserName ec;
         cfg_Options := cfg_Options ec |}
  end.

(** ** Facts *)

Lemma IsOperatorResource_iff self ref :
  IsOperatorResource self ref = true <->
  exists r, r ∈ irc_OperatorResources self /\ ref_Name r = ref_Name ref /\
            ref_Namespace r = ref_Namespace ref /\ ref_Kind r = ref_Kind ref.
Proof.
  unfold IsOperatorResource. rewrite existsb_true. setoid_rewrite EqualsWithoutVersionCheck_iff. done.
Qed.

Lemma LogConfig_idem ec : LogConfig (complete_log ec) = LogConfig ec.
Proof.
  unfold complete_log. destruct (cfg_Log ec) as [lc|] eqn:E; [|done].
  unfold LogConfig. cbn. rewrite E. destruct lc as [? ? ? ? [] [] ? ? ? sz]; cbn;
    repeat case_bool_decide; try done; destruct (Z.eqb_spec sz 0); cbn; try done;
    destruct (Z.eqb_spec sz 0); done.
Qed.

Lemma complete_log_idem ec : complete_log (complete_log ec) = complete_log ec.
Proof.
  pose proof (LogConfig_idem ec) as Hi. unfold complete_log at 1. destruct (cfg_Log (complete_log ec)) eqn:E; [|done].
  rewrite Hi. unfold complete_log in *. destruct (cfg_Log ec) eqn:E2; [done|congruence].
Qed.

(** After the server completed a present [Log], the two log tests do not panic. *)
Lemma complete_log_no_panic `{Logrus} ec reqc lc :
  cfg_Log ec = Some lc ->
  returns (ConsoleLogEnabled (complete_log ec) reqc) = true /\
  returns (ContextLogEnabled (complete_log ec) reqc) = true.
Proof.
  intros E. unfold complete_log, ConsoleLogEnabled, ContextLogEnabled. rewrite E. cbn [cfg_Log].
  unfold LogConfig. rewrite E. cbn [lg_ConsoleLog lg_ContextLog].
  destruct (lg_ConsoleLog lc), (lg_ContextLog lc); cbn [returns];
    repeat (case_goal; cbn [returns]); done.
Qed.
