(* ===== verification/Cache.v ===== *)
(** * The TTL cache  ([shield/pkg/util/cache/cache.go])

    A map from names to objects with an expiry time, shared by every request
    handler of the process.  Each method holds the mutex for its whole access
    to the map, so a run of the cache is a sequence of whole operations; the
    clock readings they make are explicit.  Times and durations are
    nanoseconds. *)
From S2P Require Import Prelude.
From stdpp Require Import options.

Definition defaultCacheDuration : Z := 5000000000.

(** A stored [interface{}]: nil, a string, or any other object. *)
Inductive obj := ONil | OStr (s : string) | OOther (id : nat).
#[global] Instance obj_eq_dec : EqDecision obj.
Proof. solve_decision. Defined.

Record CachedObject := mkCachedObject {
  co_rawObject : obj;
  co_created : Z;
  co_expired : Z;
  co_duration : Z;
}.

Notation Cache := (gmap string CachedObject) (only parsing).

(** ** Operations *)

Definition NewCache : gmap string CachedObject := ∅.

Definition NewCachedObject (object : obj) (now : Z) (ttl : option Z) : CachedObject :=
  let duration := default defaultCacheDuration ttl in
  {| co_rawObject := object; co_created := now; co_expired := (now + duration)%Z; co_duration := duration |}.

(** [now.After(expired)] *)
Definition after (now : Z) (o : CachedObject) : bool := Z.ltb (co_expired o) now.

(** [deleteKey]: a fresh map without the listed keys. *)
Definition deleteKey (m : gmap string CachedObject) (delKeys : list string) : gmap string CachedObject :=
  filter (fun kv => kv.1 ∉ delKeys) m.

(** [clearExpiredItem]; [clk k] is the clock reading made for key [k]. *)
Definition clearExpiredItem (clk : string -> Z) (self : gmap string CachedObject) : gmap string CachedObject :=
  let delKeys := (map_to_list (filter (fun kv => after (clk kv.1) kv.2 = true) self)).*1 in
  deleteKey self delKeys.

(** [Set]: expired items are dropped, then the object is stored. *)
Definition Set_ (self : gmap string CachedObject) (name : string) (object : obj) (ttl : option Z)
    (clk : string -> Z) (now : Z) : gmap string CachedObject :=
  <[name := NewCachedObject object now ttl]> (clearExpiredItem clk self).

Definition Unset (self : gmap string CachedObject) (name : string) : gmap string CachedObject :=
  deleteKey self [name].

Definition Get (self : gmap string CachedObject) (name : string) (now : Z) : obj :=
  match self !! name with
  | None => ONil
  | Some o => if after now o then ONil else co_rawObject o
  end.

Definition GetString (self : gmap string CachedObject) (name : string) (now : Z) : string :=
  match Get self name now with OStr s => s | _ => "" end.

Definition KeyExists (self : gmap string CachedObject) (name : string) (now : Z) : bool :=
  match Get self name now with ONil => false | _ => true end.

(** [SetString] of the package, on the process-wide cache. *)
Definition SetString (self : gmap string CachedObject) (name object : string) (ttl : option Z)
    (clk : string -> Z) (now : Z) : gmap string CachedObject :=
  Set_ self name (OStr object) ttl clk now.

(** ** Facts *)

Lemma lookup_deleteKey m ks k : deleteKey m ks !! k = if decide (k ∈ ks) then None else m !! k.
Proof.
  unfold deleteKey. rewrite map_lookup_filter. destruct (m !! k) as [o|]; cbn.
  - case_decide as Hk; [by rewrite option_guard_False by naive_solver|by rewrite option_guard_True].
  - by case_decide.
Qed.

Lemma lookup_clearExpired clk m k :
  clearExpiredItem clk m !! k =
  match m !! k with Some o => if after (clk k) o then None else Some o | None => None end.
Proof.
  unfold clearExpiredItem. rewrite lookup_deleteKey.
  assert (k ∈ (map_to_list (filter (fun kv => after (clk kv.1) kv.2 = true) m)).*1 <->
          exists o, m !! k = Some o /\ after (clk k) o = true) as Hiff.
  { rewrite list_elem_of_fmap. split.
    - intros ([k' o] & -> & H%elem_of_map_to_list). apply map_lookup_filter_Some in H as [? ?]. eauto.
    - intros (o & ? & ?). exists (k, o). split; [done|]. apply elem_of_map_to_list.
      by apply map_lookup_filter_Some. }
  destruct (m !! k) as [o|] eqn:E; case_decide as Hd; rewrite Hiff in Hd.
  - destruct Hd as (o' & [= <-] & ->). done.
  - destruct (after (clk k) o) eqn:Ea; [destruct Hd; eauto|done].
  - by destruct Hd as (? & ? & _).
  - done.
Qed.

Lemma lookup_Unset m name k : Unset m name !! k = if decide (k = name) then None else m !! k.
Proof.
  unfold Unset. rewrite lookup_deleteKey. repeat case_decide; set_solver.
Qed.

Lemma after_mono t t' o : (t <= t')%Z -> after t o = true -> after t' o = true.
Proof. unfold after. rewrite !Z.ltb_lt. lia. Qed.

(** ** Reference: the last write decides *)

(** One operation of a run, with the clock readings it makes. *)
Inductive cop :=
| CSet (name : string) (object : obj) (ttl : option Z) (clk : string -> Z) (now : Z)
| CUnset (name : string).

Definition apply_cop (m : gmap string CachedObject) (op : cop) : gmap string CachedObject :=
  match op with
  | CSet name object ttl clk now => Set_ m name object ttl clk now
  | CUnset name => Unset m name
  end.

(** The reference never drops anything: it remembers, per name, the last object
    stored and when it expires. *)
Definition apply_ref (m : gmap string CachedObject) (op : cop) : gmap string CachedObject :=
  match op with
  | CSet name object ttl _ now => <[name := NewCachedObject object now ttl]> m
  | CUnset name => delete name m
  end.

(** The clock readings of a run do not exceed [t]. *)
Definition cop_before (t : Z) (op : cop) : Prop :=
  match op with CSet _ _ _ clk _ => forall k, (clk k <= t)%Z | CUnset _ => True end.

(** The two maps agree on every item that can still be read at [t] or later. *)
Definition agree (t : Z) (m r : gmap string CachedObject) : Prop :=
  forall k, m !! k = r !! k \/ (m !! k = None /\ exists o, r !! k = Some o /\ after t o = true).

Lemma agree_step t m r op :
  cop_before t op -> agree t m r -> agree t (apply_cop m op) (apply_ref r op).
Proof.
  intros Hb Ha k. destruct op as [name object ttl clk now|name]; cbn in *.
  - unfold Set_. destruct (decide (name = k)) as [->|Hne].
    + rewrite !lookup_insert_eq. by left.
    + rewrite !lookup_insert_ne by done. rewrite lookup_clearExpired.
      destruct (Ha k) as [He|[He (o & Hr & Hx)]]; rewrite He.
      * destruct (r !! k) as [o|] eqn:E; [|by left].
        destruct (after (clk k) o) eqn:Ea; [|by left]. right. split; [done|].
        exists o. split; [done|]. exact (after_mono _ _ _ (Hb k) Ea).
      * right. split; [done|]. eauto.
  - rewrite lookup_Unset. destruct (decide (k = name)) as [->|Hne].
    + rewrite lookup_delete_eq. by left.
    + rewrite lookup_delete_ne by congruence. apply Ha.
Qed.

Lemma agree_Get t now m r k : (t <= now)%Z -> agree t m r -> Get m k now = Get r k now.
Proof.
  intros Ht Ha. unfold Get. destruct (Ha k) as [->|[-> (o & -> & Hx)]]; [done|].
  by rewrite (after_mono t now o Ht Hx).
Qed.

Lemma agree_run t ops m r :
  Forall (cop_before t) ops -> agree t m r -> agree t (foldl apply_cop m ops) (foldl apply_ref r ops).
Proof.
  intros Hf. revert m r. induction Hf as [|op ops Hb _ IH]; intros m r Ha; cbn; [done|].
  apply IH. by apply agree_step.
Qed.

(** C28: dropping expired items is invisible: after any sequence of stores and
    removals by concurrent handlers, reading a name gives what a map that never
    drops anything gives, provided the clock does not run backwards. *)
Theorem cache_refines_map ops name now :
  Forall (cop_before now) ops ->
  Get (foldl apply_cop NewCache ops) name now = Get (foldl apply_ref ∅ ops) name now.
Proof.
  intros Hf. apply (agree_Get now now); [lia|]. apply agree_run; [done|]. intros k. by left.
Qed.

Definition sample_ops : list cop :=
  [CSet "a" (OStr "x") (Some 10%Z) (fun _ => 0%Z) 0;
   CSet "b" (OStr "y") None (fun _ => 20%Z) 20; CUnset "c"].

Lemma cache_refines_map_witness : Get (foldl apply_cop NewCache sample_ops) "b" 25 = OStr "y".
Proof.
  transitivity (Get (foldl apply_ref ∅ sample_ops) "b" 25); [|vm_compute; reflexivity].
  apply (cache_refines_map sample_ops "b" 25). repeat constructor; cbn; intros; lia.
Defined.

(** A stored string is read back until its time to live has passed, and
    never afterwards; other names are not affected by the store while they are
    fresh. *)
Theorem cache_set_get m name s ttl clk now now' :
  GetString (SetString m name s (Some ttl) clk now) name now' =
    (if Z.leb now' (now + ttl) then s else "") /\
  (forall k, k <> name -> (clk k <= now')%Z ->
     Get (SetString m name s (Some ttl) clk now) k now' = Get m k now').
Proof.
  unfold SetString. split.
  - unfold GetString, Get, Set_. rewrite lookup_insert_eq. unfold after, NewCachedObject. cbn.
    destruct (Z.leb_spec now' (now + ttl)), (Z.ltb_spec (now + ttl) now'); try lia; done.
  - intros k Hk Hc. unfold Get, Set_. rewrite lookup_insert_ne, lookup_clearExpired by done.
    destruct (m !! k) as [o|]; [|done]. destruct (after (clk k) o) eqn:E; [|done].
    by rewrite (after_mono (clk k) now' o).
Qed.
