(* ===== verification/MapNode.v ===== *)
(** * Object trees  ([shield/pkg/util/mapnode/node.go])

    The tree every Kubernetes object is turned into before it is masked,
    flattened and compared.  Map children are listed in the order a [range]
    loop visits them; nothing below depends on that order unless it says so. *)
From S2P Require Import Prelude GoStrings GoRegexp GoJson.
From stdpp Require Import options.

(** ** Nodes *)

(** [Node{Value, Children}]: neither (a JSON null), a value, map children or
    slice children. *)
Inductive Node :=
| NNull
| NVal (v : scalar)
| NMap (l : list (string * Node))
| NSlice (l : list Node).

Definition emptyNode : Node := NNull.

(** [NewNode] *)
Fixpoint NewNode (val : value) : Node :=
  match val with
  | VNull => NNull
  | VScalar s => NVal s
  | VArr l => NSlice (map NewNode l)
  | VObj m => NMap (map (fun kv => (kv.1, NewNode kv.2)) m)
  end.

(** [NewFromMap], [NewFromBytes] and [NewFromInterfaceBytes]; the node built
    from a map is never nil. *)
Definition NewFromMap (objMap : list (string * value)) : Node := NewNode (VObj objMap).

Definition NewFromBytes (rawObj : string) : option Node :=
  match UnmarshalMap rawObj with Some m => Some (NewFromMap m) | None => None end.

Definition NewFromInterfaceBytes (rawObj : string) : option Node :=
  match Unmarshal rawObj with Some v => Some (NewNode v) | None => None end.

(** [github.com/ghodss/yaml]: decoding a document into a
    [map\[string\]interface{}], and printing a tree. *)
Class YamlLib := {
  yaml_UnmarshalMap : string -> option (list (string * value));
  yaml_Marshal : value -> string
}.

Definition NewFromYamlBytes `{YamlLib} (rawObj : string) : option Node :=
  match yaml_UnmarshalMap rawObj with Some m => Some (NewFromMap m) | None => None end.

Definition IsMap (n : Node) : bool := match n with NMap _ => true | _ => false end.
Definition IsSlice (n : Node) : bool := match n with NSlice _ => true | _ => false end.
Definition IsValue (n : Node) : bool := negb (IsMap n) && negb (IsSlice n).

Definition Size (n : Node) : nat :=
  match n with NNull | NVal _ => 1 | NMap l => length l | NSlice l => length l end.

(** Reading a Go map. *)
Fixpoint assoc {A} (k : string) (l : list (string * A)) : option A :=
  match l with
  | [] => None
  | (k', v) :: l' => if bool_decide (k = k') then Some v else assoc k l'
  end.

(** [GetChildrenMap]: the children with their keys, slice indices printed. *)
Fixpoint index_from (i : nat) (l : list Node) : list (string * Node) :=
  match l with [] => [] | v :: l' => (Itoa i, v) :: index_from (S i) l' end.

Definition GetChildrenMap (n : Node) : list (string * Node) :=
  match n with
  | NNull | NVal _ => []
  | NMap l => l
  | NSlice l => index_from 0 l
  end.

Definition GetChildrenSlice (n : Node) : list Node :=
  match n with NSlice l => l | _ => [] end.

(** [Interface]: back to an [interface{}] tree. *)
Fixpoint Interface (n : Node) : value :=
  match n with
  | NNull => VNull
  | NVal v => VScalar v
  | NMap l => VObj (map (fun kv => (kv.1, Interface kv.2)) l)
  | NSlice l => VArr (map Interface l)
  end.

(** [ToMap]: nil unless the tree is a map. *)
Definition ToMap (n : Node) : list (string * value) :=
  match Interface n with VObj m => m | _ => [] end.

(** ** Keys *)

(** [encoding/csv] with the dot as separator, on one line without a newline.
    A quoted field ends at its closing quote, a doubled quote stands for one;
    a bare quote elsewhere, or a missing closing quote, is an error. *)
Inductive csv_state := CsvStart | CsvBare | CsvQuoted | CsvQuoteSeen.

Fixpoint csv_read (st : csv_state) (cur : string) (s : string) : option (list string) :=
  match s with
  | EmptyString => match st with CsvQuoted => None | _ => Some [cur] end
  | String c s' =>
      let quote := bool_decide (c = dquote) in
      let dot := bool_decide (c = "."%char) in
      match st with
      | CsvStart =>
          if quote then csv_read CsvQuoted cur s'
          else if dot then option_map (cons cur) (csv_read CsvStart "" s')
          else csv_read CsvBare (cur +:+ String c "") s'
      | CsvBare =>
          if quote then None
          else if dot then option_map (cons cur) (csv_read CsvStart "" s')
          else csv_read CsvBare (cur +:+ String c "") s'
      | CsvQuoted =>
          if quote then csv_read CsvQuoteSeen cur s' else csv_read CsvQuoted (cur +:+ String c "") s'
      | CsvQuoteSeen =>
          if quote then csv_read CsvQuoted (cur +:+ String dquote "") s'
          else if dot then option_map (cons cur) (csv_read CsvStart "" s')
          else None
      end
  end.

Definition dquote_str : string := String dquote "".

(** [regexp.MustCompile(`\[\d+\]$`)] *)
Definition index_re : re := default REps (Compile "\[\d+\]$").

(** One segment: [foo\[1\]] becomes [foo] and [1]. *)
Definition split_segment (k : string) : list string :=
  let found := FindString index_re k in
  if bool_decide (found = "") then [k]
  else
    let k1 := ReplaceAll k found "" in
    let k2 := Trim found "[]" in
    if bool_decide (k1 = "") then [k2] else [k1; k2].

Definition splitConcatKey (concatKey : string) : list string :=
  let keys := if Contains concatKey dquote_str
              then csv_read CsvStart "" concatKey
              else Some (Split concatKey ".") in
  match keys with
  | None => []
  | Some keys => k ← keys; split_segment k
  end.

Definition parseConcatKey (concatKey : string) : string := Join (splitConcatKey concatKey) ".".

(** [GetChild] *)
Definition GetChild (n : Node) (key : string) : option Node :=
  match n with
  | NNull | NVal _ => None
  | NMap l => assoc key l
  | NSlice l =>
      match Atoi key with
      | None => None
      | Some i => if (Z.ltb i 0 || Z.leb (Z.of_nat (length l)) i)%bool then None else l !! Z.to_nat i
      end
  end.

Fixpoint get_path (n : Node) (keys : list string) : option Node :=
  match keys with
  | [] => Some n
  | k :: keys' => match GetChild n k with Some c => get_path c keys' | None => None end
  end.

Definition GetNode (t : Node) (concatKey : string) : option Node := get_path t (splitConcatKey concatKey).

Definition SubNode (t : Node) (concatKey : string) : Node := default emptyNode (GetNode t concatKey).

(** [Get] returns the value of a leaf and the node itself otherwise; [KeyExists]
    only looks at whether there is one. *)
Definition Get (t : Node) (concatKey : string) : option Node := GetNode t concatKey.
Definition KeyExists (n : Node) (concatKey : string) : bool := bool_decide (Get n concatKey <> None).

(** ** Key expansion *)

(** The two strings a round of [generateKeyList] builds from the parts and the
    current indices; [check] leaves out the last part. *)
Fixpoint build_keys (parts : list string) (indexList : list nat) : string * string :=
  match parts, indexList with
  | [], _ => ("", "")
  | [p], _ => (p, "")
  | p :: _, [] => (p, "")
  | p :: ps, i :: is_ =>
      let '(key, check) := build_keys ps is_ in
      let idx := "." +:+ Itoa i +:+ "." in
      (p +:+ idx +:+ key, p +:+ idx +:+ check)
  end.

(** The last slot that is not finished. *)
Fixpoint last_unfinished (finished : list bool) : option nat :=
  match finished with
  | [] => None
  | b :: l => match last_unfinished l with
              | Some j => Some (S j)
              | None => if b then None else Some 0
              end
  end.

(** The loop of [generateKeyList]; [None] is an exhausted fuel. *)
Fixpoint gkl_loop (fuel : nat) (t : Node) (parts : list string) (indexList : list nat)
    (finished : list bool) (acc : list string) : option (list string) :=
  match fuel with
  | O => None
  | S n =>
      let '(key, check) := build_keys parts indexList in
      let key := TrimSuffix key "." in
      let checkKey := TrimSuffix check "." in
      let ok := KeyExists t checkKey in
      match last_unfinished finished with
      | None => Some acc
      | Some i =>
          if ok then gkl_loop n t parts (alter S i indexList) finished (acc ++ [key])
          else
            let finished := <[i := true]> finished in
            if default false (finished !! 0) then Some acc
            else gkl_loop n t parts indexList finished acc
      end
  end.

(** [generateKeyList] with a bound on the rounds. *)
Definition generateKeyList_fuel (fuel : nat) (t : Node) (concatKey : string) : option (list string) :=
  if negb (Contains concatKey "[]") then Some []
  else
    let parts := (fun p => Trim p ".") <$> Split concatKey "[]" in
    let slots := length parts - 1 in
    gkl_loop fuel t parts (replicate slots 0) (replicate slots false) [].

(** The number of nodes of a tree bounds how often an index can grow. *)
Fixpoint node_size (n : Node) : nat :=
  match n with
  | NNull | NVal _ => 1
  | NMap l => S (sum_list (map (fun kv => node_size kv.2) l))
  | NSlice l => S (sum_list (map node_size l))
  end.

Definition gkl_fuel (t : Node) (concatKey : string) : nat :=
  S (length (Split concatKey "[]") * S (node_size t)).

Definition generateKeyList (t : Node) (concatKey : string) : list string :=
  default [] (generateKeyList_fuel (gkl_fuel t concatKey) t concatKey).

(** [validateKeyList] rewrites the caller's slice in place: the first component
    is its result, the second the slice afterwards. *)
Definition validateKeyList (t : Node) (keys : list string) : list string * list string :=
  let keys' := parseConcatKey <$> keys in
  (key ← keys';
   match generateKeyList t key with
   | [] => [key]
   | tmpList => tmpList
   end, keys').

(** [MultipleSubNode] *)
Definition MultipleSubNode (t : Node) (concatKey : string) : list Node :=
  if negb (Contains concatKey "[]") then [SubNode t concatKey]
  else SubNode t <$> generateKeyList t concatKey.

(** ** Masking *)

(** [isListed] and [keyExistsInList] of diff.go: equality, the two universal
    rules, or an unanchored regular expression with [*] widened to [.*]. *)
Definition isListed (data rule : string) : bool :=
  if bool_decide (data = rule) then true
  else if bool_decide (rule = "*") then true
  else if bool_decide (rule = "") then true
  else if Contains rule "*" then MatchString_ok (ReplaceAll rule "*" ".*") data
  else false.

Definition keyExistsInList (slice : list string) (val : string) : bool * string :=
  match List.find (fun item => isListed val item) slice with
  | Some item => (true, item)
  | None => (false, "")
  end.

(** [currentKey]: the path of a child. *)
Definition child_key (currentPath k : string) : string :=
  if bool_decide (currentPath = "") then k else currentPath +:+ "." +:+ k.

(** [recursiveMask]; masked slice elements are dropped, so later ones move up. *)
Fixpoint recursiveMask (n : Node) (currentPath : string) (maskKeys : list string) : Node :=
  match n with
  | NNull | NVal _ => n
  | NMap l =>
      NMap ((fix go l :=
        match l with
        | [] => []
        | (k, v) :: l' =>
            if (keyExistsInList maskKeys (child_key currentPath k)).1 then go l'
            else (k, recursiveMask v (child_key currentPath k) maskKeys) :: go l'
        end) l)
  | NSlice l =>
      NSlice ((fix go i l :=
        match l with
        | [] => []
        | v :: l' =>
            if (keyExistsInList maskKeys (child_key currentPath (Itoa i))).1 then go (S i) l'
            else recursiveMask v (child_key currentPath (Itoa i)) maskKeys :: go (S i) l'
        end) 0 l)
  end.

(** [Mask]: the masked tree and the caller's key slice afterwards. *)
Definition Mask (t : Node) (keys : list string) : Node * list string :=
  let '(validKeys, keys') := validateKeyList t keys in
  (recursiveMask t "" validKeys, keys').

(** ** Flattening *)

(** [recursiveRavel]: leaves by path; nulls and empty containers have none. *)
Fixpoint recursiveRavel (n : Node) (currentPath : string) (m : gmap string scalar) : gmap string scalar :=
  match n with
  | NNull => m
  | NVal v => <[currentPath := v]> m
  | NMap l =>
      (fix go l m :=
        match l with
        | [] => m
        | (k, v) :: l' => go l' (recursiveRavel v (child_key currentPath k) m)
        end) l m
  | NSlice l =>
      (fix go i l m :=
        match l with
        | [] => m
        | v :: l' => go (S i) l' (recursiveRavel v (child_key currentPath (Itoa i)) m)
        end) 0 l m
  end.

Definition Ravel (t : Node) : gmap string scalar := recursiveRavel t "" ∅.

(** [Extract]: everything outside the filter keys is masked.  Both the filter
    slice and the mask slice built here are rewritten in place; the filter slice
    is returned. *)
Definition Extract (n : Node) (filterKeys : list string) : Node * list string :=
  let allKeysInNode := (map_to_list (Ravel n)).*1 in
  let '(validFilterKeys, filterKeys') := validateKeyList n filterKeys in
  let maskKeys :=
    k ← allKeysInNode;
    (if existsb (fun fk => HasPrefix k fk) validFilterKeys then [] else [k]) ++
    (let keyParts := Split k "." in
     i ← seq 0 (length keyParts - 1);
     let parentKey := Join (take (S i) keyParts) "." in
     if existsb (fun fk => HasPrefix fk parentKey || HasPrefix parentKey fk) validFilterKeys
     then [] else [parentKey]) in
  ((Mask n maskKeys).1, filterKeys').

(** ** Merging *)

Definition same_type (a b : scalar) : bool :=
  match a, b with
  | SBool _, SBool _ | SNum _, SNum _ | SStr _, SStr _ => true
  | _, _ => false
  end.

(** [Merge]: [Panic] for a null that is new in the second map, whose type is
    read through a nil pointer; [Ret None] for the type errors. *)
Fixpoint Merge (n n2 : Node) {struct n2} : go (option Node) :=
  match n, n2 with
  | NNull, NNull => Ret (Some n2)
  | NVal v, NVal v2 => Ret (if same_type v v2 then Some n2 else None)
  | NSlice l, NSlice l2 => Ret (Some (NSlice (l ++ l2)))
  | NMap l, NMap l2 =>
      (fix loop (l2 : list (string * Node)) (l : list (string * Node)) : go (option Node) :=
         match l2 with
         | [] => Ret (Some (NMap l))
         | (key, childNode) :: l2' =>
             let merged :=
               match assoc key l with
               | Some c => Merge c childNode
               | None =>
                   match childNode with
                   | NNull => Panic
                   | NVal v => Ret (Some childNode)
                   | NSlice _ => Merge (NSlice []) childNode
                   | NMap _ => Merge (NMap []) childNode
                   end
               end in
             match merged with
             | Panic => Panic
             | Ret None => Ret None
             | Ret (Some m) => loop l2' (obj_set l key m)
             end
         end) l2 l
  | _, _ => Ret None
  end.

(** ** Other helpers *)

Definition SplitCommaSeparatedKeys (key : string) : list string :=
  (fun k => Trim k " ") <$> Split (ReplaceAll key (String (ch 10) "") "") ",".

(** [GetString] and [GetBool]; what [json.Marshal] prints for a non-string (a
    scalar, or the [Node] struct itself) is an argument, [None] its error. *)
Definition GetString (json_Marshal : Node -> option string) (t : Node) (concatKey : string) : string :=
  match Get t concatKey with
  | None => ""
  | Some (NVal (SStr s)) => s
  | Some n => default "" (json_Marshal n)
  end.

Definition GetBool (t : Node) (concatKey : string) (defaultValue : bool) : bool :=
  match Get t concatKey with
  | Some (NVal (SBool b)) => b
  | Some (NVal (SStr s)) => default defaultValue (ParseBool s)
  | _ => defaultValue
  end.

(** ** Facts: leaves and paths *)

Lemma Node_ind' (P : Node -> Prop) :
  P NNull -> (forall v, P (NVal v)) ->
  (forall l, Forall (fun kv => P kv.2) l -> P (NMap l)) ->
  (forall l, Forall P l -> P (NSlice l)) -> forall n, P n.
Proof.
  intros H1 H2 H3 H4. fix IH 1. intros [|v|l|l]; [done|done| |].
  - apply H3. induction l as [|kv l IHl]; constructor; [apply IH|done].
  - apply H4. induction l as [|v l IHl]; constructor; [apply IH|done].
Qed.

(** The leaves of a tree with the keys that lead to them. *)
Fixpoint leaves (n : Node) : list (list string * scalar) :=
  match n with
  | NNull => []
  | NVal v => [([], v)]
  | NMap l =>
      (fix go l := match l with
                   | [] => []
                   | (k, c) :: l' => ((fun sv => (k :: sv.1, sv.2)) <$> leaves c) ++ go l'
                   end) l
  | NSlice l =>
      (fix go i l := match l with
                     | [] => []
                     | c :: l' => ((fun sv => (Itoa i :: sv.1, sv.2)) <$> leaves c) ++ go (S i) l'
                     end) 0 l
  end.

Definition under (kc : string * Node) : list (list string * scalar) :=
  (fun sv => (kc.1 :: sv.1, sv.2)) <$> leaves kc.2.

Lemma leaves_children n : IsValue n = false -> leaves n = GetChildrenMap n ≫= under.
Proof.
  destruct n as [|v|l|l]; try done; intros _; cbn [leaves GetChildrenMap].
  - induction l as [|[k c] l IH]; [done|]. by rewrite IH.
  - generalize 0 as i. induction l as [|c l IH]; intros i; [done|]. by rewrite IH.
Qed.

Lemma ravel_children n p m :
  IsValue n = false ->
  recursiveRavel n p m = foldl (fun m kc => recursiveRavel kc.2 (child_key p kc.1) m) m (GetChildrenMap n).
Proof.
  destruct n as [|v|l|l]; try done; intros _; cbn [recursiveRavel GetChildrenMap].
  - revert m. induction l as [|[k c] l IH]; intros m; [done|]. by rewrite IH.
  - revert m. generalize 0 as i. induction l as [|c l IH]; intros i m; [done|]. by rewrite IH.
Qed.

Lemma children_Forall (P : Node -> Prop) n :
  match n with NMap l => Forall (fun kv => P kv.2) l | NSlice l => Forall P l | _ => True end ->
  Forall (fun kc => P kc.2) (GetChildrenMap n).
Proof.
  destruct n as [|v|l|l]; cbn; auto. generalize 0 as i.
  intros i H. revert i. induction H; intros i; constructor; cbn; auto.
Qed.

(** Induction on a tree through the list of its children. *)
Lemma Node_children_ind (P : Node -> Prop) :
  (forall n, IsValue n = true -> P n) ->
  (forall n, IsValue n = false -> Forall (fun kc => P kc.2) (GetChildrenMap n) -> P n) ->
  forall n, P n.
Proof.
  intros H1 H2. induction n using Node_ind'; try (by apply H1); apply H2; auto; by apply children_Forall.
Qed.

(** The path of a leaf as [recursiveRavel] writes it. *)
Definition path_of (p : string) (segs : list string) : string := foldl child_key p segs.

Definition put (p : string) (m : gmap string scalar) (sv : list string * scalar) : gmap string scalar :=
  <[path_of p sv.1 := sv.2]> m.

(** Flattening stores the leaves one by one. *)
Lemma ravel_leaves n p m : recursiveRavel n p m = foldl (put p) m (leaves n).
Proof.
  revert p m. induction n as [n Hv|n Hv IH] using Node_children_ind; intros p m.
  - by destruct n.
  - rewrite ravel_children, leaves_children by done.
    revert m. induction IH as [|[k c] l Hc _ IHl]; intros m; [done|].
    cbn [foldl fst snd]. cbn in Hc. rewrite Hc, IHl, bind_cons, foldl_app. f_equal.
    unfold under; cbn [fst snd]. clear. revert m. induction (leaves c) as [|sv l' IH']; intros m; [done|].
    cbn [foldl fmap list_fmap]. by rewrite <-IH'.
Qed.

Lemma lookup_put_sound p l m q v :
  foldl (put p) m l !! q = Some v ->
  m !! q = Some v \/ exists segs, (segs, v) ∈ l /\ path_of p segs = q.
Proof.
  revert m. induction l as [|[s w] l IH]; intros m; cbn [foldl]; [by left|].
  intros [H|(segs & Hin & Hp)]%IH.
  - unfold put in H. cbn in H. apply lookup_insert_Some in H as [[<- <-]|[_ H]]; [|by left].
    right. exists s. split; [left|done].
  - right. exists segs. split; [by right|done].
Qed.

Lemma lookup_put_other p l m q :
  (forall segs v, (segs, v) ∈ l -> path_of p segs <> q) -> foldl (put p) m l !! q = m !! q.
Proof.
  revert m. induction l as [|[s w] l IH]; intros m H; [done|]. cbn [foldl].
  rewrite IH by (intros; eapply H; by right). unfold put. cbn.
  rewrite lookup_insert_ne; [done|]. eapply H. left.
Qed.

Lemma lookup_put_complete p l m segs v :
  NoDup (path_of p <$> l.*1) -> (segs, v) ∈ l -> foldl (put p) m l !! path_of p segs = Some v.
Proof.
  revert m. induction l as [|[s w] l IH]; intros m Hnd Hin; [by apply elem_of_nil in Hin|].
  cbn in Hnd |- *. apply NoDup_cons in Hnd as [Hn Hnd].
  apply elem_of_cons in Hin as [[= -> ->]|Hin]; [|by apply IH].
  rewrite lookup_put_other; [unfold put; cbn; by rewrite lookup_insert_eq|].
  intros segs' v' Hin' Heq. apply Hn. apply list_elem_of_fmap. exists segs'. split; [done|].
  apply list_elem_of_fmap. by exists (segs', v').
Qed.

(** ** Facts: clean trees *)

(** A key that needs no quoting: not empty, no dot, quote or bracket. *)
Definition clean_key (k : string) : bool :=
  negb (bool_decide (k = "")) &&
  str_forall (fun c => negb (bool_decide ("."%char = c)) && negb (bool_decide (dquote = c)) &&
                       negb (bool_decide ("["%char = c))) k.

(** A tree a Go program can hold (distinct map keys, slice lengths in range of an
    [int]) whose map keys are clean. *)
Fixpoint clean (n : Node) : Prop :=
  match n with
  | NNull | NVal _ => True
  | NMap l => NoDup l.*1 /\ (fix go l := match l with
                | [] => True | (k, c) :: l' => clean_key k = true /\ clean c /\ go l' end) l
  | NSlice l => (Z.of_nat (length l) <= int64_max)%Z /\
                (fix go l := match l with [] => True | c :: l' => clean c /\ go l' end) l
  end.

Lemma Itoa_parse n : parse_digits 0 (Itoa n) = Some (Z.of_nat n).
Proof.
  unfold Itoa. destruct (parse_digits_itoa (S n) n "" 0) as (k & _ & ->); [lia|]. done.
Qed.

Lemma Itoa_inj n m : Itoa n = Itoa m -> n = m.
Proof. intros H. pose proof (Itoa_parse n) as Hn. rewrite H, Itoa_parse in Hn. simplify_eq. lia. Qed.

Lemma itoa_aux_digits fuel n acc :
  str_forall is_digit_b acc = true -> str_forall is_digit_b (itoa_aux fuel n acc) = true.
Proof.
  revert n acc. induction fuel as [|f IH]; intros n acc H; cbn [itoa_aux]; [done|].
  pose proof (digit_char_ok (n mod 10) (Nat.mod_upper_bound n 10 ltac:(lia))) as [Hd _].
  repeat case_goal; try apply IH; cbn [str_forall]; by rewrite Hd, H.
Qed.

Lemma digit_clean c : is_digit_b c = true ->
  negb (bool_decide ("."%char = c)) && negb (bool_decide (dquote = c)) && negb (bool_decide ("["%char = c)) = true.
Proof. intros H. repeat case_bool_decide; subst; try done; by vm_compute in H. Qed.

Lemma Itoa_clean n : clean_key (Itoa n) = true.
Proof.
  unfold clean_key. apply andb_true_iff. split.
  - unfold Itoa. destruct (itoa_aux_cons (S n) n "") as (m & s & _ & ->); [lia|]. done.
  - eapply str_forall_impl; [apply digit_clean|]. by apply itoa_aux_digits.
Qed.

Lemma index_from_elem i l k c : (k, c) ∈ index_from i l -> exists j, k = Itoa (i + j) /\ l !! j = Some c.
Proof.
  revert i. induction l as [|d l IH]; intros i H; [by apply elem_of_nil in H|].
  cbn [index_from] in H. apply elem_of_cons in H as [[-> ->]%pair_equal_spec|H]; [exists 0; by rewrite Nat.add_0_r|].
  apply IH in H as (j & -> & Hj). exists (S j). split; [f_equal; lia|done].
Qed.

Lemma index_from_NoDup i l : NoDup (index_from i l).*1.
Proof.
  revert i. induction l as [|c l IH]; intros i; [apply NoDup_nil_2|]. cbn. apply NoDup_cons. split; [|auto].
  intros ((k & d) & Hi & (j & -> & _)%index_from_elem)%list_elem_of_fmap. apply Itoa_inj in Hi. lia.
Qed.

(** What [clean] says of the children. *)
Lemma clean_children n :
  clean n ->
  NoDup (GetChildrenMap n).*1 /\
  Forall (fun kc => clean_key kc.1 = true /\ clean kc.2) (GetChildrenMap n).
Proof.
  destruct n as [|v|l|l]; cbn; [split; constructor..| |].
  - intros [Hnd H]. split; [done|]. clear Hnd. induction l as [|[k c] l IH]; constructor; naive_solver.
  - intros [_ H]. split; [apply index_from_NoDup|]. revert H. generalize 0 as i.
    induction l as [|c l IH]; intros i H; constructor; [|naive_solver].
    split; [apply Itoa_clean|naive_solver].
Qed.

Lemma assoc_elem {A} k (c : A) l : NoDup l.*1 -> (k, c) ∈ l -> assoc k l = Some c.
Proof.
  induction l as [|[k' c'] l IH]; cbn; intros Hnd Hin; [by apply elem_of_nil in Hin|].
  apply NoDup_cons in Hnd as [Hn Hnd]. apply elem_of_cons in Hin as [[= -> ->]|Hin].
  - by rewrite bool_decide_eq_true_2.
  - rewrite bool_decide_eq_false_2; [auto|]. intros ->. apply Hn. apply list_elem_of_fmap. by exists (k', c).
Qed.

Lemma assoc_Some {A} k (c : A) l : assoc k l = Some c -> (k, c) ∈ l.
Proof.
  induction l as [|[k' c'] l IH]; cbn; [done|]. case_bool_decide; [intros [= ->]; subst; left|].
  intros H'. right. auto.
Qed.

(** A listed child is found by its key. *)
Lemma GetChild_elem n k c : clean n -> (k, c) ∈ GetChildrenMap n -> GetChild n k = Some c.
Proof.
  destruct n as [|v|l|l]; cbn; intros H Hin; try by apply elem_of_nil in Hin.
  - apply assoc_elem; [apply H|done].
  - apply index_from_elem in Hin as (j & -> & Hj). cbn. pose proof (lookup_lt_Some _ _ _ Hj).
    rewrite Atoi_Itoa by lia. rewrite Nat2Z.id.
    replace (Z.ltb (Z.of_nat j) 0) with false by (symmetry; apply Z.ltb_ge; lia).
    replace (Z.leb (Z.of_nat (length l)) (Z.of_nat j)) with false by (symmetry; apply Z.leb_gt; lia). done.
Qed.

Lemma under_elem segs v n :
  IsValue n = false -> (segs, v) ∈ leaves n ->
  exists k c segs', segs = k :: segs' /\ (k, c) ∈ GetChildrenMap n /\ (segs', v) ∈ leaves c.
Proof.
  intros Hv. rewrite leaves_children by done. intros ((k & c) & H & Hin)%list_elem_of_bind.
  apply list_elem_of_fmap in H as ((s & w) & [= -> ->] & Hs). by exists k, c, s.
Qed.

Lemma leaves_clean n segs v :
  clean n -> (segs, v) ∈ leaves n ->
  get_path n segs = Some (NVal v) /\ Forall (fun k => clean_key k = true) segs.
Proof.
  revert segs. induction n as [n Hv|n Hv IH] using Node_children_ind; intros segs Hc Hin.
  - destruct n; try done; [by apply elem_of_nil in Hin|]. apply list_elem_of_singleton in Hin as [= -> ->].
    split; [done|constructor].
  - apply under_elem in Hin as (k & c & segs' & -> & Hk & Hl); [|done].
    pose proof (clean_children n Hc) as [_ Hf]. rewrite Forall_forall in IH, Hf.
    destruct (Hf _ Hk) as [Hck Hcc]. cbn in Hck, Hcc. cbn [get_path].
    rewrite (GetChild_elem n k c) by done. destruct (IH _ Hk segs' Hcc Hl). split; [done|]. by constructor.
Qed.

(** ** Facts: splitting a clean path *)

Lemma clean_key_nonempty k : clean_key k = true -> k <> "".
Proof. unfold clean_key. intros [H _]%andb_true_iff. by bool_prop. Qed.

Lemma clean_key_no c k :
  c ∈ ["."%char; dquote; "["%char] -> clean_key k = true -> Contains k (String c "") = false.
Proof.
  intros Hc [_ H]%andb_true_iff. rewrite Contains_char. apply negb_false_iff.
  eapply str_forall_impl; [|exact H]. intros d Hd. bool_prop.
  apply negb_true_iff, bool_decide_eq_false. set_solver.
Qed.

Lemma path_of_Join p segs :
  p <> "" -> Forall (fun k => clean_key k = true) segs -> path_of p segs = Join (p :: segs) ".".
Proof.
  intros Hp H. revert p Hp. induction H as [|k segs Hk _ IH]; intros p Hp; [done|].
  cbn [path_of foldl]. unfold child_key at 2. rewrite bool_decide_eq_false_2 by done.
  fold (path_of (p +:+ "." +:+ k) segs). rewrite IH by (by destruct p).
  destruct segs; cbn; by rewrite ?str_app_assoc.
Qed.

Lemma path_of_root segs :
  Forall (fun k => clean_key k = true) segs -> path_of "" segs = Join segs ".".
Proof.
  intros H. destruct H as [|k segs Hk H]; [done|]. cbn [path_of foldl].
  unfold child_key at 2. rewrite bool_decide_eq_true_2 by done.
  by apply path_of_Join; [apply clean_key_nonempty|].
Qed.

Lemma split_aux_app sep k s :
  Contains k (String sep "") = false ->
  split_aux (String sep "") 0 (k +:+ String sep s) =
    let '(p, r) := split_aux (String sep "") 0 s in (k, p :: r).
Proof.
  rewrite Contains_char. induction k as [|c k IH]; cbn.
  - intros _. by rewrite bool_decide_eq_true_2.
  - destruct (bool_decide (sep = c)); cbn; [done|]. intros H. rewrite IH by done.
    by destruct (split_aux _ 0 s).
Qed.

Lemma Split_cons_sep c k s :
  Contains k (String c "") = false -> Split (k +:+ String c s) (String c "") = k :: Split s (String c "").
Proof. intros H. unfold Split. rewrite split_aux_app by done. by destruct (split_aux _ 0 s). Qed.

Lemma Split_Join c segs :
  segs <> [] -> Forall (fun k => Contains k (String c "") = false) segs ->
  Split (Join segs (String c "")) (String c "") = segs.
Proof.
  intros Hne H. induction H as [|k segs Hk H IH]; [done|]. destruct segs as [|k' segs].
  - by apply Split_no_occurrence.
  - rewrite Join_cons by done. change (String c "" +:+ ?x) with (String c x).
    rewrite Split_cons_sep by done. by rewrite IH.
Qed.

Lemma Join_no_char c segs :
  c <> "."%char -> Forall (fun k => Contains k (String c "") = false) segs ->
  Contains (Join segs ".") (String c "") = false.
Proof.
  intros Hc H. rewrite Contains_char. apply negb_false_iff. induction H as [|k segs Hk _ IH]; [done|].
  rewrite Contains_char in Hk. bool_prop. destruct segs as [|k' segs]; [done|].
  rewrite Join_cons by done. rewrite !str_forall_app, Hk, IH. cbn.
  by rewrite bool_decide_eq_false_2.
Qed.

(** A segment without a bracket is not split further. *)
Lemma index_re_head : exists tl, index_re = RCat (RSet (lit "["%char)) tl.
Proof. eexists. vm_compute. reflexivity. Qed.

Lemma index_re_bracket s : Contains s "[" = false -> find_from index_re (slen s) s = None.
Proof.
  intros H. destruct (find_from index_re (slen s) s) eqn:E; [|done]. exfalso.
  assert (find_from index_re (slen s) s <> None) as (pre & mid & rest & Hs & Hm)%find_from_Some by congruence.
  destruct index_re_head as [tl Htl]. rewrite Htl in Hm.
  inversion Hm as [| |? ? ? ? ? Ha _| | | | | |]; subst. inversion Ha as [|? c ? Hc| | | | | | |]; subst.
  rewrite cset_mem_lit in Hc. bool_prop. subst.
  assert (Contains (pre +:+ String "[" s1) "[" = true) by (apply Contains_spec; by exists pre, s1). congruence.
Qed.

Lemma split_segment_plain k : Contains k "[" = false -> split_segment k = [k].
Proof. intros H. unfold split_segment, FindString. by rewrite index_re_bracket. Qed.

Lemma splitConcatKey_clean segs :
  segs <> [] -> Forall (fun k => clean_key k = true) segs -> splitConcatKey (Join segs ".") = segs.
Proof.
  intros Hne H.
  assert (forall c, c ∈ ["."%char; dquote; "["%char] -> Forall (fun k => Contains k (String c "") = false) segs) as Hc.
  { intros c Hc. eapply Forall_impl; [exact H|]. intros k Hk. by apply clean_key_no. }
  unfold splitConcatKey, dquote_str. rewrite Join_no_char by (done || apply Hc; set_solver).
  rewrite Split_Join by (done || apply Hc; set_solver).
  assert (Forall (fun k => Contains k "[" = false) segs) as Hb by (apply (Hc "["%char); set_solver).
  clear Hne H Hc. induction Hb as [|k segs Hk _ IH]; [done|]. rewrite bind_cons, IH.
  by rewrite split_segment_plain.
Qed.

Lemma path_of_inj s1 s2 :
  Forall (fun k => clean_key k = true) s1 -> Forall (fun k => clean_key k = true) s2 ->
  path_of "" s1 = path_of "" s2 -> s1 = s2.
Proof.
  intros H1 H2. rewrite !path_of_root by done.
  destruct s1 as [|k1 s1], s2 as [|k2 s2]; intros Heq; [done| | |].
  - apply Forall_cons in H2 as [Hk _]. apply clean_key_nonempty in Hk.
    destruct k2, s2; cbn in Heq; congruence.
  - apply Forall_cons in H1 as [Hk _]. apply clean_key_nonempty in Hk.
    destruct k1, s1; cbn in Heq; congruence.
  - rewrite <-(splitConcatKey_clean (k1 :: s1)), <-(splitConcatKey_clean (k2 :: s2)) by done. by rewrite Heq.
Qed.

Lemma leaves_NoDup n : clean n -> NoDup (leaves n).*1.
Proof.
  induction n as [n Hv|n Hv IH] using Node_children_ind; intros Hc.
  - destruct n; try done; cbn; [constructor|]. apply NoDup_singleton.
  - rewrite leaves_children by done. apply clean_children in Hc as [Hnd Hf].
    induction IH as [|[k c] l Hk _ IHl]; [constructor|].
    cbn in Hnd. apply NoDup_cons in Hnd as [Hn Hnd]. apply Forall_cons in Hf as [[_ Hcc] Hf].
    rewrite bind_cons, fmap_app. apply NoDup_app. repeat split.
    + assert ((under (k, c)).*1 = cons k <$> (leaves c).*1) as ->.
      { unfold under. rewrite <-!list_fmap_compose. by apply list_fmap_ext. }
      apply NoDup_fmap_2; [intros ? ? [=]; done|by apply Hk].
    + intros segs ((s1 & v1) & -> & H1)%list_elem_of_fmap ((s2 & v2) & Heq & H2)%list_elem_of_fmap.
      cbn in Heq. subst s2. apply list_elem_of_fmap in H1 as ((s3 & v3) & [= -> ->] & _).
      apply list_elem_of_bind in H2 as ([k' c'] & ((s4 & v4) & [= -> -> ->] & _)%list_elem_of_fmap & Hin).
      apply Hn, list_elem_of_fmap. by exists (k', c').
    + by apply IHl.
Qed.

Lemma Ravel_leaves n q v :
  clean n -> Ravel n !! q = Some v <-> exists segs, (segs, v) ∈ leaves n /\ path_of "" segs = q.
Proof.
  intros Hc. unfold Ravel. rewrite ravel_leaves. split.
  - intros [H|H]%lookup_put_sound; [by rewrite lookup_empty in H|done].
  - intros (segs & Hin & <-). apply lookup_put_complete; [|done].
    apply NoDup_fmap_2_strong; [|by apply leaves_NoDup].
    intros s1 s2 ((? & v1) & -> & H1)%list_elem_of_fmap ((? & v2) & -> & H2)%list_elem_of_fmap.
    apply leaves_clean in H1 as [_ ?], H2 as [_ ?]; try done. by apply path_of_inj.
Qed.

(** C15: on a tree whose keys need no quoting, flattening is exact: every
    flattened path reads back its value with [GetNode], and every leaf of the
    tree is present under the dotted path of its keys. *)
Theorem Ravel_GetNode n :
  clean n -> IsValue n = false ->
  (forall p v, Ravel n !! p = Some v -> GetNode n p = Some (NVal v)) /\
  (forall segs v, (segs, v) ∈ leaves n -> Ravel n !! Join segs "." = Some v).
Proof.
  intros Hc Hv. split.
  - intros p v (segs & Hin & <-)%Ravel_leaves; [|done].
    pose proof (leaves_clean n segs v Hc Hin) as [Hg Hs]. unfold GetNode.
    rewrite path_of_root, splitConcatKey_clean; [done| |done..].
    by apply under_elem in Hin as (k & c & segs' & -> & _).
  - intros segs v Hin. apply Ravel_leaves; [done|]. exists segs. split; [done|].
    apply path_of_root, (leaves_clean n segs v Hc Hin).
Qed.

(** ** Facts: masking *)

Definition listed (keys : list string) (path : string) : bool := (keyExistsInList keys path).1.

(** No proper or improper prefix of the path below [p] is listed. *)
Fixpoint survives (keys : list string) (p : string) (segs : list string) : bool :=
  match segs with
  | [] => true
  | k :: segs' => negb (listed keys (child_key p k)) && survives keys (child_key p k) segs'
  end.

Lemma survives_iff keys p segs :
  survives keys p segs = true <->
  forall i, i < length segs -> listed keys (path_of p (take (S i) segs)) = false.
Proof.
  revert p. induction segs as [|k segs IH]; intros p; cbn [survives].
  - split; [|done]. intros _ i Hi. cbn in Hi. lia.
  - rewrite andb_true_iff, negb_true_iff, IH. split.
    + intros [H0 H] [|i] Hi; [done|]. apply (H i). cbn in Hi. lia.
    + intros H. split; [apply (H 0); cbn; lia|].
      intros i Hi. apply (H (S i)). cbn. lia.
Qed.

(** A tree of maps only. *)
Fixpoint slice_free (n : Node) : Prop :=
  match n with
  | NNull | NVal _ => True
  | NMap l => (fix go l := match l with [] => True | (_, c) :: l' => slice_free c /\ go l' end) l
  | NSlice _ => False
  end.

Lemma slice_free_map l : slice_free (NMap l) <-> Forall (fun kc => slice_free kc.2) l.
Proof.
  induction l as [|[k c] l IH]; [by split; [constructor|]|]. rewrite Forall_cons, <-IH. done.
Qed.

Definition mask_children (keys : list string) (p : string) (l : list (string * Node)) : list (string * Node) :=
  (fun kc => (kc.1, recursiveMask kc.2 (child_key p kc.1) keys)) <$>
  List.filter (fun kc => negb (listed keys (child_key p kc.1))) l.

Lemma recursiveMask_map l p keys : recursiveMask (NMap l) p keys = NMap (mask_children keys p l).
Proof.
  cbn. f_equal. unfold mask_children. induction l as [|[k c] l IH]; [done|]. cbn. rewrite IH. unfold listed.
  by destruct (keyExistsInList keys (child_key p k)) as [[] ?].
Qed.

(** Masking a tree of maps keeps exactly the leaves no prefix of whose path is
    listed, in their order. *)
Lemma mask_leaves n p keys :
  slice_free n -> leaves (recursiveMask n p keys) = List.filter (fun sv => survives keys p sv.1) (leaves n).
Proof.
  revert p. induction n as [|v|l IH|l] using Node_ind'; intros p Hs; try done.
  rewrite slice_free_map in Hs. rewrite recursiveMask_map, !leaves_children by done. cbn [GetChildrenMap].
  induction IH as [|[k c] l Hc _ IHl]; [done|]. apply Forall_cons in Hs as [Hsc Hs].
  rewrite bind_cons, List.filter_app, <-IHl by done. clear IHl. cbn in Hc, Hsc.
  assert (forall m, List.filter (fun sv => survives keys p sv.1)
      ((fun sv : list string * scalar => (k :: sv.1, sv.2)) <$> m) =
      if listed keys (child_key p k) then []
      else (fun sv => (k :: sv.1, sv.2)) <$> List.filter (fun sv => survives keys (child_key p k) sv.1) m) as Hf.
  { clear. intros m. induction m as [|[s w] m IH]; [by destruct (listed _ _)|]. cbn. rewrite IH.
    destruct (listed keys (child_key p k)); [done|]. cbn. by destruct (survives _ _ s). }
  unfold under at 2. cbn [fst snd]. rewrite Hf. unfold mask_children. cbn.
  destruct (listed keys (child_key p k)); [done|]. cbn. unfold under at 1. cbn. by rewrite Hc.
Qed.

Lemma filter_fst_sublist {A} (f : string * A -> bool) (l : list (string * A)) :
  sublist (List.filter f l).*1 l.*1.
Proof.
  induction l as [|x l IH]; [constructor|]. cbn. destruct (f x); by constructor.
Qed.

Lemma mask_clean n p keys : slice_free n -> clean n -> clean (recursiveMask n p keys).
Proof.
  revert p. induction n as [|v|l IH|l] using Node_ind'; intros p Hs Hc; try done.
  rewrite slice_free_map in Hs. rewrite recursiveMask_map. pose proof (clean_children _ Hc) as [_ Hf].
  cbn in Hf, Hc |- *. destruct Hc as [Hnd _]. split.
  - unfold mask_children. rewrite <-list_fmap_compose.
    change (fst ∘ _) with (@fst string Node). eapply sublist_NoDup; [exact Hnd|apply filter_fst_sublist].
  - clear Hnd. unfold mask_children. induction IH as [|[k c] l Hk _ IHl]; [done|].
    apply Forall_cons in Hs as [Hsc Hs]. apply Forall_cons in Hf as [[Hck Hcc] Hf].
    specialize (IHl Hs Hf). cbn [List.filter].
    destruct (negb _); cbn [fmap list_fmap fst snd]; [|exact IHl].
    split; [exact Hck|]. split; [by apply Hk|exact IHl].
Qed.

Lemma mask_IsValue n p keys : IsValue (recursiveMask n p keys) = IsValue n.
Proof. by destruct n. Qed.

(** Masking removes exactly what it should: a flattened value of the masked
    tree is a value of the original one at the same path, and it survives iff no
    prefix of its path, itself included, is listed by the validated keys. *)
Theorem Mask_correct n keys p v :
  clean n -> slice_free n -> IsValue n = false ->
  Ravel (Mask n keys).1 !! p = Some v <->
  Ravel n !! p = Some v /\
  forall i, i < length (Split p ".") ->
    listed (validateKeyList n keys).1 (Join (take (S i) (Split p ".")) ".") = false.
Proof.
  intros Hc Hs Hv. unfold Mask. destruct (validateKeyList n keys) as [vk keys']. cbn [fst].
  rewrite !Ravel_leaves by (done || by apply mask_clean). setoid_rewrite mask_leaves; [|done].
  setoid_rewrite list_elem_of_In. setoid_rewrite filter_In. setoid_rewrite <-list_elem_of_In.
  assert (forall segs w, (segs, w) ∈ leaves n ->
    Split (path_of "" segs) "." = segs /\
    forall i, Join (take (S i) segs) "." = path_of "" (take (S i) segs)) as Hp.
  { intros segs w Hin. pose proof (leaves_clean n segs w Hc Hin) as [_ Hf].
    apply under_elem in Hin as (k & c & segs' & -> & _); [|done]. split.
    - rewrite path_of_root by done. apply (Split_Join "."%char); [done|]. eapply Forall_impl; [exact Hf|].
      intros x Hx. apply clean_key_no; [set_solver|done].
    - intros i. symmetry. apply path_of_root. by apply Forall_take. }
  split.
  - intros (segs & [Hin Hsv] & <-). split; [eauto|]. destruct (Hp _ _ Hin) as [-> Hj].
    intros i Hi. rewrite Hj. cbn in Hsv. rewrite survives_iff in Hsv. auto.
  - intros [(segs & Hin & <-) H]. exists segs. repeat split; auto. cbn. apply survives_iff.
    destruct (Hp _ _ Hin) as [Hsp Hj]. rewrite Hsp in H. intros i Hi. rewrite <-Hj. auto.
Qed.

(** An empty mask key, which is also what a badly quoted key turns into, is
    listed for every path, so masking with it leaves an empty object. *)
Theorem Mask_empty_key l keys :
  "" ∈ keys \/ (exists k, k ∈ keys /\ Contains k dquote_str = true /\ csv_read CsvStart "" k = None) ->
  (Mask (NMap l) keys).1 = NMap [].
Proof.
  intros H. assert ("" ∈ (validateKeyList (NMap l) keys).1) as He.
  { assert (exists k, k ∈ keys /\ parseConcatKey k = "") as (k & Hk & Hp).
    { destruct H as [H|(k & Hk & Hq & Hcsv)]; [by exists ""|]. exists k. split; [done|].
      unfold parseConcatKey, splitConcatKey. by rewrite Hq, Hcsv. }
    cbn. apply list_elem_of_bind. exists "". split; [set_solver|].
    rewrite <-Hp. by apply list_elem_of_fmap_2. }
  unfold Mask. destruct (validateKeyList (NMap l) keys) as [vk keys']. cbn [fst] in *.
  rewrite recursiveMask_map. f_equal. unfold mask_children.
  replace (List.filter _ l) with (@nil (string * Node)); [done|].
  symmetry. induction l as [|[k c] l IH]; [done|]. cbn. unfold listed at 1, keyExistsInList.
  destruct (List.find _ vk) eqn:E; [done|]. exfalso.
  apply (find_None_all _ _) with (x := "") in E; [|done]. unfold isListed in E.
  repeat case_bool_decide; done.
Qed.

(** ** Facts: key expansion *)

Lemma Split_app_sep c a b :
  Split (a +:+ String c b) (String c "") = Split a (String c "") ++ Split b (String c "").
Proof.
  unfold Split. induction a as [|d a IH]; cbn.
  - rewrite bool_decide_eq_true_2 by done. cbn. by destruct (split_aux _ 0 b).
  - destruct (split_aux _ 0 (a +:+ String c b)) as [p r] eqn:E, (split_aux _ 0 a) as [p' r'].
    destruct (split_aux _ 0 b) as [p2 r2].
    destruct (bool_decide (c = d)); cbn in *; simplify_list_eq; congruence.
Qed.

Lemma str_forall_Join p l sep : str_forall p (Join l sep) = true -> Forall (fun x => str_forall p x = true) l.
Proof.
  induction l as [|x l IH]; [constructor|]. destruct l as [|y l].
  - intros H. constructor; [done|constructor].
  - rewrite Join_cons by done. rewrite !str_forall_app, !andb_true_iff. intros (? & _ & ?). constructor; auto.
Qed.

Lemma TrimSuffix_app s suf : TrimSuffix (s +:+ suf) suf = s.
Proof.
  unfold TrimSuffix. rewrite (proj2 (HasSuffix_spec _ _)) by eauto. rewrite slen_app.
  replace (slen s + slen suf - slen suf) with (slen s) by lia. apply str_take_app.
Qed.

Lemma str_forall_Trim q s cut : str_forall q s = true -> str_forall q (Trim s cut) = true.
Proof. intros. by apply str_forall_trim_right, str_forall_trim_left. Qed.

(** The indices of a round in which only the last slot has moved. *)
Definition last_index_list (slots i : nat) : list nat := replicate (slots - 1) 0 ++ [i].

Lemma last_index_list_SS m i : last_index_list (S (S m)) i = 0 :: last_index_list (S m) i.
Proof. unfold last_index_list. cbn. by rewrite Nat.sub_0_r. Qed.

Lemma build_keys_cons p q ps i is_ :
  build_keys (p :: q :: ps) (i :: is_) =
    let '(key, check) := build_keys (q :: ps) is_ in
    (p +:+ ("." +:+ Itoa i +:+ ".") +:+ key, p +:+ ("." +:+ Itoa i +:+ ".") +:+ check).
Proof. reflexivity. Qed.

(** The path [generateKeyList] tests has the last index as its last segment. *)
Lemma build_keys_check parts q :
  2 <= length parts -> Forall (fun p => str_forall q p = true) parts ->
  (forall c, is_digit_b c = true \/ c = "."%char -> q c = true) ->
  exists C, str_forall q C = true /\
    forall i, (build_keys parts (last_index_list (length parts - 1) i)).2 = C +:+ "." +:+ Itoa i +:+ ".".
Proof.
  intros Hl Hf Hq. induction Hf as [|p parts Hp Hf IH]; [cbn in Hl; lia|].
  destruct parts as [|p2 [|p3 parts]]; [cbn in Hl; lia| |].
  - exists p. split; [done|]. intros i. cbn. by rewrite str_app_nil_r.
  - destruct IH as (C & HC & H); [cbn; lia|].
    exists (p +:+ "." +:+ Itoa 0 +:+ "." +:+ C). split.
    { rewrite !str_forall_app, Hp, HC. change (Itoa 0) with "0". cbn [str_forall].
      rewrite !Hq by auto. done. }
    intros i. specialize (H i). cbn [length Nat.sub] in H |- *.
    rewrite last_index_list_SS, build_keys_cons.
    destruct (build_keys (p2 :: p3 :: parts) _) as [k1 c1]. cbn [snd] in H |- *.
    by rewrite H, !str_app_assoc.
Qed.

Lemma last_unfinished_spec a b :
  last_unfinished (replicate a false ++ replicate b true) = match a with 0 => None | S a' => Some a' end.
Proof.
  induction a as [|a IH]; cbn.
  - induction b as [|b IH]; [done|]. cbn. by rewrite IH.
  - rewrite IH. by destruct a.
Qed.

Lemma replicate_insert a b :
  <[a := true]> (replicate (S a) false ++ replicate b true) = replicate a false ++ replicate (S b) true.
Proof. induction a as [|a IH]; [done|].
  change (false :: <[a := true]> (replicate (S a) false ++ replicate b true) = replicate (S a) false ++ replicate (S b) true).
  by rewrite IH.
Qed.

Definition round_key (parts : list string) (idx : list nat) : string :=
  TrimSuffix (build_keys parts idx).1 ".".
Definition round_ok (t : Node) (parts : list string) (idx : list nat) : bool :=
  KeyExists t (TrimSuffix (build_keys parts idx).2 ".").

(** Once a path fails, the slots are closed one after the other: the indices are
    not reset, so the same path is tested every time. *)
Lemma gkl_close t parts idx acc a b fuel :
  round_ok t parts idx = false -> 0 < a -> a <= fuel ->
  gkl_loop fuel t parts idx (replicate a false ++ replicate b true) acc = Some acc.
Proof.
  unfold round_ok. revert a b. induction fuel as [|fuel IH]; intros a b Hok Ha Hf; [lia|]. cbn [gkl_loop].
  destruct (build_keys parts idx) as [k c] eqn:E. cbn in Hok. rewrite Hok, last_unfinished_spec.
  destruct a as [|a]; [lia|]. rewrite replicate_insert.
  destruct a as [|a]; [done|]. cbn [replicate app lookup list_lookup default]. apply (IH (S a) (S b)); [done|lia..].
Qed.

Lemma last_index_alter s i : alter S s (last_index_list (S s) i) = last_index_list (S s) (S i).
Proof.
  unfold last_index_list. cbn [Nat.sub]. rewrite Nat.sub_0_r. induction s as [|s IH]; [done|].
  change (0 :: alter S s (replicate s 0 ++ [i]) = 0 :: replicate s 0 ++ [S i]). by rewrite IH.
Qed.

Lemma gkl_run t parts slots n i acc fuel :
  slots <> 0 ->
  (forall j, i <= j < i + n -> round_ok t parts (last_index_list slots j) = true) ->
  round_ok t parts (last_index_list slots (i + n)) = false ->
  n + slots <= fuel ->
  gkl_loop fuel t parts (last_index_list slots i) (replicate slots false) acc =
    Some (acc ++ ((fun j => round_key parts (last_index_list slots j)) <$> seq i n)).
Proof.
  intros Hs. revert i acc fuel. induction n as [|n IH]; intros i acc fuel Hok Hno Hf.
  - rewrite Nat.add_0_r in Hno. cbn. rewrite app_nil_r.
    rewrite <-(app_nil_r (replicate slots false)). apply (gkl_close _ _ _ _ slots 0); [done|lia..].
  - destruct fuel as [|fuel]; [lia|]. cbn [gkl_loop]. pose proof (Hok i ltac:(lia)) as Hi.
    unfold round_ok in Hi. destruct (build_keys parts (last_index_list slots i)) as [k c] eqn:E.
    cbn in Hi. rewrite Hi. pose proof (last_unfinished_spec slots 0) as Hl. cbn in Hl.
    rewrite app_nil_r in Hl. rewrite Hl. destruct slots as [|s]; [done|].
    rewrite last_index_alter.
    rewrite IH; [|intros j Hj; apply Hok; lia|by rewrite Nat.add_succ_l, <-Nat.add_succ_r|lia].
    cbn [seq fmap list_fmap]. rewrite <-app_assoc. unfold round_key at 2. rewrite E. done.
Qed.

(** *** A node has fewer consecutive indices than the tree has nodes *)

Lemma node_size_child n k c : GetChild n k = Some c -> node_size c < node_size n.
Proof.
  destruct n as [|v|l|l]; cbn [GetChild]; [done|done| |].
  - intros H%assoc_Some. cbn. induction l as [|[k' c'] l IH]; [by apply elem_of_nil in H|].
    cbn. apply elem_of_cons in H as [[= -> ->]|H]; [lia|]. specialize (IH H). lia.
  - case_goal; [|done]. case_goal; [done|]. intros H%list_elem_of_lookup_2. cbn.
    clear Heqo Heqb. induction l as [|c' l IH]; [by apply elem_of_nil in H|].
    cbn. apply elem_of_cons in H as [->|H]; [lia|]. specialize (IH H). lia.
Qed.

Lemma node_size_path n keys c : get_path n keys = Some c -> node_size c <= node_size n.
Proof.
  revert n. induction keys as [|k keys IH]; intros n; cbn; [intros [= ->]; lia|].
  destruct (GetChild n k) eqn:E; [|done]. intros H%IH. apply node_size_child in E. lia.
Qed.

Lemma get_path_snoc n keys k :
  get_path n (keys ++ [k]) = match get_path n keys with Some c => GetChild c k | None => None end.
Proof.
  revert n. induction keys as [|k' keys IH]; intros n; cbn; [by destruct (GetChild n k)|].
  destruct (GetChild n k'); [apply IH|done].
Qed.

Lemma length_children_size n : length (GetChildrenMap n) < node_size n.
Proof.
  destruct n as [|v|l|l]; cbn; [lia..| |].
  - assert (length l <= sum_list (map (fun kv => node_size kv.2) l)); [|lia].
    induction l as [|[k c] l IH]; cbn; [lia|]. destruct c; cbn; lia.
  - assert (length (index_from 0 l) <= sum_list (map node_size l)); [|lia]. generalize 0 as i.
    induction l as [|c l IH]; intros i; cbn; [lia|]. specialize (IH (S i)). destruct c; cbn; lia.
Qed.

Lemma GetChild_index n i :
  GetChild n (Itoa i) <> None -> Itoa i ∈ (GetChildrenMap n).*1.
Proof.
  destruct n as [|v|l|l]; cbn [GetChild GetChildrenMap]; [done|done| |].
  - destruct (assoc (Itoa i) l) eqn:E; [|done]. intros _. apply assoc_Some in E.
    apply list_elem_of_fmap. by exists (Itoa i, n).
  - rewrite Atoi_Itoa_range. destruct (Z.leb (Z.of_nat i) int64_max); [|done].
    destruct (_ || _)%bool; [done|].
    rewrite Nat2Z.id. intros H. apply not_eq_None_Some in H as [c Hc].
    assert (forall j, Itoa (j + i) ∈ (index_from j l).*1) as Hj; [|apply (Hj 0)].
    revert i Hc. induction l as [|d l IH]; intros [|i] Hc j; [done..| |].
    + rewrite Nat.add_0_r. left.
    + right. rewrite Nat.add_succ_r. exact (IH i Hc (S j)).
Qed.

Lemma indices_bounded n k :
  (forall i, i < k -> GetChild n (Itoa i) <> None) -> k < node_size n.
Proof.
  intros H. eapply Nat.le_lt_trans; [|apply length_children_size].
  assert (NoDup (Itoa <$> seq 0 k)) as Hnd.
  { apply NoDup_fmap_2; [intros ? ? ?; by apply Itoa_inj|apply NoDup_seq]. }
  assert ((Itoa <$> seq 0 k) ⊆ (GetChildrenMap n).*1) as Hs.
  { intros x (i & -> & Hi%elem_of_seq)%list_elem_of_fmap. apply GetChild_index, H. lia. }
  pose proof (submseteq_length _ _ (NoDup_submseteq _ _ Hnd Hs)) as Hl.
  by rewrite !length_fmap, length_seq in Hl.
Qed.

Definition quote_free (s : string) : bool := negb (Contains s dquote_str).

Lemma quote_free_forall s : quote_free s = str_forall (fun c => negb (bool_decide (dquote = c))) s.
Proof. unfold quote_free, dquote_str. rewrite Contains_char. apply negb_involutive. Qed.

Lemma KeyExists_index t C i :
  quote_free C = true ->
  KeyExists t (C +:+ "." +:+ Itoa i) =
    match get_path t (splitConcatKey C) with Some m => bool_decide (GetChild m (Itoa i) <> None) | None => false end.
Proof.
  intros Hq. unfold KeyExists, Get, GetNode.
  assert (splitConcatKey (C +:+ "." +:+ Itoa i) = splitConcatKey C ++ [Itoa i]) as ->.
  { unfold splitConcatKey.
    assert (forall s, quote_free s = true -> Contains s dquote_str = false) as Hc
      by (intros s Hs; by apply negb_true_iff).
    rewrite !Hc; [|done|].
    - change (C +:+ "." +:+ Itoa i) with (C +:+ String "."%char (Itoa i)).
      rewrite Split_app_sep, bind_app, (Split_no_occurrence "."%char (Itoa i)) by (apply clean_key_no; [set_solver|apply Itoa_clean]).
      f_equal. cbn. rewrite app_nil_r. apply split_segment_plain, clean_key_no; [set_solver|apply Itoa_clean].
    - rewrite quote_free_forall in Hq |- *. rewrite !str_forall_app, Hq. cbn.
      pose proof (clean_key_no dquote (Itoa i) ltac:(set_solver) (Itoa_clean i)) as Hd.
      rewrite Contains_char in Hd. by bool_prop. }
  rewrite get_path_snoc. by destruct (get_path t (splitConcatKey C)).
Qed.

(** The first index at which a boolean sequence fails, below a bound. *)
Lemma first_false (f : nat -> bool) k :
  ~ (forall i, i < k -> f i = true) -> exists n, n < k /\ f n = false /\ forall i, i < n -> f i = true.
Proof.
  enough ((forall i, i < k -> f i = true) \/ exists n, n < k /\ f n = false /\ forall i, i < n -> f i = true)
    as [|] by tauto.
  induction k as [|k [Hall|(n & ? & ? & ?)]]; [left; lia| |right; exists n; repeat split; auto].
  destruct (f k) eqn:E; [left|right; exists k; repeat split; auto].
  intros i Hi. destruct (decide (i = k)) as [->|]; [done|]. apply Hall. lia.
Qed.

Lemma split_aux_single sep s p : sep <> "" -> split_aux sep 0 s = (p, []) -> Contains s sep = false.
Proof.
  intros Hs. revert p. induction s as [|c s IH]; intros p; cbn [split_aux Contains].
  - intros _. by destruct sep.
  - destruct (HasPrefix (String c s) sep) eqn:E; [destruct (split_aux sep (String.length sep - 1) s); intros [=]|]. cbn.
    destruct (split_aux sep 0 s) as [p' r]. intros [= <- ->]. eauto.
Qed.

(** C34: expanding a key with [\[\]] markers that contains no quote terminates
    within the given bound, and lists exactly the instances with every marker but
    the last at index 0 and the last one running over the indices that exist:
    elements beyond the first of an outer list are never expanded. *)
Theorem generateKeyList_total t concatKey :
  quote_free concatKey = true -> Contains concatKey "[]" = true ->
  let parts := (fun p => Trim p ".") <$> Split concatKey "[]" in
  let slots := length parts - 1 in
  exists n, n <= node_size t /\
    (forall i, i < n -> round_ok t parts (last_index_list slots i) = true) /\
    round_ok t parts (last_index_list slots n) = false /\
    generateKeyList_fuel (gkl_fuel t concatKey) t concatKey =
      Some ((fun i => round_key parts (last_index_list slots i)) <$> seq 0 n).
Proof.
  intros Hq Hc parts slots.
  assert (2 <= length parts) as Hlen.
  { unfold parts. rewrite length_fmap. pose proof (Join_Split concatKey "[]" ltac:(done)) as Hj.
    unfold Split in *. destruct (split_aux "[]" 0 concatKey) as [p [|r1 r]] eqn:E; cbn; [|lia].
    apply (split_aux_single "[]") in E; [congruence|done]. }
  rewrite quote_free_forall in Hq.
  destruct (build_keys_check parts (fun c => negb (bool_decide (dquote = c))) Hlen) as (C & HC & Hck).
  { unfold parts. apply Forall_fmap, Forall_forall. intros x Hx. apply str_forall_Trim.
    rewrite <-(Join_Split concatKey "[]") in Hq by done.
    apply str_forall_Join in Hq. rewrite Forall_forall in Hq. auto. }
  { intros c [Hd| ->]; [|done]. apply digit_clean in Hd. by apply andb_true_iff in Hd as [[_ ?]%andb_true_iff _]. }
  assert (forall i, round_ok t parts (last_index_list slots i) = KeyExists t (C +:+ "." +:+ Itoa i)) as Hr.
  { intros i. unfold round_ok, slots. rewrite Hck, <-!str_app_assoc.
    by rewrite TrimSuffix_app, !str_app_assoc. }
  destruct (first_false (fun i => round_ok t parts (last_index_list slots i)) (node_size t)) as (n & Hn & Hno & Hok).
  { intros Hall. destruct (get_path t (splitConcatKey C)) as [m|] eqn:Em.
    - pose proof (node_size_path _ _ _ Em) as Hm.
      enough (node_size t < node_size m) by lia. apply indices_bounded. intros i Hi.
      specialize (Hall i Hi). cbn in Hall.
      rewrite Hr, KeyExists_index, Em in Hall by (by rewrite quote_free_forall). by bool_prop.
    - assert (0 < node_size t) as Hpos by (destruct t; cbn; lia). specialize (Hall 0 Hpos). cbn in Hall.
      rewrite Hr, KeyExists_index, Em in Hall by (by rewrite quote_free_forall). done. }
  exists n. split; [lia|]. split; [done|]. split; [done|].
  unfold generateKeyList_fuel. rewrite Hc. cbn [negb]. fold parts. fold slots.
  replace (replicate slots 0) with (last_index_list slots 0).
  2:{ unfold last_index_list. replace slots with (slots - 1 + 1) at 2 by (unfold slots; lia).
      by rewrite replicate_add. }
  rewrite (gkl_run t parts slots n 0 []); [done|unfold slots; lia|intros j Hj; apply Hok; lia|done|].
  unfold gkl_fuel. assert (length (Split concatKey "[]") = length parts) as ->
    by (unfold parts; by rewrite length_fmap). unfold slots. nia.
Qed.

Lemma generateKeyList_total_witness :
  let t := NMap [("items", NSlice [NMap [("a", NSlice [NVal (SBool true); NVal (SBool true)])];
                                   NMap [("a", NSlice [NVal (SBool false)])]])] in
  generateKeyList t "items[].a[]" = ["items.0.a.0"; "items.0.a.1"] /\
  exists n, n <= node_size t /\
    generateKeyList_fuel (gkl_fuel t "items[].a[]") t "items[].a[]" =
      Some ((fun i => round_key ["items"; "a"; ""] (last_index_list 2 i)) <$> seq 0 n).
Proof.
  intros t. split; [vm_compute; reflexivity|].
  destruct (generateKeyList_total t "items[].a[]" eq_refl eq_refl) as (n & Hn & _ & _ & H).
  exists n. split; [exact Hn|exact H].
Defined.

(** A key whose quotes the reader rejects is never exhausted: the empty key
    path it yields always exists, so the expansion loop runs forever.  The theorem
    names a mask key that becomes such a key once parsed. *)
Theorem generateKeyList_diverges t fuel :
  let key := "a" +:+ dquote_str +:+ "b[]" in
  parseConcatKey (dquote_str +:+ "a" +:+ dquote_str +:+ dquote_str +:+ "b[]" +:+ dquote_str) = key /\
  generateKeyList_fuel fuel t key = None.
Proof.
  intros key. split; [vm_compute; reflexivity|].
  assert (forall i acc, gkl_loop fuel t ["a" +:+ dquote_str +:+ "b"; ""] [i] [false] acc = None) as H.
  { induction fuel as [|f IH]; intros i acc; [done|]. cbn [gkl_loop build_keys last_unfinished].
    assert (KeyExists t (TrimSuffix (("a" +:+ dquote_str +:+ "b") +:+ ("." +:+ Itoa i +:+ ".") +:+ "") ".") = true) as ->.
    { rewrite str_app_nil_r, <-!str_app_assoc, TrimSuffix_app. by destruct t. }
    apply IH. }
  apply (H 0 []).
Qed.

(** A key followed by a star, which is how diff filters list a key, is listed for
    every path that merely contains it: the expression is not anchored. *)
Lemma isListed_star_contains q data :
  q <> "" -> plain q = true -> isListed data (q +:+ "*") = Contains data q.
Proof.
  intros Hq Hp. unfold isListed.
  assert (Contains q "*" = false) as Hs.
  { rewrite (Contains_char "*"%char). apply negb_false_iff. eapply str_forall_impl; [|exact Hp].
    intros c Hc%negb_true_iff. apply negb_true_iff, bool_decide_eq_false. by intros <-. }
  assert (ReplaceAll (q +:+ "*") "*" ".*" = q +:+ ".*") as ->.
  { unfold ReplaceAll. rewrite (Split_cons_sep "*"%char q "") by done. done. }
  rewrite MatchString_plain_star by done.
  rewrite (proj2 (Contains_spec (q +:+ "*") "*")) by (by exists q, "").
  case_bool_decide as Hd; [symmetry; apply Contains_spec; exists "", "*"; by subst|].
  rewrite !bool_decide_eq_false_2; [done| |]; by destruct q as [|? []].
Qed.

(** ** Concrete instances *)

Definition sample_tree : Node :=
  NMap [("kind", NVal (SStr "ConfigMap"));
        ("metadata", NMap [("name", NVal (SStr "cm")); ("uid", NVal (SStr "1"))]);
        ("data", NMap [("key", NVal (SStr "val"))])].

Lemma sample_clean : clean sample_tree.
Proof. vm_compute. repeat (split || constructor || set_solver). Qed.

Lemma Ravel_GetNode_witness :
  Ravel sample_tree !! "metadata.name" = Some (SStr "cm") /\
  GetNode sample_tree "metadata.name" = Some (NVal (SStr "cm")).
Proof.
  split; [vm_compute; reflexivity|].
  apply (Ravel_GetNode sample_tree sample_clean eq_refl). vm_compute; reflexivity.
Defined.

Lemma Mask_correct_witness :
  Ravel (Mask sample_tree ["metadata.uid"; "data"]).1 !! "metadata.name" = Some (SStr "cm").
Proof.
  apply (Mask_correct sample_tree ["metadata.uid"; "data"] "metadata.name" (SStr "cm") sample_clean).
  - vm_compute. tauto.
  - reflexivity.
  - split; [vm_compute; reflexivity|]. intros [|[|i]] Hi; [vm_compute; reflexivity..|].
    exfalso. vm_compute in Hi. lia.
Defined.

Lemma Mask_empty_key_witness : (Mask sample_tree ["data"; ""]).1 = NMap [].
Proof. apply (Mask_empty_key _ ["data"; ""]). left. right. left. Defined.
