(* ===== verification/Diff.v ===== *)
(** * Differences  ([shield/pkg/util/mapnode/diff.go] and the diff half of node.go)

    Two trees are compared through their flattened forms.  The comparison of two
    flat maps itself is the library [r3labs/diff], a parameter with its
    documented behaviour; how Go prints a float is a parameter as well. *)
From S2P Require Import Prelude GoStrings GoRegexp GoJson MapNode.
From Stdlib Require Import SpecFloat.
From stdpp Require Import options.

(** ** Go equality of leaves *)

(** [==] on two [interface{}] leaves: the same dynamic type and equal values. *)
Definition go_eq (a b : scalar) : bool :=
  match a, b with
  | SBool x, SBool y => Bool.eqb x y
  | SNum x, SNum y => SFeqb x y
  | SStr x, SStr y => bool_decide (x = y)
  | _, _ => false
  end.

(** The same with [nil] on either side. *)
Definition go_eq_nil (a b : option scalar) : bool :=
  match a, b with
  | None, None => true
  | Some a, Some b => go_eq a b
  | _, _ => false
  end.

(** [reflect.DeepEqual] of two flat maps: equal sizes, and every key of the first
    has an equal value in the second. *)
Definition DeepEqual (m1 m2 : gmap string scalar) : bool :=
  Nat.eqb (size m1) (size m2) &&
  forallb (fun kv => go_eq_nil (Some kv.2) (m2 !! kv.1)) (map_to_list m1).

(** ** The libraries *)

Record Change := mkChange {
  chg_Type : string;
  chg_Path : list string;
  chg_From : option scalar;
  chg_To : option scalar;
}.

(** [diff.Diff] of [github.com/r3labs/diff] on two flat maps. *)
Class DiffLib := { diff_Diff : gmap string scalar -> gmap string scalar -> list Change }.

Definition change_type (from to : option scalar) : string :=
  match from, to with None, _ => "create" | _, None => "delete" | _, _ => "update" end.

(** Its documented behaviour on maps whose shared keys hold values of one type:
    one [create], [delete] or [update] change per key that differs, whose path is
    the key. *)
Class DiffLibOk `{DiffLib} := diff_Diff_spec : forall m1 m2 c,
  (forall k a b, m1 !! k = Some a -> m2 !! k = Some b -> same_type a b = true) ->
  c ∈ diff_Diff m1 m2 <->
  exists k, chg_Path c = [k] /\ chg_From c = m1 !! k /\ chg_To c = m2 !! k /\
    go_eq_nil (m1 !! k) (m2 !! k) = false /\
    chg_Type c = change_type (m1 !! k) (m2 !! k).

(** [%v] and [json.Marshal] of a [float64]. *)
Class FloatFmt := { fmt_float : spec_float -> string; json_float : spec_float -> string }.

(** ** Differences *)

(** [Difference]: the key and the [before] and [after] entries of [Values],
    [None] for nil. *)
Record Difference := mkDifference {
  d_Key : string;
  d_before : option scalar;
  d_after : option scalar;
}.

Definition values_equal (d d2 : Difference) : bool :=
  go_eq_nil (d_before d) (d_before d2) && go_eq_nil (d_after d) (d_after d2).

Definition Difference_Equal (d d2 : Difference) : bool :=
  bool_decide (d_Key d = d_Key d2) && values_equal d d2.

(** [DiffPattern.Match] *)
Definition DiffPattern_Match (d d2 : Difference) : bool :=
  if bool_decide (d_Key d = d_Key d2) then
    if values_equal d d2 then true
    else match d_before d, d_before d2, d_after d, d_after d2 with
         | Some (SStr d1bStr), Some (SStr d2bStr), Some (SStr d1aStr), Some (SStr d2aStr) =>
             isListed d2bStr d1bStr && isListed d2aStr d1aStr
         | _, _, _, _ => false
         end
  else false.

(** [DiffResult] is its list of items. *)
Definition Keys (dr : list Difference) : list string := d_Key <$> dr.
Definition DiffSize (dr : list Difference) : nat := length dr.

Definition Remove (dr patterns : list Difference) : list Difference :=
  List.filter (fun d => negb (existsb (fun p => DiffPattern_Match p d) patterns)) dr.

(** [Filter]: the filtered items, the others, and the keys that matched.  The
    mask keys are widened with a star in the caller's slice. *)
Definition Filter (dr : list Difference) (maskKeys : list string)
  : list Difference * list Difference * list string :=
  let maskKeys := (fun key => key +:+ "*") <$> maskKeys in
  let hit dri := (keyExistsInList maskKeys (d_Key dri)).1 in
  (List.filter hit dr, List.filter (fun d => negb (hit d)) dr,
   (fun dri => (keyExistsInList maskKeys (d_Key dri)).2) <$> List.filter hit dr).

(** [ToJson], [String] and [KeyString] *)
Section print.
Context `{FloatFmt}.

Definition json_scalar (v : option scalar) : string :=
  match v with
  | None => "null"
  | Some (SBool true) => "true"
  | Some (SBool false) => "false"
  | Some (SNum f) => json_float f
  | Some (SStr s) => marshal_str s
  end.

Definition DiffToJson (dr : list Difference) : string :=
  let item d := "{" +:+ marshal_str "key" +:+ ":" +:+ marshal_str (d_Key d) +:+ "," +:+
    marshal_str "values" +:+ ":{" +:+ marshal_str "after" +:+ ":" +:+ json_scalar (d_after d) +:+ "," +:+
    marshal_str "before" +:+ ":" +:+ json_scalar (d_before d) +:+ "}}" in
  "{" +:+ marshal_str "items" +:+ ":[" +:+ Join (item <$> dr) "," +:+ "]}".

Definition DiffString (dr : list Difference) : string :=
  if Nat.eqb (DiffSize dr) 0 then "" else DiffToJson dr.

Definition KeyString (dr : list Difference) : string :=
  "{" +:+ marshal_str "items" +:+ ":[" +:+
  Join ((fun k => marshal_strmap [("key", k)]) <$> Keys dr) "," +:+ "]}".

(** [fmt.Sprintf("(type: %T) %s", v, v)] *)
Definition type_message (v : scalar) : string :=
  match v with
  | SBool b => "(type: bool) %!s(bool=" +:+ (if b then "true" else "false") +:+ ")"
  | SNum f => "(type: float64) %!s(float64=" +:+ fmt_float f +:+ ")"
  | SStr s => "(type: string) " +:+ s
  end.
End print.

(** ** Comparing two trees *)

Section diff.
Context `{DiffLib, FloatFmt}.

(** [extractComparableMap]: the keys of two types on one side, the rest on the other. *)
Definition type_clash (m1 m2 : gmap string scalar) (k : string) : bool :=
  match m1 !! k, m2 !! k with
  | Some v1, Some v2 => negb (same_type v1 v2)
  | _, _ => false
  end.

Definition extractComparableMap (m1 m2 : gmap string scalar)
  : gmap string scalar * gmap string scalar * list Difference :=
  let keys := elements (dom m1 ∪ dom m2) in
  (filter (fun kv => type_clash m1 m2 kv.1 = false) m1,
   filter (fun kv => type_clash m1 m2 kv.1 = false) m2,
   (fun k => mkDifference k (SStr ∘ type_message <$> m1 !! k) (SStr ∘ type_message <$> m2 !! k)) <$>
     List.filter (type_clash m1 m2) keys).

(** [regexp] [\.\d+\.] *)
Definition list_key_re : re := default REps (Compile "\.\d+\.").

(** [removeKeyDiffsInListNode]: a value that disappears at one list index and
    appears at another one is not a difference. *)
Definition moved (items : list Difference) (item : Difference) : bool :=
  let valBeforeNil := bool_decide (d_before item = None) in
  let valAfterNil := bool_decide (d_after item = None) in
  if re_match list_key_re (d_Key item) && (valBeforeNil || valAfterNil) then
    let searchKey := ReplaceAllString list_key_re (d_Key item) "\.\d+\." in
    existsb (fun tmpItem =>
      let keyMatched := MatchString_ok searchKey (d_Key tmpItem) in
      let tmpValAfterMatched := go_eq_nil (d_before item) (d_after tmpItem) &&
                                bool_decide (d_before tmpItem = None) && valAfterNil in
      let tmpValBeforeMatched := go_eq_nil (d_after item) (d_before tmpItem) &&
                                 bool_decide (d_after tmpItem = None) && valBeforeNil in
      keyMatched && (tmpValBeforeMatched || tmpValAfterMatched)) items
  else false.

Definition removeKeyDiffsInListNode (items : list Difference) : list Difference :=
  List.filter (fun item => negb (moved items item)) items.

(** [sort.SliceStable] by key: insertion after the equal keys. *)
Definition key_le (a b : Difference) : bool := negb (String.ltb (d_Key b) (d_Key a)).
Fixpoint insert_sorted (d : Difference) (l : list Difference) : list Difference :=
  match l with
  | [] => [d]
  | d' :: l' => if key_le d d' then d :: l else d' :: insert_sorted d l'
  end.
Definition sort_stable (l : list Difference) : list Difference := foldr insert_sorted [] l.

(** [FindDiffBetweenNodes]; [findType = None] is the nil map. *)
Definition FindDiffBetweenNodes (t1 t2 : Node) (findType : option (list string)) : option (list Difference) :=
  let findType := default ["create"; "update"; "delete"] findType in
  let m1 := Ravel t1 in
  let m2 := Ravel t2 in
  if DeepEqual m1 m2 then None
  else
    let '(nm1, nm2, typeDiffs) := extractComparableMap m1 m2 in
    let changelog := diff_Diff nm1 nm2 in
    if (Nat.eqb (length changelog) 0 && Nat.eqb (length typeDiffs) 0)%bool then None
    else
      let items := (fun c => mkDifference (hd "" (chg_Path c)) (chg_From c) (chg_To c)) <$>
                     List.filter (fun c => bool_decide (chg_Type c ∈ findType)) changelog in
      let items := removeKeyDiffsInListNode items in
      Some (sort_stable (items ++ typeDiffs)).

Definition Diff (t t2 : Node) : option (list Difference) := FindDiffBetweenNodes t t2 None.
Definition DiffSpecificType (t t2 : Node) (findTypeList : list string) : option (list Difference) :=
  FindDiffBetweenNodes t t2 (Some findTypeList).
Definition FindUpdatedAndDeleted (t t2 : Node) : option (list Difference) :=
  DiffSpecificType t t2 ["update"; "delete"].
Definition FindUpdatedAndCreated (t t2 : Node) : option (list Difference) :=
  DiffSpecificType t t2 ["update"; "create"].
End diff.

(** ** Facts: equality of flat maps *)

Lemma change_type_known a b : change_type a b ∈ ["create"; "update"; "delete"].
Proof. unfold change_type. destruct a, b; set_solver. Qed.

Lemma go_eq_same_type a b : go_eq a b = true -> same_type a b = true.
Proof. by destruct a, b. Qed.

(** Pointwise equality of two flat maps. *)
Definition flat_eq (m1 m2 : gmap string scalar) : Prop :=
  forall k, go_eq_nil (m1 !! k) (m2 !! k) = true.

Lemma forallb_elem {A} (f : A -> bool) l : forallb f l = true <-> forall x, x ∈ l -> f x = true.
Proof. rewrite forallb_forall. by setoid_rewrite list_elem_of_In. Qed.

Lemma DeepEqual_iff m1 m2 : DeepEqual m1 m2 = true <-> flat_eq m1 m2.
Proof.
  unfold DeepEqual, flat_eq. rewrite andb_true_iff, Nat.eqb_eq, forallb_elem. split.
  - intros [Hs H] k.
    assert (forall k v, m1 !! k = Some v -> go_eq_nil (Some v) (m2 !! k) = true) as H'.
    { intros k' v Hk. apply (H (k', v)). by apply elem_of_map_to_list. }
    destruct (m1 !! k) as [v|] eqn:E1; [auto|]. destruct (m2 !! k) as [w|] eqn:E2; [|done]. exfalso.
    assert (dom m1 ⊆ dom m2) as Hd.
    { intros x (v & Hv)%elem_of_dom. specialize (H' x v Hv). apply elem_of_dom. by destruct (m2 !! x). }
    assert (dom m2 ⊆ dom m1) as Hd'.
    { rewrite (set_subseteq_size_eq (dom m1) (dom m2)); [done|done|]. rewrite !size_dom. lia. }
    assert (k ∈ dom m1) as (v & Hv)%elem_of_dom by (apply Hd', elem_of_dom; eauto). congruence.
  - intros H. split.
    + rewrite <-!size_dom. f_equal. apply set_eq. intros k. rewrite !elem_of_dom. specialize (H k).
      destruct (m1 !! k), (m2 !! k); try done; split; eauto; by intros [? ?].
    + intros [k v] Hk%elem_of_map_to_list. specialize (H k). by rewrite Hk in H.
Qed.

(** ** Facts: the comparison *)

Section diff_facts.
Context `{DiffLibOk, FloatFmt}.
#[local] Set Default Proof Using "Type*".

Lemma extract_fst m1 m2 k : (extractComparableMap m1 m2).1.1 !! k = if type_clash m1 m2 k then None else m1 !! k.
Proof.
  cbn. rewrite map_lookup_filter. destruct (m1 !! k) as [v|] eqn:E; cbn; [|by destruct (type_clash _ _ _)].
  destruct (type_clash m1 m2 k) eqn:T.
  - by rewrite option_guard_False.
  - by rewrite option_guard_True.
Qed.

Lemma extract_snd m1 m2 k : (extractComparableMap m1 m2).1.2 !! k = if type_clash m1 m2 k then None else m2 !! k.
Proof.
  cbn. rewrite map_lookup_filter. destruct (m2 !! k) as [v|] eqn:E; cbn; [|by destruct (type_clash _ _ _)].
  destruct (type_clash m1 m2 k) eqn:T.
  - by rewrite option_guard_False.
  - by rewrite option_guard_True.
Qed.

Lemma type_clash_differs m1 m2 k : type_clash m1 m2 k = true -> go_eq_nil (m1 !! k) (m2 !! k) = false.
Proof.
  unfold type_clash. destruct (m1 !! k) as [a|], (m2 !! k) as [b|]; try done.
  by destruct a, b.
Qed.

Lemma extract_typeDiffs m1 m2 k :
  k ∈ Keys (extractComparableMap m1 m2).2 <-> type_clash m1 m2 k = true.
Proof.
  unfold Keys. cbn. rewrite <-list_fmap_compose. setoid_rewrite list_elem_of_fmap. cbn. split.
  - intros (? & -> & [_ Hc]%list_elem_of_In%filter_In). done.
  - intros Hc. exists k. split; [done|]. apply list_elem_of_In, filter_In. split; [|done].
    apply list_elem_of_In, elem_of_elements. unfold type_clash in Hc. apply elem_of_union. left.
    apply elem_of_dom. by destruct (m1 !! k).
Qed.

(** The changes the library reports are the keys of one type that differ. *)
Lemma changelog_elem m1 m2 c :
  c ∈ diff_Diff (extractComparableMap m1 m2).1.1 (extractComparableMap m1 m2).1.2 <->
  exists k, type_clash m1 m2 k = false /\ chg_Path c = [k] /\ chg_From c = m1 !! k /\ chg_To c = m2 !! k /\
    go_eq_nil (m1 !! k) (m2 !! k) = false /\
    chg_Type c = change_type (m1 !! k) (m2 !! k).
Proof.
  rewrite diff_Diff_spec.
  - setoid_rewrite extract_fst. setoid_rewrite extract_snd. split.
    + intros (k & Hp & Hf & Ht & Hd & Hty). exists k. destruct (type_clash m1 m2 k); [by cbn in Hd|]. split; [done|]. tauto.
    + intros (k & Hc & Hp & Hf & Ht & Hd & Hty). exists k. rewrite Hc. tauto.
  - intros k a b. rewrite extract_fst, extract_snd. destruct (type_clash m1 m2 k) eqn:E; [done|].
    unfold type_clash in E. intros Ha Hb. rewrite Ha, Hb in E. by apply negb_false_iff.
Qed.

Lemma insert_sorted_perm d l : insert_sorted d l ≡ₚ d :: l.
Proof.
  induction l as [|d' l IH]; [done|]. cbn. destruct (key_le d d'); [done|]. rewrite IH. apply Permutation_swap.
Qed.

Lemma sort_stable_perm l : sort_stable l ≡ₚ l.
Proof. induction l as [|d l IH]; [done|]. cbn. by rewrite insert_sorted_perm, IH. Qed.

(** The state of [FindDiffBetweenNodes] before sorting. *)
Lemma FindDiff_Some t1 t2 ft dr :
  FindDiffBetweenNodes t1 t2 ft = Some dr ->
  let e := extractComparableMap (Ravel t1) (Ravel t2) in
  let items := (fun c => mkDifference (hd "" (chg_Path c)) (chg_From c) (chg_To c)) <$>
    List.filter (fun c => bool_decide (chg_Type c ∈ default ["create"; "update"; "delete"] ft)) (diff_Diff e.1.1 e.1.2) in
  dr ≡ₚ removeKeyDiffsInListNode items ++ e.2.
Proof.
  unfold FindDiffBetweenNodes. destruct (DeepEqual _ _); [done|].
  destruct (extractComparableMap _ _) as [[nm1 nm2] td]. cbn. case_goal; [done|].
  intros [= <-]. apply sort_stable_perm.
Qed.

Lemma moved_only_lists items d : re_match list_key_re (d_Key d) = false -> moved items d = false.
Proof. intros Hk. unfold moved. by rewrite Hk. Qed.

Lemma FindDiff_None t1 t2 ft : FindDiffBetweenNodes t1 t2 ft = None <-> flat_eq (Ravel t1) (Ravel t2).
Proof.
  rewrite <-DeepEqual_iff. unfold FindDiffBetweenNodes.
  destruct (DeepEqual (Ravel t1) (Ravel t2)) eqn:E; [done|]. split; [|done].
  pose proof (changelog_elem (Ravel t1) (Ravel t2)) as Hc.
  pose proof (extract_typeDiffs (Ravel t1) (Ravel t2)) as Ht.
  destruct (extractComparableMap _ _) as [[nm1 nm2] td]. cbn in Hc, Ht |- *.
  destruct (diff_Diff nm1 nm2) as [|c cl] eqn:Ed; [|done].
  destruct td as [|d td]; [|done]. intros _. rewrite <-E. apply DeepEqual_iff. intros k.
  destruct (go_eq_nil (Ravel t1 !! k) (Ravel t2 !! k)) eqn:Eg; [done|]. exfalso.
  destruct (type_clash (Ravel t1) (Ravel t2) k) eqn:Ec.
  - apply Ht in Ec. by apply elem_of_nil in Ec.
  - assert (mkChange (change_type (Ravel t1 !! k) (Ravel t2 !! k)) [k] (Ravel t1 !! k) (Ravel t2 !! k) ∈ @nil Change)
      as Hin; [|by apply elem_of_nil in Hin].
    apply Hc. by exists k.
Qed.

Lemma Diff_None t1 t2 : Diff t1 t2 = None <-> flat_eq (Ravel t1) (Ravel t2).
Proof. apply FindDiff_None. Qed.

(** The comparison of two trees returns no result exactly when their
    flattened forms agree on every path: no difference goes unnoticed, and equal
    forms are never reported. *)
Theorem Diff_nil_iff t1 t2 : Diff t1 t2 = None <-> flat_eq (Ravel t1) (Ravel t2).
Proof. apply Diff_None. Qed.

(** The keys listed by a comparison: those whose change is looked for, and those
    whose type changes. *)
Lemma FindDiff_keys t1 t2 ft dr k :
  FindDiffBetweenNodes t1 t2 ft = Some dr ->
  (k ∈ Keys dr -> go_eq_nil (Ravel t1 !! k) (Ravel t2 !! k) = false) /\
  (re_match list_key_re k = false -> go_eq_nil (Ravel t1 !! k) (Ravel t2 !! k) = false ->
   change_type (Ravel t1 !! k) (Ravel t2 !! k) ∈ default ["create"; "update"; "delete"] ft -> k ∈ Keys dr).
Proof.
  intros Hd%FindDiff_Some. unfold Keys. setoid_rewrite Hd. rewrite fmap_app. setoid_rewrite elem_of_app.
  pose proof (changelog_elem (Ravel t1) (Ravel t2)) as Hc.
  pose proof (extract_typeDiffs (Ravel t1) (Ravel t2) k) as Ht.
  destruct (extractComparableMap _ _) as [[nm1 nm2] td]. cbn [fst snd] in *. split.
  - intros [(d & -> & Hin)%list_elem_of_fmap|Hin]; [|by apply type_clash_differs, Ht].
    apply list_elem_of_In, filter_In in Hin as [Hin _]. apply list_elem_of_In, list_elem_of_fmap in Hin as (c & -> & Hin).
    apply list_elem_of_In, filter_In in Hin as [Hin _]. apply list_elem_of_In, Hc in Hin as (k' & _ & Hp & _ & _ & Hg & _).
    cbn. by rewrite Hp.
  - intros Hk Hg Hty. destruct (type_clash (Ravel t1) (Ravel t2) k) eqn:Ec; [right; by apply Ht|]. left.
    set (c := mkChange (change_type (Ravel t1 !! k) (Ravel t2 !! k)) [k] (Ravel t1 !! k) (Ravel t2 !! k)).
    assert (c ∈ diff_Diff nm1 nm2) as Hin by (apply Hc; by exists k).
    apply list_elem_of_fmap. exists (mkDifference k (Ravel t1 !! k) (Ravel t2 !! k)). split; [done|].
    apply list_elem_of_In, filter_In. split.
    + apply list_elem_of_In, list_elem_of_fmap. exists c. split; [done|]. apply list_elem_of_In, filter_In.
      split; [by apply list_elem_of_In|]. by apply bool_decide_eq_true.
    + apply negb_true_iff. by apply moved_only_lists.
Qed.

Lemma Diff_keys t1 t2 dr k :
  Diff t1 t2 = Some dr ->
  (k ∈ Keys dr -> go_eq_nil (Ravel t1 !! k) (Ravel t2 !! k) = false) /\
  (re_match list_key_re k = false -> go_eq_nil (Ravel t1 !! k) (Ravel t2 !! k) = false -> k ∈ Keys dr).
Proof. intros [Ha Hb]%(FindDiff_keys _ _ _ _ k). split; [done|]. intros. apply Hb; [done..|]. apply change_type_known. Qed.

(** When nothing is found updated or deleted, every value outside of list
    elements is kept. *)
Lemma FindUpdatedAndDeleted_kept t1 t2 k v :
  FindUpdatedAndDeleted t1 t2 = Some [] -> re_match list_key_re k = false -> Ravel t1 !! k = Some v ->
  go_eq_nil (Some v) (Ravel t2 !! k) = true.
Proof.
  intros [_ Hb]%(FindDiff_keys _ _ _ _ k) Hk Hv. rewrite Hv in Hb.
  destruct (go_eq_nil (Some v) (Ravel t2 !! k)) eqn:E; [done|]. exfalso.
  apply (not_elem_of_nil k), Hb; [done..|]. cbn. destruct (Ravel t2 !! k); set_solver.
Qed.


End diff_facts.

(** ** Facts: filtering *)

Lemma keyExistsInList_fst keys p : (keyExistsInList keys p).1 = existsb (isListed p) keys.
Proof.
  unfold keyExistsInList. induction keys as [|k keys IH]; [done|]. cbn.
  by destruct (isListed p k).
Qed.

Lemma Filter_unfiltered dr maskKeys d :
  d ∈ (Filter dr maskKeys).1.2 <->
  d ∈ dr /\ forall k, k ∈ maskKeys -> isListed (d_Key d) (k +:+ "*") = false.
Proof.
  unfold Filter. cbn [fst snd]. rewrite list_elem_of_In, filter_In, <-list_elem_of_In, negb_true_iff.
  apply and_iff_compat_l. rewrite keyExistsInList_fst, existsb_false. split.
  - intros H k Hk. apply H. by apply (list_elem_of_fmap_2 (fun key => key +:+ "*")).
  - intros H x (k & -> & Hk)%list_elem_of_fmap. auto.
Qed.

Lemma filter_partition {A} (p : A -> bool) l :
  List.filter p l ++ List.filter (fun x => negb (p x)) l ≡ₚ l.
Proof.
  induction l as [|x l IH]; [done|]. cbn. destruct (p x); cbn; [by rewrite IH|].
  by rewrite <-Permutation_middle, IH.
Qed.

(** Filtering splits the differences in two, and with mask keys free of
    regular-expression characters the ones left are those whose key contains none
    of the mask keys anywhere, not only as a prefix. *)
Theorem Filter_correct dr maskKeys :
  Forall (fun k => k <> "" /\ plain k = true) maskKeys ->
  let '(filtered, unfiltered, matched) := Filter dr maskKeys in
  filtered ++ unfiltered ≡ₚ dr /\
  (forall d, d ∈ unfiltered <-> d ∈ dr /\ forall k, k ∈ maskKeys -> Contains (d_Key d) k = false) /\
  length matched = length filtered.
Proof.
  intros Hk. pose proof (Filter_unfiltered dr maskKeys) as Hu.
  destruct (Filter dr maskKeys) as [[f u] m] eqn:E. cbn [fst snd] in Hu. rewrite Forall_forall in Hk.
  split; [injection E as <- <- <-; apply filter_partition|].
  split; [|injection E as <- <- <-; by rewrite length_fmap].
  intros d. rewrite Hu. apply and_iff_compat_l.
  split; intros Hl k Hkm; destruct (Hk k Hkm); specialize (Hl k Hkm);
    by rewrite isListed_star_contains in *.
Qed.

Lemma Filter_correct_witness :
  let d := mkDifference "metadata.name" (Some (SStr "a")) (Some (SStr "b")) in
  Filter [d] ["data"] = ([d], [], ["data*"]) /\
  (d ∈ (Filter [d] ["data"]).1.2 <-> d ∈ [d] /\ forall k, k ∈ ["data"] -> Contains (d_Key d) k = false).
Proof.
  intros d. split; [vm_compute; reflexivity|].
  assert (Forall (fun k => k <> "" /\ plain k = true) ["data"]) as Hk by (repeat constructor; discriminate).
  exact (proj1 (proj2 (Filter_correct [d] ["data"] Hk)) d).
Defined.

(** ** Concrete instances *)

(** A comparison of flat maps with the documented behaviour. *)
Definition sample_diff : DiffLib := {|
  diff_Diff m1 m2 :=
    k ← elements (dom m1 ∪ dom m2);
    if go_eq_nil (m1 !! k) (m2 !! k) then []
    else [mkChange (change_type (m1 !! k) (m2 !! k)) [k] (m1 !! k) (m2 !! k)] |}.

Lemma sample_diff_ok : @DiffLibOk sample_diff.
Proof.
  intros m1 m2 c _. cbn. rewrite list_elem_of_bind. split.
  - intros (k & Hin & _). destruct (go_eq_nil (m1 !! k) (m2 !! k)) eqn:E; [by apply elem_of_nil in Hin|].
    apply list_elem_of_singleton in Hin as ->. by exists k.
  - intros (k & Hp & Hf & Ht & Hg & Hty). exists k. rewrite Hg. split.
    + destruct c; cbn in *; subst. apply list_elem_of_singleton. by f_equal.
    + apply elem_of_elements, elem_of_union. rewrite !elem_of_dom.
      destruct (m1 !! k); [left; eauto|]. destruct (m2 !! k); [right; eauto|done].
Qed.

Definition sample_float : FloatFmt := {| fmt_float _ := "1"; json_float _ := "1" |}.

Lemma Diff_nil_iff_witness :
  @Diff sample_diff sample_float sample_tree sample_tree = None /\
  flat_eq (Ravel sample_tree) (Ravel sample_tree).
Proof.
  split; [vm_compute; reflexivity|].
  apply (@Diff_nil_iff sample_diff sample_diff_ok sample_float sample_tree sample_tree).
  vm_compute; reflexivity.
Defined.

Definition renamed_tree : Node :=
  NMap [("kind", NVal (SStr "ConfigMap"));
        ("metadata", NMap [("name", NVal (SStr "other")); ("uid", NVal (SStr "1"))]);
        ("data", NMap [("key", NVal (SStr "val"))])].


(** A field that moves between the elements of a list is not a difference: the
    result is there, and empty. *)
Example Diff_moved_field :
  @Diff sample_diff sample_float
    (NMap [("l", NSlice [NMap [("a", NVal (SStr "x"))]; NMap [("b", NVal (SStr "y"))]])])
    (NMap [("l", NSlice [NMap []; NMap [("b", NVal (SStr "y")); ("a", NVal (SStr "x"))]])]) = Some [].
Proof. vm_compute. reflexivity. Qed.
