(* ===== verification/Mutation.v ===== *)
(** * Mutation check  ([shield/pkg/shield/utilMutation.go])

    Whether an update changes anything outside of the attributes the profile
    ignores: both objects are decoded, stripped of the fields the API server
    maintains, compared, and the differences filtered by the ignored keys. *)
From S2P Require Import Prelude GoStrings GoRegexp GoJson Pattern Common ReqContext Profile SigningProfile MapNode Diff.
From stdpp Require Import options.

(** [mask]: the paths left out of the comparison.  The label key is listed
    without the [metadata.labels] path it is stored under. *)
Definition mutation_mask : list string :=
  [ResourceIntegrityLabelKey;
   "metadata.annotations.namespace";
   "metadata.annotations.kubectl." +:+ dquote_str +:+ "kubernetes.io/last-applied-configuration" +:+ dquote_str;
   "metadata.annotations.deprecated.daemonset.template.generation";
   "metadata.creationTimestamp";
   "metadata.uid";
   "metadata.generation";
   "metadata.managedFields";
   "metadata.selfLink";
   "metadata.resourceVersion";
   "status"].

Record Ma4kInput := mkMa4kInput {
  ma_Before : list (string * value);
  ma_After : list (string * value);
  ma_Namespace : string;
  ma_UserName : string;
  ma_Kind : string;
  ma_Name : string;
  ma_UserGroups : list string;
}.

Record MAResult := mkMAResult {
  mr_IsMutated : bool;
  mr_Diff : string;
  mr_Filtered : string;
  mr_MatchedKeys : list string;
  mr_Checked : bool;
  mr_Msg : string;
}.

Definition NewMa4kInput (namespace kind name username : string) (usergroups : list string)
    (oldObj newObj : list (string * value)) : Ma4kInput :=
  mkMa4kInput oldObj newObj namespace username kind name usergroups.

(** [MutationMessage]: the keys joined with commas; an empty key at the front is
    overwritten by its successor. *)
Definition MutationMessage (resourceName : string) (diffResult : list Difference) : string :=
  match diffResult with
  | [] => "no mutation"
  | [d] => d_Key d +:+ " in " +:+ resourceName +:+ " is mutated."
  | _ =>
      let mutatedKeys := foldl (fun ks d => if bool_decide (ks = "") then d_Key d else ks +:+ "," +:+ d_Key d) "" diffResult in
      mutatedKeys +:+ " in " +:+ resourceName +:+ " are mutated."
  end.

(** [generateMaskKeys]: the rules are matched once more, against five fields of
    the request only. *)
Definition mask_fields (namespace name kind username : string) (usergroups : list string) : gmap string string :=
  <["UserGroups" := Join usergroups ","]>
  (<["UserName" := username]> (<["Kind" := kind]> (<["Name" := name]> {["Namespace" := namespace]}))).

Definition generateMaskKeys (rules : list AttrsPattern) (namespace name kind username : string)
    (usergroups : list string) : list string :=
  let reqFields := mask_fields namespace name kind username usergroups in
  rule ← rules; if Attrs_MatchWith rule reqFields then ap_Attrs rule else [].

Section mutation.
Context `{DiffLib, FloatFmt}.

(** [GetMAResult] *)
Definition GetMAResult (input : Ma4kInput) (rules : list AttrsPattern) (excludeDiffValue : bool) : MAResult :=
  let oldObject := NewFromMap (ma_Before input) in
  let newObject := NewFromMap (ma_After input) in
  let allMaskKeys := generateMaskKeys rules (ma_Namespace input) (ma_Name input) (ma_Kind input)
                       (ma_UserName input) (ma_UserGroups input) in
  let '(filtered, unfiltered, matchedKeys) :=
    match Diff oldObject newObject with
    | None => ([], [], [])
    | Some dr => Filter dr allMaskKeys
    end in
  {| mr_IsMutated := negb (Nat.eqb (DiffSize unfiltered) 0);
     mr_Checked := true;
     mr_Diff := if excludeDiffValue then KeyString unfiltered else DiffString unfiltered;
     mr_Filtered := if excludeDiffValue then KeyString filtered else DiffString filtered;
     mr_MatchedKeys := matchedKeys;
     mr_Msg := MutationMessage (ma_Name input) unfiltered |}.

(** [json.Unmarshal]'s error message for a document it rejects. *)
Context (json_error : string -> string).

Definition mutation_error (err : option string) (reason : string) : MutationEvalResult :=
  mkMutationEvalResult false "" "" false (Some (mkCheckError "" reason err)).

(** [ConcreteMutationChecker.Eval].  The mask slice is rewritten by the first
    [Mask] and used again, as rewritten, by the second. *)
Definition Mutation_Eval (reqc : ReqContext) (signingProfile : ResourceSigningProfile) : MutationEvalResult :=
  match rc_RawOldObject reqc with
  | None => mutation_error None "no old object in request"
  | Some rawOld =>
      match NewFromBytes rawOld with
      | None => mutation_error (Some (json_error rawOld)) "fail to parse old object in request"
      | Some v =>
          let '(v, mask) := Mask v mutation_mask in
          let oldObj := ToMap v in
          match rc_RawObject reqc with
          | None => mutation_error None "no (claimed) object in request"
          | Some raw =>
              match NewFromBytes raw with
              | None => mutation_error (Some (json_error raw)) "fail to parse (claimed) object in request"
              | Some v =>
                  let newObj := ToMap (Mask v mask).1 in
                  let input := NewMa4kInput (rc_Namespace reqc) (rc_Kind reqc) (rc_Name reqc) (rc_UserName reqc)
                                 (rc_UserGroups reqc) oldObj newObj in
                  let ignoreAttrsList := RSP_IgnoreAttrs signingProfile (ReqMap reqc) in
                  let mr := GetMAResult input ignoreAttrsList (ExcludeDiffValue reqc) in
                  mkMutationEvalResult (mr_IsMutated mr) (mr_Diff mr) (mr_Filtered mr) (mr_Checked mr)
                    (Some (mkCheckError "" (mr_Msg mr) None))
              end
          end
      end
  end.

Definition MutationCheck (reqc : ReqContext) : MutationEvalResult := Mutation_Eval reqc emptyRSP.
End mutation.

(** ** Facts *)

Lemma NewNode_Interface n : NewNode (Interface n) = n.
Proof.
  induction n as [|v|l IH|l IH] using Node_ind'; cbn; try done; f_equal; rewrite map_map.
  - induction IH as [|[k c] l Hc _ IHl]; cbn in *; [done|]. by rewrite Hc, IHl.
  - induction IH as [|c l Hc _ IHl]; cbn in *; [done|]. by rewrite Hc, IHl.
Qed.

Lemma NewFromMap_ToMap n : IsMap n = true -> NewFromMap (ToMap n) = n.
Proof. destruct n as [| |l|]; try done. intros _. exact (NewNode_Interface (NMap l)). Qed.

Lemma Mask_IsMap n keys : IsMap (Mask n keys).1 = IsMap n.
Proof. unfold Mask. destruct (validateKeyList n keys). by destruct n. Qed.

(** The keys of the fixed mask are parsed once; parsing them again changes nothing,
    so both objects are masked by the same keys. *)
Lemma mutation_mask_stable t : (Mask t mutation_mask).2 = parseConcatKey <$> mutation_mask /\
  parseConcatKey <$> (parseConcatKey <$> mutation_mask) = parseConcatKey <$> mutation_mask.
Proof. split; [done|vm_compute; reflexivity]. Qed.

Section mutation_facts.
Context `{DiffLibOk, FloatFmt} (json_error : string -> string).
#[local] Set Default Proof Using "Type*".

Lemma GetMAResult_not_mutated input rules ex t1 t2 k :
  NewFromMap (ma_Before input) = t1 -> NewFromMap (ma_After input) = t2 ->
  mr_IsMutated (GetMAResult input rules ex) = false ->
  re_match list_key_re k = false ->
  go_eq_nil (Ravel t1 !! k) (Ravel t2 !! k) = false ->
  exists key, key ∈ generateMaskKeys rules (ma_Namespace input) (ma_Name input) (ma_Kind input)
                      (ma_UserName input) (ma_UserGroups input) /\ isListed k (key +:+ "*") = true.
Proof.
  intros <- <-. unfold GetMAResult. destruct (Diff _ _) as [dr|] eqn:Ed.
  2:{ intros _ _ Hg. apply Diff_None in Ed. specialize (Ed k). congruence. }
  set (mk := generateMaskKeys _ _ _ _ _ _). pose proof (Filter_unfiltered dr mk) as Hu.
  destruct (Filter dr mk) as [[f u] m]. cbn [mr_IsMutated fst snd] in *. intros Hm Hk Hg.
  assert (u = []) as ->.
  { destruct u; [done|]. by cbn in Hm. }
  pose proof (proj2 (Diff_keys _ _ _ k Ed) Hk Hg) as Hin.
  apply list_elem_of_fmap in Hin as (d & -> & Hd).
  destruct (existsb (fun key => isListed (d_Key d) (key +:+ "*")) mk) eqn:Ee; [by apply existsb_true in Ee|].
  exfalso. assert (d ∈ @nil Difference) as Hn; [|by apply elem_of_nil in Hn].
  apply Hu. split; [done|]. by apply existsb_false.
Qed.

Lemma GetMAResult_mutated input rules ex :
  mr_IsMutated (GetMAResult input rules ex) = true ->
  exists k, go_eq_nil (Ravel (NewFromMap (ma_Before input)) !! k) (Ravel (NewFromMap (ma_After input)) !! k) = false /\
    forall key, key ∈ generateMaskKeys rules (ma_Namespace input) (ma_Name input) (ma_Kind input)
                        (ma_UserName input) (ma_UserGroups input) -> isListed k (key +:+ "*") = false.
Proof.
  unfold GetMAResult. destruct (Diff _ _) as [dr|] eqn:Ed; [|done].
  set (mk := generateMaskKeys _ _ _ _ _ _). pose proof (Filter_unfiltered dr mk) as Hu.
  destruct (Filter dr mk) as [[f u] m]. cbn [mr_IsMutated fst snd] in *. intros Hm.
  destruct u as [|d u]; [done|]. destruct (proj1 (Hu d)) as [Hin Hl]; [left|].
  exists (d_Key d). split; [|done]. apply (Diff_keys _ _ dr); [done|]. by apply list_elem_of_fmap_2.
Qed.

Lemma NewFromBytes_IsMap raw v : NewFromBytes raw = Some v -> IsMap v = true.
Proof. unfold NewFromBytes. case_goal; [|done]. by intros [= <-]. Qed.

(** The objects a decodable update request is compared through. *)
Definition masked_pair (v1 v2 : Node) : Node * Node :=
  let '(o, mask) := Mask v1 mutation_mask in (o, (Mask v2 mask).1).

Definition ignored_keys (reqc : ReqContext) (prof : ResourceSigningProfile) : list string :=
  generateMaskKeys (RSP_IgnoreAttrs prof (ReqMap reqc)) (rc_Namespace reqc) (rc_Name reqc) (rc_Kind reqc)
    (rc_UserName reqc) (rc_UserGroups reqc).

End mutation_facts.

(** Attributes listed for requests of one API group are never ignored: the
    second matching of the rules runs on five request fields without the group,
    so a rule all of whose patterns name a group contributes no key. *)
Theorem ignore_by_group_has_no_effect rule group namespace name kind username usergroups :
  MatchPattern group "" = false ->
  Forall (fun p => rp_ApiGroup p = Some group) (ap_Match rule) ->
  generateMaskKeys [rule] namespace name kind username usergroups = [].
Proof.
  intros Hg Hf. unfold generateMaskKeys. cbn [mbind list_bind].
  replace (Attrs_MatchWith rule _) with false; [done|]. symmetry. unfold Attrs_MatchWith.
  apply existsb_false. intros p Hp. rewrite Forall_forall in Hf. specialize (Hf p Hp).
  apply not_true_iff_false. intros [_ H]%RequestPattern_Match_iff. specialize (H "ApiGroup" group).
  change (map_str _ "ApiGroup") with "" in H.
  rewrite H in Hg; [done|]. unfold rp_fields. rewrite Hf. set_solver.
Qed.

(** ** Concrete instances *)

Definition quoted (s : string) : string := dquote_str +:+ s +:+ dquote_str.
(** A config map as the API server sends it. *)
Definition cm_json (uid val : string) : string :=
  "{" +:+ quoted "kind" +:+ ":" +:+ quoted "ConfigMap" +:+ "," +:+ quoted "metadata" +:+ ":{" +:+ quoted "name" +:+ ":" +:+
  quoted "cm" +:+ "," +:+ quoted "uid" +:+ ":" +:+ quoted uid +:+ "}," +:+ quoted "data" +:+ ":{" +:+ quoted "key" +:+ ":" +:+
  quoted val +:+ "}}".
Definition update_request (before after : string) : ReqContext :=
  mkReqContext "Namespaced" false (Some after) (Some before) "" "uid" "secure-ns" "cm" "" "v1" "ConfigMap"
    "UPDATE" sample_meta sample_meta "" "" "" "alice" [] "" "" "".

Example Mutation_Eval_samples :
  let eval a b := @Mutation_Eval sample_diff sample_float (fun _ => "") (update_request a b) emptyRSP in
  mer_IsMutated (eval (cm_json "1" "val") (cm_json "2" "val")) = false /\
  mer_IsMutated (eval (cm_json "1" "val") (cm_json "1" "other")) = true.
Proof. split; vm_compute; reflexivity. Qed.


Lemma ignore_by_group_has_no_effect_witness :
  let rule := mkAttrsPattern [mkRequestPattern None (Some "apps") None (Some "Deployment") None None None None]
                ["spec.replicas"] in
  generateMaskKeys [rule] "ns" "web" "Deployment" "alice" [] = [].
Proof.
  apply (ignore_by_group_has_no_effect _ "apps"); [vm_compute; reflexivity|].
  repeat constructor.
Defined.
