(* ===== verification/RuleTable.v ===== *)
(** * The rule table  ([shield/pkg/shield/ruleTable.go])

    Every profile merged with the common one, and the namespaces it applies to. *)
From S2P Require Import Prelude GoStrings Pattern Common ReqContext Profile SigningProfile.
From stdpp Require Import options.

Record RuleItem := mkRuleItem {
  ri_Profile : ResourceSigningProfile;
  ri_TargetNamespaces : list string;
}.

Record RuleTable := mkRuleTable {
  rt_Items : list RuleItem;
  rt_Namespaces : list string;
  rt_ShieldNamespace : string;
}.

Section rule_table.
Context `{K8sApi}.

Definition matchNamespaceListWithSelector (namespaces : list Namespace) (nsSelector : NamespaceSelector) : list string :=
  (fun ns => om_Name (ns_meta ns)) <$> List.filter (MatchNamespace nsSelector) namespaces.

(** The targets of one profile: only a profile of the shield's own namespace may
    select others. *)
Definition target_namespaces (namespaces : list Namespace) (shieldNamespace : string)
    (p : ResourceSigningProfile) : list string :=
  let pNamespace := rsp_Namespace p in
  if bool_decide (pNamespace = shieldNamespace) then
    match rsps_TargetNamespaceSelector (rsp_Spec p) with
    | Some nsSelector => matchNamespaceListWithSelector namespaces nsSelector
    | None => [pNamespace]
    end
  else [pNamespace].

Definition common_rsp (commonProfile : option CommonProfile) : ResourceSigningProfile :=
  match commonProfile with
  | None => emptyRSP
  | Some cp => mkRSP emptyMeta (mkRSPSpec false None [] (cp_IgnoreRules cp) [] [] [] [] (cp_IgnoreAttrs cp)) emptyRSPStatus
  end.

Definition NewRuleTable (profiles : list ResourceSigningProfile) (namespaces : list Namespace)
    (commonProfile : option CommonProfile) (shieldNamespace : string) : RuleTable :=
  let commonProfileRSP := common_rsp commonProfile in
  let '(items, allTargetNamespaces) :=
    foldl (fun '(items, all) p =>
             let targetNamespaces := target_namespaces namespaces shieldNamespace p in
             (items ++ [mkRuleItem (RSP_Merge p commonProfileRSP) targetNamespaces],
              GetUnionOfArrays all targetNamespaces)) ([], []) profiles in
  mkRuleTable items allTargetNamespaces shieldNamespace.
End rule_table.

Definition RT_IsEmpty (self : RuleTable) : bool := Nat.eqb (length (rt_Items self)) 0.

Definition IsTargetEmpty (self : RuleTable) : bool :=
  Nat.eqb (foldl (fun count rl => count + length (ri_TargetNamespaces rl)) 0 (rt_Items self)) 0.

Definition CheckIfTargetNamespace (self : RuleTable) (nsName : string) : bool :=
  if bool_decide (nsName = "") then true else ExactMatchWithPatternArray nsName (rt_Namespaces self).

(** Whether an item applies to a request of this scope and namespace. *)
Definition item_applies (reqFields : gmap string string) (item : RuleItem) : bool :=
  negb (bool_decide (map_str reqFields "ResourceScope" = "Namespaced") &&
        negb (ExactMatchWithPatternArray (map_str reqFields "Namespace") (ri_TargetNamespaces item))).

(** [CheckIfProtected]: protected, an ignore rule decided somewhere, and the
    profiles that protect. *)
Definition CheckIfProtected (self : RuleTable) (reqFields : gmap string string)
  : bool * bool * list ResourceSigningProfile :=
  foldl (fun '(protected, ignoreMatched, matchedProfiles) item =>
    if negb (item_applies reqFields item) then (protected, ignoreMatched, matchedProfiles)
    else
      let '(tmpProtected, matchedRule) := RSP_Match (ri_Profile item) reqFields (rt_ShieldNamespace self) in
      if tmpProtected then (true, ignoreMatched, matchedProfiles ++ [ri_Profile item])
      else match matchedRule with
           | Some _ => (protected, true, matchedProfiles)
           | None => (protected, ignoreMatched, matchedProfiles)
           end) (false, false, []) (rt_Items self).

(** ** Facts *)

Definition item_protects (self : RuleTable) (reqFields : gmap string string) (item : RuleItem) : bool :=
  item_applies reqFields item && (RSP_Match (ri_Profile item) reqFields (rt_ShieldNamespace self)).1.

Definition item_ignores (self : RuleTable) (reqFields : gmap string string) (item : RuleItem) : bool :=
  item_applies reqFields item &&
  match RSP_Match (ri_Profile item) reqFields (rt_ShieldNamespace self) with
  | (false, Some _) => true
  | _ => false
  end.

Lemma CheckIfProtected_eq self reqFields :
  CheckIfProtected self reqFields =
  (existsb (item_protects self reqFields) (rt_Items self),
   existsb (item_ignores self reqFields) (rt_Items self),
   ri_Profile <$> List.filter (item_protects self reqFields) (rt_Items self)).
Proof.
  unfold CheckIfProtected.
  assert (forall items p i m,
    foldl (fun '(protected, ignoreMatched, matchedProfiles) item =>
      if negb (item_applies reqFields item) then (protected, ignoreMatched, matchedProfiles)
      else
        let '(tmpProtected, matchedRule) := RSP_Match (ri_Profile item) reqFields (rt_ShieldNamespace self) in
        if tmpProtected then (true, ignoreMatched, matchedProfiles ++ [ri_Profile item])
        else match matchedRule with
             | Some _ => (protected, true, matchedProfiles)
             | None => (protected, ignoreMatched, matchedProfiles)
             end) (p, i, m) items =
    (p || existsb (item_protects self reqFields) items, i || existsb (item_ignores self reqFields) items,
     m ++ (ri_Profile <$> List.filter (item_protects self reqFields) items))) as Hgen.
  { induction items as [|item items IH]; intros p i m; cbn; [by rewrite !orb_false_r, app_nil_r|].
    unfold item_protects at 1 3, item_ignores at 1. destruct (item_applies reqFields item); cbn; [|apply IH].
    destruct (RSP_Match (ri_Profile item) reqFields (rt_ShieldNamespace self)) as [[] [r|]]; cbn; rewrite IH; cbn;
      by rewrite ?orb_true_r, <-?app_assoc. }
  apply (Hgen _ false false []).
Qed.

Section table_facts.
Context `{K8sApi}.

Definition rule_item (namespaces : list Namespace) (commonProfile : option CommonProfile) (shieldNamespace : string)
    (p : ResourceSigningProfile) : RuleItem :=
  mkRuleItem (RSP_Merge p (common_rsp commonProfile)) (target_namespaces namespaces shieldNamespace p).

Lemma NewRuleTable_spec profiles namespaces cp shieldNamespace :
  let rt := NewRuleTable profiles namespaces cp shieldNamespace in
  rt_Items rt = rule_item namespaces cp shieldNamespace <$> profiles /\
  rt_ShieldNamespace rt = shieldNamespace /\
  forall ns, ns ∈ rt_Namespaces rt <-> exists p, p ∈ profiles /\ ns ∈ target_namespaces namespaces shieldNamespace p.
Proof.
  unfold NewRuleTable. set (f := fun '(items, all) p => _).
  assert (forall ps items all,
    let '(items', all') := foldl f (items, all) ps in
    items' = items ++ (rule_item namespaces cp shieldNamespace <$> ps) /\
    forall ns, ns ∈ all' <-> ns ∈ all \/ exists p, p ∈ ps /\ ns ∈ target_namespaces namespaces shieldNamespace p) as Hgen.
  { induction ps as [|p ps IH]; intros items all; cbn [foldl].
    - split; [by rewrite app_nil_r|]. intros ns. setoid_rewrite elem_of_nil. naive_solver.
    - specialize (IH (items ++ [rule_item namespaces cp shieldNamespace p])
                     (GetUnionOfArrays all (target_namespaces namespaces shieldNamespace p))).
      cbn [f]. destruct (foldl f _ ps) as [items' all']. destruct IH as [-> IH]. split.
      + by rewrite <-app_assoc.
      + intros ns. rewrite IH, (proj2 (GetUnionOfArrays_spec _ _)). setoid_rewrite elem_of_cons. naive_solver. }
  specialize (Hgen profiles [] []). destruct (foldl f ([], []) profiles) as [items all].
  destruct Hgen as [-> Ha]. cbn. split; [done|]. split; [done|].
  intros ns. rewrite Ha. setoid_rewrite elem_of_nil. naive_solver.
Qed.

(** C5: the table decides protection exactly: a request is protected when, and by
    which profiles, some profile that applies to its namespace and, merged with
    the common profile, matches it. *)
Theorem CheckIfProtected_correct profiles namespaces cp shieldNamespace reqFields :
  let '(protected, ignoreMatched, matched) :=
    CheckIfProtected (NewRuleTable profiles namespaces cp shieldNamespace) reqFields in
  let applies p := map_str reqFields "ResourceScope" = "Namespaced" ->
                   map_str reqFields "Namespace" ∈ target_namespaces namespaces shieldNamespace p in
  let verdict p := RSP_Match (RSP_Merge p (common_rsp cp)) reqFields shieldNamespace in
  (protected = true <-> matched <> []) /\
  (forall q, q ∈ matched <-> exists p, p ∈ profiles /\ q = RSP_Merge p (common_rsp cp) /\ applies p /\ (verdict p).1 = true) /\
  (ignoreMatched = true <-> exists p r, p ∈ profiles /\ applies p /\ verdict p = (false, Some r)).
Proof.
  rewrite CheckIfProtected_eq. destruct (NewRuleTable_spec profiles namespaces cp shieldNamespace) as (Hi & Hs & _).
  set (rt := NewRuleTable profiles namespaces cp shieldNamespace) in *. rewrite Hi.
  assert (forall p, item_applies reqFields (rule_item namespaces cp shieldNamespace p) = true <->
    (map_str reqFields "ResourceScope" = "Namespaced" ->
     map_str reqFields "Namespace" ∈ target_namespaces namespaces shieldNamespace p)) as Ha.
  { intros p. unfold item_applies. rewrite negb_true_iff, andb_false_iff, bool_decide_eq_false, negb_false_iff.
    rewrite ExactMatchWithPatternArray_iff. cbn [rule_item ri_TargetNamespaces].
    destruct (decide (map_str reqFields "ResourceScope" = "Namespaced")); naive_solver. }
  split; [|split].
  - rewrite existsb_true. split.
    + intros (it & Hin & Hp) Hn. apply fmap_nil_inv in Hn.
      assert (it ∈ List.filter (item_protects rt reqFields) (rule_item namespaces cp shieldNamespace <$> profiles)) as Hf
        by (apply list_elem_of_In, filter_In; split; [by apply list_elem_of_In|done]).
      rewrite Hn in Hf. by apply elem_of_nil in Hf.
    + intros Hn. destruct (List.filter _ _) as [|it l] eqn:Ef; [done|]. exists it.
      assert (it ∈ it :: l) as Hin by left. rewrite <-Ef in Hin.
      apply list_elem_of_In, filter_In in Hin as [Hin Hp]. split; [by apply list_elem_of_In|done].
  - intros q. rewrite list_elem_of_fmap. setoid_rewrite list_elem_of_In. setoid_rewrite filter_In.
    setoid_rewrite <-list_elem_of_In. setoid_rewrite list_elem_of_fmap. unfold item_protects. rewrite Hs. split.
    + intros (it & -> & (p & -> & Hin) & [Hap Hm]%andb_true_iff). exists p. rewrite <-Ha. done.
    + intros (p & Hin & -> & Hap & Hm). exists (rule_item namespaces cp shieldNamespace p).
      split; [done|]. split; [by exists p|]. apply andb_true_iff. rewrite Ha. done.
  - rewrite existsb_true. setoid_rewrite list_elem_of_fmap. unfold item_ignores. rewrite Hs. split.
    + intros (it & (p & -> & Hin) & [Hap Hm]%andb_true_iff). exists p.
      cbn [rule_item ri_Profile] in Hm. destruct (RSP_Match _ _ _) as [[] [r|]] eqn:E; try done.
      exists r. rewrite <-Ha. done.
    + intros (p & r & Hin & Hap & Hm). exists (rule_item namespaces cp shieldNamespace p).
      split; [by exists p|]. apply andb_true_iff. rewrite Ha. cbn [rule_item ri_Profile]. by rewrite Hm.
Qed.

Lemma protected_target_namespace profiles namespaces cp shieldNamespace reqFields :
  let rt := NewRuleTable profiles namespaces cp shieldNamespace in
  (CheckIfProtected rt reqFields).1.1 = true ->
  map_str reqFields "ResourceScope" = "Namespaced" ->
  CheckIfTargetNamespace rt (map_str reqFields "Namespace") = true.
Proof.
  intros rt. rewrite CheckIfProtected_eq. cbn [fst]. intros Hp Hs. unfold CheckIfTargetNamespace.
  case_bool_decide; [done|]. apply ExactMatchWithPatternArray_iff.
  destruct (NewRuleTable_spec profiles namespaces cp shieldNamespace) as (Hi & _ & Hn). apply Hn.
  apply existsb_true in Hp as (it & Hin & [Hap _]%andb_true_iff).
  unfold rt in Hin. rewrite Hi in Hin. apply list_elem_of_fmap in Hin as (p & -> & Hin).
  exists p. split; [done|]. unfold item_applies in Hap. rewrite Hs, bool_decide_eq_true_2 in Hap by done.
  rewrite andb_true_l, negb_involutive in Hap. by apply ExactMatchWithPatternArray_iff in Hap.
Qed.

(** The early scope test loses nothing: when the table protects a namespaced
    request, its namespace is one of the table's target namespaces. *)
Theorem protected_is_in_scope profiles namespaces cp shieldNamespace reqFields :
  let rt := NewRuleTable profiles namespaces cp shieldNamespace in
  (CheckIfProtected rt reqFields).1.1 = true ->
  map_str reqFields "ResourceScope" = "Namespaced" ->
  CheckIfTargetNamespace rt (map_str reqFields "Namespace") = true.
Proof. apply protected_target_namespace. Qed.
End table_facts.

(** Setting the [disabled] flag of a profile. *)
Definition disable (p : ResourceSigningProfile) : ResourceSigningProfile :=
  let s := rsp_Spec p in
  mkRSP (rsp_meta p)
    (mkRSPSpec true (rsps_TargetNamespaceSelector s) (rsps_ProtectRules s) (rsps_IgnoreRules s) (rsps_ForceCheckRules s)
       (rsps_KustomizePatterns s) (rsps_ProtectAttrs s) (rsps_UnprotectAttrs s) (rsps_IgnoreAttrs s))
    (rsp_Status p).

(** The [disabled] flag of a profile is never read: a table in which every
    profile is disabled protects exactly the requests the table protects without
    the flags. *)
Theorem disabled_profiles_still_protect `{K8sApi} profiles namespaces cp shieldNamespace reqFields :
  (CheckIfProtected (NewRuleTable (disable <$> profiles) namespaces cp shieldNamespace) reqFields).1 =
  (CheckIfProtected (NewRuleTable profiles namespaces cp shieldNamespace) reqFields).1.
Proof.
  rewrite !CheckIfProtected_eq. cbn [fst].
  destruct (NewRuleTable_spec profiles namespaces cp shieldNamespace) as (-> & Hs & _).
  destruct (NewRuleTable_spec (disable <$> profiles) namespaces cp shieldNamespace) as (-> & Hs' & _).
  f_equal; unfold item_protects, item_ignores; rewrite Hs, Hs'; clear Hs Hs';
    induction profiles as [|p ps IH]; cbn; try done; by rewrite IH.
Qed.

(** ** Concrete instances *)

Definition ns_named (n : string) (labels : gmap string string) : Namespace := mkNamespace (mkObjectMeta n "" "" labels).
Definition team_rsp (ns kind : string) : ResourceSigningProfile :=
  mkRSP (mkObjectMeta "rsp" ns "" ∅) (rsp_Spec (protect_kind kind)) emptyRSPStatus.
Definition cm_request_fields : gmap string string :=
  <["ResourceScope" := "Namespaced"]> (<["Namespace" := "team-a"]> (<["Kind" := "ConfigMap"]> {["Name" := "cm"]})).

Lemma protected_is_in_scope_witness :
  CheckIfTargetNamespace (@NewRuleTable sample_k8s [team_rsp "team-a" "ConfigMap"] [ns_named "team-a" ∅] None "ishield") "team-a" = true.
Proof.
  apply (@protected_is_in_scope sample_k8s [team_rsp "team-a" "ConfigMap"] [ns_named "team-a" ∅] None "ishield" cm_request_fields);
    vm_compute; reflexivity.
Defined.
