(* ===== verification/Signing.v ===== *)
(** * Signature primitives  ([shield/pkg/util/sign/pgp/pgp.go], [.../x509/x509.go])

    The verification half of the two packages.  The cryptographic libraries and
    the file system are parameters; what the shield does with their answers is
    modelled. *)
From S2P Require Import Prelude GoStrings Common.
From stdpp Require Import options.

(** A Go [(value, error)] pair used as a sum; the error is its message. *)
Inductive res (A : Type) : Type := Ok (a : A) | Err (e : string).
Arguments Ok {A} a.
Arguments Err {A} e.

(** ** PGP *)

Record UserId := mkUserId { uid_Email : string; uid_Name : string; uid_Comment : string }.

(** [openpgp.Entity]: its identities in range order and the printed fingerprint
    of its primary key. *)
Record Entity := mkEntity { ent_Identities : list UserId; ent_Fingerprint : option string }.

Record Signer := mkSigner { sg_Email : string; sg_Name : string; sg_Comment : string }.

(** The key ring read from a file, with the error of opening or parsing it, and
    [openpgp.CheckArmoredDetachedSignature]: the entity that signed. *)
Class PgpLib := {
  read_keyring : string -> list Entity * option string;
  CheckArmoredDetachedSignature : list Entity -> string -> string -> option Entity
}.

Definition NewSignerFromUserId (uid : UserId) : Signer :=
  mkSigner (uid_Email uid) (uid_Name uid) (uid_Comment uid).

Definition Signer_EqualTo (s s2 : Signer) : bool :=
  bool_decide (sg_Email s = sg_Email s2) && bool_decide (sg_Name s = sg_Name s2) &&
  bool_decide (sg_Comment s = sg_Comment s2).

Definition GetFirstIdentity (signer : Entity) : option UserId := head (ent_Identities signer).

Section pgp.
Context `{PgpLib}.

Definition LoadKeyRing (keyPath : string) : list Entity * option string := read_keyring keyPath.

(** [pgp.VerifySignature]: verified, the reason of a failure, the signer with the
    fingerprint, the error.  An entity without identity is dereferenced. *)
Definition pgp_VerifySignature (keyPath msg sig : string)
  : go (bool * string * option Signer * option string * option string) :=
  if bool_decide (msg = "") then Ret (false, "Message to be verified is empty", None, None, None)
  else if bool_decide (sig = "") then Ret (false, "Signature to be verified is empty", None, None, None)
  else match LoadKeyRing keyPath with
       | (_, Some err) => Ret (false, "Error when loading key ring", None, None, Some err)
       | (keyRing, None) =>
           match CheckArmoredDetachedSignature keyRing msg sig with
           | None => Ret (false, "Signed by unauthrized subject (signer is not in public key), or invalid format signature",
                          None, None, None)
           | Some signer =>
               match GetFirstIdentity signer with
               | None => Panic
               | Some uid => Ret (true, "", Some (NewSignerFromUserId uid),
                                  Some (default "" (ent_Fingerprint signer)), None)
               end
           end
       end.
End pgp.

(** ** X.509 *)

(** [pkix.Name]; a nil slice is the empty list. *)
Record PkixName := mkPkixName {
  dn_Country : list string;
  dn_Organization : list string;
  dn_OrganizationalUnit : list string;
  dn_Locality : list string;
  dn_Province : list string;
  dn_StreetAddress : list string;
  dn_PostalCode : list string;
  dn_CommonName : string;
}.
#[global] Instance PkixName_eq_dec : EqDecision PkixName.
Proof. solve_decision. Defined.

Record Certificate := mkCertificate {
  cert_Raw : string;
  cert_Subject : PkixName;
  cert_SerialNumber : Z;
  cert_RawSubject : string;
  cert_RawIssuer : string;
}.

(** A public key as [ParsePKIXPublicKey] returns it: RSA, or another kind. *)
Inductive PublicKey := RSAKey (id : string) | OtherKey.

(** [encoding/pem], [crypto/x509], [crypto/rsa] and the file system. *)
Class X509Lib := {
  pem_Decode : string -> option string;
  x509_ParseCertificate : string -> res Certificate;
  x509_MarshalPKIXPublicKey : Certificate -> res string;
  x509_ParsePKIXPublicKey : string -> res PublicKey;
  cert_Verify : Certificate -> list Certificate -> option string;
  rsa_VerifyPKCS1v15 : string -> string -> string -> option string;
  ReadDir : string -> res (list (string * bool));
  ReadFile : string -> res string
}.

Section x509.
Context `{X509Lib}.

(** [PEMDecode] with one of the three known block types: the type of the block
    itself is not compared.  A missing block is nil, the empty byte slice. *)
Definition PEMDecode (pemBytes : string) : string := default "" (pem_Decode pemBytes).

Definition ParseCertificate (certPemBytes : string) : res Certificate := x509_ParseCertificate (PEMDecode certPemBytes).

Definition loadCertificate (fpath : string) : res Certificate :=
  match ReadFile fpath with Err e => Err e | Ok certPemBytes => ParseCertificate certPemBytes end.

Definition GetPublicKeyFromCertificate (certPemBytes : string) : res string :=
  match ParseCertificate certPemBytes with Err e => Err e | Ok cert => x509_MarshalPKIXPublicKey cert end.

(** [LoadCertDir]: one unreadable certificate fails the directory. *)
Fixpoint load_certs (certDir : string) (files : list (string * bool)) : res (list Certificate) :=
  match files with
  | [] => Ok []
  | (name, isDir) :: files' =>
      if negb isDir && (HasSuffix name ".crt" || HasSuffix name ".pem") then
        match loadCertificate (certDir +:+ "/" +:+ name) with
        | Err e => Err ("failed to load cert file " +:+ String (ascii_of_nat 34) (certDir +:+ "/" +:+ name +:+
                        String (ascii_of_nat 34) " ; " +:+ e))
        | Ok cert => match load_certs certDir files' with Err e => Err e | Ok certs => Ok (cert :: certs) end
        end
      else load_certs certDir files'
  end.

Definition LoadCertDir (certDir : string) : res (list Certificate) :=
  match ReadDir certDir with
  | Err e => Err ("failed to get files from cert dir; " +:+ e)
  | Ok files => load_certs certDir files
  end.

Definition isSelfSignedCert (cert : Certificate) : bool := bool_decide (cert_RawSubject cert = cert_RawIssuer cert).

(** [VerifyCertificate]: the certificate itself is not its own root unless it is
    self-signed. *)
Definition VerifyCertificate (certPemBytes caCertPath : string) : bool * string * option string :=
  match ParseCertificate certPemBytes with
  | Err e => let reasonFail := "failed to parse certificate: " +:+ e in (false, reasonFail, Some reasonFail)
  | Ok cert =>
      match LoadCertDir caCertPath with
      | Err e => let reasonFail := "failed to load certificate pool: " +:+ e in (false, reasonFail, Some reasonFail)
      | Ok poolCerts =>
          let roots := List.filter (fun poolCert => negb (bool_decide (cert_Raw poolCert = cert_Raw cert)) || isSelfSignedCert cert)
                         poolCerts in
          match cert_Verify cert roots with
          | Some e => (false, "failed to verify certificate: " +:+ e, None)
          | None => (true, "", None)
          end
      end
  end.

(** [x509.VerifySignature]; the key is asserted to be RSA. *)
Definition x509_VerifySignature (msg sig pubKeyBytes : string) : go (bool * string * option string) :=
  match x509_ParsePKIXPublicKey pubKeyBytes with
  | Err e => let reasonFail := "Error when loading public key; " +:+ e in Ret (false, reasonFail, Some reasonFail)
  | Ok OtherKey => Panic
  | Ok (RSAKey id) =>
      match rsa_VerifyPKCS1v15 id msg sig with
      | Some e => Ret (false, "Signature is invalid; " +:+ e, None)
      | None => Ret (true, "", None)
      end
  end.
End x509.

Definition NewSignerInfoFromPKIXName (dn : PkixName) : SignerInfo :=
  let first l := default "" (head l) in
  mkSignerInfo "" "" "" "" (first (dn_Country dn)) (first (dn_Organization dn)) (first (dn_OrganizationalUnit dn))
    (first (dn_Locality dn)) (first (dn_Province dn)) (first (dn_StreetAddress dn)) (first (dn_PostalCode dn))
    (dn_CommonName dn) None None.

Definition NewSignerInfoFromCert (cert : Certificate) : SignerInfo :=
  let si := NewSignerInfoFromPKIXName (cert_Subject cert) in
  mkSignerInfo (si_Email si) (si_Name si) (si_Comment si) (si_Uid si) (si_Country si) (si_Organization si)
    (si_OrganizationalUnit si) (si_Locality si) (si_Province si) (si_StreetAddress si) (si_PostalCode si)
    (si_CommonName si) (Some (cert_SerialNumber cert)) (si_Fingerprint si).

(** ** Facts *)

(** What a successful PGP verification establishes. *)
Lemma pgp_verified `{PgpLib} keyPath msg sig r signer fp err :
  pgp_VerifySignature keyPath msg sig = Ret (true, r, signer, fp, err) ->
  msg <> "" /\ sig <> "" /\ err = None /\
  exists keyRing ent uid, read_keyring keyPath = (keyRing, None) /\
    CheckArmoredDetachedSignature keyRing msg sig = Some ent /\ head (ent_Identities ent) = Some uid /\
    signer = Some (NewSignerFromUserId uid).
Proof.
  unfold pgp_VerifySignature, LoadKeyRing, GetFirstIdentity.
  case_bool_decide; [done|]. case_bool_decide; [done|].
  destruct (read_keyring keyPath) as [kr [e|]]; [done|].
  destruct (CheckArmoredDetachedSignature kr msg sig) as [ent|] eqn:Ec; [|done].
  destruct (head (ent_Identities ent)) as [uid|] eqn:Eh; [|done].
  intros [= <- <- <- <-]. repeat split; auto. by exists kr, ent, uid.
Qed.

(** What a successful X.509 verification establishes. *)
Lemma cert_verified `{X509Lib} cert_pem ca r err :
  VerifyCertificate cert_pem ca = (true, r, err) ->
  err = None /\ exists cert pool, ParseCertificate cert_pem = Ok cert /\ LoadCertDir ca = Ok pool /\
    exists roots, sublist roots pool /\ cert_Verify cert roots = None.
Proof.
  unfold VerifyCertificate. destruct (ParseCertificate cert_pem) as [cert|e]; [|done].
  destruct (LoadCertDir ca) as [pool|e]; [|done]. set (roots := List.filter _ pool).
  destruct (cert_Verify cert roots) eqn:Ev; [done|]. intros [= <- <-]. split; [done|].
  exists cert, pool. repeat split; auto. exists roots. split; [|done]. subst roots. clear Ev.
  induction pool as [|c pool IH]; [constructor|]. cbn. case_goal; by constructor.
Qed.

(** A certificate that does not parse is an error, not a failed verification. *)
Lemma bad_cert_is_error `{X509Lib} cert_pem ca e :
  ParseCertificate cert_pem = Err e ->
  exists r, VerifyCertificate cert_pem ca = (false, r, Some r).
Proof. intros He. unfold VerifyCertificate. rewrite He. eauto. Qed.
