(* ===== verification/ResourceSignature.v ===== *)
(** * Signed manifests  ([shield/pkg/util/yaml/yaml.go],
      [shield/pkg/apis/resourcesignature/v1alpha1/types.go])

    A signature carries a message: a base64 text, possibly compressed, holding
    one or more YAML documents.  The shield looks for the document of the
    resource a request is about. *)
From S2P Require Import Prelude GoStrings GoJson Pattern Common MapNode.
From stdpp Require Import options.

(** ** Base64 ([encoding/base64], standard alphabet) *)

Definition b64_val (c : ascii) : option nat :=
  let n := nat_of_ascii c in
  if Nat.leb 65 n && Nat.leb n 90 then Some (n - 65)
  else if Nat.leb 97 n && Nat.leb n 122 then Some (n - 71)
  else if Nat.leb 48 n && Nat.leb n 57 then Some (n + 4)
  else if Nat.eqb n 43 then Some 62
  else if Nat.eqb n 47 then Some 63
  else None.

(** Line breaks are ignored. *)
Fixpoint b64_strip (s : string) : string :=
  match s with
  | EmptyString => ""
  | String c s' => let n := nat_of_ascii c in
                   if Nat.eqb n 10 || Nat.eqb n 13 then b64_strip s' else String c (b64_strip s')
  end.

Fixpoint b64_quanta (s : string) : option string :=
  match s with
  | EmptyString => Some ""
  | String a (String b (String c (String d s'))) =>
      match b64_val a, b64_val b with
      | Some va, Some vb =>
          let o1 := ascii_of_nat (va * 4 + vb / 16) in
          if Ascii.eqb c "=" then
            if Ascii.eqb d "=" && bool_decide (s' = "") then Some (String o1 "") else None
          else match b64_val c with
               | None => None
               | Some vc =>
                   let o2 := ascii_of_nat ((vb mod 16) * 16 + vc / 4) in
                   if Ascii.eqb d "=" then if bool_decide (s' = "") then Some (String o1 (String o2 "")) else None
                   else match b64_val d with
                        | None => None
                        | Some vd =>
                            let o3 := ascii_of_nat ((vc mod 4) * 64 + vd) in
                            match b64_quanta s' with
                            | Some r => Some (String o1 (String o2 (String o3 r)))
                            | None => None
                            end
                        end
               end
      | _, _ => None
      end
  | _ => None
  end.

(** [Base64decode]: the empty string for a malformed text. *)
Definition Base64decode (str : string) : string := default "" (b64_quanta (b64_strip str)).

(** ** Documents *)

(** [compress/gzip] ([None]: not a readable gzip stream), the documents
    [k8s.io/apimachinery]'s YAML decoder reads before its first error, and
    [gopkg.in/yaml.v2]'s printer. *)
Class ManifestLib := {
  gunzip : string -> option string;
  yaml_documents : string -> list value;
  yamlv2_Marshal : value -> option string;
  json_Marshal_node : Node -> option string
}.

Record ResourceInfo := mkResourceInfo { rinfo_Ref : ResourceRef; rinfo_raw : string }.

Section manifest.
Context `{ManifestLib, YamlLib}.

Definition Decompress (str : string) : string :=
  if bool_decide (str = "") then str else default str (gunzip str).

Definition message_text (message : string) : string := Decompress (Base64decode message).

Definition ParseMessage (message : string) : list ResourceInfo :=
  t ← yaml_documents (message_text message);
  match yamlv2_Marshal t with
  | None => []
  | Some tB =>
      match NewFromYamlBytes tB with
      | None => []
      | Some n =>
          let get := GetString json_Marshal_node n in
          [mkResourceInfo (mkResourceRef (get "metadata.name") (get "metadata.namespace") (get "kind") (get "apiVersion")) tB]
      end
  end.

(** [FindSingleYaml]: the fields of the reference are the patterns; a document
    without namespace fits every namespace. *)
Definition info_fits (apiVersion kind name namespace : string) (ri : ResourceInfo) : bool :=
  MatchPattern apiVersion (ref_ApiVersion (rinfo_Ref ri)) &&
  MatchPattern kind (ref_Kind (rinfo_Ref ri)) &&
  MatchPattern name (ref_Name (rinfo_Ref ri)) &&
  (MatchPattern namespace (ref_Namespace (rinfo_Ref ri)) || bool_decide (ref_Namespace (rinfo_Ref ri) = "")).

Definition FindSingleYaml (message apiVersion kind name namespace : string) : option string :=
  rinfo_raw <$> List.find (info_fits apiVersion kind name namespace) (ParseMessage message).

(** ** Resource signatures *)

Definition SignatureTypeApplyingResource : string := "applyingResource".
Definition SignatureTypePatch : string := "patch".

Record SignItem := mkSignItem {
  sitem_Message : string;
  sitem_MessageScope : string;
  sitem_MutableAttrs : string;
  sitem_Signature : string;
  sitem_Certificate : string;
  sitem_Type : string;
}.

Record ResourceSignature := mkResourceSignature {
  rsig_meta : ObjectMeta;
  rsig_Data : list SignItem;
}.

Fixpoint FindSignItem (data : list SignItem) (apiVersion kind name namespace : string) : option (SignItem * string) :=
  match data with
  | [] => None
  | si :: data' =>
      match FindSingleYaml (sitem_Message si) apiVersion kind name namespace with
      | Some singleYamlBytes => Some (si, singleYamlBytes)
      | None => FindSignItem data' apiVersion kind name namespace
      end
  end.

Definition RS_FindMessage (ss : ResourceSignature) (apiVersion kind name namespace : string) : option string :=
  (fun r => sitem_Message r.1) <$> FindSignItem (rsig_Data ss) apiVersion kind name namespace.
Definition RS_FindSignature (ss : ResourceSignature) (apiVersion kind name namespace : string) : option string :=
  (fun r => sitem_Signature r.1) <$> FindSignItem (rsig_Data ss) apiVersion kind name namespace.

(** The list method: the item, the document and the UID of its resource. *)
Fixpoint List_FindSignItem (items : list ResourceSignature) (apiVersion kind name namespace : string)
  : option (SignItem * string * string) :=
  match items with
  | [] => None
  | ss :: items' =>
      match FindSignItem (rsig_Data ss) apiVersion kind name namespace with
      | Some (si, yamlBytes) => Some (si, yamlBytes, om_UID (rsig_meta ss))
      | None => List_FindSignItem items' apiVersion kind name namespace
      end
  end.

Definition List_FindMessage (items : list ResourceSignature) (apiVersion kind name namespace : string) : option string :=
  (fun r => sitem_Message r.1.1) <$> List_FindSignItem items apiVersion kind name namespace.
Definition List_FindSignature (items : list ResourceSignature) (apiVersion kind name namespace : string) : option string :=
  (fun r => sitem_Signature r.1.1) <$> List_FindSignItem items apiVersion kind name namespace.

(** ** Facts *)

Lemma FindSingleYaml_Some message a k n ns raw :
  FindSingleYaml message a k n ns = Some raw ->
  exists ri, ri ∈ ParseMessage message /\ rinfo_raw ri = raw /\ info_fits a k n ns ri = true.
Proof.
  unfold FindSingleYaml. intros (ri & Hf & ->)%fmap_Some.
  apply find_Some_first in Hf as (l1 & l2 & Heq & Hp & _). exists ri. rewrite Heq. set_solver.
Qed.

Lemma FindSignItem_Some data a k n ns si raw :
  FindSignItem data a k n ns = Some (si, raw) ->
  si ∈ data /\ FindSingleYaml (sitem_Message si) a k n ns = Some raw.
Proof.
  induction data as [|s data IH]; cbn; [done|].
  destruct (FindSingleYaml (sitem_Message s) a k n ns) eqn:E.
  - intros [= -> ->]. split; [left|done].
  - intros [? ?]%IH. split; [by right|done].
Qed.

(** A message that is empty once decoded holds no document. *)
Class ManifestLibOk : Prop := empty_text_no_documents : yaml_documents "" = [].

Lemma empty_message_not_found `{!ManifestLibOk} message a k n ns :
  message_text message = "" -> FindSingleYaml message a k n ns = None.
Proof.
  intros Hm. unfold FindSingleYaml, ParseMessage. by rewrite Hm, empty_text_no_documents.
Qed.
End manifest.
