(* ===== verification/SignVerifier.v ===== *)
(** * Signature verification of a request  ([shield/pkg/shield/signVerifier.go])

    The message of a signature must describe the requested object, and the
    signature must verify under one of the candidate keys. *)
From S2P Require Import Prelude GoStrings GoRegexp GoJson Pattern Common ReqContext Profile SigningProfile.
From S2P Require Import MapNode Diff Signing ResourceSignature.
From stdpp Require Import options.

(** ** Data *)

Inductive SignedResourceType :=
| SignedResourceTypeUnknown
| SignedResourceTypeResource
| SignedResourceTypeApplyingResource
| SignedResourceTypePatch
| SignedResourceTypeHelm.
#[global] Instance SignedResourceType_eq_dec : EqDecision SignedResourceType.
Proof. solve_decision. Defined.

Record GeneralSignature := mkGeneralSignature {
  gs_SignType : SignedResourceType;
  gs_data : gmap string string;
  gs_option : gmap string bool;
}.

Definition gs_flag (sig : GeneralSignature) (k : string) : bool := default false (gs_option sig !! k).

Record SigVerifyResult := mkSigVerifyResult {
  svr_Error : option CheckError;
  svr_Signer : option SignerInfo;
}.

(** The result of a [Verify] method: result, verified key paths, error. *)
Definition verify_result : Type := SigVerifyResult * list string * option string.

Record ResourceVerifier := mkResourceVerifier {
  rv_PGPKeyPathList : list string;
  rv_X509KeyPathList : list string;
  rv_AllMountedKeyPathList : list string;
  rv_dryRunNamespace : string;
}.

(** ** Interfaces to the rest of the system *)

(** [kubeutil]: dry runs against the API server. *)
Class KubeUtil := {
  DryRunCreate : string -> string -> res string;
  GetApplyPatchBytes : string -> string -> res string;
  StrategicMergePatch : string -> string -> res string
}.

(** [json.Marshal] of a map or slice tree. *)
Class JsonLib := { json_Marshal_value : value -> string }.

(** The helm plug-in ([shield/pkg/plugins/helm]), whose functions may panic, and
    [json.Unmarshal] of a [HelmReleaseMetadata]: its chart and provenance. *)
Class HelmPlugin := {
  helm_FindReleaseSecret : string -> string -> string -> string -> go (res (option string));
  helm_GetHelmReleaseMetadata : string -> go (res (list string));
  helm_MatchReleaseSecret : string -> string -> go bool;
  helm_Unmarshal_metadata : string -> res (option (string * string));
  helm_VerifyChartAndProv : string -> string -> list string -> go (bool * option Signer * string * option string)
}.

(** ** Masks *)

Definition quote (s : string) : string := dquote_str +:+ s +:+ dquote_str.

Definition CommonMessageMask : list string :=
  ["metadata.labels." +:+ quote ResourceIntegrityLabelKey;
   "metadata.annotations." +:+ quote SignedByAnnotationKey;
   "metadata.annotations." +:+ quote LastVerifiedTimestampAnnotationKey;
   "metadata.annotations." +:+ quote ResourceSignatureUIDAnnotationKey;
   "metadata.annotations." +:+ quote SignatureAnnotationKey;
   "metadata.annotations." +:+ quote MessageAnnotationKey;
   "metadata.annotations." +:+ quote CertificateAnnotationKey;
   "metadata.annotations." +:+ quote SignatureTypeAnnotationKey;
   "metadata.annotations." +:+ quote MessageScopeAnnotationKey;
   "metadata.annotations." +:+ quote MutableAttrsAnnotationKey;
   "metadata.annotations.namespace";
   "metadata.annotations.kubectl." +:+ quote "kubernetes.io/last-applied-configuration";
   "metadata.managedFields";
   "metadata.creationTimestamp";
   "metadata.generation";
   "metadata.annotations.deprecated.daemonset.template.generation";
   "metadata.namespace";
   "metadata.resourceVersion";
   "metadata.selfLink";
   "metadata.uid"].

(** [getMaskDef]: the only entry of the table is the one of ["*"], so that kind
    gets the masks twice. *)
Definition getMaskDef (kind : string) : list string :=
  if bool_decide (kind = "*") then CommonMessageMask ++ CommonMessageMask else CommonMessageMask.

#[global] Arguments getMaskDef : simpl never.

Section verifier.
Context `{DiffLib, FloatFmt, YamlLib, ManifestLib, JsonLib, KubeUtil, PgpLib, X509Lib, HelmPlugin}.

(** [fmt.Sprintf("%s", leaf)] *)
Definition sprintf_s (v : scalar) : string :=
  match v with
  | SStr s => s
  | SBool b => "%!s(bool=" +:+ (if b then "true" else "false") +:+ ")"
  | SNum f => "%!s(float64=" +:+ fmt_float f +:+ ")"
  end.

(** [Node.ToJson] and [Node.ToYaml]; the latter reads through a nil value. *)
Definition ToJson (n : Node) : string :=
  match n with
  | NNull => "null"
  | NVal v => sprintf_s v
  | NMap _ | NSlice _ => json_Marshal_value (Interface n)
  end.

Definition ToYaml (n : Node) : go string :=
  match n with
  | NNull => Panic
  | NVal v => Ret (sprintf_s v)
  | NMap _ | NSlice _ => Ret (yaml_Marshal (Interface n))
  end.

(** ** Comparing a message with an object *)

(** The two trees [matchContents] compares, and the focus slice afterwards.  The
    key slices are rewritten by the first [Extract] or [Mask] and used, as
    rewritten, by the second. *)
Definition compared_nodes (orgNode reqNode : Node) (focus mask : list string) : Node * Node * list string :=
  if Nat.ltb 0 (length focus) then
    let '(o, focus) := Extract orgNode focus in
    let '(r, focus) := Extract reqNode focus in (o, r, focus)
  else
    let '(o, mask) := Mask orgNode mask in
    let '(r, _) := Mask reqNode mask in (o, r, focus).

(** [matchContents]: matched, the printed difference, and the focus slice. *)
Definition matchContents (orgObj reqObj : string) (focus mask : list string)
    (allowDiffPatterns : list Difference) (excludeDiffValue : bool) : bool * string * list string :=
  match NewFromYamlBytes orgObj with
  | None => (false, "", focus)
  | Some orgNode =>
      match NewFromBytes reqObj with
      | None => (false, "", focus)
      | Some reqNode =>
          let '(orgNodeToCompare, reqNodeToCompare, focus) := compared_nodes orgNode reqNode focus mask in
          let dr := Diff orgNodeToCompare reqNodeToCompare in
          let dr := match dr with
                    | Some d => if Nat.ltb 0 (length allowDiffPatterns) then Some (Remove d allowDiffPatterns) else dr
                    | None => None
                    end in
          match dr with
          | None => (true, "", focus)
          | Some d => (false, if excludeDiffValue then KeyString d else DiffString d, focus)
          end
      end
  end.

Definition attrs_of (l : list AttrsPattern) : list string := a ← l; ap_Attrs a.

(** One of the dry-run cases of [MatchMessage]: [None] is its early return. *)
Definition match_dry_run (patched : Node) (dryRunNamespace reqObj : string) (focus addMask : list string)
    (allowDiffPatterns : list Difference) (excludeDiffValue : bool) : go (option (bool * string * list string)) :=
  match ToYaml (Mask patched ["metadata.namespace"]).1 with
  | Panic => Panic
  | Ret yaml =>
      match DryRunCreate yaml dryRunNamespace with
      | Err _ => Ret None
      | Ok simObj =>
          let mask := getMaskDef "" ++ addMask ++ ["metadata.name"] ++ ["status"] in
          Ret (Some (matchContents simObj reqObj focus mask allowDiffPatterns excludeDiffValue))
      end
  end.

(** [MatchMessage]: direct comparison, then the dry runs of a create, of an apply
    and, for a patch signature, of a patch. *)
Definition MatchMessage (self : ResourceVerifier) (message reqObj : string) (protectAttrs ignoreAttrs : list AttrsPattern)
    (allowDiffPatterns : list Difference) (resScope resKind : string) (signType : SignedResourceType)
    (excludeDiffValue : bool) : go (bool * string) :=
  match NewFromYamlBytes message with
  | None => Ret (false, "")
  | Some orgNode =>
      let focus := attrs_of protectAttrs in
      let addMask := if Nat.eqb (length focus) 0 then attrs_of ignoreAttrs else [] in
      let mask := getMaskDef "" ++ addMask in
      let '(matched, diffStr, focus) := matchContents message reqObj focus mask allowDiffPatterns excludeDiffValue in
      if bool_decide (resScope = "Cluster") && negb (bool_decide (resKind = "CustomResourceDefinition"))
      then Ret (matched, diffStr)
      else if matched then Ret (true, diffStr)
      else
        (* case 2 *)
        r2 ← match_dry_run orgNode (rv_dryRunNamespace self) reqObj focus addMask allowDiffPatterns excludeDiffValue;
        match r2 with
        | None => Ret (false, "")
        | Some (matched, diffStr, focus) =>
            if matched : bool then Ret (true, diffStr)
            else
              (* case 3 *)
              let reqNode := default emptyNode (NewFromBytes reqObj) in
              let reqNamespace := GetString json_Marshal_node reqNode "metadata.namespace" in
              match GetApplyPatchBytes message reqNamespace with
              | Err _ => Ret (false, "")
              | Ok patchedBytes =>
                  r3 ← match_dry_run (default emptyNode (NewFromBytes patchedBytes)) (rv_dryRunNamespace self) reqObj
                         focus addMask allowDiffPatterns excludeDiffValue;
                  match r3 with
                  | None => Ret (false, "")
                  | Some (matched, diffStr, focus) =>
                      if (matched || negb (bool_decide (signType = SignedResourceTypePatch)))%bool
                      then Ret (matched, diffStr)
                      else
                        (* case 4 *)
                        match StrategicMergePatch reqObj message with
                        | Err _ => Ret (false, "")
                        | Ok patchedBytes =>
                            r4 ← match_dry_run (default emptyNode (NewFromBytes patchedBytes)) (rv_dryRunNamespace self)
                                   reqObj focus addMask allowDiffPatterns excludeDiffValue;
                            match r4 with
                            | None => Ret (false, "")
                            | Some (matched, diffStr, _) => Ret (matched, diffStr)
                            end
                        end
                  end
              end
        end
  end.

(** [IsPatchWithScopeKey] *)
Definition IsPatchWithScopeKey (orgObj rawObj scope : string) (excludeDiffValue : bool) : bool :=
  let mask := getMaskDef "" ++ SplitCommaSeparatedKeys scope in
  (matchContents orgObj rawObj [] mask [] excludeDiffValue).1.1.

(** [GenerateMessageFromRawObj] *)
Definition GenerateMessageFromRawObj (rawObj filter mutableAttrs : string) : string :=
  match NewFromBytes rawObj with
  | None => ""
  | Some node =>
      let node := if bool_decide (mutableAttrs = "") then node
                  else (Mask node (SplitCommaSeparatedKeys mutableAttrs)).1 in
      let line n := ToJson n +:+ String (ch 10) "" in
      if bool_decide (filter = "") then line node
      else foldl (fun message subNode => message +:+ line subNode) ""
             (k ← SplitCommaSeparatedKeys filter; MultipleSubNode node k)
  end.

(** [makeAllowDiffPatterns]: the last kustomize pattern decides the name. *)
Definition makeAllowDiffPatterns `{K8sApi} (reqc : ReqContext) (kustomizeList : list KustomizePattern) : list Difference :=
  let ref := ResourceRefOf reqc in
  let name := rc_Name reqc in
  let kustomizedName := foldl (fun _ pattern => ref_Name (Override pattern ref)) name kustomizeList in
  if bool_decide (kustomizedName = name) then []
  else [mkDifference "metadata.name" (Some (SStr name)) (Some (SStr kustomizedName))].

(** ** The verifiers *)

(** The variables of [Verify] while its loops run; an error returns at once. *)
Record vstate := mkVstate {
  vs_err : option CheckError;
  vs_info : option SignerInfo;
  vs_keys : list string;
}.
Inductive vstep := VReturn (r : verify_result) | VNext (st : vstate).

Definition pgp_info (signer : Signer) (fingerprint : option string) : SignerInfo :=
  pgpSignerInfo (sg_Email signer) (sg_Name signer) (sg_Comment signer) fingerprint.

(** The loop over the PGP candidates. *)
Fixpoint pgp_loop (sigFrom message signature : string) (keys : list string) (st : vstate) : go vstep :=
  match keys with
  | [] => Ret (VNext st)
  | keyPath :: keys' =>
      match pgp_VerifySignature keyPath message signature with
      | Panic => Panic
      | Ret (_, reasonFail, _, _, Some err) =>
          let vcerr := mkCheckError ("Error occured while verifying signature in " +:+ sigFrom) reasonFail (Some err) in
          Ret (VReturn (mkSigVerifyResult (Some vcerr) None, [], Some err))
      | Ret (true, _, Some signer, fingerprint, None) =>
          pgp_loop sigFrom message signature keys'
            (mkVstate None (Some (pgp_info signer fingerprint)) (vs_keys st ++ [keyPath]))
      | Ret (true, _, None, _, None) => Panic
      | Ret (false, reasonFail, _, _, None) =>
          pgp_loop sigFrom message signature keys'
            (mkVstate (Some (mkCheckError ("Failed to verify signature in " +:+ sigFrom) reasonFail None))
               (vs_info st) (vs_keys st))
      end
  end.

(** The loop over the X.509 candidates: every failure forgets the signer found
    before it. *)
Fixpoint x509_loop (sigFrom message signature certificate : string) (keys : list string) (st : vstate) : go vstep :=
  match keys with
  | [] => Ret (VNext st)
  | caCertPath :: keys' =>
      match VerifyCertificate certificate caCertPath with
      | (_, reasonFail, Some err) =>
          let vcerr := mkCheckError ("Error occured while verifying certificate in " +:+ sigFrom) reasonFail (Some err) in
          Ret (VReturn (mkSigVerifyResult (Some vcerr) None, [], Some err))
      | (false, reasonFail, None) =>
          x509_loop sigFrom message signature certificate keys'
            (mkVstate (Some (mkCheckError ("Failed to verify certificate in " +:+ sigFrom) reasonFail None)) None (vs_keys st))
      | (true, _, None) =>
          let pubKeyBytes := match GetPublicKeyFromCertificate certificate with Ok b => b | Err _ => "" end in
          match x509_VerifySignature message signature pubKeyBytes with
          | Panic => Panic
          | Ret (_, reasonFail, Some err) =>
              let vcerr := mkCheckError ("Error occured while verifying signature in " +:+ sigFrom) reasonFail (Some err) in
              Ret (VReturn (mkSigVerifyResult (Some vcerr) (vs_info st), [], Some err))
          | Ret (true, _, None) =>
              match ParseCertificate certificate with
              | Err _ => Panic
              | Ok cert => x509_loop sigFrom message signature certificate keys'
                             (mkVstate None (Some (NewSignerInfoFromCert cert)) (vs_keys st ++ [caCertPath]))
              end
          | Ret (false, reasonFail, None) =>
              x509_loop sigFrom message signature certificate keys'
                (mkVstate (Some (mkCheckError ("Failed to verify signature in " +:+ sigFrom) reasonFail None)) None (vs_keys st))
          end
      end
  end.

(** The last trial over all mounted PGP keys: the signer for the message. *)
Fixpoint alt_signer (message signature : string) (keys : list string) : go (option SignerInfo) :=
  match keys with
  | [] => Ret None
  | keyPath :: keys' =>
      if Contains keyPath "/pgp/" then
        match pgp_VerifySignature keyPath message signature with
        | Panic => Panic
        | Ret (true, _, Some signer2, fingerprint2, _) => Ret (Some (pgp_info signer2 fingerprint2))
        | Ret _ => alt_signer message signature keys'
        end
      else alt_signer message signature keys'
  end.

Definition deny_with (msg : string) : verify_result :=
  (mkSigVerifyResult (Some (mkCheckError msg msg None)) None, [], None).

(** The signature half of [ResourceVerifier.Verify]. *)
Definition verify_keys (self : ResourceVerifier) (sigFrom : string) (sig : GeneralSignature) : go verify_result :=
  let message := map_str (gs_data sig) "message" in
  let signature := map_str (gs_data sig) "signature" in
  r1 ← pgp_loop sigFrom message signature (rv_PGPKeyPathList self) (mkVstate None None []);
  match r1 with
  | VReturn r => Ret r
  | VNext st =>
      r2 ← match gs_data sig !! "certificate" with
           | Some certificate => x509_loop sigFrom message signature certificate (rv_X509KeyPathList self) st
           | None => Ret (VNext st)
           end;
      match r2 with
      | VReturn r => Ret r
      | VNext st =>
          info ← match vs_info st with
                 | Some i => Ret (Some i)
                 | None => alt_signer message signature (rv_AllMountedKeyPathList self)
                 end;
          Ret (mkSigVerifyResult (vs_err st) info, vs_keys st, None)
      end
  end.

(** The scope test of [ResourceVerifier.Verify]: [None] when the signature may be used. *)
Definition scope_denied (sig : GeneralSignature) (reqc : ReqContext) (sigFrom : string) : option string :=
  if gs_flag sig "scopedSignature" then
    if IsCreateRequest reqc then None
    else if IsUpdateRequest reqc then
      if IntegrityVerified (omd_Labels (rc_OrgMetadata reqc)) then
        let scope := map_str (gs_data sig) "scope" in
        if IsPatchWithScopeKey (default "" (rc_RawOldObject reqc)) (default "" (rc_RawObject reqc)) scope (ExcludeDiffValue reqc)
        then None
        else Some ("messageScope of the signature in " +:+ sigFrom +:+ " does not cover all changed attributes in this update")
      else Some ("Original object must be integrityVerified to allow UPDATE request with scope signature specified in " +:+ sigFrom)
    else Some ""
  else None.

(** [ResourceVerifier.Verify] *)
Definition ResourceVerifier_Verify `{K8sApi} (self : ResourceVerifier) (sig : GeneralSignature) (reqc : ReqContext)
    (signingProfile : ResourceSigningProfile) : go verify_result :=
  let excludeDiffValue := ExcludeDiffValue reqc in
  let kustomizeList := RSP_Kustomize signingProfile (ReqMap reqc) in
  let allowDiffPatterns := makeAllowDiffPatterns reqc kustomizeList in
  let protectAttrsList := RSP_ProtectAttrs signingProfile (ReqMap reqc) in
  let ignoreAttrsList := RSP_IgnoreAttrs signingProfile (ReqMap reqc) in
  let sigFrom := if bool_decide (map_str (gs_data sig) "resourceSignatureUID" = "") then "annotation" else "ResourceSignature" in
  m ← (if gs_flag sig "matchRequired" then
         let message := default (map_str (gs_data sig) "message") (gs_data sig !! "yamlBytes") in
         MatchMessage self message (default "" (rc_RawObject reqc)) protectAttrsList ignoreAttrsList allowDiffPatterns
           (rc_ResourceScope reqc) (rc_Kind reqc) (gs_SignType sig) excludeDiffValue
       else Ret (true, ""));
  let '(matched, diffStr) := m : bool * string in
  if negb matched then
    Ret (deny_with ("The message for this signature in " +:+ sigFrom +:+
                    " is not identical with the requested object. diff: " +:+ diffStr))
  else
    match scope_denied sig reqc sigFrom with
    | Some scopeDenyMsg => Ret (deny_with scopeDenyMsg)
    | None => verify_keys self sigFrom sig
    end.

(** [HelmVerifier.Verify]: no verified key path is ever returned. *)
Definition HelmVerifier_Verify (keyPathList : list string) (sig : GeneralSignature) : go verify_result :=
  let rlsStr := map_str (gs_data sig) "releaseSecret" in
  let hrmStr := map_str (gs_data sig) "helmReleaseMetadata" in
  matched ← (if gs_flag sig "matchRequired" then helm_MatchReleaseSecret rlsStr hrmStr else Ret true);
  if negb matched then Ret (deny_with "HelmReleaseMetadata is not identical with the release secret")
  else
    match helm_Unmarshal_metadata hrmStr with
    | Err e =>
        let msg := "Error occured in helm chart verification; " +:+ e in
        Ret (mkSigVerifyResult (Some (mkCheckError msg msg (Some msg))) None, [], Some e)
    | Ok None => Panic
    | Ok (Some (helmChart, helmProv)) =>
        v ← helm_VerifyChartAndProv helmChart helmProv keyPathList;
        match v with
        | (_, _, reasonFail, Some err) =>
            Ret (mkSigVerifyResult (Some (mkCheckError "Error occured in helm chart verification" reasonFail (Some err))) None,
                 [], Some err)
        | (true, Some signer, _, None) => Ret (mkSigVerifyResult None (Some (pgp_info signer None)), [], None)
        | (true, None, _, None) => Panic
        | (false, _, reasonFail, None) =>
            Ret (mkSigVerifyResult (Some (mkCheckError "Failed to verify helm chart and its provenance" reasonFail None)) None,
                 [], None)
        end
    end.

(** [NewVerifier] and the call of the method of what it returns; the unknown type
    has no verifier. *)
Definition Verifier_Verify `{K8sApi} (dryRunNamespace : string) (pgpKeyPathList x509KeyPathList allKeyPathList : list string)
    (sig : GeneralSignature) (reqc : ReqContext) (signingProfile : ResourceSigningProfile) : go verify_result :=
  match gs_SignType sig with
  | SignedResourceTypeUnknown => Panic
  | SignedResourceTypeHelm => HelmVerifier_Verify pgpKeyPathList sig
  | _ => ResourceVerifier_Verify (mkResourceVerifier pgpKeyPathList x509KeyPathList allKeyPathList dryRunNamespace)
           sig reqc signingProfile
  end.
End verifier.

(** ** Facts: contents *)

Section content_facts.
Context `{DiffLibOk, FloatFmt, YamlLib, ManifestLib, KubeUtil}.
#[local] Set Default Proof Using "Type*".

(** The flattened trees that [matchContents] compares agree. *)
Definition content_match (orgObj reqObj : string) (focus mask : list string) : Prop :=
  exists orgNode reqNode, NewFromYamlBytes orgObj = Some orgNode /\ NewFromBytes reqObj = Some reqNode /\
    let '(o, r, _) := compared_nodes orgNode reqNode focus mask in flat_eq (Ravel o) (Ravel r).

Lemma matchContents_true_iff orgObj reqObj focus mask pats ex :
  (matchContents orgObj reqObj focus mask pats ex).1.1 = true <-> content_match orgObj reqObj focus mask.
Proof.
  unfold matchContents, content_match. destruct (NewFromYamlBytes orgObj) as [o|]; [|naive_solver].
  destruct (NewFromBytes reqObj) as [r|]; [|naive_solver].
  destruct (compared_nodes o r focus mask) as [[o' r'] focus'] eqn:Ec.
  assert ((Diff o' r' = None) <-> flat_eq (Ravel o') (Ravel r')) as Hd by apply Diff_None.
  assert ((exists orgNode reqNode, Some o = Some orgNode /\ Some r = Some reqNode /\
            let '(o0, r0, _) := compared_nodes orgNode reqNode focus mask in flat_eq (Ravel o0) (Ravel r0)) <->
          flat_eq (Ravel o') (Ravel r')) as ->.
  { split; [intros (? & ? & [= <-] & [= <-] & Hf); by rewrite Ec in Hf|intros Hf; exists o, r; by rewrite Ec]. }
  rewrite <-Hd. destruct (Diff o' r'); [|done]. by destruct (Nat.ltb _ _).
Qed.

Lemma matchContents_focus orgObj reqObj focus mask pats ex :
  length (matchContents orgObj reqObj focus mask pats ex).2 = length focus.
Proof.
  unfold matchContents. destruct (NewFromYamlBytes orgObj) as [o|]; [|done].
  destruct (NewFromBytes reqObj) as [r|]; [|done].
  destruct (compared_nodes o r focus mask) as [[o' r'] focus'] eqn:Ec.
  assert (length focus' = length focus) as <-.
  { unfold compared_nodes in Ec. destruct (Nat.ltb 0 (length focus)).
    - unfold Extract in Ec. cbn in Ec. simplify_eq. by rewrite !length_fmap.
    - unfold Mask in Ec. cbn in Ec. by simplify_eq. }
  by destruct (match Diff o' r' with Some _ => _ | None => _ end).
Qed.

Definition add_mask (protectAttrs ignoreAttrs : list AttrsPattern) : list string :=
  if Nat.eqb (length (attrs_of protectAttrs)) 0 then attrs_of ignoreAttrs else [].

Lemma match_dry_run_true patched ns reqObj focus addMask pats ex d f :
  match_dry_run patched ns reqObj focus addMask pats ex = Ret (Some (true, d, f)) ->
  exists y sim, ToYaml (Mask patched ["metadata.namespace"]).1 = Ret y /\ DryRunCreate y ns = Ok sim /\
    content_match sim reqObj focus (getMaskDef "" ++ addMask ++ ["metadata.name"] ++ ["status"]).
Proof.
  unfold match_dry_run. destruct (ToYaml _) as [y|] eqn:Ey; [|done]. destruct (DryRunCreate y ns) as [sim|] eqn:Ed; [|done].
  generalize (getMaskDef "" ++ addMask ++ ["metadata.name"] ++ ["status"]). intros mask [= Hm].
  exists y, sim. do 2 (split; [done|]). apply (matchContents_true_iff _ _ _ _ pats ex). by rewrite Hm.
Qed.

Lemma match_dry_run_focus patched ns reqObj focus addMask pats ex m d f :
  match_dry_run patched ns reqObj focus addMask pats ex = Ret (Some (m, d, f)) -> length f = length focus.
Proof.
  unfold match_dry_run. destruct (ToYaml _) as [y|]; [|done]. destruct (DryRunCreate y ns) as [sim|] eqn:Ed; [|done].
  generalize (getMaskDef "" ++ addMask ++ ["metadata.name"] ++ ["status"]). intros mask [= Hm].
  pose proof (matchContents_focus sim reqObj focus mask pats ex) as Hl. by rewrite Hm in Hl.
Qed.

(** What is sent to a dry run: the message itself, the outcome of applying it, or
    the outcome of patching the requested object with it. *)
Definition dry_run_of (message reqObj : string) (patched : Node) : Prop :=
  NewFromYamlBytes message = Some patched \/
  (exists ns b, GetApplyPatchBytes message ns = Ok b /\ patched = default emptyNode (NewFromBytes b)) \/
  (exists b, StrategicMergePatch reqObj message = Ok b /\ patched = default emptyNode (NewFromBytes b)).

(** Either the message itself describes the object, or the object the API server
    made of it in a dry run does. *)
Definition message_describes (message reqObj dryRunNamespace : string) (protectAttrs ignoreAttrs : list AttrsPattern) : Prop :=
  content_match message reqObj (attrs_of protectAttrs) (getMaskDef "" ++ add_mask protectAttrs ignoreAttrs) \/
  exists patched y sim focus, dry_run_of message reqObj patched /\
    ToYaml (Mask patched ["metadata.namespace"]).1 = Ret y /\ DryRunCreate y dryRunNamespace = Ok sim /\
    length focus = length (attrs_of protectAttrs) /\
    content_match sim reqObj focus
      (getMaskDef "" ++ add_mask protectAttrs ignoreAttrs ++ ["metadata.name"] ++ ["status"]).

Lemma MatchMessage_true self message reqObj pa ia pats scope kind st ex d :
  MatchMessage self message reqObj pa ia pats scope kind st ex = Ret (true, d) ->
  message_describes message reqObj (rv_dryRunNamespace self) pa ia.
Proof.
  unfold MatchMessage. destruct (NewFromYamlBytes message) as [orgNode|] eqn:Eo; [|done]. fold (add_mask pa ia).
  pose proof (matchContents_true_iff message reqObj (attrs_of pa) (getMaskDef "" ++ add_mask pa ia) pats ex) as Hm.
  pose proof (matchContents_focus message reqObj (attrs_of pa) (getMaskDef "" ++ add_mask pa ia) pats ex) as Hl.
  destruct (matchContents _ _ _ _ _ _) as [[m d1] f1]. cbn [fst snd] in Hm, Hl.
  destruct (_ && _); [intros [= -> ->]; left; by apply Hm|]. destruct m; [intros _; left; by apply Hm|].
  assert (forall patched focus d' f', dry_run_of message reqObj patched -> length focus = length (attrs_of pa) ->
    match_dry_run patched (rv_dryRunNamespace self) reqObj focus (add_mask pa ia) pats ex = Ret (Some (true, d', f')) ->
    message_describes message reqObj (rv_dryRunNamespace self) pa ia) as Hdry.
  { intros patched focus d' f' Hp Hf (y & sim & Hy & Hs & Hc)%match_dry_run_true. right. by exists patched, y, sim, focus. }
  cbn [mbind go_bind].
  destruct (match_dry_run orgNode _ _ f1 _ _ _) as [[[[m2 d2] f2]|]|] eqn:E2; cbn [mbind go_bind]; try done.
  pose proof (match_dry_run_focus _ _ _ _ _ _ _ _ _ _ E2) as Hl2.
  destruct m2; [intros _; apply (Hdry orgNode f1 d2 f2); [by left|done..]|].
  destruct (GetApplyPatchBytes _ _) as [pb|] eqn:Ea; [|done].
  match goal with |- context [match_dry_run ?p ?a ?b f2 ?c ?x ?y] =>
    destruct (match_dry_run p a b f2 c x y) as [[[[m3 d3] f3]|]|] eqn:E3; cbn [mbind go_bind]; try done end.
  pose proof (match_dry_run_focus _ _ _ _ _ _ _ _ _ _ E3) as Hl3.
  destruct m3; [intros _; eapply (Hdry _ f2 d3 f3); [right; left; by eexists _, pb|lia|exact E3]|]. cbn [orb].
  destruct (negb _); [done|]. destruct (StrategicMergePatch _ _) as [pb4|] eqn:Es; [|done].
  match goal with |- context [match_dry_run ?p ?a ?b f3 ?c ?x ?y] =>
    destruct (match_dry_run p a b f3 c x y) as [[[[m4 d4] f4]|]|] eqn:E4; cbn [mbind go_bind]; try done end.
  intros [= -> ->]. eapply (Hdry _ f3 d f4); [right; right; by exists pb4|lia|exact E4].
Qed.

(** C39: the name difference a kustomize pattern allows never helps: whether an
    object matches a message does not depend on the allowed differences, because
    removing them leaves an empty result where only a missing one counts. *)
Theorem allowed_differences_have_no_effect orgObj reqObj focus mask pats ex :
  (matchContents orgObj reqObj focus mask pats ex).1.1 = (matchContents orgObj reqObj focus mask [] ex).1.1.
Proof.
  apply eq_true_iff_eq. by rewrite !matchContents_true_iff.
Qed.
End content_facts.

(** ** Facts: keys *)

Section key_facts.
Context `{PgpLib, X509Lib}.
#[local] Set Default Proof Using "Type*".

Definition pgp_ok (message signature k : string) : Prop :=
  exists r s fp, pgp_VerifySignature k message signature = Ret (true, r, Some s, fp, None).

(** The key of a certificate; nil when it has none that can be printed. *)
Definition certificate_key (certificate : string) : string :=
  match GetPublicKeyFromCertificate certificate with Ok b => b | Err _ => "" end.

Definition x509_ok (message signature certificate k : string) : Prop :=
  (exists r, VerifyCertificate certificate k = (true, r, None)) /\
  exists r, x509_VerifySignature message signature (certificate_key certificate) = Ret (true, r, None).

Lemma pgp_loop_keys from m s keys st st' :
  pgp_loop from m s keys st = Ret (VNext st') ->
  forall k, k ∈ vs_keys st' -> k ∈ vs_keys st \/ (k ∈ keys /\ pgp_ok m s k).
Proof.
  revert st. induction keys as [|key keys IH]; intros st; cbn [pgp_loop]; [intros [= <-]; auto|].
  destruct (pgp_VerifySignature key m s) as [[[[[[] r] [sg|]] fp] [e|]]|] eqn:E; try done.
  - intros Hl k Hk. destruct (IH _ Hl k Hk) as [Hin|[Hin Ho]]; cbn in *.
    + apply elem_of_app in Hin as [Hin|Hin%list_elem_of_singleton]; [by left|]. subst. right.
      split; [left|]. by exists r, sg, fp.
    + right. split; [by right|done].
  - intros Hl k Hk. destruct (IH _ Hl k Hk) as [Hin|[Hin Ho]]; [by left|]. right. split; [by right|done].
  - intros Hl k Hk. destruct (IH _ Hl k Hk) as [Hin|[Hin Ho]]; [by left|]. right. split; [by right|done].
Qed.

Lemma pgp_loop_return from m s keys st r ks e :
  pgp_loop from m s keys st = Ret (VReturn (r, ks, e)) -> ks = [] /\ e <> None /\ svr_Signer r = None.
Proof.
  revert st. induction keys as [|key keys IH]; intros st; cbn [pgp_loop]; [done|].
  destruct (pgp_VerifySignature key m s) as [[[[[[] r'] [sg|]] fp] [e'|]]|] eqn:E;
    try done; try apply IH; by intros [= <- <- <-].
Qed.

Lemma x509_loop_keys from m s c keys st st' :
  x509_loop from m s c keys st = Ret (VNext st') ->
  forall k, k ∈ vs_keys st' -> k ∈ vs_keys st \/ (k ∈ keys /\ x509_ok m s c k).
Proof.
  revert st. induction keys as [|key keys IH]; intros st; cbn [x509_loop]; [intros [= <-]; auto|].
  destruct (VerifyCertificate c key) as [[[] r] [e|]] eqn:Ec; try done.
  - set (pub := match GetPublicKeyFromCertificate c with Ok b => b | Err _ => "" end).
    assert (pub = certificate_key c) as Hpub by done.
    destruct (x509_VerifySignature m s pub) as [[[[] r'] [e|]]|] eqn:Es; try done.
    + destruct (ParseCertificate c) as [cert|]; [|done]. intros Hl k Hk.
      destruct (IH _ Hl k Hk) as [Hin|[Hin Ho]]; cbn in *.
      * apply elem_of_app in Hin as [Hin|Hin%list_elem_of_singleton]; [by left|]. subst. right.
        split; [left|]. split; eauto.
      * right. split; [by right|done].
    + intros Hl k Hk. destruct (IH _ Hl k Hk) as [Hin|[Hin Ho]]; [by left|]. right. split; [by right|done].
  - intros Hl k Hk. destruct (IH _ Hl k Hk) as [Hin|[Hin Ho]]; [by left|]. right. split; [by right|done].
Qed.

Lemma x509_loop_return from m s c keys st r ks e :
  x509_loop from m s c keys st = Ret (VReturn (r, ks, e)) -> ks = [] /\ e <> None.
Proof.
  revert st. induction keys as [|key keys IH]; intros st; cbn [x509_loop]; [done|].
  destruct (VerifyCertificate c key) as [[[] r'] [e'|]] eqn:Ec; try (by intros [= <- <- <-]); [|apply IH].
  destruct (x509_VerifySignature _ _ _) as [[[[] r''] [e'|]]|]; try (by intros [= <- <- <-]); try done; [|apply IH].
  destruct (ParseCertificate c); [apply IH|done].
Qed.

(** A key path reported as verified is a candidate under which the signature of
    the message verifies. *)
Definition key_ok (self : ResourceVerifier) (sig : GeneralSignature) (k : string) : Prop :=
  let m := map_str (gs_data sig) "message" in
  let s := map_str (gs_data sig) "signature" in
  (k ∈ rv_PGPKeyPathList self /\ pgp_ok m s k) \/
  (k ∈ rv_X509KeyPathList self /\ exists c, gs_data sig !! "certificate" = Some c /\ x509_ok m s c k).

Lemma verify_keys_sound self from sig r ks e :
  verify_keys self from sig = Ret (r, ks, e) -> forall k, k ∈ ks -> key_ok self sig k.
Proof.
  unfold verify_keys, key_ok. set (m := map_str _ "message"). set (s := map_str _ "signature").
  destruct (pgp_loop from m s _ _) as [[[[r1 k1] e1]|st1]|] eqn:E1; cbn; [| |done].
  { intros [= <- <- <-]. apply pgp_loop_return in E1 as (-> & _). intros k Hk. by apply elem_of_nil in Hk. }
  pose proof (pgp_loop_keys _ _ _ _ _ _ E1) as Hp. cbn in Hp.
  destruct (gs_data sig !! "certificate") as [c|] eqn:Ec; cbn.
  - destruct (x509_loop from m s c _ st1) as [[[[r2 k2] e2]|st2]|] eqn:E2; cbn; [| |done].
    { intros [= <- <- <-]. apply x509_loop_return in E2 as (-> & _). intros k Hk. by apply elem_of_nil in Hk. }
    pose proof (x509_loop_keys _ _ _ _ _ _ _ E2) as Hx.
    destruct (match vs_info st2 with Some i => Ret (Some i) | None => _ end) as [info|]; cbn; [|done].
    intros [= <- <- <-] k [Hk|[Hk Ho]]%Hx.
    + apply Hp in Hk as [Hk|Hk]; [by apply elem_of_nil in Hk|by left].
    + right. split; [done|]. by exists c.
  - destruct (match vs_info st1 with Some i => Ret (Some i) | None => _ end) as [info|]; cbn; [|done].
    intros [= <- <- <-] k [Hk|Hk]%Hp; [by apply elem_of_nil in Hk|by left].
Qed.

(** The last X.509 candidate decides: when the certificate does not verify
    under it, the signer found under an earlier candidate is forgotten. *)
Theorem x509_last_candidate_decides from m s c keys ca st st' r :
  VerifyCertificate c ca = (false, r, None) ->
  x509_loop from m s c (keys ++ [ca]) st = Ret (VNext st') ->
  vs_info st' = None.
Proof.
  intros Hc. revert st. induction keys as [|key keys IH]; intros st; cbn [app x509_loop].
  - rewrite Hc. by intros [= <-].
  - destruct (VerifyCertificate c key) as [[[] r'] [e'|]] eqn:Ek; try done; [|apply IH].
    destruct (x509_VerifySignature _ _ _) as [[[[] r''] [e'|]]|]; try done; [|apply IH].
    destruct (ParseCertificate c); [apply IH|done].
Qed.

(** With an X.509 key among the candidates, a signature without a readable
    certificate is rejected with an error even when a PGP candidate verified it. *)
Theorem pgp_signature_needs_certificate self from sig c e ca cas st :
  gs_data sig !! "certificate" = Some c -> ParseCertificate c = Err e ->
  rv_X509KeyPathList self = ca :: cas ->
  pgp_loop from (map_str (gs_data sig) "message") (map_str (gs_data sig) "signature")
    (rv_PGPKeyPathList self) (mkVstate None None []) = Ret (VNext st) ->
  exists r err, verify_keys self from sig = Ret (r, [], Some err) /\ svr_Signer r = None.
Proof.
  intros Hc Hp Hx Hl. unfold verify_keys. rewrite Hl. cbn [mbind go_bind]. rewrite Hc, Hx. cbn [x509_loop].
  destruct (bad_cert_is_error c ca e Hp) as [r ->]. cbn. by eexists _, _.
Qed.
End key_facts.
