(* ===== verification/Sign.v ===== *)
(** * Signature evaluation  ([shield/pkg/shield/sign.go])

    Finding the signature of a request, verifying it with the keys of the
    policies in scope, and accepting its signer. *)
From S2P Require Import Prelude GoStrings GoJson Pattern Common ReqContext Profile SigningProfile Policy ShieldConfig.
From S2P Require Import MapNode Diff Signing ResourceSignature SignVerifier.
From stdpp Require Import options.

(** [json.Marshal] of the policy that matched. *)
Class PolicyJson := { json_Marshal_policy : SignerConfigCondition -> string }.

Record SignatureEvaluator := mkSignatureEvaluator {
  sev_config : ShieldConfig;
  sev_signerConfig : option SignerConfig;
  sev_plugins : gset string;
}.

Section sign.
Context `{DiffLib, FloatFmt, YamlLib, ManifestLib, JsonLib, KubeUtil, PgpLib, X509Lib, HelmPlugin, K8sApi, PolicyJson}.

Definition sign_type (t : string) : SignedResourceType :=
  if bool_decide (t = SignatureTypeApplyingResource) then SignedResourceTypeApplyingResource
  else if bool_decide (t = SignatureTypePatch) then SignedResourceTypePatch
  else SignedResourceTypeResource.

(** 1. the signature in the annotations of the requested object. *)
Definition annotation_signature (ref : ResourceRef) (reqc : ReqContext) : option GeneralSignature :=
  let sa := SignatureAnnotations (omd_Annotations (rc_ClaimedMetadata reqc)) in
  if bool_decide (sa_Signature sa = "") then None
  else
    match FindSingleYaml (sa_Message sa) (ref_ApiVersion ref) (ref_Kind ref) (ref_Name ref) (ref_Namespace ref) with
    | None => None
    | Some yamlBytes =>
        let message := message_text (sa_Message sa) in
        let scoped := bool_decide (message = "") && negb (bool_decide (sa_MessageScope sa = "")) in
        let message := if scoped then GenerateMessageFromRawObj (default "" (rc_RawObject reqc)) (sa_MessageScope sa) (sa_MutableAttrs sa)
                       else message in
        Some (mkGeneralSignature (sign_type (sa_SignatureType sa))
                (<["signature" := Base64decode (sa_Signature sa)]> (<["message" := message]>
                 (<["certificate" := Base64decode (sa_Certificate sa)]> (<["yamlBytes" := yamlBytes]>
                  {["scope" := sa_MessageScope sa]}))))
                (<["matchRequired" := negb scoped]> {["scopedSignature" := scoped]}))
    end.

(** 2. the signature in a [ResourceSignature]. *)
Definition resource_signature (ref : ResourceRef) (reqc : ReqContext) (items : list ResourceSignature) : option GeneralSignature :=
  match List_FindSignItem items (ref_ApiVersion ref) (ref_Kind ref) (ref_Name ref) (ref_Namespace ref) with
  | None => None
  | Some (si, yamlBytes, resSigUID) =>
      let scoped := bool_decide (sitem_Message si = "") && negb (bool_decide (sitem_MessageScope si = "")) in
      let message := if scoped then GenerateMessageFromRawObj (default "" (rc_RawObject reqc)) (sitem_MessageScope si) (sitem_MutableAttrs si)
                     else message_text (sitem_Message si) in
      Some (mkGeneralSignature (sign_type (sitem_Type si))
              (<["signature" := Base64decode (sitem_Signature si)]> (<["message" := message]>
               (<["certificate" := Base64decode (sitem_Certificate si)]> (<["yamlBytes" := yamlBytes]>
                (<["scope" := sitem_MessageScope si]> {["resourceSignatureUID" := resSigUID]})))))
              (<["matchRequired" := negb scoped]> {["scopedSignature" := scoped]}))
  end.

(** 4. a helm release; the error branch prints an error that may be nil. *)
Definition helm_signature (reqc : ReqContext) : go (option GeneralSignature) :=
  rsec ← helm_FindReleaseSecret (rc_Namespace reqc) (rc_Kind reqc) (rc_Name reqc) (default "" (rc_RawObject reqc));
  match rsec with
  | Err _ => Ret None
  | Ok None => Ret None
  | Ok (Some rsecBytes) =>
      hrmSigs ← helm_GetHelmReleaseMetadata rsecBytes;
      match hrmSigs with
      | Ok [rls; hrm] =>
          Ret (Some (mkGeneralSignature SignedResourceTypeHelm
                 (<["releaseSecret" := rls]> {["helmReleaseMetadata" := hrm]})
                 (<["emptyConfig" := true]> {["matchRequired" := true]})))
      | Ok _ => Panic
      | Err _ => Ret None
      end
  end.

(** [GetResourceSignature]; a nil list has no items. *)
Definition GetResourceSignature (self : SignatureEvaluator) (ref : ResourceRef) (reqc : ReqContext)
    (resSigList : option (list ResourceSignature)) : go (option GeneralSignature) :=
  match annotation_signature ref reqc with
  | Some s => Ret (Some s)
  | None =>
      match resource_signature ref reqc (default [] resSigList) with
      | Some s => Ret (Some s)
      | None => if bool_decide ("helm" ∈ sev_plugins self) then helm_signature reqc else Ret None
      end
  end.

(** Whether none of the candidate keys can be loaded. *)
Definition key_loading_error (pgpPubkeys x509Pubkeys : list string) : bool :=
  Nat.ltb 0 (length pgpPubkeys + length x509Pubkeys) &&
  negb (existsb (fun keyPath => Nat.ltb 0 (length (LoadKeyRing keyPath).1)) pgpPubkeys) &&
  negb (existsb (fun certDir => match LoadCertDir certDir with Ok certs => Nat.ltb 0 (length certs) | Err _ => false end) x509Pubkeys).

Definition sig_denied (uid reason : string) (err : option string) : SignatureEvalResult :=
  mkSignatureEvalResult None "" true false "" uid (Some (mkCheckError "" reason err)).

(** The end of [Eval], once a signer is known. *)
Definition check_signer (signerConfig : SignerConfig) (namespace uid : string) (signer : SignerInfo) (verifiedKeyPathList : list string)
  : go SignatureEvalResult :=
  match SignerConfig_Match signerConfig namespace signer verifiedKeyPathList with
  | Panic => Panic
  | Ret (true, matchedSignerConfig) =>
      Ret (mkSignatureEvalResult (Some signer) (SignerInfo_GetName signer) true true
             (match matchedSignerConfig with Some c => json_Marshal_policy c | None => "" end) uid None)
  | Ret (false, _) =>
      let reasonFail := ReasonMessage REASON_NO_MATCH_SIGNER_CONFIG +:+ "; This resource is signed by " +:+
                        GetNameWithFingerprint signer in
      Ret (mkSignatureEvalResult (Some signer) (SignerInfo_GetName signer) true false "" uid
             (Some (mkCheckError "" reasonFail None)))
  end.

(** The reference the signature is looked up with: the first kustomize pattern
    that matches rewrites it. *)
Definition eval_ref (reqc : ReqContext) (signingProfile : ResourceSigningProfile) : ResourceRef :=
  match RSP_Kustomize signingProfile (ReqMap reqc) with
  | [] => ResourceRefOf reqc
  | p :: _ => Override p (ResourceRefOf reqc)
  end.

(** Dry runs of namespaced resources use the namespace of the shield. *)
Definition dry_run_namespace (self : SignatureEvaluator) (reqc : ReqContext) : string :=
  if bool_decide (rc_ResourceScope reqc = ScopeNamespaced) then cfg_Namespace (sev_config self) else "".

(** [ConcreteSignatureEvaluator.Eval] *)
Definition Signature_Eval (self : SignatureEvaluator) (reqc : ReqContext) (resSigList : option (list ResourceSignature))
    (signingProfile : ResourceSigningProfile) : go SignatureEvalResult :=
  found ← GetResourceSignature self (eval_ref reqc signingProfile) reqc resSigList;
  match found with
  | None => Ret (sig_denied "" (ReasonMessage REASON_NO_SIG) None)
  | Some rsig =>
      let rsigUID := map_str (gs_data rsig) "resourceSignatureUID" in
      match sev_signerConfig self with
      | None => Panic
      | Some signerConfig =>
          let '(pgpPubkeys, x509Pubkeys) := GetCandidatePubkeys signerConfig (cfg_KeyPathList (sev_config self)) (rc_Namespace reqc) in
          let keyLoadingError := key_loading_error pgpPubkeys x509Pubkeys in
          v ← Verifier_Verify (dry_run_namespace self reqc) pgpPubkeys x509Pubkeys (cfg_KeyPathList (sev_config self)) rsig reqc signingProfile;
          let '(sigVerifyResult, verifiedKeyPathList, err) := v : verify_result in
          match err with
          | Some e =>
              match svr_Error sigVerifyResult with
              | None => Panic
              | Some ce => Ret (sig_denied rsigUID ("Error during signature verification; " +:+ ce_Reason ce +:+ "; " +:+ e) (Some e))
              end
          | None =>
              if keyLoadingError then Ret (sig_denied rsigUID (ReasonMessage REASON_NO_VALID_KEYRING) None)
              else match svr_Signer sigVerifyResult with
                   | None =>
                       let reasonFail := ReasonMessage REASON_INVALID_SIG in
                       let reasonFail := match svr_Error sigVerifyResult with
                                         | Some ce => reasonFail +:+ "; " +:+ ce_Reason ce
                                         | None => reasonFail
                                         end in
                       Ret (sig_denied rsigUID reasonFail None)
                   | Some signer => check_signer signerConfig (rc_Namespace reqc) rsigUID signer verifiedKeyPathList
                   end
          end
      end
  end.

(** [findAttrsPattern] *)
Definition findAttrsPattern (reqc : ReqContext) (attrs : list AttrsPattern) : list string :=
  attr ← attrs; if Attrs_MatchWith attr (ReqMap reqc) then ap_Attrs attr else [].
End sign.

(** ** Facts *)

Section sign_facts.
Context `{DiffLibOk, FloatFmt, YamlLib, !ManifestLib, !ManifestLibOk, JsonLib, KubeUtil, PgpLib, X509Lib, HelmPlugin, K8sApi, PolicyJson}.
#[local] Set Default Proof Using "Type*".

Lemma sign_type_resource t : sign_type t <> SignedResourceTypeHelm.
Proof. unfold sign_type. by repeat case_bool_decide. Qed.

Lemma annotation_signature_Some ref reqc s :
  annotation_signature ref reqc = Some s ->
  gs_SignType s <> SignedResourceTypeHelm /\ gs_flag s "matchRequired" = true /\ gs_flag s "scopedSignature" = false.
Proof.
  unfold annotation_signature. set (sa := SignatureAnnotations _). case_bool_decide; [done|].
  destruct (FindSingleYaml _ _ _ _ _) as [y|] eqn:Ef; [|done]. intros [= <-]. split; [apply sign_type_resource|].
  case_bool_decide as Hm; [|done]. exfalso.
  by rewrite (empty_message_not_found (sa_Message sa)) in Ef.
Qed.

Lemma List_FindSignItem_Some items a k n ns si y uid :
  List_FindSignItem items a k n ns = Some (si, y, uid) -> FindSingleYaml (sitem_Message si) a k n ns = Some y.
Proof.
  induction items as [|ss items IH]; cbn; [done|].
  destruct (FindSignItem (rsig_Data ss) a k n ns) as [[si' y']|] eqn:E; [|done].
  intros [= -> -> <-]. by apply FindSignItem_Some in E as [_ ?].
Qed.

Lemma resource_signature_Some ref reqc items s :
  resource_signature ref reqc items = Some s ->
  gs_SignType s <> SignedResourceTypeHelm /\ gs_flag s "matchRequired" = true /\ gs_flag s "scopedSignature" = false.
Proof.
  unfold resource_signature. destruct (List_FindSignItem _ _ _ _ _) as [[[si y] uid]|] eqn:Ef; [|done].
  intros [= <-]. split; [apply sign_type_resource|].
  case_bool_decide as Hm; [|done]. exfalso. apply List_FindSignItem_Some in Ef.
  by rewrite Hm, empty_message_not_found in Ef.
Qed.

Lemma GetResourceSignature_Some self ref reqc rs s :
  GetResourceSignature self ref reqc rs = Ret (Some s) ->
  gs_flag s "matchRequired" = true /\ gs_flag s "scopedSignature" = false.
Proof.
  unfold GetResourceSignature. destruct (annotation_signature ref reqc) as [s1|] eqn:E1.
  { intros [= <-]. by apply annotation_signature_Some in E1 as (_ & ?). }
  destruct (resource_signature ref reqc _) as [s2|] eqn:E2.
  { intros [= <-]. by apply resource_signature_Some in E2 as (_ & ?). }
  case_bool_decide; [|done]. unfold helm_signature.
  destruct (helm_FindReleaseSecret _ _ _ _) as [[[b|]|]|]; cbn [mbind go_bind]; [|done|done|done].
  destruct (helm_GetHelmReleaseMetadata b) as [[[|x [|y [|z l]]]|]|]; cbn [mbind go_bind]; try done. by intros [= <-].
Qed.

(** No signature is ever used with a message scope: a document must be found
    in the signed message first, so a signature without message is never found,
    and every signature found has its message compared with the object. *)
Theorem scoped_signature_unreachable self ref reqc rs s :
  GetResourceSignature self ref reqc rs = Ret (Some s) ->
  gs_flag s "matchRequired" = true /\ gs_flag s "scopedSignature" = false.
Proof. apply GetResourceSignature_Some. Qed.

Lemma check_signer_allow sc ns uid signer keys r :
  check_signer sc ns uid signer keys = Ret r -> ser_Allow r = true ->
  ser_Signer r = Some signer /\
  exists spc, spc ∈ sgc_Policies sc /\ policy_in_scope ns spc = true /\ signer_ok sc signer keys spc.
Proof.
  unfold check_signer. destruct (SignerConfig_Match sc ns signer keys) as [[[] o]|] eqn:Em; [| |done].
  - intros [= <-] _. split; [done|]. apply policies_loop_true in Em as [Ht _].
    destruct (Ht eq_refl) as (spc & -> & Hin & Hs & Hm). exists spc. repeat split; auto.
    by apply policy_signer_matched_true.
  - by intros [= <-].
Qed.

Lemma signer_ok_key sc signer keys spc : signer_ok sc signer keys spc -> exists k, k ∈ keys.
Proof. intros (? & ? & ? & _ & _ & _ & _ & k & Hk & _). eauto. Qed.

Lemma HelmVerifier_no_keys keys sig r ks e : HelmVerifier_Verify keys sig = Ret (r, ks, e) -> ks = [].
Proof.
  unfold HelmVerifier_Verify. intros (matched & _ & Hq)%go_bind_Ret. revert Hq. destruct matched; cbn [negb]; [|by intros [= <- <- <-]].
  destruct (helm_Unmarshal_metadata _) as [[[c p]|]|]; [|done|by intros [= <- <- <-]].
  intros ([[[ok sg] rf] e'] & _ & Hq)%go_bind_Ret. revert Hq. destruct e' as [e'|], ok, sg as [sg|]; try done; by intros [= <- <- <-].
Qed.

Lemma ResourceVerifier_Verify_keys self sig reqc prof r ks e k :
  ResourceVerifier_Verify self sig reqc prof = Ret (r, ks, e) -> k ∈ ks -> gs_flag sig "matchRequired" = true ->
  key_ok self sig k /\
  message_describes (default (map_str (gs_data sig) "message") (gs_data sig !! "yamlBytes")) (default "" (rc_RawObject reqc))
    (rv_dryRunNamespace self) (RSP_ProtectAttrs prof (ReqMap reqc)) (RSP_IgnoreAttrs prof (ReqMap reqc)).
Proof.
  unfold ResourceVerifier_Verify. intros Hv Hk Hm. rewrite Hm in Hv.
  destruct (MatchMessage _ _ _ _ _ _ _ _ _ _) as [[matched d]|] eqn:Em; cbn in Hv; [|done].
  destruct matched; cbn in Hv; [|injection Hv as <- <- <-; by apply elem_of_nil in Hk].
  destruct (scope_denied _ _ _); [injection Hv as <- <- <-; by apply elem_of_nil in Hk|].
  split; [by eapply verify_keys_sound|]. by apply MatchMessage_true in Em.
Qed.

(** What an accepted signature establishes. *)
Definition accepted (self : SignatureEvaluator) (reqc : ReqContext) (resSigList : option (list ResourceSignature))
    (prof : ResourceSigningProfile) (signer : SignerInfo) : Prop :=
  exists rsig sc keys spc k,
    GetResourceSignature self (eval_ref reqc prof) reqc resSigList = Ret (Some rsig) /\
    sev_signerConfig self = Some sc /\
    (* the policy and the signer *)
    spc ∈ sgc_Policies sc /\ policy_in_scope (rc_Namespace reqc) spc = true /\ signer_ok sc signer keys spc /\
    (* a mounted key of a signer named by a policy in scope verified the message *)
    k ∈ keys /\ k ∈ cfg_KeyPathList (sev_config self) /\
    (exists spc' scond, spc' ∈ sgc_Policies sc /\ policy_in_scope (rc_Namespace reqc) spc' = true /\
       scond ∈ sgc_Signers sc /\ sc_Name scond ∈ scc_Signers spc' /\
       Contains k ("/" +:+ sc_KeyConfig scond +:+ "/") = true) /\
    (pgp_ok (map_str (gs_data rsig) "message") (map_str (gs_data rsig) "signature") k \/
     exists c, gs_data rsig !! "certificate" = Some c /\
       x509_ok (map_str (gs_data rsig) "message") (map_str (gs_data rsig) "signature") c k) /\
    (* the signed document describes the requested object *)
    message_describes (default (map_str (gs_data rsig) "message") (gs_data rsig !! "yamlBytes"))
        (default "" (rc_RawObject reqc)) (dry_run_namespace self reqc)
        (RSP_ProtectAttrs prof (ReqMap reqc)) (RSP_IgnoreAttrs prof (ReqMap reqc)).

Lemma Signature_Eval_accepted self reqc rs prof r :
  Signature_Eval self reqc rs prof = Ret r -> ser_Allow r = true ->
  exists signer, ser_Signer r = Some signer /\ accepted self reqc rs prof signer.
Proof.
  unfold Signature_Eval. destruct (GetResourceSignature self _ reqc rs) as [[rsig|]|] eqn:Eg; cbn [mbind go_bind];
    [|by intros [= <-]|done].
  pose proof (GetResourceSignature_Some _ _ _ _ _ Eg) as [Hmr _].
  destruct (sev_signerConfig self) as [sc|] eqn:Es; [|done].
  pose proof (GetCandidatePubkeys_elem sc (cfg_KeyPathList (sev_config self)) (rc_Namespace reqc)) as Hcand.
  destruct (GetCandidatePubkeys sc _ _) as [pgps x509s]. cbn [fst snd] in Hcand.
  destruct (Verifier_Verify _ _ _ _ _ _ _) as [[[v ks] err]|] eqn:Ev; cbn [mbind go_bind]; [|done].
  destruct err as [e|]; [destruct (svr_Error v); [by intros [= <-]|done]|].
  destruct (key_loading_error _ _); [by intros [= <-]|].
  destruct (svr_Signer v) as [signer|]; [|by intros [= <-]].
  intros Hc Ha. apply check_signer_allow in Hc as (Hsg & spc & Hin & Hsc & Hok); [|done].
  exists signer. split; [done|]. destruct (signer_ok_key _ _ _ _ Hok) as [k Hk].
  assert (gs_SignType rsig <> SignedResourceTypeHelm) as Hnh.
  { intros Hh. unfold Verifier_Verify in Ev. rewrite Hh in Ev. apply HelmVerifier_no_keys in Ev. subst.
    by apply elem_of_nil in Hk. }
  assert (ResourceVerifier_Verify (mkResourceVerifier pgps x509s (cfg_KeyPathList (sev_config self)) (dry_run_namespace self reqc))
            rsig reqc prof = Ret (v, ks, None)) as Hv.
  { unfold Verifier_Verify in Ev. by destruct (gs_SignType rsig). }
  destruct (ResourceVerifier_Verify_keys _ _ _ _ _ _ _ k Hv Hk Hmr) as [Hko Hmd].
  assert (k ∈ pgps \/ k ∈ x509s) as Hkc by (destruct Hko as [[? _]|[? _]]; auto).
  destruct (Hcand k Hkc) as [Hmount (spc' & scond & Hpol)].
  exists rsig, sc, ks, spc, k.
  refine (conj Eg (conj Es (conj Hin (conj Hsc (conj Hok (conj Hk (conj Hmount (conj _ (conj _ _)))))))));
    [by exists spc', scond|destruct Hko as [[_ ?]|[_ ?]]; auto|done].
Qed.


(** C40: a helm release is never accepted: its verifier reports no verified key,
    and every signer condition asks for one. *)
Theorem helm_never_accepted self reqc rs prof r rsig :
  GetResourceSignature self (eval_ref reqc prof) reqc rs = Ret (Some rsig) ->
  gs_SignType rsig = SignedResourceTypeHelm ->
  Signature_Eval self reqc rs prof = Ret r -> ser_Allow r = false.
Proof.
  intros Hg Ht He. destruct (ser_Allow r) eqn:Ha; [|done]. exfalso. revert He.
  unfold Signature_Eval. rewrite Hg. cbn [mbind go_bind].
  destruct (sev_signerConfig self) as [sc|]; [|done]. destruct (GetCandidatePubkeys sc _ _) as [pgps x509s].
  unfold Verifier_Verify. rewrite Ht.
  destruct (HelmVerifier_Verify pgps rsig) as [[[v ks] err]|] eqn:Ev; cbn [mbind go_bind]; [|done].
  apply HelmVerifier_no_keys in Ev. subst ks.
  destruct err as [e|]; [destruct (svr_Error v); [by intros [= <-]|done]|].
  destruct (key_loading_error _ _); [by intros [= <-]|].
  destruct (svr_Signer v) as [signer|]; [|by intros [= <-]].
  intros Hc. apply check_signer_allow in Hc as (_ & spc & _ & _ & Hok); [|done].
  apply signer_ok_key in Hok as [k Hk]. by apply elem_of_nil in Hk.
Qed.
End sign_facts.

(** ** Concrete instances *)

(** A printer for the documents of the samples (numbers are not used in them). *)
Fixpoint json_print (v : value) : string :=
  match v with
  | VNull => "null"
  | VScalar (SBool b) => if b then "true" else "false"
  | VScalar (SNum _) => "0"
  | VScalar (SStr s) => marshal_str s
  | VArr l => "[" +:+ Join (map json_print l) "," +:+ "]"
  | VObj m => "{" +:+ Join (map (fun kv => marshal_str kv.1 +:+ ":" +:+ json_print kv.2) m) "," +:+ "}"
  end.

(** JSON documents are YAML documents. *)
Definition sample_yaml : YamlLib := {| yaml_UnmarshalMap := UnmarshalMap; yaml_Marshal := json_print |}.
Definition sample_manifest : ManifestLib := {|
  gunzip _ := None;
  yaml_documents s := match Unmarshal s with Some v => [v] | None => [] end;
  yamlv2_Marshal v := Some (json_print v);
  json_Marshal_node _ := None |}.
Definition sample_json : JsonLib := {| json_Marshal_value := json_print |}.
Definition sample_policy_json : PolicyJson := {| json_Marshal_policy c := scc_Scope c |}.

(** An API server that stores what it is given. *)
Definition sample_kube : KubeUtil := {|
  DryRunCreate y _ := Ok y; GetApplyPatchBytes y _ := Ok y; StrategicMergePatch _ y := Ok y |}.

(** One key ring, whose holder signs a text by prefixing it. *)
Definition alice_entity : Entity := mkEntity [mkUserId "alice@example.com" "Alice" ""] (Some "0A").
Definition sample_pgp : PgpLib := {|
  read_keyring path := if bool_decide (path = "/keyring-a/pgp/pubring.gpg") then ([alice_entity], None)
                       else ([], Some "no such file");
  CheckArmoredDetachedSignature ring msg sig := if bool_decide (sig = "sig:" +:+ msg) then head ring else None |}.

(** A file system without certificates. *)
Definition sample_x509 : X509Lib := {|
  pem_Decode _ := None;
  x509_ParseCertificate _ := Err "asn1: syntax error";
  x509_MarshalPKIXPublicKey _ := Err "";
  x509_ParsePKIXPublicKey _ := Err "";
  cert_Verify _ _ := Some "unknown authority";
  rsa_VerifyPKCS1v15 _ _ _ := Some "verification error";
  ReadDir _ := Err "no such directory";
  ReadFile _ := Err "no such file" |}.

(** A helm plug-in with one release, whose chart verifies. *)
Definition sample_helm : HelmPlugin := {|
  helm_FindReleaseSecret _ kind _ _ := Ret (if bool_decide (kind = "Secret") then Ok (Some "release") else Ok None);
  helm_GetHelmReleaseMetadata _ := Ret (Ok ["release"; "metadata"]);
  helm_MatchReleaseSecret _ _ := Ret true;
  helm_Unmarshal_metadata _ := Ok (Some ("chart", "prov"));
  helm_VerifyChartAndProv _ _ _ := Ret (true, Some (mkSigner "alice@example.com" "Alice" ""), "", None) |}.

Definition sample_shield_config : ShieldConfig :=
  mkShieldConfig None None None [] [] EnforceMode [mkPluginConfig "helm" true] None "ishield" "ishield" "ishield" alice_keys
    "" "" "" None "" "" "" "" [].
Definition sample_evaluator : SignatureEvaluator :=
  mkSignatureEvaluator sample_shield_config (Some sample_config) {["helm"]}.

(** The config map of the samples with the signature of its document. *)
Definition signed_annotations : gmap string string :=
  <[SignatureAnnotationKey := "c2lnOnsiYXBpVmVyc2lvbiI6InYxIiwia2luZCI6IkNvbmZpZ01hcCIsIm1ldGFkYXRhIjp7Im5hbWUiOiJjbSJ9LCJkYXRhIjp7ImtleSI6InZhbCJ9fQ=="]>
  {[MessageAnnotationKey := "eyJhcGlWZXJzaW9uIjoidjEiLCJraW5kIjoiQ29uZmlnTWFwIiwibWV0YWRhdGEiOnsibmFtZSI6ImNtIn0sImRhdGEiOnsia2V5IjoidmFsIn19"]}.
Definition signed_json (val : string) : string :=
  let q := quote in
  "{" +:+ q "apiVersion" +:+ ":" +:+ q "v1" +:+ "," +:+ q "kind" +:+ ":" +:+ q "ConfigMap" +:+ "," +:+ q "metadata" +:+ ":{" +:+
  q "name" +:+ ":" +:+ q "cm" +:+ "," +:+ q "uid" +:+ ":" +:+ q "7" +:+ "}," +:+ q "data" +:+ ":{" +:+ q "key" +:+ ":" +:+ q val +:+ "}}".
Definition signed_request (val : string) : ReqContext :=
  mkReqContext "Namespaced" false (Some (signed_json val)) None "" "uid" "secure-ns" "cm" "" "v1" "ConfigMap"
    "CREATE" sample_meta (mkObjectMetadata (mkResourceAnnotation signed_annotations) (mkResourceLabel ∅)) "" "" "" "bob" [] "" "" "".
Definition helm_request : ReqContext :=
  mkReqContext "Namespaced" false (Some "{}") None "" "uid" "secure-ns" "sh.helm.release.v1.web.v1" "" "v1" "Secret"
    "CREATE" sample_meta sample_meta "" "" "" "bob" [] "" "" "".

Section samples.
#[local] Existing Instances sample_diff sample_float sample_yaml sample_manifest sample_json sample_kube sample_pgp sample_x509
  sample_helm sample_k8s sample_policy_json.

Lemma sample_manifest_ok : ManifestLibOk.
Proof. reflexivity. Qed.
#[local] Existing Instances sample_diff_ok sample_manifest_ok.

(** The signed object is accepted, a changed one is not. *)
Example Signature_Eval_samples :
  ser_Allow <$> Signature_Eval sample_evaluator (signed_request "val") None emptyRSP = Ret true /\
  ser_Allow <$> Signature_Eval sample_evaluator (signed_request "other") None emptyRSP = Ret false.
Proof. split; vm_compute; reflexivity. Qed.

(** The outcome of a computation that returns. *)
Definition outcome (m : go SignatureEvalResult) : SignatureEvalResult :=
  match m with Ret r => r | Panic => sig_denied "" "" None end.


Definition signed_rsig : option GeneralSignature :=
  annotation_signature (ResourceRefOf (signed_request "val")) (signed_request "val").

Lemma scoped_signature_unreachable_witness :
  exists s, GetResourceSignature sample_evaluator (ResourceRefOf (signed_request "val")) (signed_request "val") None = Ret (Some s) /\
    gs_flag s "matchRequired" = true /\ gs_flag s "scopedSignature" = false.
Proof.
  destruct signed_rsig as [s|] eqn:E; [|vm_compute in E; discriminate]. exists s.
  assert (GetResourceSignature sample_evaluator (ResourceRefOf (signed_request "val")) (signed_request "val") None = Ret (Some s)) as Hg.
  { unfold GetResourceSignature. unfold signed_rsig in E. rewrite E. reflexivity. }
  split; [exact Hg|].
  exact (scoped_signature_unreachable sample_evaluator (ResourceRefOf (signed_request "val")) (signed_request "val") None s Hg).
Defined.

Lemma helm_never_accepted_witness :
  ser_Allow (outcome (Signature_Eval sample_evaluator helm_request None emptyRSP)) = false.
Proof.
  refine (helm_never_accepted sample_evaluator helm_request None emptyRSP
    (outcome (Signature_Eval sample_evaluator helm_request None emptyRSP))
    (mkGeneralSignature SignedResourceTypeHelm (<["releaseSecret" := "release"]> {["helmReleaseMetadata" := "metadata"]})
       (<["emptyConfig" := true]> {["matchRequired" := true]})) _ _ _); vm_compute; reflexivity.
Defined.

(** A second certificate authority, which does not know the certificate. *)
Definition two_ca_x509 : X509Lib := {|
  pem_Decode s := Some s;
  x509_ParseCertificate s := if bool_decide (s = "") then Err "empty"
    else Ok (mkCertificate s (mkPkixName [] [] [] [] [] [] [] "carol") 7 "carol" "ca-1");
  x509_MarshalPKIXPublicKey _ := Ok "pub";
  x509_ParsePKIXPublicKey _ := Ok (RSAKey "pub");
  cert_Verify _ roots := match roots with [] => Some "unknown authority" | _ => None end;
  rsa_VerifyPKCS1v15 _ _ _ := None;
  ReadDir d := if bool_decide (d = "/ca-1/x509") then Ok [("ca.crt", false)] else Ok [];
  ReadFile _ := Ok "ca" |}.

Lemma x509_last_candidate_decides_witness :
  match @x509_loop two_ca_x509 "annotation" "m" "s" "cert" ["/ca-1/x509"] (mkVstate None None []) with
  | Ret (VNext st) => vs_info st <> None | _ => False end /\
  match @x509_loop two_ca_x509 "annotation" "m" "s" "cert" (["/ca-1/x509"] ++ ["/ca-2/x509"]) (mkVstate None None []) with
  | Ret (VNext st) => vs_info st = None | _ => False end.
Proof.
  split; [vm_compute; discriminate|].
  destruct (@x509_loop two_ca_x509 "annotation" "m" "s" "cert" (["/ca-1/x509"] ++ ["/ca-2/x509"]) (mkVstate None None []))
    as [[r|st]|] eqn:E; [vm_compute in E; discriminate| |vm_compute in E; discriminate].
  refine (@x509_last_candidate_decides two_ca_x509 "annotation" "m" "s" "cert" ["/ca-1/x509"] "/ca-2/x509"
            (mkVstate None None []) st "failed to verify certificate: unknown authority" _ E).
  vm_compute; reflexivity.
Defined.

(** Only the name differs, as the pattern allows. *)
Lemma allowed_differences_have_no_effect_witness :
  let org := "{" +:+ quote "kind" +:+ ":" +:+ quote "Secret" +:+ "," +:+ quote "metadata" +:+ ":{" +:+ quote "name" +:+ ":" +:+ quote "cm" +:+ "}}" in
  let req := "{" +:+ quote "kind" +:+ ":" +:+ quote "Secret" +:+ "," +:+ quote "metadata" +:+ ":{" +:+ quote "name" +:+ ":" +:+ quote "dev-cm" +:+ "}}" in
  let allowed := [mkDifference "metadata.name" (Some (SStr "cm")) (Some (SStr "dev-cm"))] in
  matchContents org req [] [] allowed false = (false, "", []) /\
  (matchContents org req [] [] allowed false).1.1 = (matchContents org req [] [] [] false).1.1.
Proof.
  intros org req allowed. split; [vm_compute; reflexivity|].
  exact (allowed_differences_have_no_effect org req [] [] allowed false).
Defined.

(** Alice's PGP signature, with an X.509 key configuration in the same scope. *)
Lemma pgp_signature_needs_certificate_witness :
  let sig := mkGeneralSignature SignedResourceTypeResource
               (<["message" := "m"]> (<["signature" := "sig:m"]> {["certificate" := ""]})) ∅ in
  let v := mkResourceVerifier alice_keys ["/ca-1/x509"] alice_keys "" in
  pgp_ok "m" "sig:m" "/keyring-a/pgp/pubring.gpg" /\
  exists r err, verify_keys v "annotation" sig = Ret (r, [], Some err) /\ svr_Signer r = None.
Proof.
  intros sig v. split.
  - exists "", (mkSigner "alice@example.com" "Alice" ""), (Some "0A"). vm_compute; reflexivity.
  - apply (pgp_signature_needs_certificate v "annotation" sig "" "asn1: syntax error" "/ca-1/x509" []
             (mkVstate None (Some (pgpSignerInfo "alice@example.com" "Alice" "" (Some "0A"))) alice_keys));
      vm_compute; reflexivity.
Defined.
End samples.
