(* ===== verification/World.v ===== *)
(** * The process and the cluster around it

    The state a request handler shares with the others (the cache) or changes
    (events, profile statuses, logs), and the answers of the API server.  Every
    call to the API server or to the clock happens at a time of its own. *)
From S2P Require Import Prelude GoStrings Common ReqContext Profile SigningProfile Policy Cache ResourceSignature Signing.
From stdpp Require Import options.

(** [sigconfapi.SignerConfig]: a nil [Spec.Config] is [None]. *)
Record SignerConfigRes := mkSignerConfigRes { scr_meta : ObjectMeta; scr_Config : option SignerConfig }.
Definition emptySignerConfigRes : SignerConfigRes := mkSignerConfigRes emptyMeta None.

(** [v1.ObjectReference] and the fields of [v1.Event] that the shield writes. *)
Record ObjectReference := mkObjectReference {
  or_Namespace : string; or_APIVersion : string; or_Kind : string; or_Name : string }.

Record Event := mkEvent {
  evt_Name : string;
  evt_Annotations : list (string * string);
  evt_InvolvedObject : ObjectReference;
  evt_Type : string;
  evt_Source : string;
  evt_ReportingController : string;
  evt_ReportingInstance : string;
  evt_Action : string;
  evt_FirstTimestamp : Z;
  evt_Message : string;
  evt_Reason : string;
  evt_Count : nat;
  evt_EventTime : Z;
  evt_LastTimestamp : Z;
}.

(** A value of a context log record. *)
Inductive logval := LStr (s : string) | LBool (b : bool) | LBytes (s : option string).

(** What a handler does to the outside. *)
Inductive effect :=
| CreateEvent (namespace : string) (e : Event)
| UpdateEvent (namespace : string) (e : Event)
| UpdateRSP (namespace name : string) (rsp : ResourceSigningProfile)
| SendContextLog (record : list (string * logval)).

Record World := mkWorld {
  w_cache : gmap string CachedObject;
  w_now : Z;
  w_effects : list effect;
}.

(** The API server: what it answers at a time, [None] or [Err] for a failed
    call.  [tick] is the next reading of the clock; [kube_config] is the outcome
    of reading the client configuration and making a client from it. *)
Class Cluster := {
  tick : Z -> Z;
  list_RSP : Z -> option (list ResourceSigningProfile);
  list_Namespaces : Z -> option (list Namespace);
  list_SignerConfigs : Z -> string -> option (list SignerConfigRes);
  list_ResourceSignatures : Z -> string -> string -> option (list ResourceSignature);
  kube_config : res unit;
  get_Event : Z -> string -> string -> option Event;
  put_Event : Z -> string -> Event -> res unit;
  get_RSP : Z -> string -> string -> res ResourceSigningProfile;
  put_RSP : Z -> string -> ResourceSigningProfile -> res unit
}.

(** The clock does not run backwards. *)
Class ClusterOk `{Cluster} : Prop := tick_mono : forall t, (t <= tick t)%Z.

(** [time.Time.Format] by layout, in local time and in UTC. *)
Class TimeFmt := { Format : string -> Z -> string; UTC_Format : string -> Z -> string }.

(** [encoding/json] of a typed list. *)
Class ListCodec (A : Type) := { encode_list : list A -> string; decode_list : string -> option (list A) }.

(** Decoding the encoding of a list the API server gave yields that list. *)
Class CodecFor {A : Type} `{ListCodec A} (api : Z -> option (list A)) : Prop :=
  decode_encode : forall t l, api t = Some l -> decode_list (encode_list l) = Some l.

(** ** Computations *)

(** A computation on the world that may panic. *)
Definition M (A : Type) : Type := World -> go (A * World).

#[global] Instance M_ret : MRet M := fun A a w => Ret (a, w).
#[global] Instance M_bind : MBind M := fun A B f m w =>
  match m w with Ret (a, w') => f a w' | Panic => Panic end.

Definition panic {A} : M A := fun _ => Panic.
Definition lift {A} (m : go A) : M A := fun w => match m with Ret a => Ret (a, w) | Panic => Panic end.

Definition gets {A} (f : World -> A) : M A := fun w => Ret (f w, w).
Definition set_cache (f : gmap string CachedObject -> gmap string CachedObject) : M unit := fun w =>
  Ret (tt, mkWorld (f (w_cache w)) (w_now w) (w_effects w)).

Definition emit (e : effect) : M unit := fun w =>
  Ret (tt, mkWorld (w_cache w) (w_now w) (w_effects w ++ [e])).

Section clock.
Context `{Cluster}.

(** [time.Now()], and a call to the API server at the time it reaches it. *)
Definition now : M Z := fun w => let t := tick (w_now w) in Ret (t, mkWorld (w_cache w) t (w_effects w)).
Definition call {A} (api : Z -> A) : M A := t ← now; mret (api t).

(** The package functions of the cache. *)
Definition cache_GetString (name : string) : M string :=
  t ← now; gets (fun w => Cache.GetString (w_cache w) name t).

Definition cache_SetString (name object : string) (ttl : Z) : M unit :=
  t1 ← now; t2 ← now;
  set_cache (fun c => Cache.SetString c name object (Some ttl) (fun _ => t1) t2).

Definition cache_Unset (name : string) : M unit := set_cache (fun c => Cache.Unset c name).
End clock.

(** ** Facts *)

Lemma M_bind_Ret {A B} (m : M A) (f : A -> M B) w r :
  (m ≫= f) w = Ret r <-> exists a w', m w = Ret (a, w') /\ f a w' = Ret r.
Proof. unfold mbind, M_bind. destruct (m w) as [[a w']|]; naive_solver. Qed.
