(* ===== verification/Loader.v ===== *)
(** * Loading the run-time data  ([rspLoader.go], [namespaceLoader.go],
      [sigConfLoader.go], [resSigLoader.go], [loader.go], [runData.go])

    Profiles, namespaces, signer configurations and signatures are listed from
    the API server and kept in the process-wide cache for a fixed time. *)
From S2P Require Import Prelude GoStrings Pattern Common ReqContext Profile SigningProfile Policy ShieldConfig Cache.
From S2P Require Import GoJson MapNode ResourceSignature RuleTable World.
From Stdlib Require Import Sorting.Sorted.
From stdpp Require Import options.

Definition second : Z := 1000000000.

Section loaders.
Context `{Cluster, K8sApi, !ListCodec ResourceSigningProfile, !ListCodec Namespace, !ListCodec SignerConfigRes,
          !ListCodec ResourceSignature}.

(** The block every [Load] starts with: the cached list, else the API server's
    answer, which is cached when it has items.  [None] is the early return on an
    error; otherwise the list, if there is one, and whether it was reloaded. *)
Definition load_list {A} `{ListCodec A} (keyName : string) (ttl : Z) (list_api : Z -> option (list A))
    (doK8sApiCall : bool) : M (option (option (list A) * bool)) :=
  cached ← cache_GetString keyName;
  if bool_decide (cached = "") && doK8sApiCall then
    r ← call list_api;
    match r with
    | None => mret None
    | Some list1 =>
        _ ← (if Nat.ltb 0 (length list1) then cache_SetString keyName (encode_list list1) ttl else mret tt);
        mret (Some (Some list1, true))
    end
  else if negb (bool_decide (cached = "")) then
    match decode_list cached with
    | None => mret None
    | Some list1 => mret (Some (Some list1, false))
    end
  else mret (Some (None, false)).

(** ** Profiles *)

Definition rsp_key : string := "RSPLoader/list".
Definition rsp_interval : Z := second * 60.

(** [RSPLoader.Load]: the new [Data], and whether it was reloaded. *)
Definition RSPLoader_Load (data : list ResourceSigningProfile) (doK8sApiCall : bool)
  : M (list ResourceSigningProfile * bool) :=
  r ← load_list rsp_key rsp_interval list_RSP doK8sApiCall;
  match r with
  | None => mret (data, false)
  | Some (list1, reloaded) => mret (default [] list1, reloaded)
  end.

Definition RSPLoader_GetData (data : list ResourceSigningProfile) (doK8sApiCall : bool)
  : M (list ResourceSigningProfile * bool) :=
  if Nat.eqb (length data) 0 then RSPLoader_Load data doK8sApiCall else mret (data, false).

Definition RSPLoader_ClearCache : M unit := cache_Unset rsp_key.

(** ** Namespaces *)

Definition ns_key : string := "NamespaceLoader/list".
Definition ns_interval : Z := second * 30.

Definition NamespaceLoader_Load (data : list Namespace) (doK8sApiCall : bool) : M (list Namespace * bool) :=
  r ← load_list ns_key ns_interval list_Namespaces doK8sApiCall;
  match r with
  | None => mret (data, false)
  | Some (list1, reloaded) => mret (default [] list1, reloaded)
  end.

Definition NamespaceLoader_GetData (data : list Namespace) (doK8sApiCall : bool) : M (list Namespace * bool) :=
  if Nat.eqb (length data) 0 then NamespaceLoader_Load data doK8sApiCall else mret (data, false).

Definition NamespaceLoader_ClearCache : M unit := cache_Unset ns_key.

(** ** Signer configuration *)

Definition sc_key (shieldNamespace : string) : string := "SignerConfigLoader/" +:+ shieldNamespace +:+ "/list".
Definition sc_interval : Z := second * 10.

(** [SignerConfigLoader.Load]: the first item, or the zero value without one. *)
Definition SignerConfigLoader_Load (shieldNamespace : string) (data : option SignerConfigRes) (doK8sApiCall : bool)
  : M (option SignerConfigRes) :=
  r ← load_list (sc_key shieldNamespace) sc_interval (fun t => list_SignerConfigs t shieldNamespace) doK8sApiCall;
  match r with
  | None => mret data
  | Some (list1, _) => mret (Some (default emptySignerConfigRes (head (default [] list1))))
  end.

Definition SignerConfigLoader_GetData (shieldNamespace : string) (data : option SignerConfigRes) (doK8sApiCall : bool)
  : M (option SignerConfigRes) :=
  match data with
  | None => SignerConfigLoader_Load shieldNamespace data doK8sApiCall
  | Some _ => mret data
  end.

(** ** Resource signatures *)

Definition rsig_time (r : ResourceSignature) : Z :=
  match om_Labels (rsig_meta r) !! ResSigLabelTime with
  | Some ts => Atoi_value ts
  | None => 0
  end.

(** [sortByTimestamp]: newest first.  [sort.Slice] leaves the order of equal
    timestamps open; the model keeps the given one. *)
Fixpoint insert_by_time (r : ResourceSignature) (l : list ResourceSignature) : list ResourceSignature :=
  match l with
  | [] => [r]
  | r' :: l' => if Z.ltb (rsig_time r) (rsig_time r') then r' :: insert_by_time r l' else r :: l
  end.
Definition sortByTimestamp (items : list ResourceSignature) : list ResourceSignature := foldr insert_by_time [] items.

Definition rs_selector (reqc : ReqContext) : string :=
  ResSigLabelApiVer +:+ "=" +:+ ReplaceAll (GroupVersion reqc) "/" "_" +:+ "," +:+ ResSigLabelKind +:+ "=" +:+ rc_Kind reqc.
Definition rs_key (namespace selector : string) : string := "ResSigLoader/" +:+ namespace +:+ "/list/" +:+ selector.
Definition rs_interval : Z := second * 0.

(** The second list: without an API call and without a cached text, the empty
    text is decoded, which is an error. *)
Definition load_list2 {A} `{ListCodec A} (keyName : string) (ttl : Z) (list_api : Z -> option (list A))
    (doK8sApiCall : bool) : M (option (list A)) :=
  cached ← cache_GetString keyName;
  if bool_decide (cached = "") && doK8sApiCall then
    r ← call list_api;
    match r with
    | None => mret None
    | Some list2 =>
        _ ← (if Nat.ltb 0 (length list2) then cache_SetString keyName (encode_list list2) ttl else mret tt);
        mret (Some list2)
    end
  else mret (if bool_decide (cached = "") then None else decode_list cached).

Definition ResSigLoader_Load (signatureNamespace requestNamespace : string) (data : option (list ResourceSignature))
    (reqc : ReqContext) (doK8sApiCall : bool) : M (option (list ResourceSignature)) :=
  let labelSelector := rs_selector reqc in
  r1 ← load_list (rs_key signatureNamespace labelSelector) rs_interval
         (fun t => list_ResourceSignatures t signatureNamespace labelSelector) doK8sApiCall;
  match r1 with
  | None => mret data
  | Some (list1, _) =>
      r2 ← load_list2 (rs_key requestNamespace labelSelector) rs_interval
             (fun t => list_ResourceSignatures t requestNamespace labelSelector) doK8sApiCall;
      match r2 with
      | None => mret data
      | Some list2 => mret (Some (sortByTimestamp (default [] list1 ++ list2)))
      end
  end.

Definition ResSigLoader_GetData (signatureNamespace requestNamespace : string) (data : option (list ResourceSignature))
    (reqc : ReqContext) (doK8sApiCall : bool) : M (option (list ResourceSignature)) :=
  match data with
  | None => ResSigLoader_Load signatureNamespace requestNamespace data reqc doK8sApiCall
  | Some _ => mret data
  end.

(** ** The loader and the run data *)

Record Loader := mkLoader {
  ld_shieldNamespace : string;
  ld_signatureNamespace : string;
  ld_requestNamespace : string;
  ld_RSP : list ResourceSigningProfile;
  ld_Namespace : list Namespace;
  ld_SignerConfig : option SignerConfigRes;
  ld_ResourceSignature : option (list ResourceSignature);
}.

Definition NewLoader (cfg : ShieldConfig) (reqNamespace : string) : Loader :=
  mkLoader (cfg_Namespace cfg) (cfg_SignatureNamespace cfg) reqNamespace [] [] None None.

Record RunData := mkRunData {
  rd_RSPList : list ResourceSigningProfile;
  rd_NSList : list Namespace;
  rd_SignerConfig : option SignerConfigRes;
  rd_ResSigList : option (list ResourceSignature);
  rd_loader : option Loader;
  rd_commonProfile : option CommonProfile;
  rd_ruleTable : option RuleTable;
}.
Definition emptyRunData : RunData := mkRunData [] [] None None None None None.

Definition set_loader (self : RunData) (l : Loader) : RunData :=
  mkRunData (rd_RSPList self) (rd_NSList self) (rd_SignerConfig self) (rd_ResSigList self) (Some l) (rd_commonProfile self)
    (rd_ruleTable self).

Definition GetSignerConfig (self : RunData) : M (option SignerConfigRes * RunData) :=
  match rd_SignerConfig self, rd_loader self with
  | None, Some l =>
      d ← SignerConfigLoader_GetData (ld_shieldNamespace l) (ld_SignerConfig l) true;
      let l := mkLoader (ld_shieldNamespace l) (ld_signatureNamespace l) (ld_requestNamespace l) (ld_RSP l) (ld_Namespace l) d
                 (ld_ResourceSignature l) in
      mret (d, mkRunData (rd_RSPList self) (rd_NSList self) d (rd_ResSigList self) (Some l) (rd_commonProfile self)
                 (rd_ruleTable self))
  | sc, _ => mret (sc, self)
  end.

Definition GetResSigList (self : RunData) (reqc : ReqContext) : M (option (list ResourceSignature) * RunData) :=
  match rd_ResSigList self, rd_loader self with
  | None, Some l =>
      d ← ResSigLoader_GetData (ld_signatureNamespace l) (ld_requestNamespace l) (ld_ResourceSignature l) reqc true;
      let l := mkLoader (ld_shieldNamespace l) (ld_signatureNamespace l) (ld_requestNamespace l) (ld_RSP l) (ld_Namespace l)
                 (ld_SignerConfig l) d in
      mret (d, mkRunData (rd_RSPList self) (rd_NSList self) (rd_SignerConfig self) d (Some l) (rd_commonProfile self)
                 (rd_ruleTable self))
  | rs, _ => mret (rs, self)
  end.

Definition table_useless (rt : RuleTable) : bool := RT_IsEmpty rt || IsTargetEmpty rt.

(** [setRuleTable]: a table without items or targets does not replace the old one. *)
Definition setRuleTable (self : RunData) (shieldNamespace : string) : RunData :=
  let ruleTable := NewRuleTable (rd_RSPList self) (rd_NSList self) (rd_commonProfile self) shieldNamespace in
  if negb (RT_IsEmpty ruleTable) && negb (IsTargetEmpty ruleTable)
  then mkRunData (rd_RSPList self) (rd_NSList self) (rd_SignerConfig self) (rd_ResSigList self) (rd_loader self)
         (rd_commonProfile self) (Some ruleTable)
  else self.

Definition set_lists (self : RunData) (l : Loader) (rsps : list ResourceSigningProfile) (nss : list Namespace) : RunData :=
  mkRunData rsps nss (rd_SignerConfig self) (rd_ResSigList self) (Some l) (rd_commonProfile self) (rd_ruleTable self).

Definition GetRuleTable (self : RunData) (shieldNamespace : string) : M (option RuleTable * RunData) :=
  r ← match rd_loader self with
      | None => mret (self, false, false)
      | Some l =>
          p ← RSPLoader_GetData (ld_RSP l) true;
          let '(tmpRSPList, rspReloaded) := p in
          q ← NamespaceLoader_GetData (ld_Namespace l) true;
          let '(tmpNSList, nsReloaded) := q in
          let l := mkLoader (ld_shieldNamespace l) (ld_signatureNamespace l) (ld_requestNamespace l) tmpRSPList tmpNSList
                     (ld_SignerConfig l) (ld_ResourceSignature l) in
          let rsps := if rspReloaded || Nat.ltb 0 (length tmpRSPList) then tmpRSPList else rd_RSPList self in
          let nss := if nsReloaded || Nat.ltb 0 (length tmpNSList) then tmpNSList else rd_NSList self in
          mret (set_lists self l rsps nss, rspReloaded, nsReloaded)
      end;
  let '(self, rspReloaded, nsReloaded) := r : RunData * bool * bool in
  let stale := match rd_ruleTable self with None => true | Some rt => table_useless rt end in
  let self := if stale || rspReloaded || nsReloaded then setRuleTable self shieldNamespace else self in
  mret (rd_ruleTable self, self).

(** [Init]: from the cache only. *)
Definition RunData_Init (self : RunData) (conf : ShieldConfig) : M RunData :=
  match rd_loader self with
  | None => panic
  | Some l =>
      p ← RSPLoader_GetData (ld_RSP l) false;
      let '(rsps, _) := p : list ResourceSigningProfile * bool in
      q ← NamespaceLoader_GetData (ld_Namespace l) false;
      let '(nss, _) := q : list Namespace * bool in
      let l := mkLoader (ld_shieldNamespace l) (ld_signatureNamespace l) (ld_requestNamespace l) rsps nss
                 (ld_SignerConfig l) (ld_ResourceSignature l) in
      let self := mkRunData rsps nss (rd_SignerConfig self) (rd_ResSigList self) (Some l) (cfg_CommonProfile conf) (rd_ruleTable self) in
      mret (setRuleTable self (cfg_Namespace conf))
  end.

Definition resetRuleTableCache : M unit :=
  _ ← RSPLoader_ClearCache; NamespaceLoader_ClearCache.
End loaders.

(** ** Facts: the cached lists *)

Section freshness.
Context `{ClusterOk}.
#[local] Set Default Proof Using "Type*".

Section one_key.
Context {A : Type} `{ListCodec A} (K : string) (ttl : Z) (api : Z -> option (list A)) `{!CodecFor api}.

(** A cached text is the encoding of an answer of the API server. *)
Definition entry_ok (e : CachedObject) : Prop :=
  exists t l, (t <= co_created e)%Z /\ api t = Some l /\ co_rawObject e = OStr (encode_list l) /\
    co_expired e = (co_created e + ttl)%Z.

Definition key_inv (w : World) : Prop := forall e, w_cache w !! K = Some e -> entry_ok e.

(** An answer that was stored, or given, no longer than [ttl] before [w0]. *)
Definition fresh (w0 : Z) (l : list A) : Prop :=
  exists t s, api t = Some l /\ (t <= s)%Z /\ (w0 <= s + ttl)%Z.

Lemma key_inv_set name object ttl' t1 t2 w :
  name <> K -> key_inv w ->
  key_inv (mkWorld (Cache.SetString (w_cache w) name object (Some ttl') (fun _ => t1) t2) (w_now w) (w_effects w)).
Proof.
  intros Hn Hi e. unfold Cache.SetString, Set_. cbn. rewrite lookup_insert_ne, lookup_clearExpired by done.
  destruct (w_cache w !! K) as [e'|] eqn:E; [|done]. case_goal; [done|]. intros [= <-]. by apply Hi.
Qed.

Lemma load_list_spec b w r w' :
  key_inv w -> (0 <= ttl)%Z ->
  load_list K ttl api b w = Ret (r, w') ->
  key_inv w' /\ (w_now w <= w_now w')%Z /\ w_effects w' = w_effects w /\
  match r with
  | None => exists t, api t = None
  | Some (Some l, reloaded) => fresh (w_now w) l
  | Some (None, reloaded) => b = false
  end.
Proof.
  intros Hi Httl. unfold load_list. intros (cached & w1 & Hg & Hr)%M_bind_Ret.
  apply M_bind_Ret in Hg as (t & w1' & [= <- <-] & [= <- <-]). set (t := tick (w_now w)) in *.
  assert (w_now w <= t)%Z as Ht by apply tick_mono.
  unfold Cache.GetString, Cache.Get in Hr. cbn in Hr.
  destruct (bool_decide _) eqn:Ec in Hr; [destruct b; cbn in Hr|].
  - (* the API server is asked *)
    apply M_bind_Ret in Hr as (ans & w2 & Hc & Hr). apply M_bind_Ret in Hc as (t2 & w2' & [= <- <-] & [= <- <-]).
    cbn in Hr. set (t2 := tick t) in *. assert (t <= t2)%Z as Ht2 by apply tick_mono.
    destruct (api t2) as [l|] eqn:Ea; [|injection Hr as <- <-; cbn; repeat split; eauto; lia].
    apply M_bind_Ret in Hr as (u & w3 & Hs & [= <- <-]).
    assert (fresh (w_now w) l) as Hf.
    { exists t2, t2. repeat split; auto; lia. }
    destruct (length l); [unfold mret, M_ret in Hs; injection Hs as _ <-; cbn; repeat split; auto; lia|].
    apply M_bind_Ret in Hs as (t3 & w4 & [= <- <-] & Hs). apply M_bind_Ret in Hs as (t4 & w5 & [= <- <-] & [= _ <-]).
    cbn. set (t3 := tick t2) in *. set (t4 := tick t3) in *.
    assert (t2 <= t3)%Z by apply tick_mono. assert (t3 <= t4)%Z by apply tick_mono.
    split; [|repeat split; auto; lia].
    intros e. cbn. unfold Cache.SetString, Set_. rewrite lookup_insert_eq. intros [= <-].
    exists t2, l. cbn. repeat split; auto; lia.
  - injection Hr as <- <-. cbn. repeat split; auto; lia.
  - (* the cached text is used *)
    rewrite andb_false_l in Hr. cbn [negb] in Hr. bool_prop.
    destruct (w_cache w !! K) as [e|] eqn:Ee; [|done]. destruct (after t e) eqn:Ea; [done|].
    destruct (Hi e Ee) as (t0 & l & Ht0 & Hl & Ho & Hx). rewrite Ho in Hr. cbn in Hr.
    rewrite (decode_encode t0 l Hl) in Hr. injection Hr as <- <-. cbn. repeat split; auto; try lia.
    exists t0, (co_created e). unfold after in Ea. apply Z.ltb_ge in Ea. repeat split; auto; lia.
Qed.
End one_key.

(** Loading another list does not disturb a key. *)
Lemma load_list_other {A B} `{ListCodec A, ListCodec B} K ttl (api : Z -> option (list A)) `{!CodecFor api} K' ttl' (api' : Z -> option (list B)) b w r w' :
  K' <> K -> key_inv K ttl api w -> load_list K' ttl' api' b w = Ret (r, w') -> key_inv K ttl api w'.
Proof.
  intros Hk Hi. unfold load_list. intros (cached & w1 & Hg & Hr)%M_bind_Ret.
  apply M_bind_Ret in Hg as (t & w1' & [= <- <-] & [= <- <-]).
  destruct (bool_decide _ && b)%bool.
  - apply M_bind_Ret in Hr as (ans & w2 & Hc & Hr). apply M_bind_Ret in Hc as (t2 & w2' & [= <- <-] & [= <- <-]).
    destruct (api' _) as [l|]; [|unfold mret, M_ret in Hr; by injection Hr as <- <-].
    apply M_bind_Ret in Hr as (u & w3 & Hs & [= <- <-]).
    destruct (Nat.ltb 0 (length l)); [|by unfold mret, M_ret in Hs; injection Hs as _ <-].
    apply M_bind_Ret in Hs as (t3 & w4 & [= <- <-] & Hs). apply M_bind_Ret in Hs as (t4 & w5 & [= <- <-] & [= _ <-]).
    cbn. by apply key_inv_set.
  - unfold mret, M_ret in Hr. destruct (negb _); [destruct (decode_list _)|]; by injection Hr as <- <-.
Qed.
End freshness.

(** ** Facts: the rule table a request is judged by *)

Section rule_table_fresh.
Context `{ClusterOk, K8sApi, !ListCodec ResourceSigningProfile, !CodecFor list_RSP,
          !ListCodec Namespace, !CodecFor list_Namespaces}.
#[local] Set Default Proof Using "Type*".

Definition lists_inv (w : World) : Prop :=
  key_inv rsp_key rsp_interval list_RSP w /\ key_inv ns_key ns_interval list_Namespaces w.

Definition rsps_ok (w0 : Z) (l : list ResourceSigningProfile) : Prop := l = [] \/ fresh rsp_interval list_RSP w0 l.
Definition nss_ok (w0 : Z) (l : list Namespace) : Prop := l = [] \/ fresh ns_interval list_Namespaces w0 l.

Lemma keys_distinct : rsp_key <> ns_key.
Proof using. unfold rsp_key, ns_key. discriminate. Qed.

Lemma fresh_mono {A} ttl (api : Z -> option (list A)) w0 w1 l :
  (w0 <= w1)%Z -> fresh ttl api w1 l -> fresh ttl api w0 l.
Proof. intros Hw (t & s & Ha & Ht & Hs). exists t, s. repeat split; auto. lia. Qed.

Lemma RSPLoader_GetData_ok w0 data b w data' rel w' :
  lists_inv w -> (w0 <= w_now w)%Z -> rsps_ok w0 data ->
  RSPLoader_GetData data b w = Ret ((data', rel), w') ->
  lists_inv w' /\ (w0 <= w_now w')%Z /\ rsps_ok w0 data'.
Proof.
  intros [Hr Hn] Hw Hd. unfold RSPLoader_GetData. destruct (Nat.eqb _ 0).
  - intros (r & w1 & Hl & Hm)%M_bind_Ret.
    pose proof (load_list_other ns_key ns_interval list_Namespaces _ _ _ _ _ _ _ keys_distinct Hn Hl) as Hn1.
    apply (load_list_spec rsp_key rsp_interval list_RSP) in Hl as (Hr1 & Hw1 & _ & Hres); [|done|done].
    destruct r as [[[l|] rl]|]; injection Hm as <- <- <-; (split; [done|]); (split; [lia|]); cbn; [|by left|done].
    right. eapply fresh_mono; [exact Hw|exact Hres].
  - intros [= <- <- <-]. done.
Qed.

Lemma NamespaceLoader_GetData_ok w0 data b w data' rel w' :
  lists_inv w -> (w0 <= w_now w)%Z -> nss_ok w0 data ->
  NamespaceLoader_GetData data b w = Ret ((data', rel), w') ->
  lists_inv w' /\ (w0 <= w_now w')%Z /\ nss_ok w0 data'.
Proof.
  intros [Hr Hn] Hw Hd. unfold NamespaceLoader_GetData. destruct (Nat.eqb _ 0).
  - intros (r & w1 & Hl & Hm)%M_bind_Ret.
    pose proof (load_list_other rsp_key rsp_interval list_RSP _ _ _ _ _ _ _ (not_eq_sym keys_distinct) Hr Hl) as Hr1.
    apply (load_list_spec ns_key ns_interval list_Namespaces) in Hl as (Hn1 & Hw1 & _ & Hres); [|done|done].
    destruct r as [[[l|] rl]|]; injection Hm as <- <- <-; (split; [done|]); (split; [lia|]); cbn; [|by left|done].
    right. eapply fresh_mono; [exact Hw|exact Hres].
  - intros [= <- <- <-]. done.
Qed.

(** The table was built from lists that were current at [w0], up to the lifetime
    of the cache. *)
Definition table_fresh (w0 : Z) (cp : option CommonProfile) (sns : string) (rt : RuleTable) : Prop :=
  exists rsps nss, rt = NewRuleTable rsps nss cp sns /\ fresh rsp_interval list_RSP w0 rsps /\ nss_ok w0 nss.

Definition rd_ok (w0 : Z) (sns : string) (rd : RunData) : Prop :=
  rsps_ok w0 (rd_RSPList rd) /\ nss_ok w0 (rd_NSList rd) /\
  (forall l, rd_loader rd = Some l -> rsps_ok w0 (ld_RSP l) /\ nss_ok w0 (ld_Namespace l)) /\
  (forall rt, rd_ruleTable rd = Some rt -> table_fresh w0 (rd_commonProfile rd) sns rt).

Lemma setRuleTable_ok w0 sns rd : rd_ok w0 sns rd -> rd_ok w0 sns (setRuleTable rd sns).
Proof.
  intros (Hr & Hn & Hl & Ht). unfold setRuleTable. case_goal; [|done]. bool_prop.
  split; [done|]. split; [done|]. split; [done|]. cbn. intros rt [= <-].
  exists (rd_RSPList rd), (rd_NSList rd). split; [done|]. split; [|done].
  destruct Hr as [Hr|]; [|done]. by rewrite Hr in *.
Qed.

Lemma GetRuleTable_ok w0 sns rd w o rd' w' :
  lists_inv w -> (w0 <= w_now w)%Z -> rd_ok w0 sns rd ->
  GetRuleTable rd sns w = Ret ((o, rd'), w') ->
  lists_inv w' /\ (w0 <= w_now w')%Z /\ rd_ok w0 sns rd' /\ o = rd_ruleTable rd'.
Proof.
  intros Hi Hw Hrd. unfold GetRuleTable. intros ([[rd1 rel1] rel2] & w1 & Hl & Hm)%M_bind_Ret.
  assert (lists_inv w1 /\ (w0 <= w_now w1)%Z /\ rd_ok w0 sns rd1) as (Hi1 & Hw1 & Hok1).
  { destruct (rd_loader rd) as [l|] eqn:El; [|by injection Hl as <- <- <- <-].
    destruct Hrd as (Hr & Hn & Hld & Ht). destruct (Hld l El) as [Hlr Hln].
    apply M_bind_Ret in Hl as ([tr r1] & w2 & Hq1 & Hl). apply M_bind_Ret in Hl as ([tn r2] & w3 & Hq2 & Hl).
    apply (RSPLoader_GetData_ok w0) in Hq1 as (Hi2 & Hw2 & Hr2); [|done..].
    apply (NamespaceLoader_GetData_ok w0) in Hq2 as (Hi3 & Hw3 & Hn3); [|done..].
    injection Hl as <- <- <- <-. split; [done|]. split; [done|].
    unfold rd_ok. cbn [set_lists rd_RSPList rd_NSList rd_loader rd_ruleTable rd_commonProfile].
    split; [by case_goal|]. split; [by case_goal|]. split; [|done]. by intros ? [= <-]. }
  injection Hm as <- <- <-. split; [done|]. split; [done|]. split; [|done].
  case_goal; [by apply setRuleTable_ok|done].
Qed.

Lemma RunData_Init_ok w0 conf cfg ns w rd' w' :
  lists_inv w -> (w0 <= w_now w)%Z ->
  RunData_Init (set_loader emptyRunData (NewLoader cfg ns)) conf w = Ret (rd', w') ->
  lists_inv w' /\ (w0 <= w_now w')%Z /\ rd_ok w0 (cfg_Namespace conf) rd' /\ rd_commonProfile rd' = cfg_CommonProfile conf.
Proof.
  intros Hi Hw. unfold RunData_Init. cbn [rd_loader set_loader].
  intros ([tr r1] & w2 & Hq1 & Hl)%M_bind_Ret. apply M_bind_Ret in Hl as ([tn r2] & w3 & Hq2 & Hl).
  apply (RSPLoader_GetData_ok w0) in Hq1 as (Hi2 & Hw2 & Hr2); [|done|done|by left].
  apply (NamespaceLoader_GetData_ok w0) in Hq2 as (Hi3 & Hw3 & Hn3); [|done|done|by left].
  injection Hl as <- <-. split; [done|]. split; [done|]. split; [|by unfold setRuleTable; case_goal].
  apply setRuleTable_ok. split; [done|]. split; [done|]. split; [|done]. by intros ? [= <-].
Qed.


(** Without profiles from the API server or the cache there is no table. *)
Lemma GetRuleTable_no_profiles sns rd w o rd' w' :
  (forall t, list_RSP t = None) -> w_cache w !! rsp_key = None ->
  rd_RSPList rd = [] -> rd_ruleTable rd = None -> (forall l, rd_loader rd = Some l -> ld_RSP l = []) ->
  GetRuleTable rd sns w = Ret ((o, rd'), w') -> o = None.
Proof.
  intros Hapi Hc Hrd Hrt Hld. unfold GetRuleTable. intros ([[rd1 rel1] rel2] & w1 & Hl & Hm)%M_bind_Ret.
  assert (rd_RSPList rd1 = [] /\ rd_ruleTable rd1 = None) as [Hr1 Hrt1].
  { destruct (rd_loader rd) as [l|] eqn:El; [|by injection Hl as <- <- <- <-].
    apply M_bind_Ret in Hl as ([tr r1] & w2 & H1' & Hl). apply M_bind_Ret in Hl as ([tn r2] & w3 & H2' & Hl).
    injection Hl as <- <- <- <-. cbn. split; [|done].
    rewrite (Hld l eq_refl) in H1'. unfold RSPLoader_GetData, RSPLoader_Load in H1'. cbn in H1'.
    apply M_bind_Ret in H1' as (r & w4 & Hll & Hmm). unfold load_list in Hll.
    apply M_bind_Ret in Hll as (cached & w5 & Hg & Hll). apply M_bind_Ret in Hg as (t & w6 & [= <- <-] & [= <- <-]).
    unfold Cache.GetString, Cache.Get in Hll. cbn in Hll. rewrite Hc in Hll. cbn in Hll.
    apply M_bind_Ret in Hll as (ans & w7 & Hcall & Hll). apply M_bind_Ret in Hcall as (t2 & w8 & [= <- <-] & [= <- <-]).
    rewrite Hapi in Hll. injection Hll as <- <-. by injection Hmm as <- <- <-. }
  injection Hm as <- <- <-.
  assert (forall rdx, rd_RSPList rdx = [] -> rd_ruleTable rdx = None -> rd_ruleTable (setRuleTable rdx sns) = None) as Hset.
  { intros rdx Hx1 Hx2. unfold setRuleTable. by rewrite Hx1. }
  case_goal; [by apply Hset|done].
Qed.
End rule_table_fresh.

(** ** Facts: the newest signature is used *)

Definition newer (a b : ResourceSignature) : Prop := (rsig_time b <= rsig_time a)%Z.

Lemma insert_by_time_perm r l : insert_by_time r l ≡ₚ r :: l.
Proof.
  induction l as [|r' l IH]; [done|]. cbn. destruct (Z.ltb _ _); [|done]. rewrite IH. apply Permutation_swap.
Qed.

Lemma sortByTimestamp_perm l : sortByTimestamp l ≡ₚ l.
Proof. induction l as [|r l IH]; [done|]. cbn. by rewrite insert_by_time_perm, IH. Qed.

Lemma insert_by_time_sorted r l : StronglySorted newer l -> StronglySorted newer (insert_by_time r l).
Proof.
  induction 1 as [|r' l Hs IH Hall]; cbn; [repeat constructor|].
  destruct (Z.ltb (rsig_time r) (rsig_time r')) eqn:E.
  - constructor; [done|]. rewrite insert_by_time_perm. constructor; [unfold newer; lia|done].
  - apply Z.ltb_ge in E. constructor; [by constructor|]. constructor; [done|].
    eapply Forall_impl; [exact Hall|]. unfold newer. lia.
Qed.

Lemma sortByTimestamp_sorted l : StronglySorted newer (sortByTimestamp l).
Proof. induction l as [|r l IH]; [constructor|]. by apply insert_by_time_sorted. Qed.

Section newest.
Context `{ManifestLib, YamlLib}.

Lemma sorted_first_newest l a k n ns si y uid :
  StronglySorted newer l -> List_FindSignItem l a k n ns = Some (si, y, uid) ->
  exists ss, ss ∈ l /\ uid = om_UID (rsig_meta ss) /\ FindSignItem (rsig_Data ss) a k n ns = Some (si, y) /\
    forall ss', ss' ∈ l -> FindSignItem (rsig_Data ss') a k n ns <> None -> newer ss ss'.
Proof.
  induction 1 as [|ss l Hs IH Hall]; cbn; [done|].
  destruct (FindSignItem (rsig_Data ss) a k n ns) as [[si' y']|] eqn:E.
  - intros [= <- <- <-]. exists ss. split; [left|]. split; [done|]. split; [done|].
    intros ss' [->|Hin]%elem_of_cons _; [unfold newer; lia|]. rewrite Forall_forall in Hall. auto.
  - intros (ss0 & Hin & Hu & Hf & Hn)%IH. exists ss0. split; [by right|]. split; [done|]. split; [done|].
    intros ss' [->|Hin']%elem_of_cons Hne; [congruence|auto].
Qed.

(** Of the signatures that hold a document for the resource, the one with the
    latest timestamp label is used. *)
Theorem newest_signature_is_used items a k n ns si y uid :
  List_FindSignItem (sortByTimestamp items) a k n ns = Some (si, y, uid) ->
  exists ss, ss ∈ items /\ uid = om_UID (rsig_meta ss) /\ FindSignItem (rsig_Data ss) a k n ns = Some (si, y) /\
    forall ss', ss' ∈ items -> FindSignItem (rsig_Data ss') a k n ns <> None -> newer ss ss'.
Proof.
  intros (ss & Hin & Hu & Hf & Hn)%(sorted_first_newest _ _ _ _ _ _ _ _ (sortByTimestamp_sorted items)).
  assert (forall x, x ∈ sortByTimestamp items <-> x ∈ items) as Hp by (intros x; by rewrite sortByTimestamp_perm).
  exists ss. split; [by apply Hp|]. split; [done|]. split; [done|]. intros ss' Hin'. by apply Hn, Hp.
Qed.
End newest.

(** ** Concrete instances *)

(** A cluster with one profile in one namespace, a signer configuration and no
    signatures; events and statuses can be written. *)
Definition sample_rsps : list ResourceSigningProfile := [team_rsp "secure-ns" "ConfigMap"].
Definition sample_nss : list Namespace := [ns_named "secure-ns" ∅; ns_named "ishield" ∅].
Definition sample_cluster : Cluster := {|
  tick t := (t + 1)%Z;
  list_RSP _ := Some sample_rsps;
  list_Namespaces _ := Some sample_nss;
  list_SignerConfigs _ _ := Some [mkSignerConfigRes emptyMeta (Some sample_config)];
  list_ResourceSignatures _ _ _ := Some [];
  kube_config := Signing.Ok tt;
  get_Event _ _ _ := None;
  put_Event _ _ _ := Signing.Ok tt;
  get_RSP _ _ _ := Signing.Ok (team_rsp "secure-ns" "ConfigMap");
  put_RSP _ _ _ := Signing.Ok tt |}.
Definition const_codec {A} (l : list A) : ListCodec A := {| encode_list _ := "list"; decode_list _ := Some l |}.
Definition empty_world : World := mkWorld ∅ 0 [].

Section samples.
#[local] Existing Instances sample_cluster sample_k8s.
#[local] Instance rsp_codec : ListCodec ResourceSigningProfile := const_codec sample_rsps.
#[local] Instance ns_codec : ListCodec Namespace := const_codec sample_nss.

Lemma sample_cluster_ok : ClusterOk.
Proof. intros t. cbn. lia. Qed.
Lemma rsp_codec_ok : CodecFor list_RSP.
Proof. intros t l Hl. cbn in *. congruence. Qed.
Lemma ns_codec_ok : CodecFor list_Namespaces.
Proof. intros t l Hl. cbn in *. congruence. Qed.
#[local] Existing Instances sample_cluster_ok rsp_codec_ok ns_codec_ok.

Lemma empty_lists_inv : lists_inv empty_world.
Proof. split; intros e He; cbn in He; rewrite lookup_empty in He; done. Qed.

Definition loader_config : ShieldConfig :=
  mkShieldConfig None None None [] [] EnforceMode [] None "ishield" "ishield" "ishield" [] "" "" "" None "" "" "" "" [].

End samples.
