(* ===== verification/SharedCache.v ===== *)
(** * The shared cache under concurrent requests  ([rspLoader.go],
      [namespaceLoader.go], [runData.go], [util/cache/cache.go])

    Requests are handled in goroutines of their own, and the only thing they share
    is the cache.  Its methods hold the mutex, so one call of it is one step, but a
    loader reads the cache, asks the API server and stores the answer in three
    steps, between which others may run.  [Loader] takes the three at once; here
    they are single steps of a system of any number of goroutines, one list of
    which, under the key [K], is followed. *)
From S2P Require Import Prelude GoStrings Common Profile SigningProfile Cache RuleTable World Loader.
From stdpp Require Import options.

Section shared.
Context {A : Type} `{ListCodec A} (K : string) (ttl : Z) (api : Z -> option (list A)).

(** ** One loader step by step *)

(** What a load ends with: as in [load_list], and when it read the list, from the
    cache or from the API server. *)
Definition load_result : Type := option (option (list A) * bool).

Inductive lpc :=
| LGet (doK8sApiCall : bool)
| LList
| LStore (given : Z) (answer : list A)
| LDone (read : Z) (r : load_result).

(** The step from [p] at the time [t1]; storing reads the clock twice. *)
Definition load_step (t1 t2 : Z) (c : gmap string CachedObject) (p : lpc) : gmap string CachedObject * lpc :=
  match p with
  | LGet doK8sApiCall =>
      let cached := Cache.GetString c K t1 in
      (c, if bool_decide (cached = "") && doK8sApiCall then LList
          else LDone t1 (if negb (bool_decide (cached = ""))
                         then match decode_list cached with None => None | Some l => Some (Some l, false) end
                         else Some (None, false)))
  | LList => (c, match api t1 with
                 | None => LDone t1 None
                 | Some l => if Nat.ltb 0 (length l) then LStore t1 l else LDone t1 (Some (Some l, true))
                 end)
  | LStore given l => (Cache.SetString c K (encode_list l) (Some ttl) (fun _ => t1) t2, LDone given (Some (Some l, true)))
  | LDone _ _ => (c, p)
  end.

Definition finished (p : lpc) : bool := match p with LDone _ _ => true | _ => false end.
Definition stores (p : lpc) : bool := match p with LStore _ _ => true | _ => false end.

(** A goroutine alone; three steps are enough. *)
Fixpoint run_load `{Cluster} (fuel : nat) (w : World) (p : lpc) : World * lpc :=
  match fuel with
  | 0 => (w, p)
  | S fuel =>
      if finished p then (w, p)
      else
        let t1 := tick (w_now w) in
        let t2 := if stores p then tick t1 else t1 in
        let '(c, p') := load_step t1 t2 (w_cache w) p in
        run_load fuel (mkWorld c t2 (w_effects w)) p'
  end.

(** ** The system

    Any number of loaders, of whom one that has finished may begin again with
    another request; calls of the cache for other keys; and the resets, which
    remove keys.  [delay] is how long a goroutine may take from the answer of the
    API server to storing it. *)
Record csys := mkCsys { cs_cache : gmap string CachedObject; cs_now : Z; cs_gs : list lpc }.

Context (delay : Z).

Inductive cstep : csys -> csys -> Prop :=
| step_load c t gs k p t1 t2 c' p' :
    gs !! k = Some p -> finished p = false -> (t <= t1 <= t2)%Z ->
    (forall given l, p = LStore given l -> t2 <= given + delay)%Z ->
    load_step t1 t2 c p = (c', p') ->
    cstep (mkCsys c t gs) (mkCsys c' t2 (<[k := p']> gs))
| step_begin c t gs k p b :
    gs !! k = Some p -> finished p = true -> cstep (mkCsys c t gs) (mkCsys c t (<[k := LGet b]> gs))
| step_other c t gs name object ttl' t1 t2 :
    name <> K -> (t <= t1 <= t2)%Z ->
    cstep (mkCsys c t gs) (mkCsys (Set_ c name object ttl' (fun _ => t1) t2) t2 gs)
| step_unset c t gs name : cstep (mkCsys c t gs) (mkCsys (Unset c name) t gs).

(** Nothing is cached under the key, and no goroutine has begun. *)
Definition starting (y : csys) : Prop :=
  cs_cache y !! K = None /\ Forall (fun p => exists t, p = LDone t None) (cs_gs y).
End shared.

Arguments LGet {A}.
Arguments LList {A}.
Arguments LStore {A}.
Arguments LDone {A}.
Arguments finished {A}.
Arguments csys : clear implicits.
Arguments lpc : clear implicits.

(** ** Facts: one goroutine *)

(** Run without interruption, the steps are those of [load_list]. *)
Theorem load_list_steps {A} `{ListCodec A, Cluster} K ttl (api : Z -> option (list A)) b w :
  exists r w' t, load_list K ttl api b w = Ret (r, w') /\ run_load K ttl api 3 w (LGet b) = (w', LDone t r).
Proof.
  unfold load_list, cache_GetString, cache_SetString, call, now, gets, set_cache, mbind, M_bind, mret, M_ret.
  cbn [run_load finished stores load_step w_cache w_now w_effects].
  set (cached := Cache.GetString (w_cache w) K (tick (w_now w))).
  destruct (bool_decide (cached = "")); destruct b; cbn [andb negb]; cbn [run_load finished stores load_step w_cache w_now w_effects].
  - destruct (api (tick (tick (w_now w)))) as [l|]; [|by eexists _, _, _].
    destruct (Nat.ltb 0 (length l)); cbn [run_load finished stores load_step w_cache w_now w_effects]; by eexists _, _, _.
  - by eexists _, _, _.
  - destruct (decode_list cached); by eexists _, _, _.
  - destruct (decode_list cached); by eexists _, _, _.
Qed.

(** ** Facts: any interleaving *)

Section shared_facts.
Context {A : Type} `{ListCodec A} (K : string) (ttl : Z) (api : Z -> option (list A)) (delay : Z) `{!CodecFor api}.
Notation cstep := (cstep K ttl api delay).
#[local] Set Default Proof Using "Type*".

(** A property [Q] of the times at which answers were given that holds of
    everything in the cache and in the goroutines, and of the lists that were read
    at a time of [G]. *)
Section provenance.
Context (Q G : Z -> Prop).

Definition answer (a : Z) (l : list A) : Prop := api a = Some l /\ Q a.

Definition entry_from (e : CachedObject) : Prop :=
  exists a l, answer a l /\ (a <= co_created e <= a + delay)%Z /\ co_rawObject e = OStr (encode_list l) /\
    co_expired e = (co_created e + ttl)%Z.

Definition pc_from (t : Z) (p : lpc A) : Prop :=
  match p with
  | LStore a l => answer a l /\ (a <= t)%Z
  | LDone rd (Some (Some l, _)) => G rd -> exists a, answer a l /\ (a <= rd <= a + Z.max 0 (delay + ttl))%Z
  | _ => True
  end.

Definition from (y : csys A) : Prop :=
  (forall e, cs_cache y !! K = Some e -> entry_from e /\ (co_created e <= cs_now y)%Z) /\
  Forall (pc_from (cs_now y)) (cs_gs y).

Lemma pc_from_later t t' p : (t <= t')%Z -> pc_from t p -> pc_from t' p.
Proof. intros Ht. destruct p; cbn; try done. intros [? ?]. split; [done|lia]. Qed.

Lemma lookup_Set_other c name object ttl' clk now e :
  name <> K -> Set_ c name object ttl' clk now !! K = Some e -> c !! K = Some e.
Proof.
  intros Hn. unfold Set_. rewrite lookup_insert_ne, lookup_clearExpired by done. destruct (c !! K); [|done]. by case_goal.
Qed.

(** What is given from now on has the property. *)
Definition holds_from (t : Z) : Prop := forall a, (t <= a)%Z -> Q a.

Lemma load_step_from t t1 t2 c p c' p' :
  holds_from t -> (t <= t1 <= t2)%Z -> (forall given l, p = LStore given l -> t2 <= given + delay)%Z ->
  (forall e, c !! K = Some e -> entry_from e /\ (co_created e <= t)%Z) -> pc_from t p ->
  load_step K ttl api t1 t2 c p = (c', p') ->
  (forall e, c' !! K = Some e -> entry_from e /\ (co_created e <= t2)%Z) /\ pc_from t2 p'.
Proof.
  intros HQ Ht Hd Hc Hp. assert (forall e, c !! K = Some e -> entry_from e /\ (co_created e <= t2)%Z) as Hc2.
  { intros e He. destruct (Hc e He). split; [done|lia]. }
  destruct p as [b| |a l|]; cbn [load_step]; intros [= <- <-]; (split; [|try done]).
  - done.
  - destruct (_ && _); [done|]. unfold Cache.GetString, Get. destruct (c !! K) as [e|] eqn:E; [|done].
    destruct (after t1 e) eqn:Ea; [done|]. destruct (Hc e eq_refl) as [(a & l & Ha & Hcr & Ho & Hx) Hle]. rewrite Ho.
    case_bool_decide; cbn [negb]; [done|]. destruct Ha as [Hapi HQa]. rewrite (decode_encode a l Hapi). intros _. exists a. split; [done|].
    unfold after in Ea. apply Z.ltb_ge in Ea. lia.
  - done.
  - destruct (api t1) as [l|] eqn:Ea; [|done]. assert (answer t1 l) by (split; [done|]; apply HQ; lia).
    destruct (Nat.ltb _ _); cbn; [split; [done|lia]|]. intros _. exists t1. split; [done|lia].
  - destruct Hp as [Ha Hle]. specialize (Hd a l eq_refl). intros e. unfold Cache.SetString, Set_. rewrite lookup_insert_eq.
    intros [= <-]. cbn. split; [|lia]. exists a, l. cbn. split; [done|]. split; [lia|done].
  - destruct Hp as [Ha Hle]. intros _. exists a. split; [done|lia].
  - done.
Qed.

Lemma from_step y y' : cstep y y' -> holds_from (cs_now y) -> from y -> from y' /\ holds_from (cs_now y').
Proof.
  intros Hs HQ [Hc Hg].
  assert (forall t, (cs_now y <= t)%Z -> holds_from t) as HQ' by (intros t Ht a Ha; apply HQ; lia).
  destruct Hs as [c t gs k p t1 t2 c' p' Hk Hf Ht Hd Hl|c t gs k p b Hk Hf|c t gs name object ttl' t1 t2 Hn Ht|c t gs name];
    cbn [cs_cache cs_now cs_gs] in *.
  - pose proof (Forall_lookup_1 _ _ _ _ Hg Hk) as Hp.
    destruct (load_step_from t t1 t2 c p c' p' HQ Ht Hd Hc Hp Hl) as [Hc' Hp']. split; [|apply HQ'; cbn; lia]. split; [done|].
    apply Forall_insert; [|done]. eapply Forall_impl; [done|]. intros q. apply pc_from_later. cbn. lia.
  - split; [|done]. split; [done|]. by apply Forall_insert.
  - split; [|apply HQ'; cbn; lia]. split.
    + intros e He%lookup_Set_other; [|done]. destruct (Hc e He). split; [done|cbn; lia].
    + eapply Forall_impl; [done|]. intros q. apply pc_from_later. cbn. lia.
  - split; [|done]. split; [|done]. intros e. cbn. rewrite lookup_Unset. case_decide; [done|]. apply Hc.
Qed.

Lemma from_steps y y' : rtc cstep y y' -> holds_from (cs_now y) -> from y -> from y'.
Proof. intros Hr. induction Hr as [|y y1 y2 Hs _ IH]; [done|]. intros HQ Hf. destruct (from_step _ _ Hs HQ Hf). auto. Qed.
End provenance.

Lemma starting_from Q G y : starting K y -> from Q G y.
Proof.
  intros [Hc Hg]. split; [by rewrite Hc|]. eapply Forall_impl; [done|]. by intros ? [t ->].
Qed.

(** C9: however the loaders of all requests, the resets and the other users of the
    cache interleave, a list in use was given by the API server, and read no later
    than the cache lifetime and the delay of storing it after that. *)
Theorem list_in_use_is_recent y0 y k rd l reloaded :
  starting K y0 -> rtc cstep y0 y -> cs_gs y !! k = Some (LDone rd (Some (Some l, reloaded))) ->
  exists given, api given = Some l /\ (given <= rd <= given + Z.max 0 (delay + ttl))%Z.
Proof.
  intros Hs Hr Hk. destruct (from_steps (fun _ => True) (fun _ => True) y0 y Hr) as [_ Hg]; [done|by apply starting_from|].
  pose proof (Forall_lookup_1 _ _ _ _ Hg Hk I) as (a & [Ha _] & Hle). by exists a.
Qed.

(** Every goroutine that has finished has read its list by now, and none holds an
    answer it has yet to store. *)
Definition settled (y : csys A) : Prop :=
  Forall (fun p => match p with LStore _ _ => False | LDone rd _ => (rd <= cs_now y)%Z | _ => True end) (cs_gs y).

(** A reset is effective for every request that reads the list after it, when
    no goroutine then held an older answer: what is in use was given since. *)
Theorem reset_takes_effect y0 y k rd l reloaded :
  settled y0 -> rtc cstep (mkCsys (Unset (cs_cache y0) K) (cs_now y0) (cs_gs y0)) y ->
  cs_gs y !! k = Some (LDone rd (Some (Some l, reloaded))) -> (cs_now y0 < rd)%Z ->
  exists given, api given = Some l /\ (cs_now y0 <= given <= rd)%Z.
Proof.
  intros Hs Hr Hk Hrd.
  destruct (from_steps (fun a => cs_now y0 <= a)%Z (fun rd => cs_now y0 < rd)%Z _ y Hr) as [_ Hg].
  - by intros a Ha.
  - split; cbn [cs_cache cs_now cs_gs]; [intros e; rewrite lookup_Unset; by rewrite decide_True|].
    eapply Forall_impl; [exact Hs|]. intros [| | |rd' [[[l'|] ?]|]]; cbn; try done. lia.
  - pose proof (Forall_lookup_1 _ _ _ _ Hg Hk Hrd) as (a & [Ha HQ] & Hle). exists a. split; [done|lia].
Qed.
End shared_facts.

(** ** Schedules

    An executable form of the steps that matter here. *)
Inductive caction := CStep (k : nat) (t1 t2 : Z) | CBegin (k : nat) (doK8sApiCall : bool) | CReset.

Section schedules.
Context {A : Type} `{ListCodec A} (K : string) (ttl : Z) (api : Z -> option (list A)) (delay : Z).

Definition in_time (p : lpc A) (t2 : Z) : bool := match p with LStore given _ => Z.leb t2 (given + delay) | _ => true end.

Definition do_caction (a : caction) (y : csys A) : option (csys A) :=
  match a with
  | CStep k t1 t2 =>
      p ← cs_gs y !! k;
      if negb (finished p) && Z.leb (cs_now y) t1 && Z.leb t1 t2 && in_time p t2
      then let '(c', p') := load_step K ttl api t1 t2 (cs_cache y) p in Some (mkCsys c' t2 (<[k := p']> (cs_gs y)))
      else None
  | CBegin k b =>
      p ← cs_gs y !! k;
      if finished p then Some (mkCsys (cs_cache y) (cs_now y) (<[k := LGet b]> (cs_gs y))) else None
  | CReset => Some (mkCsys (Unset (cs_cache y) K) (cs_now y) (cs_gs y))
  end.

Fixpoint do_cactions (l : list caction) (y : csys A) : option (csys A) :=
  match l with [] => Some y | a :: l' => y' ← do_caction a y; do_cactions l' y' end.

Lemma do_cactions_steps l y y' : do_cactions l y = Some y' -> rtc (cstep K ttl api delay) y y'.
Proof.
  revert y. induction l as [|a l IH]; intros y; cbn [do_cactions]; [intros [= ->]; constructor|].
  destruct (do_caction a y) as [y1|] eqn:E; [|done]. cbn. intros Hl. apply (rtc_l _ y y1); [|by apply IH]. clear IH Hl.
  destruct y as [c t gs]. destruct a as [k t1 t2|k b|]; cbn in E.
  - destruct (gs !! k) as [p|] eqn:Hk; [|done]. cbn in E. destruct (negb (finished p)) eqn:Hf; [|done].
    destruct (Z.leb_spec t t1), (Z.leb_spec t1 t2); cbn in E; try done. destruct (in_time p t2) eqn:Hi; [|done]. cbn in E.
    destruct (load_step _ _ _ _ _ _ _) as [c' p'] eqn:Hs. injection E as <-.
    eapply step_load; [done|by destruct (finished p)|done| |done]. intros given a ->. cbn in Hi. by apply Z.leb_le.
  - destruct (gs !! k) as [p|] eqn:Hk; [|done]. cbn in E. destruct (finished p) eqn:Hf; [|done]. injection E as <-.
    by eapply step_begin.
  - injection E as <-. apply step_unset.
Qed.
End schedules.

(** ** Concrete instance: a profile that is added at ten seconds *)

Definition old_profile : ResourceSigningProfile := team_rsp "secure-ns" "ConfigMap".
Definition new_profile : ResourceSigningProfile := team_rsp "secure-ns" "Deployment".
Definition profiles_at (t : Z) : option (list ResourceSigningProfile) :=
  Some (if Z.ltb t (10 * second) then [old_profile] else [old_profile; new_profile]).
Definition profiles_codec : ListCodec ResourceSigningProfile := {|
  encode_list l := if Nat.eqb (length l) 1 then "old" else "new";
  decode_list s := Some (if bool_decide (s = "old") then [old_profile] else [old_profile; new_profile]) |}.
Lemma profiles_codec_ok : @CodecFor _ profiles_codec profiles_at.
Proof. intros t l. unfold profiles_at. destruct (Z.ltb _ _); intros [= <-]; done. Qed.

Section samples.
#[local] Existing Instances profiles_codec profiles_codec_ok.

Definition at_rest : csys ResourceSigningProfile := mkCsys ∅ second [LDone 0 None; LDone 0 None].
Definition changed_late : list caction :=
  [CReset; CBegin 1 true; CStep 1 (2 * second) (2 * second); CStep 1 (3 * second) (3 * second); CStep 1 (4 * second) (4 * second);
   CBegin 0 true; CStep 0 (11 * second) (11 * second)].
Definition after_change : csys ResourceSigningProfile := default at_rest (do_cactions rsp_key rsp_interval profiles_at second changed_late at_rest).

Lemma changed_late_steps : rtc (cstep rsp_key rsp_interval profiles_at second) at_rest after_change.
Proof. apply (do_cactions_steps _ _ _ _ changed_late). vm_compute. reflexivity. Qed.

Lemma at_rest_starting : starting rsp_key at_rest.
Proof. split; [done|]. repeat constructor; by eexists. Qed.


Lemma list_in_use_is_recent_witness :
  exists given, profiles_at given = Some [old_profile] /\ (given <= 11 * second <= given + (second + rsp_interval))%Z.
Proof.
  apply (list_in_use_is_recent rsp_key rsp_interval profiles_at second at_rest after_change 0 _ [old_profile] false).
  - exact at_rest_starting.
  - exact changed_late_steps.
  - vm_compute. reflexivity.
Defined.

(** A loader that had its answer before the reset, and stores it afterwards. *)
Definition slow_loader : list caction :=
  [CBegin 1 true; CStep 1 (2 * second) (2 * second); CStep 1 (3 * second) (3 * second); CReset; CStep 1 (4 * second) (4 * second);
   CBegin 0 true; CStep 0 (5 * second) (5 * second)].
Example slow_loader_undoes_reset :
  exists y, do_cactions rsp_key rsp_interval profiles_at second slow_loader at_rest = Some y /\
    cs_gs y !! 0 = Some (LDone (5 * second) (Some (Some [old_profile], false))).
Proof. eexists. split; vm_compute; reflexivity. Qed.

Lemma reset_takes_effect_witness :
  exists given, profiles_at given = Some [old_profile] /\ (second <= given <= 11 * second)%Z.
Proof.
  apply (reset_takes_effect rsp_key rsp_interval profiles_at second at_rest after_change 0 (11 * second) [old_profile] false).
  - by repeat constructor.
  - apply (do_cactions_steps _ _ _ _ (tail changed_late)). vm_compute. reflexivity.
  - vm_compute. reflexivity.
  - done.
Defined.
End samples.
