(* ===== verification/Frame.v ===== *)
(** * Frames: what a computation may do to the process-wide cache

    [touches P m]: [m] never turns the clock back and, outside of the keys in
    [P], leaves the cache alone or drops expired entries.  The invariants of the
    cached lists are preserved by every computation that does not touch them. *)
From S2P Require Import Prelude GoStrings Common ReqContext Profile SigningProfile Policy ShieldConfig Cache.
From S2P Require Import RuleTable Signing ResourceSignature World Loader.
From stdpp Require Import options.

Definition touches {A} (P : string -> Prop) (m : M A) : Prop :=
  forall w a w', m w = Ret (a, w') ->
    (w_now w <= w_now w')%Z /\
    forall K e, ~ P K -> w_cache w' !! K = Some e -> w_cache w !! K = Some e.

Create HintDb frame.

Section frame.
Context `{ClusterOk}.
#[local] Set Default Proof Using "Type*".

Lemma touches_ret {A} P (a : A) : touches P (mret a).
Proof. intros w b w' [= <- <-]. split; [lia|done]. Qed.

Lemma touches_bind {A B} P (m : M A) (f : A -> M B) :
  touches P m -> (forall a, touches P (f a)) -> touches P (m ≫= f).
Proof.
  intros Hm Hf w b w' (a & w1 & Hq1 & Hq2)%M_bind_Ret.
  apply Hm in Hq1 as [Ht1 Hc1]. apply Hf in Hq2 as [Ht2 Hc2]. split; [lia|]. eauto.
Qed.

Lemma touches_weaken {A} (P Q : string -> Prop) (m : M A) : touches P m -> (forall K, P K -> Q K) -> touches Q m.
Proof. intros Hm HPQ w a w' Hr. apply Hm in Hr as [Ht Hc]. split; [done|]. eauto. Qed.

Lemma touches_lift {A} P (m : go A) : touches P (lift m).
Proof. intros w a w'. unfold lift. destruct m; [|done]. intros [= <- <-]. split; [lia|done]. Qed.

Lemma touches_panic {A} P : touches P (@panic A).
Proof. intros w a w'. done. Qed.

Lemma touches_gets {A} P (f : World -> A) : touches P (gets f).
Proof. intros w a w' [= <- <-]. split; [lia|done]. Qed.

Lemma touches_emit P e : touches P (emit e).
Proof. intros w a w' [= <- <-]. split; [cbn; lia|done]. Qed.

Lemma touches_now P : touches P now.
Proof. intros w a w' [= <- <-]. split; [apply tick_mono|done]. Qed.

Lemma touches_call {A} P (api : Z -> A) : touches P (call api).
Proof. apply touches_bind; [apply touches_now|]. intros t. apply touches_ret. Qed.

Lemma touches_GetString P K : touches P (cache_GetString K).
Proof. apply touches_bind; [apply touches_now|]. intros t. apply touches_gets. Qed.

Lemma touches_SetString (P : string -> Prop) K object ttl : P K -> touches P (cache_SetString K object ttl).
Proof.
  intros HK. apply touches_bind; [apply touches_now|]. intros t1. apply touches_bind; [apply touches_now|]. intros t2.
  intros w a w' [= <- <-]. split; [cbn; lia|]. intros K' e HK'. cbn. unfold Cache.SetString, Set_.
  rewrite lookup_insert_ne by (by intros <-). rewrite lookup_clearExpired.
  destruct (w_cache w !! K') as [e'|]; [|done]. by case_goal.
Qed.

Lemma touches_Unset (P : string -> Prop) K : P K -> touches P (cache_Unset K).
Proof.
  intros HK w a w' [= <- <-]. split; [cbn; lia|]. intros K' e HK'. cbn. rewrite lookup_Unset.
  by case_decide; subst.
Qed.
End frame.
#[export] Hint Resolve touches_ret touches_lift touches_panic touches_gets touches_emit touches_now touches_call
  touches_GetString touches_SetString touches_Unset : frame.

(** Walks a computation: binds, matches and conditionals. *)
Ltac frame :=
  repeat first
    [ progress intros
    | solve [eauto with frame]
    | match goal with
      | |- touches _ (_ ≫= _) => apply touches_bind
      | |- touches _ (match ?x with _ => _ end) => destruct x
      | |- touches _ (if ?x then _ else _) => destruct x
      end ].

Section loaders_frame.
Context `{ClusterOk, K8sApi, !ListCodec ResourceSigningProfile, !ListCodec Namespace, !ListCodec SignerConfigRes,
          !ListCodec ResourceSignature}.
#[local] Set Default Proof Using "Type*".

Lemma touches_load_list {A} `{ListCodec A} (P : string -> Prop) K ttl (api : Z -> option (list A)) b :
  P K -> touches P (load_list K ttl api b).
Proof. intros HK. unfold load_list. frame. Qed.

Lemma touches_load_list2 {A} `{ListCodec A} (P : string -> Prop) K ttl (api : Z -> option (list A)) b :
  P K -> touches P (load_list2 K ttl api b).
Proof. intros HK. unfold load_list2. frame. Qed.
#[local] Hint Resolve touches_load_list touches_load_list2 : frame.

Lemma touches_GetRuleTable rd sns : touches (fun K => K = rsp_key \/ K = ns_key) (GetRuleTable rd sns).
Proof.
  unfold GetRuleTable, RSPLoader_GetData, NamespaceLoader_GetData, RSPLoader_Load, NamespaceLoader_Load. frame.
Qed.

Lemma touches_RunData_Init rd conf : touches (fun K => K = rsp_key \/ K = ns_key) (RunData_Init rd conf).
Proof.
  unfold RunData_Init, RSPLoader_GetData, NamespaceLoader_GetData, RSPLoader_Load, NamespaceLoader_Load. frame.
Qed.

Lemma touches_GetSignerConfig rd :
  touches (fun K => exists l, rd_loader rd = Some l /\ K = sc_key (ld_shieldNamespace l)) (GetSignerConfig rd).
Proof. unfold GetSignerConfig, SignerConfigLoader_GetData, SignerConfigLoader_Load. destruct (rd_loader rd); frame. Qed.

Lemma touches_GetResSigList rd reqc :
  touches (fun K => exists ns sel, K = rs_key ns sel) (GetResSigList rd reqc).
Proof. unfold GetResSigList, ResSigLoader_GetData, ResSigLoader_Load. frame. Qed.

(** ** The invariant of the cached lists *)

Context `{!CodecFor list_RSP, !CodecFor list_Namespaces}.
Context (shieldNs : string) `{!CodecFor (fun t => list_SignerConfigs t shieldNs)}.

Definition sc_inv (w : World) : Prop :=
  key_inv (sc_key shieldNs) sc_interval (fun t => list_SignerConfigs t shieldNs) w.
Definition world_ok (w : World) : Prop := lists_inv w /\ sc_inv w.

Lemma key_inv_frame {A B} `{ListCodec A} K ttl (api : Z -> option (list A)) P (m : M B) w b w' :
  touches P m -> ~ P K -> m w = Ret (b, w') -> key_inv K ttl api w -> key_inv K ttl api w'.
Proof. intros Hm HP Hr Hi e He. apply Hm in Hr as [_ Hc]. eauto. Qed.

Lemma rsp_ns_keys : rsp_key <> sc_key shieldNs /\ ns_key <> sc_key shieldNs.
Proof. split; discriminate. Qed.

Lemma rs_key_other ns sel : rs_key ns sel <> rsp_key /\ rs_key ns sel <> ns_key /\ rs_key ns sel <> sc_key shieldNs.
Proof. repeat split; discriminate. Qed.

(** A computation that touches none of the three lists keeps the invariant. *)
Lemma world_ok_frame {B} P (m : M B) w b w' :
  touches P m -> ~ P rsp_key -> ~ P ns_key -> ~ P (sc_key shieldNs) -> m w = Ret (b, w') -> world_ok w -> world_ok w'.
Proof. intros Hm Hp1 Hp2 Hp3 Hr [[Hi1 Hi2] Hi3]. split; [split|]; by eapply key_inv_frame. Qed.

(** ** The run data *)

(** A signer configuration the API server gave, or none when it had none. *)
Definition sc_fresh (w0 : Z) (sc : SignerConfigRes) : Prop :=
  exists l, fresh sc_interval (fun t => list_SignerConfigs t shieldNs) w0 l /\ sc = default emptySignerConfigRes (head l).

Definition data_ok (w0 : Z) (rd : RunData) : Prop :=
  rd_ok w0 shieldNs rd /\
  (forall sc, rd_SignerConfig rd = Some sc -> sc_fresh w0 sc) /\
  exists l, rd_loader rd = Some l /\ ld_shieldNamespace l = shieldNs /\ forall sc, ld_SignerConfig l = Some sc -> sc_fresh w0 sc.

Lemma data_ok_GetRuleTable w0 rd w o rd' w' :
  world_ok w -> (w0 <= w_now w)%Z -> data_ok w0 rd -> GetRuleTable rd shieldNs w = Ret ((o, rd'), w') ->
  world_ok w' /\ (w0 <= w_now w')%Z /\ data_ok w0 rd' /\ rd_commonProfile rd' = rd_commonProfile rd /\
  (forall rt, o = Some rt -> table_fresh w0 (rd_commonProfile rd) shieldNs rt).
Proof.
  intros [Hli Hsi] Hw (Hok & Hsc & l & El & Hns & Hlsc) Hr.
  pose proof (touches_GetRuleTable rd shieldNs w (o, rd') w' Hr) as [_ Hc].
  pose proof Hr as Hr'. apply (GetRuleTable_ok w0) in Hr' as (Hli' & Hw' & Hok' & ->); [|done..].
  assert (sc_inv w') as Hsi'.
  { intros e He. apply Hsi, Hc; [|done]. pose proof rsp_ns_keys. intros [?|?]; naive_solver. }
  assert (rd_SignerConfig rd' = rd_SignerConfig rd /\ rd_commonProfile rd' = rd_commonProfile rd /\
    exists l', rd_loader rd' = Some l' /\ ld_shieldNamespace l' = ld_shieldNamespace l /\
       ld_SignerConfig l' = ld_SignerConfig l) as (Hs & Hcp & l' & Hl' & Hlns & Hlc).
  { unfold GetRuleTable in Hr. apply M_bind_Ret in Hr as ([[rd1 b1] b2] & w1 & Hm1 & Hm2). injection Hm2 as _ <- _.
    assert (rd_SignerConfig rd1 = rd_SignerConfig rd /\ rd_commonProfile rd1 = rd_commonProfile rd /\
      exists l', rd_loader rd1 = Some l' /\ ld_shieldNamespace l' = ld_shieldNamespace l /\
         ld_SignerConfig l' = ld_SignerConfig l) as Hg.
    { rewrite El in Hm1. apply M_bind_Ret in Hm1 as ([tr q1] & w2 & _ & Hm1).
      apply M_bind_Ret in Hm1 as ([tn q2] & w3 & _ & Hm1). injection Hm1 as <- _ _ _. cbn. eauto 8. }
    case_goal; [|done]. unfold setRuleTable. by case_goal. }
  split; [done|]. split; [done|]. split; [|split; [done|]].
  - split; [done|]. rewrite Hs. split; [done|]. exists l'. by rewrite Hlns, Hlc.
  - intros rt Ho. destruct Hok' as (_ & _ & _ & Ht). rewrite <-Hcp. by apply Ht.
Qed.

Lemma data_ok_Init w0 config ns w rd' w' :
  cfg_Namespace config = shieldNs -> world_ok w -> (w0 <= w_now w)%Z ->
  RunData_Init (set_loader emptyRunData (NewLoader config ns)) config w = Ret (rd', w') ->
  world_ok w' /\ (w0 <= w_now w')%Z /\ data_ok w0 rd' /\ rd_commonProfile rd' = cfg_CommonProfile config.
Proof.
  intros Hns [Hli Hsi] Hw Hr. pose proof (touches_RunData_Init _ config w rd' w' Hr) as [_ Hc].
  pose proof Hr as Hr'. apply (RunData_Init_ok w0) in Hr' as (Hli' & Hw' & Hok & Hcp); [|done..]. rewrite Hns in Hok.
  assert (sc_inv w') as Hsi'.
  { intros e He. apply Hsi, Hc; [|done]. pose proof rsp_ns_keys. intros [?|?]; naive_solver. }
  split; [done|]. split; [done|]. split; [|done]. split; [done|].
  unfold RunData_Init in Hr. cbn [rd_loader set_loader] in Hr.
  apply M_bind_Ret in Hr as ([tr q1] & w2 & _ & Hr). apply M_bind_Ret in Hr as ([tn q2] & w3 & _ & Hr).
  injection Hr as <- _.
  assert (forall rd, rd_SignerConfig (setRuleTable rd (cfg_Namespace config)) = rd_SignerConfig rd /\
    rd_loader (setRuleTable rd (cfg_Namespace config)) = rd_loader rd) as Hset.
  { intros rd. unfold setRuleTable. by case_goal. }
  split; [intros sc; by rewrite (proj1 (Hset _))|].
  eexists. rewrite (proj2 (Hset _)). cbn. split; [done|]. split; [done|]. done.
Qed.

Lemma data_ok_GetSignerConfig w0 rd w o rd' w' :
  world_ok w -> (w0 <= w_now w)%Z -> data_ok w0 rd -> GetSignerConfig rd w = Ret ((o, rd'), w') ->
  world_ok w' /\ (w0 <= w_now w')%Z /\ data_ok w0 rd' /\ rd_commonProfile rd' = rd_commonProfile rd /\
  match o with Some sc => sc_fresh w0 sc | None => exists t, list_SignerConfigs t shieldNs = None end.
Proof.
  intros [[Hi1 Hi2] Hsi] Hw (Hok & Hsc & l & El & Hlns & Hlsc) Hr.
  pose proof (touches_GetSignerConfig rd w (o, rd') w' Hr) as [Ht Hc].
  assert (forall K, K <> sc_key shieldNs -> forall e, w_cache w' !! K = Some e -> w_cache w !! K = Some e) as Hc'.
  { intros K HK e. apply Hc. intros (l1 & El1 & ->). rewrite El in El1. injection El1 as <-. by rewrite Hlns in HK. }
  assert (lists_inv w') as Hli'.
  { split; intros e He; [apply Hi1|apply Hi2]; (apply Hc'; [|done]); apply rsp_ns_keys. }
  unfold GetSignerConfig in Hr. rewrite El in Hr. destruct (rd_SignerConfig rd) as [sc|] eqn:Es.
  { injection Hr as <- <- <-. do 2 (split; [done|]). split; [|split; [done|auto]]. split; [done|]. rewrite Es. eauto. }
  apply M_bind_Ret in Hr as (d & w1 & Hd & Hr). injection Hr as <- <- <-.
  assert (sc_inv w1 /\ match d with Some sc => sc_fresh w0 sc | None => exists t, list_SignerConfigs t shieldNs = None end)
    as [Hsi' Hfr].
  { unfold SignerConfigLoader_GetData in Hd. destruct (ld_SignerConfig l) as [sc|] eqn:Els; [injection Hd as <- <-; auto|].
    apply M_bind_Ret in Hd as (r & w2 & Hl & Hd). rewrite Hlns in Hl.
    apply (load_list_spec (sc_key shieldNs) sc_interval) in Hl as (Hsi' & _ & _ & Hres); [|done..].
    destruct r as [[[l1|] rl]|]; injection Hd as <- <-; (split; [done|]); [|done|done].
    exists l1. split; [|done]. eapply fresh_mono; [exact Hw|exact Hres]. }
  split; [done|]. split; [lia|]. split; [|done]. split; [|split].
  - destruct Hok as (Hr & Hn & Hl & Hrt). split; [done|]. split; [done|]. split; [|done]. cbn. intros ? [= <-]. exact (Hl l El).
  - cbn. intros sc ->. done.
  - cbn. eexists. split; [done|]. split; [done|]. cbn. intros sc ->. done.
Qed.

Lemma data_ok_GetResSigList w0 rd reqc w o rd' w' :
  world_ok w -> (w0 <= w_now w)%Z -> data_ok w0 rd -> GetResSigList rd reqc w = Ret ((o, rd'), w') ->
  world_ok w' /\ (w0 <= w_now w')%Z /\ data_ok w0 rd' /\ rd_commonProfile rd' = rd_commonProfile rd.
Proof.
  intros Hi Hw (Hok & Hsc & l & El & Hlns & Hlsc) Hr.
  pose proof (touches_GetResSigList rd reqc w (o, rd') w' Hr) as [Ht _].
  assert (world_ok w') as Hi'.
  { eapply (world_ok_frame _ (GetResSigList rd reqc)); [apply touches_GetResSigList| | | |done|done];
      intros (ns & sel & E); pose proof (rs_key_other ns sel); naive_solver. }
  split; [done|]. split; [lia|].
  unfold GetResSigList in Hr. rewrite El in Hr.
  destruct (rd_ResSigList rd) as [rs|]; [injection Hr as <- <- <-; split; [|done]; split; [done|]; eauto|].
  apply M_bind_Ret in Hr as (d & w1 & _ & Hr). injection Hr as <- <- <-. split; [|done]. split; [|split; [done|]].
  - destruct Hok as (Hr & Hn & Hl & Hrt). split; [done|]. split; [done|]. split; [|done]. cbn. intros ? [= <-]. exact (Hl l El).
  - cbn. eauto.
Qed.
End loaders_frame.
