(* ===== verification/Validation.v ===== *)
(** * Format validation of the shield's own resources  ([shield/pkg/shield/utilValidation.go]) *)
From S2P Require Import Prelude GoStrings Common ReqContext Profile SigningProfile Policy MapNode ResourceSignature Signing World.
From stdpp Require Import options.

(** [json.Decoder] with [DisallowUnknownFields] on the five resource types; a
    JSON null leaves the pointer nil. *)
Class StrictDecoders := {
  strict_RSP : string -> res (option ResourceSigningProfile);
  strict_RS : string -> res (option ResourceSignature);
  strict_ShieldConfig : string -> res unit;
  strict_SignerConfig : string -> res (option SignerConfigRes);
  strict_HRM : string -> res unit
}.

Section validation.
Context `{StrictDecoders}.

(** A [(bool, error)] pair: the boolean is the absence of the error. *)
Definition ValidateResourceSigningProfile (reqc : ReqContext) (shieldNamespace : string) : go (res unit) :=
  match strict_RSP (default "" (rc_RawObject reqc)) with
  | Err e => Ret (Err e)
  | Ok data =>
      if bool_decide (rc_Namespace reqc = shieldNamespace) then Ret (Ok tt)
      else match data with
           | None => Panic
           | Some data =>
               match rsps_TargetNamespaceSelector (rsp_Spec data) with
               | Some _ => Ret (Err (ProfileCustomResourceKind +:+ ".Spec.TargetNamespaceSelector is allowed only for " +:+
                                     ProfileCustomResourceKind +:+ " in " +:+ shieldNamespace +:+ "."))
               | None => Ret (Ok tt)
               end
           end
  end.

Definition required_labels : list string := [ResSigLabelApiVer; ResSigLabelKind; ResSigLabelTime].

Definition ValidateResourceSignature (reqc : ReqContext) : go (res unit) :=
  match strict_RS (default "" (rc_RawObject reqc)) with
  | Err e => Ret (Err e)
  | Ok None => Panic
  | Ok (Some data) =>
      if Nat.ltb 1 (length (rsig_Data data)) then
        Ret (Err ("Only 1 signature data can be defined in 1 " +:+ SignatureCustomResourceKind +:+ "."))
      else
        let labels := om_Labels (rsig_meta data) in
        let missingLabels := (fun k => dquote_str +:+ k +:+ dquote_str) <$>
                               List.filter (fun k => bool_decide (labels !! k = None)) required_labels in
        if Nat.ltb 0 (length missingLabels) then
          Ret (Err ("Required label " +:+ Join missingLabels ", " +:+ " is missing."))
        else Ret (Ok tt)
  end.

Definition ValidateShieldConfig (reqc : ReqContext) : go (res unit) := Ret (strict_ShieldConfig (default "" (rc_RawObject reqc))).
Definition ValidateHelmReleaseMetadata (reqc : ReqContext) : go (res unit) := Ret (strict_HRM (default "" (rc_RawObject reqc))).

(** The first signer without subjects. *)
Fixpoint empty_subjects (i : nat) (signers : list SignerCondition) : option nat :=
  match signers with
  | [] => None
  | s :: signers' => match sc_Subjects s with [] => Some i | _ => empty_subjects (S i) signers' end
  end.

Definition ValidateSignerConfig (reqc : ReqContext) : go (res unit) :=
  match strict_SignerConfig (default "" (rc_RawObject reqc)) with
  | Err e => Ret (Err e)
  | Ok None => Panic
  | Ok (Some data) =>
      match scr_Config data with
      | None => Ret (Err "`spec.config` in SignerConfig is empty.")
      | Some config =>
          if Nat.eqb (length (sgc_Signers config)) 0 then Ret (Err "`spec.config.signers` in SignerConfig is empty.")
          else match empty_subjects 0 (sgc_Signers config) with
               | Some i => Ret (Err ("`spec.config.signers[" +:+ Itoa i +:+ "].subjects` in SignerConfig is empty."))
               | None => Ret (Ok tt)
               end
      end
  end.

Definition validation_result (r : go (res unit)) : go (bool * string) :=
  match r with
  | Panic => Panic
  | Ret (Ok _) => Ret (true, "")
  | Ret (Err e) => Ret (false, "Format validation failed; " +:+ e)
  end.

(** [ValidateResource].  Two of the kinds are compared with API version strings. *)
Definition ValidateResource (reqc : ReqContext) (shieldNamespace : string) : go (bool * string) :=
  if IsDeleteRequest reqc then Ret (true, "")
  else if bool_decide (rc_Kind reqc = ProfileCustomResourceKind)
  then validation_result (ValidateResourceSigningProfile reqc shieldNamespace)
  else if bool_decide (rc_Kind reqc = SignatureCustomResourceKind)
  then validation_result (ValidateResourceSignature reqc)
  else if bool_decide (rc_Kind reqc = ShieldConfigCustomResourceAPIVersion)
  then validation_result (ValidateShieldConfig reqc)
  else if bool_decide (rc_Kind reqc = SignerConfigCustomResourceKind)
  then validation_result (ValidateSignerConfig reqc)
  else if bool_decide (rc_Kind reqc = HelmReleaseMetadataCustomResourceAPIVersion)
  then validation_result (ValidateHelmReleaseMetadata reqc)
  else Ret (true, "").

(** ** Facts *)

Lemma empty_subjects_None i l : empty_subjects i l = None <-> Forall (fun s => sc_Subjects s <> []) l.
Proof.
  revert i. induction l as [|s l IH]; intros i; cbn; [split; [constructor|done]|].
  rewrite Forall_cons. destruct (sc_Subjects s) eqn:E; [naive_solver|]. rewrite IH. naive_solver.
Qed.

(** A signer configuration or resource signature that passes validation is
    usable: the configuration exists, names a signer, and every signer has a
    subject; the signature has at most one item and the three labels the loader
    and the ordering by time rely on. *)
Theorem ValidateResource_sound reqc shieldNamespace msg :
  ValidateResource reqc shieldNamespace = Ret (true, msg) -> IsDeleteRequest reqc = false ->
  (rc_Kind reqc = SignerConfigCustomResourceKind ->
     exists sc config, strict_SignerConfig (default "" (rc_RawObject reqc)) = Ok (Some sc) /\ scr_Config sc = Some config /\
       sgc_Signers config <> [] /\ Forall (fun s => sc_Subjects s <> []) (sgc_Signers config)) /\
  (rc_Kind reqc = SignatureCustomResourceKind ->
     exists rs, strict_RS (default "" (rc_RawObject reqc)) = Ok (Some rs) /\ length (rsig_Data rs) <= 1 /\
       Forall (fun k => om_Labels (rsig_meta rs) !! k <> None) required_labels).
Proof.
  unfold ValidateResource. intros Hv Hd. rewrite Hd in Hv. split; intros Hk; rewrite Hk in Hv.
  - repeat (rewrite bool_decide_eq_false_2 in Hv by discriminate). rewrite bool_decide_eq_true_2 in Hv by done.
    unfold ValidateSignerConfig in Hv. destruct (strict_SignerConfig _) as [[sc|]|]; try done.
    destruct (scr_Config sc) as [config|] eqn:Ec; [|done].
    destruct (sgc_Signers config) as [|s l] eqn:Es; [done|]. cbn [length Nat.eqb] in Hv.
    destruct (empty_subjects 0 (s :: l)) eqn:Ee; [done|]. apply empty_subjects_None in Ee.
    exists sc, config. rewrite Es. split; [done|]. split; [done|]. split; [discriminate|done].
  - repeat (rewrite bool_decide_eq_false_2 in Hv by discriminate). rewrite bool_decide_eq_true_2 in Hv by done.
    unfold ValidateResourceSignature in Hv. destruct (strict_RS _) as [[rs|]|]; try done.
    destruct (Nat.ltb 1 _) eqn:El; [done|]. apply Nat.ltb_ge in El.
    destruct (Nat.ltb 0 _) eqn:Em; [done|]. apply Nat.ltb_ge in Em. rewrite length_fmap in Em.
    exists rs. split; [done|]. split; [done|]. apply Forall_forall. intros k Hin Hn.
    assert (k ∈ List.filter (fun k => bool_decide (om_Labels (rsig_meta rs) !! k = None)) required_labels) as Hf.
    { apply list_elem_of_In, filter_In. split; [by apply list_elem_of_In|]. by apply bool_decide_eq_true. }
    destruct (List.filter _ required_labels); [by apply elem_of_nil in Hf|cbn in Em; lia].
Qed.

(** The formats of a [ShieldConfig] and of a helm release metadata resource
    are never validated: their kinds are compared with API version strings. *)
Theorem two_kinds_never_validated reqc shieldNamespace :
  rc_Kind reqc = ShieldConfigCustomResourceKind \/ rc_Kind reqc = HelmReleaseMetadataCustomResourceKind ->
  ValidateResource reqc shieldNamespace = Ret (true, "").
Proof.
  intros Hk. unfold ValidateResource. destruct (IsDeleteRequest reqc); [done|].
  destruct Hk as [-> | ->]; repeat (rewrite bool_decide_eq_false_2 by discriminate); done.
Qed.
End validation.

(** ** Concrete instances *)

(** Decoders that read two of the types from fixed texts and reject the rest. *)
Definition sample_strict : StrictDecoders := {|
  strict_RSP _ := Ok (Some emptyRSP);
  strict_RS _ := Err "unknown field";
  strict_ShieldConfig _ := Err "unknown field";
  strict_SignerConfig raw := if bool_decide (raw = "config") then Ok (Some (mkSignerConfigRes emptyMeta (Some sample_config)))
                             else Ok (Some emptySignerConfigRes);
  strict_HRM _ := Err "unknown field" |}.
Definition own_request (kind raw : string) : ReqContext :=
  mkReqContext "Namespaced" false (Some raw) None "" "uid" "ishield" "res" "apis.integrityshield.io" "v1alpha1" kind
    "CREATE" sample_meta sample_meta "" "" "" "admin" [] "" "" "".

Lemma ValidateResource_sound_witness :
  exists sc config, @strict_SignerConfig sample_strict "config" = Ok (Some sc) /\ scr_Config sc = Some config /\
    sgc_Signers config <> [] /\ Forall (fun s => sc_Subjects s <> []) (sgc_Signers config).
Proof.
  apply (@ValidateResource_sound sample_strict (own_request "SignerConfig" "config") "ishield" ""); vm_compute; reflexivity.
Defined.

Lemma two_kinds_never_validated_witness :
  @strict_ShieldConfig sample_strict "garbage" = Err "unknown field" /\
  @ValidateResource sample_strict (own_request "ShieldConfig" "garbage") "ishield" = Ret (true, "").
Proof.
  split; [reflexivity|].
  apply (@two_kinds_never_validated sample_strict (own_request "ShieldConfig" "garbage") "ishield"). left. reflexivity.
Defined.
