(* ===== verification/CheckContext.v ===== *)
(** * Check context, decisions and patches  ([checkcontext.go], [decisionResult.go],
      [utilPatch.go] of [shield/pkg/shield]) *)
From S2P Require Import Prelude GoStrings GoJson Common ReqContext Profile SigningProfile World.
From stdpp Require Import options.

(** ** The check context *)

Record CheckContext := mkCheckContext {
  ctx_DetectOnlyModeEnabled : bool;
  ctx_BreakGlassModeEnabled : bool;
  ctx_IgnoredSA : bool;
  ctx_Protected : bool;
  ctx_IShieldResource : bool;
  ctx_Allow : bool;
  ctx_Verified : bool;
  ctx_Aborted : bool;
  ctx_AbortReason : string;
  ctx_Error : option string;
  ctx_Message : string;
  ctx_SignatureEvalResult : SignatureEvalResult;
  ctx_MutationEvalResult : MutationEvalResult;
  ctx_ReasonCode : nat;
}.

Definition emptySigResult : SignatureEvalResult := mkSignatureEvalResult None "" false false "" "" None.
Definition emptyMutResult : MutationEvalResult := mkMutationEvalResult false "" "" false None.

Definition InitCheckContext : CheckContext :=
  mkCheckContext false false false false false false false false "" None "" emptySigResult emptyMutResult 0.

(** Assignments to several fields at once, as the checks make them. *)
Definition ctx_decide (allow verified : bool) (reason : nat) (msg : string) (c : CheckContext) : CheckContext :=
  mkCheckContext (ctx_DetectOnlyModeEnabled c) (ctx_BreakGlassModeEnabled c) (ctx_IgnoredSA c) (ctx_Protected c)
    (ctx_IShieldResource c) allow verified (ctx_Aborted c) (ctx_AbortReason c) (ctx_Error c) msg
    (ctx_SignatureEvalResult c) (ctx_MutationEvalResult c) reason.
Definition ctx_set_protected (b : bool) (c : CheckContext) : CheckContext :=
  mkCheckContext (ctx_DetectOnlyModeEnabled c) (ctx_BreakGlassModeEnabled c) (ctx_IgnoredSA c) b
    (ctx_IShieldResource c) (ctx_Allow c) (ctx_Verified c) (ctx_Aborted c) (ctx_AbortReason c) (ctx_Error c) (ctx_Message c)
    (ctx_SignatureEvalResult c) (ctx_MutationEvalResult c) (ctx_ReasonCode c).
Definition ctx_set_ishield (c : CheckContext) : CheckContext :=
  mkCheckContext (ctx_DetectOnlyModeEnabled c) (ctx_BreakGlassModeEnabled c) (ctx_IgnoredSA c) (ctx_Protected c)
    true (ctx_Allow c) (ctx_Verified c) (ctx_Aborted c) (ctx_AbortReason c) (ctx_Error c) (ctx_Message c)
    (ctx_SignatureEvalResult c) (ctx_MutationEvalResult c) (ctx_ReasonCode c).
Definition ctx_set_results (sig : option SignatureEvalResult) (mut : option MutationEvalResult) (c : CheckContext) : CheckContext :=
  mkCheckContext (ctx_DetectOnlyModeEnabled c) (ctx_BreakGlassModeEnabled c) (ctx_IgnoredSA c) (ctx_Protected c)
    (ctx_IShieldResource c) (ctx_Allow c) (ctx_Verified c) (ctx_Aborted c) (ctx_AbortReason c) (ctx_Error c) (ctx_Message c)
    (default (ctx_SignatureEvalResult c) sig) (default (ctx_MutationEvalResult c) mut) (ctx_ReasonCode c).
Definition ctx_set_mode (detect breakGlass : bool) (c : CheckContext) : CheckContext :=
  mkCheckContext (ctx_DetectOnlyModeEnabled c || detect) (ctx_BreakGlassModeEnabled c || breakGlass) (ctx_IgnoredSA c)
    (ctx_Protected c) (ctx_IShieldResource c) (ctx_Allow c) (ctx_Verified c) (ctx_Aborted c) (ctx_AbortReason c) (ctx_Error c)
    (ctx_Message c) (ctx_SignatureEvalResult c) (ctx_MutationEvalResult c) (ctx_ReasonCode c).

(** ** The log record *)

Definition format_bool (b : bool) : string := if b then "true" else "false".

Definition error_fields (prefix : string) (e : option CheckError) : list (string * logval) :=
  match e with
  | Some e =>
      [(prefix +:+ ".errOccured", LBool true); (prefix +:+ ".errMsg", LStr (ce_Msg e)); (prefix +:+ ".errReason", LStr (ce_Reason e))] ++
      match ce_Error e with Some err => [(prefix +:+ ".error", LStr err)] | None => [] end
  | None => [(prefix +:+ ".errOccured", LBool false)]
  end.

(** [convertToLogRecord] at the given time stamp. *)
Definition convertToLogRecord (self : CheckContext) (reqc : ReqContext) (ts : string) : list (string * logval) :=
  [("namespace", LStr (rc_Namespace reqc)); ("name", LStr (rc_Name reqc)); ("apiGroup", LStr (rc_ApiGroup reqc));
   ("apiVersion", LStr (rc_ApiVersion reqc)); ("kind", LStr (rc_Kind reqc)); ("operation", LStr (rc_Operation reqc));
   ("userInfo", LStr (rc_UserInfo reqc)); ("objLabels", LStr (rc_ObjLabels reqc)); ("objMetaName", LStr (rc_ObjMetaName reqc));
   ("userName", LStr (rc_UserName reqc)); ("request.uid", LStr (rc_RequestUid reqc)); ("type", LStr (rc_Type reqc));
   ("request.dump", LStr ""); ("requestScope", LStr (rc_ResourceScope reqc));
   ("ignoreSA", LBool (ctx_IgnoredSA self)); ("protected", LBool (ctx_Protected self));
   ("iShieldResource", LBool (ctx_IShieldResource self)); ("allowed", LBool (ctx_Allow self));
   ("verified", LBool (ctx_Verified self)); ("aborted", LBool (ctx_Aborted self)); ("abortReason", LStr (ctx_AbortReason self));
   ("msg", LStr (ctx_Message self)); ("breakglass", LBool (ctx_BreakGlassModeEnabled self));
   ("detectOnly", LBool (ctx_DetectOnlyModeEnabled self)); ("reasonCode", LStr (rc_Code (ReasonCodeMap (ctx_ReasonCode self))))] ++
  match ctx_Error self with Some e => [("error", LStr e)] | None => [] end ++
  (let r := ctx_SignatureEvalResult self in
   match ser_Signer r with
   | Some s => [("sig.signer.email", LStr (si_Email s)); ("sig.signer.name", LStr (si_Name s));
                ("sig.signer.comment", LStr (si_Comment s)); ("sig.signer.fingerprint", LBytes (si_Fingerprint s));
                ("sig.signer.displayName", LStr (GetSignerName r))]
   | None => []
   end ++
   [("sig.allow", LBool (ser_Allow r))] ++ error_fields "sig" (ser_Error r)) ++
  (let r := ctx_MutationEvalResult self in
   error_fields "ma" (mer_Error r) ++
   [("ma.mutated", LStr (format_bool (mer_IsMutated r))); ("ma.diff", LStr (mer_Diff r));
    ("ma.filtered", LStr (mer_Filtered r)); ("ma.checked", LStr (format_bool (mer_Checked r)))]) ++
  [("request.objectHashType", LStr (rc_ObjectHashType reqc)); ("request.objectHash", LStr (rc_ObjectHash reqc));
   ("timestamp", LStr ts)].

(** ** Decisions *)

Record DecisionResult := mkDecisionResult {
  dr_Type : DecisionType;
  dr_Verified : bool;
  dr_ReasonCode : nat;
  dr_Message : string;
  dr_denyRSP : option ResourceSigningProfile;
}.

Definition undeterminedDescision : DecisionResult := mkDecisionResult DecisionUndetermined false 0 "" None.
Definition isAllowed (self : DecisionResult) : bool := bool_decide (dr_Type self = DecisionAllow).
Definition isDenied (self : DecisionResult) : bool := bool_decide (dr_Type self = DecisionDeny).
Definition isUndetermined (self : DecisionResult) : bool := bool_decide (dr_Type self = DecisionUndetermined).
Definition isErrorOccurred (self : DecisionResult) : bool := bool_decide (dr_Type self = DecisionError).

Definition allow_with (verified : bool) (reason : nat) (msg : string) : DecisionResult :=
  mkDecisionResult DecisionAllow verified reason msg None.
Definition deny_with_reason (reason : nat) (msg : string) : DecisionResult :=
  mkDecisionResult DecisionDeny false reason msg None.

(** ** Patches *)

(** The value of an operation: absent, a name, or a string map. *)
Inductive patch_value := PNone | PStr (s : string) | PMap (m : gmap string string).
Record PatchOperation := mkPatchOperation { po_Op : string; po_Path : string; po_Value : patch_value }.

(** [json.Marshal] of a [map\[string\]string] sorts its keys. *)
Fixpoint insert_entry (kv : string * string) (l : list (string * string)) : list (string * string) :=
  match l with
  | [] => [kv]
  | kv' :: l' => if String.ltb kv'.1 kv.1 then kv' :: insert_entry kv l' else kv :: l
  end.
Definition sorted_entries (m : gmap string string) : list (string * string) := foldr insert_entry [] (map_to_list m).

Definition marshal_operation (o : PatchOperation) : string :=
  let field k v := marshal_str k +:+ ":" +:+ v in
  "{" +:+ Join ([field "op" (marshal_str (po_Op o)); field "path" (marshal_str (po_Path o))] ++
                match po_Value o with
                | PNone => []
                | PStr s => [field "value" (marshal_str s)]
                | PMap m => [field "value" (marshal_strmap (sorted_entries m))]
                end) "," +:+ "}".
Definition marshal_patch (l : list PatchOperation) : string := "[" +:+ Join (marshal_operation <$> l) "," +:+ "]".

Section patch.
Context `{Gjson}.

(** The operations for the labels or for the annotations of an object that has
    metadata: the listed keys are removed, then the whole map is written. *)
Definition patch_map (path reqJson gpath : string) (wanted : gmap string string) (deleteKeys : list string) : list PatchOperation :=
  match gjson_Get reqJson gpath with
  | Some data =>
      let removes := (fun key => mkPatchOperation "remove" (path +:+ "/" +:+ key) PNone) <$>
                       List.filter (gr_Has data) deleteKeys in
      let old := default ∅ (gr_StringFields data) in
      let addMap := filter (fun kv => gr_Has data kv.1 = false) wanted ∪ old in
      removes ++ (if Nat.ltb 0 (size addMap) then [mkPatchOperation "add" path (PMap addMap)] else [])
  | None => [mkPatchOperation "add" path (PMap wanted)]
  end.

Definition has_metadata (reqJson : string) : bool :=
  match gjson_Get reqJson "metadata" with Some _ => true | None => false end.

(** The operations of [createJSONPatchBytes]. *)
Definition createJSONPatch (name reqJson : string) (labels annotations : gmap string string) (deleteKeys : list string)
  : list PatchOperation :=
  (if Nat.ltb 0 (size labels) then
     if has_metadata reqJson then patch_map "/metadata/labels" reqJson "metadata.labels" labels deleteKeys
     else [mkPatchOperation "add" "/metadata/name" (PStr name); mkPatchOperation "add" "/metadata/labels" (PMap labels)]
   else []) ++
  (if Nat.ltb 0 (size annotations) then
     if has_metadata reqJson then patch_map "/metadata/annotations" reqJson "metadata.annotations" annotations deleteKeys
     else [mkPatchOperation "add" "/metadata/annotations" (PMap annotations)]
   else []).

Definition createJSONPatchBytes (name reqJson : string) (labels annotations : gmap string string) (deleteKeys : list string)
  : option string :=
  match createJSONPatch name reqJson labels annotations deleteKeys with
  | [] => None
  | patch => Some (marshal_patch patch)
  end.

(** The label a request earns, if any. *)
Definition verifyResultLabel (ctx : CheckContext) : string :=
  let sigResult := ctx_SignatureEvalResult ctx in
  if ser_Checked sigResult && ser_Allow sigResult then LabelValueVerified
  else if ctx_BreakGlassModeEnabled ctx && negb (ser_Checked sigResult && ser_Allow sigResult) then LabelValueUnverified
  else "".

Definition patch_labels (ctx : CheckContext) : gmap string string := {[ResourceIntegrityLabelKey := verifyResultLabel ctx]}.

Definition patch_annotations (ctx : CheckContext) (now : string) : gmap string string :=
  let sigResult := ctx_SignatureEvalResult ctx in
  if bool_decide (verifyResultLabel ctx = LabelValueVerified) then
    let a : gmap string string := {[LastVerifiedTimestampAnnotationKey := now]} in
    let a := if bool_decide (ser_SignerName sigResult = "") then a else <[SignedByAnnotationKey := ser_SignerName sigResult]> a in
    if bool_decide (ser_ResourceSignatureUID sigResult = "") then a
    else <[ResourceSignatureUIDAnnotationKey := ser_ResourceSignatureUID sigResult]> a
  else ∅.

Definition patchDeleteKeys : list string :=
  [ResourceIntegrityLabelKey; LastVerifiedTimestampAnnotationKey; SignedByAnnotationKey; ResourceSignatureUIDAnnotationKey].

(** [generatePatchBytes] at the given time. *)
Definition generatePatchBytes (reqc : ReqContext) (ctx : CheckContext) (now : string) : option string :=
  if negb (ctx_Allow ctx) then None
  else if bool_decide (verifyResultLabel ctx = "") then None
  else createJSONPatchBytes (rc_Name reqc) (default "" (rc_RawObject reqc)) (patch_labels ctx) (patch_annotations ctx now)
         patchDeleteKeys.

(** ** Facts *)

(** The labels a list of operations leaves: the last map written to them. *)
Definition written_labels (ops : list PatchOperation) : option (gmap string string) :=
  foldl (fun acc o => match po_Value o with
                      | PMap m => if bool_decide (po_Op o = "add") && bool_decide (po_Path o = "/metadata/labels") then Some m else acc
                      | _ => acc
                      end) None ops.

Lemma written_other ops acc :
  Forall (fun o => po_Path o <> "/metadata/labels" \/ po_Op o <> "add") ops ->
  foldl (fun acc o => match po_Value o with
                      | PMap m => if bool_decide (po_Op o = "add") && bool_decide (po_Path o = "/metadata/labels") then Some m else acc
                      | _ => acc
                      end) acc ops = acc.
Proof.
  induction 1 as [|o ops Ho _ IH]; [done|]. cbn. destruct (po_Value o); try done.
  replace (bool_decide (po_Op o = "add") && bool_decide (po_Path o = "/metadata/labels")) with false; [done|].
  symmetry. apply andb_false_iff. destruct Ho; [right|left]; by apply bool_decide_eq_false.
Qed.

Lemma patch_map_other path reqJson gpath m ks :
  path <> "/metadata/labels" -> (forall k, path +:+ "/" +:+ k <> "/metadata/labels") ->
  Forall (fun o => po_Path o <> "/metadata/labels" \/ po_Op o <> "add") (patch_map path reqJson gpath m ks).
Proof.
  intros Hp Hk. unfold patch_map. destruct (gjson_Get reqJson gpath) as [data|]; [|apply Forall_singleton; by left].
  apply Forall_app. split.
  - apply Forall_fmap, Forall_forall. intros k _. left. apply Hk.
  - destruct (Nat.ltb _ _); [apply Forall_singleton; by left|constructor].
Qed.

(** The labels written when the object has no readable integrity label of its own. *)
Lemma patch_map_labels reqJson m ks k v :
  m !! k = Some v ->
  (forall data, gjson_Get reqJson "metadata.labels" = Some data -> gr_Has data k = false) ->
  exists m', written_labels (patch_map "/metadata/labels" reqJson "metadata.labels" m ks) = Some m' /\ m' !! k = Some v.
Proof.
  intros Hm Hh. unfold patch_map. destruct (gjson_Get reqJson "metadata.labels") as [data|]; [|by exists m].
  specialize (Hh data eq_refl). set (addMap := filter _ m ∪ _).
  assert (addMap !! k = Some v) as Hk.
  { unfold addMap. apply lookup_union_Some_l. by apply map_lookup_filter_Some. }
  exists addMap. split; [|done]. unfold written_labels. rewrite foldl_app, (written_other (_ <$> _)).
  - destruct (size addMap) eqn:Hz; [|done].
    apply map_size_empty_inv in Hz. by rewrite Hz, lookup_empty in Hk.
  - apply Forall_fmap, Forall_forall. intros x _. cbn. by right.
Qed.

(** The label that stands for the evaluation of the signature. *)
Definition verdict (r : SignatureEvalResult) : string :=
  if ser_Checked r && ser_Allow r then LabelValueVerified else LabelValueUnverified.

Lemma verifyResultLabel_verdict ctx :
  verifyResultLabel ctx <> "" -> verifyResultLabel ctx = verdict (ctx_SignatureEvalResult ctx).
Proof.
  unfold verifyResultLabel, verdict. destruct (ser_Checked _ && ser_Allow _); [done|].
  by destruct (ctx_BreakGlassModeEnabled ctx).
Qed.

Lemma written_app_other o1 o2 :
  Forall (fun o => po_Path o <> "/metadata/labels" \/ po_Op o <> "add") o2 -> written_labels (o1 ++ o2) = written_labels o1.
Proof. intros Ho. unfold written_labels. by rewrite foldl_app, (written_other o2). Qed.

Lemma createJSONPatch_labels name reqJson labels annotations ks k v :
  labels !! k = Some v ->
  (forall data, gjson_Get reqJson "metadata.labels" = Some data -> gr_Has data k = false) ->
  exists m, written_labels (createJSONPatch name reqJson labels annotations ks) = Some m /\ m !! k = Some v.
Proof.
  intros Hk Hh. unfold createJSONPatch. rewrite written_app_other.
  - destruct (size labels) eqn:Hz; cbn [Nat.ltb Nat.leb].
    { apply map_size_empty_inv in Hz. subst. by rewrite lookup_empty in Hk. }
    destruct (has_metadata reqJson); [by apply patch_map_labels|by exists labels].
  - destruct (Nat.ltb _ _); [|constructor]. destruct (has_metadata _); [|apply Forall_singleton; by left].
    by apply patch_map_other.
Qed.

(** C33: a patch carries the shield's own verdict: it is made for allowed requests
    only, and unless the object already has a label the JSON library finds under
    that key, the integrity label it writes is [verified] exactly when a checked
    signature was accepted, and [unverified] otherwise. *)
Theorem patch_label_is_verdict reqc ctx now bytes :
  generatePatchBytes reqc ctx now = Some bytes ->
  (forall data, gjson_Get (default "" (rc_RawObject reqc)) "metadata.labels" = Some data ->
     gr_Has data ResourceIntegrityLabelKey = false) ->
  ctx_Allow ctx = true /\
  exists ops m, bytes = marshal_patch ops /\ written_labels ops = Some m /\
    m !! ResourceIntegrityLabelKey = Some (verdict (ctx_SignatureEvalResult ctx)).
Proof.
  intros Hb Hh. unfold generatePatchBytes in Hb. destruct (ctx_Allow ctx); [|done].
  split; [done|]. cbn [negb] in Hb. destruct (bool_decide_reflect (verifyResultLabel ctx = "")) as [|Hl]; [done|].
  apply verifyResultLabel_verdict in Hl.
  destruct (createJSONPatch_labels (rc_Name reqc) (default "" (rc_RawObject reqc)) (patch_labels ctx) (patch_annotations ctx now)
    patchDeleteKeys ResourceIntegrityLabelKey (verdict (ctx_SignatureEvalResult ctx))) as (m & Hw & Hm); [|done|].
  { unfold patch_labels. by rewrite Hl, lookup_singleton_eq. }
  unfold createJSONPatchBytes in Hb. destruct (createJSONPatch _ _ _ _ _) as [|o ops]; [done|].
  injection Hb as <-. by exists (o :: ops), m.
Qed.
End patch.

(** ** Concrete instances *)

(** A JSON reader for objects that have metadata without labels and annotations. *)
Definition sample_gjson : Gjson := {|
  gjson_Get _ path := if bool_decide (path = "metadata") then Some (mkGjsonResult "{}" [] ∅ (Some ∅) (fun _ => false)) else None;
  marshal_request _ := None |}.
Definition allowed_context (checked : bool) : CheckContext :=
  mkCheckContext false true false true false true false false "" None ""
    (mkSignatureEvalResult None "alice" checked true "" "" None) emptyMutResult REASON_VALID_SIG.

Lemma patch_label_is_verdict_witness :
  exists ops m, @generatePatchBytes sample_gjson cluster_request (allowed_context true) "now" = Some (marshal_patch ops) /\
    written_labels ops = Some m /\ m !! ResourceIntegrityLabelKey = Some LabelValueVerified.
Proof.
  destruct (@generatePatchBytes sample_gjson cluster_request (allowed_context true) "now") as [bytes|] eqn:E;
    [|vm_compute in E; discriminate].
  destruct (@patch_label_is_verdict sample_gjson cluster_request (allowed_context true) "now" bytes E) as (_ & ops & m & Hb & Hw & Hm).
  - intros data Hd. vm_compute in Hd. discriminate.
  - exists ops, m. rewrite Hb. split; [reflexivity|]. split; [exact Hw|exact Hm].
Defined.
