(* ===== verification/Check.v ===== *)
(** * The checks a request runs through, and the reports about it
      ([checkUtils.go], [checkFunctions.go] of [shield/pkg/shield]) *)
From S2P Require Import Prelude GoStrings GoJson Pattern Common ReqContext Profile SigningProfile Policy ShieldConfig.
From S2P Require Import MapNode Diff Mutation RuleTable Signing ResourceSignature SignVerifier Sign World Loader Validation CheckContext.
From stdpp Require Import options.

(** ** Who asks, and for what *)

Definition getRequestNamespace (req : AdmissionRequest) : string :=
  if negb (bool_decide (gvk_Kind (ar_Kind req) = "Namespace")) && negb (bool_decide (ar_Namespace req = ""))
  then ar_Namespace req else "".

Definition getRequestNamespaceFromReqContext (reqc : ReqContext) : string :=
  if negb (bool_decide (rc_Kind reqc = "Namespace")) && negb (bool_decide (rc_Namespace reqc = ""))
  then rc_Namespace reqc else "".

Definition checkIfInScopeNamespace (reqNamespace : string) (config : ShieldConfig) : bool :=
  match cfg_InScopeNamespaceSelector config with
  | None => false
  | Some sel => MatchNamespaceName sel reqNamespace
  end.

Definition checkIfDryRunAdmission (reqc : ReqContext) : bool := rc_DryRun reqc.

Definition checkIfUnprocessedInIShield (reqc : ReqContext) (config : ShieldConfig) : bool :=
  existsb (fun d => RequestPattern_Match d (ReqMap reqc)) (cfg_Ignore config).

Definition olm_operator : string := "system:serviceaccount:openshift-operator-lifecycle-manager:olm-operator-serviceaccount".

Definition checkIfIShieldAdminRequest (reqc : ReqContext) (config : ShieldConfig) : bool :=
  let groupMatched := negb (bool_decide (cfg_IShieldAdminUserGroup config = "")) &&
                      MatchPatternWithArray (cfg_IShieldAdminUserGroup config) (rc_UserGroups reqc) in
  let userMatched := negb (bool_decide (cfg_IShieldAdminUserName config = "")) &&
                     MatchPattern (cfg_IShieldAdminUserName config) (rc_UserName reqc) in
  let userMatched := if MatchPattern olm_operator (rc_UserName reqc) then true else userMatched in
  groupMatched || userMatched.

Definition checkIfIShieldServerRequest (reqc : ReqContext) (config : ShieldConfig) : bool :=
  MatchPattern (cfg_IShieldServerUserName config) (rc_UserName reqc).

(** Reads through [IShieldResourceCondition]. *)
Definition checkIfIShieldOperatorRequest (reqc : ReqContext) (config : ShieldConfig) : go bool :=
  match cfg_IShieldResourceCondition config with
  | None => Panic
  | Some c => Ret (ExactMatch (irc_OperatorServiceAccount c) (rc_UserName reqc))
  end.

Definition checkIfGarbageCollectorRequest (reqc : ReqContext) : bool :=
  bool_decide (rc_UserName reqc = "system:serviceaccount:kube-system:generic-garbage-collector").

Definition special_prefixes : list string :=
  ["system:serviceaccount:kube-"; "system:serviceaccount:openshift-"; "system:serviceaccount:openshift:";
   "system:serviceaccount:open-cluster-"; "system:serviceaccount:olm:"].

Definition checkIfSpecialServiceAccountRequest (reqc : ReqContext) : bool :=
  existsb (HasPrefix (rc_UserName reqc)) special_prefixes.

(** ** Modes *)

(** A resource without [Spec.Config] is read through. *)
Definition getBreakGlassConditions (signerConfig : option SignerConfigRes) : go (list BreakGlassCondition) :=
  match signerConfig with
  | None => Ret []
  | Some sc => match scr_Config sc with
               | None => Panic
               | Some c => Ret (sgc_BreakGlass c)
               end
  end.

Definition break_glass (reqc : ReqContext) (conditions : list BreakGlassCondition) : bool :=
  if bool_decide (rc_ResourceScope reqc = "Namespaced") then
    existsb (fun d => (bool_decide (bgc_Scope d = ScopeUndefined) || bool_decide (bgc_Scope d = ScopeNamespaced)) &&
                      existsb (fun ns => bool_decide (rc_Namespace reqc = ns)) (bgc_Namespaces d)) conditions
  else existsb (fun d => bool_decide (bgc_Scope d = ScopeCluster)) conditions.

Definition checkIfBreakGlassEnabled (reqc : ReqContext) (signerConfig : option SignerConfigRes) : go bool :=
  conditions ← getBreakGlassConditions signerConfig;
  Ret (break_glass reqc conditions).

Definition checkIfDetectOnly (sconf : ShieldConfig) : bool := bool_decide (cfg_Mode sconf = DetectMode).

Record AdmissionResponse := mkAdmissionResponse { resp_Allowed : bool; resp_Message : string; resp_Patch : option string }.

Definition metadataTimestampFormat : string := "2006-01-02T15:04:05Z".
Definition layout : string := "2006-01-02 15:04:05".

Section checks.
Context `{Cluster, K8sApi, TimeFmt, Gjson, StrictDecoders}.
Context `{!ListCodec ResourceSigningProfile, !ListCodec Namespace, !ListCodec SignerConfigRes, !ListCodec ResourceSignature}.
Context `{DiffLib, FloatFmt, YamlLib, !ManifestLib, JsonLib, KubeUtil, PgpLib, X509Lib, HelmPlugin, PolicyJson}.
Context (json_error : string -> string).

(** ** The response *)

(** The clock is read once, before the patch is made. *)
Definition createAdmissionResponse (allowed : bool) (msg : string) (reqc : ReqContext) (ctx : CheckContext) (conf : ShieldConfig)
  : M AdmissionResponse :=
  t ← now;
  let patchBytes := if PatchEnabled conf reqc then generatePatchBytes reqc ctx (UTC_Format metadataTimestampFormat t) else None in
  mret (mkAdmissionResponse allowed (msg +:+ " (Request: " +:+ Info reqc +:+ ")") patchBytes).

(** ** Events and statuses *)

Definition sourceName : string := "IntegrityShield".

Definition eventName (reqc : ReqContext) (ctx : CheckContext) : string :=
  "ishield-" +:+ (if ctx_Allow ctx then "allow" else "deny") +:+ "-" +:+ ToLower (rc_Operation reqc) +:+ "-" +:+
  ToLower (rc_Kind reqc) +:+ "-" +:+ rc_Name reqc.

Definition eventNamespace (reqc : ReqContext) (sconfig : ShieldConfig) : string :=
  if bool_decide (rc_ResourceScope reqc = "Cluster") then cfg_Namespace sconfig else rc_Namespace reqc.

Definition involvedObject (reqc : ReqContext) (sconfig : ShieldConfig) : ObjectReference :=
  if bool_decide (rc_ResourceScope reqc = "Cluster")
  then mkObjectReference (cfg_Namespace sconfig) IShieldCustomResourceAPIVersion IShieldCustomResourceKind (cfg_IShieldCRName sconfig)
  else mkObjectReference (rc_Namespace reqc) (GroupVersion reqc) (rc_Kind reqc) (rc_Name reqc).

(** The event before its message is set. *)
Definition newEvent (reqc : ReqContext) (ctx : CheckContext) (sconfig : ShieldConfig) (t : Z) : Event :=
  let evtName := eventName reqc ctx in
  mkEvent evtName
    [(EventTypeAnnotationKey, EventTypeValueVerifyResult);
     (EventResultAnnotationKey, if ctx_Allow ctx then EventResultValueAllow else EventResultValueDeny)]
    (involvedObject reqc sconfig) sourceName sourceName sourceName evtName evtName t "" "" 0 0 0.

Definition trimmed : string := " ... Trimmed. `Event.Message` can have 1024 chars at maximum.".

(** The Go slice [tmpMessage\[:950\]] and the note. *)
Definition trimMessage (tmpMessage : string) : string :=
  if Nat.ltb 1024 (String.length tmpMessage) then str_take 950 tmpMessage +:+ trimmed else tmpMessage.

Definition eventMessage (reqc : ReqContext) (ctx : CheckContext) (denyRSP : option ResourceSigningProfile) : string :=
  let rspInfo := match denyRSP with
                 | Some r => " (RSP `namespace: " +:+ om_Namespace (rsp_meta r) +:+ ", name: " +:+ om_Name (rsp_meta r) +:+ "`)"
                 | None => ""
                 end in
  trimMessage ("[IntegrityShieldEvent] Result: " +:+ (if ctx_Allow ctx then "allow" else "deny") +:+ ", Reason: " +:+
               dquote_str +:+ ctx_Message ctx +:+ dquote_str +:+ rspInfo +:+ ", Request: " +:+ Info reqc).

Definition touchEvent (evt : Event) (message reason : string) (t : Z) : Event :=
  mkEvent (evt_Name evt) (evt_Annotations evt) (evt_InvolvedObject evt) (evt_Type evt) (evt_Source evt)
    (evt_ReportingController evt) (evt_ReportingInstance evt) (evt_Action evt) (evt_FirstTimestamp evt)
    message reason (S (evt_Count evt)) t t.

(** [createOrUpdateEvent]: the error, if any. *)
Definition createOrUpdateEvent (reqc : ReqContext) (ctx : CheckContext) (sconfig : ShieldConfig)
    (denyRSP : option ResourceSigningProfile) : M (option string) :=
  match kube_config with
  | Err e => mret (Some e)
  | Ok _ =>
      t ← now;
      let evtNamespace := eventNamespace reqc sconfig in
      current ← call (fun t => get_Event t evtNamespace (eventName reqc ctx));
      let evt := touchEvent (default (newEvent reqc ctx sconfig t) current) (eventMessage reqc ctx denyRSP)
                   (rc_Code (ReasonCodeMap (ctx_ReasonCode ctx))) t in
      r ← call (fun t => put_Event t evtNamespace evt);
      match r with
      | Err e => mret (Some e)
      | Ok _ => _ ← emit (match current with Some _ => UpdateEvent evtNamespace evt | None => CreateEvent evtNamespace evt end);
                mret None
      end
  end.

(** [RSPLoader.UpdateStatus]: the profile is read, its status extended and
    written back; the error, if any. *)
Definition RSPLoader_UpdateStatus (rsp : ResourceSigningProfile) (reqc : ReqContext) (errMsg : string) : M (option string) :=
  let rspNamespace := om_Namespace (rsp_meta rsp) in
  let rspName := om_Name (rsp_meta rsp) in
  org ← call (fun t => get_RSP t rspNamespace rspName);
  match org with
  | Err e => mret (Some e)
  | Ok rspOrg =>
      t ← now;
      let rspNew := UpdateStatus rspOrg (NewRequestFromReqContext reqc) errMsg (UTC_Format layout t) in
      r ← call (fun t => put_RSP t rspNamespace rspNew);
      match r with
      | Err e => mret (Some e)
      | Ok _ => _ ← emit (UpdateRSP rspNamespace rspName rspNew); mret None
      end
  end.

(** [updateRSPStatus] does the same with a client of its own. *)
Definition updateRSPStatus (rsp : option ResourceSigningProfile) (reqc : ReqContext) (errMsg : string) : M (option string) :=
  match rsp with
  | None => mret None
  | Some rsp =>
      match kube_config with
      | Err e => mret (Some e)
      | Ok _ => RSPLoader_UpdateStatus rsp reqc errMsg
      end
  end.

(** ** The checks *)

(** A check returns its decision and updates the check context and the run data. *)
Definition checked : Type := DecisionResult * CheckContext * RunData.

Definition checkIfProfileTargetNamespace (reqNamespace shieldNamespace : string) (data : RunData) : M (bool * RunData) :=
  r ← GetRuleTable data shieldNamespace;
  let '(ruleTable, data) := r : option RuleTable * RunData in
  mret (match ruleTable with None => false | Some rt => CheckIfTargetNamespace rt reqNamespace end, data).

(** Whether a namespaced request is for a namespace nobody monitors; the rule
    table is loaded only when the configuration does not list the namespace. *)
Definition not_monitored (reqc : ReqContext) (config : ShieldConfig) (data : RunData) : M (bool * RunData) :=
  let reqNamespace := getRequestNamespaceFromReqContext reqc in
  if negb (bool_decide (reqNamespace = "")) && negb (checkIfInScopeNamespace reqNamespace config) then
    r ← checkIfProfileTargetNamespace reqNamespace (cfg_Namespace config) data;
    mret (negb r.1, r.2)
  else mret (false, data).

Definition skip_request (msg : string) (ctx : CheckContext) (data : RunData) : checked :=
  (allow_with false REASON_INTERNAL msg, ctx_decide true (ctx_Verified ctx) REASON_INTERNAL msg ctx, data).

Definition inScopeCheck (reqc : ReqContext) (config : ShieldConfig) (data : RunData) (ctx : CheckContext) : M checked :=
  r ← not_monitored reqc config data;
  let '(out, data) := r : bool * RunData in
  mret (if out then skip_request "this namespace is not monitored" ctx data
        else if checkIfDryRunAdmission reqc then skip_request "request is dry run" ctx data
        else if checkIfUnprocessedInIShield reqc config then skip_request "request is not processed by IShield" ctx data
        else (undeterminedDescision, ctx, data)).

Definition formatCheck (reqc : ReqContext) (config : ShieldConfig) (data : RunData) (ctx : CheckContext) : go checked :=
  r ← ValidateResource reqc (cfg_Namespace config);
  let '(ok, msg) := r : bool * string in
  Ret (if ok then (undeterminedDescision, ctx, data)
       else (deny_with_reason REASON_VALIDATION_FAIL msg,
             ctx_decide false (ctx_Verified ctx) REASON_VALIDATION_FAIL msg ctx, data)).

Definition iShieldResourceCheck (reqc : ReqContext) (config : ShieldConfig) (data : RunData) (ctx : CheckContext) : go checked :=
  match cfg_IShieldResourceCondition config with
  | None => Panic
  | Some cond =>
      let reqRef := ResourceRefOf reqc in
      let iShieldOperatorResource := IsOperatorResource cond reqRef in
      let iShieldServerResource := IsServerResource cond reqRef in
      if negb iShieldOperatorResource && negb iShieldServerResource then Ret (undeterminedDescision, ctx, data)
      else
        let ctx := ctx_set_ishield ctx in
        let adminReq := checkIfIShieldAdminRequest reqc config in
        let serverReq := checkIfIShieldServerRequest reqc config in
        operatorReq ← checkIfIShieldOperatorRequest reqc config;
        let gcReq := checkIfGarbageCollectorRequest reqc in
        let spSAReq := checkIfSpecialServiceAccountRequest reqc in
        Ret (if (iShieldOperatorResource && (adminReq || operatorReq || gcReq || spSAReq)) ||
                (iShieldServerResource && (operatorReq || serverReq || gcReq || spSAReq))
             then (allow_with true REASON_ISHIELD_ADMIN (ReasonMessage REASON_ISHIELD_ADMIN),
                   ctx_decide true true REASON_ISHIELD_ADMIN (ReasonMessage REASON_ISHIELD_ADMIN) ctx, data)
             else (deny_with_reason REASON_BLOCK_ISHIELD_RESOURCE_OPERATION (ReasonMessage REASON_BLOCK_ISHIELD_RESOURCE_OPERATION),
                   ctx_decide false false REASON_BLOCK_ISHIELD_RESOURCE_OPERATION
                     (ReasonMessage REASON_BLOCK_ISHIELD_RESOURCE_OPERATION) ctx, data))
  end.

Definition deleteCheck (reqc : ReqContext) (data : RunData) (ctx : CheckContext) : checked :=
  if IsDeleteRequest reqc
  then (allow_with true REASON_SKIP_DELETE (ReasonMessage REASON_SKIP_DELETE),
        ctx_decide true true REASON_SKIP_DELETE (ReasonMessage REASON_SKIP_DELETE) ctx, data)
  else (undeterminedDescision, ctx, data).

Definition unprotected (reason : nat) (ctx : CheckContext) (data : RunData) : checked :=
  (allow_with false reason (ReasonMessage reason),
   ctx_set_protected false (ctx_decide true true reason (ReasonMessage reason) ctx), data).

Definition protectedCheck (reqc : ReqContext) (config : ShieldConfig) (data : RunData) (ctx : CheckContext)
  : M (checked * list ResourceSigningProfile) :=
  r ← GetRuleTable data (cfg_Namespace config);
  let '(ruleTable, data) := r : option RuleTable * RunData in
  mret match ruleTable with
       | None => (unprotected REASON_NOT_PROTECTED ctx data, [])
       | Some rt =>
           let '(protected, ignoreMatched, matchedProfiles) := CheckIfProtected rt (ReqMap reqc) in
           if negb protected
           then (unprotected (if ignoreMatched then REASON_IGNORE_RULE_MATCHED else REASON_NOT_PROTECTED) ctx data, [])
           else ((undeterminedDescision, ctx_set_protected true ctx, data), matchedProfiles)
       end.

(** The reason code of a rejected signature, by the start of its message. *)
Definition reject_reason (message : string) : nat :=
  if HasPrefix message (ReasonMessage REASON_INVALID_SIG) then REASON_INVALID_SIG
  else if HasPrefix message (ReasonMessage REASON_NO_VALID_KEYRING) then REASON_NO_VALID_KEYRING
  else if HasPrefix message (ReasonMessage REASON_NO_MATCH_SIGNER_CONFIG) then REASON_NO_MATCH_SIGNER_CONFIG
  else if bool_decide (message = ReasonMessage REASON_NO_SIG) then REASON_NO_SIG
  else REASON_ERROR.

Definition check_verdict : Type := bool * nat * string * option SignatureEvalResult * option MutationEvalResult.

(** [singleProfileCheck]; neither evaluator returns an error value. *)
Definition singleProfileCheck (singleProfile : ResourceSigningProfile) (reqc : ReqContext) (config : ShieldConfig)
    (sigConfRes : option SignerConfigRes) (rsigList : option (list ResourceSignature)) : go check_verdict :=
  let mutResult := if IsUpdateRequest reqc then Some (Mutation_Eval json_error reqc singleProfile) else None in
  if match mutResult with Some r => mer_Checked r && negb (mer_IsMutated r) | None => false end
  then Ret (true, REASON_NO_MUTATION, ReasonMessage REASON_NO_MUTATION, None, mutResult)
  else
    match sigConfRes with
    | None => Panic
    | Some sc =>
        sigResult ← Signature_Eval (mkSignatureEvaluator config (scr_Config sc) (GetEnabledPlugins config)) reqc rsigList singleProfile;
        if ser_Checked sigResult && ser_Allow sigResult
        then Ret (true, REASON_VALID_SIG, ReasonMessage REASON_VALID_SIG, Some sigResult, mutResult)
        else match ser_Error sigResult with
             | Some e => Ret (false, reject_reason (MakeMessage e), MakeMessage e, Some sigResult, mutResult)
             | None => Ret (false, 0, "", Some sigResult, mutResult)
             end
    end.

Definition deny_rsp (reason : nat) (msg : string) (rsp : ResourceSigningProfile) : DecisionResult :=
  mkDecisionResult DecisionDeny false reason msg (Some rsp).

Definition resourceSigningProfileCheck (singleProfile : ResourceSigningProfile) (reqc : ReqContext) (config : ShieldConfig)
    (data : RunData) (ctx : CheckContext) : M checked :=
  r1 ← GetSignerConfig data;
  let '(sigConf, data) := r1 : option SignerConfigRes * RunData in
  r2 ← GetResSigList data reqc;
  let '(rsigList, data) := r2 : option (list ResourceSignature) * RunData in
  v ← lift (singleProfileCheck singleProfile reqc config sigConf rsigList);
  let '(allowed, evalReason, evalMessage, sigResult, mutResult) := v : check_verdict in
  let ctx := ctx_set_results sigResult mutResult
               (ctx_decide allowed (if allowed then true else ctx_Verified ctx) evalReason evalMessage ctx) in
  mret (if allowed then allow_with true evalReason evalMessage else deny_rsp evalReason evalMessage singleProfile, ctx, data).
End checks.
