(* ===== verification/SharedStatus.v ===== *)
(** * The status of a profile under concurrent denials  ([checkUtils.go],
      [rspLoader.go], [apis/resourcesigningprofile/v1alpha1/types.go])

    A denial reads the profile that denied, extends its status and writes the whole
    profile back.  Denials run in goroutines and shields of their own, and others
    edit profiles at the same time.  The API server takes a write only when the
    object is still the one that was read, by its resource version. *)
From S2P Require Import Prelude GoStrings Common ReqContext Profile SigningProfile Policy Cache.
From S2P Require Import RuleTable Signing ResourceSignature World Loader CheckContext Check.
From stdpp Require Import options.

(** ** One denial step by step *)

(** The object in the API server, and how a call to it ends: a lost answer is one
    to a call that was carried out. *)
Record versioned := mkVersioned { v_rsp : ResourceSigningProfile; v_version : nat }.
Inductive answered := Answered | Failed (err : string) | AnswerLost (err : string).

Record denial := mkDenial { dn_request : Request; dn_message : string }.

(** A write carries the version that was read; [stamp] is the time of the event. *)
Inductive upc :=
| UIdle
| UGet
| UPut (version : nat) (stamp : string) (rspNew : ResourceSigningProfile)
| UDone (err : option string).

Definition at_rest (p : upc) : bool := match p with UIdle | UDone _ => true | _ => false end.

(** What is stored, in order: statuses extended by denials, and edits by others. *)
Inductive commit := Denied (d : denial) (stamp : string) | Edited (meta : ObjectMeta) (spec : ResourceSigningProfileSpec).

Definition conflict : string := "the object has been modified; please apply your changes to the latest version and try again".

Section update.
Context `{K8sApi}.

Definition update_step (o : answered) (stamp : string) (d : denial) (s : versioned) (p : upc) : versioned * upc * list commit :=
  match p with
  | UGet =>
      match o with
      | Answered => (s, UPut (v_version s) stamp (UpdateStatus (v_rsp s) (dn_request d) (dn_message d) stamp), [])
      | Failed err | AnswerLost err => (s, UDone (Some err), [])
      end
  | UPut version stamp rspNew =>
      match o with
      | Failed err => (s, UDone (Some err), [])
      | _ =>
          if bool_decide (version = v_version s)
          then (mkVersioned rspNew (S version), UDone (match o with AnswerLost err => Some err | _ => None end), [Denied d stamp])
          else (s, UDone (Some conflict), [])
      end
  | _ => (s, p, [])
  end.

(** ** The system *)
Record ugoroutine := mkUgoroutine { ug_denial : denial; ug_pc : upc }.
Record usys := mkUsys { us_stored : versioned; us_gs : list ugoroutine; us_log : list commit }.

Definition edit (meta : ObjectMeta) (spec : ResourceSigningProfileSpec) (rsp : ResourceSigningProfile) : ResourceSigningProfile :=
  mkRSP meta spec (rsp_Status rsp).

Inductive ustep : usys -> usys -> Prop :=
| step_update s gs log k g o stamp s' p' cs :
    gs !! k = Some g -> at_rest (ug_pc g) = false -> update_step o stamp (ug_denial g) s (ug_pc g) = (s', p', cs) ->
    ustep (mkUsys s gs log) (mkUsys s' (<[k := mkUgoroutine (ug_denial g) p']> gs) (log ++ cs))
| step_deny s gs log k g d :
    gs !! k = Some g -> at_rest (ug_pc g) = true ->
    ustep (mkUsys s gs log) (mkUsys s (<[k := mkUgoroutine d UGet]> gs) log)
| step_edit s gs log meta spec :
    ustep (mkUsys s gs log)
      (mkUsys (mkVersioned (edit meta spec (v_rsp s)) (S (v_version s))) gs (log ++ [Edited meta spec])).

(** No goroutine has begun, and nothing was stored. *)
Definition idle (y : usys) : Prop := Forall (fun g => ug_pc g = UIdle) (us_gs y) /\ us_log y = [].

(** ** Reference: the commits one after the other *)
Definition apply_commit (rsp : ResourceSigningProfile) (c : commit) : ResourceSigningProfile :=
  match c with
  | Denied d stamp => UpdateStatus rsp (dn_request d) (dn_message d) stamp
  | Edited meta spec => edit meta spec rsp
  end.
Definition is_denial (c : commit) : bool := match c with Denied _ _ => true | _ => false end.
Definition denials (l : list commit) : nat := length (List.filter is_denial l).

(** ** Facts *)

(** A write that is waiting was computed from the version it carries. *)
Definition pending_ok (y : usys) (g : ugoroutine) : Prop :=
  match ug_pc g with
  | UPut version stamp rspNew =>
      version <= v_version (us_stored y) /\
      (version = v_version (us_stored y) -> rspNew = apply_commit (v_rsp (us_stored y)) (Denied (ug_denial g) stamp))
  | UDone None => exists stamp, Denied (ug_denial g) stamp ∈ us_log y
  | _ => True
  end.

Definition serial (rsp0 : ResourceSigningProfile) (y : usys) : Prop :=
  v_rsp (us_stored y) = foldl apply_commit rsp0 (us_log y) /\ Forall (pending_ok y) (us_gs y).

(** A goroutine is not disturbed by what others store. *)
Lemma pending_ok_grows s s' gs gs' log cs g :
  (s' = s \/ v_version s < v_version s') -> pending_ok (mkUsys s gs log) g -> pending_ok (mkUsys s' gs' (log ++ cs)) g.
Proof.
  intros Hs. unfold pending_ok. cbn [us_stored us_log]. destruct (ug_pc g) as [| |version stamp rspNew|[e|]]; try done.
  - intros [Hle He]. destruct Hs as [->|Hlt]; [done|]. split; [lia|]. intros ->. lia.
  - intros [stamp Hin]. exists stamp. set_solver.
Qed.

Lemma serial_step rsp0 y y' : ustep y y' -> serial rsp0 y -> serial rsp0 y'.
Proof.
  intros Hs [Hr Hg].
  destruct Hs as [s gs log k g o stamp s' p' cs Hk Ha Hu|s gs log k g d Hk Ha|s gs log meta spec]; cbn [us_stored us_gs us_log] in *.
  - pose proof (Forall_lookup_1 _ _ _ _ Hg Hk) as Hp. unfold pending_ok in Hp. cbn [us_stored us_log] in Hp.
    assert ((s' = s /\ cs = [] \/ v_version s < v_version s' /\ v_rsp s' = foldl apply_commit (v_rsp s) cs) /\
            pending_ok (mkUsys s' gs (log ++ cs)) (mkUgoroutine (ug_denial g) p')) as [Hst Hp'].
    { destruct (ug_pc g) as [| |version stamp' rspNew|]; cbn in Ha, Hu; try done.
      - destruct o; injection Hu as <- <- <-; (split; [by left|]); [|done|done]. by split.
      - destruct o as [|err|err]; [| injection Hu as <- <- <-; by split; [left|]|];
          (case_bool_decide as Hv; injection Hu as <- <- <-; [|by split; [left|]]); subst version;
          destruct Hp as [_ Hp]; (split; [right; split; [cbn; lia|by apply Hp]|]); cbn; [|done].
        exists stamp'. set_solver. }
    split; cbn [us_stored us_gs us_log].
    + rewrite foldl_app, <-Hr. by destruct Hst as [[-> ->]|[_ ->]].
    + apply Forall_insert; [|done]. eapply Forall_impl; [done|]. intros g'. apply pending_ok_grows. naive_solver.
  - split; cbn [us_stored us_gs us_log]; [done|]. by apply Forall_insert.
  - split; cbn [us_stored us_gs us_log]; [by rewrite foldl_app, <-Hr|].
    eapply Forall_impl; [done|]. intros g. apply pending_ok_grows. right. cbn. lia.
Qed.

(** What the commits leave of the status, and of what others own. *)
Lemma commits_status rsp cs :
  status_ok (rsp_Status rsp) ->
  let rsp' := foldl apply_commit rsp cs in
  status_ok (rsp_Status rsp') /\ rspst_DenyCount (rsp_Status rsp') = rspst_DenyCount (rsp_Status rsp) + denials cs.
Proof.
  revert rsp. induction cs as [|[d stamp|meta spec] cs IH]; intros rsp Hs; cbn [foldl]; [by rewrite Nat.add_0_r| |].
  - destruct (UpdateStatus_invariant rsp (dn_request d) (dn_message d) stamp Hs) as (Hs' & Hc & _).
    destruct (IH _ Hs') as [Ho Hn]. split; [done|]. cbn [apply_commit]. rewrite Hn, Hc. unfold denials. cbn. lia.
  - exact (IH (edit meta spec rsp) Hs).
Qed.

(** C31: however denials and edits interleave and their calls fail, the stored profile
    is the outcome of the writes that were taken, one after the other: no write undoes
    another one, every denial that was reported without an error is among them, and
    the status stays consistent and counts them. *)
Theorem denials_are_serial y0 y :
  idle y0 -> status_ok (rsp_Status (v_rsp (us_stored y0))) -> rtc ustep y0 y ->
  v_rsp (us_stored y) = foldl apply_commit (v_rsp (us_stored y0)) (us_log y) /\
  (forall k d, us_gs y !! k = Some (mkUgoroutine d (UDone None)) -> exists stamp, Denied d stamp ∈ us_log y) /\
  status_ok (rsp_Status (v_rsp (us_stored y))) /\
  rspst_DenyCount (rsp_Status (v_rsp (us_stored y))) =
    rspst_DenyCount (rsp_Status (v_rsp (us_stored y0))) + denials (us_log y).
Proof.
  intros [Hg Hl] Hs Hr. set (rsp0 := v_rsp (us_stored y0)) in *.
  assert (serial rsp0 y) as [Hf Hp].
  { apply (rtc_preserves ustep (serial rsp0) (serial_step rsp0) y0 y Hr). split; [by rewrite Hl|].
    eapply Forall_impl; [done|]. intros g Hi. unfold pending_ok. by rewrite Hi. }
  destruct (commits_status rsp0 (us_log y) Hs) as [Ho Hc]. rewrite Hf. split; [done|].
  split; [|by split]. intros k d Hk. exact (Forall_lookup_1 _ _ _ _ Hp Hk).
Qed.

(** Alone, the steps write what [RSPLoader_UpdateStatus] writes. *)
Theorem UpdateStatus_alone `{Cluster, TimeFmt} rsp reqc errMsg s w :
  let ns := om_Namespace (rsp_meta rsp) in
  let d := mkDenial (NewRequestFromReqContext reqc) errMsg in
  let t := tick (w_now w) in
  let stamp := UTC_Format layout (tick t) in
  get_RSP t ns (om_Name (rsp_meta rsp)) = Ok (v_rsp s) ->
  (forall rspNew, put_RSP (tick (tick t)) ns rspNew = Ok tt) ->
  exists s' p' w', update_step Answered stamp d s UGet = (s, p', []) /\
    update_step Answered stamp d s p' = (s', UDone None, [Denied d stamp]) /\
    RSPLoader_UpdateStatus rsp reqc errMsg w = Ret (None, w') /\
    w_effects w' = w_effects w ++ [UpdateRSP ns (om_Name (rsp_meta rsp)) (v_rsp s')].
Proof.
  cbn zeta. intros Hg Hp. eexists _, _, _. split; [reflexivity|]. split; [cbn; by rewrite bool_decide_true|].
  unfold RSPLoader_UpdateStatus, call, now, emit, mbind, M_bind, mret, M_ret. cbn [w_now w_cache w_effects]. rewrite Hg, Hp.
  split; reflexivity.
Qed.
End update.

(** ** Schedules *)
Inductive uaction := UCall (k : nat) (o : answered) (stamp : string) | UDeny (k : nat) (d : denial) | UEdit (spec : ResourceSigningProfileSpec).

Section schedules.
Context `{K8sApi}.

Definition do_uaction (a : uaction) (y : usys) : option usys :=
  match a with
  | UCall k o stamp =>
      g ← us_gs y !! k;
      if at_rest (ug_pc g) then None
      else let '(s', p', cs) := update_step o stamp (ug_denial g) (us_stored y) (ug_pc g) in
           Some (mkUsys s' (<[k := mkUgoroutine (ug_denial g) p']> (us_gs y)) (us_log y ++ cs))
  | UDeny k d =>
      g ← us_gs y !! k;
      if at_rest (ug_pc g) then Some (mkUsys (us_stored y) (<[k := mkUgoroutine d UGet]> (us_gs y)) (us_log y)) else None
  | UEdit spec =>
      let meta := rsp_meta (v_rsp (us_stored y)) in
      Some (mkUsys (mkVersioned (edit meta spec (v_rsp (us_stored y))) (S (v_version (us_stored y)))) (us_gs y)
              (us_log y ++ [Edited meta spec]))
  end.

Fixpoint do_uactions (l : list uaction) (y : usys) : option usys :=
  match l with [] => Some y | a :: l' => y' ← do_uaction a y; do_uactions l' y' end.

Lemma do_uactions_steps l y y' : do_uactions l y = Some y' -> rtc ustep y y'.
Proof.
  revert y. induction l as [|a l IH]; intros y; cbn [do_uactions]; [intros [= ->]; constructor|].
  destruct (do_uaction a y) as [y1|] eqn:E; [|done]. cbn. intros Hl. apply (rtc_l _ y y1); [|by apply IH]. clear IH Hl.
  destruct y as [s gs log]. destruct a as [k o stamp|k d|spec]; cbn in E.
  - destruct (gs !! k) as [g|] eqn:Hk; [|done]. cbn in E. destruct (at_rest (ug_pc g)) eqn:Ha; [done|].
    destruct (update_step _ _ _ _ _) as [[s' p'] cs] eqn:Hu. injection E as <-. by eapply step_update.
  - destruct (gs !! k) as [g|] eqn:Hk; [|done]. cbn in E. destruct (at_rest (ug_pc g)) eqn:Ha; [|done]. injection E as <-.
    by eapply step_deny.
  - injection E as <-. apply step_edit.
Qed.
End schedules.

(** ** Concrete instance: two denials at the same time *)

Section samples.
#[local] Existing Instance sample_k8s.

Definition sample_denial (msg : string) : denial := mkDenial (NewRequestFromReqContext cluster_request) msg.
Definition no_denials : usys :=
  mkUsys (mkVersioned (protect_kind "ClusterRole") 1) [mkUgoroutine (sample_denial "") UIdle; mkUgoroutine (sample_denial "") UIdle] [].

Lemma no_denials_idle : idle no_denials.
Proof. split; [|done]. by repeat constructor. Qed.

(** One denial, an edit of the rules while another one is under way, which is
    refused. *)
Definition edited_meanwhile : list uaction :=
  [UDeny 0 (sample_denial "a"); UCall 0 Answered "t0"; UCall 0 Answered ""; UDeny 1 (sample_denial "b"); UCall 1 Answered "t1";
   UEdit (rsp_Spec (ignore_kind "Pod")); UCall 1 Answered ""].
Definition after_edit : usys := default no_denials (do_uactions edited_meanwhile no_denials).

Lemma after_edit_steps : rtc ustep no_denials after_edit.
Proof. apply (do_uactions_steps edited_meanwhile). vm_compute. reflexivity. Qed.

Lemma denials_are_serial_witness :
  rsp_Spec (v_rsp (us_stored after_edit)) = rsp_Spec (ignore_kind "Pod") /\
  rspst_DenyCount (rsp_Status (v_rsp (us_stored after_edit))) = 1 /\ status_ok (rsp_Status (v_rsp (us_stored after_edit))).
Proof.
  split; [vm_compute; reflexivity|].
  destruct (denials_are_serial no_denials after_edit no_denials_idle status_ok_empty after_edit_steps) as (_ & _ & Hs & Hc).
  split; [rewrite Hc; vm_compute; reflexivity|exact Hs].
Defined.

(** Two requests are denied at the same time and every call is answered; the
    second write is refused and not repeated, so one of them is not counted. *)
Theorem simultaneous_denial_not_counted :
  exists y, rtc ustep no_denials y /\ Forall (fun g => at_rest (ug_pc g) = true) (us_gs y) /\
    us_gs y !! 1 = Some (mkUgoroutine (sample_denial "b") (UDone (Some conflict))) /\
    rspst_DenyCount (rsp_Status (v_rsp (us_stored y))) = 1.
Proof.
  eexists. split.
  - apply (do_uactions_steps
      [UDeny 0 (sample_denial "a"); UDeny 1 (sample_denial "b"); UCall 0 Answered "t"; UCall 1 Answered "t"; UCall 0 Answered ""; UCall 1 Answered ""]).
    vm_compute. reflexivity.
  - split; [by repeat constructor|]. split; vm_compute; reflexivity.
Qed.
End samples.
