(* ===== verification/SharedEvents.v ===== *)
(** * An event under concurrent reports  ([checkUtils.go], [createOrUpdateEvent])

    Requests of the same kind of operation on the same object share an event: each
    reads it, counts itself in and updates it, or creates it when it did not get it.
    Handlers run in goroutines and shields of their own, and the API server drops
    events after a while.  It takes an update only of the version that was read, and a
    creation only of an event that is not there. *)
From S2P Require Import Prelude GoStrings Common ReqContext Profile SigningProfile Policy ShieldConfig Cache.
From S2P Require Import RuleTable Signing ResourceSignature World Loader CheckContext Check SharedStatus.
From stdpp Require Import options.

(** ** One report step by step *)

Record event_report := mkReport { rp_reqc : ReqContext; rp_ctx : CheckContext; rp_config : ShieldConfig; rp_rsp : option ResourceSigningProfile }.

(** The event in the API server, if it is there, and the version of what is stored. *)
Record stored_event := mkStored { se_event : option Event; se_version : nat }.

(** The time of the event is read before the event is. *)
Inductive epc :=
| EIdle
| EGet (t : Z)
| EUpdate (version : nat) (t : Z) (evt : Event)
| ECreate (t : Z) (evt : Event)
| EDone (err : option string).

Definition resting (p : epc) : bool := match p with EIdle | EDone _ => true | _ => false end.

(** What changes the event, in order. *)
Inductive event_change := Reported (r : event_report) (t : Z) | Expired.

Definition already_exists : string := "already exists".
Definition not_found : string := "not found".
Definition lost (o : answered) : option string := match o with AnswerLost err => Some err | _ => None end.

Section events.
Context `{K8sApi, Gjson}.

(** The event with the report counted in. *)
Definition reported (r : event_report) (t : Z) (current : option Event) : Event :=
  touchEvent (default (newEvent (rp_reqc r) (rp_ctx r) (rp_config r) t) current) (eventMessage (rp_reqc r) (rp_ctx r) (rp_rsp r))
    (rc_Code (ReasonCodeMap (ctx_ReasonCode (rp_ctx r)))) t.

Definition event_step (o : answered) (r : event_report) (s : stored_event) (p : epc) : stored_event * epc * list event_change :=
  match p with
  | EGet t =>
      match o, se_event s with
      | Answered, Some current => (s, EUpdate (se_version s) t (reported r t (Some current)), [])
      | _, _ => (s, ECreate t (reported r t None), [])
      end
  | EUpdate version t evt =>
      match o, se_event s with
      | Failed err, _ => (s, EDone (Some err), [])
      | _, None => (s, EDone (Some not_found), [])
      | _, Some _ =>
          if bool_decide (version = se_version s) then (mkStored (Some evt) (S version), EDone (lost o), [Reported r t])
          else (s, EDone (Some conflict), [])
      end
  | ECreate t evt =>
      match o, se_event s with
      | Failed err, _ => (s, EDone (Some err), [])
      | _, Some _ => (s, EDone (Some already_exists), [])
      | _, None => (mkStored (Some evt) (S (se_version s)), EDone (lost o), [Reported r t])
      end
  | _ => (s, p, [])
  end.

(** ** The system *)

Record egoroutine := mkEgoroutine { eg_report : event_report; eg_pc : epc }.
Record esys := mkEsys { ey_stored : stored_event; ey_gs : list egoroutine; ey_log : list event_change }.

Inductive estep : esys -> esys -> Prop :=
| step_report s gs log k g o s' p' cs :
    gs !! k = Some g -> resting (eg_pc g) = false -> event_step o (eg_report g) s (eg_pc g) = (s', p', cs) ->
    estep (mkEsys s gs log) (mkEsys s' (<[k := mkEgoroutine (eg_report g) p']> gs) (log ++ cs))
| step_begin s gs log k g r t :
    gs !! k = Some g -> resting (eg_pc g) = true ->
    estep (mkEsys s gs log) (mkEsys s (<[k := mkEgoroutine r (EGet t)]> gs) log)
| step_expire s gs log :
    estep (mkEsys s gs log) (mkEsys (mkStored None (S (se_version s))) gs (log ++ [Expired])).

Definition unreported (y : esys) : Prop := Forall (fun g => eg_pc g = EIdle) (ey_gs y) /\ ey_log y = [].

(** ** Reference: the changes one after the other, and their count *)

Definition apply_change (e : option Event) (c : event_change) : option Event :=
  match c with Reported r t => Some (reported r t e) | Expired => None end.
Definition event_count (e : option Event) : nat := match e with Some e => evt_Count e | None => 0 end.
Definition count_change (n : nat) (c : event_change) : nat := match c with Reported _ _ => S n | Expired => 0 end.

Lemma changes_counted e cs : event_count (foldl apply_change e cs) = foldl count_change (event_count e) cs.
Proof. revert e. induction cs as [|[r t|] cs IH]; intros e; [done| |]; cbn; rewrite IH; [by destruct e|done]. Qed.

(** ** Facts *)

(** A write that is waiting was computed from the version it carries, or for an
    event that is not there. *)
Definition waiting_ok (y : esys) (g : egoroutine) : Prop :=
  match eg_pc g with
  | EUpdate version t evt =>
      version <= se_version (ey_stored y) /\
      (version = se_version (ey_stored y) -> evt = reported (eg_report g) t (se_event (ey_stored y)))
  | ECreate t evt => evt = reported (eg_report g) t None
  | EDone None => exists t, Reported (eg_report g) t ∈ ey_log y
  | _ => True
  end.

Definition events_serial (e0 : option Event) (y : esys) : Prop :=
  se_event (ey_stored y) = foldl apply_change e0 (ey_log y) /\ Forall (waiting_ok y) (ey_gs y).

Lemma waiting_ok_grows s s' gs gs' log cs g :
  (s' = s \/ se_version s < se_version s') -> waiting_ok (mkEsys s gs log) g -> waiting_ok (mkEsys s' gs' (log ++ cs)) g.
Proof.
  intros Hs. unfold waiting_ok. cbn [ey_stored ey_log]. destruct (eg_pc g) as [|t|version t evt|t evt|[e|]]; try done.
  - intros [Hle He]. destruct Hs as [->|Hlt]; [done|]. split; [lia|]. intros ->. lia.
  - intros [t Hin]. exists t. set_solver.
Qed.

(** A step changes nothing, or carries one report out. *)
Lemma event_step_ok o g s p' s' cs gs log :
  waiting_ok (mkEsys s gs log) g -> event_step o (eg_report g) s (eg_pc g) = (s', p', cs) -> resting (eg_pc g) = false ->
  (s' = s /\ cs = [] \/ se_version s < se_version s' /\ se_event s' = foldl apply_change (se_event s) cs) /\
  waiting_ok (mkEsys s' gs (log ++ cs)) (mkEgoroutine (eg_report g) p').
Proof.
  unfold waiting_ok. cbn [ey_stored ey_log eg_pc eg_report]. intros Hw Hs Hr.
  destruct (eg_pc g) as [|t|version t evt|t evt|e]; cbn in Hr, Hs; try done.
  - destruct o, (se_event s) eqn:E; injection Hs as <- <- <-; split; auto. split; [done|]. by rewrite E.
  - destruct o as [|err|err], (se_event s) as [current|] eqn:E; try (injection Hs as <- <- <-; split; auto);
      (case_bool_decide as Hv; [|injection Hs as <- <- <-; split; auto]); injection Hs as <- <- <-; subst version;
      destruct Hw as [_ Hw]; rewrite (Hw eq_refl); cbn; (split; [right; split; [lia|done]|]); [|done]. exists t. set_solver.
  - subst evt. destruct o as [|err|err], (se_event s) as [current|] eqn:E; injection Hs as <- <- <-; split; auto; cbn; auto;
      try (right; split; [lia|done]). exists t. set_solver.
Qed.

Lemma events_serial_step e0 y y' : estep y y' -> events_serial e0 y -> events_serial e0 y'.
Proof.
  intros Hs [Hr Hg]. destruct Hs as [s gs log k g o s' p' cs Hk Ha Hu|s gs log k g r t Hk Ha|s gs log]; cbn [ey_stored ey_gs ey_log] in *.
  - destruct (event_step_ok o g s p' s' cs gs log (Forall_lookup_1 _ _ _ _ Hg Hk) Hu Ha) as [Hst Hp].
    split; cbn [ey_stored ey_gs ey_log].
    + rewrite foldl_app, <-Hr. by destruct Hst as [[-> ->]|[_ ->]].
    + apply Forall_insert; [|done]. eapply Forall_impl; [done|]. intros g'. apply waiting_ok_grows. naive_solver.
  - split; cbn [ey_stored ey_gs ey_log]; [done|]. by apply Forall_insert.
  - split; cbn [ey_stored ey_gs ey_log]; [by rewrite foldl_app|].
    eapply Forall_impl; [done|]. intros g. apply waiting_ok_grows. right. cbn. lia.
Qed.


(** Alone, the steps write what [createOrUpdateEvent] writes. *)
Theorem createOrUpdateEvent_alone `{Cluster} r s w :
  let ns := eventNamespace (rp_reqc r) (rp_config r) in
  let t := tick (w_now w) in
  kube_config = Ok tt -> get_Event (tick t) ns (eventName (rp_reqc r) (rp_ctx r)) = se_event s ->
  (forall evt, put_Event (tick (tick t)) ns evt = Ok tt) ->
  exists p' s' evt w', event_step Answered r s (EGet t) = (s, p', []) /\ event_step Answered r s p' = (s', EDone None, [Reported r t]) /\
    se_event s' = Some evt /\ createOrUpdateEvent (rp_reqc r) (rp_ctx r) (rp_config r) (rp_rsp r) w = Ret (None, w') /\
    w_effects w' = w_effects w ++ [match se_event s with Some _ => UpdateEvent ns evt | None => CreateEvent ns evt end].
Proof.
  cbn zeta. intros Hk Hg Hp. unfold createOrUpdateEvent, call, now, emit, mbind, M_bind, mret, M_ret. cbn [w_now w_cache w_effects].
  rewrite Hk, Hg, Hp. destruct (se_event s) as [current|] eqn:E; eexists _, _, _, _.
  - split; [cbn; rewrite E; reflexivity|]. split; [cbn; rewrite E, bool_decide_true by done; reflexivity|]. by split.
  - split; [cbn; rewrite E; reflexivity|]. split; [cbn; rewrite E; reflexivity|]. by split.
Qed.
End events.

(** ** Schedules *)

Inductive eaction := ECall (k : nat) (o : answered) | EBegin (k : nat) (r : event_report) (t : Z) | EExpire.

Section schedules.
Context `{K8sApi, Gjson}.

Definition do_eaction (a : eaction) (y : esys) : option esys :=
  match a with
  | ECall k o =>
      g ← ey_gs y !! k;
      if resting (eg_pc g) then None
      else let '(s', p', cs) := event_step o (eg_report g) (ey_stored y) (eg_pc g) in
           Some (mkEsys s' (<[k := mkEgoroutine (eg_report g) p']> (ey_gs y)) (ey_log y ++ cs))
  | EBegin k r t =>
      g ← ey_gs y !! k;
      if resting (eg_pc g) then Some (mkEsys (ey_stored y) (<[k := mkEgoroutine r (EGet t)]> (ey_gs y)) (ey_log y)) else None
  | EExpire => Some (mkEsys (mkStored None (S (se_version (ey_stored y)))) (ey_gs y) (ey_log y ++ [Expired]))
  end.
Definition do_eactions (l : list eaction) (y : esys) : option esys := foldl (fun y a => y ≫= do_eaction a) (Some y) l.

Lemma do_eaction_step a y y' : do_eaction a y = Some y' -> estep y y'.
Proof.
  destruct y as [s gs log]. destruct a as [k o|k r t|]; cbn; intros E.
  - destruct (gs !! k) as [g|] eqn:Hk; [|done]. cbn in E. destruct (resting (eg_pc g)) eqn:Ha; [done|].
    destruct (event_step _ _ _ _) as [[s' p'] cs] eqn:Hu. injection E as <-. by eapply step_report.
  - destruct (gs !! k) as [g|] eqn:Hk; [|done]. cbn in E. destruct (resting (eg_pc g)) eqn:Ha; [|done]. injection E as <-. by eapply step_begin.
  - injection E as <-. apply step_expire.
Qed.

Lemma do_eactions_steps l y y' : do_eactions l y = Some y' -> rtc estep y y'.
Proof.
  unfold do_eactions. revert y. induction l as [|a l IH]; intros y; cbn [foldl]; [intros [= ->]; constructor|].
  cbn. destruct (do_eaction a y) as [y1|] eqn:E.
  - intros Hl. apply (rtc_l _ y y1); [by eapply do_eaction_step|by apply IH].
  - intros Hl. exfalso. clear -Hl. induction l as [|b l IH]; [done|]. by apply IH.
Qed.
End schedules.

(** ** Concrete instance: the requests for one object *)

Section samples.
#[local] Existing Instances sample_k8s sample_gjson.

Definition sample_report : event_report :=
  mkReport cluster_request (allowed_context true)
    (mkShieldConfig None None None [] [] "enforce" [] None "shield-ns" "" "" [] "" "" "" None "" "" "" "" []) None.
Definition no_reports : esys := mkEsys (mkStored None 0) [mkEgoroutine sample_report EIdle; mkEgoroutine sample_report EIdle] [].

Lemma no_reports_unreported : unreported no_reports.
Proof. split; [|done]. by repeat constructor. Qed.

(** Two reports, the second of which counts itself in. *)
Definition twice : list eaction :=
  [EBegin 0 sample_report 5; ECall 0 Answered; ECall 0 Answered; EBegin 1 sample_report 6; ECall 1 Answered; ECall 1 Answered].
Definition after_twice : esys := default no_reports (do_eactions twice no_reports).
Lemma after_twice_steps : rtc estep no_reports after_twice.
Proof. apply (do_eactions_steps twice). vm_compute. reflexivity. Qed.


(** The event is there and is not read, because the call fails: the report tries to
    create it, which is refused, and is not counted. *)
Theorem failed_read_not_counted : exists y, rtc estep no_reports y /\
  ey_gs y !! 1 = Some (mkEgoroutine sample_report (EDone (Some already_exists))) /\ event_count (se_event (ey_stored y)) = 1.
Proof.
  eexists. split.
  - apply (do_eactions_steps [EBegin 0 sample_report 5; ECall 0 Answered; ECall 0 Answered; EBegin 1 sample_report 6;
      ECall 1 (Failed "etcdserver: request timed out"); ECall 1 Answered]).
    vm_compute. reflexivity.
  - split; vm_compute; reflexivity.
Qed.

(** Two reports at the same time: the second is refused and not repeated. *)
Theorem simultaneous_report_not_counted : exists y, rtc estep no_reports y /\
  ey_gs y !! 1 = Some (mkEgoroutine sample_report (EDone (Some already_exists))) /\ event_count (se_event (ey_stored y)) = 1.
Proof.
  eexists. split.
  - apply (do_eactions_steps [EBegin 0 sample_report 5; EBegin 1 sample_report 6; ECall 0 Answered; ECall 1 Answered; ECall 0 Answered; ECall 1 Answered]).
    vm_compute. reflexivity.
  - split; vm_compute; reflexivity.
Qed.
End samples.
