(* ===== verification/Handler.v ===== *)
(** * The request handler  ([shield/pkg/shield/handler.go])

    [Run] takes an admission request through initialisation, the checks, the
    detection and break-glass modes, the response, the reports and the cache. *)
From S2P Require Import Prelude GoStrings GoJson Pattern Common ReqContext Profile SigningProfile Policy ShieldConfig Cache.
From S2P Require Import MapNode Diff Mutation RuleTable Signing ResourceSignature SignVerifier Sign World Loader Validation.
From S2P Require Import CheckContext Check.
From stdpp Require Import options.

(** The state of a handler once [initialize] has run. *)
Record Handler := mkHandler {
  h_config : ShieldConfig;
  h_ctx : CheckContext;
  h_reqc : ReqContext;
  h_data : RunData;
  h_logInScope : bool;
}.

Definition h_update (self : Handler) (ctx : CheckContext) (data : RunData) : Handler :=
  mkHandler (h_config self) ctx (h_reqc self) data (h_logInScope self).
Definition h_set_inscope (self : Handler) : Handler :=
  mkHandler (h_config self) (h_ctx self) (h_reqc self) (h_data self) true.

Section handler.
Context `{Cluster, K8sApi, TimeFmt, Gjson, StrictDecoders, Logrus}.
Context `{!ListCodec ResourceSigningProfile, !ListCodec Namespace, !ListCodec SignerConfigRes, !ListCodec ResourceSignature}.
Context `{DiffLib, FloatFmt, YamlLib, !ManifestLib, JsonLib, KubeUtil, PgpLib, X509Lib, HelmPlugin, PolicyJson}.
Context (json_error : string -> string).

(** [logEntry] and [logExit] set levels of the console loggers, which [Logger]
    follows; of the state here they only read the configuration, which they may
    panic on. *)
Definition logEntry (config : ShieldConfig) (reqc : ReqContext) : M unit :=
  _ ← lift (ConsoleLogEnabled config reqc); mret tt.

Definition logExit (self : Handler) : M unit :=
  _ ← lift (ConsoleLogEnabled (h_config self) (h_reqc self)); mret tt.

(** [initialize], with the run data of a new handler. *)
Definition initialize (config : ShieldConfig) (req : AdmissionRequest) : M Handler :=
  let reqNamespace := getRequestNamespace req in
  reqc ← lift (NewReqContext req);
  _ ← logEntry config reqc;
  data ← RunData_Init (set_loader emptyRunData (NewLoader config reqNamespace)) config;
  mret (mkHandler config InitCheckContext reqc data false).

(** Running one check on the handler. *)
Definition run_check (self : Handler) (c : M checked) : M (DecisionResult * Handler) :=
  r ← c;
  let '(dr, ctx, data) := r : checked in
  mret (dr, h_update self ctx data).

(** The loop over the matched profiles: the first denial is returned. *)
Fixpoint profiles_loop (profs : list ResourceSigningProfile) (dr : DecisionResult) (self : Handler) : M (DecisionResult * Handler) :=
  match profs with
  | [] => mret (if isUndetermined dr
                then mkDecisionResult DecisionUndetermined false REASON_UNEXPECTED
                       "IntegrityShield failed to decide a response for this request." None
                else dr, self)
  | prof :: profs' =>
      r ← run_check self (resourceSigningProfileCheck json_error prof (h_reqc self) (h_config self) (h_data self) (h_ctx self));
      let '(dr, self) := r : DecisionResult * Handler in
      if isAllowed dr then profiles_loop profs' dr self else mret (dr, self)
  end.

(** Continue with the next check when the last one did not decide. *)
Definition and_then (m : M (DecisionResult * Handler)) (k : Handler -> M (DecisionResult * Handler)) : M (DecisionResult * Handler) :=
  r ← m;
  let '(dr, self) := r : DecisionResult * Handler in
  if negb (isUndetermined dr) then mret (dr, self) else k self.

Definition protected_part (self : Handler) : M (DecisionResult * Handler) :=
  r ← protectedCheck (h_reqc self) (h_config self) (h_data self) (h_ctx self);
  let '(dr, ctx, data, matchedProfiles) := r : checked * list ResourceSigningProfile in
  let self := h_update self ctx data in
  if negb (isUndetermined dr) then mret (dr, self) else profiles_loop matchedProfiles dr self.

Definition Check (self : Handler) : M (DecisionResult * Handler) :=
  and_then (run_check self (inScopeCheck (h_reqc self) (h_config self) (h_data self) (h_ctx self))) (fun self =>
  let self := h_set_inscope self in
  and_then (run_check self (lift (formatCheck (h_reqc self) (h_config self) (h_data self) (h_ctx self)))) (fun self =>
  and_then (run_check self (lift (iShieldResourceCheck (h_reqc self) (h_config self) (h_data self) (h_ctx self)))) (fun self =>
  and_then (run_check self (mret (deleteCheck (h_reqc self) (h_data self) (h_ctx self)))) (fun self =>
  protected_part self)))).

Definition overwrite_ctx (detect : bool) (reason : nat) (ctx : CheckContext) : CheckContext :=
  ctx_set_mode detect (negb detect) (ctx_decide true (ctx_Verified ctx) reason (ReasonMessage reason) ctx).
Definition overwrite_dr (reason : nat) (dr : DecisionResult) : DecisionResult :=
  mkDecisionResult DecisionAllow false reason (ReasonMessage reason) (dr_denyRSP dr).

Definition overwriteDecision (dr : DecisionResult) (self : Handler) : M (DecisionResult * Handler) :=
  r ← GetSignerConfig (h_data self);
  let '(sigConf, data) := r : option SignerConfigRes * RunData in
  isBreakGlass ← lift (checkIfBreakGlassEnabled (h_reqc self) sigConf);
  let isDetectMode := checkIfDetectOnly (h_config self) in
  mret (if negb isBreakGlass && negb isDetectMode then (dr, h_update self (h_ctx self) data)
        else if negb (isAllowed dr) && isDetectMode
        then (overwrite_dr REASON_DETECTION dr, h_update self (overwrite_ctx true REASON_DETECTION (h_ctx self)) data)
        else if negb (isAllowed dr) && isBreakGlass
        then (overwrite_dr REASON_BREAK_GLASS dr, h_update self (overwrite_ctx false REASON_BREAK_GLASS (h_ctx self)) data)
        else (dr, h_update self (h_ctx self) data)).

Definition respond (dr : DecisionResult) (self : Handler) : M AdmissionResponse :=
  if isUndetermined dr
  then createAdmissionResponse false "IntegrityShield failed to decide the response for this request" (h_reqc self) (h_ctx self) (h_config self)
  else if isErrorOccurred dr
  then createAdmissionResponse false (dr_Message dr) (h_reqc self) (h_ctx self) (h_config self)
  else createAdmissionResponse (isAllowed dr) (dr_Message dr) (h_reqc self) (h_ctx self) (h_config self).

(** [logResponse] only writes to the console log; it reads [config.Log]. *)
Definition logResponse (self : Handler) : M unit :=
  match cfg_Log (h_config self) with None => panic | Some _ => mret tt end.

(** Replacing the entry of a key of the log record. *)
Definition set_record (k : string) (v : logval) (record : list (string * logval)) : list (string * logval) :=
  (fun kv => if bool_decide (kv.1 = k) then (k, v) else kv) <$> record.

Definition logContext (self : Handler) : M unit :=
  enabled ← lift (ContextLogEnabled (h_config self) (h_reqc self));
  if enabled && h_logInScope self then
    t ← now;
    let logRecord := convertToLogRecord (h_ctx self) (h_reqc self) (Format "2006-01-02T15:04:05.000Z" t) in
    let includeRequest := match cfg_Log (h_config self) with Some lc => lg_IncludeRequest lc | None => false end in
    let logRecord := if includeRequest && negb (IsSecret (h_reqc self))
                     then set_record "request.dump" (LStr (rc_RequestJsonStr (h_reqc self))) logRecord else logRecord in
    if bool_decide (rc_ResourceScope (h_reqc self) = "Namespaced") ||
       (bool_decide (rc_ResourceScope (h_reqc self) = "Cluster") && ctx_Protected (h_ctx self))
    then emit (SendContextLog logRecord)
    else mret tt
  else mret tt.

Definition Report (denyRSP : option ResourceSigningProfile) (self : Handler) : M (option string) :=
  let iShieldAdmin := checkIfIShieldAdminRequest (h_reqc self) (h_config self) in
  let shouldReport := negb (ctx_Allow (h_ctx self)) || (ctx_IShieldResource (h_ctx self) && iShieldAdmin) in
  if negb shouldReport then mret None
  else
    err ← createOrUpdateEvent (h_reqc self) (h_ctx self) (h_config self) denyRSP;
    match err with
    | Some e => mret (Some e)
    | None => _ ← updateRSPStatus denyRSP (h_reqc self) (ctx_Message (h_ctx self)); mret None
    end.

(** Whether an allowed request may have changed the rule table. *)
Definition resets_cache (self : Handler) : go bool :=
  let iShieldServer := checkIfIShieldServerRequest (h_reqc self) (h_config self) in
  iShieldOperator ← checkIfIShieldOperatorRequest (h_reqc self) (h_config self);
  Ret (if bool_decide (rc_Kind (h_reqc self) = "Namespace") then
         if IsUpdateRequest (h_reqc self) then mer_IsMutated (MutationCheck json_error (h_reqc self)) else true
       else bool_decide (rc_Kind (h_reqc self) = ProfileCustomResourceKind) && negb iShieldServer && negb iShieldOperator).

Definition finalize (resp : AdmissionResponse) (self : Handler) : M unit :=
  _ ← (if resp_Allowed resp then
         reset ← lift (resets_cache self);
         if reset : bool then resetRuleTableCache else mret tt
       else mret tt);
  logExit self.

(** [NewHandler] and [Run] *)
Definition Run (config : ShieldConfig) (req : AdmissionRequest) : M AdmissionResponse :=
  self ← initialize config req;
  r ← Check self;
  let '(dr, self) := r : DecisionResult * Handler in
  r ← overwriteDecision dr self;
  let '(dr, self) := r : DecisionResult * Handler in
  resp ← respond dr self;
  _ ← logResponse self;
  _ ← logContext self;
  _ ← Report (dr_denyRSP dr) self;
  _ ← finalize resp self;
  mret resp.
End handler.
