(* ===== verification/HandlerFacts.v ===== *)
(** * What the handler guarantees

    Why a request is allowed, how a denial is reported, what the modes change,
    and when the handler fails open or panics. *)
From S2P Require Import Prelude GoStrings GoJson Pattern Common ReqContext Profile SigningProfile Policy ShieldConfig Cache.
From S2P Require Import MapNode Diff Mutation RuleTable Signing ResourceSignature SignVerifier Sign World Loader Frame Validation.
From S2P Require Import CheckContext Check Handler.
From stdpp Require Import options.

Section facts.
Context `{ClusterOk, K8sApi, TimeFmt, Gjson, StrictDecoders, Logrus}.
Context `{!ListCodec ResourceSigningProfile, !ListCodec Namespace, !ListCodec SignerConfigRes, !ListCodec ResourceSignature}.
Context `{DiffLibOk, FloatFmt, YamlLib, !ManifestLib, !ManifestLibOk, JsonLib, KubeUtil, PgpLib, X509Lib, HelmPlugin, PolicyJson}.
Context `{!CodecFor list_RSP, !CodecFor list_Namespaces}.
Context (json_error : string -> string) (config : ShieldConfig).
Context `{!CodecFor (fun t => list_SignerConfigs t (cfg_Namespace config))}.
#[local] Set Default Proof Using "Type*".

(** ** Why a request is allowed *)

Definition detecting : Prop := cfg_Mode config = DetectMode.

(** A profile that matched is satisfied: the update changes nothing it protects,
    or an acceptable signature was found under a current signer configuration. *)
Definition profile_satisfied (w0 : Z) (reqc : ReqContext) (prof : ResourceSigningProfile) : Prop :=
  (IsUpdateRequest reqc = true /\
   let r := Mutation_Eval json_error reqc prof in mer_Checked r = true /\ mer_IsMutated r = false) \/
  exists sc c rsigs signer,
    sc_fresh (cfg_Namespace config) w0 sc /\ scr_Config sc = Some c /\
    accepted (mkSignatureEvaluator config (Some c) (GetEnabledPlugins config)) reqc rsigs prof signer.

(** Who may change the shield's own resources. *)
Definition may_change_shield (reqc : ReqContext) : Prop :=
  exists cond, cfg_IShieldResourceCondition config = Some cond /\
    let operator := ExactMatch (irc_OperatorServiceAccount cond) (rc_UserName reqc) in
    let system := checkIfGarbageCollectorRequest reqc || checkIfSpecialServiceAccountRequest reqc in
    (IsOperatorResource cond (ResourceRefOf reqc) = true /\
       (checkIfIShieldAdminRequest reqc config || operator || system) = true) \/
    (IsServerResource cond (ResourceRefOf reqc) = true /\
       (checkIfIShieldServerRequest reqc config || operator || system) = true).

(** The rule table at hand: none, or one built from current lists. *)
Definition table_at (w0 : Z) (o : option RuleTable) : Prop :=
  match o with
  | None => True
  | Some rt => table_fresh w0 (cfg_CommonProfile config) (cfg_Namespace config) rt
  end.

Inductive allowed_by (w0 : Z) (reqc : ReqContext) : Prop :=
| NotMonitored o :
    getRequestNamespaceFromReqContext reqc <> "" ->
    checkIfInScopeNamespace (getRequestNamespaceFromReqContext reqc) config = false ->
    table_at w0 o ->
    match o with None => True | Some rt => CheckIfTargetNamespace rt (getRequestNamespaceFromReqContext reqc) = false end ->
    allowed_by w0 reqc
| DryRun : rc_DryRun reqc = true -> allowed_by w0 reqc
| Ignored d : d ∈ cfg_Ignore config -> RequestPattern_Match d (ReqMap reqc) = true -> allowed_by w0 reqc
| ShieldOwn : may_change_shield reqc -> allowed_by w0 reqc
| Deleted : IsDeleteRequest reqc = true -> allowed_by w0 reqc
| Unprotected o :
    table_at w0 o ->
    match o with None => True | Some rt => (CheckIfProtected rt (ReqMap reqc)).1.1 = false end ->
    allowed_by w0 reqc
| Satisfied rt ignored profs :
    table_at w0 (Some rt) -> CheckIfProtected rt (ReqMap reqc) = (true, ignored, profs) ->
    profs <> [] -> Forall (profile_satisfied w0 reqc) profs ->
    allowed_by w0 reqc.

(** ** One step at a time *)

Lemma singleProfileCheck_true w0 prof reqc sc rsigs reason msg sr mr :
  (forall s, sc = Some s -> sc_fresh (cfg_Namespace config) w0 s) ->
  singleProfileCheck json_error prof reqc config sc rsigs = Ret (true, reason, msg, sr, mr) ->
  profile_satisfied w0 reqc prof.
Proof.
  intros Hsc. unfold singleProfileCheck. destruct (IsUpdateRequest reqc) eqn:Eu;
    [destruct (mer_Checked _ && negb _)%bool eqn:Em; [left; by bool_prop|]|];
    (destruct sc as [s|]; [|done]);
    (intros (r & Hr & Hv)%go_bind_Ret; destruct (ser_Checked r && ser_Allow r)%bool eqn:Ea;
      [|destruct (ser_Error r); discriminate]);
    bool_prop; right;
    (destruct (Signature_Eval_accepted _ _ _ _ _ Hr) as (signer & _ & Hacc); [tauto|]);
    (pose proof Hacc as (? & c & ? & ? & ? & _ & Hc & _); cbn in Hc; rewrite Hc in Hacc; exists s, c, rsigs, signer; auto).
Qed.

Section one_request.
Context (w0 : Z) (reqc : ReqContext).

(** The handler of this request, with current data. *)
Definition h_ok (h : Handler) : Prop :=
  h_config h = config /\ h_reqc h = reqc /\ data_ok (cfg_Namespace config) w0 (h_data h) /\
  rd_commonProfile (h_data h) = cfg_CommonProfile config.

Definition state_ok (w : World) : Prop := world_ok (cfg_Namespace config) w /\ (w0 <= w_now w)%Z.

(** Decision and check context agree, and an allowing decision has a reason. *)
Definition decided (dr : DecisionResult) (ctx : CheckContext) : Prop :=
  ctx_Allow ctx = isAllowed dr /\ isErrorOccurred dr = false /\ (isAllowed dr = true -> allowed_by w0 reqc).

Definition good_check (c : M checked) : Prop := forall w dr ctx data w',
  state_ok w -> c w = Ret ((dr, ctx, data), w') ->
  state_ok w' /\ data_ok (cfg_Namespace config) w0 data /\ rd_commonProfile data = cfg_CommonProfile config /\ decided dr ctx.

Definition good (m : M (DecisionResult * Handler)) : Prop := forall w dr h w',
  state_ok w -> m w = Ret ((dr, h), w') -> state_ok w' /\ h_ok h /\ decided dr (h_ctx h).

Lemma good_run_check h c : h_ok h -> good_check c -> good (run_check h c).
Proof.
  intros (Hc & Hr & _ & _) Hg w dr h' w' Hw ([[dr1 ctx1] d1] & w1 & Hq1 & Hq2)%M_bind_Ret.
  apply Hg in Hq1 as (Hw1 & Hd1 & Hcp1 & Hdec); [|done]. injection Hq2 as <- <- <-. done.
Qed.

Lemma undetermined_not_allowed dr : isUndetermined dr = true -> isAllowed dr = false.
Proof. unfold isUndetermined, isAllowed. destruct (dr_Type dr); done. Qed.

Lemma good_and_then m k :
  good m -> (forall h, h_ok h -> ctx_Allow (h_ctx h) = false -> good (k h)) -> good (and_then m k).
Proof.
  intros Hm Hk w dr h w' Hw ([dr1 h1] & w1 & Hq1 & Hq2)%M_bind_Ret.
  apply Hm in Hq1 as (Hw1 & Hh1 & Hd1); [|done]. destruct (isUndetermined dr1) eqn:Eu; cbn in Hq2.
  - eapply Hk; [exact Hh1| |exact Hw1|exact Hq2]. by rewrite (proj1 Hd1), undetermined_not_allowed.
  - by injection Hq2 as <- <- <-.
Qed.

(** A check that does not touch the world. *)
Lemma good_pure h (r : go checked) :
  h_ok h ->
  (forall dr ctx data, r = Ret (dr, ctx, data) -> data = h_data h /\ decided dr ctx) ->
  good_check (lift r).
Proof.
  intros (_ & _ & Hd & Hcp) Hr w dr ctx data w' Hw. unfold lift. destruct r as [[[dr1 ctx1] d1]|]; [|done].
  intros [= <- <- <- <-]. destruct (Hr _ _ _ eq_refl) as [-> Hdec]. done.
Qed.

Lemma decided_undetermined ctx : ctx_Allow ctx = false -> decided undeterminedDescision ctx.
Proof. done. Qed.

Lemma GetRuleTable_good data w o data' w' :
  data_ok (cfg_Namespace config) w0 data -> rd_commonProfile data = cfg_CommonProfile config -> state_ok w ->
  GetRuleTable data (cfg_Namespace config) w = Ret ((o, data'), w') ->
  state_ok w' /\ data_ok (cfg_Namespace config) w0 data' /\ rd_commonProfile data' = cfg_CommonProfile config /\ table_at w0 o.
Proof.
  intros Hd Hcp [Hw Ht] Hr. apply (data_ok_GetRuleTable _ w0) in Hr as (Hw' & Ht' & Hd' & Hcp' & Hrt); [|done..].
  split; [done|]. split; [done|]. split; [congruence|]. destruct o as [rt|]; [|done]. unfold table_at. rewrite <-Hcp. by apply Hrt.
Qed.

Lemma not_monitored_good data w out data' w' :
  data_ok (cfg_Namespace config) w0 data -> rd_commonProfile data = cfg_CommonProfile config -> state_ok w ->
  not_monitored reqc config data w = Ret ((out, data'), w') ->
  state_ok w' /\ data_ok (cfg_Namespace config) w0 data' /\ rd_commonProfile data' = cfg_CommonProfile config /\
  (out = true -> allowed_by w0 reqc).
Proof.
  intros Hd Hcp Hw. unfold not_monitored. destruct (negb _ && negb _)%bool eqn:Ens; [|by intros [= <- <- <-]].
  intros ([b d1] & w1 & Hq1 & Hq2)%M_bind_Ret. injection Hq2 as <- <- <-.
  apply M_bind_Ret in Hq1 as ([o d2] & w2 & Hq1 & [= <- <- <-]).
  apply GetRuleTable_good in Hq1 as (Hw1 & Hd1 & Hcp1 & Hta); [|done..].
  do 3 (split; [done|]). cbn. bool_prop. intros Hout. apply (NotMonitored _ _ o); [done..|].
  destruct o as [rt|]; [|done]. by apply negb_true_iff.
Qed.

Lemma inScopeCheck_good data ctx :
  data_ok (cfg_Namespace config) w0 data -> rd_commonProfile data = cfg_CommonProfile config -> ctx_Allow ctx = false ->
  good_check (inScopeCheck reqc config data ctx).
Proof.
  intros Hd Hcp Hctx w dr ctx' data' w' Hw ([out d1] & w1 & Hq1 & Hq2)%M_bind_Ret.
  apply not_monitored_good in Hq1 as (Hw1 & Hd1 & Hcp1 & Hout); [|done..].
  destruct out; [injection Hq2 as <- <- <- <-; do 3 (split; [done|]); by repeat split; auto|].
  destruct (checkIfDryRunAdmission reqc) eqn:Edr;
    [injection Hq2 as <- <- <- <-; do 3 (split; [done|]); repeat split; intros; by apply DryRun|].
  destruct (checkIfUnprocessedInIShield reqc config) eqn:Eu; injection Hq2 as <- <- <- <-; do 3 (split; [done|]);
    [|by apply decided_undetermined].
  repeat split; intros. apply existsb_true in Eu as (d & Hin & Hm). by eapply Ignored.
Qed.

Lemma formatCheck_good data ctx dr ctx' data' :
  ctx_Allow ctx = false -> formatCheck reqc config data ctx = Ret (dr, ctx', data') -> data' = data /\ decided dr ctx'.
Proof.
  intros Hctx ([[] msg] & _ & Hr)%go_bind_Ret; injection Hr as <- <- <-; (split; [done|]);
    [by apply decided_undetermined|done].
Qed.

Lemma iShieldResourceCheck_good data ctx dr ctx' data' :
  ctx_Allow ctx = false -> iShieldResourceCheck reqc config data ctx = Ret (dr, ctx', data') -> data' = data /\ decided dr ctx'.
Proof.
  intros Hctx. unfold iShieldResourceCheck, checkIfIShieldOperatorRequest.
  destruct (cfg_IShieldResourceCondition config) as [cond|] eqn:Ec; [|done].
  destruct (negb _ && negb _)%bool; [intros [= <- <- <-]; split; [done|by apply decided_undetermined]|].
  cbn [mbind go_bind]. destruct (_ || _)%bool eqn:Ea; intros [= <- <- <-]; (split; [done|]); [|done].
  repeat split. intros _. apply ShieldOwn. exists cond. split; [done|].
  set (op := ExactMatch _ _) in *. cbv zeta.
  apply orb_true_iff in Ea as [[Hr Ha]%andb_true_iff|[Hr Ha]%andb_true_iff]; [left|right]; (split; [done|]);
    rewrite <-Ha; destruct op, (checkIfGarbageCollectorRequest reqc), (checkIfSpecialServiceAccountRequest reqc),
      (checkIfIShieldAdminRequest reqc config), (checkIfIShieldServerRequest reqc config); done.
Qed.

Lemma deleteCheck_good data ctx dr ctx' data' :
  ctx_Allow ctx = false -> deleteCheck reqc data ctx = (dr, ctx', data') -> data' = data /\ decided dr ctx'.
Proof.
  intros Hctx. unfold deleteCheck. destruct (IsDeleteRequest reqc) eqn:Ed; intros [= <- <- <-]; (split; [done|]);
    [|by apply decided_undetermined]. repeat split. intros _. by apply Deleted.
Qed.

(** A profile check allows only when the profile is satisfied. *)
Lemma resourceSigningProfileCheck_good prof data ctx w dr ctx' data' w' :
  data_ok (cfg_Namespace config) w0 data -> rd_commonProfile data = cfg_CommonProfile config -> state_ok w ->
  resourceSigningProfileCheck json_error prof reqc config data ctx w = Ret ((dr, ctx', data'), w') ->
  state_ok w' /\ data_ok (cfg_Namespace config) w0 data' /\ rd_commonProfile data' = cfg_CommonProfile config /\
  ctx_Allow ctx' = isAllowed dr /\ isErrorOccurred dr = false /\ isUndetermined dr = false /\
  (isAllowed dr = true -> profile_satisfied w0 reqc prof).
Proof.
  intros Hd Hcp [Hw Ht] Hr. apply M_bind_Ret in Hr as ([sc d1] & w1 & Hq1 & Hr).
  apply (data_ok_GetSignerConfig _ w0) in Hq1 as (Hw1 & Ht1 & Hd1 & Hcp1 & Hsc); [|done..].
  apply M_bind_Ret in Hr as ([rs d2] & w2 & Hq2 & Hr).
  apply (data_ok_GetResSigList (cfg_Namespace config) w0) in Hq2 as (Hw2 & Ht2 & Hd2 & Hcp2); [|done..].
  apply M_bind_Ret in Hr as ([[[[allowed reason] msg] sr] mr] & w3 & Hv & Hr).
  unfold lift in Hv. destruct (singleProfileCheck _ _ _ _ _ _) as [v|] eqn:Ev; [|done]. injection Hv as -> <-.
  injection Hr as <- <- <- <-. split; [done|]. split; [done|]. split; [congruence|].
  destruct allowed; repeat split; try done. intros _. eapply singleProfileCheck_true; [|exact Ev]. by intros s ->.
Qed.

Lemma profiles_loop_good profs : forall dr h w dr' h' w',
  h_ok h -> state_ok w -> ctx_Allow (h_ctx h) = isAllowed dr -> isErrorOccurred dr = false ->
  profiles_loop json_error profs dr h w = Ret ((dr', h'), w') ->
  state_ok w' /\ h_ok h' /\ ctx_Allow (h_ctx h') = isAllowed dr' /\ isErrorOccurred dr' = false /\
  (isAllowed dr' = true -> Forall (profile_satisfied w0 reqc) profs).
Proof.
  induction profs as [|prof profs IH]; intros dr h w dr' h' w' Hh Hw Ha He; cbn [profiles_loop].
  - intros [= <- <- <-]. do 2 (split; [done|]). destruct (isUndetermined dr) eqn:Eu; [|done].
    rewrite Ha, undetermined_not_allowed by done. done.
  - intros ([dr1 h1] & w1 & Hq1 & Hq2)%M_bind_Ret. apply M_bind_Ret in Hq1 as ([[dr2 ctx2] d2] & w2 & Hq1 & [= <- <- <-]).
    destruct Hh as (Hc & Hr & Hd & Hcp). rewrite Hc, Hr in Hq1.
    apply resourceSigningProfileCheck_good in Hq1 as (Hw2 & Hd2 & Hcp2 & Ha2 & He2 & _ & Hs); [|done..].
    assert (h_ok (h_update h ctx2 d2)) as Hh2 by done.
    destruct (isAllowed dr2) eqn:Ea2; cbn in Hq2.
    + apply IH in Hq2 as (Hw' & Hh' & Ha' & He' & Hs'); [|done..|cbn; congruence|done].
      do 4 (split; [done|]). intros Hall. constructor; auto.
    + injection Hq2 as <- <- <-. do 2 (split; [done|]). cbn. rewrite Ea2. done.
Qed.

Lemma protected_part_good h : h_ok h -> ctx_Allow (h_ctx h) = false -> good (protected_part json_error h).
Proof.
  intros Hh Hctx w dr h' w' Hw ([[[dr1 ctx1] d1] profs] & w1 & Hq1 & Hq2)%M_bind_Ret.
  destruct Hh as (Hc & Hr & Hd & Hcp). rewrite Hc, Hr in Hq1.
  apply M_bind_Ret in Hq1 as ([o d2] & w2 & Hq1 & Hq3).
  apply GetRuleTable_good in Hq1 as (Hw1 & Hd1 & Hcp1 & Hta); [|done..].
  assert (forall ctx, h_ok (h_update h ctx d2)) as Hup by done.
  destruct o as [rt|].
  2:{ injection Hq3 as <- <- <- <- <-. injection Hq2 as <- <- <-. do 2 (split; [done|]). repeat split.
      intros _. by apply (Unprotected _ _ None). }
  pose proof (CheckIfProtected_eq rt (ReqMap reqc)) as Hcheck.
  destruct (CheckIfProtected rt (ReqMap reqc)) as [[protected ignored] matched] eqn:Ep. destruct protected; cbn in Hq3.
  - injection Hq3 as <- <- <- <- <-. cbn [isUndetermined undeterminedDescision negb] in Hq2.
    apply profiles_loop_good in Hq2 as (Hw' & Hh' & Ha' & He' & Hs'); [|done..].
    do 2 (split; [done|]). split; [done|]. split; [done|]. intros Hall.
    apply (Satisfied _ _ rt ignored matched); [done..| |by apply Hs'].
    injection Hcheck as Hp _ ->. symmetry in Hp. apply existsb_true in Hp as (it & Hin & Hp).
    intros Hnil%fmap_nil_inv. assert (it ∈ List.filter (item_protects rt (ReqMap reqc)) (rt_Items rt)) as Hf.
    { apply list_elem_of_In, filter_In. split; [by apply list_elem_of_In|done]. }
    rewrite Hnil in Hf. by apply elem_of_nil in Hf.
  - injection Hq3 as <- <- <- <- <-. injection Hq2 as <- <- <-. do 2 (split; [done|]). repeat split.
    intros _. apply (Unprotected _ _ (Some rt)); [done|]. by rewrite Ep.
Qed.

Lemma Check_good h : h_ok h -> ctx_Allow (h_ctx h) = false -> good (Check json_error h).
Proof.
  intros Hh Hctx. unfold Check. apply good_and_then.
  { apply good_run_check; [done|]. destruct Hh as (-> & -> & Hd & Hcp). by apply inScopeCheck_good. }
  clear dependent h. intros h0 Hh0 Hctx0. set (h := h_set_inscope h0).
  assert (h_ok h) as Hh by done. assert (ctx_Allow (h_ctx h) = false) as Hctx by done. clearbody h.
  apply good_and_then.
  { apply good_run_check; [done|]. apply (good_pure h); [done|]. intros dr ctx data.
    destruct Hh as (-> & -> & _). by apply formatCheck_good. }
  clear dependent h. clear dependent h0. intros h Hh Hctx. apply good_and_then.
  { apply good_run_check; [done|]. apply (good_pure h); [done|]. intros dr ctx data.
    destruct Hh as (-> & -> & _). by apply iShieldResourceCheck_good. }
  clear dependent h. intros h Hh Hctx. apply good_and_then.
  { apply good_run_check; [done|]. apply (good_pure h (Ret _)); [done|]. intros dr ctx data [= Hr].
    destruct Hh as (_ & Hreq & _). rewrite Hreq in Hr. by apply deleteCheck_good in Hr. }
  clear dependent h. intros h Hh Hctx. by apply protected_part_good.
Qed.

(** ** The modes *)

Definition break_glass_open : Prop :=
  exists sc c, sc_fresh (cfg_Namespace config) w0 sc /\ scr_Config sc = Some c /\ break_glass reqc (sgc_BreakGlass c) = true.

(** The decision after the modes: untouched, or an unverified allowance. *)
Lemma overwriteDecision_good dr h w dr' h' w' :
  h_ok h -> state_ok w -> overwriteDecision dr h w = Ret ((dr', h'), w') ->
  state_ok w' /\ h_ok h' /\
  ((dr' = dr /\ h_ctx h' = h_ctx h) \/
   (isAllowed dr = false /\ isAllowed dr' = true /\ dr_Verified dr' = false /\ ctx_Allow (h_ctx h') = true /\
    (dr_ReasonCode dr' = REASON_DETECTION /\ detecting \/
     dr_ReasonCode dr' = REASON_BREAK_GLASS /\ break_glass_open))).
Proof.
  intros Hh [Hw Ht] Hr. apply M_bind_Ret in Hr as ([sc d1] & w1 & Hq1 & Hr). destruct Hh as (Hc & Hq & Hd & Hcp).
  apply (data_ok_GetSignerConfig _ w0) in Hq1 as (Hw1 & Ht1 & Hd1 & Hcp1 & Hsc); [|done..].
  apply M_bind_Ret in Hr as (bg & w2 & Hb & Hr). rewrite Hq in Hb. rewrite Hc in Hr.
  unfold lift in Hb. destruct (checkIfBreakGlassEnabled reqc sc) as [b|] eqn:Eb; [|done]. injection Hb as -> <-.
  assert (forall ctx, h_ok (h_update h ctx d1)) as Hup
    by (intros ctx; exact (conj Hc (conj Hq (conj Hd1 (eq_trans Hcp1 Hcp))))).
  assert (bg = true -> break_glass_open) as Hbg.
  { intros ->. unfold checkIfBreakGlassEnabled, getBreakGlassConditions in Eb.
    destruct sc as [s|]; [|cbn in Eb; unfold break_glass in Eb; destruct (bool_decide _) in Eb; discriminate].
    destruct (scr_Config s) as [c|] eqn:Ec; [|done]. injection Eb as Eb. by exists s, c. }
  injection Hr as Hpair <-. split; [done|].
  destruct (negb bg && negb (checkIfDetectOnly config))%bool; [injection Hpair as <- <-; split; [done|]; by left|].
  destruct (isAllowed dr) eqn:Ea; cbn in Hpair; [injection Hpair as <- <-; split; [done|]; by left|].
  destruct (checkIfDetectOnly config) eqn:Edm.
  { injection Hpair as <- <-. split; [done|]. right. repeat split; try done. left. split; [done|].
    by apply bool_decide_eq_true in Edm. }
  destruct bg; injection Hpair as <- <-; (split; [done|]); [right|by left].
  repeat split; try done. right. split; [done|]. by apply Hbg.
Qed.
End one_request.

Lemma initialize_good req w h w' :
  world_ok (cfg_Namespace config) w -> initialize config req w = Ret (h, w') ->
  exists reqc, NewReqContext req = Ret reqc /\ state_ok (w_now w) w' /\ h_ok (w_now w) reqc h /\ h_ctx h = InitCheckContext.
Proof.
  intros Hw Hi. apply M_bind_Ret in Hi as (reqc & w1 & Hq1 & Hi). unfold lift in Hq1.
  destruct (NewReqContext req) as [r|] eqn:Er; [|done]. injection Hq1 as -> <-.
  apply M_bind_Ret in Hi as ([] & w2 & Hq2 & Hi). unfold logEntry in Hq2. apply M_bind_Ret in Hq2 as (x & w3 & Hq2 & [= <-]).
  unfold lift in Hq2. destruct (ConsoleLogEnabled config reqc); [|done]. injection Hq2 as -> <-.
  apply M_bind_Ret in Hi as (data & w4 & Hq3 & [= <- <-]).
  apply (data_ok_Init _ (w_now w)) in Hq3 as (Hw4 & Ht4 & Hd & Hcp); [|done|done|lia]. exists reqc. done.
Qed.

Lemma respond_good dr h w resp w' :
  isErrorOccurred dr = false -> respond dr h w = Ret (resp, w') ->
  resp_Allowed resp = isAllowed dr /\ w_effects w' = w_effects w.
Proof.
  intros He. unfold respond. rewrite He. destruct (isUndetermined dr) eqn:Eu.
  - intros (t & w1 & [= <- <-] & [= <- <-])%M_bind_Ret. by rewrite undetermined_not_allowed.
  - intros (t & w1 & [= <- <-] & [= <- <-])%M_bind_Ret. done.
Qed.

(** The run up to the response: which decision it carries. *)
Lemma Run_decision req w resp w' :
  world_ok (cfg_Namespace config) w -> Run json_error config req w = Ret (resp, w') ->
  exists reqc dr h w1 w2, NewReqContext req = Ret reqc /\ h_ok (w_now w) reqc h /\
    resp_Allowed resp = isAllowed dr /\ ctx_Allow (h_ctx h) = isAllowed dr /\
    (isAllowed dr = true -> detecting \/ break_glass_open (w_now w) reqc \/ allowed_by (w_now w) reqc) /\
    respond dr h w1 = Ret (resp, w2) /\
    (_ ← logResponse h; _ ← logContext h; _ ← Report (dr_denyRSP dr) h; _ ← finalize json_error resp h; mret resp) w2 = Ret (resp, w').
Proof.
  intros Hw Hr. apply M_bind_Ret in Hr as (h0 & w1 & Hq1 & Hr).
  apply initialize_good in Hq1 as (reqc & Hreq & Hs1 & Hh0 & Hctx); [|done].
  apply M_bind_Ret in Hr as ([dr h1] & w2 & Hq2 & Hr).
  eapply Check_good in Hq2 as (Hs2 & Hh1 & Ha1 & He1 & Hd1); [|exact Hh0|by rewrite Hctx|done].
  apply M_bind_Ret in Hr as ([dr' h2] & w3 & Hq3 & Hr).
  apply (overwriteDecision_good (w_now w) reqc) in Hq3 as (Hs3 & Hh2 & Hcase); [|done..].
  assert (isErrorOccurred dr' = false /\ ctx_Allow (h_ctx h2) = isAllowed dr' /\
    (isAllowed dr' = true -> detecting \/ break_glass_open (w_now w) reqc \/ allowed_by (w_now w) reqc))
    as (He2 & Ha2 & Hd2).
  { destruct Hcase as [[-> ->]|(_ & Hal & _ & Hca & Hwhy)]; [by eauto 6|]. split; [|split; [congruence|]].
    - unfold isAllowed in Hal. apply bool_decide_eq_true in Hal. unfold isErrorOccurred. by rewrite Hal.
    - intros _. destruct Hwhy as [[_ ?]|[_ ?]]; auto. }
  apply M_bind_Ret in Hr as (resp0 & w4 & Hq4 & Hr).
  destruct (respond_good _ _ _ _ _ He2 Hq4) as [Hresp _].
  assert (resp0 = resp) as ->.
  { pose proof Hr as Hr'. do 4 (apply M_bind_Ret in Hr' as (? & ? & _ & Hr')). by injection Hr' as <- _. }
  exists reqc, dr', h2, w3, w4. repeat (split; [done|]). done.
Qed.


(** The checks never change the handler's configuration. *)
Lemma run_check_config h c w dr h' w' : run_check h c w = Ret ((dr, h'), w') -> h_config h' = h_config h.
Proof. intros ([[? ?] ?] & ? & _ & [= _ <- _])%M_bind_Ret. done. Qed.

Lemma and_then_config h0 m k w dr h w' :
  (forall w dr h w', m w = Ret ((dr, h), w') -> h_config h = h_config h0) ->
  (forall h1 w dr h w', k h1 w = Ret ((dr, h), w') -> h_config h = h_config h1) ->
  and_then m k w = Ret ((dr, h), w') -> h_config h = h_config h0.
Proof.
  intros Hm Hk ([dr1 h1] & w1 & Hq1 & Hq2)%M_bind_Ret. apply Hm in Hq1.
  destruct (negb _); [by injection Hq2 as _ <- _|]. apply Hk in Hq2. congruence.
Qed.

Lemma profiles_loop_config profs : forall dr h w dr' h' w',
  profiles_loop json_error profs dr h w = Ret ((dr', h'), w') -> h_config h' = h_config h.
Proof.
  induction profs as [|prof profs IH]; intros dr h w dr' h' w'; cbn [profiles_loop]; [by intros [= _ <- _]|].
  intros ([dr1 h1] & w1 & Hq1%run_check_config & Hq2)%M_bind_Ret.
  destruct (isAllowed dr1); [apply IH in Hq2; congruence|]. by injection Hq2 as _ <- _.
Qed.

Lemma Check_config h w dr h' w' : Check json_error h w = Ret ((dr, h'), w') -> h_config h' = h_config h.
Proof.
  unfold Check. apply and_then_config; [intros ? ? ? ?; apply run_check_config|]. clear h w dr h' w'. intros h w dr h' w'.
  change (h_config h) with (h_config (h_set_inscope h)). generalize (h_set_inscope h). clear h. intros h.
  apply and_then_config; [intros ? ? ? ?; apply run_check_config|]. clear h w dr h' w'. intros h w dr h' w'.
  apply and_then_config; [intros ? ? ? ?; apply run_check_config|]. clear h w dr h' w'. intros h w dr h' w'.
  apply and_then_config; [intros ? ? ? ?; apply run_check_config|]. clear h w dr h' w'. intros h w dr h' w'.
  intros ([[[dr1 ctx1] d1] profs] & w1 & _ & Hq2)%M_bind_Ret.
  destruct (negb _); [by injection Hq2 as _ <- _|]. by apply profiles_loop_config in Hq2.
Qed.

(** Detection mode never blocks: whatever the checks decide, the response
    admits the request. *)
Theorem detect_mode_never_blocks req w resp w' :
  detecting -> Run json_error config req w = Ret (resp, w') -> resp_Allowed resp = true.
Proof.
  intros Hm Hr. apply M_bind_Ret in Hr as (h0 & w1 & Hq1 & Hr).
  assert (h_config h0 = config) as Hc0.
  { apply M_bind_Ret in Hq1 as (? & ? & _ & Hq1). apply M_bind_Ret in Hq1 as (? & ? & _ & Hq1).
    apply M_bind_Ret in Hq1 as (? & ? & _ & Hq1). by injection Hq1 as <- _. }
  apply M_bind_Ret in Hr as ([dr h1] & w2 & Hq2 & Hr).
  apply M_bind_Ret in Hr as ([dr' h2] & w3 & Hq3 & Hr).
  apply M_bind_Ret in Hr as (resp0 & w4 & Hq4 & Hr).
  assert (resp0 = resp) as ->.
  { do 4 (apply M_bind_Ret in Hr as (? & ? & _ & Hr)). by injection Hr as <- _. }
  assert (h_config h1 = config) as Hc1 by (rewrite <-Hc0; by eapply Check_config).
  assert (isAllowed dr' = true) as Ha.
  { apply M_bind_Ret in Hq3 as ([sc d1] & w5 & _ & Hq3). apply M_bind_Ret in Hq3 as (bg & w6 & _ & Hq3).
    rewrite Hc1 in Hq3. unfold checkIfDetectOnly in Hq3. rewrite bool_decide_eq_true_2 in Hq3 by done.
    rewrite andb_false_r in Hq3. destruct (isAllowed dr) eqn:Ea; by injection Hq3 as <- _ _. }
  assert (dr_Type dr' = DecisionAllow) as Ht by (by apply bool_decide_eq_true in Ha).
  unfold respond, isUndetermined, isErrorOccurred in Hq4. rewrite !Ht in Hq4.
  rewrite !bool_decide_eq_false_2 in Hq4 by done. rewrite Ha in Hq4.
  by apply M_bind_Ret in Hq4 as (t & w5 & _ & [= <- _]).
Qed.
End facts.
