(* ===== verification/HandlerReports.v ===== *)
(** * Reports, cache resets and failures of the handler

    Every denial leaves an event; an allowed change of profiles or namespaces
    empties the cached lists; what happens when the API server cannot list the
    profiles, and when no signer configuration exists. *)
From S2P Require Import Prelude GoStrings GoJson Pattern Common ReqContext Profile SigningProfile Policy ShieldConfig Cache.
From S2P Require Import MapNode Diff Mutation RuleTable Signing ResourceSignature SignVerifier Sign World Loader Frame Validation.
From S2P Require Import CheckContext Check Handler HandlerFacts.
From stdpp Require Import options.

(** ** Event messages *)

Lemma length_str_take n s : String.length (str_take n s) <= n.
Proof. revert s. induction n as [|n IH]; intros [|c s]; cbn; [lia..|]. specialize (IH s). lia. Qed.

Lemma length_append (s t : string) : String.length (s +:+ t) = String.length s + String.length t.
Proof. induction s as [|c s IH]; cbn; [done|]. by rewrite IH. Qed.

(** An event message fits the API's limit of 1024 bytes: longer ones are cut
    to 950 bytes and the note, shorter ones are kept. *)
Theorem trimMessage_fits s :
  String.length (trimMessage s) <= 1024 /\ (String.length s <= 1024 -> trimMessage s = s).
Proof.
  unfold trimMessage. destruct (Nat.ltb_spec 1024 (String.length s)); [|done].
  split; [|lia]. rewrite length_append. pose proof (length_str_take 950 s).
  assert (String.length trimmed <= 74) by (vm_compute; lia). lia.
Qed.

Section reports.
Context `{ClusterOk, K8sApi, TimeFmt, Gjson, StrictDecoders, Logrus}.
Context `{!ListCodec ResourceSigningProfile, !ListCodec Namespace, !ListCodec SignerConfigRes, !ListCodec ResourceSignature}.
Context `{DiffLibOk, FloatFmt, YamlLib, !ManifestLib, !ManifestLibOk, JsonLib, KubeUtil, PgpLib, X509Lib, HelmPlugin, PolicyJson}.
Context `{!CodecFor list_RSP, !CodecFor list_Namespaces}.
Context (json_error : string -> string) (config : ShieldConfig).
Context `{!CodecFor (fun t => list_SignerConfigs t (cfg_Namespace config))}.
#[local] Set Default Proof Using "Type*".

(** ** Effects are never taken back *)

Definition grows {A} (m : M A) : Prop := forall w a w', m w = Ret (a, w') -> exists l, w_effects w' = w_effects w ++ l.

Lemma grows_ret {A} (a : A) : grows (mret a).
Proof. intros w b w' [= _ <-]. exists []. by rewrite app_nil_r. Qed.
Lemma grows_bind {A B} (m : M A) (f : A -> M B) : grows m -> (forall a, grows (f a)) -> grows (m ≫= f).
Proof.
  intros Hm Hf w b w' (a & w1 & Hq1 & Hq2)%M_bind_Ret. apply Hm in Hq1 as [l1 Hl1]. apply Hf in Hq2 as [l2 Hl2].
  exists (l1 ++ l2). by rewrite Hl2, Hl1, app_assoc.
Qed.
Lemma grows_lift {A} (m : go A) : grows (lift m).
Proof. intros w a w'. unfold lift. destruct m; [|done]. intros [= _ <-]. exists []. by rewrite app_nil_r. Qed.
Lemma grows_emit e : grows (emit e).
Proof. intros w a w' [= _ <-]. by exists [e]. Qed.
Lemma grows_now : grows now.
Proof. intros w a w' [= _ <-]. exists []. by rewrite app_nil_r. Qed.
Lemma grows_call {A} (api : Z -> A) : grows (call api).
Proof. apply grows_bind; [apply grows_now|]. intros t. apply grows_ret. Qed.
Lemma grows_Unset K : grows (cache_Unset K).
Proof. intros w a w' [= _ <-]. exists []. by rewrite app_nil_r. Qed.

Lemma grows_updateRSPStatus rsp reqc msg : grows (updateRSPStatus rsp reqc msg).
Proof.
  unfold updateRSPStatus. destruct rsp as [rsp|]; [|apply grows_ret]. destruct kube_config; [|apply grows_ret].
  unfold RSPLoader_UpdateStatus.
  apply grows_bind; [apply grows_call|]. intros [org|e]; [|apply grows_ret].
  apply grows_bind; [apply grows_now|]. intros t. apply grows_bind; [apply grows_call|].
  intros [u|e]; [|apply grows_ret]. apply grows_bind; [apply grows_emit|]. intros u'. apply grows_ret.
Qed.

Lemma grows_logExit h : grows (logExit h).
Proof. apply grows_bind; [apply grows_lift|]. intros x. apply grows_ret. Qed.

Lemma grows_finalize resp h : grows (finalize json_error resp h).
Proof.
  apply grows_bind; [|intros u; apply grows_logExit]. destruct (resp_Allowed resp); [|apply grows_ret].
  apply grows_bind; [apply grows_lift|]. intros []; [|apply grows_ret].
  apply grows_bind; [apply grows_Unset|]. intros u. apply grows_Unset.
Qed.

(** ** Denials are reported *)

(** The event of a denial. *)
Definition deny_event (reqc : ReqContext) (effects : list effect) : Prop :=
  exists evt, (CreateEvent (eventNamespace reqc config) evt ∈ effects \/ UpdateEvent (eventNamespace reqc config) evt ∈ effects) /\
    String.length (evt_Message evt) <= 1024 /\
    HasPrefix (evt_Message evt) "[IntegrityShieldEvent] Result: deny, Reason: " = true.

Lemma eventMessage_deny reqc ctx rsp :
  ctx_Allow ctx = false ->
  String.length (eventMessage reqc ctx rsp) <= 1024 /\
  HasPrefix (eventMessage reqc ctx rsp) "[IntegrityShieldEvent] Result: deny, Reason: " = true.
Proof.
  intros Hc. unfold eventMessage. rewrite Hc. match goal with |- context [trimMessage ?s] => set (m := s) end.
  split.
  - unfold trimMessage. destruct (Nat.ltb_spec 1024 (String.length m)); [|done].
    rewrite length_append. pose proof (length_str_take 950 m). assert (String.length trimmed <= 74) by (vm_compute; lia). lia.
  - unfold trimMessage, m. by destruct (Nat.ltb _ _).
Qed.

Lemma createOrUpdateEvent_deny reqc ctx rsp w e w' :
  kube_config = Ok tt -> (forall t ns evt, put_Event t ns evt = Ok tt) -> ctx_Allow ctx = false ->
  createOrUpdateEvent reqc ctx config rsp w = Ret (e, w') -> e = None /\ deny_event reqc (w_effects w').
Proof.
  intros Hk Hp Hc. unfold createOrUpdateEvent. rewrite Hk.
  intros (t & w1 & _ & Hr)%M_bind_Ret. apply M_bind_Ret in Hr as (cur & w2 & _ & Hr).
  apply M_bind_Ret in Hr as (r & w3 & Hq & Hr). apply M_bind_Ret in Hq as (t3 & w4 & _ & [= <- <-]). rewrite Hp in Hr.
  apply M_bind_Ret in Hr as (u & w5 & [= _ <-] & [= <- <-]). split; [done|]. cbn.
  destruct cur as [evt|]; eexists; split;
    [right; apply elem_of_app; right; by apply list_elem_of_singleton|by apply (eventMessage_deny reqc ctx rsp)
    |left; apply elem_of_app; right; by apply list_elem_of_singleton|by apply (eventMessage_deny reqc ctx rsp)].
Qed.

(** C6: every denial is reported: when events can be written, a request that is
    not admitted leaves an event that says so in its namespace, with a message
    within the limit. *)
Theorem denied_is_reported req w resp w' :
  kube_config = Ok tt -> (forall t ns evt, put_Event t ns evt = Ok tt) ->
  world_ok (cfg_Namespace config) w -> Run json_error config req w = Ret (resp, w') -> resp_Allowed resp = false ->
  exists reqc, NewReqContext req = Ret reqc /\ deny_event reqc (w_effects w').
Proof.
  intros Hk Hp Hw Hr Ha.
  destruct (Run_decision _ _ _ _ _ _ Hw Hr) as (reqc & dr & h & w1 & w2 & Hreq & Hh & Hal & Hctx & _ & _ & Hrest).
  exists reqc. split; [done|]. apply M_bind_Ret in Hrest as (? & w3 & _ & Hr3). apply M_bind_Ret in Hr3 as (? & w4 & _ & Hr4).
  apply M_bind_Ret in Hr4 as (err & w5 & Hrep & Hr5). apply M_bind_Ret in Hr5 as (u & w6 & Hfin & [= <-]).
  assert (ctx_Allow (h_ctx h) = false) as Hcf by congruence. destruct Hh as (Hc & Hq & _).
  assert (deny_event reqc (w_effects w5)) as (evt & Hin & Hevt).
  { unfold Report in Hrep. rewrite Hcf in Hrep. cbn [negb orb] in Hrep. rewrite Hc, Hq in Hrep.
    apply M_bind_Ret in Hrep as (e & w7 & Hev & Hrep). apply createOrUpdateEvent_deny in Hev as (-> & evt & Hin & Hevt); [|done..].
    apply M_bind_Ret in Hrep as (u' & w8 & Hst & [= _ <-]). apply grows_updateRSPStatus in Hst as [l Hl].
    exists evt. split; [|done]. rewrite Hl, !elem_of_app. tauto. }
  apply grows_finalize in Hfin as [l Hl]. exists evt. split; [|done]. rewrite Hl, !elem_of_app. tauto.
Qed.

(** ** The cached lists after a change *)

Lemma logExit_same h w u w' : logExit h w = Ret (u, w') -> w' = w.
Proof.
  intros (x & w1 & Hq & [= _ <-])%M_bind_Ret. unfold lift in Hq. destruct (ConsoleLogEnabled _ _); [|done].
  by injection Hq as _ <-.
Qed.

(** The requests after which the rule table is rebuilt. *)
Definition changes_rules (reqc : ReqContext) : Prop :=
  (rc_Kind reqc = ProfileCustomResourceKind /\ checkIfIShieldServerRequest reqc config = false /\
   checkIfIShieldOperatorRequest reqc config = Ret false) \/
  (rc_Kind reqc = "Namespace" /\ IsUpdateRequest reqc = false) \/
  (rc_Kind reqc = "Namespace" /\ mer_IsMutated (MutationCheck json_error reqc) = true).

Lemma changes_rules_resets h reset :
  h_config h = config -> changes_rules (h_reqc h) -> resets_cache json_error h = Ret reset -> reset = true.
Proof.
  intros Hc Hch. unfold resets_cache. rewrite Hc. intros (op & Hop & [= <-])%go_bind_Ret.
  destruct Hch as [(Hk & Hs & Ho)|[[Hk Hu]|[Hk Hm]]].
  - rewrite Hk, Hs. rewrite Ho in Hop. injection Hop as <-. done.
  - by rewrite Hk, Hu.
  - rewrite Hk, Hm. by destruct (IsUpdateRequest _).
Qed.

(** C7: the shield does not keep rules that it lets someone change: after an
    allowed change of a profile by anyone but the shield itself, or an allowed
    creation, deletion or real update of a namespace, neither the profiles nor the
    namespaces are cached any more, so the next request lists them again. *)
Theorem allowed_change_clears_cache req reqc w resp w' :
  world_ok (cfg_Namespace config) w -> Run json_error config req w = Ret (resp, w') -> resp_Allowed resp = true ->
  NewReqContext req = Ret reqc -> changes_rules reqc ->
  w_cache w' !! rsp_key = None /\ w_cache w' !! ns_key = None.
Proof.
  intros Hw Hr Ha Hreq Hch.
  destruct (Run_decision _ _ _ _ _ _ Hw Hr) as (reqc' & dr & h & w1 & w2 & Hreq' & Hh & _ & _ & _ & _ & Hrest).
  rewrite Hreq in Hreq'. injection Hreq' as <-. destruct Hh as (Hc & Hq & _).
  apply M_bind_Ret in Hrest as (? & w3 & _ & Hr3). apply M_bind_Ret in Hr3 as (? & w4 & _ & Hr4).
  apply M_bind_Ret in Hr4 as (err & w5 & _ & Hr5). apply M_bind_Ret in Hr5 as (u & w6 & Hfin & [= <-]).
  unfold finalize in Hfin. rewrite Ha in Hfin. apply M_bind_Ret in Hfin as (u1 & w7 & Hres & ->%logExit_same).
  apply M_bind_Ret in Hres as (reset & w8 & Hq1 & Hres). unfold lift in Hq1.
  destruct (resets_cache json_error h) as [b|] eqn:Er; [|done]. injection Hq1 as -> _.
  apply changes_rules_resets in Er; [|done|by rewrite Hq]. subst reset.
  apply M_bind_Ret in Hres as (u2 & w9 & [= _ <-] & [= _ <-]). cbn. rewrite !lookup_Unset. done.
Qed.

(** ** Failures *)

(** The API server has no signer configuration in the shield's namespace. *)
Definition no_signer_config : Prop := forall t, list_SignerConfigs t (cfg_Namespace config) = Some [].

(** The profiles can neither be listed nor read from the cache. *)
Definition profiles_unavailable (w : World) : Prop := (forall t, list_RSP t = None) /\ w_cache w !! rsp_key = None.

(** C36: without a signer configuration nothing is decided: when the API server
    has none in the shield's namespace, the break-glass test reads through the
    missing configuration and every request panics, protected or not. *)
Theorem no_signer_config_panics req w :
  no_signer_config -> world_ok (cfg_Namespace config) w ->
  Run json_error config req w = Panic.
Proof.
  intros Hnone Hw. destruct (Run json_error config req w) as [[resp w']|] eqn:Hr; [|done]. exfalso.
  apply M_bind_Ret in Hr as (h0 & w1 & Hq1 & Hr).
  destruct (initialize_good config _ _ _ _ Hw Hq1) as (reqc & Hreq & Hs1 & Hh0 & Hctx).
  apply M_bind_Ret in Hr as ([dr h1] & w2 & Hq2 & Hr).
  assert (ctx_Allow (h_ctx h0) = false) as Hctx0 by (by rewrite Hctx).
  destruct (Check_good json_error config _ _ _ Hh0 Hctx0 _ _ _ _ Hs1 Hq2) as ([Hs2 Ht2] & (Hc & Hq & Hd & Hcp) & _).
  apply M_bind_Ret in Hr as ([dr' h2] & w3 & Hq3 & _). apply M_bind_Ret in Hq3 as ([sc d1] & w4 & Hq3 & Hr).
  apply (data_ok_GetSignerConfig _ (w_now w)) in Hq3 as (_ & _ & _ & _ & Hsc); [|done..].
  destruct sc as [sc|]; [|destruct Hsc as [t Ht]; by rewrite Hnone in Ht].
  destruct Hsc as (l & (t & s & Hl & _) & ->). rewrite Hnone in Hl. injection Hl as <-.
  by apply M_bind_Ret in Hr as (bg & w5 & Hb & _).
Qed.

Lemma load_cached_same {A} `{ListCodec A} K ttl (api : Z -> option (list A)) w r w' :
  load_list K ttl api false w = Ret (r, w') -> w_cache w' = w_cache w /\ (w_cache w !! K = None -> r = Some (None, false)).
Proof.
  unfold load_list. intros (cached & w1 & Hg & Hr)%M_bind_Ret. apply M_bind_Ret in Hg as (t & w2 & [= <- <-] & [= <- <-]).
  rewrite andb_false_r in Hr. unfold Cache.GetString, Cache.Get in Hr. cbn in Hr.
  destruct (w_cache w !! K) eqn:E; cbn in Hr; [|by injection Hr as <- <-].
  split; [|done]. repeat case_hyp Hr; by injection Hr as <- <-.
Qed.

Lemma Init_no_profiles ns w rd w' :
  w_cache w !! rsp_key = None ->
  RunData_Init (set_loader emptyRunData (NewLoader config ns)) config w = Ret (rd, w') ->
  w_cache w' !! rsp_key = None /\ rd_RSPList rd = [] /\ rd_ruleTable rd = None /\ (forall l, rd_loader rd = Some l -> ld_RSP l = []).
Proof.
  intros Hk. unfold RunData_Init. cbn [rd_loader set_loader].
  intros ([rsps b1] & w1 & Hq1 & Hr)%M_bind_Ret. apply M_bind_Ret in Hr as ([nss b2] & w2 & Hq2 & [= <- <-]).
  apply M_bind_Ret in Hq1 as (r & w3 & Hl & Hq1). apply load_cached_same in Hl as [Hc1 Hr1]. rewrite Hr1 in Hq1 by done.
  injection Hq1 as <- <- <-. apply M_bind_Ret in Hq2 as (r2 & w4 & Hl & Hq2). apply load_cached_same in Hl as [Hc2 _].
  assert (w_cache w2 !! rsp_key = None) as Hk2.
  { assert (w2 = w4) as -> by (destruct r2 as [[? ?]|]; by injection Hq2). by rewrite Hc2, Hc1. }
  split; [done|]. cbn. repeat split. by intros l [= <-].
Qed.

(** C37: the shield fails open: while the profiles can neither be listed nor read
    from the cache, every request for a namespace that the configuration does not
    list itself is admitted. *)
Theorem profiles_unavailable_fails_open req reqc w resp w' :
  profiles_unavailable w ->
  NewReqContext req = Ret reqc -> getRequestNamespaceFromReqContext reqc <> "" ->
  checkIfInScopeNamespace (getRequestNamespaceFromReqContext reqc) config = false ->
  Run json_error config req w = Ret (resp, w') -> resp_Allowed resp = true.
Proof.
  intros [Hapi Hk] Hreq Hns Hsc Hr. apply M_bind_Ret in Hr as (h0 & w1 & Hq1 & Hr).
  apply M_bind_Ret in Hq1 as (r & w2 & Hq1 & Hi). unfold lift in Hq1. rewrite Hreq in Hq1. injection Hq1 as <- <-.
  apply M_bind_Ret in Hi as ([] & w2 & ->%(logExit_same (mkHandler config InitCheckContext reqc emptyRunData false)) & Hi).
  apply M_bind_Ret in Hi as (rd & w3 & Hi & [= <- <-]).
  apply Init_no_profiles in Hi as (Hk3 & Hl3 & Ht3 & Hd3); [|done].
  apply M_bind_Ret in Hr as ([dr h1] & w4 & Hq2 & Hr).
  assert (isAllowed dr = true) as Ha.
  { unfold Check in Hq2. apply M_bind_Ret in Hq2 as ([dr1 h2] & w5 & Hq2 & Hrest).
    apply M_bind_Ret in Hq2 as ([[dr2 ctx2] d2] & w6 & Hq2 & [= <- _ _]). cbn [h_reqc h_config h_data h_ctx] in Hq2.
    apply M_bind_Ret in Hq2 as ([out d3] & w7 & Hq2 & Hq3). unfold not_monitored in Hq2.
    rewrite bool_decide_eq_false_2, Hsc in Hq2 by done. cbn [negb andb] in Hq2.
    apply M_bind_Ret in Hq2 as ([b d4] & w8 & Hq2 & [= <- _ _]). apply M_bind_Ret in Hq2 as ([o d5] & w9 & Hq2 & [= <- _ _]).
    apply GetRuleTable_no_profiles in Hq2; [|done..]. subst o. injection Hq3 as <- _ _ _. by injection Hrest as <- _ _. }
  apply M_bind_Ret in Hr as ([dr' h2] & w5 & Hq3 & Hr).
  assert (isAllowed dr' = true) as Ha'.
  { apply M_bind_Ret in Hq3 as ([sc d1] & w6 & _ & Hq3). apply M_bind_Ret in Hq3 as (bg & w7 & _ & Hq3).
    rewrite Ha in Hq3. cbn [negb andb] in Hq3. destruct (_ && _)%bool in Hq3; by injection Hq3 as <- _ _. }
  apply M_bind_Ret in Hr as (resp0 & w6 & Hq4 & Hr).
  assert (isErrorOccurred dr' = false) as He.
  { unfold isAllowed in Ha'. apply bool_decide_eq_true in Ha'. unfold isErrorOccurred. by rewrite Ha'. }
  destruct (respond_good config _ _ _ _ _ He Hq4) as [Hresp _].
  do 4 (apply M_bind_Ret in Hr as (? & ? & _ & Hr)). injection Hr as <- _. congruence.
Qed.
End reports.
