(* ===== verification/HandlerSamples.v ===== *)
(** * Requests from end to end

    A cluster with one profile that protects config maps in [secure-ns], one
    signer and her key: what the handler answers, and instances of the handler's
    guarantees. *)
From S2P Require Import Prelude GoStrings GoJson Pattern Common ReqContext Profile SigningProfile Policy ShieldConfig Cache.
From S2P Require Import MapNode Diff Mutation RuleTable Signing ResourceSignature SignVerifier Sign World Loader Frame Validation.
From S2P Require Import CheckContext Check Handler HandlerFacts HandlerReports.
From stdpp Require Import options.

(** A JSON library that knows one request: the named paths and the annotations. *)
Definition table_gjson (fields annotations : gmap string string) : Gjson := {|
  gjson_Get _ path :=
    if bool_decide (path = "object.metadata.annotations")
    then Some (mkGjsonResult "" [] annotations (Some annotations) (fun k => bool_decide (is_Some (annotations !! k))))
    else if bool_decide (path = "metadata") then Some (mkGjsonResult "" [] ∅ (Some ∅) (fun _ => false))
    else (fun s => mkGjsonResult s [] ∅ None (fun _ => false)) <$> fields !! path;
  marshal_request _ := Some "request" |}.
Definition request_gjson (kind name op : string) : Gjson :=
  table_gjson (<["namespace" := "secure-ns"]> (<["name" := name]> (<["kind.version" := "v1"]> (<["kind.kind" := kind]>
    (<["operation" := op]> {["userInfo.username" := "bob"]}))))) signed_annotations.
Definition handler_request (kind name op object : string) : AdmissionRequest :=
  mkAdmissionRequest "uid" (mkGVK "" "v1" kind) name "secure-ns" op (Some object) None (Some false).

Definition sample_logrus : Logrus :=
  {| ParseLevel s := if bool_decide (s = "") then None else Some 2; Level_String _ := "error" |}.
Definition sample_time : TimeFmt := {| Format _ _ := "now"; UTC_Format _ _ := "now" |}.
Definition handler_config (mode : string) : ShieldConfig :=
  mkShieldConfig (Some (mkPatchConfig true))
    (Some (mkLoggingScopeConfig "info" false true false (Some (mkLogScopeConfig true [] [])) (Some (mkLogScopeConfig false [] []))
       "json" "" "" 0))
    None [] [] mode [] None "ishield" "ishield" "ishield" alice_keys "" "" ""
    (Some (mkIShieldResourceCondition [] [] "operator")) "" "" "shield" "server" [].

Definition resp_of (r : go (AdmissionResponse * World)) : AdmissionResponse :=
  match r with Ret (a, _) => a | Panic => mkAdmissionResponse false "" None end.
Definition world_of (r : go (AdmissionResponse * World)) : World :=
  match r with Ret (_, w) => w | Panic => empty_world end.

Section samples.
#[local] Existing Instances sample_diff sample_float sample_yaml sample_manifest sample_json sample_kube sample_pgp sample_x509
  sample_helm sample_k8s sample_policy_json sample_strict sample_logrus sample_time sample_diff_ok sample_manifest_ok.
#[local] Instance rsp_codec : ListCodec ResourceSigningProfile := const_codec sample_rsps.
#[local] Instance ns_codec : ListCodec Namespace := const_codec sample_nss.
#[local] Instance rs_codec : ListCodec ResourceSignature := const_codec [].

Lemma world_ok_empty `{ListCodec SignerConfigRes, Cluster} ns : world_ok ns empty_world.
Proof. repeat split; intros e He; cbn in He; rewrite lookup_empty in He; done. Qed.

(** ** The cluster of the samples *)
Section cluster.
#[local] Existing Instances sample_cluster sample_cluster_ok.
#[local] Instance sc_codec : ListCodec SignerConfigRes := const_codec [mkSignerConfigRes emptyMeta (Some sample_config)].
Lemma rsps_codec_ok : CodecFor list_RSP.
Proof. intros t l Hl. cbn in *. congruence. Qed.
Lemma nss_codec_ok : CodecFor list_Namespaces.
Proof. intros t l Hl. cbn in *. congruence. Qed.
Lemma sc_codec_ok ns : CodecFor (fun t => list_SignerConfigs t ns).
Proof. intros t l Hl. cbn in *. congruence. Qed.
#[local] Existing Instances rsps_codec_ok nss_codec_ok sc_codec_ok.

Definition run `{Gjson} (mode kind name op val : string) : go (AdmissionResponse * World) :=
  Run (fun _ => "") (handler_config mode) (handler_request kind name op (signed_json val)) empty_world.

Section config_map.
#[local] Instance cm_gjson : Gjson := request_gjson "ConfigMap" "cm" "CREATE".

(** A signed config map is admitted and labelled, a changed one is denied. *)
Example Run_samples :
  resp_Allowed (resp_of (run EnforceMode "ConfigMap" "cm" "CREATE" "val")) = true /\
  resp_Patch (resp_of (run EnforceMode "ConfigMap" "cm" "CREATE" "val")) <> None /\
  resp_Allowed (resp_of (run EnforceMode "ConfigMap" "cm" "CREATE" "other")) = false /\
  length (w_effects (world_of (run EnforceMode "ConfigMap" "cm" "CREATE" "other"))) = 2.
Proof. vm_compute. repeat split. discriminate. Qed.


Lemma detect_mode_never_blocks_witness :
  resp_Allowed (resp_of (run DetectMode "ConfigMap" "cm" "CREATE" "other")) = true.
Proof.
  apply (detect_mode_never_blocks (fun _ => "") (handler_config DetectMode)
           (handler_request "ConfigMap" "cm" "CREATE" (signed_json "other")) empty_world
           (resp_of (run DetectMode "ConfigMap" "cm" "CREATE" "other"))
           (world_of (run DetectMode "ConfigMap" "cm" "CREATE" "other"))); [reflexivity|vm_compute; reflexivity].
Defined.

Lemma denied_is_reported_witness :
  exists reqc, NewReqContext (handler_request "ConfigMap" "cm" "CREATE" (signed_json "other")) = Ret reqc /\
    deny_event (handler_config EnforceMode) reqc (w_effects (world_of (run EnforceMode "ConfigMap" "cm" "CREATE" "other"))).
Proof.
  apply (denied_is_reported (fun _ => "") (handler_config EnforceMode)
           (handler_request "ConfigMap" "cm" "CREATE" (signed_json "other")) empty_world
           (resp_of (run EnforceMode "ConfigMap" "cm" "CREATE" "other"))
           (world_of (run EnforceMode "ConfigMap" "cm" "CREATE" "other"))).
  - reflexivity.
  - reflexivity.
  - apply world_ok_empty.
  - vm_compute; reflexivity.
  - vm_compute; reflexivity.
Defined.
End config_map.

Section profile.
#[local] Instance rsp_gjson : Gjson := request_gjson ProfileCustomResourceKind "rsp" "CREATE".
Definition rsp_request : AdmissionRequest := handler_request ProfileCustomResourceKind "rsp" "CREATE" (signed_json "val").
Definition rsp_reqc : ReqContext :=
  match NewReqContext rsp_request with Ret r => r | Panic => cluster_request end.

Lemma allowed_change_clears_cache_witness :
  w_cache (world_of (run EnforceMode ProfileCustomResourceKind "rsp" "CREATE" "val")) !! rsp_key = None.
Proof.
  refine (proj1 (allowed_change_clears_cache (fun _ => "") (handler_config EnforceMode) rsp_request rsp_reqc empty_world
    (resp_of (run EnforceMode ProfileCustomResourceKind "rsp" "CREATE" "val"))
    (world_of (run EnforceMode ProfileCustomResourceKind "rsp" "CREATE" "val")) (world_ok_empty _) _ _ _ _)).
  - vm_compute; reflexivity.
  - vm_compute; reflexivity.
  - vm_compute; reflexivity.
  - left. repeat split; vm_compute; reflexivity.
Defined.
End profile.
End cluster.

(** ** A cluster without signer configurations *)
Section no_signer_config.
#[local] Instance bare_cluster : Cluster := {|
  tick t := (t + 1)%Z; list_RSP _ := Some sample_rsps; list_Namespaces _ := Some sample_nss;
  list_SignerConfigs _ _ := Some []; list_ResourceSignatures _ _ _ := Some []; kube_config := Signing.Ok tt;
  get_Event _ _ _ := None; put_Event _ _ _ := Signing.Ok tt; get_RSP _ _ _ := Signing.Err "not found"; put_RSP _ _ _ := Signing.Ok tt |}.
#[local] Instance empty_codec : ListCodec SignerConfigRes := const_codec [].
#[local] Instance pod_gjson : Gjson := request_gjson "Pod" "web" "CREATE".

Lemma no_signer_config_panics_witness :
  Run (fun _ => "") (handler_config EnforceMode) (handler_request "Pod" "web" "CREATE" "{}") empty_world = Panic.
Proof.
  assert (ClusterOk) as Hok by (intros t; cbn; lia).
  assert (CodecFor list_RSP) as Hc1 by (intros t l Hl; cbn in *; congruence).
  assert (CodecFor list_Namespaces) as Hc2 by (intros t l Hl; cbn in *; congruence).
  assert (CodecFor (fun t => list_SignerConfigs t "ishield")) as Hc3 by (intros t l Hl; cbn in *; congruence).
  apply (no_signer_config_panics (fun _ => "") (handler_config EnforceMode)); [intros t; reflexivity|apply world_ok_empty].
Defined.
End no_signer_config.

(** ** A cluster whose profiles cannot be listed *)
Section no_profiles.
#[local] Instance failing_cluster : Cluster := {|
  tick t := (t + 1)%Z; list_RSP _ := None; list_Namespaces _ := Some sample_nss;
  list_SignerConfigs _ _ := Some [mkSignerConfigRes emptyMeta (Some sample_config)]; list_ResourceSignatures _ _ _ := Some [];
  kube_config := Signing.Ok tt;
  get_Event _ _ _ := None; put_Event _ _ _ := Signing.Ok tt; get_RSP _ _ _ := Signing.Err "not found"; put_RSP _ _ _ := Signing.Ok tt |}.
#[local] Instance one_codec : ListCodec SignerConfigRes := const_codec [mkSignerConfigRes emptyMeta (Some sample_config)].
#[local] Instance unsigned_gjson : Gjson := request_gjson "ConfigMap" "cm" "CREATE".
Definition unsigned_request : AdmissionRequest := handler_request "ConfigMap" "cm" "CREATE" (signed_json "other").
Definition unsigned_reqc : ReqContext := match NewReqContext unsigned_request with Ret r => r | Panic => cluster_request end.
Definition open_run : go (AdmissionResponse * World) := Run (fun _ => "") (handler_config EnforceMode) unsigned_request empty_world.

(** The changed config map, denied above, is admitted. *)
Lemma profiles_unavailable_fails_open_witness : resp_Allowed (resp_of open_run) = true.
Proof.
  assert (ClusterOk) as Hok by (intros t; cbn; lia).
  assert (CodecFor list_RSP) as Hc1 by (intros t l Hl; cbn in *; congruence).
  assert (CodecFor list_Namespaces) as Hc2 by (intros t l Hl; cbn in *; congruence).
  assert (CodecFor (fun t => list_SignerConfigs t "ishield")) as Hc3 by (intros t l Hl; cbn in *; congruence).
  apply (profiles_unavailable_fails_open (fun _ => "") (handler_config EnforceMode) unsigned_request unsigned_reqc empty_world
           (resp_of open_run) (world_of open_run));
    [split; reflexivity|vm_compute; reflexivity|vm_compute; discriminate|vm_compute; reflexivity|vm_compute; reflexivity].
Defined.
End no_profiles.

(** ** Two signatures for one resource *)
Definition dated_signature (uid time : string) : ResourceSignature :=
  mkResourceSignature (mkObjectMeta uid "secure-ns" uid {[ResSigLabelTime := time]})
    [mkSignItem (map_str signed_annotations MessageAnnotationKey) "" "" uid "" ""].

Lemma newest_signature_is_used_witness :
  exists ss, ss ∈ [dated_signature "old" "100"; dated_signature "new" "200"] /\ "new" = om_UID (rsig_meta ss).
Proof.
  destruct (List_FindSignItem (sortByTimestamp [dated_signature "old" "100"; dated_signature "new" "200"]) "v1" "ConfigMap" "cm" "secure-ns")
    as [[[si y] uid]|] eqn:E; [|vm_compute in E; discriminate].
  destruct (newest_signature_is_used [dated_signature "old" "100"; dated_signature "new" "200"] "v1" "ConfigMap" "cm" "secure-ns" si y uid E)
    as (ss & Hin & Hu & _).
  exists ss. split; [exact Hin|]. rewrite <-Hu. vm_compute in E. injection E as _ _ E. exact E.
Defined.
End samples.
