(* ===== verification/Server.v ===== *)
(** * The webhook server  ([shield/cmd/ishield-server/config.go], [webhook.go])

    The process around the handler: it reloads the shield configuration from the
    API server, decodes an admission review, runs the handler on it and encodes
    the answer.  The configuration is a singleton that every request reads and
    may replace; it is passed from call to call. *)
From S2P Require Import Prelude GoStrings GoJson Pattern Common ReqContext Profile SigningProfile Policy ShieldConfig Cache.
From S2P Require Import MapNode Diff Mutation RuleTable Signing ResourceSignature SignVerifier Sign World Loader Frame Validation.
From S2P Require Import CheckContext Check Handler HandlerFacts.
From stdpp Require Import options.
#[local] Open Scope Z_scope.

(** ** Configuration *)

(** [os.Getenv]: the empty string for a variable that is not set. *)
Class Env := Getenv : string -> string.

(** [rest.InClusterConfig], the clientset made from it, and reading a
    [ShieldConfig] resource at a time; its [Spec.ShieldConfig] may be nil. *)
Class ShieldConfigApi := {
  InClusterConfig : res unit;
  NewForConfig : res unit;
  get_ShieldConfig : Z -> string -> string -> res (option ShieldConfig)
}.

(** The zero time stands in [lastUpdated] while the configuration is nil and is
    not read then. *)
Record Config := mkConfig { conf_ShieldConfig : option ShieldConfig; conf_lastUpdated : Z }.

Definition NewConfig : Config := mkConfig None 0.

(** [log.Fatal] ends the process. *)
Inductive process (A : Type) := Exit | Continue (a : A).
Arguments Exit {A}.
Arguments Continue {A} a.

Definition set_ChartRepo (ec : ShieldConfig) (chartRepo : string) : ShieldConfig :=
  {| cfg_Patch := cfg_Patch ec; cfg_Log := cfg_Log ec;
     cfg_InScopeNamespaceSelector := cfg_InScopeNamespaceSelector ec;
     cfg_Allow := cfg_Allow ec; cfg_Ignore := cfg_Ignore ec; cfg_Mode := cfg_Mode ec;
     cfg_Plugin := cfg_Plugin ec; cfg_CommonProfile := cfg_CommonProfile ec;
     cfg_Namespace := cfg_Namespace ec; cfg_SignatureNamespace := cfg_SignatureNamespace ec;
     cfg_ProfileNamespace := cfg_ProfileNamespace ec; cfg_KeyPathList := cfg_KeyPathList ec;
     cfg_ChartDir := cfg_ChartDir ec; cfg_ChartRepo := chartRepo;
     cfg_IShieldResource := cfg_IShieldResource ec;
     cfg_IShieldResourceCondition := cfg_IShieldResourceCondition ec;
     cfg_IShieldAdminUserGroup := cfg_IShieldAdminUserGroup ec;
     cfg_IShieldAdminUserName := cfg_IShieldAdminUserName ec;
     cfg_IShieldCRName := cfg_IShieldCRName ec;
     cfg_IShieldServerUserName := cfg_IShieldServerUserName ec;
     cfg_Options := cfg_Options ec |}.

(** [t.Sub(u)] saturates; [int(d.Seconds())] drops the fraction.  (The source
    goes through a 64-bit float, which is exact here for durations below 2^22
    seconds.) *)
Definition time_Sub (t u : Z) : Z := Z.max int64_min (Z.min (t - u) int64_max).
Definition Seconds (d : Z) : Z := Z.quot d 1000000000.

(** The reload interval in seconds.  The branch that takes the value is the one
    on which [strconv.Atoi] failed. *)
Definition reload_interval (s : string) : Z :=
  if bool_decide (s = "") then 20
  else match Atoi s with
       | None => Atoi_value s
       | Some _ => 20
       end.

Section server.
Context `{Cluster, Env, ShieldConfigApi}.

Definition LoadEnforceConfig (namespace cmname : string) : M (option ShieldConfig) :=
  match InClusterConfig, NewForConfig with
  | Ok _, Ok _ =>
      ecres ← call (fun t => get_ShieldConfig t namespace cmname);
      mret (match ecres with Ok ec => ec | Err _ => None end)
  | _, _ => mret None
  end.

(** Whether the configuration is due for a reload at time [t]. *)
Definition needs_renew (conf : Config) (t : Z) : bool :=
  match conf_ShieldConfig conf with
  | None => true
  | Some _ => reload_interval (Getenv "SHIELD_CM_RELOAD_SEC") <? Seconds (time_Sub t (conf_lastUpdated conf))
  end.

Definition InitShieldConfig (conf : Config) : M (process (bool * Config)) :=
  t ← now;
  if needs_renew conf t then
    loaded ← LoadEnforceConfig (Getenv "SHIELD_NS") (Getenv "SHIELD_CONFIG_NAME");
    let shieldConfig := match loaded with Some ec => Some ec | None => conf_ShieldConfig conf end in
    mret (match shieldConfig with
          | None => Exit
          | Some ec => Continue (true, mkConfig (Some (set_ChartRepo ec (Getenv "CHART_BASE_URL"))) t)
          end)
  else mret (Continue (false, conf)).

(** [init]: the configuration at the start; a configuration without [Log]
    panics when its level is read. *)
Definition init : M (process Config) :=
  r ← InitShieldConfig NewConfig;
  match r with
  | Exit => mret Exit
  | Continue (_, conf) =>
      match conf_ShieldConfig conf with
      | Some ec => match cfg_Log ec with Some _ => mret (Continue conf) | None => panic end
      | None => panic
      end
  end.

(** ** Requests *)

Record TypeMeta := mkTypeMeta { tm_Kind : string; tm_APIVersion : string }.

(** [admv1.AdmissionReview] as it is received and as it is answered. *)
Record ReviewRequest := mkReviewRequest { rvq_Type : TypeMeta; rvq_Request : option AdmissionRequest }.
Record ReviewAnswer := mkReviewAnswer { rva_Type : TypeMeta; rva_UID : string; rva_Response : AdmissionResponse }.

(** The universal deserializer (what it decoded so far, and its error), and
    [json.Marshal] of an answer. *)
Class ReviewCodec := {
  Decode : string -> ReviewRequest * option string;
  marshal_answer : ReviewAnswer -> res string
}.

(** What is written to the client; [write_fails] is the error of [w.Write]. *)
Inductive http_write := HttpError (msg : string) (code : Z) | HttpBody (s : option string).

Record http_request := mkHttpRequest { hr_Body : option (res string); hr_ContentType : string }.

Context `{K8sApi, TimeFmt, Gjson, StrictDecoders, Logrus, ReviewCodec}.
Context `{!ListCodec ResourceSigningProfile, !ListCodec Namespace, !ListCodec SignerConfigRes, !ListCodec ResourceSignature}.
Context `{DiffLib, FloatFmt, YamlLib, !ManifestLib, JsonLib, KubeUtil, PgpLib, X509Lib, HelmPlugin, PolicyJson}.
Context (json_error : string -> string) (write_fails : option string -> option string).

(** [handleAdmissionRequest]: the logger of the request completes the [Log] of
    the shared configuration; a review without a request panics. *)
Definition handleAdmissionRequest (conf : Config) (review : ReviewRequest) : M (process (AdmissionResponse * Config)) :=
  r ← InitShieldConfig conf;
  match r with
  | Exit => mret Exit
  | Continue (_, conf) =>
      match rvq_Request review, conf_ShieldConfig conf with
      | Some req, Some ec =>
          let ec := complete_log ec in
          resp ← Run json_error ec req;
          mret (Continue (resp, mkConfig (Some ec) (conf_lastUpdated conf)))
      | _, _ => panic
      end
  end.

(** The answer of a request that could not be decoded. *)
Definition decode_failure (msg : string) : AdmissionResponse := mkAdmissionResponse false msg None.

Definition answer_writes (answer : ReviewAnswer) : list http_write :=
  let '(resp, w1) := match marshal_answer answer with
                     | Ok s => (Some s, [])
                     | Err e => (None, [HttpError ("marshaling admision review response: " +:+ e) 500])
                     end in
  let w2 := match write_fails resp with
            | None => [HttpBody resp]
            | Some e => [HttpError ("could not write response: " +:+ e) 500]
            end in
  w1 ++ w2.

Definition request_UID (review : ReviewRequest) : string :=
  match rvq_Request review with Some req => ar_UID req | None => "" end.

Definition serveRequest (conf : Config) (r : http_request) : M (process (list http_write * Config)) :=
  match hr_Body r with
  | Some (Err _) => mret (Continue ([HttpError "Could not read admission request" 400], conf))
  | b =>
      let body := match b with Some (Ok data) => data | _ => "" end in
      if bool_decide (body = "") then mret (Continue ([HttpError "Admission request has empty body" 400], conf))
      else if bool_decide (hr_ContentType r <> "application/json")
      then mret (Continue ([HttpError " Request has invalid Content-Type, expect `application/json`" 415], conf))
      else
        let '(review, err) := Decode body in
        let answer resp := mkReviewAnswer (rvq_Type review) (request_UID review) resp in
        match err with
        | Some e => mret (Continue (answer_writes (answer (decode_failure e)), conf))
        | None =>
            r ← handleAdmissionRequest conf review;
            mret (match r with
                  | Exit => Exit
                  | Continue (resp, conf) => Continue (answer_writes (answer resp), conf)
                  end)
        end
  end.

(** The health endpoints and the routes of the server; other paths get the
    answer of [net/http] for an unknown path. *)
Definition checkLiveness : list http_write := [HttpBody (Some "liveness ok")].
Definition checkReadiness : list http_write := [HttpBody (Some "readiness ok")].

Definition route (path : string) (conf : Config) (r : http_request) : M (process (list http_write * Config)) :=
  if bool_decide (path = "/mutate") then serveRequest conf r
  else if bool_decide (path = "/health/liveness") then mret (Continue (checkLiveness, conf))
  else if bool_decide (path = "/health/readiness") then mret (Continue (checkReadiness, conf))
  else mret (Continue ([HttpError "404 page not found" 404], conf)).
End server.

(** ** Facts *)

(** The configuration of the process at a time: derived from an answer of the API
    server that was asked for no earlier than [lastUpdated]. *)
Definition derived `{Env} (ec ec' : ShieldConfig) : Prop :=
  let ec1 := set_ChartRepo ec (Getenv "CHART_BASE_URL") in ec' = ec1 \/ ec' = complete_log ec1.

Definition answered `{Env, ShieldConfigApi} (t : Z) (ec : ShieldConfig) : Prop :=
  get_ShieldConfig t (Getenv "SHIELD_NS") (Getenv "SHIELD_CONFIG_NAME") = Ok (Some ec).

Definition conf_inv `{Env, ShieldConfigApi} (conf : Config) (now : Z) : Prop :=
  exists t0 ec ec', answered t0 ec /\ conf_ShieldConfig conf = Some ec' /\ derived ec ec' /\
    conf_lastUpdated conf <= t0 <= now.

(** The API server answers every request for the configuration. *)
Class ShieldConfigUp `{Env, ShieldConfigApi} : Prop := {
  client_up : InClusterConfig = Ok tt /\ NewForConfig = Ok tt;
  config_up : forall t, exists ec, answered t ec
}.

Section config_facts.
Context `{ClusterOk, Env, ShieldConfigApi}.
#[local] Set Default Proof Using "Type*".

Lemma now_Ret w t w' : now w = Ret (t, w') -> w_now w <= t /\ w_now w' = t.
Proof. intros [= <- <-]. cbn. split; [apply tick_mono|done]. Qed.

Lemma derived_complete ec ec' : derived ec ec' -> derived ec (complete_log ec').
Proof.
  intros [->| ->]; right; [done|]. apply complete_log_idem.
Qed.

(** What a call of [InitShieldConfig] can end with. *)
Lemma InitShieldConfig_cases conf w r w' :
  InitShieldConfig conf w = Ret (r, w') ->
  exists t, w_now w <= t <= w_now w' /\ w_cache w' = w_cache w /\ w_effects w' = w_effects w /\
  ( (needs_renew conf t = false /\ r = Continue (false, conf)) \/
    (needs_renew conf t = true /\ exists t0 loaded, t <= t0 <= w_now w' /\
       (forall ec, loaded = Some ec -> answered t0 ec) /\
       (ShieldConfigUp -> is_Some loaded) /\
       r = match (match loaded with Some ec => Some ec | None => conf_ShieldConfig conf end) with
           | None => Exit
           | Some ec => Continue (true, mkConfig (Some (set_ChartRepo ec (Getenv "CHART_BASE_URL"))) t)
           end)).
Proof.
  unfold InitShieldConfig. intros (t & w1 & Hn & Hr)%M_bind_Ret. pose proof Hn as [Ht Hw1]%now_Ret.
  exists t. injection Hn as Hn' Hw1'. subst w1. cbn in *. rewrite Hn' in Hr.
  destruct (needs_renew conf t) eqn:En; [|injection Hr as <- <-; cbn; repeat split; auto; lia].
  apply M_bind_Ret in Hr as (loaded & w2 & Hl & Hr). injection Hr as <- <-.
  assert (loaded = None /\ w2 = mkWorld (w_cache w) t (w_effects w) /\ (ShieldConfigUp -> False) \/
    exists t0, t <= t0 <= w_now w2 /\ w_cache w2 = w_cache w /\ w_effects w2 = w_effects w /\
      loaded = match get_ShieldConfig t0 (Getenv "SHIELD_NS") (Getenv "SHIELD_CONFIG_NAME") with Ok ec => ec | Err _ => None end)
    as [(-> & -> & Hdown)|(t0 & Ht0 & Hc & He & ->)].
  { unfold LoadEnforceConfig in Hl.
    destruct InClusterConfig as [[]|e1] eqn:E1; [destruct NewForConfig as [[]|e2] eqn:E2|];
      [right|left; injection Hl as <- <-; do 2 (split; [done|]); intros [[? ?] ?]; congruence..].
    apply M_bind_Ret in Hl as (ecres & w3 & Hc & Hl). injection Hl as <- <-.
    apply M_bind_Ret in Hc as (t0 & w4 & Hn0 & Hc). pose proof Hn0 as [Ht0 Hw4]%now_Ret.
    unfold now in Hn0. simplify_eq Hn0. intros. injection Hc as <- <-. simplify_eq. eexists. split; cycle 1; [repeat split; reflexivity|]. cbn in *. lia. }
  - cbn. split; [lia|]. do 2 (split; [done|]). right. split; [done|]. exists t, None. split; [lia|]. naive_solver.
  - split; [lia|]. do 2 (split; [done|]). right. split; [done|]. exists t0. eexists. split; [lia|]. split; [|split; [|reflexivity]].
    + intros ec. destruct (get_ShieldConfig _ _ _) as [o|e] eqn:Eg; [|done]. intros ->. exact Eg.
    + intros [_ Hup]. destruct (Hup t0) as [ec Hec]. unfold answered in Hec. rewrite Hec. by eexists.
Qed.

(** Every number a deployment can write into the variable, and an unset variable,
    give the default interval. *)
Definition interval_ignored : Prop :=
  Getenv "SHIELD_CM_RELOAD_SEC" = "" \/ is_Some (Atoi (Getenv "SHIELD_CM_RELOAD_SEC")).

Lemma reload_interval_default : interval_ignored -> reload_interval (Getenv "SHIELD_CM_RELOAD_SEC") = 20.
Proof.
  unfold reload_interval. intros [->|[v Hv]]; [done|]. case_bool_decide; [done|]. by rewrite Hv.
Qed.

Lemma not_due_age conf t ec :
  conf_ShieldConfig conf = Some ec -> interval_ignored -> conf_lastUpdated conf <= t ->
  needs_renew conf t = false -> t - conf_lastUpdated conf < 21000000000.
Proof.
  unfold needs_renew. intros -> Hi Hle. rewrite (reload_interval_default Hi), Z.ltb_ge. unfold Seconds, time_Sub, int64_min, int64_max.
  intros Hs. set (d := t - conf_lastUpdated conf) in *. assert (0 <= d) by lia.
  rewrite Z.max_r in Hs by lia. pose proof (Z.quot_rem' (Z.min d 9223372036854775807) 1000000000) as Hq.
  pose proof (Z.rem_bound_pos (Z.min d 9223372036854775807) 1000000000 ltac:(lia) ltac:(lia)). lia.
Qed.

(** Once the process has a configuration it keeps one: no later request ends the
    process, and the configuration stays derived from an answer of the API server,
    asked for at most twenty-one seconds before. *)
Lemma InitShieldConfig_current conf w r w' :
  ShieldConfigUp -> interval_ignored -> conf_inv conf (w_now w) ->
  InitShieldConfig conf w = Ret (r, w') ->
  exists renew conf', r = Continue (renew, conf') /\ conf_inv conf' (w_now w') /\
    exists t, w_now w <= t <= w_now w' /\ t - conf_lastUpdated conf' < 21000000000.
Proof.
  intros Hup Hi (t0 & ec & ec' & Ha & Hc & Hd & Hlt) (t & Ht & _ & _ & [[Hn ->]|(Hn & t1 & loaded & Ht1 & Hans & Hl & ->)])%InitShieldConfig_cases.
  - exists false, conf. split; [done|]. split; [exists t0, ec, ec'; repeat split; auto; lia|].
    exists t. split; [done|]. eapply not_due_age; eauto. lia.
  - destruct (Hl Hup) as [ec1 ->]. eexists _, _. split; [reflexivity|]. split.
    + exists t1, ec1. eexists. split; [by apply Hans|]. split; [reflexivity|]. split; [by left|]. cbn. lia.
    + exists t. cbn. split; [done|]. lia.
Qed.

Lemma keeps_config conf ec w r w' :
  conf_ShieldConfig conf = Some ec -> InitShieldConfig conf w = Ret (r, w') ->
  exists renew conf', r = Continue (renew, conf') /\ is_Some (conf_ShieldConfig conf').
Proof.
  intros Hc (t & _ & _ & _ & [[_ ->]|(_ & t1 & loaded & _ & _ & _ & ->)])%InitShieldConfig_cases.
  - exists false, conf. by rewrite Hc.
  - destruct loaded; rewrite ?Hc; eauto.
Qed.

Lemma InitShieldConfig_total conf w : exists r w', InitShieldConfig conf w = Ret (r, w').
Proof.
  unfold InitShieldConfig, LoadEnforceConfig, mbind, M_bind, now. destruct (needs_renew _ _); [|eauto].
  destruct InClusterConfig; [|eauto]. destruct NewForConfig; eauto.
Qed.

(** The zero interval: a text that is no number at all makes every request whose
    predecessor is more than a second old reload. *)
Lemma reload_interval_garbage s : s <> "" -> Atoi s = None -> reload_interval s = Atoi_value s.
Proof. intros Hs Ha. unfold reload_interval. rewrite bool_decide_false by done. by rewrite Ha. Qed.
End config_facts.

(** However the variable is set to a number, the configuration a request is
    judged by was asked for less than twenty-one seconds before, and a process
    that has a configuration neither loses it nor exits. *)
Theorem configuration_age_bounded `{ClusterOk, Env, ShieldConfigApi} conf ec w r w' :
  conf_ShieldConfig conf = Some ec -> conf_lastUpdated conf <= w_now w -> interval_ignored ->
  InitShieldConfig conf w = Ret (r, w') ->
  exists renew conf' t, r = Continue (renew, conf') /\ is_Some (conf_ShieldConfig conf') /\
    w_now w <= t <= w_now w' /\ 0 <= t - conf_lastUpdated conf' < 21000000000.
Proof.
  intros Hc Hle Hi (t & Ht & _ & _ & [[Hn ->]|(Hn & t1 & loaded & _ & _ & _ & ->)])%InitShieldConfig_cases.
  - exists false, conf, t. split; [done|]. split; [by rewrite Hc|]. split; [done|].
    pose proof (not_due_age conf t ec Hc Hi ltac:(lia) Hn). lia.
  - destruct loaded as [ec1|]; [|rewrite Hc]; eexists true, _, t; (split; [reflexivity|]); cbn; (split; [by eexists|]);
      (split; [done|]); lia.
Qed.

(** An interval too large for an integer, taken although its conversion
    failed, means that the configuration is never loaded again. *)
Theorem out_of_range_interval_never_reloads `{ClusterOk, Env, ShieldConfigApi} conf ec w :
  conf_ShieldConfig conf = Some ec ->
  Atoi (Getenv "SHIELD_CM_RELOAD_SEC") = None -> Atoi_value (Getenv "SHIELD_CM_RELOAD_SEC") = int64_max ->
  exists w', InitShieldConfig conf w = Ret (Continue (false, conf), w').
Proof.
  intros Hc Ha Hv. unfold InitShieldConfig. eexists. unfold mbind, M_bind, now.
  assert (needs_renew conf (tick (w_now w)) = false) as ->; [|reflexivity].
  unfold needs_renew. rewrite Hc, Z.ltb_ge, reload_interval_garbage, Hv; [|by intros Hs; rewrite Hs in Hv|done].
  unfold Seconds, time_Sub, int64_min, int64_max. set (d := Z.max _ _).
  assert (-9223372036854775808 <= d <= 9223372036854775807) by lia.
  pose proof (Z.quot_le_mono d 9223372036854775807 1000000000 ltac:(lia) ltac:(lia)) as Hq.
  assert (Z.quot 9223372036854775807 1000000000 = 9223372036) as He by reflexivity.
  rewrite He in Hq. revert Hq. generalize (Z.quot d 1000000000). lia.
Qed.

(** The answer whose text reaches the client. *)
Lemma answer_writes_body `{ReviewCodec} write_fails answer body :
  HttpBody (Some body) ∈ answer_writes write_fails answer -> marshal_answer answer = Ok body.
Proof.
  unfold answer_writes. destruct (marshal_answer answer) as [s|e].
  - destruct (write_fails (Some s)); cbn; rewrite list_elem_of_singleton; congruence.
  - destruct (write_fails None); cbn; rewrite !elem_of_cons, elem_of_nil; naive_solver.
Qed.

Section request_facts.
Context `{ClusterOk, Env, ShieldConfigApi, K8sApi, TimeFmt, Gjson, StrictDecoders, Logrus, ReviewCodec}.
Context `{!ListCodec ResourceSigningProfile, !ListCodec Namespace, !ListCodec SignerConfigRes, !ListCodec ResourceSignature}.
Context `{DiffLibOk, FloatFmt, YamlLib, !ManifestLib, !ManifestLibOk, JsonLib, KubeUtil, PgpLib, X509Lib, HelmPlugin, PolicyJson}.
Context `{!CodecFor list_RSP, !CodecFor list_Namespaces}.
Context (sc_codecs : forall ns, CodecFor (fun t => list_SignerConfigs t ns)).
Context (json_error : string -> string) (write_fails : option string -> option string).
#[local] Set Default Proof Using "Type*".

(** An admitted review was judged by the handler under a current configuration. *)
Lemma handleAdmissionRequest_allows conf review w resp conf' w' :
  ShieldConfigUp -> interval_ignored -> conf_inv conf (w_now w) -> (forall ns, world_ok ns w) ->
  handleAdmissionRequest json_error conf review w = Ret (Continue (resp, conf'), w') ->
  resp_Allowed resp = true ->
  exists req reqc t0 ec ec' t, rvq_Request review = Some req /\ NewReqContext req = Ret reqc /\
    answered t0 ec /\ derived ec ec' /\ w_now w - t0 < 21000000000 /\ w_now w <= t /\
    (detecting ec' \/ break_glass_open ec' t reqc \/ allowed_by json_error ec' t reqc).
Proof.
  intros Hup Hi Hinv Hw (r & w1 & Hq1 & Hq2)%M_bind_Ret Ha.
  pose proof Hq1 as (t & Ht & Hcache & _ & _)%InitShieldConfig_cases.
  apply InitShieldConfig_current in Hq1 as (renew & conf1 & -> & (t0 & ec & ec' & Hans & Hc & Hd & Hlt) & t1 & Ht1 & Hage); [|done..].
  destruct (rvq_Request review) as [req|]; [|done]. rewrite Hc in Hq2.
  apply M_bind_Ret in Hq2 as (resp1 & w2 & Hrun & [= -> <- <-]).
  assert (world_ok (cfg_Namespace (complete_log ec')) w1) as Hw1.
  { destruct (Hw (cfg_Namespace (complete_log ec'))) as [[Hi1 Hi2] Hi3].
    repeat split; intros e; rewrite Hcache; [apply Hi1|apply Hi2|apply Hi3]. }
  pose proof (sc_codecs (cfg_Namespace (complete_log ec'))).
  destruct (Run_decision _ _ _ _ _ _ Hw1 Hrun) as (reqc & dr & h & w3 & w4 & Hreq & _ & Hal & _ & Hwhy & _).
  exists req, reqc, t0, ec, (complete_log ec'), (w_now w1).
  split; [done|]. split; [done|]. split; [done|]. split; [by apply derived_complete|]. split; [lia|]. split; [lia|].
  apply Hwhy. congruence.
Qed.


(** A review without a request panics, whatever the configuration. *)
Theorem review_without_request_panics conf ec data w :
  conf_ShieldConfig conf = Some ec -> data <> "" -> (Decode data).2 = None -> rvq_Request (Decode data).1 = None ->
  serveRequest json_error write_fails conf (mkHttpRequest (Some (Ok data)) "application/json") w = Panic.
Proof.
  intros Hc Hd He Hq. unfold serveRequest. cbn. rewrite bool_decide_false, bool_decide_false by (try done; naive_solver).
  destruct (Decode data) as [review err]. cbn in *. subst err. unfold handleAdmissionRequest.
  destruct (InitShieldConfig_total conf w) as (r & w1 & Hi). unfold mbind, M_bind. rewrite Hi, Hq.
  destruct r as [|[b conf1]]; [|done]. by apply (keeps_config _ _ _ _ _ Hc) in Hi as (? & ? & [=] & _).
Qed.
End request_facts.
