(* ===== verification/SharedConfig.v ===== *)
(** * The configuration under concurrent requests  ([shield/cmd/ishield-server/config.go],
      [webhook.go])

    The configuration of the process is one variable without a lock: every request
    may find it due for a reload, ask the API server and store the answer, and then
    reads it again for its handler.  [Server] takes the calls of a request at once;
    here the accesses to the variable are single steps of any number of requests. *)
From S2P Require Import Prelude GoStrings ShieldConfig Cache Signing World Loader Server.
From stdpp Require Import options.
#[local] Open Scope Z_scope.

Section shared_config.
Context `{Env, ShieldConfigApi}.

(** ** One request step by step *)

(** [t] is the clock reading of [InitShieldConfig], [given] the time of the answer. *)
Inductive kpc :=
| KIdle
| KStart
| KCheck (t : Z)
| KLoad (t : Z)
| KSet (t given : Z) (ec : ShieldConfig)
| KStamp (t : Z)
| KLogger (t : Z)
| KHandler (t : Z)
| KDone (t : Z) (ec : ShieldConfig)
| KFatal.

Definition between_requests (p : kpc) : bool := match p with KIdle | KDone _ _ => true | _ => false end.

Definition loaded_at (t : Z) : option ShieldConfig :=
  match InClusterConfig, NewForConfig with
  | Ok _, Ok _ => match get_ShieldConfig t (Getenv "SHIELD_NS") (Getenv "SHIELD_CONFIG_NAME") with Ok ec => ec | Err _ => None end
  | _, _ => None
  end.

(** The step from [p] at the time [now].  Without an answer the present
    configuration is stored again; the logger completes its [Log] in place; a
    request without a configuration panics. *)
Definition config_step (now : Z) (conf : Config) (p : kpc) : Config * kpc :=
  match p with
  | KStart => (conf, KCheck now)
  | KCheck t => (conf, if needs_renew conf t then KLoad t else KLogger t)
  | KLoad t => (conf, match loaded_at now with
                      | Some ec => KSet t now ec
                      | None => match conf_ShieldConfig conf with Some ec => KSet t now ec | None => KFatal end
                      end)
  | KSet t _ ec => (mkConfig (Some (set_ChartRepo ec (Getenv "CHART_BASE_URL"))) (conf_lastUpdated conf), KStamp t)
  | KStamp t => (mkConfig (conf_ShieldConfig conf) t, KLogger t)
  | KLogger t => match conf_ShieldConfig conf with
                 | Some ec => (mkConfig (Some (complete_log ec)) (conf_lastUpdated conf), KHandler t)
                 | None => (conf, KFatal)
                 end
  | KHandler t => (conf, match conf_ShieldConfig conf with Some ec => KDone t ec | None => KFatal end)
  | _ => (conf, p)
  end.

(** ** The system *)
Record ksys := mkKsys { ks_conf : Config; ks_now : Z; ks_gs : list kpc }.

(** [delay] is how long a request may take from the answer to storing it. *)
Context (delay : Z).

Inductive kstep : ksys -> ksys -> Prop :=
| step_config conf t gs k p now conf' p' :
    gs !! k = Some p -> between_requests p = false -> t <= now ->
    (forall t0 given ec, p = KSet t0 given ec -> now <= given + delay) ->
    config_step now conf p = (conf', p') ->
    kstep (mkKsys conf t gs) (mkKsys conf' now (<[k := p']> gs))
| step_request conf t gs k p :
    gs !! k = Some p -> between_requests p = true -> kstep (mkKsys conf t gs) (mkKsys conf t (<[k := KStart]> gs)).

(** After [init]: the configuration is an answer of the API server. *)
Definition initialized (y : ksys) : Prop :=
  conf_inv (ks_conf y) (ks_now y) /\ Forall (eq KIdle) (ks_gs y).

(** ** Facts *)
Context `{!ShieldConfigUp}.
#[local] Set Default Proof Using "Type*".

Lemma loaded_up t : exists ec, loaded_at t = Some ec /\ answered t ec.
Proof.
  destruct (config_up t) as [ec Ha]. exists ec. split; [|done]. unfold loaded_at. destruct client_up as [-> ->].
  unfold answered in Ha. by rewrite Ha.
Qed.

Definition twenty_one : Z := 21000000000.

(** What a request holds: [s] is when the present configuration was stored. *)
Definition held_ok (s now : Z) (p : kpc) : Prop :=
  match p with
  | KCheck t | KLoad t => t <= now
  | KSet t given ec => answered given ec /\ t <= given <= now
  | KStamp t => t <= s
  | KLogger t | KHandler t => t < s + twenty_one
  | KDone t ec' => exists given ec, answered given ec /\ derived ec ec' /\ t < given + delay + twenty_one
  | KFatal => False
  | _ => True
  end.

Definition conf_from (s : Z) (conf : Config) : Prop :=
  exists given ec ec', answered given ec /\ conf_ShieldConfig conf = Some ec' /\ derived ec ec' /\ s <= given + delay.

Definition current (y : ksys) : Prop :=
  exists s, conf_from s (ks_conf y) /\ conf_lastUpdated (ks_conf y) <= s <= ks_now y /\
    Forall (held_ok s (ks_now y)) (ks_gs y).

Lemma held_ok_later s s' now now' p : s <= s' -> now <= now' -> held_ok s now p -> held_ok s' now' p.
Proof. intros Hs Hn. destruct p; cbn; try done; try lia. intros [? ?]. split; [done|lia]. Qed.

Lemma not_due_stored conf t ec s :
  conf_ShieldConfig conf = Some ec -> interval_ignored -> conf_lastUpdated conf <= s ->
  needs_renew conf t = false -> t < s + twenty_one.
Proof.
  intros Hc Hi Hs Hn. destruct (Z.le_gt_cases (conf_lastUpdated conf) t) as [Hle|Hgt]; [|unfold twenty_one; lia].
  pose proof (not_due_age conf t ec Hc Hi Hle Hn). unfold twenty_one. lia.
Qed.

Lemma config_step_ok s now0 now conf p conf' p' :
  interval_ignored -> now0 <= now -> conf_from s conf -> conf_lastUpdated conf <= s <= now0 -> held_ok s now0 p ->
  (forall t0 given ec, p = KSet t0 given ec -> now <= given + delay) -> config_step now conf p = (conf', p') ->
  exists s', s <= s' <= now /\ conf_from s' conf' /\ conf_lastUpdated conf' <= s' /\ held_ok s' now p'.
Proof.
  intros Hi Hn Hf Hs Hp Hd. pose proof Hf as (given & ec & ec' & Ha & Hc & Hder & Hg).
  destruct p as [| |t|t|t g x|t|t|t|t x|]; cbn [config_step].
  - intros [= <- <-]. exists s. split; [lia|]. split; [done|]. by split; [lia|].
  - intros [= <- <-]. exists s. split; [lia|]. split; [done|]. split; [lia|]. cbn. lia.
  - intros [= <- <-]. exists s. split; [lia|]. split; [done|]. split; [lia|].
    destruct (needs_renew conf t) eqn:E; cbn; [cbn in Hp; lia|]. by apply (not_due_stored conf t ec' s Hc Hi (proj1 Hs)).
  - destruct (loaded_up now) as (x & -> & Hx). intros [= <- <-]. exists s. split; [lia|]. split; [done|]. split; [lia|].
    cbn in Hp |- *. split; [done|lia].
  - intros [= <- <-]. specialize (Hd t g x eq_refl). destruct Hp as [Hx Hle]. exists now. split; [lia|].
    split; [|cbn; lia]. exists g, x. eexists. split; [done|]. split; [reflexivity|]. split; [by left|done].
  - intros [= <- <-]. cbn in Hp. exists s. split; [lia|]. split; [by exists given, ec, ec'|]. cbn. split; [done|].
    unfold twenty_one. lia.
  - rewrite Hc. intros [= <- <-]. exists s. split; [lia|]. split; [|by split; [cbn; lia|]].
    exists given, ec, (complete_log ec'). split; [done|]. split; [done|]. split; [by apply derived_complete|done].
  - rewrite Hc. intros [= <- <-]. exists s. split; [lia|]. split; [done|]. split; [lia|]. exists given, ec. split; [done|].
    split; [done|]. cbn in Hp. lia.
  - intros [= <- <-]. exists s. split; [lia|]. split; [done|]. by split; [lia|].
  - done.
Qed.

Lemma current_step y y' : interval_ignored -> kstep y y' -> current y -> current y'.
Proof.
  intros Hi Hs (s & Hf & Hb & Hg).
  destruct Hs as [conf t gs k p now conf' p' Hk Hp Ht Hd Hc|conf t gs k p Hk Hp]; cbn [ks_conf ks_now ks_gs] in *.
  - pose proof (Forall_lookup_1 _ _ _ _ Hg Hk) as Hh.
    destruct (config_step_ok s t now conf p conf' p' Hi Ht Hf Hb Hh Hd Hc) as (s' & Hs' & Hf' & Hl & Hp').
    exists s'. split; [done|]. split; [cbn; lia|]. apply Forall_insert; [|done]. eapply Forall_impl; [done|].
    intros q. apply held_ok_later; cbn; lia.
  - exists s. split; [done|]. split; [done|]. by apply Forall_insert.
Qed.

Lemma initialized_current y : 0 <= delay -> initialized y -> current y.
Proof.
  intros Hd [(t0 & ec & ec' & Ha & Hc & Hder & Hle) Hg]. exists t0. split; [exists t0, ec, ec'; repeat split; auto; lia|].
  split; [lia|]. eapply Forall_impl; [done|]. by intros p <-.
Qed.


(** Alone, the steps up to the logger are those of [InitShieldConfig]. *)
Theorem InitShieldConfig_alone `{Cluster} conf w :
  let t := tick (w_now w) in
  if needs_renew conf t then
    exists ec conf1 conf2 w', config_step (tick t) conf (KLoad t) = (conf, KSet t (tick t) ec) /\
      config_step (tick t) conf (KSet t (tick t) ec) = (conf1, KStamp t) /\
      config_step (tick t) conf1 (KStamp t) = (conf2, KLogger t) /\
      InitShieldConfig conf w = Ret (Continue (true, conf2), w')
  else InitShieldConfig conf w = Ret (Continue (false, conf), mkWorld (w_cache w) t (w_effects w)).
Proof.
  cbn zeta. destruct (needs_renew conf (tick (w_now w))) eqn:E.
  - destruct (config_up (tick (tick (w_now w)))) as [ec Ha]. eexists ec, _, _, _. cbn [config_step]. unfold loaded_at.
    unfold InitShieldConfig, LoadEnforceConfig, call, now, mbind, M_bind, mret, M_ret. cbn [w_now w_cache w_effects]. rewrite E.
    destruct client_up as [-> ->]. unfold answered in Ha. cbn [w_now]. rewrite Ha. by repeat split.
  - unfold InitShieldConfig, now, mbind, M_bind, mret, M_ret. by rewrite E.
Qed.
End shared_config.

(** ** Schedules *)
Inductive kaction := KStep (k : nat) (now : Z) | KRequest (k : nat).

Section schedules.
Context `{Env, ShieldConfigApi} (delay : Z).

Definition stored_in_time (p : kpc) (now : Z) : bool := match p with KSet _ given _ => now <=? given + delay | _ => true end.

Definition do_kaction (a : kaction) (y : ksys) : option ksys :=
  match a with
  | KStep k now =>
      p ← ks_gs y !! k;
      if negb (between_requests p) && (ks_now y <=? now) && stored_in_time p now
      then let '(conf', p') := config_step now (ks_conf y) p in Some (mkKsys conf' now (<[k := p']> (ks_gs y)))
      else None
  | KRequest k =>
      p ← ks_gs y !! k;
      if between_requests p then Some (mkKsys (ks_conf y) (ks_now y) (<[k := KStart]> (ks_gs y))) else None
  end.

Fixpoint do_kactions (l : list kaction) (y : ksys) : option ksys :=
  match l with [] => Some y | a :: l' => y' ← do_kaction a y; do_kactions l' y' end.

Lemma do_kactions_steps l y y' : do_kactions l y = Some y' -> rtc (kstep delay) y y'.
Proof.
  revert y. induction l as [|a l IH]; intros y; cbn [do_kactions]; [intros [= ->]; constructor|].
  destruct (do_kaction a y) as [y1|] eqn:E; [|done]. cbn. intros Hl. apply (rtc_l _ y y1); [|by apply IH]. clear IH Hl.
  destruct y as [conf t gs]. destruct a as [k now|k]; cbn in E; destruct (gs !! k) as [p|] eqn:Hk; try done; cbn in E.
  - destruct (between_requests p) eqn:Hb; [done|]. destruct (Z.leb_spec t now); [|done]. cbn in E.
    destruct (stored_in_time p now) eqn:Hi; [|done]. destruct (config_step _ _ _) as [conf' p'] eqn:Hc. injection E as <-.
    eapply step_config; [done..| |done]. intros t0 given ec ->. by apply Z.leb_le.
  - destruct (between_requests p) eqn:Hb; [|done]. injection E as <-. by eapply step_request.
Qed.
End schedules.

(** ** Concrete instance: the mode is changed while two requests reload *)

Definition config_in (mode : string) : ShieldConfig :=
  mkShieldConfig None None None [] [] mode [] None "ishield" "ishield" "ishield" [] "" "" "" None "" "" "" "" [].

Section samples.
#[local] Instance sample_env : Env := fun _ => "".
#[local] Instance changing_config : ShieldConfigApi := {|
  InClusterConfig := Ok tt; NewForConfig := Ok tt;
  get_ShieldConfig t _ _ := Ok (Some (config_in (if t <? 31 * second then DetectMode else EnforceMode))) |}.

Lemma changing_config_up : ShieldConfigUp.
Proof. split; [done|]. intros t. by eexists. Qed.

Definition process_started : ksys := mkKsys (mkConfig (Some (config_in DetectMode)) 0) 0 [KIdle; KIdle].
Definition steps_at (k : nat) (times : list Z) : list kaction := (fun t => KStep k (t * second)) <$> times.
(** Request 0 has the old answer at 30 and stores it after request 1 has stored the
    new one. *)
Definition overtaken : list kaction :=
  [KRequest 0] ++ steps_at 0 [30; 30; 30] ++ [KRequest 1] ++ steps_at 1 [32; 32; 32; 32; 32] ++ steps_at 0 [33; 33] ++
  steps_at 1 [33; 33].
Definition after_overtaking : ksys := default process_started (do_kactions (4 * second) overtaken process_started).

Lemma overtaken_steps : rtc (kstep (4 * second)) process_started after_overtaking.
Proof. apply (do_kactions_steps _ overtaken). vm_compute. reflexivity. Qed.

Lemma process_initialized : initialized process_started.
Proof.
  split; [|by repeat constructor]. exists 0, (config_in DetectMode). eexists. split; [reflexivity|]. split; [reflexivity|].
  split; [by left|done].
Qed.

(** A request that asked for the configuration itself, and got the new one, is
    judged by the old one. *)
Theorem older_configuration_returns :
  exists y ec, rtc (kstep (4 * second)) process_started y /\ ks_gs y !! 1%nat = Some (KDone (32 * second) ec) /\
    cfg_Mode ec = DetectMode /\ (forall t, 32 * second <= t -> exists ec', answered t ec' /\ cfg_Mode ec' = EnforceMode).
Proof.
  exists after_overtaking. eexists. split; [apply overtaken_steps|]. split; [vm_compute; reflexivity|]. split; [reflexivity|].
  intros t Ht. eexists. split; [reflexivity|]. destruct (Z.ltb_spec t (31 * second)); [unfold second in *; lia|reflexivity].
Qed.

End samples.
