(* ===== verification/ServerSamples.v ===== *)
(** * Requests to the webhook server

    The cluster of the handler's samples behind the server: a review of a signed
    config map is answered, and instances of the server's guarantees. *)
From S2P Require Import Prelude GoStrings GoJson Pattern Common ReqContext Profile SigningProfile Policy ShieldConfig Cache.
From S2P Require Import MapNode Diff Mutation RuleTable Signing ResourceSignature SignVerifier Sign World Loader Frame Validation.
From S2P Require Import CheckContext Check Handler HandlerFacts HandlerSamples Server.
From stdpp Require Import options.
#[local] Open Scope Z_scope.

Section samples.
#[local] Existing Instances sample_diff sample_float sample_yaml sample_manifest sample_json sample_kube sample_pgp sample_x509
  sample_helm sample_k8s sample_policy_json sample_strict sample_logrus sample_time sample_diff_ok sample_manifest_ok
  sample_cluster sample_cluster_ok rsp_codec ns_codec rs_codec sc_codec rsps_codec_ok nss_codec_ok cm_gjson.

(** The environment of the process: a reload interval and the rest. *)
Definition server_env (interval : string) : Env := fun k =>
  if bool_decide (k = "SHIELD_CM_RELOAD_SEC") then interval
  else if bool_decide (k = "SHIELD_NS") then "ishield" else "".
#[local] Instance sample_env : Env := server_env "60".
#[local] Instance sample_config_api : ShieldConfigApi := {|
  InClusterConfig := Ok tt; NewForConfig := Ok tt;
  get_ShieldConfig _ _ _ := Ok (Some (handler_config EnforceMode)) |}.

(** A body other than ["empty"] is a review of the config map. *)
Definition review_type : TypeMeta := mkTypeMeta "AdmissionReview" "admission.k8s.io/v1".
#[local] Instance sample_codec : ReviewCodec := {|
  Decode s := (mkReviewRequest review_type
                 (if bool_decide (s = "empty") then None
                  else Some (handler_request "ConfigMap" "cm" "CREATE" (signed_json s))), None);
  marshal_answer a := Ok (rva_UID a +:+ ":" +:+ (if resp_Allowed (rva_Response a) then "allowed" else "denied")) |}.

Definition started : Config := mkConfig (Some (set_ChartRepo (handler_config EnforceMode) "")) 0.
Definition serve (data : string) : go (process (list http_write * Config) * World) :=
  serveRequest (fun _ => "") (fun _ => None) started (mkHttpRequest (Some (Ok data)) "application/json") empty_world.

(** The signed object is answered with its identifier and allowed, another is
    denied, a request without a body is refused. *)
Example serve_samples :
  (exists conf w, serve "val" = Ret (Continue ([HttpBody (Some "uid:allowed")], conf), w)) /\
  (exists conf w, serve "other" = Ret (Continue ([HttpBody (Some "uid:denied")], conf), w)) /\
  (exists conf w, serve "" = Ret (Continue ([HttpError "Admission request has empty body" 400], conf), w)).
Proof. repeat split; eexists _, _; vm_compute; reflexivity. Qed.

Lemma sample_up : ShieldConfigUp.
Proof. split; [done|]. intros t. by eexists. Qed.

Lemma started_inv : conf_inv started 0.
Proof. exists 0, (handler_config EnforceMode). eexists. repeat split; [left; reflexivity|done..]. Qed.

Lemma configuration_age_bounded_witness :
  exists renew conf' t, InitShieldConfig started (mkWorld ∅ 30000000000 []) = Ret (Continue (renew, conf'), mkWorld ∅ 30000000002 []) /\
    0 <= t - conf_lastUpdated conf' < 21000000000.
Proof.
  destruct (configuration_age_bounded started _ (mkWorld ∅ 30000000000 []) _ (mkWorld ∅ 30000000002 []) eq_refl
    ltac:(vm_compute; discriminate) ltac:(right; vm_compute; eexists; reflexivity) ltac:(vm_compute; reflexivity))
    as (renew & conf' & t & Hr & _ & _ & Ht).
  exists renew, conf', t. split; [rewrite <-Hr; vm_compute; reflexivity|exact Ht].
Defined.


Lemma review_without_request_panics_witness : serve "empty" = Panic.
Proof. apply (review_without_request_panics sc_codec_ok (fun _ => "") (fun _ => None) started _ "empty" empty_world eq_refl); done. Defined.
End samples.

(** An interval of twenty digits. *)
Section huge_interval.
#[local] Existing Instances sample_cluster sample_cluster_ok sample_config_api.
#[local] Instance huge_env : Env := server_env "99999999999999999999".

Lemma out_of_range_interval_never_reloads_witness :
  exists w', InitShieldConfig started (mkWorld ∅ 100000000000000000 []) = Ret (Continue (false, started), w').
Proof. apply (out_of_range_interval_never_reloads started _ _ eq_refl); vm_compute; reflexivity. Defined.
End huge_interval.
