(* ===== verification/GoState.v ===== *)
(** * Computations on a state of their own

    The observer and the operator are programs of their own; each threads its
    state through calls that may panic.  [ST S A] is such a computation. *)
From S2P Require Import Prelude GoStrings.
From stdpp Require Import options.
From stdpp Require Import pretty.

Definition ST (S A : Type) : Type := S -> go (A * S).

#[global] Instance ST_ret {S} : MRet (ST S) := fun A a s => Ret (a, s).
#[global] Instance ST_bind {S} : MBind (ST S) := fun A B f m s =>
  match m s with Ret (a, s') => f a s' | Panic => Panic end.

Definition st_panic {S A} : ST S A := fun _ => Panic.
Definition st_lift {S A} (m : go A) : ST S A := fun s => match m with Ret a => Ret (a, s) | Panic => Panic end.

Lemma ST_bind_Ret {S A B} (m : ST S A) (f : A -> ST S B) s r :
  (m ≫= f) s = Ret r <-> exists a s', m s = Ret (a, s') /\ f a s' = Ret r.
Proof. unfold mbind, ST_bind. destruct (m s) as [[a s']|]; naive_solver. Qed.

Lemma ST_bind_run {S A B} (m : ST S A) (f : A -> ST S B) s a s' :
  m s = Ret (a, s') -> (m ≫= f) s = f a s'.
Proof. unfold mbind, ST_bind. by intros ->. Qed.

Lemma st_lift_Ret {S A} (m : go A) (s : S) a s' : st_lift m s = Ret (a, s') <-> m = Ret a /\ s' = s.
Proof. unfold st_lift. destruct m; naive_solver. Qed.

(** ** Machine integers *)

Definition uint64_max : Z := 18446744073709551615.

(** [int(x)] of an unsigned value, and of a 32-bit one. *)
Definition int_of_uint64 (x : Z) : Z := if Z.ltb int64_max x then (x - 18446744073709551616)%Z else x.
Definition wrap_int32 (x : Z) : Z := ((x + 2147483648) mod 4294967296 - 2147483648)%Z.

Lemma wrap_int32_id x : (-2147483648 <= x <= 2147483647)%Z -> wrap_int32 x = x.
Proof. intros. unfold wrap_int32. rewrite Z.mod_small by lia. lia. Qed.

Lemma wrap_int32_range x : (-2147483648 <= wrap_int32 x <= 2147483647)%Z.
Proof. unfold wrap_int32. pose proof (Z.mod_pos_bound (x + 2147483648) 4294967296 ltac:(lia)). lia. Qed.

(** [strconv.ParseUint(s, 10, 64)]: digits only, and a value that fits. *)
Definition ParseUint (s : string) : option Z :=
  match s with
  | EmptyString => None
  | _ => match parse_digits 0 s with
         | Some v => if Z.leb v uint64_max then Some v else None
         | None => None
         end
  end.

(** [strconv.Itoa] of a signed value. *)
Definition FormatInt (z : Z) : string := pretty z.

Lemma parse_digits_bound s : forall acc v, (0 <= acc)%Z -> parse_digits acc s = Some v -> (acc <= v)%Z.
Proof.
  induction s as [|c s IH]; intros acc v Ha; cbn [parse_digits]; [by intros [= ->]|].
  destruct (is_digit_b c) eqn:Hd; [|done].
  assert (0 <= digit_val c)%Z.
  { unfold is_digit_b in Hd. unfold digit_val. apply andb_true_iff in Hd as [H1 _]. apply Nat.leb_le in H1. lia. }
  intros Hp. apply IH in Hp; lia.
Qed.

Lemma ParseUint_range s v : ParseUint s = Some v -> (0 <= v <= uint64_max)%Z.
Proof.
  unfold ParseUint. destruct s as [|c s]; [done|]. destruct (parse_digits _ _) eqn:E; [|done].
  apply parse_digits_bound in E; [|done]. destruct (Z.leb_spec z uint64_max); [|done]. intros [= <-]. lia.
Qed.

(** *** Printed numbers are read back *)

Lemma pretty_N_char_digit x : (x < 10)%N -> is_digit_b (pretty_N_char x) = true /\ digit_val (pretty_N_char x) = Z.of_N x.
Proof.
  intros Hx. assert (x = 0 \/ x = 1 \/ x = 2 \/ x = 3 \/ x = 4 \/ x = 5 \/ x = 6 \/ x = 7 \/ x = 8 \/ x = 9)%N as Hc by lia.
  repeat (destruct Hc as [->|Hc]; [by vm_compute|]). subst x. by vm_compute.
Qed.

Lemma pretty_N_char_mod x : is_digit_b (pretty_N_char (x `mod` 10)) = true /\ digit_val (pretty_N_char (x `mod` 10)) = Z.of_N (x `mod` 10).
Proof. apply pretty_N_char_digit. by apply N.mod_lt. Qed.

Lemma parse_digits_pretty n : forall s acc, exists k, (0 < k)%Z /\
  parse_digits acc (pretty_N_go n s) = parse_digits (acc * k + Z.of_N n) s.
Proof.
  induction (N.lt_wf_0 n) as [n _ IH]. intros s acc. destruct (decide (n = 0)%N) as [->|Hn].
  - exists 1%Z. rewrite pretty_N_go_0. split; [lia|]. f_equal. lia.
  - rewrite pretty_N_go_step by lia. destruct (IH (n `div` 10)%N ltac:(apply N.div_lt; lia) (String (pretty_N_char (n `mod` 10)) s) acc) as (k & Hk & ->).
    exists (k * 10)%Z. split; [lia|]. cbn [parse_digits]. destruct (pretty_N_char_mod n) as [-> ->]. f_equal.
    assert (Z.of_N n = 10 * Z.of_N (n `div` 10) + Z.of_N (n `mod` 10))%Z as -> by (pose proof (N.div_mod n 10 ltac:(lia)); lia).
    ring.
Qed.

Lemma pretty_N_cons n s : (0 < n)%N -> exists c s', is_digit_b c = true /\ pretty_N_go n s = String c s'.
Proof.
  revert s. induction (N.lt_wf_0 n) as [n _ IH]. intros s Hn. rewrite pretty_N_go_step by done.
  destruct (decide (n `div` 10 = 0)%N) as [->|Hd].
  - rewrite pretty_N_go_0. eexists _, _. split; [apply pretty_N_char_mod|done].
  - apply IH; [by apply N.div_lt|by apply N.neq_0_lt_0].
Qed.

Lemma Atoi_digits neg c s v : is_digit_b c = true -> parse_digits 0 (String c s) = Some v ->
  (int64_min <= (if neg : bool then - v else v) <= int64_max)%Z ->
  Atoi (if neg then String "-" (String c s) else String c s) = Some (if neg then - v else v)%Z.
Proof.
  intros Hc Hp Hr. assert (((int64_min <=? (if neg then - v else v)) && ((if neg then - v else v) <=? int64_max))%Z = true) as Hb.
  { apply andb_true_iff. split; apply Z.leb_le; lia. }
  destruct neg; unfold Atoi; rewrite ?Hp; [by rewrite Hb|].
  destruct c as [[] [] [] [] [] [] [] []]; try discriminate Hc; by rewrite Hb.
Qed.

(** [strconv.Atoi] reads back what is printed for an [int]. *)
Lemma Atoi_FormatInt z : (int64_min <= z <= int64_max)%Z -> Atoi (FormatInt z) = Some z.
Proof.
  intros Hz. destruct z as [|p|p]; [done| |].
  all: destruct (pretty_N_cons (N.pos p) "" ltac:(lia)) as (c & s & Hc & Hs);
    destruct (parse_digits_pretty (N.pos p) "" 0) as (k & _ & Hp); rewrite Hs in Hp; cbn [parse_digits] in Hp.
  - change (FormatInt (Z.pos p)) with (pretty_N_go (N.pos p) ""). rewrite Hs.
    apply (Atoi_digits false); [done|exact Hp|done].
  - change (FormatInt (Z.neg p)) with (String "-" (pretty_N_go (N.pos p) "")). rewrite Hs.
    apply (Atoi_digits true c s (Z.pos p)); [done|exact Hp|done].
Qed.
