(* ===== verification/RestClients.v ===== *)
(** * The typed clients  ([shield/pkg/client/*/clientset/versioned])

    One client per kind of custom resource, made by a generator from one pattern:
    its methods build a REST request, send it and decode the answer.  What the
    loaders, the handler, the server and the observer know of the cluster comes
    through them. *)
From S2P Require Import Prelude GoStrings Common SigningProfile Policy ShieldConfig Signing GoState ResourceSignature World.
From stdpp Require Import options.

(** ** Requests  ([k8s.io/client-go/rest]) *)

(** [rest.Config] with the fields the generated code reads or sets; the rate [QPS] is
    in thousandths. *)
Record rest_Config := mkRestConfig {
  rcf_GroupVersion : option (string * string);
  rcf_APIPath : string;
  rcf_NegotiatedSerializer : option string;
  rcf_UserAgent : string;
  rcf_RateLimiter : option (Z * Z);
  rcf_QPS : Z;
  rcf_Burst : Z;
}.

(** A REST client is made for a configuration; its methods are the group, the version
    and the path it prefixes its requests with.  [DiscoveryClient] likewise. *)
Class RestLib := {
  rest_Interface : Type;
  RESTClientFor : rest_Config -> res rest_Interface;
  client_GroupVersion : rest_Interface -> option (string * string);
  client_APIPath : rest_Interface -> string;
  DefaultKubernetesUserAgent : string;
  DiscoveryClient : Type;
  NewDiscoveryClientForConfig : rest_Config -> res DiscoveryClient;
  NewDiscoveryClient : rest_Interface -> DiscoveryClient;
  NewTokenBucketRateLimiter : Z -> Z -> Z * Z;
  k8s_options : Type;
  emptyOptions : k8s_options
}.

(** The documented contract of [RESTClientFor]: the client has the attributes its
    configuration asks for. *)
Class RestLibOk `{RestLib} : Prop :=
  client_for cfg c : RESTClientFor cfg = Ok c -> client_GroupVersion c = rcf_GroupVersion cfg /\ client_APIPath c = rcf_APIPath cfg.

Inductive http_verb := GET | POST | PUT | DELETE | PATCH (pt : string).

(** [v1.ListOptions] *)
Record ListOptions := mkListOptions { lo_LabelSelector : string; lo_TimeoutSeconds : option Z; lo_Watch : bool }.
Definition emptyListOptions : ListOptions := mkListOptions "" None false.

(** [time.Duration( *opts.TimeoutSeconds) * time.Second], in 64 bits. *)
Definition wrap_int64 (x : Z) : Z := ((x + 9223372036854775808) mod 18446744073709551616 - 9223372036854775808)%Z.
Definition timeout_of (opts : ListOptions) : Z :=
  match lo_TimeoutSeconds opts with Some s => wrap_int64 (s * 1000000000) | None => 0 end.

Section clients.
Context `{RestLib}.

Inductive rest_params := NoParams | Params (o : k8s_options) | ListParams (o : ListOptions).
Inductive rest_body (A : Type) := NoBody | ObjectBody (a : A) | OptionsBody (o : k8s_options) | DataBody (data : string).
Arguments NoBody {A}.
Arguments ObjectBody {A} a.
Arguments OptionsBody {A} o.
Arguments DataBody {A} data.

(** What a chain of builder calls leaves. *)
Record rest_request (A : Type) := mkRequest {
  rq_client : rest_Interface;
  rq_verb : http_verb;
  rq_namespace : string;
  rq_resource : string;
  rq_name : option string;
  rq_subresources : list string;
  rq_params : rest_params;
  rq_timeout : Z;
  rq_body : rest_body A;
}.
Arguments mkRequest {A}.
Arguments rq_client {A}.
Arguments rq_verb {A}.
Arguments rq_namespace {A}.
Arguments rq_resource {A}.
Arguments rq_name {A}.
Arguments rq_subresources {A}.
Arguments rq_params {A}.
Arguments rq_timeout {A}.
Arguments rq_body {A}.

(** ** One kind of resource *)

(** The objects of a kind and how an answer is decoded into one, or into a list:
    [Into] leaves what it decoded so far beside its error. *)
Class Resource (A : Type) := {
  zero : A;
  obj_Name : A -> string;
  Into : string -> A * option string;
  IntoList : string -> list A * option string
}.

(** The receiver of the methods. *)
Record typed := mkTyped { ty_client : rest_Interface; ty_ns : string }.

Section methods.
Context {A : Type} `{!Resource A} (resource : string).

Definition Get_request (c : typed) (name : string) (options : k8s_options) : rest_request A :=
  mkRequest (ty_client c) GET (ty_ns c) resource (Some name) [] (Params options) 0 NoBody.
Definition List_request (c : typed) (opts : ListOptions) : rest_request A :=
  mkRequest (ty_client c) GET (ty_ns c) resource None [] (ListParams opts) (timeout_of opts) NoBody.
Definition Watch_request (c : typed) (opts : ListOptions) : rest_request A :=
  let timeout := timeout_of opts in
  let opts := mkListOptions (lo_LabelSelector opts) (lo_TimeoutSeconds opts) true in
  mkRequest (ty_client c) GET (ty_ns c) resource None [] (ListParams opts) timeout NoBody.
Definition Create_request (c : typed) (o : A) (opts : k8s_options) : rest_request A :=
  mkRequest (ty_client c) POST (ty_ns c) resource None [] (Params opts) 0 (ObjectBody o).
Definition Update_request (c : typed) (o : A) (opts : k8s_options) : rest_request A :=
  mkRequest (ty_client c) PUT (ty_ns c) resource (Some (obj_Name o)) [] (Params opts) 0 (ObjectBody o).
Definition Delete_request (c : typed) (name : string) (opts : k8s_options) : rest_request A :=
  mkRequest (ty_client c) DELETE (ty_ns c) resource (Some name) [] NoParams 0 (OptionsBody opts).
Definition DeleteCollection_request (c : typed) (opts : k8s_options) (listOpts : ListOptions) : rest_request A :=
  mkRequest (ty_client c) DELETE (ty_ns c) resource None [] (ListParams listOpts) (timeout_of listOpts) (OptionsBody opts).
Definition Patch_request (c : typed) (name pt data : string) (opts : k8s_options) (subresources : list string) : rest_request A :=
  mkRequest (ty_client c) (PATCH pt) (ty_ns c) resource (Some name) subresources (Params opts) 0 (DataBody data).

(** [Do(ctx).Into(result)]: without an answer the result is the zero value. *)
Definition decoded {B} (start : B) (into : string -> B * option string) (r : res string) : B * option string :=
  match r with Ok text => into text | Err e => (start, Some e) end.
Definition failure (r : res string) : option string := match r with Ok _ => None | Err e => Some e end.
End methods.

(** The methods of a client, given the API server at the time of the call. *)
Record typed_api (A : Type) := mkTypedApi {
  api_Get : (rest_request A -> res string) -> typed -> string -> k8s_options -> A * option string;
  api_List : (rest_request A -> res string) -> typed -> ListOptions -> list A * option string;
  api_Watch : (rest_request A -> res string) -> typed -> ListOptions -> res string;
  api_Create : (rest_request A -> res string) -> typed -> A -> k8s_options -> A * option string;
  api_Update : (rest_request A -> res string) -> typed -> A -> k8s_options -> A * option string;
  api_Delete : (rest_request A -> res string) -> typed -> string -> k8s_options -> option string;
  api_DeleteCollection : (rest_request A -> res string) -> typed -> k8s_options -> ListOptions -> option string;
  api_Patch : (rest_request A -> res string) -> typed -> string -> string -> string -> k8s_options -> list string -> A * option string;
}.

Definition typed_methods {A} `{!Resource A} (resource : string) : typed_api A := {|
  api_Get api c name options := decoded zero Into (api (Get_request resource c name options));
  api_List api c opts := decoded [] IntoList (api (List_request resource c opts));
  api_Watch api c opts := api (Watch_request resource c opts);
  api_Create api c o opts := decoded zero Into (api (Create_request resource c o opts));
  api_Update api c o opts := decoded zero Into (api (Update_request resource c o opts));
  api_Delete api c name opts := failure (api (Delete_request resource c name opts));
  api_DeleteCollection api c opts listOpts := failure (api (DeleteCollection_request resource c opts listOpts));
  api_Patch api c name pt data opts subs := decoded zero Into (api (Patch_request resource c name pt data opts subs)) |}.

(** ** The client of a group *)

Definition setConfigDefaults (SchemeGroupVersion : string * string) (config : rest_Config) : rest_Config :=
  mkRestConfig (Some SchemeGroupVersion) "/apis" (Some "scheme.Codecs")
    (if bool_decide (rcf_UserAgent config = "") then DefaultKubernetesUserAgent else rcf_UserAgent config)
    (rcf_RateLimiter config) (rcf_QPS config) (rcf_Burst config).

(** [NewForConfig]: the configuration is copied, and the given one stays as it is. *)
Definition client_NewForConfig (gv : string * string) (c : rest_Config) : res rest_Interface := RESTClientFor (setConfigDefaults gv c).
Definition client_NewForConfigOrDie (gv : string * string) (c : rest_Config) : go rest_Interface :=
  match client_NewForConfig gv c with Ok client => Ret client | Err _ => Panic end.
Definition client_New (c : rest_Interface) : rest_Interface := c.

(** [Clientset.NewForConfig]: with a rate but no limiter, one is made. *)
Definition with_limiter (c : rest_Config) : res rest_Config :=
  match rcf_RateLimiter c with
  | None =>
      if Z.ltb 0 (rcf_QPS c) then
        if Z.leb (rcf_Burst c) 0
        then Err "burst is required to be greater than 0 when RateLimiter is not set and QPS is set to greater than 0"
        else Ok (mkRestConfig (rcf_GroupVersion c) (rcf_APIPath c) (rcf_NegotiatedSerializer c) (rcf_UserAgent c)
                   (Some (NewTokenBucketRateLimiter (rcf_QPS c) (rcf_Burst c))) (rcf_QPS c) (rcf_Burst c))
      else Ok c
  | Some _ => Ok c
  end.

Record Clientset := mkClientset { cs_DiscoveryClient : DiscoveryClient; cs_apisV1alpha1 : rest_Interface }.

Definition clientset_NewForConfig (gv : string * string) (c : rest_Config) : res Clientset :=
  match with_limiter c with
  | Err e => Err e
  | Ok c => match client_NewForConfig gv c with
            | Err e => Err e
            | Ok client => match NewDiscoveryClientForConfig c with
                           | Err e => Err e
                           | Ok d => Ok (mkClientset d client)
                           end
            end
  end.
Definition clientset_NewForConfigOrDie (gv : string * string) (c : rest_Config) : go Clientset :=
  client ← client_NewForConfigOrDie gv c;
  match NewDiscoveryClientForConfig c with Ok d => Ret (mkClientset d client) | Err _ => Panic end.
Definition clientset_New (c : rest_Interface) : Clientset := mkClientset (NewDiscoveryClient c) (client_New c).
Definition Discovery (c : option Clientset) : option DiscoveryClient := cs_DiscoveryClient <$> c.
Definition ApisV1alpha1 (c : Clientset) : rest_Interface := cs_apisV1alpha1 c.

(** A client package and a clientset package, as functions of the group and version
    of the types it is generated for. *)
Record client_package := mkClientPackage {
  cp_NewForConfig : rest_Config -> res rest_Interface;
  cp_NewForConfigOrDie : rest_Config -> go rest_Interface;
  cp_New : rest_Interface -> rest_Interface;
  cp_getter : rest_Interface -> string -> typed;
}.
Definition client_of (gv : string * string) : client_package :=
  mkClientPackage (client_NewForConfig gv) (client_NewForConfigOrDie gv) client_New mkTyped.
Record clientset_package := mkClientsetPackage {
  csp_NewForConfig : rest_Config -> res Clientset;
  csp_NewForConfigOrDie : rest_Config -> go Clientset;
  csp_New : rest_Interface -> Clientset;
}.
Definition clientset_of (gv : string * string) : clientset_package :=
  mkClientsetPackage (clientset_NewForConfig gv) (clientset_NewForConfigOrDie gv) clientset_New.
End clients.
Arguments NoBody {_ A}.
Arguments mkRequest {_ A}.
Arguments rq_client {_ A}.
Arguments rq_verb {_ A}.
Arguments rq_namespace {_ A}.
Arguments rq_resource {_ A}.
Arguments rq_name {_ A}.
Arguments rq_subresources {_ A}.
Arguments rq_params {_ A}.
Arguments rq_timeout {_ A}.
Arguments rq_body {_ A}.

(** ** The five kinds *)

(** [ShieldConfig] and [HelmReleaseMetadata] as custom resources, and the status of
    both. *)
Record ResourceState := mkResourceState { rst_State : string; rst_Message : string }.
Record ShieldConfigRes := mkShieldConfigRes { shc_meta : ObjectMeta; shc_Config : option ShieldConfig; shc_Status : ResourceState }.
Record HelmReleaseMetadataSpec := mkHelmReleaseMetadataSpec {
  hrs_Name : string; hrs_Chart : string; hrs_Prov : string; hrs_Config : string; hrs_Manifest : string; hrs_InstallOption : string }.
Record HelmReleaseMetadataRes := mkHelmReleaseMetadataRes {
  hrm_meta : ObjectMeta; hrm_Spec : HelmReleaseMetadataSpec; hrm_Status : ResourceState }.

Section kinds.
Context `{RestLib}.
Context `{!Resource SignerConfigRes, !Resource ResourceSignature, !Resource ResourceSigningProfile, !Resource ShieldConfigRes,
          !Resource HelmReleaseMetadataRes}.

Definition signerConfigs : typed_api SignerConfigRes := typed_methods "signerconfigs".
Definition resourceSignatures : typed_api ResourceSignature := typed_methods "resourcesignatures".
Definition resourceSigningProfiles : typed_api ResourceSigningProfile := typed_methods "resourcesigningprofiles".
Definition shieldConfigs : typed_api ShieldConfigRes := typed_methods "shieldconfigs".
Definition helmReleaseMetadatas : typed_api HelmReleaseMetadataRes := typed_methods "helmreleasemetadatas".

End kinds.

(** The group and version each package of types registers: [SchemeGroupVersion] with
    the package's own [GroupName]. *)
Definition GroupName : string := "apis.integrityshield.io".
Definition signerconfig_GroupVersion : string * string := (GroupName, "v1alpha1").
Definition resourcesignature_GroupVersion : string * string := ("apis.integrityshield.io", "v1alpha1").
Definition resourcesigningprofile_GroupVersion : string * string := ("apis.integrityshield.io", "v1alpha1").
Definition shieldconfig_GroupVersion : string * string := ("apis.integrityshield.io", "v1alpha1").
Definition helmreleasemetadata_GroupVersion : string * string := ("apis.integrityshield.io", "v1alpha1").

Section packages.
Context `{RestLib}.
Definition signerconfig_client : client_package := client_of signerconfig_GroupVersion.
Definition resourcesignature_client : client_package := client_of resourcesignature_GroupVersion.
Definition resourcesigningprofile_client : client_package := client_of resourcesigningprofile_GroupVersion.
Definition shieldconfig_client : client_package := client_of shieldconfig_GroupVersion.
Definition helmreleasemetadata_client : client_package := client_of helmreleasemetadata_GroupVersion.

Definition signerconfig_clientset : clientset_package := clientset_of signerconfig_GroupVersion.
Definition resourcesignature_clientset : clientset_package := clientset_of resourcesignature_GroupVersion.
Definition resourcesigningprofile_clientset : clientset_package := clientset_of resourcesigningprofile_GroupVersion.
Definition shieldconfig_clientset : clientset_package := clientset_of shieldconfig_GroupVersion.
Definition helmreleasemetadata_clientset : clientset_package := clientset_of helmreleasemetadata_GroupVersion.
End packages.

(** ** The API server of the handler, through the clients

    [server t] answers a request at the time [t].  The core resources have clients of
    the Kubernetes library, whose answers stay parameters. *)
Class CoreApi := {
  core_tick : Z -> Z;
  core_Namespaces : Z -> option (list Namespace);
  core_get_Event : Z -> string -> string -> option Event;
  core_put_Event : Z -> string -> Event -> res unit
}.

Section cluster.
Context `{RestLib, CoreApi}.
Context `{!Resource SignerConfigRes, !Resource ResourceSignature, !Resource ResourceSigningProfile}.
Context (server : Z -> forall A, rest_request A -> res string) (config : rest_Config).

Definition outcome_of {B} (r : B * option string) : res B := match r.2 with None => Ok r.1 | Some e => Err e end.

(** A client that could not be made is nil; its first use panics, so no answer is
    modelled for it and the call counts as failed. *)
Definition with_client {B} (p : client_package) (ns : string) (f : typed -> B * option string) : res B :=
  match cp_NewForConfig p config with
  | Ok c => outcome_of (f (cp_getter p c ns))
  | Err e => Err e
  end.
Definition to_option {B} (r : res B) : option B := match r with Ok b => Some b | Err _ => None end.

Definition clients_cluster : Cluster := {|
  tick := core_tick;
  list_RSP t := to_option (with_client resourcesigningprofile_client "" (fun c =>
    api_List _ resourceSigningProfiles (server t _) c emptyListOptions));
  list_Namespaces := core_Namespaces;
  list_SignerConfigs t ns := to_option (with_client signerconfig_client ns (fun c =>
    api_List _ signerConfigs (server t _) c emptyListOptions));
  list_ResourceSignatures t ns labelSelector := to_option (with_client resourcesignature_client ns (fun c =>
    api_List _ resourceSignatures (server t _) c (mkListOptions labelSelector None false)));
  kube_config := match cp_NewForConfig resourcesigningprofile_client config with Ok _ => Ok tt | Err e => Err e end;
  get_Event := core_get_Event;
  put_Event := core_put_Event;
  get_RSP t ns name := with_client resourcesigningprofile_client ns (fun c =>
    api_Get _ resourceSigningProfiles (server t _) c name emptyOptions);
  put_RSP t ns rsp := match with_client resourcesigningprofile_client ns (fun c =>
      api_Update _ resourceSigningProfiles (server t _) c rsp emptyOptions) with Ok _ => Ok tt | Err e => Err e end |}.
End cluster.

(** ** Facts *)

Lemma wrap_int64_id x : (int64_min <= x <= int64_max)%Z -> wrap_int64 x = x.
Proof. unfold int64_min, int64_max, wrap_int64. intros. rewrite Z.mod_small by lia. lia. Qed.

(** A timeout is exact below 292 years; a longer one wraps around. *)
Lemma timeout_exact sel s w : (0 <= s <= 9223372036)%Z -> timeout_of (mkListOptions sel (Some s) w) = (s * 1000000000)%Z.
Proof. intros Hs. cbn. apply wrap_int64_id. unfold int64_min, int64_max. lia. Qed.
Example long_timeout_wraps : timeout_of (mkListOptions "" (Some 9223372037%Z) false) = (-9223372036709551616)%Z.
Proof. reflexivity. Qed.

(** A client of this package is one of the group, whatever configuration it is made
    from. *)
Lemma client_group `{RestLibOk} gv config c :
  client_NewForConfig gv config = Ok c -> client_GroupVersion c = Some gv /\ client_APIPath c = "/apis".
Proof. unfold client_NewForConfig. intros Hc. by apply client_for in Hc. Qed.

(** The two ways to make a clientset agree on a configuration without a rate or with
    a limiter. *)
Lemma clientset_or_die `{RestLib} gv c cs : clientset_NewForConfig gv c = Ok cs -> with_limiter c = Ok c ->
  clientset_NewForConfigOrDie gv c = Ret cs.
Proof.
  unfold clientset_NewForConfig, clientset_NewForConfigOrDie, client_NewForConfigOrDie. intros Hc Hl. rewrite Hl in Hc.
  destruct (client_NewForConfig gv c) as [client|]; [|done]. cbn. destruct (NewDiscoveryClientForConfig c) as [d|]; [|done].
  by injection Hc as ->.
Qed.
