(* ===== verification/GoHeap.v ===== *)
(** * Values of Go on a heap, and copying them

    Structs hold their fields; pointers, slices and maps hold a reference to a cell
    on the heap.  A copy of a value is deep when nothing it refers to was there before.
    The statements of a generated [DeepCopyInto] are the combinators of this file. *)
From S2P Require Import Prelude.
From stdpp Require Import fin_maps gmap.
From stdpp Require Import options.

Notation loc := positive.
Create HintDb copies.

(** ** Values, types and heaps *)

Inductive gval :=
| VBase (s : string)
| VStruct (fields : list (string * gval))
| VRef (p : option loc).

Inductive cell := Cell (v : gval) | Array (l : list gval) | Entries (m : list (string * gval)).
Notation heap := (gmap loc cell).

Inductive gty :=
| TBase
| TStruct (fields : list (string * gty))
| TPtr (t : gty)
| TSlice (t : gty)
| TMap (t : gty).

Section gty_ind.
Context (P : gty -> Prop) (Pbase : P TBase) (Pstruct : forall l, Forall (fun f => P f.2) l -> P (TStruct l))
  (Pptr : forall t, P t -> P (TPtr t)) (Pslice : forall t, P t -> P (TSlice t)) (Pmap : forall t, P t -> P (TMap t)).
Fixpoint gty_nested (t : gty) : P t :=
  match t with
  | TBase => Pbase
  | TStruct l => Pstruct l ((fix go l : Forall (fun f => P f.2) l :=
      match l with [] => Forall_nil_2 _ | f :: l => Forall_cons_2 _ f l (gty_nested f.2) (go l) end) l)
  | TPtr t => Pptr t (gty_nested t)
  | TSlice t => Pslice t (gty_nested t)
  | TMap t => Pmap t (gty_nested t)
  end.
End gty_ind.

(** Types without references: [*out = *in] copies all of their values. *)
Fixpoint flat (t : gty) : bool :=
  match t with TBase => true | TStruct l => forallb (fun f => flat f.2) l | _ => false end.

(** ** What a value stands for *)

Inductive tree := Leaf (s : string) | Nil | Node (l : list (string * tree)).

(** A list of labelled values, each read with its own reader. *)
Definition reader := gval -> option (tree * list loc).
Fixpoint read_all (rs : list (string * reader)) (vs : list (string * gval)) : option (list (string * tree) * list loc) :=
  match rs, vs with
  | [], [] => Some ([], [])
  | (n, r) :: rs, (m, v) :: vs =>
      if bool_decide (n = m) then
        a ← r v; b ← read_all rs vs; Some ((n, a.1) :: b.1, a.2 ++ b.2)
      else None
  | _, _ => None
  end.
Definition labelled {B} (b : B) (names : list string) : list (string * B) := (fun n => (n, b)) <$> names.
Definition unlabelled {A} (l : list A) : list (string * A) := (fun v => ("", v)) <$> l.

(** The contents of a value of a type, and the cells it is spread over; [None] for a
    value that is not of the type. *)
Fixpoint read (t : gty) (h : heap) (v : gval) {struct t} : option (tree * list loc) :=
  match t, v with
  | TBase, VBase s => Some (Leaf s, [])
  | TStruct fts, VStruct fs => r ← read_all ((fun f => (f.1, read f.2 h)) <$> fts) fs; Some (Node r.1, r.2)
  | TPtr t, VRef (Some l) =>
      match h !! l with Some (Cell v) => r ← read t h v; Some (Node [("*", r.1)], l :: r.2) | _ => None end
  | TSlice t, VRef (Some l) =>
      match h !! l with
      | Some (Array vs) => r ← read_all (labelled (read t h) (unlabelled vs).*1) (unlabelled vs); Some (Node r.1, l :: r.2)
      | _ => None
      end
  | TMap t, VRef (Some l) =>
      match h !! l with
      | Some (Entries m) => r ← read_all (labelled (read t h) m.*1) m; Some (Node r.1, l :: r.2)
      | _ => None
      end
  | TPtr _, VRef None | TSlice _, VRef None | TMap _, VRef None => Some (Nil, [])
  | _, _ => None
  end.
Definition readers (h : heap) (fts : list (string * gty)) : list (string * reader) := (fun f => (f.1, read f.2 h)) <$> fts.

(** ** Copying *)

(** From the value of [*in], the value of [*out]; [None] when a cell is not there. *)
Definition copier := gval -> heap -> option (gval * heap).

Definition new_cell (c : cell) (h : heap) : gval * heap := let l := fresh (dom h) in (VRef (Some l), <[l := c]> h).

(** [*out = *in] *)
Definition assign : copier := fun v h => Some (v, h).

(** [if in != nil { *out = new(T); c( *in, *out) }] *)
Definition new_ptr (c : copier) : copier := fun v h =>
  match v with
  | VRef None => Some (VRef None, h)
  | VRef (Some l) => match h !! l with Some (Cell v) => r ← c v h; Some (new_cell (Cell r.1) r.2) | _ => None end
  | _ => None
  end.

(** A loop over labelled values, each with its own copier. *)
Fixpoint copy_all (cs : list (string * copier)) (vs : list (string * gval)) (h : heap) : option (list (string * gval) * heap) :=
  match cs, vs with
  | (_, c) :: cs, (n, v) :: vs => a ← c v h; b ← copy_all cs vs a.2; Some ((n, a.1) :: b.1, b.2)
  | _, _ => Some ([], h)
  end.

(** [if in != nil { *out = make([]T, len( *in)); for i := range *in { c( *in[i], *out[i]) } }];
    with [assign] this is [copy]. *)
Definition make_slice (c : copier) : copier := fun v h =>
  match v with
  | VRef None => Some (VRef None, h)
  | VRef (Some l) =>
      match h !! l with
      | Some (Array vs) => r ← copy_all (labelled c (unlabelled vs).*1) (unlabelled vs) h; Some (new_cell (Array r.1.*2) r.2)
      | _ => None
      end
  | _ => None
  end.

(** [if in != nil { *out = make(map[string]T, len( *in)); for key, val := range *in { ( *out)[key] = val } }] *)
Definition make_map (c : copier) : copier := fun v h =>
  match v with
  | VRef None => Some (VRef None, h)
  | VRef (Some l) =>
      match h !! l with
      | Some (Entries m) => r ← copy_all (labelled c m.*1) m h; Some (new_cell (Entries r.1) r.2)
      | _ => None
      end
  | _ => None
  end.

(** [*out = *in], then a statement for each of some fields, in the order of the
    fields; a statement reads and writes its own field only. *)
Definition statement (ss : list (string * copier)) (n : string) : copier :=
  match find (fun s => String.eqb s.1 n) ss with Some s => s.2 | None => assign end.
Definition copy_struct (ss : list (string * copier)) : copier := fun v h =>
  match v with
  | VStruct fs => r ← copy_all ((fun f => (f.1, statement ss f.1)) <$> fs) fs h; Some (VStruct r.1, r.2)
  | _ => None
  end.

(** [DeepCopy] and [DeepCopyObject] of a type with a [DeepCopyInto]: a nil pointer
    gives nil, and a nil pointer inside an interface never appears. *)
Definition DeepCopy (into : copier) : copier := new_ptr into.
Definition DeepCopyObject (into : copier) (v : gval) (h : heap) : option (option loc * heap) :=
  r ← DeepCopy into v h; Some (match r.1 with VRef p => p | _ => None end, r.2).

(** ** Specification *)

(** A copier gives a value with the same contents and leaves every cell as it is;
    a deep one also uses new cells only. *)
Definition copies (deep : bool) (t : gty) (c : copier) : Prop :=
  forall h v a L, read t h v = Some (a, L) ->
    exists v' h' L', c v h = Some (v', h') /\ h ⊆ h' /\ read t h' v' = Some (a, L') /\
      (deep = true -> forall l, l ∈ L' -> h !! l = None).

(** The generic deep copy, by recursion on the type. *)
Fixpoint deep_copy (t : gty) : copier :=
  match t with
  | TBase => assign
  | TStruct fts => copy_struct ((fun f => (f.1, deep_copy f.2)) <$> fts)
  | TPtr t => new_ptr (deep_copy t)
  | TSlice t => make_slice (deep_copy t)
  | TMap t => make_map (deep_copy t)
  end.

(** ** Facts *)

Lemma read_all_names rs vs r : read_all rs vs = Some r -> vs.*1 = rs.*1.
Proof.
  revert vs r. induction rs as [|[n f] rs IH]; intros [|[m v] vs] r Hr; cbn in Hr |- *; try done.
  case_bool_decide as Hn; [|done]. subst. destruct (f v); [|done]. cbn in Hr. destruct (read_all rs vs) eqn:E; [|done].
  f_equal. by eapply IH.
Qed.

Lemma readers_labelled h t ns : labelled (read t h) ns = readers h (labelled t ns).
Proof. unfold labelled, readers. by rewrite <- list_fmap_compose. Qed.
Lemma readers_names h fts : (readers h fts).*1 = fts.*1.
Proof. unfold readers. by rewrite <- list_fmap_compose. Qed.
Lemma labelled_names {B} (b : B) ns : (labelled b ns).*1 = ns.
Proof. unfold labelled. rewrite <- list_fmap_compose. apply list_fmap_id. Qed.
Lemma unlabelled_values {A} (l : list A) : (unlabelled l).*2 = l.
Proof. unfold unlabelled. rewrite <- list_fmap_compose. apply list_fmap_id. Qed.
Lemma unlabelled_names {A} (l : list A) : (unlabelled l).*1 = replicate (length l) "".
Proof. unfold unlabelled. rewrite <- list_fmap_compose. induction l; [done|]. cbn. by f_equal. Qed.
Lemma unlabelled_again {A} (l : list (string * A)) n : l.*1 = replicate n "" -> unlabelled l.*2 = l.
Proof.
  revert n. induction l as [|[k a] l IH]; intros [|n] Hl; try done. injection Hl as -> Hl. unfold unlabelled. cbn. f_equal. by eapply IH.
Qed.

Lemma by_name {A B} (g : string -> B) (l : list (string * A)) : (fun f => (f.1, g f.1)) <$> l = (fun n => (n, g n)) <$> l.*1.
Proof. by rewrite <- list_fmap_compose. Qed.

(** *** Reading depends on the cells it reports only *)

Definition agree (L : list loc) (h h' : heap) : Prop := forall l, l ∈ L -> h' !! l = h !! l.
Lemma agree_app L K h h' : agree (L ++ K) h h' -> agree L h h' /\ agree K h h'.
Proof. intros Ha. split; intros l Hl; apply Ha, elem_of_app; auto. Qed.
Lemma agree_cons l L h h' : agree (l :: L) h h' -> h' !! l = h !! l /\ agree L h h'.
Proof. intros Ha. split; [apply Ha; left|intros k Hk; apply Ha; by right]. Qed.

Definition framed (t : gty) : Prop :=
  forall h h' v a L, read t h v = Some (a, L) -> agree L h h' -> read t h' v = Some (a, L).
Lemma read_all_frame fts h h' vs r L : Forall (fun f => framed f.2) fts ->
  read_all (readers h fts) vs = Some (r, L) -> agree L h h' -> read_all (readers h' fts) vs = Some (r, L).
Proof.
  intros Hf. revert vs r L. induction Hf as [|[n t] fts Ht Hf IH]; intros [|[m v] vs] r L Hr Ha; cbn in *; try done.
  case_bool_decide; [|done]. destruct (read t h v) as [[a La]|] eqn:Ea; [|done]. cbn in Hr.
  fold (readers h fts) in Hr. fold (readers h' fts). destruct (read_all (readers h fts) vs) as [[b Lb]|] eqn:Eb; [|done]. cbn in Hr. injection Hr as <- <-.
  apply agree_app in Ha as [Ha Hb]. rewrite (Ht h h' v a La Ea Ha). cbn. by rewrite (IH vs b Lb Eb Hb).
Qed.

Lemma read_frame t : framed t.
Proof.
  induction t as [|fts IH|t IH|t IH|t IH] using gty_nested; intros h h' v a L Hr Ha; destruct v as [s|fs|[l|]]; try done; cbn in Hr |- *.
  - fold (readers h fts) in Hr. fold (readers h' fts).
    destruct (read_all (readers h fts) fs) as [[r Lr]|] eqn:E; [|done]. injection Hr as <- <-. cbn in Ha.
    by rewrite (read_all_frame fts h h' fs r Lr IH E Ha).
  - destruct (h !! l) as [[v| |]|] eqn:El; try done. destruct (read t h v) as [[b Lb]|] eqn:Eb; [|done]. injection Hr as <- <-.
    apply agree_cons in Ha as [Hl Ha]. rewrite Hl, El, (IH h h' v b Lb Eb Ha). done.
  - destruct (h !! l) as [[|vs|]|] eqn:El; try done. rewrite readers_labelled in Hr.
    destruct (read_all _ (unlabelled vs)) as [[b Lb]|] eqn:Eb; [|done]. injection Hr as <- <-.
    apply agree_cons in Ha as [Hl Ha]. rewrite Hl, El, readers_labelled.
    rewrite (read_all_frame _ h h' _ b Lb) by (done || by apply Forall_fmap, Forall_true). done.
  - destruct (h !! l) as [[| |m]|] eqn:El; try done. rewrite readers_labelled in Hr.
    destruct (read_all _ m) as [[b Lb]|] eqn:Eb; [|done]. injection Hr as <- <-.
    apply agree_cons in Ha as [Hl Ha]. rewrite Hl, El, readers_labelled.
    rewrite (read_all_frame _ h h' _ b Lb) by (done || by apply Forall_fmap, Forall_true). done.
Qed.

(** *** The cells a value is spread over are there *)

Definition present (t : gty) : Prop := forall h v a L l, read t h v = Some (a, L) -> l ∈ L -> is_Some (h !! l).
Lemma read_all_present fts h vs r L l : Forall (fun f => present f.2) fts ->
  read_all (readers h fts) vs = Some (r, L) -> l ∈ L -> is_Some (h !! l).
Proof.
  intros Hf. revert vs r L. induction Hf as [|[n t] fts Ht Hf IH]; intros [|[m v] vs] r L Hr Hl; cbn in *; try done.
  - injection Hr as <- <-. by apply elem_of_nil in Hl.
  - case_bool_decide; [|done]. destruct (read t h v) as [[a La]|] eqn:Ea; [|done]. cbn in Hr. fold (readers h fts) in Hr.
    destruct (read_all (readers h fts) vs) as [[b Lb]|] eqn:Eb; [|done]. injection Hr as <- <-.
    apply elem_of_app in Hl as [Hl|Hl]; [by eapply Ht|by eapply IH].
Qed.

Lemma read_present t : present t.
Proof.
  induction t as [|fts IH|t IH|t IH|t IH] using gty_nested; intros h v a L k Hr Hk; destruct v as [s|fs|[l|]]; try done; cbn in Hr;
    try (injection Hr as <- <-; by apply elem_of_nil in Hk).
  - fold (readers h fts) in Hr. destruct (read_all (readers h fts) fs) as [[r Lr]|] eqn:E; [|done]. injection Hr as <- <-.
    by eapply read_all_present.
  - destruct (h !! l) as [[v| |]|] eqn:El; try done. destruct (read t h v) as [[b Lb]|] eqn:Eb; [|done]. injection Hr as <- <-.
    apply elem_of_cons in Hk as [->|Hk]; [by eexists|by eapply IH].
  - destruct (h !! l) as [[|vs|]|] eqn:El; try done. rewrite readers_labelled in Hr.
    destruct (read_all _ (unlabelled vs)) as [[b Lb]|] eqn:Eb; [|done]. injection Hr as <- <-.
    apply elem_of_cons in Hk as [->|Hk]; [by eexists|]. eapply read_all_present; [|done|done]. by apply Forall_fmap, Forall_true.
  - destruct (h !! l) as [[| |m]|] eqn:El; try done. rewrite readers_labelled in Hr.
    destruct (read_all _ m) as [[b Lb]|] eqn:Eb; [|done]. injection Hr as <- <-.
    apply elem_of_cons in Hk as [->|Hk]; [by eexists|]. eapply read_all_present; [|done|done]. by apply Forall_fmap, Forall_true.
Qed.

Lemma agree_extends t h h' v a L : read t h v = Some (a, L) -> h ⊆ h' -> agree L h h'.
Proof. intros Hr Hh l Hl. destruct (read_present t h v a L l Hr Hl) as [c Hc]. rewrite Hc. by eapply lookup_weaken. Qed.
Lemma read_extends t h h' v a L : read t h v = Some (a, L) -> h ⊆ h' -> read t h' v = Some (a, L).
Proof. intros Hr Hh. eapply read_frame; [done|]. by eapply agree_extends. Qed.
Lemma read_all_extends fts h h' vs r L : read_all (readers h fts) vs = Some (r, L) -> h ⊆ h' -> read_all (readers h' fts) vs = Some (r, L).
Proof.
  intros Hr Hh. eapply read_all_frame; [by apply Forall_true; intros; apply read_frame|done|].
  intros l Hl. assert (is_Some (h !! l)) as [c Hc] by (eapply read_all_present; [by apply Forall_true; intros; apply read_present|done|done]).
  rewrite Hc. by eapply lookup_weaken.
Qed.

(** *** Each combinator copies what its parts copy *)

Lemma flat_cells t h v a L : flat t = true -> read t h v = Some (a, L) -> L = [].
Proof.
  revert v a L. induction t as [|fts IH|t IH|t IH|t IH] using gty_nested; intros v a L Hf Hr; try done; destruct v as [s|fs|p]; try done;
    cbn in Hr; [by injection Hr as <- <-|].
  fold (readers h fts) in Hr. destruct (read_all (readers h fts) fs) as [[r Lr]|] eqn:E; [|done]. injection Hr as <- <-. cbn.
  revert fs r Lr E Hf. induction IH as [|[n t] fts Ht IH IHf]; intros [|[m v] fs] r Lr E Hf; cbn in *; try done; [by injection E as <- <-|].
  apply andb_prop in Hf as [Hf Hfs]. case_bool_decide; [|done]. destruct (read t h v) as [[a La]|] eqn:Ea; [|done]. cbn in E.
  fold (readers h fts) in E. destruct (read_all (readers h fts) fs) as [[b Lb]|] eqn:Eb; [|done]. injection E as <- <-.
  by rewrite (Ht v a La), (IHf fs b Lb).
Qed.

Lemma assign_copies deep t : flat t = true -> copies deep t assign.
Proof.
  intros Hf h v a L Hr. exists v, h, L. split_and!; [done|done|done|]. intros _ l Hl. rewrite (flat_cells t h v a L Hf Hr) in Hl. set_solver.
Qed.

(** A deep copy is a copy. *)
Lemma copies_weaken deep t c : copies true t c -> copies deep t c.
Proof. intros Hc h v a L Hr. destruct (Hc h v a L Hr) as (v' & h' & L' & Hv & Hh & Hr' & Hn). exists v', h', L'. auto. Qed.

Lemma copy_all_copies deep fts cs : Forall2 (fun f c => copies deep f.2 c.2) fts cs ->
  forall vs h r L, read_all (readers h fts) vs = Some (r, L) ->
  exists vs' h' L', copy_all cs vs h = Some (vs', h') /\ h ⊆ h' /\ read_all (readers h' fts) vs' = Some (r, L') /\
    (deep = true -> forall l, l ∈ L' -> h !! l = None).
Proof.
  induction 1 as [|[n t] [m c] fts cs Hc _ IH]; intros [|[k v] vs] h r L Hr; cbn in Hr; try done.
  { injection Hr as <- <-. exists [], h, []. split_and!; try done. set_solver. }
  case_bool_decide as Hk; [|done]. subst k. destruct (read t h v) as [[a La]|] eqn:Ea; [|done]. cbn in Hr. fold (readers h fts) in Hr.
  destruct (read_all (readers h fts) vs) as [[b Lb]|] eqn:Eb; [|done]. injection Hr as <- <-.
  destruct (Hc h v a La Ea) as (v' & h1 & La' & Hv & Hh1 & Ha' & Hna).
  destruct (IH vs h1 b Lb (read_all_extends _ _ _ _ _ _ Eb Hh1)) as (vs' & h2 & Lb' & Hvs & Hh2 & Hb' & Hnb).
  cbn in Hv, Ha'. exists ((n, v') :: vs'), h2, (La' ++ Lb'). cbn. rewrite Hv. cbn. rewrite Hvs. split_and!; [done|by etrans| |].
  - rewrite bool_decide_true by done. rewrite (read_extends t h1 h2 v' a La') by done. cbn. fold (readers h2 fts). by rewrite Hb'.
  - intros Hd l [Hl|Hl]%elem_of_app; [auto|]. eapply lookup_weaken_None; [by apply Hnb|done].
Qed.

(** A new cell beside what its contents are spread over. *)
Lemma new_cell_fresh (h : heap) : h !! fresh (dom h) = None.
Proof. apply not_elem_of_dom, is_fresh. Qed.
Lemma new_cell_extends (c : cell) (h : heap) : h ⊆ <[fresh (dom h) := c]> h.
Proof. apply insert_subseteq, new_cell_fresh. Qed.

Lemma copies_cell {deep t h h' L' a c} : h ⊆ h' -> (deep = true -> forall l, l ∈ L' -> h !! l = None) ->
  read t (new_cell c h').2 (new_cell c h').1 = Some (a, fresh (dom h') :: L') ->
  exists v' h'' K, Some (new_cell c h') = Some (v', h'') /\ h ⊆ h'' /\ read t h'' v' = Some (a, K) /\
    (deep = true -> forall l, l ∈ K -> h !! l = None).
Proof.
  intros Hh Hn Hr. exists (new_cell c h').1, (new_cell c h').2, (fresh (dom h') :: L'). split; [by destruct (new_cell c h')|].
  split; [etrans; [done|apply new_cell_extends]|]. split; [done|].
  intros Hd l [->|Hl]%elem_of_cons; [|by apply Hn]. eapply lookup_weaken_None; [apply new_cell_fresh|done].
Qed.

Lemma nil_copies {deep t h} : read t h (VRef None) = Some (Nil, []) ->
  exists v' h' L', Some (VRef None, h) = Some (v', h') /\ h ⊆ h' /\ read t h' v' = Some (Nil, L') /\
    (deep = true -> forall l, l ∈ L' -> h !! l = None).
Proof. intros Hr. exists (VRef None), h, []. split_and!; try done. set_solver. Qed.

Lemma new_ptr_copies deep t c : copies deep t c -> copies deep (TPtr t) (new_ptr c).
Proof.
  intros Hc h [s|fs|[l|]] a L Hr; cbn in Hr; try done; [|injection Hr as <- <-; by apply nil_copies].
  cbn -[read]. destruct (h !! l) as [[v| |]|]; try done. destruct (read t h v) as [[b Lb]|] eqn:Eb; [|done]. injection Hr as <- <-.
  destruct (Hc h v b Lb Eb) as (v' & h' & L' & Hv & Hh & Hr & Hn). rewrite Hv. cbn -[new_cell read]. apply (copies_cell Hh Hn). cbn.
  rewrite lookup_insert_eq. rewrite (read_extends t h' _ v' b L' Hr (new_cell_extends (Cell v') h')). done.
Qed.

Lemma labelled_copies deep t c ns : copies deep t c -> Forall2 (fun f c => copies deep f.2 c.2) (labelled t ns) (labelled c ns).
Proof. intros Hc. unfold labelled. apply Forall2_fmap_2, Forall_Forall2_diag, Forall_true. done. Qed.

Lemma make_slice_copies deep t c : copies deep t c -> copies deep (TSlice t) (make_slice c).
Proof.
  intros Hc h [s|fs|[l|]] a L Hr; cbn in Hr; try done; [|injection Hr as <- <-; by apply nil_copies].
  cbn -[read]. destruct (h !! l) as [[|vs|]|]; try done. rewrite readers_labelled in Hr.
  destruct (read_all _ (unlabelled vs)) as [[b Lb]|] eqn:Eb; [|done]. injection Hr as <- <-.
  destruct (copy_all_copies deep _ _ (labelled_copies deep t c (unlabelled vs).*1 Hc) _ h b Lb Eb) as (vs' & h' & L' & Hv & Hh & Hr & Hn).
  rewrite Hv. cbn -[new_cell read]. apply (copies_cell Hh Hn). cbn. rewrite lookup_insert_eq.
  assert (Hns : vs'.*1 = (unlabelled vs).*1).
  { apply read_all_names in Hr. by rewrite readers_names, labelled_names in Hr. }
  rewrite (unlabelled_again vs' (length vs)) by (by rewrite Hns, unlabelled_names). rewrite Hns, readers_labelled.
  by rewrite (read_all_extends _ _ _ _ _ _ Hr (new_cell_extends (Array vs'.*2) h')).
Qed.

Lemma make_map_copies deep t c : copies deep t c -> copies deep (TMap t) (make_map c).
Proof.
  intros Hc h [s|fs|[l|]] a L Hr; cbn in Hr; try done; [|injection Hr as <- <-; by apply nil_copies].
  cbn -[read]. destruct (h !! l) as [[| |m]|]; try done. rewrite readers_labelled in Hr.
  destruct (read_all _ m) as [[b Lb]|] eqn:Eb; [|done]. injection Hr as <- <-.
  destruct (copy_all_copies deep _ _ (labelled_copies deep t c m.*1 Hc) _ h b Lb Eb) as (m' & h' & L' & Hv & Hh & Hr & Hn).
  rewrite Hv. cbn -[new_cell read]. apply (copies_cell Hh Hn). cbn. rewrite lookup_insert_eq.
  assert (Hns : m'.*1 = m.*1) by (apply read_all_names in Hr; by rewrite readers_names, labelled_names in Hr).
  rewrite Hns, readers_labelled. by rewrite (read_all_extends _ _ _ _ _ _ Hr (new_cell_extends (Entries m') h')).
Qed.

Lemma copy_struct_copies deep fts ss : Forall (fun f => copies deep f.2 (statement ss f.1)) fts -> copies deep (TStruct fts) (copy_struct ss).
Proof.
  intros Hc h [s|fs|p] a L Hr; cbn in Hr; try done. fold (readers h fts) in Hr.
  destruct (read_all (readers h fts) fs) as [[r Lr]|] eqn:E; [|done]. injection Hr as <- <-. cbn -[fmap read].
  assert (Hcs : (fun f : string * gval => (f.1, statement ss f.1)) <$> fs = (fun f : string * gty => (f.1, statement ss f.1)) <$> fts).
  { apply read_all_names in E. rewrite readers_names in E. by rewrite (by_name (statement ss) fs), (by_name (statement ss) fts), E. }
  rewrite Hcs.
  assert (H2 : Forall2 (fun (f : string * gty) (c : string * copier) => copies deep f.2 c.2) fts ((fun f : string * gty => (f.1, statement ss f.1)) <$> fts))
    by by apply Forall2_fmap_r, Forall_Forall2_diag.
  destruct (copy_all_copies deep _ _ H2 fs h r Lr E) as (fs' & h' & L' & Hv & Hh & Hr & Hn).
  exists (VStruct fs'), h', L'. rewrite Hv. split_and!; [done|done| |done]. cbn. fold (readers h' fts). by rewrite Hr.
Qed.

(** *** The generic deep copy *)

(** Types whose structs name each field once. *)
Fixpoint proper (t : gty) : bool :=
  match t with
  | TBase => true
  | TStruct l => bool_decide (NoDup l.*1) && forallb (fun f => proper f.2) l
  | TPtr t | TSlice t | TMap t => proper t
  end.

Lemma statement_own (fts : list (string * copier)) n c : NoDup fts.*1 -> (n, c) ∈ fts -> statement fts n = c.
Proof.
  intros Hd Hin. unfold statement. destruct (find _ fts) as [[m d]|] eqn:E.
  - apply find_some in E as [Hm Hn]. apply String.eqb_eq in Hn. cbn in Hn. subst m. apply list_elem_of_In in Hm. cbn.
    apply list_elem_of_lookup in Hin as [i Hi], Hm as [j Hj].
    assert (i = j) as ->; [|rewrite Hi in Hj; by injection Hj].
    eapply NoDup_lookup; [done| |]; rewrite list_lookup_fmap; [by rewrite Hi|by rewrite Hj].
  - apply find_none with (x := (n, c)) in E; [|by apply list_elem_of_In]. cbn in E. by rewrite String.eqb_refl in E.
Qed.

Lemma deep_copy_copies deep t : proper t = true -> copies deep t (deep_copy t).
Proof.
  induction t as [|fts IH|t IH|t IH|t IH] using gty_nested; intros Hp; cbn in Hp |- *.
  - by apply assign_copies.
  - apply andb_prop in Hp as [Hd Hp]. apply bool_decide_eq_true in Hd. rewrite forallb_forall in Hp.
    apply copy_struct_copies, Forall_forall. intros [n t] Hin. rewrite Forall_forall in IH.
    rewrite (statement_own _ n (deep_copy t)); [apply (IH _ Hin), (Hp (n, t)), list_elem_of_In, Hin| |].
    + by rewrite <- list_fmap_compose.
    + apply list_elem_of_fmap. by exists (n, t).
  - by apply new_ptr_copies, IH.
  - by apply make_slice_copies, IH.
  - by apply make_map_copies, IH.
Qed.

(** *** After a deep copy *)

(** Writing to cells of the copy leaves the original as it was, and writing to cells
    that were there before leaves the copy. *)
Lemma deep_copy_isolates t c h v a L : copies true t c -> read t h v = Some (a, L) ->
  exists v' h' L', c v h = Some (v', h') /\ h ⊆ h' /\ read t h' v' = Some (a, L') /\
    (forall h'', (forall l, l ∉ L' -> h'' !! l = h' !! l) -> read t h'' v = Some (a, L)) /\
    (forall h'', (forall l, h !! l = None -> h'' !! l = h' !! l) -> read t h'' v' = Some (a, L')).
Proof.
  intros Hc Hr. destruct (Hc h v a L Hr) as (v' & h' & L' & Hv & Hh & Hr' & Hn). exists v', h', L'. split_and!; try done; intros h'' Hw.
  - eapply read_frame; [by eapply read_extends|]. intros l Hl. apply Hw. intros Hl'.
    destruct (read_present t h v a L l Hr Hl) as [x Hx]. by rewrite (Hn eq_refl l Hl') in Hx.
  - eapply read_frame; [done|]. intros l Hl. apply Hw. by apply Hn.
Qed.

#[export] Hint Resolve assign_copies new_ptr_copies make_slice_copies make_map_copies copy_struct_copies deep_copy_copies : copies.
