(* ===== verification/DeepCopies.v ===== *)
(** * Deep copies of the API types  ([zz_generated.deepcopy.go])

    The types of the custom resources and the generated functions that copy them,
    statement by statement, together with the hand-written ones of [shield/pkg/common]
    and [shield/config], which call [copier.Copy]. *)
From S2P Require Import Prelude GoHeap.
From stdpp Require Import options.

(** ** What the copies rely on *)

(** Types of the Kubernetes libraries with references in them, and their
    [DeepCopyInto]. *)
Class K8sTypes := { foreign_ty : string -> gty; foreign_copy : string -> copier }.

(** [copier.Copy] between two values of a type. *)
Class CopierLib := { copier_Copy : gty -> copier }.

Notation string_ty := TBase.
Notation scalar_ty := TBase.
Notation bytes_ty := (TSlice TBase).
Notation strings_ty := (TSlice TBase).

(** Structs of the Kubernetes libraries without references. *)
Definition TypeMeta_ty : gty := TStruct [("Kind", string_ty); ("APIVersion", string_ty)].
Definition IntOrString_ty : gty := TStruct [("Type", scalar_ty); ("IntVal", scalar_ty); ("StrVal", string_ty)].
Definition LocalObjectReference_ty : gty := TStruct [("Name", string_ty)].
Definition Subject_ty : gty := TStruct [("Kind", string_ty); ("APIGroup", string_ty); ("Name", string_ty); ("Namespace", string_ty)].

(** ** Types  ([shield/pkg/common]) *)

Section types.
Context `{K8sTypes}.

(** [RulePattern] is a string. *)
Definition RequestPattern_ty : gty := TStruct [
  ("Scope", TPtr string_ty); ("ApiGroup", TPtr string_ty); ("ApiVersion", TPtr string_ty); ("Kind", TPtr string_ty);
  ("Name", TPtr string_ty); ("Operation", TPtr string_ty); ("UserName", TPtr string_ty); ("UserGroup", TPtr string_ty)].
Definition RequestPatternWithNamespace_ty : gty := TStruct [("RequestPattern", TPtr RequestPattern_ty); ("Namespace", TPtr string_ty)].
Definition Rule_ty : gty := TStruct [("Match", TSlice (TPtr RequestPattern_ty)); ("Exclude", TSlice (TPtr RequestPattern_ty))].
Definition KustomizePattern_ty : gty := TStruct [
  ("Match", TSlice (TPtr RequestPattern_ty)); ("NamePrefix", TPtr string_ty); ("NameSuffix", TPtr string_ty); ("AllowNamespaceChange", scalar_ty)].
Definition AttrsPattern_ty : gty := TStruct [("Match", TSlice (TPtr RequestPattern_ty)); ("Attrs", strings_ty)].
Definition ServiceAccountPattern_ty : gty := TStruct [
  ("Match", TPtr RequestPatternWithNamespace_ty); ("Except", TPtr RequestPatternWithNamespace_ty); ("ServiceAccountNames", strings_ty)].
Definition CommonProfile_ty : gty := TStruct [("IgnoreRules", TSlice (TPtr Rule_ty)); ("IgnoreAttrs", TSlice (TPtr AttrsPattern_ty))].
Definition Request_ty : gty := TStruct [
  ("Operation", string_ty); ("Namespace", string_ty); ("ApiGroup", string_ty); ("ApiVersion", string_ty); ("Kind", string_ty);
  ("Name", string_ty); ("UserName", string_ty)].
Definition Result_ty : gty := TStruct [("Message", string_ty); ("Timestamp", string_ty)].
Definition NamespaceSelector_ty : gty := TStruct [
  ("LabelSelector", TPtr (foreign_ty "metav1.LabelSelector")); ("Include", strings_ty); ("Exclude", strings_ty)].
Definition ResourceRef_ty : gty := TStruct [("Name", string_ty); ("Namespace", string_ty); ("Kind", string_ty); ("ApiVersion", string_ty)].

Definition SubjectMatchPattern_ty : gty := TStruct [
  ("Email", string_ty); ("Uid", string_ty); ("Country", string_ty); ("Organization", string_ty); ("OrganizationalUnit", string_ty);
  ("Locality", string_ty); ("Province", string_ty); ("StreetAddress", string_ty); ("PostalCode", string_ty); ("CommonName", string_ty);
  ("SerialNumber", string_ty)].
Definition SignerConfigCondition_ty : gty := TStruct [
  ("Scope", string_ty); ("Namespaces", strings_ty); ("ExcludeNamespaces", strings_ty); ("Signers", strings_ty)].
Definition SignerCondition_ty : gty := TStruct [("Name", string_ty); ("KeyConfig", string_ty); ("Subjects", TSlice SubjectMatchPattern_ty)].
Definition BreakGlassCondition_ty : gty := TStruct [("Scope", string_ty); ("Namespaces", strings_ty)].
Definition common_SignerConfig_ty : gty := TStruct [
  ("Policies", TSlice SignerConfigCondition_ty); ("Signers", TSlice SignerCondition_ty); ("BreakGlass", TSlice BreakGlassCondition_ty);
  ("Description", string_ty)].

(** ** Types  ([shield/config]) *)

Definition PatchConfig_ty : gty := TStruct [("Enabled", scalar_ty)].
Definition PluginConfig_ty : gty := TStruct [("Name", string_ty); ("Enabled", scalar_ty)].
Definition IShieldResourceCondition_ty : gty := TStruct [
  ("OperatorResources", TSlice (TPtr ResourceRef_ty)); ("ServerResources", TSlice (TPtr ResourceRef_ty)); ("OperatorServiceAccount", string_ty)].
Definition LogRequestPattern_ty : gty := TStruct [("RequestPatternWithNamespace", TPtr RequestPatternWithNamespace_ty); ("LogLevel", string_ty)].
Definition LogScopeConfig_ty : gty := TStruct [
  ("Enabled", scalar_ty); ("InScope", TSlice LogRequestPattern_ty); ("Ignore", TSlice LogRequestPattern_ty)].
Definition LoggingScopeConfig_ty : gty := TStruct [
  ("LogLevel", string_ty); ("LogAllResponse", scalar_ty); ("IncludeRequest", scalar_ty); ("IncludeRelease", scalar_ty);
  ("ConsoleLog", TPtr LogScopeConfig_ty); ("ContextLog", TPtr LogScopeConfig_ty); ("ConsoleLogFormat", string_ty);
  ("ConsoleLogFile", string_ty); ("ContextLogFile", string_ty); ("ContextLogRotateSize", scalar_ty)].
Definition config_ShieldConfig_ty : gty := TStruct [
  ("Patch", TPtr PatchConfig_ty); ("Log", TPtr LoggingScopeConfig_ty); ("InScopeNamespaceSelector", TPtr NamespaceSelector_ty);
  ("Allow", TSlice RequestPattern_ty); ("Ignore", TSlice RequestPattern_ty); ("Mode", string_ty); ("Plugin", TSlice PluginConfig_ty);
  ("CommonProfile", TPtr CommonProfile_ty); ("Namespace", string_ty); ("SignatureNamespace", string_ty); ("ProfileNamespace", string_ty);
  ("KeyPathList", strings_ty); ("ChartDir", string_ty); ("ChartRepo", string_ty); ("IShieldResource", string_ty);
  ("IShieldResourceCondition", TPtr IShieldResourceCondition_ty); ("IShieldAdminUserGroup", string_ty); ("IShieldAdminUserName", string_ty);
  ("IShieldCRName", string_ty); ("IShieldServerUserName", string_ty); ("Options", strings_ty)].

(** ** Types of the custom resources *)

Definition object_ty (spec status : gty) : gty := TStruct [
  ("TypeMeta", TypeMeta_ty); ("ObjectMeta", foreign_ty "metav1.ObjectMeta"); ("Spec", spec); ("Status", status)].
Definition list_ty (item : gty) : gty := TStruct [
  ("TypeMeta", TypeMeta_ty); ("ListMeta", foreign_ty "metav1.ListMeta"); ("Items", TSlice item)].

Definition ProfileStatusDetail_ty : gty := TStruct [("Request", TPtr Request_ty); ("Result", TPtr Result_ty)].
Definition ProfileStatusSummary_ty : gty := TStruct [("GroupVersionKind", string_ty); ("Count", scalar_ty)].
Definition ResourceSigningProfileSpec_ty : gty := TStruct [
  ("Disabled", scalar_ty); ("TargetNamespaceSelector", TPtr NamespaceSelector_ty); ("ProtectRules", TSlice (TPtr Rule_ty));
  ("IgnoreRules", TSlice (TPtr Rule_ty)); ("ForceCheckRules", TSlice (TPtr Rule_ty)); ("KustomizePatterns", TSlice (TPtr KustomizePattern_ty));
  ("ProtectAttrs", TSlice (TPtr AttrsPattern_ty)); ("UnprotectAttrs", TSlice (TPtr AttrsPattern_ty)); ("IgnoreAttrs", TSlice (TPtr AttrsPattern_ty))].
Definition ResourceSigningProfileStatus_ty : gty := TStruct [
  ("DenyCount", scalar_ty); ("Summary", TSlice (TPtr ProfileStatusSummary_ty)); ("Latest", TSlice (TPtr ProfileStatusDetail_ty))].
Definition ResourceSigningProfile_ty : gty := object_ty ResourceSigningProfileSpec_ty ResourceSigningProfileStatus_ty.
Definition ResourceSigningProfileList_ty : gty := list_ty ResourceSigningProfile_ty.

Definition SignItem_ty : gty := TStruct [
  ("Message", string_ty); ("MessageScope", string_ty); ("MutableAttrs", string_ty); ("Signature", string_ty); ("Certificate", string_ty);
  ("Type", string_ty)].
Definition ResourceInfo_ty : gty := TStruct [
  ("ApiVersion", string_ty); ("Kind", string_ty); ("Name", string_ty); ("Namespace", string_ty); ("raw", bytes_ty)].
Definition state_ty : gty := TStruct [("State", string_ty); ("Message", string_ty)].
Definition ResourceSignatureSpec_ty : gty := TStruct [("Data", TSlice (TPtr SignItem_ty))].
Definition ResourceSignature_ty : gty := object_ty ResourceSignatureSpec_ty state_ty.
Definition ResourceSignatureList_ty : gty := list_ty (TPtr ResourceSignature_ty).

Definition SignerConfigSpec_ty : gty := TStruct [("Config", TPtr common_SignerConfig_ty)].
Definition SignerConfig_ty : gty := object_ty SignerConfigSpec_ty (TStruct []).
Definition SignerConfigList_ty : gty := list_ty SignerConfig_ty.

Definition ShieldConfigSpec_ty : gty := TStruct [("ShieldConfig", TPtr config_ShieldConfig_ty)].
Definition ShieldConfig_ty : gty := object_ty ShieldConfigSpec_ty state_ty.
Definition ShieldConfigList_ty : gty := list_ty (TPtr ShieldConfig_ty).

Definition HelmReleaseMetadataSpec_ty : gty := TStruct [
  ("Name", string_ty); ("Chart", bytes_ty); ("Prov", bytes_ty); ("Config", bytes_ty); ("Manifest", bytes_ty); ("InstallOption", string_ty)].
Definition HelmReleaseMetadata_ty : gty := object_ty HelmReleaseMetadataSpec_ty state_ty.
Definition HelmReleaseMetadataList_ty : gty := list_ty HelmReleaseMetadata_ty.

(** ** Types of the operator *)

Definition SecurityConfig_ty : gty := TStruct [
  ("ServiceAccountName", string_ty); ("SecurityContextConstraintsName", string_ty); ("ClusterRole", string_ty); ("ClusterRoleBinding", string_ty);
  ("PodSecurityPolicyName", string_ty); ("PodSecurityContext", TPtr (foreign_ty "v1.PodSecurityContext"));
  ("IShieldAdminSubjects", TSlice Subject_ty); ("AutoIShieldAdminCreationDisabled", scalar_ty)].
Definition RegKeySecret_ty : gty := TStruct [("Name", string_ty); ("Value", bytes_ty)].
Definition CertPoolConfig_ty : gty := TStruct [("Name", string_ty); ("CreateIfNotExist", scalar_ty); ("KeyValue", bytes_ty)].
Definition KeyConfig_ty : gty := TStruct [("Name", string_ty); ("FileName", string_ty); ("SecretName", string_ty); ("SignatureType", string_ty)].
Definition ServerContainer_ty : gty := TStruct [
  ("Name", string_ty); ("SecurityContext", TPtr (foreign_ty "v1.SecurityContext")); ("ImagePullPolicy", string_ty); ("Image", string_ty);
  ("Port", scalar_ty); ("Resources", foreign_ty "v1.ResourceRequirements"); ("ChartBaseUrl", string_ty); ("ContextLogEnabled", scalar_ty);
  ("ShieldCmReloadSec", scalar_ty); ("EnforcePolicyReloadSec", scalar_ty)].
Definition EsConfig_ty : gty := TStruct [
  ("Enabled", scalar_ty); ("Scheme", string_ty); ("Host", string_ty); ("Port", scalar_ty); ("SslVerify", scalar_ty); ("IndexPrefix", string_ty);
  ("ClientKey", string_ty); ("ClientCert", string_ty); ("CaFile", string_ty)].
Definition HttpConfig_ty : gty := TStruct [("Enabled", scalar_ty); ("Endpoint", string_ty)].
Definition LoggerContainer_ty : gty := TStruct [
  ("Enabled", TPtr scalar_ty); ("Name", string_ty); ("SecurityContext", TPtr (foreign_ty "v1.SecurityContext")); ("ImagePullPolicy", string_ty);
  ("Image", string_ty); ("StdOutput", scalar_ty); ("HttpConfig", TPtr HttpConfig_ty); ("Resources", foreign_ty "v1.ResourceRequirements");
  ("EsConfig", TPtr EsConfig_ty); ("EsSecretName", string_ty)].
Definition ObserverContainer_ty : gty := TStruct [
  ("Enabled", TPtr scalar_ty); ("Name", string_ty); ("SecurityContext", TPtr (foreign_ty "v1.SecurityContext")); ("ImagePullPolicy", string_ty);
  ("Image", string_ty); ("Resources", foreign_ty "v1.ResourceRequirements")].
Definition ProfileConfig_ty : gty := TStruct [("ResourceSigningProfileSpec", TPtr ResourceSigningProfileSpec_ty); ("Name", string_ty)].
Definition IntegrityShieldSpec_ty : gty := TStruct [
  ("MaxSurge", TPtr IntOrString_ty); ("MaxUnavailable", TPtr IntOrString_ty); ("ReplicaCount", TPtr scalar_ty); ("MetaLabels", TMap string_ty);
  ("SelectorLabels", TMap string_ty); ("NodeSelector", TMap string_ty); ("Affinity", TPtr (foreign_ty "v1.Affinity"));
  ("Tolerations", TSlice (foreign_ty "v1.Toleration")); ("ImagePullSecrets", TSlice LocalObjectReference_ty);
  ("IgnoreDefaultIShieldCR", scalar_ty); ("Security", SecurityConfig_ty); ("KeyConfig", TSlice KeyConfig_ty); ("Server", ServerContainer_ty);
  ("Logger", LoggerContainer_ty); ("Observer", ObserverContainer_ty); ("RegKeySecret", RegKeySecret_ty); ("ShieldConfigCrName", string_ty);
  ("ShieldConfig", TPtr config_ShieldConfig_ty); ("IgnoreRules", TSlice Rule_ty); ("IgnoreAttrs", TSlice AttrsPattern_ty);
  ("SignerConfig", TPtr common_SignerConfig_ty); ("ResourceSigningProfiles", TSlice (TPtr ProfileConfig_ty));
  ("WebhookServerTlsSecretName", string_ty); ("WebhookServiceName", string_ty); ("WebhookConfigName", string_ty);
  ("WebhookNamespacedResource", foreign_ty "admv1.Rule"); ("WebhookClusterResource", foreign_ty "admv1.Rule")].
Definition IntegrityShield_ty : gty := object_ty IntegrityShieldSpec_ty (TStruct []).
Definition IntegrityShieldList_ty : gty := list_ty IntegrityShield_ty.

(** The types that are copied with [copier.Copy]. *)
Definition copied_types : list gty :=
  [Rule_ty; RequestPattern_ty; KustomizePattern_ty; ServiceAccountPattern_ty; AttrsPattern_ty; Result_ty; NamespaceSelector_ty;
   common_SignerConfig_ty; config_ShieldConfig_ty].

(** ** Hand-written copies

    Their [DeepCopy] allocates without a check; every call of one is guarded by
    [in != nil], so that guard and call together are [DeepCopy] of [GoHeap.v]. *)

Context `{CopierLib}.

Definition Rule_DeepCopyInto : copier := copier_Copy Rule_ty.
Definition RequestPattern_DeepCopyInto : copier := copier_Copy RequestPattern_ty.
Definition KustomizePattern_DeepCopyInto : copier := copier_Copy KustomizePattern_ty.
Definition ServiceAccountPattern_DeepCopyInto : copier := copier_Copy ServiceAccountPattern_ty.
Definition AttrsPattern_DeepCopyInto : copier := copier_Copy AttrsPattern_ty.
Definition Result_DeepCopyInto : copier := copier_Copy Result_ty.
Definition NamespaceSelector_DeepCopyInto : copier := copier_Copy NamespaceSelector_ty.
Definition common_SignerConfig_DeepCopyInto : copier := copier_Copy common_SignerConfig_ty.
Definition config_ShieldConfig_DeepCopyInto : copier := copier_Copy config_ShieldConfig_ty.

(** ** Generated copies *)

(** Signing profiles. *)
Definition ProfileStatusDetail_DeepCopyInto : copier := copy_struct [
  ("Request", new_ptr assign); ("Result", DeepCopy Result_DeepCopyInto)].
Definition ProfileStatusSummary_DeepCopyInto : copier := assign.
Definition ResourceSigningProfileSpec_DeepCopyInto : copier := copy_struct [
  ("TargetNamespaceSelector", DeepCopy NamespaceSelector_DeepCopyInto); ("ProtectRules", make_slice (DeepCopy Rule_DeepCopyInto));
  ("IgnoreRules", make_slice (DeepCopy Rule_DeepCopyInto)); ("ForceCheckRules", make_slice (DeepCopy Rule_DeepCopyInto));
  ("KustomizePatterns", make_slice (DeepCopy KustomizePattern_DeepCopyInto)); ("ProtectAttrs", make_slice (DeepCopy AttrsPattern_DeepCopyInto));
  ("UnprotectAttrs", make_slice (DeepCopy AttrsPattern_DeepCopyInto)); ("IgnoreAttrs", make_slice (DeepCopy AttrsPattern_DeepCopyInto))].
Definition ResourceSigningProfileStatus_DeepCopyInto : copier := copy_struct [
  ("Summary", make_slice (new_ptr assign)); ("Latest", make_slice (new_ptr ProfileStatusDetail_DeepCopyInto))].
Definition ResourceSigningProfile_DeepCopyInto : copier := copy_struct [
  ("TypeMeta", assign); ("ObjectMeta", foreign_copy "metav1.ObjectMeta"); ("Spec", ResourceSigningProfileSpec_DeepCopyInto);
  ("Status", ResourceSigningProfileStatus_DeepCopyInto)].
Definition ResourceSigningProfileList_DeepCopyInto : copier := copy_struct [
  ("TypeMeta", assign); ("ListMeta", foreign_copy "metav1.ListMeta"); ("Items", make_slice ResourceSigningProfile_DeepCopyInto)].

(** Signatures. *)
Definition ResourceInfo_DeepCopyInto : copier := copy_struct [("raw", make_slice assign)].
Definition SignItem_DeepCopyInto : copier := assign.
Definition ResourceSignatureSpec_DeepCopyInto : copier := copy_struct [("Data", make_slice (new_ptr assign))].
Definition ResourceSignatureStatus_DeepCopyInto : copier := assign.
Definition ResourceSignature_DeepCopyInto : copier := copy_struct [
  ("TypeMeta", assign); ("ObjectMeta", foreign_copy "metav1.ObjectMeta"); ("Spec", ResourceSignatureSpec_DeepCopyInto); ("Status", assign)].
Definition ResourceSignatureList_DeepCopyInto : copier := copy_struct [
  ("TypeMeta", assign); ("ListMeta", foreign_copy "metav1.ListMeta"); ("Items", make_slice (new_ptr ResourceSignature_DeepCopyInto))].

(** Signer configurations. *)
Definition SignerConfigSpec_DeepCopyInto : copier := copy_struct [("Config", DeepCopy common_SignerConfig_DeepCopyInto)].
Definition SignerConfigStatus_DeepCopyInto : copier := assign.
Definition SignerConfig_DeepCopyInto : copier := copy_struct [
  ("TypeMeta", assign); ("ObjectMeta", foreign_copy "metav1.ObjectMeta"); ("Spec", SignerConfigSpec_DeepCopyInto); ("Status", assign)].
Definition SignerConfigList_DeepCopyInto : copier := copy_struct [
  ("TypeMeta", assign); ("ListMeta", foreign_copy "metav1.ListMeta"); ("Items", make_slice SignerConfig_DeepCopyInto)].

(** Shield configurations. *)
Definition ShieldConfigSpec_DeepCopyInto : copier := copy_struct [("ShieldConfig", DeepCopy config_ShieldConfig_DeepCopyInto)].
Definition ShieldConfigStatus_DeepCopyInto : copier := assign.
Definition ShieldConfig_DeepCopyInto : copier := copy_struct [
  ("TypeMeta", assign); ("ObjectMeta", foreign_copy "metav1.ObjectMeta"); ("Spec", ShieldConfigSpec_DeepCopyInto); ("Status", assign)].
Definition ShieldConfigList_DeepCopyInto : copier := copy_struct [
  ("TypeMeta", assign); ("ListMeta", foreign_copy "metav1.ListMeta"); ("Items", make_slice (new_ptr ShieldConfig_DeepCopyInto))].

(** Metadata of Helm releases. *)
Definition HelmReleaseMetadataSpec_DeepCopyInto : copier := copy_struct [
  ("Chart", make_slice assign); ("Prov", make_slice assign); ("Config", make_slice assign); ("Manifest", make_slice assign)].
Definition HelmReleaseMetadataStatus_DeepCopyInto : copier := assign.
Definition HelmReleaseMetadata_DeepCopyInto : copier := copy_struct [
  ("TypeMeta", assign); ("ObjectMeta", foreign_copy "metav1.ObjectMeta"); ("Spec", HelmReleaseMetadataSpec_DeepCopyInto); ("Status", assign)].
Definition HelmReleaseMetadataList_DeepCopyInto : copier := copy_struct [
  ("TypeMeta", assign); ("ListMeta", foreign_copy "metav1.ListMeta"); ("Items", make_slice HelmReleaseMetadata_DeepCopyInto)].

(** The operator. *)
Definition CertPoolConfig_DeepCopyInto : copier := copy_struct [("KeyValue", make_slice assign)].
Definition EsConfig_DeepCopyInto : copier := assign.
Definition HttpConfig_DeepCopyInto : copier := assign.
Definition KeyConfig_DeepCopyInto : copier := assign.
Definition IntegrityShieldStatus_DeepCopyInto : copier := assign.
Definition RegKeySecret_DeepCopyInto : copier := copy_struct [("Value", make_slice assign)].
Definition SecurityConfig_DeepCopyInto : copier := copy_struct [
  ("PodSecurityContext", new_ptr (foreign_copy "v1.PodSecurityContext")); ("IShieldAdminSubjects", make_slice assign)].
Definition ServerContainer_DeepCopyInto : copier := copy_struct [
  ("SecurityContext", new_ptr (foreign_copy "v1.SecurityContext")); ("Resources", foreign_copy "v1.ResourceRequirements")].
Definition LoggerContainer_DeepCopyInto : copier := copy_struct [
  ("Enabled", new_ptr assign); ("SecurityContext", new_ptr (foreign_copy "v1.SecurityContext")); ("HttpConfig", new_ptr assign);
  ("Resources", foreign_copy "v1.ResourceRequirements"); ("EsConfig", new_ptr assign)].
Definition ObserverContainer_DeepCopyInto : copier := copy_struct [
  ("Enabled", new_ptr assign); ("SecurityContext", new_ptr (foreign_copy "v1.SecurityContext"));
  ("Resources", foreign_copy "v1.ResourceRequirements")].
Definition ProfileConfig_DeepCopyInto : copier := copy_struct [
  ("ResourceSigningProfileSpec", new_ptr ResourceSigningProfileSpec_DeepCopyInto)].
Definition IntegrityShieldSpec_DeepCopyInto : copier := copy_struct [
  ("MaxSurge", new_ptr assign); ("MaxUnavailable", new_ptr assign); ("ReplicaCount", new_ptr assign); ("MetaLabels", make_map assign);
  ("SelectorLabels", make_map assign); ("NodeSelector", make_map assign); ("Affinity", new_ptr (foreign_copy "v1.Affinity"));
  ("Tolerations", make_slice (foreign_copy "v1.Toleration")); ("ImagePullSecrets", make_slice assign);
  ("Security", SecurityConfig_DeepCopyInto); ("KeyConfig", make_slice assign); ("Server", ServerContainer_DeepCopyInto);
  ("Logger", LoggerContainer_DeepCopyInto); ("Observer", ObserverContainer_DeepCopyInto); ("RegKeySecret", RegKeySecret_DeepCopyInto);
  ("ShieldConfig", DeepCopy config_ShieldConfig_DeepCopyInto); ("IgnoreRules", make_slice Rule_DeepCopyInto);
  ("IgnoreAttrs", make_slice AttrsPattern_DeepCopyInto); ("SignerConfig", DeepCopy common_SignerConfig_DeepCopyInto);
  ("ResourceSigningProfiles", make_slice (new_ptr ProfileConfig_DeepCopyInto));
  ("WebhookNamespacedResource", foreign_copy "admv1.Rule"); ("WebhookClusterResource", foreign_copy "admv1.Rule")].
Definition IntegrityShield_DeepCopyInto : copier := copy_struct [
  ("TypeMeta", assign); ("ObjectMeta", foreign_copy "metav1.ObjectMeta"); ("Spec", IntegrityShieldSpec_DeepCopyInto); ("Status", assign)].
Definition IntegrityShieldList_DeepCopyInto : copier := copy_struct [
  ("TypeMeta", assign); ("ListMeta", foreign_copy "metav1.ListMeta"); ("Items", make_slice IntegrityShield_DeepCopyInto)].

(** Every type with a generated copy. *)
Definition generated_copies : list (gty * copier) :=
  [(ProfileStatusDetail_ty, ProfileStatusDetail_DeepCopyInto); (ProfileStatusSummary_ty, ProfileStatusSummary_DeepCopyInto);
   (ResourceSigningProfileSpec_ty, ResourceSigningProfileSpec_DeepCopyInto);
   (ResourceSigningProfileStatus_ty, ResourceSigningProfileStatus_DeepCopyInto);
   (ResourceSigningProfile_ty, ResourceSigningProfile_DeepCopyInto);
   (ResourceSigningProfileList_ty, ResourceSigningProfileList_DeepCopyInto); (ResourceInfo_ty, ResourceInfo_DeepCopyInto);
   (SignItem_ty, SignItem_DeepCopyInto); (ResourceSignatureSpec_ty, ResourceSignatureSpec_DeepCopyInto);
   (state_ty, ResourceSignatureStatus_DeepCopyInto); (ResourceSignature_ty, ResourceSignature_DeepCopyInto);
   (ResourceSignatureList_ty, ResourceSignatureList_DeepCopyInto); (SignerConfigSpec_ty, SignerConfigSpec_DeepCopyInto);
   ((TStruct []), SignerConfigStatus_DeepCopyInto); (SignerConfig_ty, SignerConfig_DeepCopyInto);
   (SignerConfigList_ty, SignerConfigList_DeepCopyInto); (ShieldConfigSpec_ty, ShieldConfigSpec_DeepCopyInto);
   (state_ty, ShieldConfigStatus_DeepCopyInto); (ShieldConfig_ty, ShieldConfig_DeepCopyInto);
   (ShieldConfigList_ty, ShieldConfigList_DeepCopyInto); (HelmReleaseMetadataSpec_ty, HelmReleaseMetadataSpec_DeepCopyInto);
   (state_ty, HelmReleaseMetadataStatus_DeepCopyInto); (HelmReleaseMetadata_ty, HelmReleaseMetadata_DeepCopyInto);
   (HelmReleaseMetadataList_ty, HelmReleaseMetadataList_DeepCopyInto); (CertPoolConfig_ty, CertPoolConfig_DeepCopyInto);
   (EsConfig_ty, EsConfig_DeepCopyInto); (HttpConfig_ty, HttpConfig_DeepCopyInto); (KeyConfig_ty, KeyConfig_DeepCopyInto);
   ((TStruct []), IntegrityShieldStatus_DeepCopyInto); (RegKeySecret_ty, RegKeySecret_DeepCopyInto);
   (SecurityConfig_ty, SecurityConfig_DeepCopyInto); (ServerContainer_ty, ServerContainer_DeepCopyInto);
   (LoggerContainer_ty, LoggerContainer_DeepCopyInto); (ObserverContainer_ty, ObserverContainer_DeepCopyInto);
   (ProfileConfig_ty, ProfileConfig_DeepCopyInto); (IntegrityShieldSpec_ty, IntegrityShieldSpec_DeepCopyInto);
   (IntegrityShield_ty, IntegrityShield_DeepCopyInto); (IntegrityShieldList_ty, IntegrityShieldList_DeepCopyInto)].
End types.

(** ** Specification and facts *)

(** The documented contracts: [DeepCopyInto] of a type of Kubernetes copies deeply;
    [copier.Copy] gives a struct the same contents, which says nothing about whether
    the two share cells ([deep = false]). *)
Class CopiesOk `{K8sTypes, CopierLib} (deep : bool) : Prop := {
  foreign_copies n : copies true (foreign_ty n) (foreign_copy n);
  Copy_copies t : t ∈ copied_types -> copies deep t (copier_Copy t) }.

(** Follows the statements of a copy: a field without a statement must be flat. *)
Ltac copying :=
  lazymatch goal with
  | |- copies _ _ assign => apply assign_copies; reflexivity
  | |- copies _ (foreign_ty _) (foreign_copy _) => apply copies_weaken, foreign_copies
  | |- copies _ _ (copier_Copy _) => apply Copy_copies; unfold copied_types; set_solver
  | |- copies _ _ (new_ptr _) => apply new_ptr_copies; copying
  | |- copies _ _ (make_slice _) => apply make_slice_copies; copying
  | |- copies _ _ (make_map _) => apply make_map_copies; copying
  | |- copies _ ?t (copy_struct _) =>
      apply copy_struct_copies; repeat (apply Forall_cons; split; [cbn [fst snd statement find String.eqb Ascii.eqb Bool.eqb]; copying|]); apply Forall_nil_2
  | |- copies ?d ?t ?c => let c' := eval red in c in change (copies d t c'); copying
  end.

Section facts.
Context `{K8sTypes, CopierLib}.

Lemma generated_copies_all deep `{!CopiesOk deep} : Forall (fun p => copies deep p.1 p.2) generated_copies.
Proof. unfold generated_copies. repeat (apply Forall_cons; split; [cbn [fst snd]; copying|]). apply Forall_nil_2. Qed.

(** Every generated copy has the contents of the original, and leaves all that was
    there before as it is; when [copier.Copy] copies deeply, it also shares no cell with
    anything that was there before. *)
Theorem generated_copies_copy deep `{!CopiesOk deep} t c : (t, c) ∈ generated_copies -> copies deep t c.
Proof.
  intros Hin. exact (proj1 (Forall_forall _ _) (generated_copies_all deep) (t, c) Hin).
Qed.

Lemma generated_deep `{!CopiesOk true} t into : (t, into) ∈ generated_copies -> copies true (TPtr t) (DeepCopy into).
Proof.
  intros Hin. apply new_ptr_copies. exact (proj1 (Forall_forall _ _) (generated_copies_all true) (t, into) Hin).
Qed.

End facts.

(** ** Witnesses *)

(** Types of Kubernetes without references, and two ways to implement [copier.Copy]
    that give a struct the same contents. *)
#[local] Instance sample_types : K8sTypes := {| foreign_ty _ := TBase; foreign_copy _ := assign |}.
Definition deep_copier : CopierLib := {| copier_Copy := deep_copy |}.
Definition field_copier : CopierLib := {| copier_Copy _ := assign |}.
Lemma deep_copier_ok deep : CopiesOk (H0 := deep_copier) deep.
Proof.
  split; [intros n; by apply assign_copies|]. intros t Ht. apply deep_copy_copies.
  revert t Ht. apply (Forall_forall (fun t => proper t = true)). repeat constructor.
Defined.
Lemma field_copier_ok : CopiesOk (H0 := field_copier) false.
Proof. split; [intros n; by apply assign_copies|]. intros t _ h v a L Hr. by exists v, h, L. Defined.

(** A profile with one rule, which protects config maps. *)
Definition no_pattern : list (string * gval) :=
  (fun n => (n, VRef None)) <$> ["Scope"; "ApiGroup"; "ApiVersion"; "Kind"; "Name"; "Operation"; "UserName"; "UserGroup"].
Definition kind_pattern : gval := VStruct ((fun f => if String.eqb f.1 "Kind" then (f.1, VRef (Some 6%positive)) else f) <$> no_pattern).
Definition sample_rsp_spec : gval := VStruct [
  ("Disabled", VBase "false"); ("TargetNamespaceSelector", VRef None); ("ProtectRules", VRef (Some 2%positive)); ("IgnoreRules", VRef None);
  ("ForceCheckRules", VRef None); ("KustomizePatterns", VRef None); ("ProtectAttrs", VRef None); ("UnprotectAttrs", VRef None);
  ("IgnoreAttrs", VRef None)].
Definition sample_heap : heap := list_to_map [
  (1%positive, Cell sample_rsp_spec); (2%positive, Array [VRef (Some 3%positive)]);
  (3%positive, Cell (VStruct [("Match", VRef (Some 4%positive)); ("Exclude", VRef None)])); (4%positive, Array [VRef (Some 5%positive)]);
  (5%positive, Cell kind_pattern); (6%positive, Cell (VBase "ConfigMap"))].
Definition sample_pointer : option loc := Some 1%positive.
Definition sample_contents : tree := match read (TPtr ResourceSigningProfileSpec_ty) sample_heap (VRef sample_pointer) with Some (a, _) => a | None => Nil end.
Lemma sample_reads : read (TPtr ResourceSigningProfileSpec_ty) sample_heap (VRef sample_pointer) = Some (sample_contents, [1; 2; 3; 4; 5; 6]%positive).
Proof. vm_compute. reflexivity. Qed.

Lemma rsp_spec_generated {lib : CopierLib} : (ResourceSigningProfileSpec_ty, ResourceSigningProfileSpec_DeepCopyInto) ∈ generated_copies.
Proof. unfold generated_copies. do 2 right. left. Defined.

Lemma generated_copies_copy_witness :
  copies false ResourceSigningProfileSpec_ty (ResourceSigningProfileSpec_DeepCopyInto (H0 := field_copier)) /\
  copies true ResourceSigningProfileSpec_ty (ResourceSigningProfileSpec_DeepCopyInto (H0 := deep_copier)).
Proof.
  split.
  - exact (@generated_copies_copy _ field_copier false field_copier_ok _ _ (rsp_spec_generated (lib := field_copier))).
  - exact (@generated_copies_copy _ deep_copier true (deep_copier_ok true) _ _ (rsp_spec_generated (lib := deep_copier))).
Defined.


(** With a [copier.Copy] that assigns the fields, which has the documented contract, a
    "deep" copy of the profile shares the patterns of its rules: changing the kind in
    the copy changes it in the original. *)
Theorem field_copier_shares : exists p' h' L' a',
  DeepCopyObject (ResourceSigningProfileSpec_DeepCopyInto (H0 := field_copier)) (VRef sample_pointer) sample_heap = Some (p', h') /\
  read (TPtr ResourceSigningProfileSpec_ty) h' (VRef p') = Some (sample_contents, L') /\ 6%positive ∈ L' /\
  read (TPtr ResourceSigningProfileSpec_ty) (<[6%positive := Cell (VBase "Secret")]> h') (VRef sample_pointer) = Some (a', [1; 2; 3; 4; 5; 6]%positive) /\
  a' <> sample_contents.
Proof.
  eexists _, _, _, _. split; [vm_compute; reflexivity|]. split; [vm_compute; reflexivity|].
  split; [apply (bool_decide_unpack _); vm_compute; exact I|]. split; [vm_compute; reflexivity|]. vm_compute. discriminate.
Qed.
