(* ===== verification/Helm.v ===== *)
(** * The helm plug-in  ([shield/pkg/plugins/helm/helm.go], [helmutil.go])

    A resource installed by helm has no signature of its own: the shield looks for
    the release it belongs to, and for the chart and provenance recorded with the
    release.  This file implements the interface [HelmPlugin] of the verifiers. *)
From S2P Require Import Prelude GoStrings GoRegexp GoJson Common ReqContext Profile MapNode Diff Signing ResourceSignature SignVerifier Sign Cache GoState.
From stdpp Require Import options.

Definition releaseSecretPrefix : string := "sh.helm.release.v1".
Definition releaseSecretType : string := "helm.sh/release.v1".
Definition tempDir : string := "/tmp/".

(** [v1.Secret], of which the plug-in reads the type and the data. *)
Record Secret := mkSecret { hsec_Name : string; hsec_Type : string; hsec_Data : gmap string string }.

(** What comes from outside: [encoding/json] of secrets, releases and metadata
    (the data of a nil error), gzip, the helm packages (charts, provenance,
    manifests in the order a map gives them), HTTP, files, and the API server.
    [client_ok] is false when making a client panics; [stored_file] is what a
    temporary file holds after data was written to it. *)
Class HelmLibs := {
  chart : Type;
  chart_Metadata : chart -> option (string * string);
  json_Marshal_chart : chart -> string;
  hrm : Type;
  signatory : Type;
  gzip_ReadAll : string -> res string;
  SplitManifests : string -> list string;
  yaml_ToJSON : string -> res string;
  unstructured_name_kind : string -> res (string * string);
  loader_Load : string -> res chart;
  NewFromKeyring : string -> res signatory;
  sig_Verify : signatory -> string -> string -> option Entity * option string;
  WriteFile : string -> string -> option string;
  stored_file : string -> string -> option string;
  GetKubeConfig : res unit;
  client_ok : bool;
  list_Secrets : string -> res (list Secret);
  get_HRM : string -> string -> res hrm;
  json_Marshal_hrm : hrm -> string;
  json_Unmarshal_hrm : string -> res (option (string * string));
  json_Unmarshal_Secret : string -> res (option Secret);
  json_Marshal_Secret : Secret -> res string;
  http_Get : string -> res (Z * (string * option string));
  os_Create : string -> option string;
  path_Join : string -> string -> string;
  yamlv2_documents : string -> list (list (string * value))
}.

Section helm.
Context `{HelmLibs}.

(** [release.Release]; the configuration may be a nil map. *)
Record Release := mkRelease {
  rls_Name : string;
  rls_Namespace : string;
  rls_Manifest : string;
  rls_Chart : option chart;
  rls_Config : option (list (string * value));
}.

Class ReleaseJson := {
  json_Unmarshal_Release : string -> res (option Release);
  json_Marshal_Release : Release -> string
}.
Context `{ReleaseJson}.

Record ReleaseObject := mkReleaseObject { ro_Data : Release }.
Definition NewReleaseObject (data : Release) : ReleaseObject := mkReleaseObject data.

Record PackageInfo := mkPackageInfo { pk_FileUrl : string; pk_FilePath : string; pk_ProvUrl : string; pk_ProvPath : string }.
Record ValuesInfo := mkValuesInfo { vi_Message : string; vi_Signature : string; vi_EmptyConfig : bool }.
Record HelmInfo := mkHelmInfo { hi_ChartName : string; hi_ChartVersion : string; hi_Package : PackageInfo; hi_Values : ValuesInfo }.

(** ** Release secrets *)

Definition magicGzip : string := String (ch 31) (String (ch 139) (String (ch 8) "")).

(** [decodeRelease]: the first three bytes of the decoding buffer are read, whose
    capacity is three bytes for each four of the text. *)
Definition decodeRelease (data : string) : go (res Release) :=
  match b64_quanta (b64_strip data) with
  | None => Ret (Err "illegal base64 data")
  | Some b =>
      if Nat.ltb (slen data) 4 then Panic
      else
        let b := if HasPrefix b magicGzip then gzip_ReadAll b else Ok b in
        Ret (match b with
             | Err e => Err e
             | Ok b => match json_Unmarshal_Release b with
                       | Err e => Err e
                       | Ok (Some rls) => Ok rls
                       | Ok None => Ok (mkRelease "" "" "" None None)
                       end
             end)
  end.

Definition DecodeReleaseSecretFromRawBytes (rawBytes : string) : go (option ReleaseObject) :=
  match json_Unmarshal_Secret rawBytes with
  | Err _ => Ret None
  | Ok None => Panic
  | Ok (Some releaseSecret) =>
      let releaseString := default "" (hsec_Data releaseSecret !! "release") in
      if bool_decide (releaseString = "") then Ret None
      else
        r ← decodeRelease releaseString;
        Ret (match r with Err _ => None | Ok rls => Some (NewReleaseObject rls) end)
  end.

Definition IsReleaseSecret (kind name : string) : bool := bool_decide (kind = "Secret") && HasPrefix name releaseSecretPrefix.

(** The first manifest of a release with a kind and a name. *)
Fixpoint find_manifest (kind name : string) (manifests : list string) : option string :=
  match manifests with
  | [] => None
  | mYaml :: manifests' =>
      match yaml_ToJSON mYaml with
      | Err _ => find_manifest kind name manifests'
      | Ok mJson =>
          match unstructured_name_kind mJson with
          | Err _ => find_manifest kind name manifests'
          | Ok (n, k) => if bool_decide (n = name) && bool_decide (k = kind) then Some mJson else find_manifest kind name manifests'
          end
      end
  end.

Definition findObjNameInReleaseSecret (kind name : string) (rsec : Secret) : go (option string) :=
  match json_Marshal_Secret rsec with
  | Err _ => Ret None
  | Ok rsecBytes =>
      rls ← DecodeReleaseSecretFromRawBytes rsecBytes;
      Ret (match rls with
           | None => None
           | Some rls => find_manifest kind name (SplitManifests (rls_Manifest (ro_Data rls)))
           end)
  end.

Context `{DiffLib, FloatFmt, YamlLib}.

(** [matchWithManifest]: a nil result has no size. *)
Definition matchWithManifest (requestObject manifestObject : string) : go bool :=
  let reqNode := default emptyNode (NewFromBytes requestObject) in
  let mnfNode := default emptyNode (NewFromBytes manifestObject) in
  match FindUpdatedAndDeleted mnfNode reqNode with
  | None => Panic
  | Some diff => Ret (Nat.eqb (DiffSize diff) 0)
  end.

(** The loop over the listed secrets.  What is kept of a match is the address of
    the loop variable, so only whether there was one is known in the end. *)
Fixpoint secrets_loop (kind name rawObj : string) (items : list Secret) (found : bool) : go bool :=
  match items with
  | [] => Ret found
  | rseci :: items' =>
      if negb (bool_decide (hsec_Type rseci = releaseSecretType)) then secrets_loop kind name rawObj items' found
      else
        mnf ← findObjNameInReleaseSecret kind name rseci;
        match mnf with
        | None => secrets_loop kind name rawObj items' found
        | Some mnfObj =>
            matched ← matchWithManifest rawObj mnfObj;
            secrets_loop kind name rawObj items' (if matched : bool then true else found)
        end
  end.

Definition marshal_found (rsec : option Secret) : res (option string) :=
  match rsec with
  | None => Ok None
  | Some rsec => match json_Marshal_Secret rsec with Err e => Err e | Ok rsecBytes => Ok (Some rsecBytes) end
  end.

(** [FindReleaseSecret]; after the loop its variable holds the last item. *)
Definition FindReleaseSecret (namespace kind name rawObj : string) : go (res (option string)) :=
  match GetKubeConfig with
  | Err e => Ret (Err e)
  | Ok _ =>
      if IsReleaseSecret kind name then
        Ret (match json_Unmarshal_Secret rawObj with Err e => Err e | Ok rsec => marshal_found rsec end)
      else if negb client_ok then Panic
      else match list_Secrets namespace with
           | Err e => Ret (Err e)
           | Ok items =>
               found ← secrets_loop kind name rawObj items false;
               Ret (marshal_found (if found : bool then last items else None))
           end
  end.

(** [GetHelmReleaseMetadata]; a secret without a release is dereferenced, and so
    is the client when it could not be made. *)
Definition GetHelmReleaseMetadata (rawBytes : string) : go (res (list string)) :=
  r ← DecodeReleaseSecretFromRawBytes rawBytes;
  match r with
  | None => Panic
  | Some rlsObj =>
      let rls := ro_Data rlsObj in
      match GetKubeConfig with
      | Err _ => Panic
      | Ok _ =>
          if negb client_ok then Panic
          else Ret (match get_HRM (rls_Namespace rls) (rls_Name rls) with
                    | Err err => Err ("failed to get HelmReleaseMetadata: " +:+ err)
                    | Ok h => Ok [json_Marshal_Release rls; json_Marshal_hrm h]
                    end)
      end
  end.

(** ** Matching *)

Definition base64decode (str : string) : string := default "" (b64_quanta (b64_strip str)).

(** [MatchReleaseSecret]; [json_Marshal_node] is what [GetString] prints for
    another value than a string.  The text of the chart is compared with itself. *)
Definition MatchReleaseSecret `{!ManifestLib} (rls hrmText : string) : go bool :=
  if bool_decide (rls = "") || bool_decide (hrmText = "") then Ret false
  else match json_Unmarshal_Release rls with
  | Err _ => Ret false
  | Ok None => Panic
  | Ok (Some rlsObj) =>
      match NewFromBytes hrmText with
      | None => Ret false
      | Some hrmNode =>
          let hrmManifest := base64decode (MapNode.GetString json_Marshal_node hrmNode "spec.manifest") in
          let hrmChartTgzBytes := base64decode (MapNode.GetString json_Marshal_node hrmNode "spec.chart") in
          let hrmConfigYamlBytes := base64decode (MapNode.GetString json_Marshal_node hrmNode "spec.config") in
          if negb (bool_decide (rls_Manifest rlsObj = hrmManifest)) then Ret false
          else match stored_file "/tmp/tmp.tgz" hrmChartTgzBytes with
          | None => Ret false
          | Some file =>
              match loader_Load file with
              | Err _ => Ret false
              | Ok hrmChart =>
                  let rlsChartBytes := match rls_Chart rlsObj with Some c => json_Marshal_chart c | None => "null" end in
                  if negb (bool_decide (rlsChartBytes = rlsChartBytes)) then Ret false
                  else
                    let rlsConfigNode := NewFromMap (default [] (rls_Config rlsObj)) in
                    match NewFromYamlBytes hrmConfigYamlBytes with
                    | None => Ret false
                    | Some hrmConfigNode => Ret (match Diff rlsConfigNode hrmConfigNode with None => true | Some _ => false end)
                    end
              end
          end
      end
  end.

(** ** Provenance *)

(** [VerifyPackage]: the error of the verification is dropped. *)
Definition VerifyPackage (chartFile provFile keyringPath : string) : go (res (option Signer)) :=
  match NewFromKeyring keyringPath with
  | Err e => Ret (Err e)
  | Ok sig =>
      match (sig_Verify sig chartFile provFile).1 with
      | None => Ret (Ok None)
      | Some signedBy => match GetFirstIdentity signedBy with
                         | None => Panic
                         | Some uid => Ret (Ok (Some (mkSigner (uid_Email uid) (uid_Name uid) (uid_Comment uid))))
                         end
      end
  end.

(** The loop over the key rings: one that cannot be read is skipped. *)
Fixpoint keyrings_loop (chartFile provFile : string) (keyPathList : list string) : go (option Signer) :=
  match keyPathList with
  | [] => Ret None
  | keyringPath :: keyPathList' =>
      v ← VerifyPackage chartFile provFile keyringPath;
      match v with
      | Ok (Some signer) => Ret (Some signer)
      | _ => keyrings_loop chartFile provFile keyPathList'
      end
  end.

Definition VerifyChartAndProv (chartBytes prov : string) (keyPathList : list string) : go (bool * option Signer * string * option string) :=
  let write_error err := let msg := "Error in verifying chart file; " +:+ err in Ret (false, None, msg, Some msg) in
  match WriteFile (tempDir +:+ "chart.tgz") chartBytes with
  | Some err => write_error err
  | None =>
      match WriteFile (tempDir +:+ "chart.tgz.prov") prov with
      | Some err => write_error err
      | None =>
          signer ← keyrings_loop chartBytes prov keyPathList;
          Ret (match signer with
               | Some signer => (true, Some signer, "", None)
               | None => (false, None, "Failed to verify helm chart and its provenance.", None)
               end)
      end
  end.

(** ** Messages *)

Definition GenerateMessageFromRawObj `{!JsonLib} (rawObj filter mutableAttrs : string) : string :=
  match NewFromBytes rawObj with
  | None => ""
  | Some node =>
      let node := if bool_decide (mutableAttrs = "") then node
                  else (Mask node ((fun m => Trim m " ") <$> Split (ReplaceAll mutableAttrs (String (ch 10) "") "") ",")).1 in
      let line n := ToJson n +:+ String (ch 10) "" in
      if bool_decide (filter = "") then line node
      else foldl (fun message subNode => message +:+ line subNode) "" (k ← SplitCommaSeparatedKeys filter; MultipleSubNode node k)
  end.

Definition ParseManifest (manifest : string) : list (list (string * value)) := yamlv2_documents manifest.

(** ** Chart files *)

Definition chart_file (chartName chartVersion suffix : string) : string := chartName +:+ "-" +:+ chartVersion +:+ suffix.

(** The cache, the clock and the files of the process. *)
Record HState := mkHState { hs_cache : gmap string CachedObject; hs_now : Z; hs_files : gmap string string }.
Notation HM := (ST HState).

Definition put_file (path data : string) : HM unit := fun s => Ret (tt, mkHState (hs_cache s) (hs_now s) (<[path := data]> (hs_files s))).
Definition cached (url : string) : HM string := fun s => Ret (Cache.GetString (hs_cache s) url (hs_now s), s).
Definition set_cached (url path : string) : HM unit := fun s =>
  Ret (tt, mkHState (Cache.SetString (hs_cache s) url path None (fun _ => hs_now s) (hs_now s)) (hs_now s) (hs_files s)).

(** [DownloadFile]; a body that breaks off leaves its first part in the file. *)
Definition DownloadFile (url fpath : string) : HM (option string) :=
  match http_Get url with
  | Err e => mret (Some e)
  | Ok (StatusCode, (body, copy_err)) =>
      if negb (Z.eqb StatusCode 200) then mret (Some ("Received response is not 200 to access " +:+ url))
      else match os_Create fpath with
           | Some e => mret (Some e)
           | None => _ ← put_file fpath body; mret copy_err
           end
  end.

(** One of the two files of a chart. *)
Definition fetch_file (url path : string) : HM (option string) :=
  c ← cached url;
  if bool_decide (c = path) then mret None
  else
    err ← DownloadFile url path;
    match err with
    | Some e => mret (Some e)
    | None => _ ← set_cached url path; mret None
    end.

Definition getChartFiles (pkgFileUrl pkgProvUrl pkgFilePath pkgProvPath : string) : HM (bool * option string) :=
  e1 ← fetch_file pkgFileUrl pkgFilePath;
  match e1 with
  | Some e => mret (false, Some e)
  | None =>
      e2 ← fetch_file pkgProvUrl pkgProvPath;
      match e2 with Some e => mret (false, Some e) | None => mret (true, None) end
  end.

(** [GetPackageInfo]; a secret without a release, or a release without a chart,
    is dereferenced. *)
Definition GetPackageInfo (rawBytes chartRepo chartDir : string) : HM (res HelmInfo) :=
  r ← st_lift (DecodeReleaseSecretFromRawBytes rawBytes);
  match r with
  | None => st_panic
  | Some rlsObj =>
      let rls := ro_Data rlsObj in
      match rls_Chart rls ≫= chart_Metadata with
      | None => st_panic
      | Some (chartName, chartVersion) =>
          let pkgFileName := chart_file chartName chartVersion ".tgz" in
          let pkgProvName := chart_file chartName chartVersion ".tgz.prov" in
          let pkgFilePath := path_Join chartDir pkgFileName in
          let pkgProvPath := path_Join chartDir pkgProvName in
          let pkgFileUrl := chartRepo +:+ "/" +:+ pkgFileName in
          let pkgProvUrl := chartRepo +:+ "/" +:+ pkgProvName in
          f ← getChartFiles pkgFileUrl pkgProvUrl pkgFilePath pkgProvPath;
          mret (match (f : bool * option string).2 with
                | Some err => Err err
                | None => Ok (mkHelmInfo chartName chartVersion (mkPackageInfo pkgFileUrl pkgFilePath pkgProvUrl pkgProvPath)
                                (mkValuesInfo "" "" (match rls_Config rls with None => true | Some _ => false end)))
                end)
      end
  end.

(** ** Names of files and locations *)

Context (Getenv : string -> string).

Definition GetPackageDir : string := let packageDir := Getenv "PACKAGE_DIR" in if bool_decide (packageDir = "") then "/tmp" else packageDir.
Definition FindChartRepo (chartName chartVer : string) : string := Getenv "CHART_BASE_URL".
Definition GetHelmPackageFilePath (chartName chartVersion : string) : string :=
  path_Join GetPackageDir (chart_file chartName chartVersion ".tgz").
Definition GetHelmProvFilePath (chartName chartVersion : string) : string :=
  path_Join GetPackageDir (chart_file chartName chartVersion ".tgz.prov").
Definition GetHelmPackageURL (chartName chartVersion : string) : string :=
  FindChartRepo chartName chartVersion +:+ "/" +:+ chart_file chartName chartVersion ".tgz".
Definition GetHelmProvURL (chartName chartVersion : string) : string :=
  FindChartRepo chartName chartVersion +:+ "/" +:+ chart_file chartName chartVersion ".tgz.prov".
Definition GetHelmValuesFilePath (chartName chartVersion : string) : string :=
  path_Join GetPackageDir (chart_file chartName chartVersion "-values.yaml").
Definition GetHelmValuesSignatureFilePath (chartName chartVersion : string) : string :=
  path_Join GetPackageDir (chart_file chartName chartVersion "-values.yaml.sig").
End helm.

(** ** The interface of the verifiers *)

#[global] Instance helm_plugin `{HelmLibs, !ReleaseJson, DiffLib, FloatFmt, YamlLib, !ManifestLib} : HelmPlugin := {|
  helm_FindReleaseSecret := FindReleaseSecret;
  helm_GetHelmReleaseMetadata := GetHelmReleaseMetadata;
  helm_MatchReleaseSecret := MatchReleaseSecret;
  helm_Unmarshal_metadata := json_Unmarshal_hrm;
  helm_VerifyChartAndProv := VerifyChartAndProv |}.

(** ** Facts: the release of an object *)

Section release_facts.
Context `{HelmLibs, !ReleaseJson, DiffLib, FloatFmt, YamlLib}.

(** A listed secret is the release of an object: it holds a manifest of its kind
    and name, and the object keeps what the manifest says. *)
Definition release_matches (kind name rawObj : string) (s : Secret) : Prop :=
  hsec_Type s = releaseSecretType /\
  exists mnf, findObjNameInReleaseSecret kind name s = Ret (Some mnf) /\ matchWithManifest rawObj mnf = Ret true.

Lemma secrets_loop_true kind name rawObj items found :
  secrets_loop kind name rawObj items found = Ret true ->
  found = true \/ exists s, s ∈ items /\ release_matches kind name rawObj s.
Proof.
  revert found. induction items as [|s items IH]; intros found; cbn [secrets_loop]; [intros [= ->]; by left|].
  assert (forall f, secrets_loop kind name rawObj items f = Ret true -> f = found \/ release_matches kind name rawObj s ->
    found = true \/ exists s', s' ∈ s :: items /\ release_matches kind name rawObj s') as Hstep.
  { intros f [->|(s' & Hin & Hm)]%IH; [|right; exists s'; split; [by right|done]].
    intros [->|Hm]; [by left|]. right. exists s. split; [by left|done]. }
  case_bool_decide as Ht; cbn [negb]; [|eauto].
  destruct (findObjNameInReleaseSecret kind name s) as [[mnf|]|] eqn:Ef; cbn [mbind go_bind]; [|eauto|done].
  destruct (matchWithManifest rawObj mnf) as [[]|] eqn:Em; cbn [mbind go_bind]; [|eauto|done].
  intros Hl. eapply Hstep; [done|]. right. split; [done|]. eauto.
Qed.

(** What the loop computes on a list that can be gone through. *)
Lemma secrets_loop_found kind name rawObj items s :
  returns (secrets_loop kind name rawObj items false) = true ->
  s ∈ items -> release_matches kind name rawObj s ->
  secrets_loop kind name rawObj items false = Ret true.
Proof.
  assert (forall l f, returns (secrets_loop kind name rawObj l f) = true ->
    f = true \/ (exists s, s ∈ l /\ release_matches kind name rawObj s) -> secrets_loop kind name rawObj l f = Ret true) as Hg;
    [|intros Hr Hin Hm; apply Hg; eauto].
  clear s items. induction l as [|s l IH]; intros f; cbn [secrets_loop]; [naive_solver set_solver|].
  intros Hr Hx. case_bool_decide as Ht; cbn [negb] in *.
  - destruct (findObjNameInReleaseSecret kind name s) as [[mnf|]|] eqn:Ef; cbn [mbind go_bind] in *; [| |done].
    + destruct (matchWithManifest rawObj mnf) as [m|] eqn:Em; cbn [mbind go_bind] in *; [|done].
      apply IH; [done|]. destruct Hx as [->|(s' & [->|Hin]%elem_of_cons & Hm)]; [destruct m; by left| |right; eauto].
      destruct Hm as (_ & mnf' & He & Hm). rewrite Ef in He. simplify_eq. rewrite Em in Hm. simplify_eq. by left.
    + apply IH; [done|]. destruct Hx as [->|(s' & [->|Hin]%elem_of_cons & Hm)]; [by left| |right; eauto].
      destruct Hm as (_ & mnf & He & _). by rewrite Ef in He.
  - apply IH; [done|]. destruct Hx as [->|(s' & [->|Hin]%elem_of_cons & Hm)]; [by left| |right; eauto]. by destruct Hm.
Qed.

Lemma matchWithManifest_true rawObj mnf :
  matchWithManifest rawObj mnf = Ret true <->
  FindUpdatedAndDeleted (default emptyNode (NewFromBytes mnf)) (default emptyNode (NewFromBytes rawObj)) = Some [].
Proof.
  unfold matchWithManifest. destruct (FindUpdatedAndDeleted _ _) as [[|d l]|]; [done| |done]. split; intros Hx; by inversion Hx.
Qed.

(** C30: for an object that is not a release secret itself, the secret handed on
    is the last one of the namespace, whatever it is, as soon as one secret of the
    list is the release of the object. *)
Theorem FindReleaseSecret_gives_last namespace kind name rawObj items s b :
  GetKubeConfig = Ok tt -> client_ok = true -> list_Secrets namespace = Ok items ->
  IsReleaseSecret kind name = false ->
  last items = Some s -> json_Marshal_Secret s = Ok b ->
  FindReleaseSecret namespace kind name rawObj = Ret (Ok (Some b)) <->
  returns (secrets_loop kind name rawObj items false) = true /\ exists s', s' ∈ items /\ release_matches kind name rawObj s'.
Proof.
  intros Hk Hc Hl Hr Hs Hb. unfold FindReleaseSecret. rewrite Hk, Hr, Hc, Hl. cbn [negb].
  destruct (secrets_loop kind name rawObj items false) as [f|] eqn:El; cbn [mbind go_bind]; [|naive_solver].
  rewrite Hs. split.
  - destruct f; [|done]. intros _. split; [done|]. apply secrets_loop_true in El as [?|?]; done.
  - intros [_ (s' & Hin & Hm)]. rewrite (secrets_loop_found kind name rawObj items s') in El; [|by rewrite El|done|done].
    simplify_eq. cbn. by rewrite Hb.
Qed.

(** A request for such an object panics when the last secret of the namespace
    holds no release. *)
Theorem other_secret_last_panics `{!ManifestLib} reqc items s b :
  let raw := default "" (rc_RawObject reqc) in
  GetKubeConfig = Ok tt -> client_ok = true -> list_Secrets (rc_Namespace reqc) = Ok items ->
  IsReleaseSecret (rc_Kind reqc) (rc_Name reqc) = false ->
  last items = Some s -> json_Marshal_Secret s = Ok b -> DecodeReleaseSecretFromRawBytes b = Ret None ->
  (exists s', s' ∈ items /\ release_matches (rc_Kind reqc) (rc_Name reqc) raw s') ->
  helm_signature reqc = Panic.
Proof.
  intros raw Hk Hc Hl Hr Hs Hb Hd (s' & Hin & Hm). unfold helm_signature. cbn [helm_FindReleaseSecret helm_plugin].
  unfold FindReleaseSecret. rewrite Hk, Hr, Hc, Hl. cbn [negb]. fold raw.
  destruct (secrets_loop _ _ raw items false) as [f|] eqn:El; [|done]. cbn [mbind go_bind].
  rewrite (secrets_loop_found _ _ raw items s') in El; [|by rewrite El|done|done]. simplify_eq.
  rewrite Hs. cbn [marshal_found]. rewrite Hb. cbn [helm_GetHelmReleaseMetadata helm_plugin].
  unfold GetHelmReleaseMetadata. by rewrite Hd.
Qed.
End release_facts.

Section match_facts.
Context `{HelmLibs, !ReleaseJson, DiffLibOk, FloatFmt, YamlLib}.
#[local] Set Default Proof Using "Type*".

(** An object and the manifest of its release: identical ones have no difference
    to count and panic; a match means that the object keeps every value the
    manifest gives outside of list elements, and has something of its own. *)
Theorem matchWithManifest_correct rawObj mnf :
  let req := Ravel (default emptyNode (NewFromBytes rawObj)) in
  let man := Ravel (default emptyNode (NewFromBytes mnf)) in
  (matchWithManifest rawObj mnf = Panic <-> flat_eq man req) /\
  (matchWithManifest rawObj mnf = Ret true ->
   forall k v, man !! k = Some v -> re_match list_key_re k = false -> go_eq_nil (Some v) (req !! k) = true).
Proof.
  intros req man. split.
  - unfold matchWithManifest, FindUpdatedAndDeleted, DiffSpecificType.
    pose proof (FindDiff_None (default emptyNode (NewFromBytes mnf)) (default emptyNode (NewFromBytes rawObj)) (Some ["update"; "delete"])) as Hn.
    destruct (FindDiffBetweenNodes _ _ _); [split; [done|]; by intros Hf%Hn|]. split; [|done]. intros _. by apply Hn.
  - intros Hm%matchWithManifest_true k v Hv Hk. by eapply FindUpdatedAndDeleted_kept.
Qed.
End match_facts.

(** ** Facts: what is accepted of a release *)

Section accept_facts.
Context `{HelmLibs, !ReleaseJson, DiffLibOk, FloatFmt, YamlLib, !ManifestLib}.
#[local] Set Default Proof Using "Type*".

(** The metadata of a release match it exactly when they record its manifest,
    hold a chart that can be loaded, and record a configuration that flattens to
    the release's; the chart of the release is not compared. *)
Theorem MatchReleaseSecret_correct rls hrmText rlsObj hrmNode :
  rls <> "" -> hrmText <> "" ->
  json_Unmarshal_Release rls = Ok (Some rlsObj) -> NewFromBytes hrmText = Some hrmNode ->
  let spec key := base64decode (MapNode.GetString json_Marshal_node hrmNode key) in
  MatchReleaseSecret rls hrmText = Ret true <->
  rls_Manifest rlsObj = spec "spec.manifest" /\
  (exists file c, stored_file "/tmp/tmp.tgz" (spec "spec.chart") = Some file /\ loader_Load file = Ok c) /\
  exists config, NewFromYamlBytes (spec "spec.config") = Some config /\
    flat_eq (Ravel (NewFromMap (default [] (rls_Config rlsObj)))) (Ravel config).
Proof.
  intros Hr Hh Hj Hn spec. unfold MatchReleaseSecret. rewrite !bool_decide_false by done. cbn [orb]. rewrite Hj, Hn. cbn zeta.
  fold (spec "spec.manifest") (spec "spec.chart") (spec "spec.config").
  case_bool_decide as Hm; cbn [negb]; [|naive_solver]. destruct (stored_file _ _) as [file|] eqn:Ef; [|naive_solver].
  destruct (loader_Load file) as [c|] eqn:El; [|split; [done|]; intros (_ & (f & c & [= <-] & Hl) & _); congruence].
  rewrite bool_decide_true by done. cbn [negb]. destruct (NewFromYamlBytes _) as [config|]; [|naive_solver].
  pose proof (Diff_None (NewFromMap (default [] (rls_Config rlsObj))) config) as Hd.
  destruct (Diff _ _); split; [done| | |done].
  - intros (_ & _ & ? & [= <-] & Hf). by apply Hd in Hf.
  - intros _. split; [done|]. split; [by exists file, c|]. exists config. split; [done|]. by apply Hd.
Qed.

(** So two releases that differ in their chart only are accepted alike. *)
Theorem chart_of_release_ignored rls1 rls2 hrmText o1 o2 hrmNode :
  rls1 <> "" -> rls2 <> "" -> hrmText <> "" ->
  json_Unmarshal_Release rls1 = Ok (Some o1) -> json_Unmarshal_Release rls2 = Ok (Some o2) ->
  NewFromBytes hrmText = Some hrmNode ->
  rls_Manifest o1 = rls_Manifest o2 -> rls_Config o1 = rls_Config o2 ->
  MatchReleaseSecret rls1 hrmText = MatchReleaseSecret rls2 hrmText.
Proof using Type.
  intros Hr1 Hr2 Hh Hj1 Hj2 Hn Hm Hc. unfold MatchReleaseSecret.
  rewrite !bool_decide_false by done. cbn [orb]. rewrite Hj1, Hj2, Hn, Hm, Hc. cbn zeta.
  case_bool_decide; [|done]. destruct (stored_file _ _) as [f|]; [|done]. destruct (loader_Load f); [|done].
  by rewrite !bool_decide_true by done.
Qed.
End accept_facts.

Section provenance_facts.
Context `{HelmLibs}.

Lemma VerifyPackage_Some chartFile provFile keyring signer :
  VerifyPackage chartFile provFile keyring = Ret (Ok (Some signer)) <->
  exists sig entity uid, NewFromKeyring keyring = Ok sig /\ (sig_Verify sig chartFile provFile).1 = Some entity /\
    GetFirstIdentity entity = Some uid /\ signer = mkSigner (uid_Email uid) (uid_Name uid) (uid_Comment uid).
Proof.
  unfold VerifyPackage. destruct (NewFromKeyring keyring) as [sig|e]; [|split; [done|]; by intros (? & ? & ? & [=] & _)].
  destruct (sig_Verify sig chartFile provFile).1 as [entity|] eqn:Es;
    [|split; [done|]; intros (? & ? & ? & [= <-] & Hv & _); congruence].
  split.
  - destruct (GetFirstIdentity entity) as [uid|] eqn:Eu; [|done]. intros [= <-]. by exists sig, entity, uid.
  - intros (? & ? & uid & [= <-] & Hv & Hu & ->). rewrite Es in Hv. injection Hv as <-. by rewrite Hu.
Qed.

Lemma keyrings_loop_Some chartFile provFile ks signer :
  keyrings_loop chartFile provFile ks = Ret (Some signer) ->
  exists k, k ∈ ks /\ VerifyPackage chartFile provFile k = Ret (Ok (Some signer)).
Proof.
  induction ks as [|k ks IH]; cbn [keyrings_loop]; [done|].
  destruct (VerifyPackage chartFile provFile k) as [[[sg|]|e]|] eqn:Ev; cbn [mbind go_bind]; [| | |done].
  - intros [= ->]. exists k. split; [by left|done].
  - intros (k' & Hin & Hk)%IH. exists k'. split; [by right|done].
  - intros (k' & Hin & Hk)%IH. exists k'. split; [by right|done].
Qed.

(** A chart is accepted only for the first identity of an entity that a mounted
    key ring gives as the signer of the provenance. *)
Theorem VerifyChartAndProv_sound chartBytes prov ks signer msg err :
  VerifyChartAndProv chartBytes prov ks = Ret (true, signer, msg, err) ->
  err = None /\ exists k sig entity uid, k ∈ ks /\ NewFromKeyring k = Ok sig /\
    (sig_Verify sig chartBytes prov).1 = Some entity /\ GetFirstIdentity entity = Some uid /\
    signer = Some (mkSigner (uid_Email uid) (uid_Name uid) (uid_Comment uid)).
Proof.
  unfold VerifyChartAndProv. destruct (WriteFile _ chartBytes); [done|]. destruct (WriteFile _ prov); [done|].
  destruct (keyrings_loop chartBytes prov ks) as [[sg|]|] eqn:Ek; cbn [mbind go_bind]; [|done|done].
  intros [= <- _ <-]. split; [done|]. apply keyrings_loop_Some in Ek as (k & Hin & Hv).
  apply VerifyPackage_Some in Hv as (sig & e & uid & ? & ? & ? & ->). by exists k, sig, e, uid.
Qed.

(** [provenance.Verify] finds the signer from the provenance file, before it
    compares the recorded digest with the chart's. *)
Class ProvenanceOk := signer_of_provenance : forall sig c1 c2 p, (sig_Verify sig c1 p).1 = (sig_Verify sig c2 p).1.

Lemma keyrings_loop_chart `{!ProvenanceOk} c1 c2 prov ks : keyrings_loop c1 prov ks = keyrings_loop c2 prov ks.
Proof.
  induction ks as [|k ks IH]; [done|]. cbn [keyrings_loop]. rewrite IH.
  assert (VerifyPackage c1 prov k = VerifyPackage c2 prov k) as ->; [|done].
  unfold VerifyPackage. destruct (NewFromKeyring k) as [sig|]; [|done]. by rewrite (signer_of_provenance sig c1 c2).
Qed.

(** As the error of the verification is dropped, a signed provenance is accepted
    with any chart. *)
Theorem chart_not_bound_to_provenance `{!ProvenanceOk} c1 c2 prov ks :
  WriteFile (tempDir +:+ "chart.tgz") c1 = None -> WriteFile (tempDir +:+ "chart.tgz") c2 = None ->
  VerifyChartAndProv c1 prov ks = VerifyChartAndProv c2 prov ks.
Proof. intros H1 H2. unfold VerifyChartAndProv. by rewrite H1, H2, (keyrings_loop_chart c1 c2). Qed.
End provenance_facts.

(** ** Facts: chart files *)

Section chart_facts.
Context `{HelmLibs, !ReleaseJson}.

Lemma cached_after_set m now url path u :
  Cache.GetString (Cache.SetString m url path None (fun _ => now) now) u now =
  if decide (u = url) then path else Cache.GetString m u now.
Proof.
  unfold Cache.GetString, Cache.SetString, Cache.Get, Set_. case_decide as Hu.
  - subst u. rewrite lookup_insert_eq. unfold after, NewCachedObject. cbn [co_expired default].
    assert (0 <= defaultCacheDuration)%Z by done. by rewrite (proj2 (Z.ltb_ge _ _)) by lia.
  - rewrite lookup_insert_ne, lookup_clearExpired by done. destruct (m !! u) as [o|]; [|done].
    by destruct (after now o) eqn:E; [|rewrite E].
Qed.

(** A file that is there is the cached one, or a complete response was stored
    under its path and recorded; other entries of the cache stay. *)
Lemma fetch_file_None url path s s' :
  fetch_file url path s = Ret (None, s') ->
  hs_now s' = hs_now s /\
  (forall u, Cache.GetString (hs_cache s') u (hs_now s') =
     if decide (u = url) then path else Cache.GetString (hs_cache s) u (hs_now s)).
Proof.
  unfold fetch_file. rewrite ST_bind_Ret. intros (c & s1 & [= <- <-] & Hf). case_bool_decide as Hc.
  { injection Hf as <-. split; [done|]. intros u. case_decide; [by subst|done]. }
  apply ST_bind_Ret in Hf as ([e|] & s1 & Hd & Hf); [done|].
  assert (hs_cache s1 = hs_cache s /\ hs_now s1 = hs_now s) as [Hs1 Hn1].
  { unfold DownloadFile in Hd. destruct (http_Get url) as [[code [body err]]|]; [|by inversion Hd].
    destruct (negb (Z.eqb code 200)); [by inversion Hd|]. destruct (os_Create path); [by inversion Hd|].
    by injection Hd as _ <-. }
  injection Hf as <-. cbn. rewrite Hs1, Hn1. split; [done|]. intros u. apply cached_after_set.
Qed.

Lemma fetch_file_again url path s :
  Cache.GetString (hs_cache s) url (hs_now s) = path -> fetch_file url path s = Ret (None, s).
Proof. intros Hc. unfold fetch_file, mbind, ST_bind, cached. by rewrite bool_decide_true. Qed.

Lemma getChartFiles_again fu pu fp pp s s' b :
  fu <> pu -> getChartFiles fu pu fp pp s = Ret ((b, None), s') ->
  b = true /\ getChartFiles fu pu fp pp s' = Ret ((true, None), s').
Proof.
  intros Hne. unfold getChartFiles at 1. rewrite ST_bind_Ret. intros ([e|] & s1 & H1 & Hf); [done|].
  apply ST_bind_Ret in Hf as ([e|] & s2 & H2 & Hf); [done|]. injection Hf as <- <-.
  apply fetch_file_None in H1 as [_ Hc1]. apply fetch_file_None in H2 as [_ Hc2]. split; [done|].
  unfold getChartFiles. rewrite (ST_bind_run _ _ s2 None s2); [rewrite (ST_bind_run _ _ s2 None s2); [done|]|].
  - apply fetch_file_again. by rewrite Hc2, decide_True.
  - apply fetch_file_again. by rewrite Hc2, decide_False, Hc1, decide_True.
Qed.

(** The files of a chart are fetched once per lifetime of the cache: after a call
    that gave the package of a release, the same call gives it again and changes
    nothing. *)
Theorem GetPackageInfo_again raw repo dir s s' info :
  GetPackageInfo raw repo dir s = Ret (Ok info, s') -> GetPackageInfo raw repo dir s' = Ret (Ok info, s').
Proof.
  unfold GetPackageInfo. rewrite ST_bind_Ret. intros (r & s1 & [Hd ->]%st_lift_Ret & Hg).
  rewrite (ST_bind_run _ _ s' r s') by by apply st_lift_Ret.
  destruct r as [rlsObj|]; [|done]. destruct (rls_Chart _ ≫= chart_Metadata) as [[name version]|]; [|done].
  apply ST_bind_Ret in Hg as ([b [e|]] & s1 & Hf & Hg); injection Hg as Hg <-; [done|].
  apply getChartFiles_again in Hf as [-> Hf]; [rewrite (ST_bind_run _ _ s1 _ s1 Hf); by subst info|].
  intros Heq%(f_equal slen). unfold chart_file in Heq. rewrite !slen_app in Heq. cbn in Heq. lia.
Qed.
End chart_facts.

(** ** Concrete instances: a namespace with a release and a secret after it *)

Definition web_object (extra : string) : string :=
  let q := quote in
  "{" +:+ q "kind" +:+ ":" +:+ q "ConfigMap" +:+ "," +:+ q "metadata" +:+ ":{" +:+ extra +:+ q "name" +:+ ":" +:+ q "cm" +:+ "}}".
Definition web_request : ReqContext :=
  mkReqContext "Namespaced" false (Some (web_object (quote "uid" +:+ ":" +:+ quote "7" +:+ ","))) None "" "uid" "secure-ns" "cm" "" "v1" "ConfigMap"
    "CREATE" sample_meta sample_meta "" "" "" "bob" [] "" "" "".

Definition web_secret : Secret := mkSecret "release" releaseSecretType {["release" := "e3dlYn0="]}.
Definition token_secret : Secret := mkSecret "token" "Opaque" {["token" := "dA=="]}.

Definition sample_helm_libs : HelmLibs := {|
  chart := string;
  chart_Metadata c := Some (c, "1.0");
  json_Marshal_chart c := c;
  hrm := string;
  signatory := string;
  gzip_ReadAll _ := Err "gzip: invalid header";
  SplitManifests m := [m];
  yaml_ToJSON m := Ok m;
  unstructured_name_kind _ := Ok ("cm", "ConfigMap");
  loader_Load _ := Ok "web";
  NewFromKeyring k := if bool_decide (k = "/keyring-a/pgp/pubring.gpg") then Ok k else Err "no such file";
  sig_Verify _ c p := (if bool_decide (p = "prov") then Some alice_entity else None,
                       if bool_decide (c = "chart") then None else Some "sha256 sum does not match");
  WriteFile _ _ := None;
  stored_file _ data := Some data;
  GetKubeConfig := Ok tt;
  client_ok := true;
  list_Secrets ns := if bool_decide (ns = "secure-ns") then Ok [web_secret; token_secret] else Ok [];
  get_HRM _ _ := Ok "hrm";
  json_Marshal_hrm h := h;
  json_Unmarshal_hrm _ := Ok (Some ("chart", "prov"));
  json_Unmarshal_Secret s := if bool_decide (s = "release") then Ok (Some web_secret)
                             else if bool_decide (s = "token") then Ok (Some token_secret) else Err "invalid character";
  json_Marshal_Secret s := Ok (hsec_Name s);
  http_Get _ := Ok (200%Z, ("body", None));
  os_Create _ := None;
  path_Join a b := a +:+ "/" +:+ b;
  yamlv2_documents _ := [] |}.

Section samples.
#[local] Existing Instances sample_helm_libs sample_diff sample_diff_ok sample_float sample_yaml sample_manifest.

Definition web_release (c : string) : Release := mkRelease "web" "secure-ns" (web_object "") (Some (c : chart)) None.
Definition sample_release_json : ReleaseJson := {|
  json_Unmarshal_Release s := if bool_decide (s = "{web}") then Ok (Some (web_release "web"))
                              else if bool_decide (s = "{evil}") then Ok (Some (web_release "evil")) else Err "invalid character";
  json_Marshal_Release rls := "{" +:+ rls_Name rls +:+ "}" |}.
#[local] Existing Instance sample_release_json.

Lemma web_matches : release_matches "ConfigMap" "cm" (default "" (rc_RawObject web_request)) web_secret.
Proof. split; [done|]. exists (web_object ""). split; vm_compute; reflexivity. Qed.

Lemma FindReleaseSecret_gives_last_witness :
  FindReleaseSecret "secure-ns" "ConfigMap" "cm" (default "" (rc_RawObject web_request)) = Ret (Ok (Some "token")).
Proof.
  refine (proj2 (FindReleaseSecret_gives_last "secure-ns" "ConfigMap" "cm" (default "" (rc_RawObject web_request))
           [web_secret; token_secret] token_secret "token" _ _ _ _ _ _) _); [reflexivity..|].
  split; [vm_compute; reflexivity|]. exists web_secret. split; [left|apply web_matches].
Defined.

Lemma other_secret_last_panics_witness : helm_signature web_request = Panic.
Proof.
  apply (other_secret_last_panics web_request [web_secret; token_secret] token_secret "token"); [reflexivity..|].
  exists web_secret. split; [left|apply web_matches].
Defined.

(** The object as it is in the manifest. *)
Example same_as_manifest_panics : matchWithManifest (web_object "") (web_object "") = Panic.
Proof. vm_compute. reflexivity. Qed.

(** Metadata that record the manifest. *)
Definition web_metadata : string :=
  let q := quote in
  "{" +:+ q "spec" +:+ ":{" +:+ q "manifest" +:+ ":" +:+
  q "eyJraW5kIjoiQ29uZmlnTWFwIiwibWV0YWRhdGEiOnsibmFtZSI6ImNtIn19" +:+ "," +:+ q "config" +:+ ":" +:+ q "e30=" +:+ "}}".
Definition web_metadata_node : Node := default emptyNode (NewFromBytes web_metadata).

Lemma MatchReleaseSecret_correct_witness : MatchReleaseSecret "{web}" web_metadata = Ret true.
Proof.
  refine (proj2 (MatchReleaseSecret_correct "{web}" web_metadata (web_release "web") web_metadata_node _ _ _ _) _);
    [discriminate|discriminate|reflexivity|vm_compute; reflexivity|].
  split; [vm_compute; reflexivity|]. split; [eexists _, _; split; vm_compute; reflexivity|].
  exists (NMap []). split; [vm_compute; reflexivity|]. intros k. vm_compute. done.
Defined.

Lemma chart_of_release_ignored_witness : MatchReleaseSecret "{evil}" web_metadata = MatchReleaseSecret "{web}" web_metadata.
Proof.
  apply (chart_of_release_ignored "{evil}" "{web}" web_metadata (web_release "evil") (web_release "web") web_metadata_node);
    vm_compute; congruence.
Defined.

#[local] Instance sample_provenance_ok : ProvenanceOk.
Proof. done. Qed.

Lemma chart_not_bound_to_provenance_witness :
  VerifyChartAndProv "other" "prov" ["/keyring-a/pgp/pubring.gpg"] = VerifyChartAndProv "chart" "prov" ["/keyring-a/pgp/pubring.gpg"] /\
  (sig_Verify "/keyring-a/pgp/pubring.gpg" "other" "prov").2 <> None.
Proof.
  split; [|done].
  apply (chart_not_bound_to_provenance "other" "chart" "prov" ["/keyring-a/pgp/pubring.gpg"]); reflexivity.
Defined.

(** The other chart is accepted under the name of the signer. *)
Example other_chart_accepted :
  VerifyChartAndProv "other" "prov" ["/keyring-a/pgp/pubring.gpg"] = Ret (true, Some (mkSigner "alice@example.com" "Alice" ""), "", None).
Proof. vm_compute. reflexivity. Qed.

Lemma GetPackageInfo_again_witness :
  let start := mkHState ∅ 0 ∅ in
  match GetPackageInfo "release" "repo" "dir" start with
  | Ret (Ok info, s) => hs_files s !! "dir/web-1.0.tgz" = Some "body" /\ GetPackageInfo "release" "repo" "dir" s = Ret (Ok info, s)
  | _ => False
  end.
Proof.
  intros start. destruct (GetPackageInfo "release" "repo" "dir" start) as [[[info|] s]|] eqn:E.
  - split; [|exact (GetPackageInfo_again "release" "repo" "dir" start s info E)].
    vm_compute in E. injection E as _ <-. vm_compute. reflexivity.
  - vm_compute in E. discriminate.
  - vm_compute in E. discriminate.
Defined.
End samples.
