(* ===== verification/Logger.v ===== *)
(** * Console loggers  ([shield/pkg/util/logger/logger.go])

    A process-wide logger for simple messages, whose level every request sets for
    itself, and the loggers of single servers. *)
From S2P Require Import Prelude GoStrings Common ReqContext Profile ShieldConfig.
From stdpp Require Import options.

(** ** Data *)

(** The levels of logrus, from the most severe one. *)
Definition PanicLevel : nat := 0.
Definition FatalLevel : nat := 1.
Definition ErrorLevel : nat := 2.
Definition WarnLevel : nat := 3.
Definition InfoLevel : nat := 4.
Definition DebugLevel : nat := 5.
Definition TraceLevel : nat := 6.

Record LoggerConfig := mkLoggerConfig { lrc_Level : string; lrc_Format : string; lrc_FileDest : string }.

Inductive output := Stderr | Stdout | LogFile (path : string).

(** [log.Logger]: format, level, where it writes, and what it wrote. *)
Record Logger := mkLogger { lgr_JSON : bool; lgr_Level : nat; lgr_Out : output; lgr_Lines : list (nat * string) }.

(** ** Operations *)

(** [log.New], [Logger.SetLevel] and [Logger.Log]: a message is written when its
    level is enabled. *)
Definition log_New : Logger := mkLogger false InfoLevel Stderr [].
Definition SetLevel (l : Logger) (level : nat) : Logger := mkLogger (lgr_JSON l) level (lgr_Out l) (lgr_Lines l).
Definition set_Out (l : Logger) (out : output) : Logger := mkLogger (lgr_JSON l) (lgr_Level l) out (lgr_Lines l).
Definition log_at (level : nat) (l : Logger) (msg : string) : Logger :=
  if Nat.leb level (lgr_Level l) then mkLogger (lgr_JSON l) (lgr_Level l) (lgr_Out l) (lgr_Lines l ++ [(level, msg)]) else l.

(** [init] of the package. *)
Definition simpleLogger : Logger := mkLogger true InfoLevel Stderr [].

Definition Error (l : Logger) (msg : string) : Logger := log_at ErrorLevel l msg.
Definition Warn (l : Logger) (msg : string) : Logger := log_at WarnLevel l msg.
Definition Info (l : Logger) (msg : string) : Logger := log_at InfoLevel l msg.
Definition Debug (l : Logger) (msg : string) : Logger := log_at DebugLevel l msg.
Definition Trace (l : Logger) (msg : string) : Logger := log_at TraceLevel l msg.

(** [ShieldConfig.LoggerConfig] *)
Definition ShieldConfig_LoggerConfig (ec : ShieldConfig) : LoggerConfig :=
  let lc := LogConfig ec in mkLoggerConfig (lg_LogLevel lc) (lg_ConsoleLogFormat lc) (lg_ConsoleLogFile lc).

Section levels.
Context `{Logrus}.

(** A level that cannot be read leaves the logger as it is. *)
Definition SetSingletonLoggerLevel (lvlStr : string) (l : Logger) : Logger :=
  match ParseLevel lvlStr with None => l | Some lvl => SetLevel l lvl end.

(** [NewLogger]; [open_error] is the error of opening a file for appending. *)
Definition NewLogger (open_error : string -> option string) (conf : LoggerConfig) : Logger :=
  let logger := mkLogger (bool_decide (lrc_Format conf = "json")) (lgr_Level log_New) (lgr_Out log_New) [] in
  let '(logger, logLevel) :=
    if bool_decide (lrc_Level conf = "") then (logger, InfoLevel)
    else match ParseLevel (lrc_Level conf) with
         | None => (Info logger "Failed to parse log level, using info level", InfoLevel)
         | Some lvl => (logger, lvl)
         end in
  let logger := SetLevel logger logLevel in
  if bool_decide (lrc_FileDest conf = "") then set_Out logger Stdout
  else match open_error (lrc_FileDest conf) with
       | None => set_Out logger (LogFile (lrc_FileDest conf))
       | Some _ => Info logger "Failed to log to file, using default stderr"
       end.

(** The logger of the process and the one a handler was given, of whom
    [requestLog] is an entry. *)
Record Loggers := mkLoggers { lgs_simple : Logger; lgs_server : Logger }.

(** [Handler.logEntry] and [Handler.logExit]; a level that cannot be read is 0. *)
Definition entry_loggers (config : ShieldConfig) (reqc : ReqContext) (l : Loggers) : go Loggers :=
  e ← ConsoleLogEnabled config reqc;
  let '(ok, levelStr) := e in
  Ret (if ok : bool then
         mkLoggers (SetSingletonLoggerLevel levelStr (lgs_simple l))
           (Trace (SetLevel (lgs_server l) (default PanicLevel (ParseLevel levelStr))) "New Admission Request Received")
       else l).
Definition exit_loggers (config : ShieldConfig) (reqc : ReqContext) (l : Loggers) : go Loggers :=
  e ← ConsoleLogEnabled config reqc;
  let '(ok, _) := e in
  Ret (if ok : bool then
         mkLoggers (SetSingletonLoggerLevel (default "" (lg_LogLevel <$> cfg_Log config)) (lgs_simple l))
           (Trace (lgs_server l) "New Admission Request Sent")
       else l).
End levels.

(** ** Facts *)

(** [ParseLevel] reads what [Level.String] prints, and knows the level [error]. *)
Class LogrusOk `{Logrus} : Prop := {
  level_printed n : n <= TraceLevel -> ParseLevel (Level_String n) = Some n;
  level_known s n : ParseLevel s = Some n -> n <= TraceLevel;
  level_error : ParseLevel "error" = Some ErrorLevel
}.

Section level_facts.
Context `{LogrusOk}.
#[local] Set Default Proof Using "Type*".

Lemma GetGreaterLevel_valid a b : exists n, ParseLevel (GetGreaterLevel a b) = Some n /\
  (forall m, ParseLevel (if bool_decide (a = "") then "error" else a) = Some m -> m <= n).
Proof.
  unfold GetGreaterLevel. set (a' := if bool_decide (a = "") then _ else _). set (b' := if bool_decide (b = "") then _ else _).
  destruct (ParseLevel a') as [la|] eqn:Ea, (ParseLevel b') as [lb|] eqn:Eb; cbn [default from_option id].
  - pose proof (level_known _ _ Ea). pose proof (level_known _ _ Eb). destruct (Nat.ltb_spec lb la).
    + exists la. rewrite level_printed by done. split; [done|]. by intros ? [= <-].
    + exists lb. rewrite level_printed by done. split; [done|]. by intros ? [= <-].
  - pose proof (level_known _ _ Ea). destruct (Nat.ltb_spec 0 la).
    + exists la. rewrite level_printed by done. split; [done|]. by intros ? [= <-].
    + exists 0. rewrite level_printed by (unfold TraceLevel; lia). split; [done|]. by intros ? [= <-].
  - pose proof (level_known _ _ Eb). destruct (Nat.ltb_spec lb 0); [lia|]. exists lb. rewrite level_printed by done. by split.
  - exists ErrorLevel. split; [apply level_error|done].
Qed.

(** A request never hides messages that the configured level shows, in either
    logger. *)
Theorem entry_shows_configured config reqc lc l l' n :
  cfg_Log config = Some lc -> lg_LogLevel lc <> "" -> ParseLevel (lg_LogLevel lc) = Some n ->
  n <= lgr_Level (lgs_simple l) -> n <= lgr_Level (lgs_server l) -> entry_loggers config reqc l = Ret l' ->
  n <= lgr_Level (lgs_simple l') /\ n <= lgr_Level (lgs_server l').
Proof.
  intros Hlc Hne Hn Hl Hs. unfold entry_loggers, ConsoleLogEnabled. rewrite Hlc. destruct (lg_ConsoleLog lc) as [sc|]; [|done].
  destruct (IsInScope sc reqc) as [enabled level]. cbn. intros [= <-]. destruct enabled; [|done].
  destruct (GetGreaterLevel_valid (lg_LogLevel lc) level) as (m & Hm & Hle). unfold SetSingletonLoggerLevel. rewrite Hm.
  assert (n <= m) by (apply Hle; by rewrite bool_decide_false). cbn [lgs_simple lgs_server]. split; [done|].
  unfold Trace, log_at. by destruct (Nat.leb _ _).
Qed.

(** After a request the level of the process is the configured one again, when
    that one can be read; otherwise it stays at the level of the request. *)
Theorem exit_restores_level config reqc lc sc l l' :
  cfg_Log config = Some lc -> lg_ConsoleLog lc = Some sc -> (IsInScope sc reqc).1 = true ->
  (x ← entry_loggers config reqc l; exit_loggers config reqc x) = Ret l' ->
  (forall n, ParseLevel (lg_LogLevel lc) = Some n -> lgr_Level (lgs_simple l') = n) /\
  (ParseLevel (lg_LogLevel lc) = None ->
   Some (lgr_Level (lgs_simple l')) = ParseLevel (GetGreaterLevel (lg_LogLevel lc) (IsInScope sc reqc).2)).
Proof.
  intros Hlc Hsc Hin. unfold entry_loggers, exit_loggers, ConsoleLogEnabled. rewrite Hlc, Hsc.
  destruct (IsInScope sc reqc) as [enabled level]. cbn in Hin |- *. subst enabled. cbn. intros [= <-].
  destruct (GetGreaterLevel_valid (lg_LogLevel lc) level) as (m & Hm & _). unfold SetSingletonLoggerLevel. cbn [lgs_simple].
  rewrite Hm. destruct (ParseLevel (lg_LogLevel lc)) as [k|]; cbn; [|by split]. split; [by intros ? [= <-]|done].
Qed.
End level_facts.

(** ** Concrete instance: the level names of logrus in lower case *)

Definition level_names : list string := ["panic"; "fatal"; "error"; "warning"; "info"; "debug"; "trace"].
Definition named_levels : Logrus := {|
  ParseLevel s := fst <$> list_find (eq s) level_names;
  Level_String n := default "unknown" (level_names !! n) |}.

Lemma named_levels_ok : @LogrusOk named_levels.
Proof.
  split.
  - intros n Hn. unfold TraceLevel in Hn. do 7 (destruct n as [|n]; [vm_compute; reflexivity|]). lia.
  - intros s n Hs. cbn [ParseLevel named_levels] in Hs. destruct (list_find (eq s) level_names) as [[i x]|] eqn:E; [|done].
    injection Hs as <-.
    apply list_find_Some in E as (Hi & _). apply lookup_lt_Some in Hi. cbn in Hi. unfold TraceLevel. lia.
  - vm_compute. reflexivity.
Qed.

Section samples.
#[local] Existing Instances named_levels named_levels_ok.

Definition log_everything : LogScopeConfig :=
  mkLogScopeConfig true [mkLogRequestPattern (mkRequestPatternWithNamespace None (Some ("*"))) "trace"] [].
Definition log_config (level : string) : ShieldConfig :=
  mkShieldConfig None (Some (mkLoggingScopeConfig level false false false (Some log_everything) None "" "" "" 0)) None [] [] EnforceMode [] None
    "" "" "" [] "" "" "" None "" "" "" "" [].
Definition log_request : ReqContext :=
  mkReqContext "Namespaced" false (Some "{}") None "" "uid" "ns" "cm" "" "v1" "ConfigMap" "CREATE" sample_meta sample_meta
    "" "" "cm" "user" [] "" "" "".
Definition after_request (level : string) : go nat :=
  x ← entry_loggers (log_config level) log_request (mkLoggers simpleLogger log_New);
  y ← exit_loggers (log_config level) log_request x;
  Ret (lgr_Level (lgs_simple y)).

(** The level goes back to the configured one; when none is configured, one
    request that asked for traces leaves the logger at that level. *)
Example level_restored : after_request "info" = Ret InfoLevel.
Proof. vm_compute. reflexivity. Qed.
Example level_stays_verbose : after_request "" = Ret TraceLevel.
Proof. vm_compute. reflexivity. Qed.
End samples.
