(* ===== verification/ContextLog.v ===== *)
(** * The context log  ([shield/pkg/util/logger/context.go])

    Every decision is appended, as one line, to a file that other containers of the
    pod read.  A file over its size limit is removed before the next line is
    written.  Handlers run in goroutines of their own and share nothing but the
    file, so beside the functions of the source this file models their system
    calls one by one, and any interleaving of them. *)
From S2P Require Import Prelude GoStrings ShieldConfig Signing GoState.
From stdpp Require Import options.

(** ** Files

    A directory names inodes; a removed file keeps its inode for those who have
    opened it. *)
Record fs := mkFs { fs_dir : gmap string nat; fs_data : gmap nat string; fs_next : nat }.

Definition inode (s : fs) (i : nat) : string := default "" (fs_data s !! i).
Definition content (s : fs) (path : string) : string :=
  match fs_dir s !! path with Some i => inode s i | None => "" end.

(** [os.OpenFile] with [O_CREATE]. *)
Definition open_create (path : string) (s : fs) : nat * fs :=
  match fs_dir s !! path with
  | Some i => (i, s)
  | None => (fs_next s, mkFs (<[path := fs_next s]> (fs_dir s)) (<[fs_next s := ""]> (fs_data s)) (S (fs_next s)))
  end.
Definition unlink (path : string) (s : fs) : fs := mkFs (delete path (fs_dir s)) (fs_data s) (fs_next s).
(** A write to a file opened with [O_APPEND] goes to its end. *)
Definition append (i : nat) (text : string) (s : fs) : fs := mkFs (fs_dir s) (<[i := inode s i +:+ text]> (fs_data s)) (fs_next s).

(** How a system call ends; one that writes may break off after some bytes. *)
Inductive outcome := CallOk | CallFails (err : string) (written : nat).

(** ** Data *)

Record ContextLoggerConfig := mkContextLoggerConfig { clc_Enabled : bool; clc_File : string; clc_LimitSize : Z }.
Record ContextLogger := mkContextLogger { cl_enabled : bool; cl_file : string; cl_limitSize : Z }.

Definition InitContextLogger (config : ContextLoggerConfig) : ContextLogger :=
  mkContextLogger (clc_Enabled config) (clc_File config) (clc_LimitSize config).

(** [ShieldConfig.ContextLoggerConfig]; [LogConfig] fills the scope in. *)
Definition ShieldConfig_ContextLoggerConfig (ec : ShieldConfig) : ContextLoggerConfig :=
  let lc := LogConfig ec in
  mkContextLoggerConfig (match lg_ContextLog lc with Some sc => lsc_Enabled sc | None => false end)
    (lg_ContextLogFile lc) (lg_ContextLogRotateSize lc).

Definition newline : string := String (ascii_of_nat 10) "".

(** ** The functions of the source

    The files, and how many system calls were made: how the next one ends is
    given by [sys].  What a failed log leaves is a warning. *)
Record LState := mkLState { ls_fs : fs; ls_calls : nat; ls_warnings : list string }.
Notation LM := (ST LState).

Section functions.
Context (sys : nat -> outcome).

(** One system call. *)
Definition syscall {A} (f : fs -> res A * fs) (on_failure : nat -> fs -> fs) : LM (res A) := fun s =>
  match sys (ls_calls s) with
  | CallOk => let '(r, s') := f (ls_fs s) in Ret (r, mkLState s' (S (ls_calls s)) (ls_warnings s))
  | CallFails err n => Ret (Err err, mkLState (on_failure n (ls_fs s)) (S (ls_calls s)) (ls_warnings s))
  end.

Definition OpenFile (path : string) : LM (res nat) :=
  syscall (fun s => let '(i, s') := open_create path s in (Ok i, s')) (fun _ s => s).
Definition Stat_Size (f : nat) : LM (res Z) := syscall (fun s => (Ok (Z.of_nat (slen (inode s f))), s)) (fun _ s => s).
Definition os_Remove (path : string) : LM (res unit) :=
  syscall (fun s => match fs_dir s !! path with Some _ => (Ok tt, unlink path s) | None => (Err "no such file or directory", s) end)
    (fun _ s => s).
Definition WriteString (f : nat) (line : string) : LM (res unit) :=
  syscall (fun s => (Ok tt, append f line s)) (fun n s => append f (str_take n line) s).

Definition sizeCheckAndRotate (cxLogger : ContextLogger) : LM (option string) :=
  f ← OpenFile (cl_file cxLogger);
  match f with
  | Err err => mret (Some err)
  | Ok f =>
      size ← Stat_Size f;
      match size with
      | Err err => mret (Some err)
      | Ok size =>
          if Z.ltb (cl_limitSize cxLogger) size then
            r ← os_Remove (cl_file cxLogger);
            mret (match r with Err err => Some err | Ok _ => None end)
          else mret None
      end
  end.

Definition writeToFile (cxLogger : ContextLogger) (logBytes : string) : LM (option string) :=
  err ← sizeCheckAndRotate cxLogger;
  match err with
  | Some err => mret (Some err)
  | None =>
      f ← OpenFile (cl_file cxLogger);
      match f with
      | Err err => mret (Some err)
      | Ok f =>
          r ← WriteString f (logBytes +:+ newline);
          mret (match r with Err err => Some err | Ok _ => None end)
      end
  end.

Definition warn (err : string) : LM unit := fun s => Ret (tt, mkLState (ls_fs s) (ls_calls s) (ls_warnings s ++ [err])).

Definition SendLog (cxLogger : ContextLogger) (logBytes : string) : LM unit :=
  if negb (cl_enabled cxLogger) then mret tt
  else
    err ← writeToFile cxLogger logBytes;
    match err with Some err => warn err | None => mret tt end.
End functions.

(** ** System calls one by one

    [call] is the next system call of a goroutine in [writeToFile]. *)
Inductive pc :=
| PCheck
| PStat (f : nat)
| PRemove
| POpen
| PWrite (f : nat)
| PDone (err : option string).

Definition call (cxLogger : ContextLogger) (logBytes : string) (o : outcome) (s : fs) (p : pc) : fs * pc :=
  match o with
  | CallFails err n =>
      (match p with PWrite f => append f (str_take n (logBytes +:+ newline)) s | _ => s end, PDone (Some err))
  | CallOk =>
      match p with
      | PCheck => let '(f, s') := open_create (cl_file cxLogger) s in (s', PStat f)
      | PStat f => (s, if Z.ltb (cl_limitSize cxLogger) (Z.of_nat (slen (inode s f))) then PRemove else POpen)
      | PRemove => match fs_dir s !! cl_file cxLogger with
                   | Some _ => (unlink (cl_file cxLogger) s, POpen)
                   | None => (s, PDone (Some "no such file or directory"))
                   end
      | POpen => let '(f, s') := open_create (cl_file cxLogger) s in (s', PWrite f)
      | PWrite f => (append f (logBytes +:+ newline) s, PDone None)
      | PDone err => (s, PDone err)
      end
  end.

Definition is_done (p : pc) : bool := match p with PDone _ => true | _ => false end.

(** Running one goroutine alone; six calls are enough. *)
Fixpoint run_calls (sys : nat -> outcome) (cxLogger : ContextLogger) (logBytes : string) (fuel n : nat) (s : fs) (p : pc)
  : nat * fs * pc :=
  match fuel with
  | 0 => (n, s, p)
  | S fuel => if is_done p then (n, s, p)
              else let '(s', p') := call cxLogger logBytes (sys n) s p in run_calls sys cxLogger logBytes fuel (S n) s' p'
  end.

(** ** Goroutines

    A handler that has sent its record may go on with another request. *)
Record goroutine := mkGoroutine { g_line : string; g_pc : pc }.
Record system := mkSystem { sy_fs : fs; sy_gs : list goroutine; sy_sent : list string }.

Section interleaving.
Context (cxLogger : ContextLogger) (may : outcome -> Prop) (max_len : nat).

Inductive lstep : system -> system -> Prop :=
| step_call s gs sent k g o s' p' :
    gs !! k = Some g -> is_done (g_pc g) = false -> may o ->
    call cxLogger (g_line g) o s (g_pc g) = (s', p') ->
    lstep (mkSystem s gs sent) (mkSystem s' (<[k := mkGoroutine (g_line g) p']> gs) sent)
| step_next s gs sent k g line :
    gs !! k = Some g -> is_done (g_pc g) = true -> slen line <= max_len ->
    lstep (mkSystem s gs sent) (mkSystem s (<[k := mkGoroutine line PCheck]> gs) (sent ++ [line])).

(** No goroutine has begun. *)
Definition initial (y : system) : Prop :=
  Forall (fun g => is_done (g_pc g) = true /\ slen (g_line g) <= max_len) (sy_gs y).
End interleaving.

(** ** Facts: a goroutine alone *)

Lemma inode_append i t s j : inode (append i t s) j = if decide (j = i) then inode s i +:+ t else inode s j.
Proof.
  unfold inode, append. cbn. case_decide as Hj; [subst; by rewrite lookup_insert_eq|by rewrite lookup_insert_ne].
Qed.

(** A file is empty when it is made, and others stay as they are. *)
Lemma open_create_spec path s f s' :
  open_create path s = (f, s') ->
  fs_dir s' !! path = Some f /\ content s' path = content s path /\ inode s' f = content s path /\
  (fs_dir s !! path = Some f /\ s' = s \/
   fs_dir s !! path = None /\ f = fs_next s /\ fs_dir s' = <[path := f]> (fs_dir s) /\
   fs_next s' = S (fs_next s) /\ forall j, j <> f -> inode s' j = inode s j).
Proof.
  unfold open_create, content. destruct (fs_dir s !! path) as [i|] eqn:E; intros [= <- <-]; [rewrite !E; do 3 (split; [done|]); by left|].
  cbn. rewrite lookup_insert_eq. unfold inode at 1 2. cbn. rewrite lookup_insert_eq. do 3 (split; [done|]).
  right. do 4 (split; [done|]). intros j Hj. unfold inode. cbn. by rewrite lookup_insert_ne.
Qed.

Ltac calls := cbn [run_calls is_done call ls_calls ls_fs ls_warnings].

(** The calls of [writeToFile] in their order are those of a goroutine. *)
Theorem writeToFile_calls sys cxLogger logBytes n s w :
  match run_calls sys cxLogger logBytes 6 n s PCheck with
  | (n', s', PDone err) => writeToFile sys cxLogger logBytes (mkLState s n w) = Ret (err, mkLState s' n' w)
  | _ => False
  end.
Proof.
  unfold writeToFile, sizeCheckAndRotate, OpenFile, Stat_Size, os_Remove, WriteString, syscall, mbind, ST_bind, mret, ST_ret.
  calls. destruct (sys n) as [|e0 k0]; calls; [|done]. destruct (open_create _ s) as [f s1]. calls.
  destruct (sys (S n)) as [|e1 k1]; calls; [|done]. destruct (Z.ltb _ _); calls.
  - destruct (sys (S (S n))) as [|e2 k2]; calls; [|done]. destruct (fs_dir s1 !! _); calls; [|done].
    destruct (sys (S (S (S n)))) as [|e3 k3]; calls; [|done]. destruct (open_create _ (unlink _ s1)) as [f' s2]. calls.
    destruct (sys (S (S (S (S n))))); calls; done.
  - destruct (sys (S (S n))) as [|e3 k3]; calls; [|done]. destruct (open_create _ s1) as [f' s2]. calls.
    destruct (sys (S (S (S n)))); calls; done.
Qed.

(** Reference: a log is the list of its lines; a file over the limit is emptied
    first. *)
Definition unlines (ls : list string) : string := foldr (fun l r => l +:+ newline +:+ r) "" ls.
Definition log_append (limit : Z) (ls : list string) (line : string) : list string :=
  if Z.ltb limit (Z.of_nat (slen (unlines ls))) then [line] else ls ++ [line].

Lemma unlines_app a b : unlines (a ++ b) = unlines a +:+ unlines b.
Proof. induction a as [|x a IH]; [done|]. cbn [app unlines foldr]. fold (unlines (a ++ b)). by rewrite IH, !str_app_assoc. Qed.

Lemma content_append f t s path : fs_dir s !! path = Some f -> content (append f t s) path = content s path +:+ t.
Proof. intros Hd. unfold content. cbn. rewrite Hd, inode_append. by rewrite decide_True. Qed.

Lemma run_calls_ok cxLogger logBytes sys s n ls :
  (forall k, sys k = CallOk) -> content s (cl_file cxLogger) = unlines ls ->
  exists n' s', run_calls sys cxLogger logBytes 6 n s PCheck = (n', s', PDone None) /\
    content s' (cl_file cxLogger) = unlines (log_append (cl_limitSize cxLogger) ls logBytes).
Proof.
  intros Hs Hc. set (path := cl_file cxLogger) in *. unfold log_append. calls. rewrite !Hs. calls. fold path.
  destruct (open_create path s) as [f s1] eqn:E1. apply open_create_spec in E1 as (Hd1 & Hc1 & Hi1 & _). calls.
  rewrite Hi1, Hc. destruct (Z.ltb _ _); calls; fold path.
  - rewrite Hd1. calls. fold path. destruct (open_create path (unlink path s1)) as [f' s2] eqn:E2.
    apply open_create_spec in E2 as (Hd2 & Hc2 & _ & _). calls. eexists _, _. split; [done|].
    rewrite content_append, Hc2 by done. unfold content. cbn. by rewrite lookup_delete_eq.
  - destruct (open_create path s1) as [f' s2] eqn:E2. apply open_create_spec in E2 as (Hd2 & Hc2 & _ & _). calls.
    eexists _, _. split; [done|]. rewrite content_append, Hc2, Hc1, Hc, unlines_app by done. done.
Qed.

(** A handler alone, whose calls do not fail, adds its line to the log. *)
Theorem SendLog_refines cxLogger logBytes sys s n w ls :
  cl_enabled cxLogger = true -> (forall k, sys k = CallOk) -> content s (cl_file cxLogger) = unlines ls ->
  exists s' n', SendLog sys cxLogger logBytes (mkLState s n w) = Ret (tt, mkLState s' n' w) /\
    content s' (cl_file cxLogger) = unlines (log_append (cl_limitSize cxLogger) ls logBytes).
Proof.
  intros He Hs Hc. destruct (run_calls_ok cxLogger logBytes sys s n ls Hs Hc) as (n' & s' & Hr & Hc').
  exists s', n'. split; [|done]. pose proof (writeToFile_calls sys cxLogger logBytes n s w) as Hw. rewrite Hr in Hw.
  unfold SendLog. rewrite He. cbn [negb]. by rewrite (ST_bind_run _ _ _ _ _ Hw).
Qed.

(** ** Facts: any interleaving *)

Section interleaving_facts.
Context (cxLogger : ContextLogger) (may : outcome -> Prop) (max_len : nat).
Let path := cl_file cxLogger.
Notation lstep := (lstep cxLogger may max_len).
Notation size s := (slen (content s path)).

(** A goroutine may still add a line to the file without looking at its size. *)
Definition cleared (s : fs) (p : pc) : nat :=
  match p with
  | POpen | PWrite _ => 1
  | PStat f => if decide (fs_dir s !! path = Some f) then 0 else 1
  | _ => 0
  end.

Lemma cleared_le_1 s p : cleared s p <= 1.
Proof. destruct p; cbn; try lia. case_decide; lia. Qed.

Lemma size_append i t s : size (append i t s) <= size s + slen t.
Proof.
  unfold content. cbn. destruct (fs_dir s !! path) as [j|]; [|cbn; lia]. rewrite inode_append.
  case_decide; [subst; rewrite slen_app; lia|lia].
Qed.

(** Opening the file leaves everything as it is, or makes an empty one. *)
Lemma open_create_size s f s' : open_create path s = (f, s') -> s' = s /\ fs_dir s !! path = Some f \/ size s' = 0.
Proof.
  intros (_ & Hc & _ & [[? ->]|(Hd & _)])%open_create_spec; [by left|right].
  rewrite Hc. unfold content. by rewrite Hd.
Qed.

(** A call leaves the file below its limit, or uses up the room its goroutine
    had left. *)
Lemma call_size line o s p s' p' :
  call cxLogger line o s p = (s', p') ->
  (Z.of_nat (size s') <= Z.max 0 (cl_limitSize cxLogger))%Z \/
  ((forall q, cleared s' q = cleared s q) /\ cleared s p' <= cleared s p /\
   size s' + S (slen line) * cleared s p' <= size s + S (slen line) * cleared s p).
Proof.
  assert (forall f t, (forall q, cleared (append f t s) q = cleared s q)) as Ha by by intros f t [].
  assert (slen (line +:+ newline) = S (slen line)) as Hl by (rewrite slen_app; cbn; lia).
  destruct o as [|err n]; cbn [call].
  - destruct p as [|f| | |f|err].
    + fold path. destruct (open_create path s) as [f s1] eqn:E. intros [= <- <-].
      apply open_create_size in E as [[-> Hd]|E]; [|left; lia]. right. split; [done|]. cbn. rewrite decide_True by done. lia.
    + intros [= <- <-]. destruct (Z.ltb_spec (cl_limitSize cxLogger) (Z.of_nat (slen (inode s f)))); [right; split; [done|]; cbn; lia|].
      cbn. destruct (decide (fs_dir s !! path = Some f)) as [Hd|Hd]; [left|right; split; [done|lia]].
      unfold content. rewrite Hd. lia.
    + fold path. destruct (fs_dir s !! path) eqn:Hd; intros [= <- <-]; [left|right; split; [done|cbn; lia]].
      unfold content. cbn. rewrite lookup_delete_eq. cbn. lia.
    + fold path. destruct (open_create path s) as [f s1] eqn:E. intros [= <- <-].
      apply open_create_size in E as [[-> Hd]|E]; [|left; lia]. right. split; [done|]. cbn. lia.
    + intros [= <- <-]. right. split; [apply Ha|]. pose proof (size_append f (line +:+ newline) s). cbn. lia.
    + intros [= <- <-]. right. split; [done|]. cbn. lia.
  - intros [= <- <-]. right. destruct p as [|f| | |f|]; try (split; [done|cbn; lia]). split; [apply Ha|].
    pose proof (size_append f (str_take n (line +:+ newline)) s).
    pose proof (f_equal slen (str_take_drop n (line +:+ newline))) as Ht. rewrite slen_app in Ht. cbn [cleared]. lia.
Qed.

Definition room (s : fs) (gs : list goroutine) : nat := sum_list_with (fun g => cleared s (g_pc g)) gs.

Definition bounded (n : nat) (y : system) : Prop :=
  length (sy_gs y) = n /\ Forall (fun g => slen (g_line g) <= max_len) (sy_gs y) /\
  (Z.of_nat (size (sy_fs y)) + Z.of_nat (S max_len) * Z.of_nat (room (sy_fs y) (sy_gs y)) <=
   Z.max 0 (cl_limitSize cxLogger) + Z.of_nat n * Z.of_nat (S max_len))%Z.

Lemma room_le s gs : room s gs <= length gs.
Proof. apply sum_list_with_length. intros. apply cleared_le_1. Qed.

Lemma bounded_step n y y' : lstep y y' -> bounded n y -> bounded n y'.
Proof.
  intros Hs (Hn & Hf & Hb). destruct Hs as [s gs sent k g o s' p' Hk Hd _ Hc|s gs sent k g line Hk Hd Hl]; unfold bounded; cbn [sy_gs sy_fs] in *.
  - pose proof (Forall_lookup_1 _ _ _ _ Hf Hk) as Hg. cbn in Hg. split; [by rewrite length_insert|].
    split; [by apply Forall_insert|]. set (gs' := <[k := _]> gs).
    destruct (call_size _ _ _ _ _ _ Hc) as [Hz|(Hq & Hle & Hz)].
    + pose proof (room_le s' gs') as Hr. unfold gs' in Hr. rewrite length_insert in Hr. fold gs' in Hr.
      pose proof (Nat.mul_le_mono_l _ _ (S max_len) Hr). lia.
    + pose proof (sum_list_with_insert (fun g => cleared s (g_pc g)) gs k g (mkGoroutine (g_line g) p') Hk) as Hi.
      assert (room s' gs' <= room s gs') as Hm by (apply sum_list_with_mono; intros; by rewrite Hq).
      unfold room in *. cbn [g_pc] in Hi. fold gs' in Hi. pose proof (cleared_le_1 s (g_pc g)).
      destruct (cleared s p') as [|[|]], (cleared s (g_pc g)) as [|[|]]; nia.
  - split; [by rewrite length_insert|]. split; [by apply Forall_insert|].
    pose proof (sum_list_with_insert (fun g => cleared s (g_pc g)) gs k g (mkGoroutine line PCheck) Hk) as Hi.
    assert (cleared s (g_pc g) = 0) by by destruct (g_pc g). unfold room in *. cbn [g_pc cleared] in Hi.
    assert (sum_list_with (fun g => cleared s (g_pc g)) (<[k := mkGoroutine line PCheck]> gs) = sum_list_with (fun g => cleared s (g_pc g)) gs) as -> by lia.
    done.
Qed.

(** C23: however the calls of [n] handlers interleave and fail, the file is never
    larger than its limit and one line of each handler. *)
Theorem context_log_bounded y0 y :
  initial max_len y0 -> (Z.of_nat (size (sy_fs y0)) <= Z.max 0 (cl_limitSize cxLogger))%Z -> rtc lstep y0 y ->
  (Z.of_nat (size (sy_fs y)) <=
   Z.max 0 (cl_limitSize cxLogger) + Z.of_nat (length (sy_gs y0)) * Z.of_nat (S max_len))%Z.
Proof.
  intros Hi Hs Hr. assert (bounded (length (sy_gs y0)) y) as (_ & _ & Hb); [|lia].
  assert (bounded (length (sy_gs y0)) y0) as H0.
  { split; [done|]. unfold initial in Hi. split; [eapply Forall_impl; [done|]; naive_solver|].
    pose proof (room_le (sy_fs y0) (sy_gs y0)) as Hl. pose proof (Nat.mul_le_mono_l _ _ (S max_len) Hl). lia. }
  by apply (rtc_preserves lstep (bounded (length (sy_gs y0))) (bounded_step _) y0).
Qed.

(** *** Whole lines *)

Hypothesis no_short_writes : forall err n, may (CallFails err n) -> n = 0.
#[local] Set Default Proof Using "Type*".

(** Inodes that are held or named have been made. *)
Definition held (p : pc) : option nat := match p with PStat f | PWrite f => Some f | _ => None end.
Definition files_ok (s : fs) (gs : list goroutine) : Prop :=
  (forall i, fs_dir s !! path = Some i -> i < fs_next s) /\
  Forall (fun g => forall f, held (g_pc g) = Some f -> f < fs_next s) gs.

(** Every file holds whole lines, of records that were sent. *)
Definition whole_lines (old : list string) (y : system) : Prop :=
  (forall i, exists ls, inode (sy_fs y) i = unlines ls /\ ls ⊆ old ++ sy_sent y) /\
  Forall (fun g => is_done (g_pc g) = false -> g_line g ∈ sy_sent y) (sy_gs y).

(** What a call without short writes does to the files. *)
Lemma call_files line o s p s' p' :
  may o -> call cxLogger line o s p = (s', p') ->
  (forall i, inode s' i = inode s i \/ inode s' i = inode s i +:+ line +:+ newline \/
             inode s' i = "" /\ i = fs_next s) /\
  fs_next s <= fs_next s' /\
  ((forall i, fs_dir s !! path = Some i -> i < fs_next s) -> (forall f, held p = Some f -> f < fs_next s) ->
   (forall i, fs_dir s' !! path = Some i -> i < fs_next s') /\ (forall f, held p' = Some f -> f < fs_next s')).
Proof.
  intros Hm.
  assert (forall f s1, open_create path s = (f, s1) ->
    (forall i, inode s1 i = inode s i \/ inode s1 i = inode s i +:+ line +:+ newline \/ inode s1 i = "" /\ i = fs_next s) /\
    fs_next s <= fs_next s1 /\
    ((forall i, fs_dir s !! path = Some i -> i < fs_next s) ->
     (forall i, fs_dir s1 !! path = Some i -> i < fs_next s1) /\ f < fs_next s1)) as Hopen.
  { intros f s1 (Hd & Hc & Hi & [[Hd' ->]|(Hn & -> & _ & Hx & Hj)])%open_create_spec; [by eauto 10|].
    split; [|split; [lia|]].
    - intros i. destruct (decide (i = fs_next s)) as [->|Hne]; [|left; by apply Hj].
      right. right. split; [|done]. rewrite Hi. unfold content. by rewrite Hn.
    - intros _. split; [|lia]. intros i Hi'. rewrite Hd in Hi'. simplify_eq. lia. }
  destruct o as [|err n]; cbn [call].
  - destruct p as [|f| | |f|err]; fold path.
    + destruct (open_create path s) as [f s1] eqn:E. intros [= <- <-]. destruct (Hopen _ _ eq_refl) as (H1 & H2 & H3).
      split; [done|]. split; [done|]. intros Hok _. destruct (H3 Hok). split; [done|]. by intros ? [= <-].
    + intros [= <- <-]. split; [by left|]. split; [done|]. split; [done|]. intros ? ?. by destruct (Z.ltb _ _).
    + destruct (fs_dir s !! path) as [j|] eqn:Hd; intros [= <- <-]; [|split; [by left|]; split; [done|]; by rewrite Hd].
      split; [by left|]. split; [done|]. cbn. rewrite lookup_delete_eq. done.
    + destruct (open_create path s) as [f s1] eqn:E. intros [= <- <-]. destruct (Hopen _ _ eq_refl) as (H1 & H2 & H3).
      split; [done|]. split; [done|]. intros Hok _. destruct (H3 Hok). split; [done|]. by intros ? [= <-].
    + intros [= <- <-]. split; [|done]. intros i. rewrite inode_append. case_decide; [subst|]; auto.
    + intros [= <- <-]. split; [by left|done].
  - apply no_short_writes in Hm as ->. intros [= <- <-]. destruct p as [|f| | |f|]; try (split; [by left|done]).
    split; [|done]. intros i. rewrite inode_append. left. case_decide; [subst; apply str_app_nil_r|done].
Qed.

Lemma unlines_snoc ls line : unlines (ls ++ [line]) = unlines ls +:+ line +:+ newline.
Proof. rewrite unlines_app. cbn. done. Qed.

Lemma whole_lines_step old y y' : lstep y y' -> whole_lines old y -> whole_lines old y'.
Proof.
  intros Hs (Hi & Hg). destruct Hs as [s gs sent k g o s' p' Hk Hd Hm Hc|s gs sent k g line Hk Hd Hl]; cbn [sy_fs sy_gs sy_sent] in *.
  - pose proof (Forall_lookup_1 _ _ _ _ Hg Hk Hd) as Hin. apply call_files in Hc as (Hf & _); [|done]. split.
    + cbn [sy_fs sy_sent]. intros i. destruct (Hi i) as (ls & Hls & Hsub). destruct (Hf i) as [->|[->|[-> _]]]; [by exists ls| |].
      * exists (ls ++ [g_line g]). rewrite unlines_snoc, Hls. split; [done|]. set_solver.
      * exists []. split; [done|]. set_solver.
    + cbn [sy_gs sy_sent]. apply Forall_insert; [done|]. by intros _.
  - split; cbn [sy_fs sy_gs sy_sent].
    + intros i. destruct (Hi i) as (ls & Hls & Hsub). exists ls. split; [done|]. set_solver.
    + apply Forall_insert; [|by set_solver]. eapply Forall_impl; [done|]. set_solver.
Qed.

Lemma files_ok_step y y' : lstep y y' -> files_ok (sy_fs y) (sy_gs y) ->
  files_ok (sy_fs y') (sy_gs y') /\ fs_next (sy_fs y) <= fs_next (sy_fs y') /\
  forall i, i < fs_next (sy_fs y) -> exists more, inode (sy_fs y') i = inode (sy_fs y) i +:+ more.
Proof.
  intros Hs (Hi & Hg). destruct Hs as [s gs sent k g o s' p' Hk Hd Hm Hc|s gs sent k g line Hk Hd Hl]; cbn [sy_fs sy_gs] in *.
  - apply call_files in Hc as (Hf & Hn & Hok); [|done]. destruct (Hok Hi) as [Hd' Hp']; [exact (Forall_lookup_1 _ _ _ _ Hg Hk)|].
    split; [|split; [done|]].
    + split; [done|]. apply Forall_insert; [|done]. eapply Forall_impl; [done|]. cbn. intros g' Hg' f Hh. specialize (Hg' f Hh). lia.
    + intros i Hlt. destruct (Hf i) as [->|[->|[_ ->]]]; [exists ""; by rewrite str_app_nil_r|eauto|lia].
  - split; [|split; [done|]; intros i _; exists ""; by rewrite str_app_nil_r].
    split; [done|]. by apply Forall_insert.
Qed.

(** As long as no write breaks off in the middle, every file holds whole
    lines of the records that were sent, and what was written to a file stays. *)
Theorem context_log_whole_lines old y0 y :
  whole_lines old y0 -> files_ok (sy_fs y0) (sy_gs y0) -> rtc lstep y0 y ->
  (exists ls, content (sy_fs y) path = unlines ls /\ ls ⊆ old ++ sy_sent y) /\
  forall i, i < fs_next (sy_fs y0) -> exists more, inode (sy_fs y) i = inode (sy_fs y0) i +:+ more.
Proof.
  intros Hw Hf Hr. split.
  - apply (rtc_preserves lstep (whole_lines old) (whole_lines_step old) y0 y Hr) in Hw as [Hi _].
    unfold content. destruct (fs_dir (sy_fs y) !! path) as [i|]; [apply Hi|]. exists []. split; [done|]. set_solver.
  - clear Hw. induction Hr as [y|y0 y1 y Hs _ IH]; [intros i _; exists ""; by rewrite str_app_nil_r|].
    apply files_ok_step in Hs as (Hf1 & Hn & Hm); [|done]. intros i Hi.
    destruct (Hm i Hi) as [m1 H1]. destruct (IH Hf1 i ltac:(lia)) as [m2 ->]. exists (m1 +:+ m2). by rewrite H1, str_app_assoc.
Qed.
End interleaving_facts.

(** ** Schedules

    An executable form of the steps. *)
Inductive action := ACall (k : nat) (o : outcome) | ANext (k : nat) (line : string).

Definition do_action (cxLogger : ContextLogger) (max_len : nat) (a : action) (y : system) : option system :=
  match a with
  | ACall k o =>
      g ← sy_gs y !! k;
      if is_done (g_pc g) then None
      else let '(s', p') := call cxLogger (g_line g) o (sy_fs y) (g_pc g) in
           Some (mkSystem s' (<[k := mkGoroutine (g_line g) p']> (sy_gs y)) (sy_sent y))
  | ANext k line =>
      g ← sy_gs y !! k;
      if is_done (g_pc g) && Nat.leb (slen line) max_len
      then Some (mkSystem (sy_fs y) (<[k := mkGoroutine line PCheck]> (sy_gs y)) (sy_sent y ++ [line])) else None
  end.

Fixpoint do_actions (cxLogger : ContextLogger) (max_len : nat) (l : list action) (y : system) : option system :=
  match l with [] => Some y | a :: l' => y' ← do_action cxLogger max_len a y; do_actions cxLogger max_len l' y' end.

Lemma do_actions_steps cxLogger (may : outcome -> Prop) max_len l y y' :
  (forall k o, ACall k o ∈ l -> may o) -> do_actions cxLogger max_len l y = Some y' -> rtc (lstep cxLogger may max_len) y y'.
Proof.
  revert y. induction l as [|a l IH]; intros y Hm; cbn [do_actions]; [intros [= ->]; constructor|].
  destruct (do_action _ _ a y) as [y1|] eqn:E; [|done]. cbn. intros Hl.
  apply (rtc_l _ y y1); [|apply IH; [|done]; intros; eapply Hm; by right]. clear IH Hl.
  destruct y as [s gs sent]. destruct a as [k o|k line]; cbn in E; destruct (gs !! k) as [g|] eqn:Hk; try done; cbn in E.
  - destruct (is_done (g_pc g)) eqn:Hd; [done|]. destruct (call _ _ _ _ _) as [s' p'] eqn:Hc. injection E as <-.
    eapply step_call; [done..| |done]. apply (Hm k). by left.
  - destruct (is_done (g_pc g)) eqn:Hd; [|done]. destruct (Nat.leb_spec (slen line) max_len); [|done]. injection E as <-.
    by eapply step_next.
Qed.

(** Two handlers and a small limit: the first one opens the file for its line, the
    second one writes, writes again, rotates, and the first one goes on. *)
Definition race_logger : ContextLogger := mkContextLogger true "events.txt" 5.
Definition race_start : system :=
  mkSystem (mkFs ∅ ∅ 0) [mkGoroutine "" (PDone None); mkGoroutine "" (PDone None)] [].
Definition three_calls (k : nat) : list action := [ACall k CallOk; ACall k CallOk; ACall k CallOk].
Definition race_schedule : list action :=
  [ANext 0 "aaa"; ANext 1 "bbb"] ++ three_calls 0 ++ three_calls 1 ++ [ACall 1 CallOk; ANext 1 "ccc"] ++ three_calls 1 ++
  [ACall 1 CallOk; ANext 1 "ddd"] ++ three_calls 1 ++ [ACall 1 CallOk; ACall 0 CallOk; ACall 1 CallOk].
Definition race_end : system := default race_start (do_actions race_logger 3 race_schedule race_start).

Lemma race_steps : rtc (lstep race_logger (eq CallOk) 3) race_start race_end.
Proof.
  apply (do_actions_steps race_logger _ 3 race_schedule); [|vm_compute; reflexivity].
  assert (Forall (fun a => match a with ACall _ o => CallOk = o | _ => True end) race_schedule) as Hl by (repeat constructor).
  intros k o Hin. exact (proj1 (Forall_forall _ _) Hl _ Hin).
Qed.

Lemma race_initial : initial 3 race_start.
Proof. repeat constructor; cbn; lia. Qed.

(** A record can be lost: when a handler has opened the file and another one
    rotates it, the line goes to the removed file, and no error is reported. *)
Theorem record_lost_in_rotation :
  exists cxLogger y0 y line k,
    initial 3 y0 /\ rtc (lstep cxLogger (eq CallOk) 3) y0 y /\ sy_sent y0 = [] /\ line ∈ sy_sent y /\
    sy_gs y !! k = Some (mkGoroutine line (PDone None)) /\ Contains (content (sy_fs y) (cl_file cxLogger)) line = false.
Proof.
  exists race_logger, race_start, race_end, "aaa", 0. split; [apply race_initial|]. split; [apply race_steps|].
  split; [done|]. split; [vm_compute; left|]. split; vm_compute; reflexivity.
Qed.

Lemma context_log_bounded_witness : slen (content (sy_fs race_end) "events.txt") = 4 /\ (4 <= 5 + 2 * 4)%Z.
Proof.
  split; [vm_compute; reflexivity|].
  exact (context_log_bounded race_logger (eq CallOk) 3 race_start race_end race_initial ltac:(vm_compute; discriminate) race_steps).
Defined.

Lemma context_log_whole_lines_witness :
  exists ls, content (sy_fs race_end) "events.txt" = unlines ls /\ ls ⊆ ["aaa"; "bbb"; "ccc"; "ddd"].
Proof.
  refine (proj1 (context_log_whole_lines race_logger (eq CallOk) 3 _ [] race_start race_end _ _ race_steps)).
  - intros err n. discriminate.
  - split; [|by repeat constructor]. intros i. exists []. split; [done|]. set_solver.
  - split; [done|]. by repeat constructor.
Defined.

(** ** Reading the file *)

(** The complete lines of a text. *)
Fixpoint lines_from (line text : string) : list string :=
  match text with
  | "" => []
  | String c text' => if bool_decide (c = ascii_of_nat 10) then line :: lines_from "" text' else lines_from (line +:+ String c "") text'
  end.
Definition complete_lines (text : string) : list string := lines_from "" text.
Definition one_line (s : string) : bool := str_forall (fun c => negb (bool_decide (c = ascii_of_nat 10))) s.

Lemma lines_from_line acc l rest : one_line l = true -> lines_from acc (l +:+ newline +:+ rest) = (acc +:+ l) :: complete_lines rest.
Proof.
  revert acc. induction l as [|c l IH]; intros acc; cbn; [by rewrite str_app_nil_r|].
  intros [Hc Hl]%andb_true_iff. destruct (bool_decide (c = ascii_of_nat 10)); [done|]. rewrite IH by done. by rewrite str_app_assoc.
Qed.

(** Reading a log back gives its lines. *)
Lemma read_unlines ls : forallb one_line ls = true -> complete_lines (unlines ls) = ls.
Proof.
  induction ls as [|l ls IH]; [done|]. cbn [forallb unlines foldr]. intros [Hl Hls]%andb_true_iff.
  unfold complete_lines. rewrite lines_from_line by done. cbn. f_equal. by apply IH.
Qed.

(** The file after a sequence of records, sent one after the other. *)
Fixpoint SendLogs (sys : nat -> outcome) (cxLogger : ContextLogger) (records : list string) : LM unit :=
  match records with [] => mret tt | r :: rs => _ ← SendLog sys cxLogger r; SendLogs sys cxLogger rs end.

Lemma SendLogs_refines cxLogger sys records s n w ls :
  cl_enabled cxLogger = true -> (forall k, sys k = CallOk) -> content s (cl_file cxLogger) = unlines ls ->
  exists s' n', SendLogs sys cxLogger records (mkLState s n w) = Ret (tt, mkLState s' n' w) /\
    content s' (cl_file cxLogger) = unlines (foldl (log_append (cl_limitSize cxLogger)) ls records).
Proof.
  intros He Hs. revert s n ls. induction records as [|r rs IH]; intros s n ls Hc; [by exists s, n|].
  destruct (SendLog_refines cxLogger r sys s n w ls He Hs Hc) as (s1 & n1 & Hr & Hc1).
  destruct (IH s1 n1 _ Hc1) as (s2 & n2 & Hr2 & Hc2). exists s2, n2. split; [|done].
  cbn [SendLogs]. by rewrite (ST_bind_run _ _ _ _ _ Hr).
Qed.

(** Without a rotation all of them are there; with one, the newest are. *)
Lemma log_append_fits limit ls records :
  (Z.of_nat (slen (unlines (ls ++ records))) <= limit)%Z -> foldl (log_append limit) ls records = ls ++ records.
Proof.
  revert ls. induction records as [|r rs IH]; intros ls Hl; [cbn; by rewrite app_nil_r|]. cbn [foldl].
  assert (log_append limit ls r = ls ++ [r]) as ->.
  { unfold log_append. rewrite unlines_app, slen_app in Hl. destruct (Z.ltb_spec limit (Z.of_nat (slen (unlines ls)))); [lia|done]. }
  rewrite IH; rewrite <-(assoc_L (++)); done.
Qed.

Lemma log_append_suffix limit ls records : foldl (log_append limit) ls records `suffix_of` ls ++ records.
Proof.
  revert ls. induction records as [|r rs IH]; intros ls; cbn [foldl]; [by rewrite app_nil_r|].
  etrans; [apply IH|]. unfold log_append. destruct (Z.ltb _ _).
  - by exists ls.
  - by rewrite <-(assoc_L (++)).
Qed.
