(* ===== verification/DryRun.v ===== *)
(** * Dry runs against the API server  ([shield/pkg/util/kubeutil/kubeutil.go], [dryrun.go])

    A signed document and the object of a request may differ in what the API
    server fills in.  The shield asks the API server what it would make of the
    document.  This file implements the interface [KubeUtil] of the verifiers and
    shows that asking changes nothing. *)
From S2P Require Import Prelude GoStrings GoJson Common Profile MapNode Diff Signing ResourceSignature SignVerifier Sign.
From stdpp Require Import options.

(** The calls to the API server, which are its whole effect. *)
Inductive api_call :=
| DynCreate (gvr namespace name : string) (DryRun : list string)
| DynGet (gvr namespace name : string).

(** The answer to a read. *)
Inductive got (A : Type) : Type := Found (a : A) | NotFound (err : string) | GetFailed (err : string).
Arguments Found {A} a.
Arguments NotFound {A} err.
Arguments GetFailed {A} err.

(** client-go, apimachinery and kubectl: configurations, unstructured objects, the
    scheme of known types, the OpenAPI document, and patches.  A configuration is
    not nil when there is no error.  [json_Marshal_unstructured] of nil is [null]. *)
Class KubeLibs := {
  rest_Config : Type;
  InClusterConfig : res rest_Config;
  BuildConfigFromFlags : string -> res rest_Config;
  filepath_Join : list string -> string;
  dynamic_NewForConfig : rest_Config -> res unit;
  discovery_NewForConfig : rest_Config -> res unit;
  Unstructured : Type;
  YAMLToJSON : string -> res string;
  UnmarshalJSON : string -> res Unstructured;
  gvk : Type;
  gvk_Kind : gvk -> string;
  gvk_String : gvk -> string;
  GroupVersionKind : Unstructured -> gvk;
  UnsafeGuessKindToResource : gvk -> string;
  u_GetName : Unstructured -> string;
  u_GetNamespace : Unstructured -> string;
  u_SetName : Unstructured -> string -> Unstructured;
  u_String : Unstructured -> string;
  yaml_Marshal_unstructured : Unstructured -> res string;
  json_Marshal_unstructured : option Unstructured -> res string;
  api_Create : string -> string -> Unstructured -> list string -> res Unstructured;
  api_Get : string -> string -> string -> got Unstructured;
  scheme_object : Type;
  Scheme_New : gvk -> res scheme_object;
  apply_strategic_merge : string -> string -> scheme_object -> res string;
  OpenAPISchema : res string;
  openapi_data : Type;
  NewOpenAPIData : string -> res (option openapi_data);
  openapi_schema : Type;
  LookupResource : openapi_data -> gvk -> option openapi_schema;
  patch_meta : Type;
  PatchMetaFromOpenAPI : openapi_schema -> patch_meta;
  NewPatchMetaFromStruct : option scheme_object -> res patch_meta;
  CreateThreeWayMergePatch : option string -> string -> string -> patch_meta -> res string;
  GetOriginalConfiguration : Unstructured -> res (option string);
  GetModifiedConfiguration : Unstructured -> res string;
  AddSourceToErr : string -> string -> string -> string
}.

(** ** Computations with a trace of calls, and an early return on an error *)
Definition W (A : Type) : Type := A * list api_call.
Definition ret {A} (a : A) : W A := (a, []).
Definition called {A} (c : api_call) (a : A) : W A := (a, [c]).
Definition W_bind {A B} (m : W A) (f : A -> W B) : W B := let '(b, t) := f m.1 in (b, m.2 ++ t).
Definition W_try {A B} (m : W (res A)) (wrap : string -> string) (f : A -> W (res B)) : W (res B) :=
  W_bind m (fun r => match r with Err e => ret (Err (wrap e)) | Ok a => f a end).
Notation "'try' x ':=' m 'or' w 'in' k" := (W_try m w (fun x => k)) (at level 200, x name, k at level 200, right associativity).

Section kubeutil.
Context `{KubeLibs} (Getenv : string -> string).

(** ** Client configuration

    [cfg] is the configuration that was set for the process, if any. *)
Definition GetInClusterConfig : res rest_Config := InClusterConfig.

Definition GetOutOfClusterConfig : res rest_Config :=
  let kubeconfigPath := Getenv "KUBECONFIG" in
  let kubeconfigPath :=
    if bool_decide (kubeconfigPath = "") then
      let home := Getenv "HOME" in
      let home := if bool_decide (home = "") then Getenv "USERPROFILE" else home in
      filepath_Join [home; ".kube"; "config"]
    else kubeconfigPath in
  BuildConfigFromFlags kubeconfigPath.

Definition GetKubeConfig (cfg : option rest_Config) : res rest_Config :=
  match cfg with
  | Some cfg => Ok cfg
  | None => match GetInClusterConfig with Ok config => Ok config | Err _ => GetOutOfClusterConfig end
  end.

Definition SetKubeConfig (cfg conf : option rest_Config) : option rest_Config :=
  match conf with Some conf => Some conf | None => cfg end.

Context (cfg : option rest_Config).

(** [metav1.DryRunAll] *)
Definition DryRunAll : string := "All".

Definition prefixed (msg err : string) : string := msg +:+ "; " +:+ err.

(** ** Creating *)

Definition DryRunCreate_run (objBytes namespace : string) : W (res string) :=
  try config := ret (GetKubeConfig cfg) or prefixed "Error in getting k8s config" in
  try _ := ret (dynamic_NewForConfig config) or prefixed "Error in creating DynamicClient" in
  try objJsonBytes := ret (YAMLToJSON objBytes) or prefixed "Error in converting YamlToJson" in
  try obj := ret (UnmarshalJSON objJsonBytes) or prefixed "Error in Unmarshal into unstructured obj" in
  let gvk := GroupVersionKind obj in
  let obj := if bool_decide (gvk_Kind gvk = "CustomResourceDefinition") then obj
             else u_SetName obj (u_GetName obj +:+ "-dry-run") in
  let gvr := UnsafeGuessKindToResource gvk in
  try simObj := called (DynCreate gvr namespace (u_GetName obj) [DryRunAll]) (api_Create gvr namespace obj [DryRunAll])
    or (fun err => "Error in creating resource; " +:+ err +:+ ", gvk: " +:+ gvk_String gvk) in
  try simObjBytes := ret (yaml_Marshal_unstructured simObj) or prefixed "Error in converting ojb to yaml" in
  ret (Ok simObjBytes).

(** ** Patching *)

(** The object a document names, in the namespace of the request or of the
    document; both patch functions begin with it. *)
Definition merge_namespace (namespace claimedNamespace : string) : res string :=
  if negb (bool_decide (namespace = "")) && negb (bool_decide (claimedNamespace = "")) && negb (bool_decide (namespace = claimedNamespace))
  then Err ("namespace is not identical, requested: " +:+ namespace +:+ ", defined in yaml: " +:+ claimedNamespace)
  else Ok (if bool_decide (namespace = "") && negb (bool_decide (claimedNamespace = "")) then claimedNamespace else namespace).

Definition current_object (gvr namespace name : string) : W (res (option Unstructured)) :=
  called (DynGet gvr namespace name)
    (match api_Get gvr namespace name with Found o => Ok (Some o) | NotFound _ => Ok None | GetFailed err => Err err end).

Definition StrategicMergePatch_run (objBytes patchBytes namespace : string) : W (res string) :=
  try config := ret (GetKubeConfig cfg) or prefixed "Error in getting k8s config" in
  try _ := ret (dynamic_NewForConfig config) or prefixed "Error in creating DynamicClient" in
  try obj := ret (UnmarshalJSON objBytes) or prefixed "Error in Unmarshal into unstructured obj" in
  let gvk := GroupVersionKind obj in
  let gvr := UnsafeGuessKindToResource gvk in
  try namespace := ret (merge_namespace namespace (u_GetNamespace obj)) or id in
  try currentObj := current_object gvr namespace (u_GetName obj) or prefixed "Error in getting current obj" in
  try currentObjBytes := ret (json_Marshal_unstructured currentObj) or prefixed "Error in converting current obj to json" in
  try mocObj := ret (Scheme_New gvk) or prefixed "Error in getting moc obj" in
  try patchJsonBytes := ret (YAMLToJSON patchBytes) or prefixed "Error in converting patchBytes to json" in
  try patchedBytes := ret (apply_strategic_merge currentObjBytes patchJsonBytes mocObj) or prefixed "Error in getting patched obj bytes" in
  ret (Ok patchedBytes).

Definition sourceFileName : string := "/tmp/obj.yaml".
Definition nl : string := String (ascii_of_nat 10) "".
Definition createPatchErr (originalObjBytes : option string) (modifiedBytes currentObjBytes err : string) : string :=
  AddSourceToErr ("creating patch with:" +:+ nl +:+ "original:" +:+ nl +:+ default "" originalObjBytes +:+ nl +:+ "modified:" +:+ nl +:+
    modifiedBytes +:+ nl +:+ "current:" +:+ nl +:+ currentObjBytes +:+ nl +:+ "for:") sourceFileName err.

(** The patch by the OpenAPI schema of the type, when there is one and it works. *)
Definition openapi_patch (openAPISchema : option openapi_data) (gvk : gvk) (original : option string) (modified current : string)
  : option string :=
  match openAPISchema with
  | None => None
  | Some data => match LookupResource data gvk with
                 | None => None
                 | Some schema => match CreateThreeWayMergePatch original modified current (PatchMetaFromOpenAPI schema) with
                                  | Ok patch => Some patch
                                  | Err _ => None
                                  end
                 end
  end.

Definition struct_patch (gvk : gvk) (original : option string) (modified current : string) : res string :=
  let versionedObject := match Scheme_New gvk with Ok o => Some o | Err _ => None end in
  match NewPatchMetaFromStruct versionedObject with
  | Err err => Err (createPatchErr original modified current err)
  | Ok lookupPatchMeta =>
      match CreateThreeWayMergePatch original modified current lookupPatchMeta with
      | Err err => Err (createPatchErr original modified current err)
      | Ok patch => Ok patch
      end
  end.

(** [GetApplyPatchBytes]: what [kubectl apply] would send, and the outcome. *)
Definition GetApplyPatchBytes_run (objBytes namespace : string) : W (res (string * string)) :=
  try config := ret (GetKubeConfig cfg) or prefixed "Error in getting k8s config" in
  try _ := ret (dynamic_NewForConfig config) or prefixed "Error in creating DynamicClient" in
  try _ := ret (discovery_NewForConfig config) or prefixed "Error in creating DiscoveryClient" in
  try openAPISchemaDoc := ret OpenAPISchema or prefixed "Failed to get OpenAPISchema Document" in
  try openAPISchema := ret (NewOpenAPIData openAPISchemaDoc) or prefixed "Failed to get OpenAPISchema" in
  try objJsonBytes := ret (YAMLToJSON objBytes) or prefixed "Error in converting YamlToJson" in
  try obj := ret (UnmarshalJSON objJsonBytes) or prefixed "Error in Unmarshal into unstructured obj" in
  let gvk := GroupVersionKind obj in
  let gvr := UnsafeGuessKindToResource gvk in
  try namespace := ret (merge_namespace namespace (u_GetNamespace obj)) or id in
  try currentObj := current_object gvr namespace (u_GetName obj) or prefixed "Error in getting current obj" in
  try currentObjBytes := ret (json_Marshal_unstructured currentObj) or prefixed "Error in converting current obj to json" in
  try originalObjBytes := ret (match currentObj with Some o => GetOriginalConfiguration o | None => Ok None end)
    or AddSourceToErr ("retrieving original configuration from:" +:+ nl +:+ u_String obj +:+ nl +:+ "for:") sourceFileName in
  try modifiedBytes := ret (GetModifiedConfiguration obj)
    or AddSourceToErr ("retrieving modified configuration from:" +:+ nl +:+ u_GetName obj +:+ nl +:+ "for:") sourceFileName in
  try patch := ret (match openapi_patch openAPISchema gvk originalObjBytes modifiedBytes currentObjBytes with
                    | Some patch => Ok patch
                    | None => struct_patch gvk originalObjBytes modifiedBytes currentObjBytes
                    end) or id in
  try mocObj := ret (Scheme_New gvk) or prefixed "Error in getting moc obj" in
  try patched := ret (apply_strategic_merge currentObjBytes patch mocObj) or prefixed "Error in patching to obj" in
  try patchedObj := ret (UnmarshalJSON patched) or prefixed "Error in Unmarshal into unstructured obj" in
  ret (Ok (patch, match json_Marshal_unstructured (Some patchedObj) with Ok b => b | Err _ => "" end)).

(** ** The interface of the verifiers *)
Definition kube_util : KubeUtil := {|
  DryRunCreate objBytes namespace := (DryRunCreate_run objBytes namespace).1;
  GetApplyPatchBytes objBytes namespace :=
    match (GetApplyPatchBytes_run objBytes namespace).1 with Ok p => Ok p.2 | Err e => Err e end;
  StrategicMergePatch objBytes patchBytes := (StrategicMergePatch_run objBytes patchBytes "").1 |}.
End kubeutil.

(** ** Facts *)

Lemma W_try_trace {A B} (m : W (res A)) w (f : A -> W (res B)) :
  (W_try m w f).2 = m.2 ++ match m.1 with Ok a => (f a).2 | Err _ => [] end.
Proof. unfold W_try, W_bind. destruct m as [[a|e] t]; cbn; [by destruct (f a)|by rewrite app_nil_r]. Qed.

Lemma W_try_Ok {A B} (m : W (res A)) w (f : A -> W (res B)) b :
  (W_try m w f).1 = Ok b <-> exists a, m.1 = Ok a /\ (f a).1 = Ok b.
Proof.
  unfold W_try, W_bind. destruct m as [[a|e] t]; cbn.
  - destruct (f a) as [r t'] eqn:E. cbn. split; [intros ->; exists a; by rewrite E|]. intros (? & [= <-] & Hf). by rewrite E in Hf.
  - split; [done|]. by intros (? & ? & _).
Qed.

(** A property of every call is one of the calls of the parts. *)
Lemma W_try_calls {A B} (P : api_call -> Prop) (m : W (res A)) w (f : A -> W (res B)) :
  Forall P m.2 -> (forall a, m.1 = Ok a -> Forall P (f a).2) -> Forall P (W_try m w f).2.
Proof. intros Hm Hf. rewrite W_try_trace. apply Forall_app. split; [done|]. destruct m.1 as [a|e]; auto. Qed.

Ltac trace_calls := repeat (apply W_try_calls; [try by constructor|intros; cbn zeta]); try by constructor.

Lemma merge_namespace_Ok namespace claimed ns :
  merge_namespace namespace claimed = Ok ns -> (namespace <> "" -> ns = namespace) /\ (claimed <> "" -> ns = claimed) /\
  (namespace = "" -> claimed = "" -> ns = "").
Proof.
  unfold merge_namespace. destruct (decide (namespace = "")) as [->|Hn].
  - rewrite bool_decide_true by done. cbn. case_bool_decide; cbn; intros [= <-]; naive_solver.
  - rewrite (bool_decide_false (namespace = "")) by done. cbn.
    destruct (decide (claimed = "")) as [->|Hc]; [rewrite bool_decide_true by done; cbn; intros [= <-]; naive_solver|].
    rewrite (bool_decide_false (claimed = "")) by done. cbn. case_bool_decide; cbn; [|done]. intros [= <-]. naive_solver.
Qed.
Section dryrun_facts.
Context `{KubeLibs} (Getenv : string -> string) (cfg : option rest_Config).
Notation DryRunCreate_run := (DryRunCreate_run Getenv cfg).
Notation StrategicMergePatch_run := (StrategicMergePatch_run Getenv cfg).
Notation GetApplyPatchBytes_run := (GetApplyPatchBytes_run Getenv cfg).

(** A call that leaves the cluster as it is. *)
Definition harmless (c : api_call) : Prop := match c with DynGet _ _ _ => True | DynCreate _ _ _ d => d = [DryRunAll] end.

(** Comparing a document with an object never changes the cluster: every call
    reads, or creates in a dry run. *)
Theorem dry_runs_change_nothing objBytes patchBytes namespace :
  Forall harmless (DryRunCreate_run objBytes namespace).2 /\
  Forall harmless (StrategicMergePatch_run objBytes patchBytes namespace).2 /\
  Forall harmless (GetApplyPatchBytes_run objBytes namespace).2.
Proof.
  split; [|split].
  - unfold DryRun.DryRunCreate_run. trace_calls.
  - unfold DryRun.StrategicMergePatch_run. trace_calls.
  - unfold DryRun.GetApplyPatchBytes_run. trace_calls.
Qed.


(** The object that is patched is read where both the request and the document
    say it is: the only call of either function. *)
Definition reads_named (obj : Unstructured) (namespace : string) (c : api_call) : Prop :=
  exists ns, c = DynGet (UnsafeGuessKindToResource (GroupVersionKind obj)) ns (u_GetName obj) /\
    (namespace <> "" -> ns = namespace) /\ (u_GetNamespace obj <> "" -> ns = u_GetNamespace obj).

Theorem patch_reads_named_object objBytes patchBytes json obj namespace :
  YAMLToJSON objBytes = Ok json -> UnmarshalJSON json = Ok obj ->
  Forall (reads_named obj namespace) (GetApplyPatchBytes_run objBytes namespace).2 /\
  Forall (reads_named obj namespace) (StrategicMergePatch_run json patchBytes namespace).2.
Proof.
  intros Hj Ho.
  assert (forall ns, ret (merge_namespace namespace (u_GetNamespace obj)) = ret (Ok ns) ->
    Forall (reads_named obj namespace) (current_object (UnsafeGuessKindToResource (GroupVersionKind obj)) ns (u_GetName obj)).2) as Hcur.
  { intros ns [= (H1 & H2 & _)%merge_namespace_Ok]. constructor; [|constructor]. by exists ns. }
  split.
  - unfold DryRun.GetApplyPatchBytes_run. do 5 (apply W_try_calls; [by constructor|intros ? _]).
    apply W_try_calls; [by constructor|]. intros ? Hj'. cbn in Hj'. rewrite Hj in Hj'. simplify_eq.
    apply W_try_calls; [by constructor|]. intros ? Ho'. cbn in Ho'. rewrite Ho in Ho'. simplify_eq. cbn zeta.
    apply W_try_calls; [by constructor|]. intros ns Hns. apply W_try_calls; [apply Hcur; unfold ret; by f_equal|intros ? _]. trace_calls.
  - unfold DryRun.StrategicMergePatch_run. do 2 (apply W_try_calls; [by constructor|intros ? _]).
    apply W_try_calls; [by constructor|]. intros ? Ho'. cbn in Ho'. rewrite Ho in Ho'. simplify_eq. cbn zeta.
    apply W_try_calls; [by constructor|]. intros ns Hns. apply W_try_calls; [apply Hcur; unfold ret; by f_equal|intros ? _]. trace_calls.
Qed.

(** What a successful dry run says: the document was decoded, renamed unless it
    is a definition of custom resources, and the API server accepted it. *)
Definition renamed (obj : Unstructured) : Unstructured :=
  if bool_decide (gvk_Kind (GroupVersionKind obj) = "CustomResourceDefinition") then obj else u_SetName obj (u_GetName obj +:+ "-dry-run").
Definition servers_object (doc namespace : string) (sim : Unstructured) : Prop :=
  exists json obj, YAMLToJSON doc = Ok json /\ UnmarshalJSON json = Ok obj /\
    api_Create (UnsafeGuessKindToResource (GroupVersionKind obj)) namespace (renamed obj) [DryRunAll] = Ok sim.

Lemma DryRunCreate_Ok doc namespace out :
  (DryRunCreate_run doc namespace).1 = Ok out ->
  exists sim, servers_object doc namespace sim /\ yaml_Marshal_unstructured sim = Ok out.
Proof.
  unfold DryRun.DryRunCreate_run. rewrite W_try_Ok. intros (config & _ & Hr). apply W_try_Ok in Hr as (_ & _ & Hr).
  apply W_try_Ok in Hr as (json & Hj & Hr). apply W_try_Ok in Hr as (obj & Ho & Hr). cbn zeta in Hr.
  apply W_try_Ok in Hr as (sim & Hs & Hr). apply W_try_Ok in Hr as (b & Hb & Hr). cbn in Hr. injection Hr as <-.
  exists sim. split; [|done]. by exists json, obj.
Qed.
End dryrun_facts.


(** ** Concrete instance: a server that fills one field in *)

Definition field (k : string) (v : value) : option value := match v with VObj m => MapNode.assoc k m | _ => None end.
Definition set_field (k : string) (x v : value) : value :=
  match v with VObj m => VObj ((fun kv => if bool_decide (kv.1 = k) then (k, x) else kv) <$> m) | _ => v end.
Definition str_field (v : option value) : string := match v with Some (VScalar (SStr s)) => s | _ => "" end.

Definition sample_kube_libs : KubeLibs := {|
  rest_Config := unit;
  InClusterConfig := Ok tt;
  BuildConfigFromFlags _ := Ok tt;
  filepath_Join l := Join l "/";
  dynamic_NewForConfig _ := Ok tt;
  discovery_NewForConfig _ := Ok tt;
  Unstructured := value;
  YAMLToJSON s := Ok s;
  UnmarshalJSON s := match UnmarshalMap s with Some m => Ok (VObj m) | None => Err "invalid character" end;
  gvk := string;
  gvk_Kind k := k;
  gvk_String k := k;
  GroupVersionKind u := str_field (field "kind" u);
  UnsafeGuessKindToResource k := ToLower k +:+ "s";
  u_GetName u := str_field (field "metadata" u ≫= field "name");
  u_GetNamespace u := str_field (field "metadata" u ≫= field "namespace");
  u_SetName u n := set_field "metadata" (set_field "name" (VScalar (SStr n)) (default VNull (field "metadata" u))) u;
  u_String u := json_print u;
  yaml_Marshal_unstructured u := Ok (json_print u);
  json_Marshal_unstructured u := Ok (match u with Some u => json_print u | None => "null" end);
  api_Create _ _ u dry := if bool_decide (dry = [DryRunAll])
                          then match u with VObj m => Ok (VObj (m ++ [("immutable", VScalar (SBool false))])) | _ => Err "bad object" end
                          else Err "forbidden";
  api_Get _ _ _ := NotFound "not found";
  scheme_object := unit;
  Scheme_New _ := Ok tt;
  apply_strategic_merge _ patch _ := Ok patch;
  OpenAPISchema := Ok "{}";
  openapi_data := unit;
  NewOpenAPIData _ := Ok None;
  openapi_schema := unit;
  LookupResource _ _ := None;
  patch_meta := unit;
  PatchMetaFromOpenAPI _ := tt;
  NewPatchMetaFromStruct _ := Ok tt;
  CreateThreeWayMergePatch _ modified _ _ := Ok modified;
  GetOriginalConfiguration _ := Ok None;
  GetModifiedConfiguration u := Ok (json_print u);
  AddSourceToErr verb source err := verb +:+ source +:+ err |}.

Section samples.
#[local] Existing Instances sample_kube_libs sample_diff sample_diff_ok sample_float sample_yaml sample_manifest.

Definition sample_doc (name more : string) : string :=
  let q := quote in
  "{" +:+ q "kind" +:+ ":" +:+ q "ConfigMap" +:+ "," +:+ q "metadata" +:+ ":{" +:+ q "name" +:+ ":" +:+ q name +:+ "}" +:+ more +:+ "}".
Definition sample_object : string := sample_doc "cm" ("," +:+ quote "immutable" +:+ ":false").
Definition sample_verifier : ResourceVerifier := mkResourceVerifier [] [] [] "ishield".

(** The signed document lacks the field the server fills in. *)
Example dry_run_needed : (matchContents (sample_doc "cm" "") sample_object [] (getMaskDef "") [] false).1.1 = false.
Proof. vm_compute. reflexivity. Qed.


Lemma patch_reads_named_object_witness :
  (GetApplyPatchBytes_run (fun _ => "") None (sample_doc "cm" "") "ns").2 = [DynGet "configmaps" "ns" "cm"] /\
  Forall (reads_named (VObj [("kind", VScalar (SStr "ConfigMap")); ("metadata", VObj [("name", VScalar (SStr "cm"))])]) "ns")
    (GetApplyPatchBytes_run (fun _ => "") None (sample_doc "cm" "") "ns").2.
Proof.
  split; [vm_compute; reflexivity|].
  apply (patch_reads_named_object (fun _ => "") None (sample_doc "cm" "") "" (sample_doc "cm" "")); vm_compute; reflexivity.
Defined.
End samples.
