(* ===== verification/X509Sign.v ===== *)
(** * Certificates and signatures for the shield
    ([shield/pkg/util/sign/x509/x509.go])

    The other half of the package whose verification is in [Signing]: making keys,
    certificates and signatures.  What it makes is what the verifiers accept. *)
From S2P Require Import Prelude GoStrings Signing SignVerifier.
From stdpp Require Import options.

Definition PEMTypePrivateKey : string := "RSA PRIVATE KEY".
Definition PEMTypePublicKey : string := "PUBLIC KEY".
Definition PEMTypeCertificate : string := "CERTIFICATE".

(** The template of a certificate; the validity is from 2019 to 2030. *)
Record CertTemplate := mkCertTemplate {
  tp_SerialNumber : Z;
  tp_CommonName : string;
  tp_NotBefore : Z * Z * Z;
  tp_NotAfter : Z * Z * Z;
  tp_IsCA : bool;
  tp_KeyUsage : list string;
  tp_BasicConstraintsValid : bool;
}.

(** [crypto/rsa], [crypto/x509] and [encoding/pem] where they make things.  A
    certificate is issued by a template, when it is self-signed, or a parsed one. *)
Class X509Maker `{X509Lib} := {
  rsa_key : Type;
  public_key : rsa_key -> PublicKey;
  rsa_GenerateKey : nat -> res rsa_key;
  MarshalPKCS1PrivateKey : rsa_key -> string;
  ParsePKCS1PrivateKey : string -> res rsa_key;
  MarshalPKIXPublicKey : PublicKey -> res string;
  x509_CreateCertificate : CertTemplate -> CertTemplate + Certificate -> PublicKey -> rsa_key -> res string;
  pem_EncodeToMemory : string -> string -> string;
  rsa_SignPKCS1v15 : rsa_key -> string -> res string
}.

Section maker.
Context `{X509Maker}.

Definition GenerateKeyPair (draw : nat) : res (rsa_key * PublicKey) :=
  match rsa_GenerateKey draw with
  | Err e => Err e
  | Ok privateCaKey => Ok (privateCaKey, public_key privateCaKey)
  end.

Definition known_PEM_type (mode : string) : bool := bool_decide (mode ∈ [PEMTypePrivateKey; PEMTypePublicKey; PEMTypeCertificate]).

(** [PEMEncode]: nil for an unknown type. *)
Definition PEMEncode (content mode : string) : string := if known_PEM_type mode then pem_EncodeToMemory mode content else "".

(** The template of [CreateCertificate]; the serial number is the time since the
    start of the process, in nanoseconds. *)
Definition ca_template (caName : string) (serialNumber : Z) : CertTemplate :=
  mkCertTemplate serialNumber caName (2019, 1, 1)%Z (2030, 1, 1)%Z true ["DigitalSignature"; "CertSign"; "CRLSign"] true.

(** The issuer: the parent when both its certificate and its key are given, and
    otherwise the new certificate itself. *)
Definition issuer (ca : CertTemplate) (privateKey : rsa_key) (parentCertPemBytes parentPrivateKeyPemBytes : option string)
  : res ((CertTemplate + Certificate) * rsa_key) :=
  match parentCertPemBytes, parentPrivateKeyPemBytes with
  | Some parentCert, Some parentKey =>
      match x509_ParseCertificate (PEMDecode parentCert) with
      | Err e => Err e
      | Ok parentCa => match ParsePKCS1PrivateKey (PEMDecode parentKey) with
                       | Err e => Err e
                       | Ok parentPrivateKey => Ok (inr parentCa, parentPrivateKey)
                       end
      end
  | _, _ => Ok (inl ca, privateKey)
  end.

Definition CreateCertificate (draw : nat) (serialNumber : Z) (caName : string)
    (parentCertPemBytes parentPrivateKeyPemBytes : option string) : res (string * string * string) :=
  match GenerateKeyPair draw with
  | Err e => Err e
  | Ok (privateKey, publicCaKey) =>
      let prvKeyBytes := MarshalPKCS1PrivateKey privateKey in
      match MarshalPKIXPublicKey publicCaKey with
      | Err e => Err e
      | Ok pubKeyBytes =>
          let ca := ca_template caName serialNumber in
          match issuer ca privateKey parentCertPemBytes parentPrivateKeyPemBytes with
          | Err e => Err e
          | Ok (parentCa, parentPrivateKey) =>
              match x509_CreateCertificate ca parentCa publicCaKey parentPrivateKey with
              | Err e => Err e
              | Ok caCertificate =>
                  Ok (PEMEncode caCertificate PEMTypeCertificate, PEMEncode prvKeyBytes PEMTypePrivateKey,
                      PEMEncode pubKeyBytes PEMTypePublicKey)
              end
          end
      end
  end.

Definition loadPrivateKey (fpath : string) : res rsa_key :=
  match ReadFile fpath with Err e => Err e | Ok keyPemBytes => ParsePKCS1PrivateKey (PEMDecode keyPemBytes) end.

(** [loadPublicKey]; the key is asserted to be RSA. *)
Definition loadPublicKey (fpath : string) : go (res PublicKey) :=
  match ReadFile fpath with
  | Err e => Ret (Err e)
  | Ok keyPemBytes => match x509_ParsePKIXPublicKey (PEMDecode keyPemBytes) with
                      | Err e => Ret (Err e)
                      | Ok OtherKey => Panic
                      | Ok (RSAKey id) => Ret (Ok (RSAKey id))
                      end
  end.

Definition GetSubjectFromCertificate (certPemBytes : string) : res PkixName :=
  match x509_ParseCertificate (PEMDecode certPemBytes) with Err e => Err e | Ok cert => Ok (cert_Subject cert) end.

Definition GenerateSignature (msg prvKeyPemBytes : string) : res string :=
  match ParsePKCS1PrivateKey (PEMDecode prvKeyPemBytes) with Err e => Err e | Ok prvKey => rsa_SignPKCS1v15 prvKey msg end.
End maker.

(** ** The libraries' contract *)

(** Encodings are read back; a certificate carries the subject, the public key
    and the issuer it was made with; a signature is verified by the public half of
    the key that made it; a certificate verifies against a pool with its issuer,
    which is valid and may sign. *)
Class X509MakerOk `{X509Maker} : Prop := {
  pem_roundtrip mode b : known_PEM_type mode = true -> pem_Decode (pem_EncodeToMemory mode b) = Some b;
  private_roundtrip k : ParsePKCS1PrivateKey (MarshalPKCS1PrivateKey k) = Ok k;
  public_roundtrip k b : MarshalPKIXPublicKey (public_key k) = Ok b -> x509_ParsePKIXPublicKey b = Ok (public_key k);
  public_is_rsa k : exists id, public_key k = RSAKey id;
  certificate_made t p k k' der : x509_CreateCertificate t p (public_key k) k' = Ok der ->
    exists cert, x509_ParseCertificate der = Ok cert /\ cert_Raw cert = der /\ dn_CommonName (cert_Subject cert) = tp_CommonName t /\
      cert_SerialNumber cert = tp_SerialNumber t /\ x509_MarshalPKIXPublicKey cert = MarshalPKIXPublicKey (public_key k) /\
      cert_RawIssuer cert = match p with inl _ => cert_RawSubject cert | inr parent => cert_RawSubject parent end;
  signature_verifies k id msg sig : public_key k = RSAKey id -> rsa_SignPKCS1v15 k msg = Ok sig -> rsa_VerifyPKCS1v15 id msg sig = None;
  issued_verifies t parent k k' der cert roots : x509_CreateCertificate t (inr parent) (public_key k) k' = Ok der ->
    x509_ParseCertificate der = Ok cert -> x509_MarshalPKIXPublicKey parent = MarshalPKIXPublicKey (public_key k') ->
    parent ∈ roots -> cert_Verify cert roots = None
}.

(** ** Facts *)

Section maker_facts.
Context `{X509MakerOk}.
#[local] Set Default Proof Using "Type*".

Lemma PEM_roundtrip b mode : known_PEM_type mode = true -> PEMDecode (PEMEncode b mode) = b.
Proof. intros Hm. unfold PEMDecode, PEMEncode. rewrite Hm. by rewrite pem_roundtrip. Qed.

(** What a new certificate and its keys are made of. *)
Lemma CreateCertificate_Ok draw serial name pc pk certPem prvPem pubPem :
  CreateCertificate draw serial name pc pk = Ok (certPem, prvPem, pubPem) ->
  exists k pub parent pkey der cert,
    PEMDecode prvPem = MarshalPKCS1PrivateKey k /\ MarshalPKIXPublicKey (public_key k) = Ok pub /\ PEMDecode pubPem = pub /\
    issuer (ca_template name serial) k pc pk = Ok (parent, pkey) /\
    x509_CreateCertificate (ca_template name serial) parent (public_key k) pkey = Ok der /\
    PEMDecode certPem = der /\ x509_ParseCertificate der = Ok cert /\ dn_CommonName (cert_Subject cert) = name /\
    cert_SerialNumber cert = serial /\ x509_MarshalPKIXPublicKey cert = Ok pub /\
    cert_RawIssuer cert = match parent with inl _ => cert_RawSubject cert | inr p => cert_RawSubject p end.
Proof.
  unfold CreateCertificate, GenerateKeyPair. destruct (rsa_GenerateKey draw) as [k|]; [|done].
  destruct (MarshalPKIXPublicKey (public_key k)) as [pub|] eqn:Ep; [|done].
  destruct (issuer _ k pc pk) as [[parent pkey]|] eqn:Ei; [|done].
  destruct (x509_CreateCertificate _ _ _ _) as [der|] eqn:Ec; [|done]. intros [= <- <- <-].
  destruct (certificate_made _ _ _ _ _ Ec) as (cert & Hc & _ & Hn & Hs & Hk & Hi).
  exists k, pub, parent, pkey, der, cert. rewrite !PEM_roundtrip by done. rewrite Hk. auto 20.
Qed.

Lemma signature_verified draw serial name pc pk certPem prvPem pubPem msg sig :
  CreateCertificate draw serial name pc pk = Ok (certPem, prvPem, pubPem) ->
  GenerateSignature msg prvPem = Ok sig ->
  x509_VerifySignature msg sig (PEMDecode pubPem) = Ret (true, "", None) /\
  x509_VerifySignature msg sig (certificate_key certPem) = Ret (true, "", None) /\
  exists dn, GetSubjectFromCertificate certPem = Ok dn /\ dn_CommonName dn = name.
Proof.
  intros (k & pub & parent & pkey & der & cert & Hprv & Hpub & Hpp & _ & _ & Hder & Hc & Hn & _ & Hk & _)%CreateCertificate_Ok.
  unfold GenerateSignature. rewrite Hprv, private_roundtrip. intros Hs.
  assert (x509_VerifySignature msg sig pub = Ret (true, "", None)) as Hv.
  { unfold x509_VerifySignature. rewrite (public_roundtrip _ _ Hpub). destruct (public_is_rsa k) as [id Hid].
    by rewrite Hid, (signature_verifies k id msg sig). }
  split; [by rewrite Hpp|]. split.
  - unfold certificate_key, GetPublicKeyFromCertificate, ParseCertificate. by rewrite Hder, Hc, Hk.
  - exists (cert_Subject cert). unfold GetSubjectFromCertificate. by rewrite Hder, Hc.
Qed.


(** With the certificate of its issuer among the certificates of a directory, a
    new certificate and its signatures are what the verifier accepts. *)
Theorem issued_certificate_accepted draw serial name parentPem parentKey certPem prvPem pubPem msg sig dir pool parent pkey :
  CreateCertificate draw serial name (Some parentPem) (Some parentKey) = Ok (certPem, prvPem, pubPem) ->
  GenerateSignature msg prvPem = Ok sig ->
  x509_ParseCertificate (PEMDecode parentPem) = Ok parent -> ParsePKCS1PrivateKey (PEMDecode parentKey) = Ok pkey ->
  x509_MarshalPKIXPublicKey parent = MarshalPKIXPublicKey (public_key pkey) ->
  LoadCertDir dir = Ok pool -> parent ∈ pool -> cert_Raw parent <> PEMDecode certPem ->
  x509_ok msg sig certPem dir.
Proof.
  intros Hcr Hs Hp Hpk Hkey Hd Hin Hraw. split; [|exists ""; by eapply signature_verified].
  pose proof Hcr as (k & pub & parent' & pkey' & der & cert & _ & _ & _ & Hi & Hmade & Hder & Hc & _)%CreateCertificate_Ok.
  unfold issuer in Hi. rewrite Hp, Hpk in Hi. injection Hi as <- <-.
  destruct (certificate_made _ _ _ _ _ Hmade) as (cert' & Hc' & Hr & _). rewrite Hc in Hc'. injection Hc' as <-.
  unfold VerifyCertificate, ParseCertificate. rewrite Hder, Hc, Hd.
  rewrite (issued_verifies _ parent k pkey der cert _ Hmade Hc Hkey); [by exists ""|].
  apply list_elem_of_In, filter_In. split; [by apply list_elem_of_In|]. rewrite bool_decide_false; [done|]. by rewrite Hr, <-Hder.
Qed.
End maker_facts.

(** ** Concrete instance: keys are their names, and encodings are readable *)

Fixpoint bits (p : positive) : string :=
  match p with xH => "1" | xO p => String "0"%char (bits p) | xI p => String "I"%char (bits p) end.
Fixpoint unbits (s : string) : option positive :=
  match s with
  | "1" => Some xH
  | String c s => p ← unbits s; if bool_decide (c = "0"%char) then Some (xO p) else if bool_decide (c = "I"%char) then Some (xI p) else None
  | "" => None
  end.
Lemma unbits_bits p : unbits (bits p) = Some p.
Proof.
  induction p as [p IH|p IH|]; [..|done]; cbn [bits unbits];
    (destruct (bits p) as [|c s] eqn:E; [by destruct p|]); rewrite IH; done.
Qed.

(** Name, serial number, key, key of the issuer, name of the issuer. *)
Definition der_fields : Type := string * Z * string * string * string.
Definition der_encode (f : der_fields) : string := bits (encode f).
Definition der_decode (s : string) : option der_fields := unbits s ≫= decode.
Lemma der_roundtrip f : der_decode (der_encode f) = Some f.
Proof. unfold der_decode, der_encode. rewrite unbits_bits. cbn. apply decode_encode. Qed.

Definition der_key (raw : string) : res string := match der_decode raw with Some (_, _, pub, _, _) => Ok pub | None => Err "asn1" end.
Definition der_signer (raw : string) : res string := match der_decode raw with Some (_, _, _, signer, _) => Ok signer | None => Err "" end.
Definition toy_CreateCertificate (t : CertTemplate) (p : CertTemplate + Certificate) (pub : PublicKey) (k : string) : res string :=
  match pub with
  | OtherKey => Err "x509: unsupported public key"
  | RSAKey id => Ok (der_encode (tp_CommonName t, tp_SerialNumber t, id, k,
                                 match p with inl _ => tp_CommonName t | inr parent => cert_RawSubject parent end))
  end.
Definition toy_certificate (f : der_fields) (raw : string) : Certificate :=
  let '(name, serial, _, _, iss) := f in mkCertificate raw (mkPkixName [] [] [] [] [] [] [] name) serial name iss.

(** The certificate of an authority, made by itself. *)
Definition root_der : string := der_encode ("root", 1%Z, "root-key", "root-key", "root").

Definition toy_x509 : X509Lib := {|
  pem_Decode s := Some s;
  x509_ParseCertificate s := match der_decode s with Some f => Ok (toy_certificate f s) | None => Err "asn1: syntax error" end;
  x509_MarshalPKIXPublicKey c := der_key (cert_Raw c);
  x509_ParsePKIXPublicKey s := Ok (RSAKey s);
  cert_Verify c roots := if existsb (fun root => match der_key (cert_Raw root), der_signer (cert_Raw c) with
                                                 | Ok a, Ok b => bool_decide (a = b) | _, _ => false end) roots
                         then None else Some "unknown authority";
  rsa_VerifyPKCS1v15 id msg sig := if bool_decide (sig = id +:+ ":" +:+ msg) then None else Some "verification error";
  ReadDir d := if bool_decide (d = "/ca/x509") then Ok [("root.crt", false)] else Err "no such directory";
  ReadFile _ := Ok root_der |}.

Definition toy_maker : @X509Maker toy_x509 := {|
  rsa_key := string;
  public_key k := RSAKey k;
  rsa_GenerateKey draw := Ok (if Nat.eqb draw 0 then "root-key" else "key");
  MarshalPKCS1PrivateKey k := k;
  ParsePKCS1PrivateKey s := Ok s;
  MarshalPKIXPublicKey pub := match pub with RSAKey id => Ok id | OtherKey => Err "" end;
  x509_CreateCertificate := toy_CreateCertificate;
  pem_EncodeToMemory _ b := b;
  rsa_SignPKCS1v15 k msg := Ok (k +:+ ":" +:+ msg) |}.

Lemma toy_maker_ok : @X509MakerOk toy_x509 toy_maker.
Proof.
  split; cbn.
  - done.
  - done.
  - by intros k b [= <-].
  - by eexists.
  - intros t p k k' der [= <-]. rewrite der_roundtrip. eexists. split; [done|]. cbn.
    unfold der_key. rewrite der_roundtrip. by destruct p.
  - intros k id msg sig [= <-] [= <-]. by rewrite bool_decide_true.
  - intros t parent k k' der cert roots [= <-]. rewrite der_roundtrip. intros [= <-] Hk Hin. cbn [cert_Raw toy_certificate].
    assert (existsb (fun root => match der_key (cert_Raw root), der_signer (der_encode (tp_CommonName t, tp_SerialNumber t, k, k', cert_RawSubject parent)) with
      | Ok a, Ok b => bool_decide (a = b) | _, _ => false end) roots = true) as ->; [|done].
    apply existsb_true. exists parent. split; [done|]. unfold der_signer. rewrite Hk, der_roundtrip. by rewrite bool_decide_true.
Qed.

Section samples.
#[local] Existing Instances toy_x509 toy_maker toy_maker_ok.

(** A certificate issued by the authority, its keys, and a signature. *)
Definition issued : string * string * string :=
  match CreateCertificate 1 7 "carol" (Some root_der) (Some "root-key") with Ok r => r | Err _ => ("", "", "") end.


Lemma issued_certificate_accepted_witness : x509_ok "msg" "key:msg" issued.1.1 "/ca/x509".
Proof.
  apply (issued_certificate_accepted 1 7 "carol" root_der "root-key" issued.1.1 issued.1.2 issued.2 "msg" "key:msg" "/ca/x509"
           [toy_certificate ("root", 1%Z, "root-key", "root-key", "root") root_der]
           (toy_certificate ("root", 1%Z, "root-key", "root-key", "root") root_der) ("root-key" : @rsa_key toy_x509 toy_maker)); try (vm_compute; reflexivity).
  - left.
  - vm_compute. discriminate.
Defined.
End samples.
