(* ===== verification/PgpKeys.v ===== *)
(** * Key rings  ([shield/pkg/util/sign/pgp/pgp.go],
    [integrity-shield-operator/pgpkey/pgpkey.go])

    Looking signers up in a key ring, and making a pair of key rings: a private one
    with a key for everyone, and a public one without those that are to be
    unknown. *)
From S2P Require Import Prelude GoStrings Signing GoState.
From stdpp Require Import options.

#[global] Instance UserId_eq_dec : EqDecision UserId.
Proof. solve_decision. Defined.
#[global] Instance Entity_eq_dec : EqDecision Entity.
Proof. solve_decision. Defined.

(** ** Looking up *)

Definition MatchIdentity (idt : UserId) (signer : string) : bool :=
  if Contains (uid_Email idt) signer then true
  else if Contains (uid_Name idt) signer then true
  else if Contains (uid_Comment idt) signer then true
  else false.

Definition EntityListToSlice (keyring : list Entity) : list Entity := foldl (fun entSlice ent => entSlice ++ [ent]) [] keyring.

(** An entity without an identity is dereferenced. *)
Fixpoint signers_loop (keys : list Entity) (signers : list Signer) : go (list Signer) :=
  match keys with
  | [] => Ret signers
  | key :: keys' => match GetFirstIdentity key with
                    | None => Panic
                    | Some idt => signers_loop keys' (signers ++ [NewSignerFromUserId idt])
                    end
  end.
Definition GetSignersFromEntityList (keyring : list Entity) : go (list Signer) := signers_loop (EntityListToSlice keyring) [].

(** [EntityList.DecryptionKeys]: the entity of each key that can decrypt. *)
Class DecryptionLib := { DecryptionKeys : list Entity -> list Entity }.

Fixpoint signer_key_loop (keys : list Entity) (signer : string) : go (option Entity) :=
  match keys with
  | [] => Ret None
  | ent :: keys' => match GetFirstIdentity ent with
                    | None => Panic
                    | Some idt => if MatchIdentity idt signer then Ret (Some ent) else signer_key_loop keys' signer
                    end
  end.
Definition FindSignerKey `{DecryptionLib} (keyring : list Entity) (signer : string) : go (option Entity) :=
  signer_key_loop (DecryptionKeys keyring) signer.

(** ** Making key rings *)

Definition defaultPath : string := "/tmp/".
Definition defaultPublicKeyringName : string := "pubring.gpg".
Definition defaultPrivateKeyringName : string := "secring.gpg".

Record Keyring := mkKeyring { kr_Public : gmap string string; kr_Private : gmap string string }.

Definition GetPublicKeyringName : string := defaultPublicKeyringName.

(** [openpgp]: a new entity, whose keys depend on how often the random source was
    used, and the two encodings; the file
    system: the errors of making a file and of reading one. *)
Class KeyringLib := {
  NewEntity : nat -> string -> res Entity;
  SerializePrivate : Entity -> res string;
  Serialize : Entity -> res string;
  create_error : string -> option string;
  read_error : string -> option string
}.

Definition getFirstIdentity (idts : list UserId) : option UserId := head idts.
Definition keyInList (key : string) (list : list string) : bool := existsb (fun item => bool_decide (key = item)) list.

Section keyring.
Context `{KeyringLib}.

Fixpoint CreateEntities (draw : nat) (signers : list string) : res (list Entity) :=
  match signers with
  | [] => Ok []
  | signer :: signers' =>
      match NewEntity draw signer with
      | Err e => Err e
      | Ok ent => match CreateEntities (S draw) signers' with Err e => Err e | Ok entList => Ok (ent :: entList) end
      end
  end.

(** Computations on the files. *)
Notation FM := (ST (gmap string string)).

Definition os_Create (path : string) : FM (option string) := fun s =>
  Ret (match create_error path with Some e => (Some e, s) | None => (None, <[path := ""]> s) end).
Definition write (path text : string) : FM unit := fun s => Ret (tt, <[path := default "" (s !! path) +:+ text]> s).
Definition read_file (path : string) : FM (res string) := fun s =>
  Ret (match read_error path, s !! path with
       | Some e, _ => (Err e, s)
       | None, Some text => (Ok text, s)
       | None, None => (Err "no such file or directory", s)
       end).

Fixpoint write_private (path : string) (entList : list Entity) : FM (option string) :=
  match entList with
  | [] => mret None
  | ent :: entList' =>
      match SerializePrivate ent with
      | Err e => mret (Some ("Error in serializing entities for private keyring; " +:+ e))
      | Ok b => _ ← write path b; write_private path entList'
      end
  end.

Fixpoint write_public (path : string) (invalidSigners : list string) (entList : list Entity) : FM (option string) :=
  match entList with
  | [] => mret None
  | ent :: entList' =>
      match getFirstIdentity (ent_Identities ent) with
      | None => st_panic
      | Some idt =>
          if keyInList (uid_Email idt) invalidSigners then write_public path invalidSigners entList'
          else match Serialize ent with
               | Err e => mret (Some ("Error in serializing entities for public keyring; " +:+ e))
               | Ok b => _ ← write path b; write_public path invalidSigners entList'
               end
      end
  end.

Definition CreateKeyringFile (path : string) (signers invalidSigners : list string) : FM (option string) :=
  let allSigners := signers ++ invalidSigners in
  match CreateEntities 0 allSigners with
  | Err e => mret (Some ("Error in creating entities for public keyring; " +:+ e))
  | Ok entList =>
      e1 ← os_Create (path +:+ defaultPrivateKeyringName);
      match e1 with
      | Some e => mret (Some ("Error in creating private keyring file; " +:+ e))
      | None =>
          e2 ← write_private (path +:+ defaultPrivateKeyringName) entList;
          match e2 with
          | Some e => mret (Some e)
          | None =>
              e3 ← os_Create (path +:+ defaultPublicKeyringName);
              match e3 with
              | Some e => mret (Some ("Error in creating public keyring file; " +:+ e))
              | None => write_public (path +:+ defaultPublicKeyringName) invalidSigners entList
              end
          end
      end
  end.

(** [GetKeyringValue]; the path ends in a slash, as [defaultPath] does. *)
Definition GetKeyringValue (path : string) : FM (res Keyring) :=
  rawPub ← read_file (path +:+ defaultPublicKeyringName);
  match rawPub with
  | Err e => mret (Err ("Error in getting value of public keyring; " +:+ e))
  | Ok rawPub =>
      rawSec ← read_file (path +:+ defaultPrivateKeyringName);
      mret (match rawSec with
            | Err e => Err ("Error in getting value private keyring; " +:+ e)
            | Ok rawSec => Ok (mkKeyring {[defaultPublicKeyringName := rawPub]} {[defaultPrivateKeyringName := rawSec]})
            end)
  end.

Definition GenerateKeyring (signers invalidSigners : list string) : FM (res Keyring) :=
  err ← CreateKeyringFile defaultPath signers invalidSigners;
  match err with
  | Some e => mret (Err e)
  | None => GetKeyringValue defaultPath
  end.
End keyring.

(** ** Facts *)

Lemma EntityListToSlice_id keyring : EntityListToSlice keyring = keyring.
Proof.
  unfold EntityListToSlice.
  assert (forall acc, foldl (fun entSlice ent => entSlice ++ [ent]) acc keyring = acc ++ keyring) as Hg; [|apply Hg].
  induction keyring as [|e l IH]; intros acc; cbn; [by rewrite app_nil_r|]. by rewrite IH, <-(assoc_L (++)).
Qed.

(** The signers of a key ring are the first identities of its entities. *)
Theorem GetSignersFromEntityList_correct keyring signers :
  GetSignersFromEntityList keyring = Ret signers <->
  Forall2 (fun ent s => exists idt, GetFirstIdentity ent = Some idt /\ s = NewSignerFromUserId idt) keyring signers.
Proof.
  unfold GetSignersFromEntityList. rewrite EntityListToSlice_id.
  assert (forall acc, signers_loop keyring acc = Ret signers <->
    exists new, signers = acc ++ new /\
      Forall2 (fun ent s => exists idt, GetFirstIdentity ent = Some idt /\ s = NewSignerFromUserId idt) keyring new) as Hg.
  { induction keyring as [|e l IH]; intros acc; cbn [signers_loop].
    - split; [intros [= ->]; exists []; by rewrite app_nil_r|]. intros (new & -> & Hn). inversion Hn. by rewrite app_nil_r.
    - destruct (GetFirstIdentity e) as [idt|] eqn:E; [rewrite IH|].
      + split; intros (new & -> & Hn).
        * exists (NewSignerFromUserId idt :: new). rewrite <-(assoc_L (++)). split; [done|]. constructor; [by exists idt|done].
        * inversion Hn as [|? s ? new' (idt' & He & ->) Hn']; simplify_eq. exists new'. by rewrite <-(assoc_L (++)).
      + split; [done|]. intros (new & _ & Hn). inversion Hn as [|? s ? new' (idt' & He & _) _]; simplify_eq. }
  rewrite Hg. cbn. naive_solver.
Qed.

(** The first entity with a match, in the order of the keys. *)
Theorem FindSignerKey_correct `{DecryptionLib} keyring signer ent :
  FindSignerKey keyring signer = Ret (Some ent) ->
  ent ∈ DecryptionKeys keyring /\ exists idt, GetFirstIdentity ent = Some idt /\
    (Contains (uid_Email idt) signer = true \/ Contains (uid_Name idt) signer = true \/ Contains (uid_Comment idt) signer = true).
Proof.
  unfold FindSignerKey. induction (DecryptionKeys keyring) as [|e l IH]; cbn [signer_key_loop]; [done|].
  destruct (GetFirstIdentity e) as [idt|] eqn:E; [|done]. destruct (MatchIdentity idt signer) eqn:Em.
  - intros [= ->]. split; [left|]. exists idt. split; [done|]. unfold MatchIdentity in Em.
    destruct (Contains (uid_Email idt) signer), (Contains (uid_Name idt) signer), (Contains (uid_Comment idt) signer); auto.
  - intros (Hin & Hx)%IH. split; [by right|done].
Qed.

(** *** Rings *)

(** The text of a ring: the encodings of its entities. *)
Fixpoint serialize_all (f : Entity -> res string) (ents : list Entity) : option string :=
  match ents with
  | [] => Some ""
  | e :: ents' => match f e, serialize_all f ents' with Ok b, Some t => Some (b +:+ t) | _, _ => None end
  end.

Definition first_email (ent : Entity) : string := default "" (uid_Email <$> GetFirstIdentity ent).
Definition known (invalid : list string) (ent : Entity) : bool := negb (keyInList (first_email ent) invalid).

Section ring_facts.
Context `{KeyringLib}.
Notation FM := (ST (gmap string string)).

Lemma write_private_None path ents s s' t0 :
  write_private path ents s = Ret (None, s') -> s !! path = Some t0 ->
  exists t, serialize_all SerializePrivate ents = Some t /\ s' = <[path := t0 +:+ t]> s.
Proof.
  revert s t0. induction ents as [|e ents IH]; intros s t0; cbn [write_private serialize_all].
  { intros [= <-] Hp. exists "". split; [done|]. by rewrite str_app_nil_r, insert_id. }
  destruct (SerializePrivate e) as [b|]; [|done]. intros Hw Hp.
  apply ST_bind_Ret in Hw as ([] & s1 & [= <-] & Hw). rewrite Hp in Hw. cbn in Hw.
  destruct (IH _ (t0 +:+ b) Hw) as (t & -> & ->); [by rewrite lookup_insert_eq|]. exists (b +:+ t). split; [done|].
  by rewrite insert_insert_eq, str_app_assoc.
Qed.

Lemma write_public_None path invalid ents s s' t0 :
  write_public path invalid ents s = Ret (None, s') -> s !! path = Some t0 ->
  exists t, serialize_all Serialize (List.filter (known invalid) ents) = Some t /\ s' = <[path := t0 +:+ t]> s.
Proof.
  revert s t0. induction ents as [|e ents IH]; intros s t0; cbn [write_public List.filter serialize_all].
  { intros [= <-] Hp. exists "". split; [done|]. by rewrite str_app_nil_r, insert_id. }
  destruct (getFirstIdentity (ent_Identities e)) as [idt|] eqn:Ei; [|done].
  assert (known invalid e = negb (keyInList (uid_Email idt) invalid)) as ->.
  { unfold known, first_email, GetFirstIdentity. unfold getFirstIdentity in Ei. by rewrite Ei. }
  destruct (keyInList _ invalid); cbn [negb]; [apply IH|]. cbn [serialize_all].
  destruct (Serialize e) as [b|]; [|done]. intros Hw Hp.
  apply ST_bind_Ret in Hw as ([] & s1 & [= <-] & Hw). rewrite Hp in Hw. cbn in Hw.
  destruct (IH _ (t0 +:+ b) Hw) as (t & -> & ->); [by rewrite lookup_insert_eq|]. exists (b +:+ t). split; [done|].
  by rewrite insert_insert_eq, str_app_assoc.
Qed.

(** The pair of rings: everyone's private key, and the public keys of those whose
    address is not to be unknown. *)
Theorem GenerateKeyring_rings signers invalid s s' kr :
  GenerateKeyring signers invalid s = Ret (Ok kr, s') ->
  exists ents pub sec, CreateEntities 0 (signers ++ invalid) = Ok ents /\
    kr = mkKeyring {[defaultPublicKeyringName := pub]} {[defaultPrivateKeyringName := sec]} /\
    serialize_all SerializePrivate ents = Some sec /\
    serialize_all Serialize (List.filter (known invalid) ents) = Some pub.
Proof.
  unfold GenerateKeyring. rewrite ST_bind_Ret. intros ([e|] & s1 & Hc & Hg); [done|].
  unfold CreateKeyringFile in Hc. destruct (CreateEntities 0 _) as [ents|]; [|done].
  apply ST_bind_Ret in Hc as (e1 & s2 & [= H1] & Hc). destruct (create_error _); simplify_eq; try done.
  apply ST_bind_Ret in Hc as ([e2|] & s3 & Hw & Hc); [done|].
  destruct (write_private_None _ _ _ _ "" Hw) as (sec & Hsec & ->); [by rewrite lookup_insert_eq|]. rewrite insert_insert_eq in Hc.
  apply ST_bind_Ret in Hc as (e3 & s4 & [= H3] & Hc). destruct (create_error _); simplify_eq; try done.
  destruct (write_public_None _ _ _ _ _ "" Hc) as (pub & Hpub & ->); [by rewrite lookup_insert_eq|]. rewrite insert_insert_eq in Hg.
  unfold GetKeyringValue in Hg. apply ST_bind_Ret in Hg as (rp & s5 & [= Hr] & Hg).
  destruct (read_error _) in Hr; [by simplify_eq|]. rewrite lookup_insert_eq in Hr. simplify_eq.
  apply ST_bind_Ret in Hg as (rs & s6 & [= Hr] & Hg).
  destruct (read_error _) in Hr; [by simplify_eq|]. rewrite lookup_insert_ne, lookup_insert_eq in Hr by done. simplify_eq.
  injection Hg as <- <-. by exists ents, pub, sec.
Qed.
End ring_facts.

(** *** Verification with a ring *)

(** A ring that is mounted under a path is read back as the entities it was
    written from, and a signature is attributed to an entity of the ring. *)
Class MountedRing `{KeyringLib, PgpLib} (keyPath text : string) : Prop := {
  ring_reads ents : serialize_all Serialize ents = Some text -> read_keyring keyPath = (ents, None);
  signer_in_ring ring msg sig ent : CheckArmoredDetachedSignature ring msg sig = Some ent -> ent ∈ ring
}.

(** C25: with the public ring of a pair mounted, no signature is attributed to a
    signer that was to be unknown. *)
Theorem invalid_signers_unknown `{KeyringLib, PgpLib} signers invalid s s' kr keyPath text msg sig r signer fp err :
  GenerateKeyring signers invalid s = Ret (Ok kr, s') -> kr_Public kr !! GetPublicKeyringName = Some text ->
  MountedRing keyPath text ->
  pgp_VerifySignature keyPath msg sig = Ret (true, r, Some signer, fp, err) ->
  sg_Email signer ∉ invalid.
Proof.
  intros (ents & pub & sec & _ & -> & _ & Hpub)%GenerateKeyring_rings Ht Hm Hv Hin.
  cbn [kr_Public] in Ht. unfold GetPublicKeyringName in Ht. rewrite lookup_singleton_eq in Ht. injection Ht as <-.
  apply pgp_verified in Hv as (_ & _ & _ & ring & ent & uid & Hr & Hc & Hh & [= ->]).
  rewrite (ring_reads _ Hpub) in Hr. injection Hr as <-. apply signer_in_ring in Hc.
  apply list_elem_of_In, filter_In in Hc as [_ Hk]. unfold known, first_email, GetFirstIdentity in Hk. rewrite Hh in Hk. cbn in Hk, Hin.
  apply negb_true_iff in Hk. unfold keyInList in Hk. rewrite existsb_false in Hk. specialize (Hk _ Hin).
  by rewrite bool_decide_true in Hk.
Qed.

(** ** Concrete instance: rings of named keys *)

(** The texts of the entities of two signers; one of them is to be unknown. *)
Definition ring_entity (name : string) : Entity := mkEntity [mkUserId name name name] None.
Definition sample_keyring_lib : KeyringLib := {|
  NewEntity _ name := if bool_decide (name = "") then Err "invalid argument" else Ok (ring_entity name);
  SerializePrivate e := Ok ("-" +:+ first_email e);
  Serialize e := if bool_decide (e = ring_entity "alice") then Ok "A" else if bool_decide (e = ring_entity "mallory") then Ok "M" else Err "unknown";
  create_error _ := None;
  read_error _ := None |}.
Definition sample_ring_pgp : PgpLib := {|
  read_keyring path := if bool_decide (path = "/keyring/pgp/pubring.gpg") then ([ring_entity "alice"], None) else ([], Some "no such file");
  CheckArmoredDetachedSignature ring msg sig := List.find (fun e => bool_decide (sig = first_email e +:+ ":" +:+ msg)) ring |}.

Section samples.
#[local] Existing Instances sample_keyring_lib sample_ring_pgp.

Lemma sample_ring_mounted : MountedRing "/keyring/pgp/pubring.gpg" "A".
Proof.
  split.
  - intros ents Hs. assert (ents = [ring_entity "alice"]) as ->; [|done].
    destruct ents as [|e [|e' ents]]; cbn in Hs; [done| |].
    + case_bool_decide as Hb; [by rewrite Hb|]. case_bool_decide; discriminate Hs.
    + destruct (serialize_all _ ents) as [t|]; repeat case_bool_decide; cbn in Hs; discriminate Hs.
  - intros ring msg sig ent Hf. apply find_some in Hf as [Hf _]. by apply list_elem_of_In.
Qed.

Definition sample_rings : Keyring * gmap string string :=
  match GenerateKeyring ["alice"; "mallory"] ["mallory"] ∅ with Ret (Ok kr, s) => (kr, s) | _ => (mkKeyring ∅ ∅, ∅) end.

Lemma invalid_signers_unknown_witness :
  pgp_VerifySignature "/keyring/pgp/pubring.gpg" "msg" "alice:msg" = Ret (true, "", Some (mkSigner "alice" "alice" "alice"), Some "", None) /\
  "alice" ∉ ["mallory"].
Proof.
  split; [vm_compute; reflexivity|].
  apply (invalid_signers_unknown ["alice"; "mallory"] ["mallory"] ∅ sample_rings.2 sample_rings.1 "/keyring/pgp/pubring.gpg" "A"
           "msg" "alice:msg" "" (mkSigner "alice" "alice" "alice") (Some "") None); try (vm_compute; reflexivity).
  exact sample_ring_mounted.
Defined.
End samples.
