(* ===== verification/LongKey.v ===== *)
(** * Other ways to look into an object  ([shield/pkg/util/mapnode/node.go], [diff.go])

    Beside the lookup by path in a tree of nodes, the package has one in the
    decoded object itself and one by JSONPath expressions. *)
From S2P Require Import Prelude GoStrings GoJson MapNode Diff Signing SignVerifier.
From stdpp Require Import options.

(** ** Values *)

(** [NodeValue]: a value with its type. *)
Inductive go_type := TString | TFloat64 | TBool.
Record NodeValue := mkNodeValue { nv_Type : go_type; nv_Value : scalar }.
Definition TypeOf (v : scalar) : go_type := match v with SStr _ => TString | SNum _ => TFloat64 | SBool _ => TBool end.
Definition NewNodeValue (val : scalar) : NodeValue := mkNodeValue (TypeOf val) val.
Definition NodeValue_Interface (nv : NodeValue) : scalar := nv_Value nv.

(** [DiffResult.Values]: the values before and after of each item. *)
Definition Values (dr : list Difference) : list (option scalar * option scalar) := (fun di => (d_before di, d_after di)) <$> dr.

(** ** Keys *)

Definition GetConcreteKeys (keys : list string) (n : Node) : list string := (validateKeyList n keys).1.

(** A slice as a map of its indices. *)
Fixpoint slice_from (i : nat) (l : list value) : list (string * value) :=
  match l with [] => [] | v :: l' => (Itoa i, v) :: slice_from (S i) l' end.
Definition slice_map (l : list value) : list (string * value) := slice_from 0 l.

(** [recursiveGetByKey] on the keys from [i] on; [seen] is [keyList\[:i\]].
    Without keys the index is out of range. *)
Fixpoint recursiveGetByKey (m : list (string * value)) (seen keys : list string) : go (res value) :=
  match keys with
  | [] => Panic
  | key :: keys' =>
      let current := Join (seen ++ [key]) "." in
      match assoc key m with
      | None => Ret (Err ("key `" +:+ current +:+ "` not found"))
      | Some val =>
          match keys' with
          | [] => Ret (Ok val)
          | _ =>
              match val with
              | VObj valMap => recursiveGetByKey valMap (seen ++ [key]) keys'
              | VArr valSlice => recursiveGetByKey (slice_map valSlice) (seen ++ [key]) keys'
              | _ => Ret (Err ("cannot cast `" +:+ current +:+ "` to map[string]interface{}"))
              end
          end
      end
  end.

Definition GetValueByLongKey (m : list (string * value)) (longKey : string) : go (res value) :=
  recursiveGetByKey m [] (splitConcatKey longKey).

(** ** JSONPath *)

(** [github.com/oliveagle/jsonpath] *)
Class JsonPath := { JsonPathLookup : value -> string -> res value }.

Section jsonpath.
Context `{FloatFmt, JsonLib, JsonPath}.

Definition Node_String (n : Node) : string := ToJson n.

Definition GetNodeByJSONPath (n : Node) (jpathKey : string) : Node * bool :=
  match Unmarshal (ToJson n) with
  | None => (emptyNode, false)
  | Some nIf =>
      match JsonPathLookup nIf jpathKey with
      | Err _ => (emptyNode, false)
      | Ok res => match NewFromInterfaceBytes (json_Marshal_value res) with
                  | None => (emptyNode, false)
                  | Some foundNode => (foundNode, true)
                  end
      end
  end.
End jsonpath.

(** ** Facts *)

(** A segment that is an index is written the way the indices of a slice are. *)
Definition plain_index (k : string) : Prop :=
  (forall j, k = Itoa j -> (Z.of_nat j <= int64_max)%Z) /\ (forall i, Atoi k = Some i -> (0 <= i)%Z -> k = Itoa (Z.to_nat i)).

Lemma assoc_map {A B} (f : A -> B) k l : assoc k ((fun kv => (kv.1, f kv.2)) <$> l) = f <$> assoc k l.
Proof. induction l as [|[k' v] l IH]; [done|]. cbn. by destruct (bool_decide (k = k')). Qed.

Lemma assoc_slice i l j : assoc (Itoa (i + j)) (slice_from i l) = l !! j.
Proof.
  revert i j. induction l as [|v l IH]; intros i j; [done|]. cbn. destruct j as [|j].
  - by rewrite Nat.add_0_r, bool_decide_true.
  - rewrite bool_decide_false by (intros Hi%Itoa_inj; lia). rewrite <-Nat.add_succ_comm. apply IH.
Qed.

Lemma assoc_slice_Some i l k v : assoc k (slice_from i l) = Some v -> exists j, k = Itoa (i + j) /\ l !! j = Some v.
Proof.
  revert i. induction l as [|v' l IH]; intros i; [done|]. cbn. case_bool_decide as Hk.
  - intros [= <-]. exists 0. by rewrite Nat.add_0_r.
  - intros (j & -> & Hj)%IH. exists (S j). split; [f_equal; lia|done].
Qed.

Lemma GetChild_obj m k : GetChild (NewNode (VObj m)) k = NewNode <$> assoc k m.
Proof. cbn. apply assoc_map. Qed.

Lemma GetChild_slice l k : plain_index k -> GetChild (NewNode (VArr l)) k = NewNode <$> assoc k (slice_map l).
Proof.
  intros [Hj Hi]. cbn [NewNode GetChild]. rewrite length_map. unfold slice_map. destruct (Atoi k) as [i|] eqn:Ea.
  - destruct (Z.ltb_spec i 0) as [Hn|Hn]; cbn [orb].
    { destruct (assoc k (slice_from 0 l)) as [v|] eqn:E; [|done]. apply assoc_slice_Some in E as (j & -> & _).
      rewrite Atoi_Itoa in Ea by by apply Hj. simplify_eq. lia. }
    specialize (Hi i eq_refl Hn). pose proof (assoc_slice 0 l (Z.to_nat i)) as Hs. cbn [Nat.add] in Hs. rewrite <-Hi in Hs. rewrite Hs.
    destruct (Z.leb_spec (Z.of_nat (length l)) i).
    + by rewrite lookup_ge_None_2 by lia.
    + change (map NewNode l) with (NewNode <$> l). by rewrite list_lookup_fmap.
  - destruct (assoc k (slice_from 0 l)) as [v|] eqn:E; [|done]. apply assoc_slice_Some in E as (j & -> & _).
    by rewrite Atoi_Itoa in Ea by by apply Hj.
Qed.

Lemma get_path_values m seen keys :
  keys <> [] -> Forall plain_index keys ->
  exists r, recursiveGetByKey m seen keys = Ret r /\
    get_path (NewNode (VObj m)) keys = match r with Ok v => Some (NewNode v) | Err _ => None end.
Proof.
  revert m seen. induction keys as [|key keys IH]; intros m seen Hne Hp; [done|]. apply Forall_cons in Hp as [_ Hp].
  cbn [recursiveGetByKey get_path]. rewrite GetChild_obj. destruct (assoc key m) as [val|]; cbn [fmap option_fmap option_map]; [|by eexists].
  destruct keys as [|k2 keys]; [by eexists|]. pose proof (fun m' => IH m' (seen ++ [key]) ltac:(done) Hp) as IH'. clear IH.
  apply Forall_cons in Hp as [Hk2 _].
  destruct val as [|sc|l|m']; [by eexists..| |apply IH'].
  destruct (IH' (slice_map l)) as (r & Hr & Hg). exists r. split; [done|]. rewrite <-Hg. cbn [get_path].
  by rewrite GetChild_slice, GetChild_obj by done.
Qed.

(** Looking a key up in the decoded object is looking it up in its tree,
    for every key whose indices are written in the usual way. *)
Theorem GetValueByLongKey_GetNode m longKey :
  splitConcatKey longKey <> [] -> Forall plain_index (splitConcatKey longKey) ->
  exists r, GetValueByLongKey m longKey = Ret r /\
    GetNode (NewFromMap m) longKey = match r with Ok v => Some (NewNode v) | Err _ => None end.
Proof. apply get_path_values. Qed.

(** An index in another form is one to the tree only. *)
Example other_index :
  GetNode (NewFromMap [("l", VArr [VScalar (SBool true)])]) "l.00" = Some (NVal (SBool true)) /\
  GetValueByLongKey [("l", VArr [VScalar (SBool true)])] "l.00" = Ret (Err "key `l.00` not found").
Proof. split; vm_compute; reflexivity. Qed.

(** A key whose quotes do not balance has no segments. *)
Example unbalanced_key_panics : GetValueByLongKey [] dquote_str = Panic.
Proof. vm_compute. reflexivity. Qed.

Lemma GetValueByLongKey_GetNode_witness :
  GetNode (NewFromMap [("l", VArr [VScalar (SBool true)])]) "l.0" = Some (NVal (SBool true)).
Proof.
  destruct (GetValueByLongKey_GetNode [("l", VArr [VScalar (SBool true)])] "l.0") as (r & Hr & Hg).
  - vm_compute. discriminate.
  - replace (splitConcatKey "l.0") with ["l"; "0"] by (vm_compute; reflexivity). constructor; [split|constructor; [split|constructor]].
    + intros j Hj. pose proof (Itoa_parse j) as Hp. rewrite <-Hj in Hp. discriminate Hp.
    + intros i Hi. discriminate Hi.
    + intros j Hj. apply (Itoa_inj 0 j) in Hj. subst j. done.
    + intros i Hi _. injection Hi as <-. reflexivity.
  - vm_compute in Hr. injection Hr as <-. exact Hg.
Defined.
