(* ===== verification/Observer.v ===== *)
(** * The observer  ([observer/pkg/observer/observer.go], [loader.go], [observer/main.go])

    A second program in the pod of the server: it collects the lines the shield
    writes to its context log and, at an interval, writes a summary of them and of
    the shield's pods to a config map. *)
From S2P Require Import Prelude GoStrings GoJson MapNode Common ShieldConfig Signing World GoState.
From stdpp Require Import options pretty.

Definition defaultIntervalSecondsStr : string := "30".
Definition defaultSummaryConfigMapName : string := "integrity-shield-status-report".
Definition timeFormat : string := "2006-01-02 15:04:05".

(** ** The cluster as the observer sees it *)

Section observer.
(** [v1.ContainerState], which the observer only copies. *)
Context {ContainerState : Type}.

(** [v1.ContainerStatus] and the struct of the same name the observer encodes. *)
Record v1_ContainerStatus := mkV1ContainerStatus {
  vcs_Name : string; vcs_State : ContainerState; vcs_LastTerminationState : ContainerState;
  vcs_RestartCount : Z; vcs_Ready : bool; vcs_Image : string }.
Record ContainerStatus := mkContainerStatus {
  cst_Name : string; cst_State : ContainerState; cst_LastState : ContainerState; cst_RestartCount : Z; cst_Ready : bool }.

Record Pod := mkPod { pod_Name : string; pod_ContainerStatuses : list v1_ContainerStatus }.

(** [RuntimeData]; of the lists the summary only counts, the length is kept.  The
    specification of the loaded shield configuration may be nil. *)
Record RuntimeData := mkRuntimeData {
  rt_ShieldConfig : option ShieldConfig;
  rt_SigConfList : nat;
  rt_RSPList : nat;
  rt_NSList : nat;
  rt_ResSigList : nat;
  rt_PodList : list Pod;
}.

Record Loader := mkLoader { ol_IShiledNamespace : string; ol_ShieldConfigName : string }.
Definition NewLoader (iShieldNS shieldConfigName : string) : Loader := mkLoader iShieldNS shieldConfigName.

(** The clients [Load] makes. *)
Inductive client := SConfClient | SigConfClient | RspClient | RsigClient | K8sClient.

(** A config map: the fields the observer does not touch, and its data. *)
Record ConfigMap := mkConfigMap { cm_Name : string; cm_rest : string; cm_Data : gmap string string }.

(** The API server by the number of the call, the clock, [json.Marshal] of the
    statuses and the layout of a time. *)
Class ObserverApi := {
  GetKubeConfig : nat -> res unit;
  new_client : nat -> client -> res unit;
  get_SConf : nat -> string -> string -> res (option ShieldConfig);
  count_SigConfs : nat -> string -> res nat;
  count_RSPs : nat -> string -> res nat;
  count_ResSigs : nat -> string -> res nat;
  count_Namespaces : nat -> res nat;
  list_Pods : nat -> string -> res (list Pod);
  get_ConfigMap : nat -> string -> string -> res (option ConfigMap);
  put_ConfigMap : nat -> string -> ConfigMap -> res unit;
  now_UTC : nat -> string -> string;
  marshal_statuses : list ContainerStatus -> string
}.

(** What the observer writes. *)
Inductive cm_write := CreateCM (namespace : string) (cm : ConfigMap) | UpdateCM (namespace : string) (cm : ConfigMap).
Definition write_data (w : cm_write) : gmap string string := match w with CreateCM _ cm | UpdateCM _ cm => cm_Data cm end.

Record OState := mkOState { os_calls : nat; os_writes : list cm_write }.
Notation O := (ST OState).

Context `{ObserverApi}.

Definition api {A} (f : nat -> A) : O A := fun s => Ret (f (os_calls s), mkOState (S (os_calls s)) (os_writes s)).
Definition written (w : cm_write) : O unit := fun s => Ret (tt, mkOState (os_calls s) (os_writes s ++ [w])).

(** A call that may fail ends the function with its error. *)
Definition or_fail {A B} (m : O (res A)) (k : A -> O (res B)) : O (res B) :=
  r ← m; match r with Ok a => k a | Err e => mret (Err e) end.

(** ** Loading *)

Definition Load (self : Loader) : O (res RuntimeData) :=
  or_fail (api GetKubeConfig) (fun _ =>
  or_fail (api (fun n => new_client n SConfClient)) (fun _ =>
  or_fail (api (fun n => get_SConf n (ol_IShiledNamespace self) (ol_ShieldConfigName self))) (fun sConf =>
  or_fail (api (fun n => new_client n SigConfClient)) (fun _ =>
  or_fail (api (fun n => count_SigConfs n (ol_IShiledNamespace self))) (fun sigConfList =>
  or_fail (api (fun n => new_client n RspClient)) (fun _ =>
  or_fail (api (fun n => count_RSPs n "")) (fun rspList =>
  or_fail (api (fun n => new_client n RsigClient)) (fun _ =>
  or_fail (api (fun n => count_ResSigs n "")) (fun rsigList =>
  or_fail (api (fun n => new_client n K8sClient)) (fun _ =>
  or_fail (api count_Namespaces) (fun nsList =>
  or_fail (api (fun n => list_Pods n (ol_IShiledNamespace self))) (fun podList =>
  mret (Ok (mkRuntimeData sConf sigConfList rspList nsList rsigList podList)))))))))))))).

(** ** The observer *)

Record IntegrityShieldObserver := mkObserver {
  ob_IShiledNamespace : string;
  ob_ShieldConfigName : string;
  ob_EventsFilePath : string;
  ob_IntervalSeconds : Z;
  ob_loader : Loader;
  ob_eventQueue : list string;
}.

Definition set_queue (self : IntegrityShieldObserver) (q : list string) : IntegrityShieldObserver :=
  mkObserver (ob_IShiledNamespace self) (ob_ShieldConfigName self) (ob_EventsFilePath self) (ob_IntervalSeconds self)
    (ob_loader self) q.

Definition interval_of (env : string) : Z :=
  let s := if bool_decide (env = "") then defaultIntervalSecondsStr else env in
  match ParseUint s with
  | Some v => v
  | None => default 0%Z (ParseUint defaultIntervalSecondsStr)
  end.

Definition NewIntegrityShieldObserver (Getenv : string -> string) : IntegrityShieldObserver :=
  let iShieldNS := Getenv "SHIELD_NS" in
  let shieldConfigName := Getenv "SHIELD_CONFIG_NAME" in
  mkObserver iShieldNS shieldConfigName (Getenv "EVENTS_FILE_PATH") (interval_of (Getenv "INTERVAL_SECONDS"))
    (NewLoader iShieldNS shieldConfigName) [].

Definition addEvent (self : IntegrityShieldObserver) (line : string) : IntegrityShieldObserver :=
  set_queue self (ob_eventQueue self ++ [line]).

Definition clearEvents (self : IntegrityShieldObserver) : IntegrityShieldObserver := set_queue self [].

Definition getEvents (self : IntegrityShieldObserver) : list string * IntegrityShieldObserver :=
  (ob_eventQueue self, clearEvents self).

(** Lines that are no JSON objects are skipped. *)
Definition readEventLines (lines : list string) : list (list (string * value)) := omap UnmarshalMap lines.

(** [readEventsFile]; the lines of the file, or the error of opening it. *)
Definition readEventsFile (f : res (list string)) : res (list (list (string * value))) :=
  match f with Ok lines => Ok (readEventLines lines) | Err e => Err e end.

(** The name of the first deployment of a list of resources. *)
Definition deploy_name (l : list ResourceRef) : string :=
  match List.find (fun r => bool_decide (ref_Kind r = "Deployment")) l with Some r => ref_Name r | None => "" end.

(** [getIShieldPods]; a nil configuration or resource condition panics. *)
Definition getIShieldPods (data : RuntimeData) : go (list Pod * list Pod) :=
  match rt_ShieldConfig data with
  | None => Panic
  | Some ec =>
      match cfg_IShieldResourceCondition ec with
      | None => Panic
      | Some cond =>
          let operatorDeployName := deploy_name (irc_OperatorResources cond) in
          let serverDeployName := deploy_name (irc_ServerResources cond) in
          Ret (List.filter (fun pod => HasPrefix (pod_Name pod) operatorDeployName) (rt_PodList data),
               List.filter (fun pod => HasPrefix (pod_Name pod) serverDeployName) (rt_PodList data))
      end
  end.

Definition container_status (s : v1_ContainerStatus) : ContainerStatus :=
  mkContainerStatus (vcs_Name s) (vcs_State s) (vcs_LastTerminationState s) (vcs_RestartCount s) (vcs_Ready s).

Definition pod_status (s : gmap string string) (pod : Pod) : gmap string string :=
  <[pod_Name pod := marshal_statuses (container_status <$> pod_ContainerStatuses pod)]> s.

Definition makePodsStatus (opPods svPods : list Pod) : gmap string string :=
  fold_left pod_status svPods (fold_left pod_status opPods ∅).

(** The verdict an event records, when it records one. *)
Definition event_allowed (e : list (string * value)) : option bool :=
  match MapNode.assoc "allowed" e with Some (VScalar (SBool allowed)) => Some allowed | _ => None end.

Definition count_events (events : list (list (string * value))) : nat := length (omap event_allowed events).
Definition count_denied (events : list (list (string * value))) : nat :=
  length (List.filter negb (omap event_allowed events)).

Definition summarize (self : IntegrityShieldObserver) (data : RuntimeData) (events : list (list (string * value))) :
    O (gmap string string) :=
  pods ← st_lift (getIShieldPods data);
  let '(opPods, svPods) := pods : list Pod * list Pod in
  let summary : gmap string string := kmap (String.append "pods.") (makePodsStatus opPods svPods) in
  updated ← api (fun n => now_UTC n timeFormat);
  mret (<["__meta.updatedTimestamp" := updated]>
       (<["__meta.interval" := FormatInt (int_of_uint64 (ob_IntervalSeconds self))]>
       (<["resource.numOfResSigs" := Itoa (rt_ResSigList data)]>
       (<["resource.numOfRSPs" := Itoa (rt_RSPList data)]>
       (<["count.deniedEvents" := Itoa (count_denied events)]>
       (<["count.events" := Itoa (count_events events)]> summary)))))).

Definition updateSummary (self : IntegrityShieldObserver) (data : RuntimeData) (events : list (list (string * value))) :
    O (res unit) :=
  summary ← summarize self data events;
  or_fail (api GetKubeConfig) (fun _ =>
  or_fail (api (fun n => new_client n K8sClient)) (fun _ =>
  let cmNS := ob_IShiledNamespace self in
  let cmName := defaultSummaryConfigMapName in
  current ← api (fun n => get_ConfigMap n cmNS cmName);
  let '(cm, w) := match current with
                  | Ok (Some c) => let cm := mkConfigMap (cm_Name c) (cm_rest c) summary in (cm, UpdateCM cmNS cm)
                  | _ => let cm := mkConfigMap cmName "" summary in (cm, CreateCM cmNS cm)
                  end in
  or_fail (api (fun n => put_ConfigMap n cmNS cm)) (fun _ =>
  _ ← written w; mret (Ok tt)))).

Definition report (self : IntegrityShieldObserver) (lines : list string) : O (res unit) :=
  or_fail (Load (ob_loader self)) (fun data =>
  updateSummary self data (readEventLines lines)).

(** What reaches the loop: a line of the log, nil from a closed channel, or the
    signal to report. *)
Inductive input := Line (text : string) | Closed | ReportSignal.

(** [Run] on the inputs in the order [select] takes them; it ends with the error
    of a report, or goes on waiting when the inputs are used up. *)
Fixpoint Run (self : IntegrityShieldObserver) (inputs : list input) : O (option string * IntegrityShieldObserver) :=
  match inputs with
  | [] => mret (None, self)
  | Line text :: inputs' => Run (addEvent self text) inputs'
  | Closed :: _ => st_panic
  | ReportSignal :: inputs' =>
      let '(lines, self) := getEvents self in
      r ← report self lines;
      match r with
      | Ok _ => Run self inputs'
      | Err e => mret (Some e, self)
      end
  end.
End observer.

(** ** Facts *)

(** The inputs as batches: the lines between two reports, and the lines still
    waiting. *)
Fixpoint batches (q : list string) (inputs : list input) : list (list string) * list string :=
  match inputs with
  | [] => ([], q)
  | Line text :: inputs' => batches (q ++ [text]) inputs'
  | Closed :: inputs' => batches q inputs'
  | ReportSignal :: inputs' => let '(bs, rest) := batches [] inputs' in (q :: bs, rest)
  end.

Definition lines_of (inputs : list input) : list string :=
  omap (fun i => match i with Line text => Some text | _ => None end) inputs.

Lemma batches_concat inputs : forall q, concat (batches q inputs).1 ++ (batches q inputs).2 = q ++ lines_of inputs.
Proof.
  induction inputs as [|[text| |] inputs IH]; intros q; cbn [batches lines_of omap list_omap].
  - cbn. by rewrite app_nil_r.
  - rewrite IH. by rewrite <-app_assoc.
  - apply IH.
  - specialize (IH []). destruct (batches [] inputs) as [bs rest]. cbn in *. by rewrite <-app_assoc, IH.
Qed.

Lemma omap_length_le {A B} (f : A -> option B) (l : list A) : length (omap f l) <= length l.
Proof. induction l as [|x l IH]; cbn; [done|]. destruct (f x); cbn; lia. Qed.

Lemma count_bounds lines :
  count_denied (readEventLines lines) <= count_events (readEventLines lines) <= length lines.
Proof.
  unfold count_denied, count_events, readEventLines. split; [apply List.filter_length_le|].
  etransitivity; apply omap_length_le.
Qed.

(** What a summary says of the lines it is made from. *)
Definition summary_of (lines : list string) (summary : gmap string string) : Prop :=
  summary !! "count.events" = Some (Itoa (count_events (readEventLines lines))) /\
  summary !! "count.deniedEvents" = Some (Itoa (count_denied (readEventLines lines))) /\
  count_denied (readEventLines lines) <= count_events (readEventLines lines) <= length lines.

Section facts.
Context {ContainerState : Type} `{!ObserverApi (ContainerState := ContainerState)}.
#[local] Set Default Proof Using "Type*".

(** Computations that write nothing. *)
Definition quiet {A} (m : ST OState A) : Prop := forall s a s', m s = Ret (a, s') -> os_writes s' = os_writes s.

Lemma quiet_ret {A} (a : A) : quiet (mret a).
Proof. by intros s b s' [= _ <-]. Qed.
Lemma quiet_api {A} (f : nat -> A) : quiet (api f).
Proof. by intros s b s' [= _ <-]. Qed.
Lemma quiet_lift {A} (m : go A) : quiet (st_lift m).
Proof. by intros s a s' [_ ->]%st_lift_Ret. Qed.
Lemma quiet_bind {A B} (m : ST OState A) (f : A -> ST OState B) : quiet m -> (forall a, quiet (f a)) -> quiet (m ≫= f).
Proof. intros Hm Hf s b s' (a & s1 & Hq1 & Hq2)%ST_bind_Ret. apply Hm in Hq1. apply Hf in Hq2. congruence. Qed.
Lemma quiet_or_fail {A B} (m : ST OState (res A)) (k : A -> ST OState (res B)) :
  quiet m -> (forall a, quiet (k a)) -> quiet (or_fail m k).
Proof. intros Hm Hk. apply quiet_bind; [done|]. intros [a|e]; [apply Hk|apply quiet_ret]. Qed.

Lemma quiet_Load l : quiet (Load l).
Proof. unfold Load. repeat (apply quiet_or_fail; [apply quiet_api|intros ?]). apply quiet_ret. Qed.

Lemma or_fail_Ok {A B} (m : ST OState (res A)) (k : A -> ST OState (res B)) s b s' :
  or_fail m k s = Ret (Ok b, s') -> exists a s1, m s = Ret (Ok a, s1) /\ k a s1 = Ret (Ok b, s').
Proof. intros ([a|e] & s1 & Hq1 & Hq2)%ST_bind_Ret; [eauto|done]. Qed.

Lemma summarize_spec self data events s summary s' :
  summarize self data events s = Ret (summary, s') ->
  os_writes s' = os_writes s /\
  summary !! "count.events" = Some (Itoa (count_events events)) /\
  summary !! "count.deniedEvents" = Some (Itoa (count_denied events)) /\
  summary !! "__meta.interval" = Some (FormatInt (int_of_uint64 (ob_IntervalSeconds self))) /\
  exists opPods svPods, getIShieldPods data = Ret (opPods, svPods) /\
    forall name, summary !! ("pods." +:+ name) = makePodsStatus opPods svPods !! name.
Proof.
  unfold summarize. intros ([op sv] & s1 & Hq1 & Hq2)%ST_bind_Ret. apply st_lift_Ret in Hq1 as [Hg ->].
  apply ST_bind_Ret in Hq2 as (u & s2 & [= _ <-] & [= <- <-]). cbn. split; [done|].
  do 3 (split; [by simplify_map_eq|]). exists op, sv. split; [done|]. intros name.
  rewrite !lookup_insert_ne by done. assert (Inj (=) (=) (String.append "pods.")) by (intros a b; by intros [= ->]).
  exact (lookup_kmap (String.append "pods.") (makePodsStatus op sv) name).
Qed.

(** A report that succeeds writes one summary, of the lines it was given. *)
Lemma report_Ok self lines s s' :
  report self lines s = Ret (Ok tt, s') ->
  exists w, os_writes s' = os_writes s ++ [w] /\ summary_of lines (write_data w).
Proof.
  intros (data & s1 & Hl & Hu)%or_fail_Ok. apply quiet_Load in Hl. unfold updateSummary in Hu.
  apply ST_bind_Ret in Hu as (summary & s2 & Hs & Hu). apply summarize_spec in Hs as (Hs & He & Hd & _).
  apply or_fail_Ok in Hu as (u & s3 & H3 & Hu). apply quiet_api in H3. apply or_fail_Ok in Hu as (u4 & s4 & H4 & Hu).
  apply quiet_api in H4. apply ST_bind_Ret in Hu as (cur & s5 & H5 & Hu). apply quiet_api in H5.
  assert (exists cm w, write_data w = summary /\
    or_fail (api (fun n => put_ConfigMap n (ob_IShiledNamespace self) cm)) (fun _ => _ ← written w; mret (Ok tt)) s5 = Ret (Ok tt, s'))
    as (cm & w & Hw & Hput) by (destruct cur as [[c|]|]; eexists _, _; (split; [|exact Hu]); reflexivity).
  apply or_fail_Ok in Hput as (u6 & s6 & H6 & Hput). apply quiet_api in H6.
  apply ST_bind_Ret in Hput as (u7 & s7 & [= _ <-] & [= <-]). exists w. cbn. split; [congruence|]. unfold summary_of. rewrite Hw.
  auto using count_bounds.
Qed.

(** A report that fails writes nothing. *)
Lemma report_Err self lines s e s' : report self lines s = Ret (Err e, s') -> os_writes s' = os_writes s.
Proof.
  intros ([data|e1] & s1 & Hl & Hu)%ST_bind_Ret; apply quiet_Load in Hl; [|by injection Hu as _ <-].
  unfold updateSummary in Hu. apply ST_bind_Ret in Hu as (summary & s2 & Hs & Hu). apply summarize_spec in Hs as (Hs & _).
  apply ST_bind_Ret in Hu as ([a|e2] & s3 & H3 & Hu); apply quiet_api in H3; [|injection Hu as _ <-; congruence].
  apply ST_bind_Ret in Hu as ([a'|e3] & s4 & H4 & Hu); apply quiet_api in H4; [|injection Hu as _ <-; congruence].
  apply ST_bind_Ret in Hu as (cur & s5 & H5 & Hu). apply quiet_api in H5.
  destruct cur as [[c|]|]; apply ST_bind_Ret in Hu as ([a6|e6] & s6 & H6 & Hu); apply quiet_api in H6;
    try (injection Hu as _ <-; congruence); by apply ST_bind_Ret in Hu as (u7 & s7 & [= _ <-] & [=]).
Qed.

(** C21: the observer loses and repeats no line: while its reports succeed, every
    line it received is in exactly one batch in the order of arrival or still
    waits, and the summary written for a batch counts the events of that batch
    and the denied ones among them. *)
Theorem Run_reports_batches inputs : forall self s self' s',
  Run self inputs s = Ret ((None, self'), s') ->
  let '(bs, rest) := batches (ob_eventQueue self) inputs in
  ob_eventQueue self' = rest /\ concat bs ++ rest = ob_eventQueue self ++ lines_of inputs /\
  exists ws, os_writes s' = os_writes s ++ ws /\ Forall2 (fun lines w => summary_of lines (write_data w)) bs ws.
Proof.
  induction inputs as [|[text| |] inputs IH]; intros self s self' s' Hr.
  - injection Hr as <- <-. cbn. split; [done|]. split; [by rewrite app_nil_r|]. exists []. by rewrite app_nil_r.
  - cbn [Run] in Hr. apply IH in Hr. pose proof (batches_concat (Line text :: inputs) (ob_eventQueue self)) as Hb.
    cbn [batches addEvent set_queue ob_eventQueue] in *. destruct (batches _ _) as [bs rest]. naive_solver.
  - done.
  - pose proof (batches_concat (ReportSignal :: inputs) (ob_eventQueue self)) as Hb. cbn [Run getEvents] in Hr.
    apply ST_bind_Ret in Hr as ([[]|e] & s1 & Hrep & Hr); [|done]. apply IH in Hr. cbn [batches clearEvents set_queue ob_eventQueue] in *.
    destruct (batches [] inputs) as [bs rest]. destruct Hr as (Hq & _ & ws & Hws & Hall).
    apply report_Ok in Hrep as (w & Hw & Hsum). split; [done|]. split; [done|]. exists (w :: ws).
    split; [by rewrite Hws, Hw, <-app_assoc|by constructor].
Qed.

(** The loop ends with the first report that fails; the lines of that batch
    are neither written nor waiting any more. *)
Theorem Run_fails_with_batch_lost inputs : forall self s e self' s',
  Run self inputs s = Ret ((Some e, self'), s') ->
  exists pre post, inputs = pre ++ ReportSignal :: post /\ ob_eventQueue self' = [] /\
    exists ws, os_writes s' = os_writes s ++ ws /\
      Forall2 (fun lines w => summary_of lines (write_data w)) (batches (ob_eventQueue self) pre).1 ws.
Proof.
  induction inputs as [|[text| |] inputs IH]; intros self s e self' s' Hr; [done| |done|].
  - cbn [Run] in Hr. apply IH in Hr as (pre & post & -> & Hq & Hws). exists (Line text :: pre), post. done.
  - cbn [Run getEvents] in Hr. apply ST_bind_Ret in Hr as ([[]|e1] & s1 & Hrep & Hr).
    + apply IH in Hr as (pre & post & -> & Hq & ws & Hws & Hall). apply report_Ok in Hrep as (w & Hw & Hsum).
      exists (ReportSignal :: pre), post. do 2 (split; [done|]). exists (w :: ws).
      split; [by rewrite Hws, Hw, <-app_assoc|]. cbn in *. destruct (batches [] pre). by constructor.
    + injection Hr as <- <- <-. exists [], inputs. do 2 (split; [done|]). exists []. cbn. apply report_Err in Hrep.
      split; [by rewrite app_nil_r|constructor].
Qed.

(** C35: the interval of a new observer is a 64-bit unsigned number whatever the
    environment says, and the summary shows it as it is exactly when it also fits
    a signed one. *)
Theorem interval_in_range Getenv self data events s summary s' :
  self = NewIntegrityShieldObserver Getenv -> summarize self data events s = Ret (summary, s') ->
  (0 <= ob_IntervalSeconds self <= uint64_max)%Z /\
  (summary !! "__meta.interval" = Some (FormatInt (ob_IntervalSeconds self)) <-> (ob_IntervalSeconds self <= int64_max)%Z).
Proof.
  intros -> (_ & _ & _ & Hi & _)%summarize_spec.
  assert (0 <= ob_IntervalSeconds (NewIntegrityShieldObserver Getenv) <= uint64_max)%Z as Hr.
  { cbn. unfold interval_of. destruct (ParseUint _) eqn:E; [by apply ParseUint_range in E|done]. }
  split; [done|]. rewrite Hi. unfold FormatInt, int_of_uint64, uint64_max, int64_max in *.
  destruct (Z.ltb_spec 9223372036854775807 (ob_IntervalSeconds (NewIntegrityShieldObserver Getenv))).
  - split; [|lia]. intros [= Hp%(inj pretty)]. lia.
  - split; [lia|done].
Qed.

(** A shield configuration that lists no deployment makes every pod of the
    namespace both an operator and a server pod. *)
Theorem unnamed_deployment_matches_every_pod (data : RuntimeData (ContainerState := ContainerState)) ec cond :
  rt_ShieldConfig data = Some ec -> cfg_IShieldResourceCondition ec = Some cond ->
  (forall r, r ∈ irc_OperatorResources cond ++ irc_ServerResources cond -> ref_Kind r <> "Deployment") ->
  getIShieldPods data = Ret (rt_PodList data, rt_PodList data).
Proof.
  intros Hec Hc Hk. unfold getIShieldPods. rewrite Hec, Hc. cbn.
  assert (forall l, l ⊆ irc_OperatorResources cond ++ irc_ServerResources cond -> deploy_name l = "") as Hn.
  { intros l Hl. unfold deploy_name. destruct (List.find _ l) as [r|] eqn:E; [|done].
    apply List.find_some in E as [Hin%list_elem_of_In Hd]. apply bool_decide_eq_true in Hd. exfalso. eapply Hk; eauto. }
  rewrite !Hn by set_solver. assert (forall l : list (Pod (ContainerState := ContainerState)), List.filter (fun _ => true) l = l) as Hf
    by (intros l; induction l as [|p l IH]; cbn; [done|]; by rewrite IH).
  by rewrite Hf.
Qed.
End facts.

(** ** Concrete instances *)

(** An API server that answers, one pod, and the layout of the clock. *)
Definition sample_pods : list (Pod (ContainerState := unit)) := [mkPod "shield-0" [mkV1ContainerStatus "server" tt tt 0 true ""]].
Definition observed_config (cond : IShieldResourceCondition) : ShieldConfig :=
  mkShieldConfig None None None [] [] "" [] None "ns" "" "" [] "" "" "" (Some cond) "" "" "" "" [].
Definition shield_deployment : IShieldResourceCondition :=
  mkIShieldResourceCondition [] [mkResourceRef "shield" "ns" "Deployment" ""] "".
Definition sample_observer_api (put : res unit) : ObserverApi (ContainerState := unit) := {|
  GetKubeConfig _ := Ok tt; new_client _ _ := Ok tt;
  get_SConf _ _ _ := Ok (Some (observed_config shield_deployment));
  count_SigConfs _ _ := Ok 1; count_RSPs _ _ := Ok 2; count_ResSigs _ _ := Ok 3; count_Namespaces _ := Ok 4;
  list_Pods _ _ := Ok sample_pods; get_ConfigMap _ _ _ := Err "not found"; put_ConfigMap _ _ _ := put;
  now_UTC _ _ := "now"; marshal_statuses l := Itoa (length l) |}.

Definition sample_observer : IntegrityShieldObserver := NewIntegrityShieldObserver (fun _ => "").
Definition verdict_line (b : string) : string := "{" +:+ marshal_str "allowed" +:+ ":" +:+ b +:+ "}".
Definition sample_inputs : list input :=
  [Line (verdict_line "true"); Line (verdict_line "false"); Line "no json"; ReportSignal; Line (verdict_line "false")].
Definition observed `{!ObserverApi (ContainerState := unit)} : go ((option string * IntegrityShieldObserver) * OState) :=
  Run sample_observer sample_inputs (mkOState 0 []).

Section samples.
#[local] Instance up_api : ObserverApi := sample_observer_api (Ok tt).

Lemma Run_reports_batches_witness :
  exists self' s' ws, observed = Ret ((None, self'), s') /\ ob_eventQueue self' = [verdict_line "false"] /\ os_writes s' = ws /\
    Forall2 (fun lines w => summary_of lines (write_data w)) [[verdict_line "true"; verdict_line "false"; "no json"]] ws.
Proof.
  destruct observed as [[[[e|] self'] s']|] eqn:E; [vm_compute in E; discriminate| |vm_compute in E; discriminate].
  destruct (Run_reports_batches sample_inputs sample_observer (mkOState 0 []) self' s' E) as (Hq & _ & ws & Hw & Hall).
  exists self', s', ws. split; [done|]. split; [exact Hq|]. split; [exact Hw|exact Hall].
Defined.

Example summary_sample :
  match observed with
  | Ret (_, s) => (fun w => (write_data w !! "count.events", write_data w !! "count.deniedEvents", write_data w !! "pods.shield-0"))
                  <$> os_writes s
  | Panic => []
  end = [(Some "2", Some "1", Some "1")].
Proof. vm_compute. reflexivity. Qed.

Definition sample_runtime : RuntimeData := mkRuntimeData (Some (observed_config shield_deployment)) 0 0 0 0 sample_pods.
Definition sample_summary : gmap string string * OState :=
  match summarize sample_observer sample_runtime [] (mkOState 0 []) with Ret r => r | Panic => (∅, mkOState 0 []) end.

Lemma interval_in_range_witness :
  summarize sample_observer sample_runtime [] (mkOState 0 []) = Ret sample_summary /\
  sample_summary.1 !! "__meta.interval" = Some "30".
Proof.
  assert (summarize sample_observer sample_runtime [] (mkOState 0 []) = Ret (sample_summary.1, sample_summary.2)) as E
    by (vm_compute; reflexivity).
  split; [exact E|].
  apply (interval_in_range (fun _ => "") sample_observer _ _ _ _ _ eq_refl E). vm_compute. discriminate.
Defined.

Lemma unnamed_deployment_matches_every_pod_witness :
  getIShieldPods (mkRuntimeData (Some (observed_config (mkIShieldResourceCondition [] [] ""))) 0 0 0 0 sample_pods) =
  Ret (sample_pods, sample_pods).
Proof.
  apply (unnamed_deployment_matches_every_pod
    (mkRuntimeData (Some (observed_config (mkIShieldResourceCondition [] [] ""))) 0 0 0 0 sample_pods)
    (observed_config (mkIShieldResourceCondition [] [] "")) (mkIShieldResourceCondition [] [] "") eq_refl eq_refl). intros r Hr. cbn in Hr. by apply elem_of_nil in Hr.
Defined.
End samples.

Section failing.
#[local] Instance down_api : ObserverApi := sample_observer_api (Err "conflict").

Lemma Run_fails_with_batch_lost_witness :
  exists self' s', observed = Ret ((Some "conflict", self'), s') /\ ob_eventQueue self' = [].
Proof.
  destruct observed as [[[[e|] self'] s']|] eqn:E; [|vm_compute in E; discriminate..].
  destruct (Run_fails_with_batch_lost sample_inputs sample_observer (mkOState 0 []) e self' s' E) as (pre & post & _ & Hq & _).
  exists self', s'. split; [|exact Hq]. vm_compute in E. injection E as <- _ _. reflexivity.
Defined.
End failing.
