(* ===== verification/OperatorTypes.v ===== *)
(** * The custom resource of the operator
    ([integrity-shield-operator/api/v1alpha1/integrityshield_types.go])

    An [IntegrityShield] resource describes an installation of the shield: names,
    containers, keys, and the configuration of the server.  The entries of its
    lists are not nil. *)
From S2P Require Import Prelude GoStrings Pattern Common ReqContext Profile SigningProfile Policy ShieldConfig Signing GoState.
From stdpp Require Import options.

Definition DefaultIntegrityShieldCRDName := "integrityshields.apis.integrityshield.io".
Definition DefaultShieldConfigCRDName := "shieldconfigs.apis.integrityshield.io".
Definition DefaultSignerConfigCRDName := "signerconfigs.apis.integrityshield.io".
Definition DefaultResourceSignatureCRDName := "resourcesignatures.apis.integrityshield.io".
Definition DefaultResourceSigningProfileCRDName := "resourcesigningprofiles.apis.integrityshield.io".
Definition DefaultHelmReleaseMetadataCRDName := "helmreleasemetadatas.apis.integrityshield.io".
Definition DefaultSignerConfigCRName := "signer-config".
Definition DefaultIShieldAdminClusterRoleName := "ishield-admin-clusterrole".
Definition DefaultIShieldAdminClusterRoleBindingName := "ishield-admin-clusterrolebinding".
Definition DefaultIShieldAdminRoleName := "ishield-admin-role".
Definition DefaultIShieldAdminRoleBindingName := "ishield-admin-rolebinding".
Definition DefaultIShieldCRYamlPath := "./resources/default-ishield-cr.yaml".
Definition CommonProfilesPath := "./resources/common-profiles".
Definition WebhookRulesForRoksYamlPath := "./resources/webhook-rules-for-roks.yaml".
Definition DefaultKeyringFilename := "pubring.gpg".
Definition DefaultIShieldWebhookTimeout : Z := 10.
Definition SATokenPath := "/var/run/secrets/kubernetes.io/serviceaccount/token".
Definition CleanupFinalizerName := "cleanup.finalizers.integrityshield.io".

(** [common.SignatureTypeDefault], [EventTypeValueReconcileReport] *)
Definition SignatureTypeDefault := "".
Definition EventTypeValueReconcileReport := "reconcile-report".

(** A Go map or slice that may be nil, which [reflect.DeepEqual] tells from an
    empty one. *)
Notation gomap := (option (gmap string string)) (only parsing).
Notation slice A := (option (list A)) (only parsing).

(** Structs of the Kubernetes API that the operator copies without reading them
    (affinities, security contexts, tolerations, resource requirements). *)
Class K8sStructs := { kstruct : Type; kstruct_eq_dec :: EqDecision kstruct }.

Inductive IntOrString := IntVal (n : Z) | StrVal (s : string).
#[global] Instance IntOrString_eq_dec : EqDecision IntOrString.
Proof. solve_decision. Defined.

(** [rbacv1.Subject], [admv1.Rule] *)
Record Subject := mkSubject { sub_Kind : string; sub_APIGroup : string; sub_Name : string; sub_Namespace : string }.
Record AdmRule := mkAdmRule {
  rl_APIGroups : list string; rl_APIVersions : list string; rl_Resources : list string; rl_Scope : option string }.

Section types.
Context `{K8sStructs}.

Record SecurityConfig := mkSecurityConfig {
  sec_ServiceAccountName : string;
  sec_SecurityContextConstraintsName : string;
  sec_ClusterRole : string;
  sec_ClusterRoleBinding : string;
  sec_PodSecurityPolicyName : string;
  sec_PodSecurityContext : option kstruct;
  sec_IShieldAdminSubjects : list Subject;
  sec_AutoIShieldAdminCreationDisabled : bool;
}.

Record RegKeySecret := mkRegKeySecret { rks_Name : string; rks_Value : string }.

Record KeyConfig := mkKeyConfig {
  kc_Name : string; kc_FileName : string; kc_SecretName : string; kc_SignatureType : string }.

Record ServerContainer := mkServerContainer {
  srv_Name : string;
  srv_SecurityContext : option kstruct;
  srv_ImagePullPolicy : string;
  srv_Image : string;
  srv_Port : Z;
  srv_Resources : kstruct;
  srv_ChartBaseUrl : string;
  srv_ContextLogEnabled : bool;
  srv_ShieldCmReloadSec : Z;
  srv_EnforcePolicyReloadSec : Z;
}.

Record EsConfig := mkEsConfig {
  es_Enabled : bool; es_Scheme : string; es_Host : string; es_Port : Z; es_SslVerify : bool;
  es_IndexPrefix : string; es_ClientKey : string; es_ClientCert : string; es_CaFile : string }.

Record HttpConfig := mkHttpConfig { hc_Enabled : bool; hc_Endpoint : string }.

Record LoggerContainer := mkLoggerContainer {
  lgc_Enabled : option bool;
  lgc_Name : string;
  lgc_SecurityContext : option kstruct;
  lgc_ImagePullPolicy : string;
  lgc_Image : string;
  lgc_StdOutput : bool;
  lgc_HttpConfig : option HttpConfig;
  lgc_Resources : kstruct;
  lgc_EsConfig : option EsConfig;
  lgc_EsSecretName : string;
}.

Record ObserverContainer := mkObserverContainer {
  obc_Enabled : option bool;
  obc_Name : string;
  obc_SecurityContext : option kstruct;
  obc_ImagePullPolicy : string;
  obc_Image : string;
  obc_Resources : kstruct;
}.

(** The embedded specification is a pointer. *)
Record ProfileConfig := mkProfileConfig { pf_Spec : option ResourceSigningProfileSpec; pf_Name : string }.

Record IntegrityShieldSpec := mkIntegrityShieldSpec {
  iss_MaxSurge : option IntOrString;
  iss_MaxUnavailable : option IntOrString;
  iss_ReplicaCount : option Z;
  iss_MetaLabels : gomap;
  iss_SelectorLabels : gomap;
  iss_NodeSelector : gomap;
  iss_Affinity : option kstruct;
  iss_Tolerations : list kstruct;
  iss_ImagePullSecrets : list string;
  iss_IgnoreDefaultIShieldCR : bool;
  iss_Security : SecurityConfig;
  iss_KeyConfig : list KeyConfig;
  iss_Server : ServerContainer;
  iss_Logger : LoggerContainer;
  iss_Observer : ObserverContainer;
  iss_RegKeySecret : RegKeySecret;
  iss_ShieldConfigCrName : string;
  iss_ShieldConfig : option ShieldConfig;
  iss_IgnoreRules : list Rule;
  iss_IgnoreAttrs : list AttrsPattern;
  iss_SignerConfig : option SignerConfig;
  iss_ResourceSigningProfiles : list ProfileConfig;
  iss_WebhookServerTlsSecretName : string;
  iss_WebhookServiceName : string;
  iss_WebhookConfigName : string;
  iss_WebhookNamespacedResource : AdmRule;
  iss_WebhookClusterResource : AdmRule;
}.

(** The resource; of its metadata, what the operator reads or changes. *)
Record IntegrityShield := mkIntegrityShield {
  is_Kind : string;
  is_APIVersion : string;
  is_Name : string;
  is_Namespace : string;
  is_Finalizers : list string;
  is_DeletionTimestamp : option Z;
  is_Spec : IntegrityShieldSpec;
}.

(** ** Names *)

Definition GetSecurityContextConstraintsName (self : IntegrityShield) : string :=
  sec_SecurityContextConstraintsName (iss_Security (is_Spec self)).
Definition GetIntegrityShieldCRDName (self : IntegrityShield) : string := DefaultIntegrityShieldCRDName.
Definition GetShieldConfigCRDName (self : IntegrityShield) : string := DefaultShieldConfigCRDName.
Definition GetSignerConfigCRDName (self : IntegrityShield) : string := DefaultSignerConfigCRDName.
Definition GetResourceSignatureCRDName (self : IntegrityShield) : string := DefaultResourceSignatureCRDName.
Definition GetResourceSigningProfileCRDName (self : IntegrityShield) : string := DefaultResourceSigningProfileCRDName.
Definition GetHelmReleaseMetadataCRDName (self : IntegrityShield) : string := DefaultHelmReleaseMetadataCRDName.
Definition GetShieldConfigCRName (self : IntegrityShield) : string := iss_ShieldConfigCrName (is_Spec self).
Definition GetSignerConfigCRName (self : IntegrityShield) : string := DefaultSignerConfigCRName.
Definition GetRegKeySecretName (self : IntegrityShield) : string := rks_Name (iss_RegKeySecret (is_Spec self)).
Definition GetWebhookServerTlsSecretName (self : IntegrityShield) : string := iss_WebhookServerTlsSecretName (is_Spec self).
Definition GetServiceAccountName (self : IntegrityShield) : string := sec_ServiceAccountName (iss_Security (is_Spec self)).
Definition GetClusterRoleName (self : IntegrityShield) : string := sec_ClusterRole (iss_Security (is_Spec self)).
Definition GetClusterRoleBindingName (self : IntegrityShield) : string := sec_ClusterRoleBinding (iss_Security (is_Spec self)).
Definition GetDryRunRoleName (self : IntegrityShield) : string := sec_ClusterRole (iss_Security (is_Spec self)) +:+ "-sim".
Definition GetDryRunRoleBindingName (self : IntegrityShield) : string :=
  sec_ClusterRoleBinding (iss_Security (is_Spec self)) +:+ "-sim".
Definition GetIShieldAdminClusterRoleName (self : IntegrityShield) : string := DefaultIShieldAdminClusterRoleName.
Definition GetIShieldAdminClusterRoleBindingName (self : IntegrityShield) : string := DefaultIShieldAdminClusterRoleBindingName.
Definition GetIShieldAdminRoleName (self : IntegrityShield) : string := DefaultIShieldAdminRoleName.
Definition GetIShieldAdminRoleBindingName (self : IntegrityShield) : string := DefaultIShieldAdminRoleBindingName.
Definition GetPodSecurityPolicyName (self : IntegrityShield) : string := sec_PodSecurityPolicyName (iss_Security (is_Spec self)).
Definition GetIShieldServerDeploymentName (self : IntegrityShield) : string := is_Name self.
Definition GetWebhookServiceName (self : IntegrityShield) : string := iss_WebhookServiceName (is_Spec self).
Definition GetWebhookConfigName (self : IntegrityShield) : string := iss_WebhookConfigName (is_Spec self).

(** ** The shield's own resources *)

(** The Go types whose kind is looked up. *)
Inductive gotype :=
| TDeployment | TCRD | TShieldConfig | TSignerConfig | TRSP | TSecret | TServiceAccount
| TClusterRole | TClusterRoleBinding | TRole | TRoleBinding | TPSP.

(** [scheme.ObjectKinds]: the kinds a scheme knows for a type, or an error. *)
Definition scheme := gotype -> res (list GroupVersionKind).

(** [getTypeFromObj]; only the kind of the result is used. *)
Definition getTypeFromObj (obj : gotype) (sch : scheme) : string :=
  match sch obj with Ok (gvk :: _) => gvk_Kind gvk | _ => "" end.

(** The name of the operator's deployment from the name of its pod: the last two
    parts are the hashes of the replica set and the pod. *)
Definition operator_deploy_name (opPodName : string) : string :=
  let tmpParts := Split opPodName "-" in
  if Nat.ltb 2 (length tmpParts) then Join (take (length tmpParts - 2) tmpParts) "-" else "".

Definition GetIShieldResourceList (self : IntegrityShield) (sch : option scheme) (Getenv : string -> string) :
    list ResourceRef * list ResourceRef :=
  match sch with
  | None => ([], [])
  | Some sch =>
      let opDeployName := operator_deploy_name (Getenv "POD_NAME") in
      let opPodNamespace := Getenv "POD_NAMESPACE" in
      let ns := is_Namespace self in
      let kind t := getTypeFromObj t sch in
      let ref t name namespace := mkResourceRef name namespace (kind t) "" in
      ([ ref TCRD (GetIntegrityShieldCRDName self) "";
         ref TDeployment opDeployName opPodNamespace;
         mkResourceRef (is_Name self) ns (is_Kind self) "" ],
       [ ref TCRD (GetShieldConfigCRDName self) "";
         ref TCRD (GetSignerConfigCRDName self) "";
         ref TCRD (GetResourceSignatureCRDName self) "";
         ref TCRD (GetResourceSigningProfileCRDName self) "";
         ref TCRD (GetHelmReleaseMetadataCRDName self) "";
         ref TShieldConfig (GetShieldConfigCRName self) ns;
         ref TSignerConfig (GetSignerConfigCRName self) ns;
         ref TSecret (GetRegKeySecretName self) ns;
         ref TSecret (GetWebhookServerTlsSecretName self) ns;
         ref TServiceAccount (GetServiceAccountName self) ns;
         ref TClusterRole (GetClusterRoleName self) "";
         ref TClusterRoleBinding (GetClusterRoleBindingName self) "";
         ref TRole (GetDryRunRoleName self) ns;
         ref TRoleBinding (GetDryRunRoleBindingName self) ns;
         ref TClusterRole (GetIShieldAdminClusterRoleName self) "";
         ref TClusterRoleBinding (GetIShieldAdminClusterRoleBindingName self) "";
         ref TRole (GetIShieldAdminRoleName self) ns;
         ref TRoleBinding (GetIShieldAdminRoleBindingName self) ns;
         ref TPSP (GetPodSecurityPolicyName self) ns;
         ref TDeployment (GetIShieldServerDeploymentName self) ns ] ++
       ((fun prof => ref TRSP (pf_Name prof) ns) <$> iss_ResourceSigningProfiles (is_Spec self)))
  end.
End types.
