(* ===== verification/KubeObjects.v ===== *)
(** * The objects the operator installs

    The Kubernetes objects the operator builds, with the fields it writes, and
    the API server as the operator's client sees it: a state with four operations
    whose documented behaviour is a class of its own. *)
From S2P Require Import Prelude GoStrings Common Profile SigningProfile Policy ShieldConfig Signing GoState OperatorTypes.
From stdpp Require Import options.

(** [metav1.ObjectMeta]: owner references and the fields the API server sets are
    texts the operator does not read. *)
Record KMeta := mkKMeta {
  km_Name : string;
  km_Namespace : string;
  km_Labels : gomap;
  km_Annotations : gomap;
  km_OwnerReferences : list string;
  km_ResourceVersion : string;
}.
Definition meta (name namespace : string) (labels : gomap) : KMeta := mkKMeta name namespace labels None [] "".

(** ** Bodies *)

Record CRDNames := mkCRDNames {
  crn_Kind : string; crn_Plural : string; crn_ListKind : string; crn_Singular : string; crn_ShortNames : list string }.
Record CRDVersion := mkCRDVersion { crv_Name : string; crv_Served : bool; crv_Storage : bool }.
Record CRDSpec := mkCRDSpec {
  crd_Group : string; crd_Names : CRDNames; crd_Scope : string; crd_SchemaType : string; crd_XPreserve : option bool;
  crd_Versions : list CRDVersion }.

Record PolicyRule := mkPolicyRule { pr_APIGroups : list string; pr_Resources : list string; pr_Verbs : list string }.
Record RoleRef := mkRoleRef { rr_APIGroup : string; rr_Kind : string; rr_Name : string }.

Record IDRange := mkIDRange { idr_Min : Z; idr_Max : Z }.
Record PSPSpec := mkPSPSpec {
  psp_Privileged : bool;
  psp_FSGroup : string * list IDRange;
  psp_RunAsUser : string;
  psp_SELinux : string;
  psp_SupplementalGroups : string * list IDRange;
  psp_Volumes : list string;
  psp_AllowedHostPaths : list string;
  psp_AllowedCapabilities : list string;
  psp_HostNetwork : bool;
  psp_HostIPC : bool;
  psp_HostPID : bool;
}.

Record VolumeMount := mkVolumeMount { vm_MountPath : string; vm_Name : string; vm_ReadOnly : bool }.
#[global] Instance VolumeMount_eq_dec : EqDecision VolumeMount.
Proof. solve_decision. Defined.
Inductive VolumeSource := SecretSource (secretName : string) (defaultMode : Z) | EmptyDirSource.
Record Volume := mkVolume { vol_Name : string; vol_Source : VolumeSource }.
Record ContainerPort := mkContainerPort { cpo_Name : string; cpo_ContainerPort : Z; cpo_Protocol : string }.
#[global] Instance ContainerPort_eq_dec : EqDecision ContainerPort.
Proof. solve_decision. Defined.
Record EnvVar := mkEnvVar { ev_Name : string; ev_Value : string }.
#[global] Instance EnvVar_eq_dec : EqDecision EnvVar.
Proof. solve_decision. Defined.
Inductive ProbeHandler := HTTPGet (path : string) (port : IntOrString) (scheme : string) | ExecCommand (command : list string).
Record Probe := mkProbe { prb_InitialDelaySeconds : Z; prb_PeriodSeconds : Z; prb_Handler : ProbeHandler }.

Record ServicePort := mkServicePort { sp_Port : Z; sp_TargetPort : IntOrString }.

Record RuleWithOperations := mkRuleWithOperations { rwo_Operations : list string; rwo_Rule : AdmRule }.
Record Webhook := mkWebhook {
  wh_Name : string;
  wh_ServiceName : string;
  wh_ServiceNamespace : string;
  wh_Path : string;
  wh_CABundle : option string;
  wh_Rules : list RuleWithOperations;
  wh_SideEffects : string;
  wh_TimeoutSeconds : Z;
  wh_AdmissionReviewVersions : list string;
}.

Record KEvent := mkKEvent {
  kev_InvolvedObject : string * string * string * string;
  kev_Type : string;
  kev_Source : string;
  kev_ReportingController : string;
  kev_ReportingInstance : string;
  kev_Action : string;
  kev_FirstTimestamp : Z;
  kev_LastTimestamp : Z;
  kev_EventTime : Z;
  kev_Message : string;
  kev_Reason : string;
  kev_Count : Z;
}.

Section objects.
Context `{K8sStructs}.

Record Container := mkContainer {
  ctr_Name : string;
  ctr_SecurityContext : option kstruct;
  ctr_Image : string;
  ctr_ImagePullPolicy : string;
  ctr_ReadinessProbe : option Probe;
  ctr_LivenessProbe : option Probe;
  ctr_Ports : slice ContainerPort;
  ctr_VolumeMounts : slice VolumeMount;
  ctr_Env : slice EnvVar;
  ctr_Args : slice string;
  ctr_Resources : kstruct;
}.

Record PodTemplate := mkPodTemplate {
  pt_Labels : gomap;
  pt_Annotations : gomap;
  pt_ImagePullSecrets : list string;
  pt_ServiceAccountName : string;
  pt_SecurityContext : option kstruct;
  pt_Containers : list Container;
  pt_NodeSelector : gomap;
  pt_Affinity : option kstruct;
  pt_Tolerations : list kstruct;
  pt_Volumes : list Volume;
}.

Record DeploymentSpec := mkDeploymentSpec {
  dep_MaxSurge : option IntOrString;
  dep_MaxUnavailable : option IntOrString;
  dep_Replicas : option Z;
  dep_MatchLabels : gomap;
  dep_Template : PodTemplate;
}.

Inductive kbody :=
| BCRD (spec : CRDSpec)
| BShieldConfig (spec : option ShieldConfig)
| BSignerConfig (spec : option SignerConfig)
| BProfile (spec : ResourceSigningProfileSpec)
| BServiceAccount
| BClusterRole (rules : list PolicyRule)
| BClusterRoleBinding (subjects : list Subject) (ref : RoleRef)
| BRole (rules : list PolicyRule)
| BRoleBinding (subjects : list Subject) (ref : RoleRef)
| BPSP (spec : PSPSpec)
| BSecret (data : gmap string (option string)) (type : string)
| BDeployment (spec : DeploymentSpec) (availableReplicas : Z)
| BService (ports : list ServicePort) (selector : gomap)
| BWebhook (webhooks : list Webhook)
| BEvent (e : KEvent)
| BIntegrityShield (cr : IntegrityShield).

Record kobj := mkObj { o_meta : KMeta; o_body : kbody }.

(** ** Keys *)

Definition kind_of (b : kbody) : string :=
  match b with
  | BCRD _ => "CustomResourceDefinition" | BShieldConfig _ => "ShieldConfig" | BSignerConfig _ => "SignerConfig"
  | BProfile _ => "ResourceSigningProfile" | BServiceAccount => "ServiceAccount" | BClusterRole _ => "ClusterRole"
  | BClusterRoleBinding _ _ => "ClusterRoleBinding" | BRole _ => "Role" | BRoleBinding _ _ => "RoleBinding"
  | BPSP _ => "PodSecurityPolicy" | BSecret _ _ => "Secret" | BDeployment _ _ => "Deployment" | BService _ _ => "Service"
  | BWebhook _ => "MutatingWebhookConfiguration" | BEvent _ => "Event" | BIntegrityShield _ => "IntegrityShield"
  end.

(** The kinds without a namespace. *)
Definition cluster_scoped (kind : string) : bool :=
  bool_decide (kind ∈ ["CustomResourceDefinition"; "ClusterRole"; "ClusterRoleBinding"; "PodSecurityPolicy";
                       "MutatingWebhookConfiguration"]).

(** An object is addressed by kind, namespace and name; the namespace of a
    cluster-scoped one is ignored. *)
Notation okey := (string * string * string)%type (only parsing).
Definition okey_of (o : kobj) : string * string * string :=
  let kind := kind_of (o_body o) in
  (kind, if cluster_scoped kind then "" else km_Namespace (o_meta o), km_Name (o_meta o)).

(** ** The API server *)

Inductive kerr := NotFound | AlreadyExists | OtherErr (msg : string).
Inductive kres (A : Type) := KOk (a : A) | KErr (e : kerr).
Arguments KOk {A} a.
Arguments KErr {A} e.

(** The operations of the client, on a state that is not known; the clock is a
    part of it. *)
Class KubeApi := {
  kstate : Type;
  kget : string * string * string -> kstate -> kres kobj * kstate;
  kcreate : kobj -> kstate -> kres unit * kstate;
  kupdate : kobj -> kstate -> kres unit * kstate;
  kdelete : string * string * string -> kstate -> kres unit * kstate;
  ktime : kstate -> Z * kstate
}.

(** What a client may rely on.  [view] is the stored content; [stored_as] is what the
    server makes of a submitted object (defaults, versions), which keeps its key.
    A call succeeds or fails; a call that fails changes nothing. *)
Class KubeApiOk `{KubeApi} := {
  view : kstate -> gmap (string * string * string) kobj;
  stored_as : kobj -> kobj;
  admit_key o : okey_of (stored_as o) = okey_of o;
  view_key s k o : view s !! k = Some o -> okey_of o = k;
  kget_ok k s : let '(r, s') := kget k s in
    view s' = view s /\
    match r with KOk o => view s !! k = Some o | KErr NotFound => view s !! k = None | KErr _ => True end;
  kcreate_ok o s : let '(r, s') := kcreate o s in
    match r with
    | KOk _ => view s !! okey_of o = None /\ view s' = <[okey_of o := stored_as o]> (view s)
    | KErr AlreadyExists => is_Some (view s !! okey_of o) /\ view s' = view s
    | KErr _ => view s' = view s
    end;
  kupdate_ok o s : let '(r, s') := kupdate o s in
    match r with
    | KOk _ => is_Some (view s !! okey_of o) /\ view s' = <[okey_of o := stored_as o]> (view s)
    | KErr _ => view s' = view s
    end;
  kdelete_ok k s : let '(r, s') := kdelete k s in
    match r with KOk _ => view s' = delete k (view s) | KErr _ => view s' = view s end;
  ktime_ok s : view (ktime s).2 = view s
}.

(** A server that is up: calls fail only for the reasons they are documented to
    fail for. *)
Class KubeApiUp `{KubeApiOk} : Prop := {
  kget_up k s o : view s !! k = Some o -> (kget k s).1 = KOk o;
  kget_up_none k s : view s !! k = None -> (kget k s).1 = KErr NotFound;
  kcreate_up o s : view s !! okey_of o = None -> (kcreate o s).1 = KOk tt;
  kupdate_up o s : is_Some (view s !! okey_of o) -> (kupdate o s).1 = KOk tt;
  kdelete_up k s : is_Some (view s !! k) -> (kdelete k s).1 = KOk tt
}.
End objects.
Arguments KOk {A} a.
Arguments KErr {A} e.
