(* ===== verification/OperatorResources.v ===== *)
(** * The objects of an installation
    ([integrity-shield-operator/resources/*.go], [cert/cert.go])

    One builder per object, as the sources have them: definitions, configuration
    resources, roles, secrets, the deployment with its containers and volumes, the
    service and the webhook configuration. *)
From S2P Require Import Prelude GoStrings GoJson Pattern Common ReqContext Profile SigningProfile Policy ShieldConfig Signing.
From S2P Require Import MapNode GoState OperatorTypes KubeObjects.
From stdpp Require Import options.

Section resources.
Context `{K8sStructs}.

(** ** crd.go *)

Definition buildCRD (name namespace : string) (crdNames : CRDNames) : kobj :=
  mkObj (meta name namespace None)
    (BCRD (mkCRDSpec "apis.integrityshield.io" crdNames "Namespaced" "object" (Some true) [mkCRDVersion "v1alpha1" true true])).

Definition BuildSignerConfigCRD (cr : IntegrityShield) : kobj :=
  buildCRD (GetSignerConfigCRDName cr) (is_Namespace cr)
    (mkCRDNames "SignerConfig" "signerconfigs" "SignerConfigList" "signerconfig" []).
Definition BuildShieldConfigCRD (cr : IntegrityShield) : kobj :=
  buildCRD (GetShieldConfigCRDName cr) (is_Namespace cr)
    (mkCRDNames "ShieldConfig" "shieldconfigs" "ShieldConfigList" "shieldconfig" ["econf"; "econfs"]).
Definition BuildResourceSignatureCRD (cr : IntegrityShield) : kobj :=
  buildCRD (GetResourceSignatureCRDName cr) (is_Namespace cr)
    (mkCRDNames "ResourceSignature" "resourcesignatures" "ResourceSignatureList" "resourcesignature" ["rsig"; "rsigs"]).
Definition BuildHelmReleaseMetadataCRD (cr : IntegrityShield) : kobj :=
  buildCRD (GetHelmReleaseMetadataCRDName cr) (is_Namespace cr)
    (mkCRDNames "HelmReleaseMetadata" "helmreleasemetadatas" "HelmReleaseMetadataList" "helmreleasemetadata" ["hrm"; "hrms"]).
Definition BuildResourceSigningProfileCRD (cr : IntegrityShield) : kobj :=
  buildCRD (GetResourceSigningProfileCRDName cr) (is_Namespace cr)
    (mkCRDNames "ResourceSigningProfile" "resourcesigningprofiles" "ResourceSigningProfileList" "resourcesigningprofile"
       ["rsp"; "rsps"]).

(** ** role.go *)

Definition operator_labels (cr : IntegrityShield) : gomap :=
  Some (<["app" := is_Name cr]> (<["app.kubernetes.io/name" := is_Name cr]>
       (<["app.kubernetes.io/managed-by" := "operator"]> {["role" := "security"]}))).

Definition BuildServiceAccountForIShield (cr : IntegrityShield) : kobj :=
  mkObj (meta (GetServiceAccountName cr) (is_Namespace cr) (operator_labels cr)) BServiceAccount.

Definition BuildClusterRoleForIShield (cr : IntegrityShield) : kobj :=
  mkObj (meta (GetClusterRoleName cr) (is_Namespace cr) (operator_labels cr))
    (BClusterRole
       [ mkPolicyRule ["extensions"; ""; "apis.integrityshield.io"]
           ["secrets"; "namespaces"; "resourcesignatures"; "shieldconfigs"; "signerconfigs"; "signerconfigs";
            "resourcesigningprofiles"; "resourcesignatures"]
           ["get"; "list"; "watch"; "patch"; "update"];
         mkPolicyRule [""] ["events"] ["create"; "update"; "get"];
         mkPolicyRule ["apiextensions.k8s.io"] ["customresourcedefinitions"] ["get"; "list"; "create"; "update"];
         mkPolicyRule ["*"] ["*"] ["get"] ]).

Definition server_subject (cr : IntegrityShield) : Subject :=
  mkSubject "ServiceAccount" "" (GetServiceAccountName cr) (is_Namespace cr).

Definition BuildClusterRoleBindingForIShield (cr : IntegrityShield) : kobj :=
  mkObj (meta (GetClusterRoleBindingName cr) (is_Namespace cr) (operator_labels cr))
    (BClusterRoleBinding [server_subject cr]
       (mkRoleRef "rbac.authorization.k8s.io" "ClusterRole" (sec_ClusterRole (iss_Security (is_Spec cr))))).

Definition BuildRoleForIShield (cr : IntegrityShield) : kobj :=
  mkObj (meta (GetDryRunRoleName cr) (is_Namespace cr) (operator_labels cr))
    (BRole [mkPolicyRule ["*"] ["*"] ["get"; "list"; "create"; "update"]]).

Definition BuildRoleBindingForIShield (cr : IntegrityShield) : kobj :=
  mkObj (meta (GetDryRunRoleBindingName cr) (is_Namespace cr) (operator_labels cr))
    (BRoleBinding [server_subject cr]
       (mkRoleRef "rbac.authorization.k8s.io" "Role" (sec_ClusterRole (iss_Security (is_Spec cr)) +:+ "-sim"))).

Definition all_verbs : list string := ["update"; "create"; "delete"; "get"; "list"; "watch"; "patch"].

Definition BuildRoleForIShieldAdmin (cr : IntegrityShield) : kobj :=
  mkObj (meta (GetIShieldAdminRoleName cr) (is_Namespace cr) (operator_labels cr))
    (BRole [mkPolicyRule [""] ["integrityshields"; "shieldconfigs"; "signerconfigs"] all_verbs]).

Definition BuildRoleBindingForIShieldAdmin (cr : IntegrityShield) : kobj :=
  mkObj (meta (GetIShieldAdminRoleBindingName cr) (is_Namespace cr) (operator_labels cr))
    (BRoleBinding (sec_IShieldAdminSubjects (iss_Security (is_Spec cr)))
       (mkRoleRef "rbac.authorization.k8s.io" "Role" "ishield-admin-role")).

Definition BuildClusterRoleForIShieldAdmin (cr : IntegrityShield) : kobj :=
  mkObj (meta (GetIShieldAdminClusterRoleName cr) (is_Namespace cr) (operator_labels cr))
    (BClusterRole [mkPolicyRule [""] ["resourcesigningprofiles"; "resourcesignatures"] all_verbs]).

Definition BuildClusterRoleBindingForIShieldAdmin (cr : IntegrityShield) : kobj :=
  mkObj (meta (GetIShieldAdminClusterRoleBindingName cr) (is_Namespace cr) (operator_labels cr))
    (BClusterRoleBinding (sec_IShieldAdminSubjects (iss_Security (is_Spec cr)))
       (mkRoleRef "rbac.authorization.k8s.io" "ClusterRole" "ishield-admin-clusterrole")).

Definition BuildPodSecurityPolicy (cr : IntegrityShield) : kobj :=
  mkObj (meta (GetPodSecurityPolicyName cr) (is_Namespace cr) (Some {["app" := is_Name cr]}))
    (BPSP {| psp_Privileged := true;
             psp_FSGroup := ("MustRunAs", [mkIDRange 1 65535]);
             psp_RunAsUser := "RunAsAny";
             psp_SELinux := "RunAsAny";
             psp_SupplementalGroups := ("MustRunAs", [mkIDRange 1 65535]);
             psp_Volumes := ["configMap"; "hostPath"; "emptyDir"; "secret"; "persistentVolumeClaim"];
             psp_AllowedHostPaths := ["/"];
             psp_AllowedCapabilities := ["*"];
             psp_HostNetwork := true; psp_HostIPC := true; psp_HostPID := true |}).

(** ** secret.go *)

Definition BuildRegKeySecretForIShield (cr : IntegrityShield) : kobj :=
  mkObj (meta (GetRegKeySecretName cr) (is_Namespace cr) None)
    (BSecret {[".dockerconfigjson" := Some (rks_Value (iss_RegKeySecret (is_Spec cr)))]} "kubernetes.io/dockerconfigjson").

Definition BuildTlsSecretForIShield (cr : IntegrityShield) : kobj :=
  mkObj (meta (GetWebhookServerTlsSecretName cr) (is_Namespace cr) None)
    (BSecret (<["tls.crt" := None]> (<["tls.key" := None]> {["ca.crt" := None]})) "kubernetes.io/tls").

(** ** utils.go *)

Definition SecretVolume (name secretName : string) : Volume := mkVolume name (SecretSource secretName 420).
Definition EmptyDirVolume (name : string) : Volume := mkVolume name EmptyDirSource.

(** Files, the segments of a token, YAML and strategic merge patches. *)
Class OperatorLibs := {
  ReadFile : string -> res string;
  DecodeSegment : string -> res string;
  filepath_Clean : string -> string;
  yaml_CommonProfile : string -> option CommonProfile * option string;
  yaml_WebhookRules : string -> list RuleWithOperations;
  YAMLToJSON : string -> res string;
  marshal_CR : IntegrityShield -> res string;
  StrategicMergePatch : string -> string -> res string;
  unmarshal_CR : string -> res IntegrityShield
}.

(** [json.Unmarshal] into a [map\[string\]string]: every value is a string or
    null. *)
Fixpoint string_claims (m : list (string * value)) : option (list (string * string)) :=
  match m with
  | [] => Some []
  | (k, VScalar (SStr s)) :: m' => (fun l => (k, s) :: l) <$> string_claims m'
  | (k, VNull) :: m' => (fun l => (k, "") :: l) <$> string_claims m'
  | _ => None
  end.

(** The subject of the claims of a token: empty when they cannot be decoded. *)
Definition claims_subject (claimBytes : string) : string :=
  match UnmarshalMap claimBytes ≫= string_claims with
  | None => ""
  | Some claimMap => default "" (MapNode.assoc "sub" claimMap)
  end.

Context `{OperatorLibs}.

(** A token without a dot panics. *)
Definition getOperatorServiceAccount : go string :=
  match ReadFile SATokenPath with
  | Err _ => Ret ""
  | Ok tokenString =>
      match Split tokenString "." with
      | _ :: claimSeg :: _ => Ret (match DecodeSegment claimSeg with Err _ => "" | Ok claimBytes => claims_subject claimBytes end)
      | _ => Panic
      end
  end.

Definition file_text (path : string) : string := match ReadFile (filepath_Clean path) with Ok s => s | Err _ => "" end.

Definition MergeDefaultIntegrityShieldCR (cr : IntegrityShield) (srcYamlPath : string) : IntegrityShield :=
  let srcYamlPath := if bool_decide (srcYamlPath = "") then DefaultIShieldCRYamlPath else srcYamlPath in
  match YAMLToJSON (file_text srcYamlPath) with
  | Err _ => cr
  | Ok defaultCRJsonBytes =>
      match marshal_CR cr with
      | Err _ => cr
      | Ok crJsonBytes =>
          match StrategicMergePatch defaultCRJsonBytes crJsonBytes with
          | Err _ => cr
          | Ok mergedCRBytes => match unmarshal_CR mergedCRBytes with Err _ => cr | Ok mergedCR => mergedCR end
          end
      end
  end.

(** ** cr.go *)

(** Where the server finds a configured key: the key ring file of a PGP key, the
    directory of X.509 certificates, nothing for another type. *)
Definition key_type (keyConf : KeyConfig) : string :=
  if bool_decide (kc_SignatureType keyConf = SignatureTypeDefault) then SignatureTypePGP else kc_SignatureType keyConf.

Definition key_path (keyConf : KeyConfig) : option string :=
  let sigType := key_type keyConf in
  if bool_decide (sigType = SignatureTypePGP) then
    let fileName := if bool_decide (kc_FileName keyConf = "") then DefaultKeyringFilename else kc_FileName keyConf in
    Some ("/" +:+ kc_Name keyConf +:+ "/" +:+ sigType +:+ "/" +:+ fileName)
  else if bool_decide (sigType = SignatureTypeX509) then Some ("/" +:+ kc_Name keyConf +:+ "/" +:+ sigType +:+ "/")
  else None.

(** The preset profiles, one after the other; a file that gives no profile
    panics. *)
Fixpoint preset_profiles (paths : list string) (acc : CommonProfile) : go CommonProfile :=
  match paths with
  | [] => Ret acc
  | presetPath :: paths' =>
      match (yaml_CommonProfile (file_text presetPath)).1 with
      | None => Panic
      | Some tmpProfile =>
          preset_profiles paths' (mkCommonProfile (cp_IgnoreRules acc ++ cp_IgnoreRules tmpProfile)
                                                  (cp_IgnoreAttrs acc ++ cp_IgnoreAttrs tmpProfile))
      end
  end.

(** The rule that ignores requests of one user. *)
Definition user_rule (userName : string) : Rule :=
  mkRule [mkRequestPattern None None None None None None (Some userName) None] [].

Definition built_common_profile (cr : IntegrityShield) (paths : list string) (operatorSA : string) : go CommonProfile :=
  commonProfile ← preset_profiles paths (mkCommonProfile [] []);
  let rules := if bool_decide (operatorSA <> "") then cp_IgnoreRules commonProfile ++ [user_rule operatorSA]
               else cp_IgnoreRules commonProfile in
  Ret (mkCommonProfile (rules ++ iss_IgnoreRules (is_Spec cr)) (cp_IgnoreAttrs commonProfile ++ iss_IgnoreAttrs (is_Spec cr))).

Definition or_default (s d : string) : string := if bool_decide (s = "") then d else s.

(** The configuration with its empty fields filled in. *)
Definition complete_shield_config (cr : IntegrityShield) (ec : ShieldConfig) (cond : IShieldResourceCondition)
    (cp : CommonProfile) : ShieldConfig :=
  {| cfg_Patch := cfg_Patch ec; cfg_Log := cfg_Log ec;
     cfg_InScopeNamespaceSelector := cfg_InScopeNamespaceSelector ec;
     cfg_Allow := cfg_Allow ec; cfg_Ignore := cfg_Ignore ec; cfg_Mode := cfg_Mode ec;
     cfg_Plugin := cfg_Plugin ec; cfg_CommonProfile := Some cp;
     cfg_Namespace := or_default (cfg_Namespace ec) (is_Namespace cr);
     cfg_SignatureNamespace := or_default (cfg_SignatureNamespace ec) (is_Namespace cr);
     cfg_ProfileNamespace := or_default (cfg_ProfileNamespace ec) (is_Namespace cr);
     cfg_KeyPathList := match cfg_KeyPathList ec with
                        | [] => omap key_path (iss_KeyConfig (is_Spec cr))
                        | l => l
                        end;
     cfg_ChartDir := cfg_ChartDir ec; cfg_ChartRepo := cfg_ChartRepo ec;
     cfg_IShieldResource := cfg_IShieldResource ec;
     cfg_IShieldResourceCondition := Some cond;
     cfg_IShieldAdminUserGroup := cfg_IShieldAdminUserGroup ec;
     cfg_IShieldAdminUserName := cfg_IShieldAdminUserName ec;
     cfg_IShieldCRName := or_default (cfg_IShieldCRName ec) (is_Name cr);
     cfg_IShieldServerUserName := or_default (cfg_IShieldServerUserName ec)
       ("system:serviceaccount:" +:+ is_Namespace cr +:+ ":" +:+ GetServiceAccountName cr);
     cfg_Options := cfg_Options ec |}.

Definition set_ShieldConfig (cr : IntegrityShield) (ec : ShieldConfig) : IntegrityShield :=
  let sp := is_Spec cr in
  mkIntegrityShield (is_Kind cr) (is_APIVersion cr) (is_Name cr) (is_Namespace cr) (is_Finalizers cr) (is_DeletionTimestamp cr)
    {| iss_MaxSurge := iss_MaxSurge sp; iss_MaxUnavailable := iss_MaxUnavailable sp; iss_ReplicaCount := iss_ReplicaCount sp;
       iss_MetaLabels := iss_MetaLabels sp; iss_SelectorLabels := iss_SelectorLabels sp; iss_NodeSelector := iss_NodeSelector sp;
       iss_Affinity := iss_Affinity sp; iss_Tolerations := iss_Tolerations sp; iss_ImagePullSecrets := iss_ImagePullSecrets sp;
       iss_IgnoreDefaultIShieldCR := iss_IgnoreDefaultIShieldCR sp; iss_Security := iss_Security sp;
       iss_KeyConfig := iss_KeyConfig sp; iss_Server := iss_Server sp; iss_Logger := iss_Logger sp;
       iss_Observer := iss_Observer sp; iss_RegKeySecret := iss_RegKeySecret sp;
       iss_ShieldConfigCrName := iss_ShieldConfigCrName sp; iss_ShieldConfig := Some ec;
       iss_IgnoreRules := iss_IgnoreRules sp; iss_IgnoreAttrs := iss_IgnoreAttrs sp; iss_SignerConfig := iss_SignerConfig sp;
       iss_ResourceSigningProfiles := iss_ResourceSigningProfiles sp;
       iss_WebhookServerTlsSecretName := iss_WebhookServerTlsSecretName sp;
       iss_WebhookServiceName := iss_WebhookServiceName sp; iss_WebhookConfigName := iss_WebhookConfigName sp;
       iss_WebhookNamespacedResource := iss_WebhookNamespacedResource sp;
       iss_WebhookClusterResource := iss_WebhookClusterResource sp |}.

(** [BuildShieldConfigForIShield]: the built resource shares the configuration of
    the custom resource, so filling it in changes both; both are returned. *)
Definition BuildShieldConfigForIShield (cr : IntegrityShield) (sch : option scheme) (Getenv : string -> string)
    (commonProfileYamlPathList : list string) : go (kobj * IntegrityShield) :=
  match iss_ShieldConfig (is_Spec cr) with
  | None => Panic
  | Some ec =>
      operatorSA ← getOperatorServiceAccount;
      let '(iShieldOperatorResources, iShieldServerResources) := GetIShieldResourceList cr sch Getenv in
      let cond := mkIShieldResourceCondition iShieldOperatorResources iShieldServerResources operatorSA in
      cp ← (match cfg_CommonProfile ec with
            | Some cp => Ret cp
            | None => built_common_profile cr commonProfileYamlPathList operatorSA
            end);
      let ec := complete_shield_config cr ec cond cp in
      Ret (mkObj (meta (GetShieldConfigCRName cr) (is_Namespace cr) None) (BShieldConfig (Some ec)), set_ShieldConfig cr ec)
  end.

(** What is built, and how the custom resource changes. *)
Lemma BuildShieldConfig_shape cr sch Getenv paths cfg filled :
  BuildShieldConfigForIShield cr sch Getenv paths = Ret (cfg, filled) ->
  exists ec0 ec cond, iss_ShieldConfig (is_Spec cr) = Some ec0 /\
    cfg = mkObj (meta (GetShieldConfigCRName cr) (is_Namespace cr) None) (BShieldConfig (Some ec)) /\ filled = set_ShieldConfig cr ec /\
    cfg_IShieldResourceCondition ec = Some cond /\
    (irc_OperatorResources cond, irc_ServerResources cond) = GetIShieldResourceList cr sch Getenv /\
    cfg_KeyPathList ec = match cfg_KeyPathList ec0 with [] => omap key_path (iss_KeyConfig (is_Spec cr)) | l => l end.
Proof.
  unfold BuildShieldConfigForIShield. destruct (iss_ShieldConfig _) as [ec0|]; [|done].
  intros (sa & _ & Hb)%go_bind_Ret. destruct (GetIShieldResourceList _ _ _) as [ops srv].
  apply go_bind_Ret in Hb as (cp & _ & [= <- <-]). by eexists ec0, _, _.
Qed.

Definition sample_signer_config : SignerConfig :=
  mkSignerConfig
    [mkSignerConfigCondition ScopeUndefined ["sample"] [] ["SampleSigner"]]
    [mkSignerCondition "SampleSigner" "" [mkSubjectMatchPattern "" "" "" "" "" "" "" "" "" "sample" ""]]
    [] "".

Definition BuildSignerConfigForIShield (cr : IntegrityShield) : kobj :=
  mkObj (meta (GetSignerConfigCRName cr) (is_Namespace cr) None)
    (BSignerConfig (Some (match iss_SignerConfig (is_Spec cr) with Some c => c | None => sample_signer_config end))).

(** A profile without a specification panics. *)
Definition BuildResourceSigningProfileForIShield (cr : IntegrityShield) (prof : ProfileConfig) : go kobj :=
  match pf_Spec prof with
  | None => Panic
  | Some spec => Ret (mkObj (meta (pf_Name prof) (is_Namespace cr) None) (BProfile spec))
  end.

(** ** deploy.go *)

Definition format_bool (b : bool) : string := if b then "true" else "false".

Definition key_mount (keyConf : KeyConfig) : VolumeMount :=
  mkVolumeMount ("/" +:+ kc_Name keyConf +:+ "/" +:+ key_type keyConf +:+ "/") (kc_Name keyConf) false.

Definition server_mounts (cr : IntegrityShield) : list VolumeMount :=
  [ mkVolumeMount "/run/secrets/tls" "ishield-tls-certs" true;
    mkVolumeMount "/tmp" "tmp" false;
    mkVolumeMount "/ishield-app/public" "log-volume" false ] ++
  (key_mount <$> iss_KeyConfig (is_Spec cr)).

Definition es_tls (es : EsConfig) : bool := es_Enabled es && bool_decide (es_Scheme es = "https").

Definition logger_mounts (es : EsConfig) : list VolumeMount :=
  [mkVolumeMount "/ishield-app/public" "log-volume" false] ++
  (if es_tls es then [mkVolumeMount "/run/secrets/es_tls" "es-tls-certs" true] else []).

Definition pod_volumes (cr : IntegrityShield) (es : EsConfig) : list Volume :=
  [ SecretVolume "ishield-tls-certs" (GetWebhookServerTlsSecretName cr);
    EmptyDirVolume "log-volume";
    EmptyDirVolume "tmp" ] ++
  ((fun keyConf => SecretVolume (kc_Name keyConf) (kc_SecretName keyConf)) <$> iss_KeyConfig (is_Spec cr)) ++
  (if es_tls es then [SecretVolume "es-tls-certs" (lgc_EsSecretName (iss_Logger (is_Spec cr)))] else []).

Definition http_probe (path : string) : option Probe := Some (mkProbe 10 10 (HTTPGet path (IntVal 8443) "HTTPS")).
Definition exec_probe : option Probe := Some (mkProbe 10 10 (ExecCommand ["ls"])).

Definition server_env (cr : IntegrityShield) : list EnvVar :=
  [ mkEnvVar "SHIELD_NS" (is_Namespace cr);
    mkEnvVar "SHIELD_CONFIG_NAME" (GetShieldConfigCRName cr);
    mkEnvVar "CHART_BASE_URL" (srv_ChartBaseUrl (iss_Server (is_Spec cr)));
    mkEnvVar "SHIELD_CM_RELOAD_SEC" (FormatInt (srv_ShieldCmReloadSec (iss_Server (is_Spec cr))));
    mkEnvVar "SHIELD_POLICY_RELOAD_SEC" (FormatInt (srv_EnforcePolicyReloadSec (iss_Server (is_Spec cr)))) ].

Definition server_container (cr : IntegrityShield) : Container :=
  let s := iss_Server (is_Spec cr) in
  {| ctr_Name := srv_Name s; ctr_SecurityContext := srv_SecurityContext s; ctr_Image := srv_Image s;
     ctr_ImagePullPolicy := srv_ImagePullPolicy s;
     ctr_ReadinessProbe := http_probe "/health/readiness"; ctr_LivenessProbe := http_probe "/health/liveness";
     ctr_Ports := Some [mkContainerPort "ac-api" (srv_Port s) "TCP"];
     ctr_VolumeMounts := Some (server_mounts cr);
     ctr_Env := Some (server_env cr); ctr_Args := None; ctr_Resources := srv_Resources s |}.

Definition logger_container (cr : IntegrityShield) (es : EsConfig) (http : HttpConfig) : Container :=
  let l := iss_Logger (is_Spec cr) in
  let es_file f := "/run/secrets/es_tls/" +:+ f in
  {| ctr_Name := lgc_Name l; ctr_SecurityContext := lgc_SecurityContext l; ctr_Image := lgc_Image l;
     ctr_ImagePullPolicy := lgc_ImagePullPolicy l; ctr_ReadinessProbe := exec_probe; ctr_LivenessProbe := exec_probe;
     ctr_Ports := None; ctr_VolumeMounts := Some (logger_mounts es);
     ctr_Env := Some
       [ mkEnvVar "STDOUT_ENABLED" (format_bool (lgc_StdOutput l));
         mkEnvVar "HTTPOUT_ENABLED" (format_bool (hc_Enabled http));
         mkEnvVar "HTTPOUT_ENDPOINT_URL" (hc_Endpoint http);
         mkEnvVar "ES_ENABLED" (format_bool (es_Enabled es));
         mkEnvVar "FLUENT_ELASTICSEARCH_SCHEME" (es_Scheme es);
         mkEnvVar "FLUENT_ELASTICSEARCH_HOST" (es_Host es);
         mkEnvVar "FLUENT_ELASTICSEARCH_PORT" (FormatInt (es_Port es));
         mkEnvVar "FLUENT_ELASTICSEARCH_SSL_VERIFY" (format_bool (es_SslVerify es));
         mkEnvVar "CA_FILE" (es_file (es_CaFile es));
         mkEnvVar "CLIENT_CERT" (es_file (es_ClientCert es));
         mkEnvVar "CLIENT_KEY" (es_file (es_ClientKey es));
         mkEnvVar "ES_INDEX_PREFIX" (es_IndexPrefix es);
         mkEnvVar "EVENTS_FILE_PATH" "/ishield-app/public/events.txt" ];
     ctr_Args := None; ctr_Resources := lgc_Resources l |}.

Definition observer_container (cr : IntegrityShield) : Container :=
  let o := iss_Observer (is_Spec cr) in
  {| ctr_Name := obc_Name o; ctr_SecurityContext := obc_SecurityContext o; ctr_Image := obc_Image o;
     ctr_ImagePullPolicy := obc_ImagePullPolicy o; ctr_ReadinessProbe := exec_probe; ctr_LivenessProbe := exec_probe;
     ctr_Ports := None; ctr_VolumeMounts := Some (server_mounts cr);
     ctr_Env := Some
       [ mkEnvVar "SHIELD_NS" (is_Namespace cr);
         mkEnvVar "SHIELD_CONFIG_NAME" (GetShieldConfigCRName cr);
         mkEnvVar "EVENTS_FILE_PATH" "/ishield-app/public/events.txt" ];
     ctr_Args := None; ctr_Resources := obc_Resources o |}.

(** [BuildDeploymentForIShield]; a missing Elasticsearch or HTTP configuration of
    the logger panics, even when the logger is disabled. *)
Definition BuildDeploymentForIShield (cr : IntegrityShield) : go kobj :=
  match lgc_EsConfig (iss_Logger (is_Spec cr)), lgc_HttpConfig (iss_Logger (is_Spec cr)) with
  | Some es, Some http =>
      let sp := is_Spec cr in
      let containers :=
        [server_container cr] ++
        (if default false (lgc_Enabled (iss_Logger sp)) then [logger_container cr es http] else []) ++
        (if default false (obc_Enabled (iss_Observer sp)) then [observer_container cr] else []) in
      Ret (mkObj (meta (GetIShieldServerDeploymentName cr) (is_Namespace cr) (iss_MetaLabels sp))
        (BDeployment
           {| dep_MaxSurge := iss_MaxSurge sp; dep_MaxUnavailable := iss_MaxUnavailable sp; dep_Replicas := iss_ReplicaCount sp;
              dep_MatchLabels := iss_SelectorLabels sp;
              dep_Template :=
                {| pt_Labels := iss_SelectorLabels sp; pt_Annotations := None; pt_ImagePullSecrets := iss_ImagePullSecrets sp;
                   pt_ServiceAccountName := GetServiceAccountName cr;
                   pt_SecurityContext := sec_PodSecurityContext (iss_Security sp); pt_Containers := containers;
                   pt_NodeSelector := iss_NodeSelector sp; pt_Affinity := iss_Affinity sp; pt_Tolerations := iss_Tolerations sp;
                   pt_Volumes := pod_volumes cr es |} |} 0))
  | _, _ => Panic
  end.

Definition EqualLabels (found expected : gomap) : bool := bool_decide (found = expected).
Definition EqualAnnotations (found expected : gomap) : bool := bool_decide (found = expected).

Definition EqualContainers (expected found : Container) : bool :=
  bool_decide (ctr_Name found = ctr_Name expected) &&
  bool_decide (ctr_Image found = ctr_Image expected) &&
  bool_decide (ctr_ImagePullPolicy found = ctr_ImagePullPolicy expected) &&
  bool_decide (ctr_VolumeMounts found = ctr_VolumeMounts expected) &&
  bool_decide (ctr_SecurityContext found = ctr_SecurityContext expected) &&
  bool_decide (ctr_Ports found = ctr_Ports expected) &&
  bool_decide (ctr_Args found = ctr_Args expected) &&
  bool_decide (ctr_Env found = ctr_Env expected).

(** Only the first containers are compared; two templates without containers
    panic. *)
Definition EqualPods (expected found : PodTemplate) : go bool :=
  if negb (EqualLabels (pt_Labels found) (pt_Labels expected)) then Ret false
  else if negb (EqualAnnotations (pt_Annotations found) (pt_Annotations expected)) then Ret false
  else if negb (bool_decide (pt_ServiceAccountName found = pt_ServiceAccountName expected)) then Ret false
  else if negb (Nat.eqb (length (pt_Containers found)) (length (pt_Containers expected))) then Ret false
  else match pt_Containers expected, pt_Containers found with
       | e :: _, f :: _ => Ret (EqualContainers e f)
       | _, _ => Panic
       end.

Definition EqualDeployments (expectedMeta : KMeta) (expected : DeploymentSpec) (foundMeta : KMeta) (found : DeploymentSpec) : go bool :=
  if negb (EqualLabels (km_Labels foundMeta) (km_Labels expectedMeta)) then Ret false
  else EqualPods (dep_Template expected) (dep_Template found).

(** ** webhook.go *)

Definition BuildServiceForIShield (cr : IntegrityShield) : kobj :=
  mkObj (meta (GetWebhookServiceName cr) (is_Namespace cr) None)
    (BService [mkServicePort 443 (StrVal "ac-api")] (iss_SelectorLabels (is_Spec cr))).

Definition with_scope (r : AdmRule) (scope : string) : AdmRule :=
  mkAdmRule (rl_APIGroups r) (rl_APIVersions r) (rl_Resources r) (Some scope).

(** A custom resource without a shield configuration panics. *)
Definition BuildMutatingWebhookConfigurationForIShield (cr : IntegrityShield) : go kobj :=
  match iss_ShieldConfig (is_Spec cr) with
  | None => Panic
  | Some ec =>
      let operations := ["CREATE"; "DELETE"; "UPDATE"] in
      let rules := [ mkRuleWithOperations operations (with_scope (iss_WebhookNamespacedResource (is_Spec cr)) "Namespaced");
                     mkRuleWithOperations operations (with_scope (iss_WebhookClusterResource (is_Spec cr)) "Cluster") ] in
      let rules := if ExactMatchWithPatternArray "roks" (cfg_Options ec)
                   then yaml_WebhookRules (file_text WebhookRulesForRoksYamlPath) else rules in
      Ret (mkObj (meta (GetWebhookConfigName cr) (is_Namespace cr) None)
        (BWebhook [ {| wh_Name := "ac-server." +:+ is_Namespace cr +:+ ".svc";
                       wh_ServiceName := GetWebhookServiceName cr; wh_ServiceNamespace := is_Namespace cr;
                       wh_Path := "/mutate"; wh_CABundle := None; wh_Rules := rules; wh_SideEffects := "None";
                       wh_TimeoutSeconds := DefaultIShieldWebhookTimeout;
                       wh_AdmissionReviewVersions := ["v1"; "v1beta1"] |} ]))
  end.
End resources.
