(* ===== verification/Certificates.v ===== *)
(** * The certificate of the webhook server
    ([integrity-shield-operator/cert/cert.go])

    A certificate authority and a server certificate for the name of the webhook
    service.  Keys, certificates and their encodings are those of the Go
    libraries. *)
From S2P Require Import Prelude GoStrings Signing.
From stdpp Require Import options.

(** The template of a certificate. *)
Record CertTemplate := mkCertTemplate {
  ct_SerialNumber : Z;
  ct_CommonName : string;
  ct_IsCA : bool;
  ct_ExtKeyUsage : list string;
  ct_KeyUsage : list string;
  ct_BasicConstraintsValid : bool;
  ct_NotBefore : Z;
  ct_NotAfter : Z;
  ct_DNSNames : list string;
}.

(** [crypto/rsa], [crypto/x509] and [encoding/pem]; [draw] is the state of the
    random source at a call, [add_years] is [time.AddDate]. *)
Class CertLib := {
  rsa_key : Type;
  rsa_public : Type;
  PublicKey : rsa_key -> rsa_public;
  rsa_GenerateKey : nat -> res rsa_key;
  CreateCertificate : nat -> CertTemplate -> CertTemplate -> rsa_public -> rsa_key -> res string;
  pem_Encode : string -> string -> res string;
  MarshalPKCS1PrivateKey : rsa_key -> string;
  add_years : Z -> Z -> Z
}.

Section cert.
Context `{CertLib}.

Definition bind_res {A B} (m : res A) (k : A -> res B) : res B := match m with Ok a => k a | Err e => Err e end.

Definition both_usages : list string := ["ClientAuth"; "ServerAuth"].

Definition ca_template (svcName : string) (now1 now2 : Z) : CertTemplate :=
  mkCertTemplate 2020 (svcName +:+ "_ca") true both_usages ["DigitalSignature"; "CertSign"] true now1 (add_years now2 2) [].

Definition server_template (svcName NS : string) (now1 now2 : Z) : CertTemplate :=
  let cn := svcName +:+ "." +:+ NS +:+ ".svc" in
  mkCertTemplate 2020 cn false both_usages ["DigitalSignature"] false now1 (add_years now2 2) [cn].

(** [GenerateCert]: the certificate of the authority, the private key and the
    certificate of the server; [clock] gives the four readings of the time. *)
Definition GenerateCert (svcName NS : string) (draw : nat) (clock : nat -> Z) : res (string * string * string) :=
  bind_res (rsa_GenerateKey draw) (fun caKey =>
  let ca := ca_template svcName (clock 0) (clock 1) in
  bind_res (CreateCertificate (draw + 1) ca ca (PublicKey caKey) caKey) (fun caBytes =>
  bind_res (pem_Encode "CERTIFICATE" caBytes) (fun caPEM =>
  bind_res (pem_Encode "RSA PRIVATE KEY" (MarshalPKCS1PrivateKey caKey)) (fun _ =>
  bind_res (rsa_GenerateKey (draw + 2)) (fun tlsKey =>
  bind_res (pem_Encode "RSA PRIVATE KEY" (MarshalPKCS1PrivateKey tlsKey)) (fun tlsPrivKeyPEM =>
  let cert := server_template svcName NS (clock 2) (clock 3) in
  bind_res (CreateCertificate (draw + 3) cert ca (PublicKey tlsKey) caKey) (fun certBytes =>
  bind_res (pem_Encode "CERTIFICATE" certBytes) (fun certPEM =>
  Ok (caPEM, tlsPrivKeyPEM, certPEM))))))))).

(** A server certificate for a name: issued for it by the authority whose
    certificate is given, over the public half of the given private key. *)
Definition certifies (name caPEM keyPEM certPEM : string) : Prop :=
  exists caKey tlsKey ca cert draw1 draw2 caBytes certBytes,
    ct_IsCA ca = true /\ "CertSign" ∈ ct_KeyUsage ca /\ name ∈ ct_DNSNames cert /\ "ServerAuth" ∈ ct_ExtKeyUsage cert /\
    CreateCertificate draw1 ca ca (PublicKey caKey) caKey = Ok caBytes /\ pem_Encode "CERTIFICATE" caBytes = Ok caPEM /\
    CreateCertificate draw2 cert ca (PublicKey tlsKey) caKey = Ok certBytes /\ pem_Encode "CERTIFICATE" certBytes = Ok certPEM /\
    pem_Encode "RSA PRIVATE KEY" (MarshalPKCS1PrivateKey tlsKey) = Ok keyPEM.

Lemma bind_res_Ok {A B} (m : res A) (k : A -> res B) b : bind_res m k = Ok b -> exists a, m = Ok a /\ k a = Ok b.
Proof. destruct m; [eauto|done]. Qed.

Lemma GenerateCert_certifies svcName NS draw clock caPEM keyPEM certPEM :
  GenerateCert svcName NS draw clock = Ok (caPEM, keyPEM, certPEM) ->
  certifies (svcName +:+ "." +:+ NS +:+ ".svc") caPEM keyPEM certPEM.
Proof.
  unfold GenerateCert. intros (caKey & _ & Hg)%bind_res_Ok. apply bind_res_Ok in Hg as (caBytes & Hca & Hg).
  apply bind_res_Ok in Hg as (caP & Hcap & Hg). apply bind_res_Ok in Hg as (x & _ & Hg). apply bind_res_Ok in Hg as (tlsKey & _ & Hg).
  apply bind_res_Ok in Hg as (keyP & Hkey & Hg). apply bind_res_Ok in Hg as (certBytes & Hcert & Hg).
  apply bind_res_Ok in Hg as (certP & Hcp & [= -> -> ->]).
  eexists caKey, tlsKey, _, _, _, _, caBytes, certBytes.
  split; [|split; [|split; [|split; [|split; [exact Hca|split; [exact Hcap|split; [exact Hcert|split; [exact Hcp|exact Hkey]]]]]]]].
  - done.
  - right. left.
  - left.
  - right. left.
Qed.
End cert.
