(* ===== verification/Controller.v ===== *)
(** * The operator's controller
    ([integrity-shield-operator/controllers/integrityshield.go],
     [integrityshield_controller.go])

    [Reconcile] brings the cluster towards the installation an [IntegrityShield]
    resource describes.  Each step looks one object up, creates it when it is
    missing and asks to be called again, or goes on when it is there; under
    deletion the cluster-scoped objects are removed before the finalizer is. *)
From S2P Require Import Prelude GoStrings GoJson Common ShieldConfig Signing GoState OperatorTypes KubeObjects OperatorResources Certificates.
From stdpp Require Import options.

(** [ctrl.Result]; the delay is in nanoseconds. *)
Record ctrlResult := mkCtrlResult { cr_Requeue : bool; cr_RequeueAfter : Z }.

(** The directory functions of [getCommonProfilesPath]. *)
Class OperatorFS := {
  Stat_IsNotExist : string -> bool;
  Getwd : string;
  filepath_Join : list string -> string;
  ReadDir : string -> list string
}.

Definition getCommonProfilesPath `{OperatorFS} : list string :=
  let commonProfileDir := if Stat_IsNotExist CommonProfilesPath then filepath_Join [Getwd; "../"; CommonProfilesPath]
                          else CommonProfilesPath in
  List.filter (fun fpath => HasSuffix fpath ".yaml") ((fun f => filepath_Join [commonProfileDir; f]) <$> ReadDir commonProfileDir).

(** [controllerutil.SetControllerReference], which adds an owner reference to the
    metadata; [reflect.DeepEqual] of two specifications; the random source and
    the clock at a state of the cluster. *)
Class ControllerLibs `{KubeApi} := {
  SetControllerReference : IntegrityShield -> KMeta -> res KMeta;
  spec_DeepEqual : kbody -> kbody -> bool;
  draw_of : kstate -> nat;
  clock_of : kstate -> nat -> Z
}.

Section controller.
Context `{KubeApi, !OperatorLibs, !OperatorFS, !ControllerLibs, !CertLib}.
Context (Getenv : string -> string) (Scheme : option scheme).
Notation K := (ST kstate).

(** ** Calls *)

Definition r_Get (key : string * string * string) : K (kres kobj) := fun s => Ret (kget key s).
Definition r_Create (o : kobj) : K (kres unit) := fun s => Ret (kcreate o s).
Definition r_Update (o : kobj) : K (kres unit) := fun s => Ret (kupdate o s).
Definition r_Delete (key : string * string * string) : K (kres unit) := fun s => Ret (kdelete key s).
Definition time_Now : K Z := fun s => Ret (ktime s).

(** ** Outcomes *)

Definition outcome : Type := ctrlResult * option kerr.
Definition second : Z := 1000000000.
Definition finished : outcome := (mkCtrlResult false 0, None).
Definition requeue : outcome := (mkCtrlResult true 0, None).
Definition requeue_later : outcome := (mkCtrlResult true second, None).
Definition failed (e : kerr) : outcome := (mkCtrlResult false 0, Some e).

(** ** The shared shape of the create functions *)

(** The branch on which the object does not exist. *)
Definition create_new (expected : kobj) : K outcome :=
  r ← r_Create expected;
  mret (match r with
        | KErr AlreadyExists => requeue
        | KErr e => failed e
        | KOk _ => requeue_later
        end).

(** Own the expected object, look it up, create it when it is missing, and go on
    with [on_found] when it is there. *)
Definition ensure (instance : IntegrityShield) (expected : kobj) (key : string * string * string)
    (on_found : kobj -> kobj -> K outcome) : K outcome :=
  match SetControllerReference instance (o_meta expected) with
  | Err e => mret (failed (OtherErr e))
  | Ok m =>
      let expected := mkObj m (o_body expected) in
      r ← r_Get key;
      match r with
      | KErr NotFound => create_new expected
      | KErr e => mret (failed e)
      | KOk found => on_found expected found
      end
  end.

Definition nothing_to_do (expected found : kobj) : K outcome := mret finished.

(** A specification that differs is replaced, keeping the metadata. *)
Definition update_spec (expected found : kobj) : K outcome :=
  if negb (spec_DeepEqual (o_body expected) (o_body found)) then
    r ← r_Update (mkObj (o_meta found) (o_body expected));
    mret (match r with KErr e => failed e | KOk _ => finished end)
  else mret finished.

(** The shape of the delete functions. *)
Definition remove (key : string * string * string) : K outcome :=
  r ← r_Get key;
  match r with
  | KOk _ => d ← r_Delete key; mret (match d with KErr e => failed e | KOk _ => requeue_later end)
  | KErr NotFound => mret requeue_later
  | KErr e => mret (failed e)
  end.

(** Keys as the functions give them. *)
Definition in_cluster (o : kobj) : string * string * string := (kind_of (o_body o), "", km_Name (o_meta o)).
Definition in_namespace (instance : IntegrityShield) (o : kobj) : string * string * string :=
  (kind_of (o_body o), is_Namespace instance, km_Name (o_meta o)).

(** ** CRDs *)

Definition createOrUpdateCRD (instance : IntegrityShield) (expected : kobj) : K outcome :=
  ensure instance expected (in_cluster expected) update_spec.
Definition deleteCRD (instance : IntegrityShield) (expected : kobj) : K outcome := remove (in_cluster expected).

Definition createOrUpdateShieldConfigCRD instance := createOrUpdateCRD instance (BuildShieldConfigCRD instance).
Definition createOrUpdateSignerConfigCRD instance := createOrUpdateCRD instance (BuildSignerConfigCRD instance).
Definition createOrUpdateResourceSignatureCRD instance := createOrUpdateCRD instance (BuildResourceSignatureCRD instance).
Definition createOrUpdateHelmReleaseMetadataCRD instance := createOrUpdateCRD instance (BuildHelmReleaseMetadataCRD instance).
Definition createOrUpdateResourceSigningProfileCRD instance := createOrUpdateCRD instance (BuildResourceSigningProfileCRD instance).
Definition deleteShieldConfigCRD instance := deleteCRD instance (BuildShieldConfigCRD instance).
Definition deleteSignerConfigCRD instance := deleteCRD instance (BuildSignerConfigCRD instance).
Definition deleteResourceSignatureCRD instance := deleteCRD instance (BuildResourceSignatureCRD instance).
Definition deleteHelmReleaseMetadataCRD instance := deleteCRD instance (BuildHelmReleaseMetadataCRD instance).
Definition deleteResourceSigningProfileCRD instance := deleteCRD instance (BuildResourceSigningProfileCRD instance).

(** ** CRs *)

(** Returns the instance too, whose shield configuration the builder filled in. *)
Definition createOrUpdateShieldConfigCR (instance : IntegrityShield) : K (outcome * IntegrityShield) :=
  b ← st_lift (BuildShieldConfigForIShield instance Scheme Getenv getCommonProfilesPath);
  let '(expected, instance) := b : kobj * IntegrityShield in
  o ← ensure instance expected (in_namespace instance expected) update_spec;
  mret (o, instance).

Definition createOrUpdateSignerConfigCR (instance : IntegrityShield) : K outcome :=
  let expected := BuildSignerConfigForIShield instance in
  ensure instance expected (in_namespace instance expected) update_spec.

Definition createOrUpdateResourceSigningProfileCR (instance : IntegrityShield) (prof : ProfileConfig) : K outcome :=
  expected ← st_lift (BuildResourceSigningProfileForIShield instance prof);
  ensure instance expected (in_namespace instance expected) update_spec.

(** ** Roles *)

Definition createOrUpdateServiceAccount (instance : IntegrityShield) : K outcome :=
  let expected := BuildServiceAccountForIShield instance in
  ensure instance expected (in_namespace instance expected) nothing_to_do.

Definition createOrUpdateClusterRole (instance : IntegrityShield) (expected : kobj) : K outcome :=
  ensure instance expected (in_cluster expected) nothing_to_do.
Definition deleteClusterRole (instance : IntegrityShield) (expected : kobj) : K outcome := remove (in_cluster expected).
Definition createOrUpdateClusterRoleBinding (instance : IntegrityShield) (expected : kobj) : K outcome :=
  ensure instance expected (in_cluster expected) nothing_to_do.
Definition deleteClusterRoleBinding (instance : IntegrityShield) (expected : kobj) : K outcome := remove (in_cluster expected).
Definition createOrUpdateRole (instance : IntegrityShield) (expected : kobj) : K outcome :=
  ensure instance expected (in_namespace instance expected) nothing_to_do.
Definition createOrUpdateRoleBinding (instance : IntegrityShield) (expected : kobj) : K outcome :=
  ensure instance expected (in_namespace instance expected) nothing_to_do.

Definition createOrUpdateClusterRoleBindingForIShieldAdmin instance :=
  createOrUpdateClusterRoleBinding instance (BuildClusterRoleBindingForIShieldAdmin instance).
Definition deleteClusterRoleBindingForIShieldAdmin instance :=
  deleteClusterRoleBinding instance (BuildClusterRoleBindingForIShieldAdmin instance).
Definition createOrUpdateRoleBindingForIShieldAdmin instance :=
  createOrUpdateRoleBinding instance (BuildRoleBindingForIShieldAdmin instance).
Definition createOrUpdateRoleForIShieldAdmin instance := createOrUpdateRole instance (BuildRoleForIShieldAdmin instance).
Definition createOrUpdateClusterRoleForIShieldAdmin instance :=
  createOrUpdateClusterRole instance (BuildClusterRoleForIShieldAdmin instance).
Definition deleteClusterRoleForIShieldAdmin instance := deleteClusterRole instance (BuildClusterRoleForIShieldAdmin instance).
Definition createOrUpdateClusterRoleBindingForIShield instance :=
  createOrUpdateClusterRoleBinding instance (BuildClusterRoleBindingForIShield instance).
Definition deleteClusterRoleBindingForIShield instance :=
  deleteClusterRoleBinding instance (BuildClusterRoleBindingForIShield instance).
Definition createOrUpdateRoleBindingForIShield instance := createOrUpdateRoleBinding instance (BuildRoleBindingForIShield instance).
Definition createOrUpdateRoleForIShield instance := createOrUpdateRole instance (BuildRoleForIShield instance).
Definition createOrUpdateClusterRoleForIShield instance := createOrUpdateClusterRole instance (BuildClusterRoleForIShield instance).
Definition deleteClusterRoleForIShield instance := deleteClusterRole instance (BuildClusterRoleForIShield instance).

Definition createOrUpdatePodSecurityPolicy (instance : IntegrityShield) : K outcome :=
  let expected := BuildPodSecurityPolicy instance in
  ensure instance expected (in_cluster expected) nothing_to_do.
Definition deletePodSecurityPolicy (instance : IntegrityShield) : K outcome := remove (in_cluster (BuildPodSecurityPolicy instance)).

(** ** Secrets *)

(** [isKeyRingReady]: the loop ends at the first secret that cannot be read. *)
Fixpoint ready_count (instance : IntegrityShield) (keys : list KeyConfig) (okCount : nat) : K (nat * string) :=
  match keys with
  | [] => mret (okCount, "")
  | keyConf :: keys' =>
      r ← r_Get ("Secret", is_Namespace instance, kc_SecretName keyConf);
      match r with
      | KOk _ => ready_count instance keys' (S okCount)
      | KErr _ => mret (okCount, kc_SecretName keyConf)
      end
  end.

Definition isKeyRingReady (instance : IntegrityShield) : K (bool * string) :=
  r ← ready_count instance (iss_KeyConfig (is_Spec instance)) 0;
  let '(okCount, nonReadyKey) := r : nat * string in
  mret (Nat.eqb okCount (length (iss_KeyConfig (is_Spec instance))), nonReadyKey).

(** [addCertValues]: when no certificate could be made, the entries are nil. *)
Definition addCertValues (instance : IntegrityShield) (expected : kobj) : K kobj := fun s =>
  let '(ca, tlsKey, tlsCert) :=
    match GenerateCert (GetWebhookServiceName instance) (is_Namespace instance) (draw_of s) (clock_of s) with
    | Ok (ca, tlsKey, tlsCert) => (Some ca, Some tlsKey, Some tlsCert)
    | Err _ => (None, None, None)
    end in
  Ret (match o_body expected with
       | BSecret data type =>
           match data !! "tls.crt", data !! "tls.key", data !! "ca.crt" with
           | Some _, Some _, Some _ =>
               mkObj (o_meta expected)
                 (BSecret (<["ca.crt" := ca]> (<["tls.key" := tlsKey]> (<["tls.crt" := tlsCert]> data))) type)
           | _, _, _ => expected
           end
       | _ => expected
       end, s).

Definition createOrUpdateCertSecret (instance : IntegrityShield) (expected : kobj) : K outcome :=
  match SetControllerReference instance (o_meta expected) with
  | Err e => mret (failed (OtherErr e))
  | Ok m =>
      let expected := mkObj m (o_body expected) in
      r ← r_Get (in_namespace instance expected);
      expected ← addCertValues instance expected;
      match r with
      | KErr NotFound => create_new expected
      | KErr e => mret (failed e)
      | KOk _ => mret finished
      end
  end.

Definition createOrUpdateTlsSecret (instance : IntegrityShield) : K outcome :=
  createOrUpdateCertSecret instance (BuildTlsSecretForIShield instance).

(** ** Deployment and service *)

(** The answer to a lookup that is not of the kind asked for: the client cannot
    decode it. *)
Definition undecodable : outcome := failed (OtherErr "cannot decode object").

Definition update_deployment (expected found : kobj) : K outcome :=
  match o_body expected, o_body found with
  | BDeployment spec _, BDeployment fspec avail =>
      equal ← st_lift (EqualDeployments (o_meta expected) spec (o_meta found) fspec);
      if equal : bool then mret finished
      else
        let m := o_meta found in
        let found := mkObj (mkKMeta (km_Name m) (km_Namespace m) (km_Labels (o_meta expected)) (km_Annotations m)
                              (km_OwnerReferences m) (km_ResourceVersion m)) (BDeployment spec avail) in
        r ← r_Update found;
        mret (match r with KErr e => failed e | KOk _ => requeue end)
  | _, _ => mret undecodable
  end.

Definition createOrUpdateDeployment (instance : IntegrityShield) (expected : kobj) : K outcome :=
  ensure instance expected (in_namespace instance expected) update_deployment.

Definition createOrUpdateWebhookDeployment (instance : IntegrityShield) : K outcome :=
  expected ← st_lift (BuildDeploymentForIShield instance);
  createOrUpdateDeployment instance expected.

Definition createOrUpdateService (instance : IntegrityShield) (expected : kobj) : K outcome :=
  ensure instance expected (in_namespace instance expected) nothing_to_do.
Definition createOrUpdateWebhookService (instance : IntegrityShield) : K outcome :=
  createOrUpdateService instance (BuildServiceForIShield instance).

(** ** Webhook *)

Definition evtSourceName : string := "IntegrityShield".
Definition webhook_message (webhookName : string) : string :=
  "[IntegrityShieldEvent] IntegrityShield reconciled MutatingWebhookConfiguration " +:+ String dquote webhookName +:+ String dquote "".

Definition createOrUpdateWebhookEvent (instance : IntegrityShield) (evtName webhookName : string) : K (option kerr) :=
  now ← time_Now;
  let msg := webhook_message webhookName in
  let expected :=
    mkObj (mkKMeta evtName (is_Namespace instance) None (Some {[EventTypeAnnotationKey := EventTypeValueReconcileReport]}) [] "")
      (BEvent (mkKEvent (is_Namespace instance, is_APIVersion instance, is_Kind instance, is_Name instance)
                 evtSourceName evtSourceName evtSourceName evtName evtName now now now msg "webhook-reconciled" 1)) in
  r ← r_Get (in_namespace instance expected);
  match r with
  | KErr NotFound =>
      c ← r_Create expected;
      mret (match c with KErr AlreadyExists => None | KErr e => Some e | KOk _ => None end)
  | KErr e => mret (Some e)
  | KOk found =>
      match o_body found with
      | BEvent e =>
          u ← r_Update (mkObj (o_meta found)
                 (BEvent (mkKEvent (kev_InvolvedObject e) (kev_Type e) (kev_Source e) evtSourceName evtName (kev_Action e)
                            (kev_FirstTimestamp e) now now msg msg (wrap_int32 (kev_Count e + 1)))));
          mret (match u with KErr e => Some e | KOk _ => None end)
      | _ => mret (Some (OtherErr "cannot decode object"))
      end
  end.

(** The authority's certificate in a secret: missing when it has no such entry. *)
Definition ca_entry (o : kobj) : option (option string) :=
  match o_body o with BSecret data _ => data !! "ca.crt" | _ => None end.

Definition set_CABundle (expected : kobj) (cabundle : option string) : kobj :=
  match o_body expected with
  | BWebhook (w :: ws) =>
      mkObj (o_meta expected)
        (BWebhook (mkWebhook (wh_Name w) (wh_ServiceName w) (wh_ServiceNamespace w) (wh_Path w) cabundle (wh_Rules w)
                     (wh_SideEffects w) (wh_TimeoutSeconds w) (wh_AdmissionReviewVersions w) :: ws))
  | _ => expected
  end.

(** The branch of [createOrUpdateWebhook] on which it does not exist. *)
Definition create_webhook (instance : IntegrityShield) (expected : kobj) : K outcome :=
  secret ← r_Get ("Secret", is_Namespace instance, GetWebhookServerTlsSecretName instance);
  let expected := match secret with
                  | KOk o => match ca_entry o with Some cabundle => set_CABundle expected cabundle | None => expected end
                  | KErr _ => expected
                  end in
  r ← r_Create expected;
  match r with
  | KErr AlreadyExists => mret requeue
  | KErr e => mret (failed e)
  | KOk _ =>
      _ ← createOrUpdateWebhookEvent instance "ishield-webhook-reconciled" (km_Name (o_meta expected));
      mret requeue_later
  end.

Definition createOrUpdateWebhook (instance : IntegrityShield) : K outcome :=
  expected ← st_lift (BuildMutatingWebhookConfigurationForIShield instance);
  match SetControllerReference instance (o_meta expected) with
  | Err e => mret (failed (OtherErr e))
  | Ok m =>
      let expected := mkObj m (o_body expected) in
      r ← r_Get (in_cluster expected);
      match r with
      | KErr NotFound => create_webhook instance expected
      | KErr e => mret (failed e)
      | KOk _ => mret finished
      end
  end.

Definition deleteWebhook (instance : IntegrityShield) : K outcome :=
  expected ← st_lift (BuildMutatingWebhookConfigurationForIShield instance);
  remove (in_cluster expected).

Definition isDeploymentAvailable (instance : IntegrityShield) : K bool :=
  r ← r_Get ("Deployment", is_Namespace instance, is_Name instance);
  mret (match r with
        | KOk o => match o_body o with BDeployment _ avail => Z.ltb 0 avail | _ => false end
        | KErr _ => false
        end).

(** ** Reconcile *)

(** One step after the other, until one fails or asks to be called again. *)
Fixpoint run_steps (steps : list (K outcome)) : K outcome :=
  match steps with
  | [] => mret finished
  | m :: steps' =>
      o ← m;
      let '(recResult, recErr) := o : outcome in
      match recErr with
      | Some _ => mret o
      | None => if cr_Requeue recResult then mret o else run_steps steps'
      end
  end.

(** [GetEnabledPlugins] of a nil configuration panics. *)
Definition helm_enabled (instance : IntegrityShield) : go bool :=
  match iss_ShieldConfig (is_Spec instance) with
  | None => Panic
  | Some ec => Ret (bool_decide ("helm" ∈ GetEnabledPlugins ec))
  end.

Definition admin_enabled (instance : IntegrityShield) : bool :=
  negb (sec_AutoIShieldAdminCreationDisabled (iss_Security (is_Spec instance))).

Definition crd_steps (instance : IntegrityShield) : list (K outcome) :=
  [ createOrUpdateShieldConfigCRD instance; createOrUpdateSignerConfigCRD instance;
    createOrUpdateResourceSignatureCRD instance; createOrUpdateResourceSigningProfileCRD instance ].

Definition admin_steps (instance : IntegrityShield) : list (K outcome) :=
  [ createOrUpdateClusterRoleForIShieldAdmin instance; createOrUpdateClusterRoleBindingForIShieldAdmin instance;
    createOrUpdateRoleForIShieldAdmin instance; createOrUpdateRoleBindingForIShieldAdmin instance ].

(** The steps after the shield configuration and before the webhook. *)
Definition object_steps (instance : IntegrityShield) : list (K outcome) :=
  [createOrUpdateSignerConfigCR instance] ++
  (createOrUpdateResourceSigningProfileCR instance <$> iss_ResourceSigningProfiles (is_Spec instance)) ++
  [ createOrUpdateTlsSecret instance; createOrUpdateServiceAccount instance;
    createOrUpdateClusterRoleForIShield instance; createOrUpdateClusterRoleBindingForIShield instance;
    createOrUpdateRoleForIShield instance; createOrUpdateRoleBindingForIShield instance ] ++
  (if admin_enabled instance then admin_steps instance else []) ++
  [ createOrUpdatePodSecurityPolicy instance; createOrUpdateWebhookDeployment instance; createOrUpdateWebhookService instance ].

Definition webhook_step (instance : IntegrityShield) : K outcome :=
  available ← isDeploymentAvailable instance;
  if available : bool then createOrUpdateWebhook instance else deleteWebhook instance.

(** Continue when a step neither fails nor asks to be called again. *)
Definition unless_stopped (o : outcome) (k : K outcome) : K outcome :=
  match o.2 with
  | Some _ => mret o
  | None => if cr_Requeue o.1 then mret o else k
  end.

(** The objects, once the keys are there. *)
Definition install_objects (instance : IntegrityShield) : K outcome :=
  o ← run_steps (crd_steps instance);
  unless_stopped o (
  helm ← st_lift (helm_enabled instance);
  o ← run_steps (if helm : bool then [createOrUpdateHelmReleaseMetadataCRD instance] else []);
  unless_stopped o (
  r ← createOrUpdateShieldConfigCR instance;
  let '(o, instance) := r : outcome * IntegrityShield in
  unless_stopped o (run_steps (object_steps instance ++ [webhook_step instance])))).

(** The reconciliation of an instance that is not being deleted; the final pause
    of five seconds is left out. *)
Definition install (instance : IntegrityShield) : K outcome :=
  r ← isKeyRingReady instance;
  if negb (r.1 : bool) then mret requeue else install_objects instance.

(** ** Deletion *)

Definition delete_steps (instance : IntegrityShield) (helm : bool) : list (K outcome) :=
  [deleteWebhook instance; deletePodSecurityPolicy instance] ++
  (if admin_enabled instance
   then [deleteClusterRoleBindingForIShieldAdmin instance; deleteClusterRoleForIShieldAdmin instance] else []) ++
  [deleteClusterRoleBindingForIShield instance; deleteClusterRoleForIShield instance] ++
  (if helm then [deleteHelmReleaseMetadataCRD instance] else []) ++
  [ deleteResourceSigningProfileCRD instance; deleteResourceSignatureCRD instance;
    deleteSignerConfigCRD instance; deleteShieldConfigCRD instance ].

(** The results of the steps are dropped, their errors are not. *)
Fixpoint run_deletes (steps : list (K outcome)) : K (option kerr) :=
  match steps with
  | [] => mret None
  | m :: steps' => o ← m; match o.2 with Some e => mret (Some e) | None => run_deletes steps' end
  end.

(** [deleteClusterScopedChildrenResources]; the plug-ins are read after the roles
    are gone, and reading them panics without a shield configuration, which the
    first step has read already. *)
Definition deleteClusterScopedChildrenResources (instance : IntegrityShield) : K (option kerr) :=
  helm ← st_lift (helm_enabled instance);
  run_deletes (delete_steps instance helm).

Definition containsString (slice : list string) (s : string) : bool := existsb (fun item => bool_decide (item = s)) slice.
Definition removeString (slice : list string) (s : string) : list string :=
  List.filter (fun item => negb (bool_decide (item = s))) slice.

Definition set_Finalizers (cr : IntegrityShield) (l : list string) : IntegrityShield :=
  mkIntegrityShield (is_Kind cr) (is_APIVersion cr) (is_Name cr) (is_Namespace cr) l (is_DeletionTimestamp cr) (is_Spec cr).

(** [DeletionTimestamp.IsZero] *)
Definition under_deletion (instance : IntegrityShield) : bool :=
  match is_DeletionTimestamp instance with None => false | Some t => negb (Z.eqb t 0) end.

Definition finalize (m : KMeta) (instance : IntegrityShield) : K outcome :=
  if containsString (is_Finalizers instance) CleanupFinalizerName then
    err ← deleteClusterScopedChildrenResources instance;
    match err with
    | Some e => mret (failed e)
    | None =>
        let instance := set_Finalizers instance (removeString (is_Finalizers instance) CleanupFinalizerName) in
        u ← r_Update (mkObj m (BIntegrityShield instance));
        mret (match u with KErr e => failed e | KOk _ => finished end)
    end
  else mret finished.

Definition effective (instance : IntegrityShield) : IntegrityShield :=
  if negb (iss_IgnoreDefaultIShieldCR (is_Spec instance)) then MergeDefaultIntegrityShieldCR instance "" else instance.

Definition Reconcile (namespace name : string) : K outcome :=
  r ← r_Get ("IntegrityShield", namespace, name);
  match r with
  | KErr NotFound => mret finished
  | KErr e => mret (failed e)
  | KOk o =>
      match o_body o with
      | BIntegrityShield cr =>
          let instance := effective cr in
          if under_deletion instance then finalize (o_meta o) instance else install instance
      | _ => mret undecodable
      end
  end.
End controller.
