(* ===== verification/ControllerFacts.v ===== *)
(** * What reconciliation guarantees

    Which objects a step may change, when the webhook is registered, and what is
    gone when the finalizer is removed. *)
From S2P Require Import Prelude GoStrings GoJson Common ShieldConfig Signing GoState OperatorTypes KubeObjects OperatorResources.
From S2P Require Import Certificates Controller.
From stdpp Require Import options.

Notation okey := (string * string * string)%type (only parsing).
Definition key_kind (k : okey) : string := k.1.1.

Section facts.
Context `{KubeApiOk, !OperatorLibs, !OperatorFS, !ControllerLibs, !CertLib}.
Context (Getenv : string -> string) (Scheme : option scheme).
#[local] Set Default Proof Using "Type*".
Notation K := (ST kstate).

(** ** Frames *)

(** A computation leaves every key outside of [P] as it is. *)
Definition only {A} (P : okey -> Prop) (m : K A) : Prop :=
  forall s a s', m s = Ret (a, s') -> forall k, ~ P k -> view s' !! k = view s !! k.

Lemma only_mono {A} (P Q : okey -> Prop) (m : K A) : (forall k, P k -> Q k) -> only P m -> only Q m.
Proof. intros Hpq Hm s a s' Hr k Hk. eapply Hm; eauto. Qed.

Lemma only_ret {A} P (a : A) : only P (mret a : K A).
Proof. by intros s b s' [= _ <-]. Qed.

Lemma only_lift {A} P (m : go A) : only P (st_lift m : K A).
Proof. by intros s a s' [_ ->]%st_lift_Ret. Qed.

Lemma only_bind {A B} P (m : K A) (f : A -> K B) : only P m -> (forall a, only P (f a)) -> only P (m ≫= f).
Proof.
  intros Hm Hf s b s' (a & s1 & Hq1 & Hq2)%ST_bind_Ret k Hk.
  rewrite (Hf a _ _ _ Hq2 k Hk). eapply Hm; eauto.
Qed.

Lemma only_Get P k : only P (r_Get k).
Proof.
  intros s r s' [= Hr] k' _. pose proof (kget_ok k s) as Hg. rewrite Hr in Hg. by destruct Hg as [-> _].
Qed.

Lemma only_Now P : only P time_Now.
Proof. intros s r s' [= Hr] k' _. pose proof (ktime_ok s) as Hg. rewrite Hr in Hg. cbn in Hg. by rewrite Hg. Qed.

Lemma only_Create P o : P (okey_of o) -> only P (r_Create o).
Proof.
  intros HP s r s' [= Hr] k' Hk. pose proof (kcreate_ok o s) as Hg. rewrite Hr in Hg.
  destruct r as [[]|[| |m]].
  - destruct Hg as [_ ->]. apply lookup_insert_ne. by intros <-.
  - by rewrite Hg.
  - by destruct Hg as [_ ->].
  - by rewrite Hg.
Qed.

Lemma only_Update P o : P (okey_of o) -> only P (r_Update o).
Proof.
  intros HP s r s' [= Hr] k' Hk. pose proof (kupdate_ok o s) as Hg. rewrite Hr in Hg.
  destruct r as [[]|e]; [|by rewrite Hg]. destruct Hg as [_ ->]. apply lookup_insert_ne. by intros <-.
Qed.

Lemma only_Delete P k : P k -> only P (r_Delete k).
Proof.
  intros HP s r s' [= Hr] k' Hk. pose proof (kdelete_ok k s) as Hg. rewrite Hr in Hg.
  destruct r as [[]|e]; rewrite Hg; [|done]. apply lookup_delete_ne. by intros <-.
Qed.

(** Setting the owner keeps what identifies an object. *)
Class OwnerOk : Prop := owner_keeps instance m m' : SetControllerReference instance m = Ok m' ->
  km_Name m' = km_Name m /\ km_Namespace m' = km_Namespace m /\ km_Labels m' = km_Labels m.
Context `{!OwnerOk}.

Lemma owned_key instance o m' :
  SetControllerReference instance (o_meta o) = Ok m' -> okey_of (mkObj m' (o_body o)) = okey_of o.
Proof. intros (Hn & Hs & _)%owner_keeps. unfold okey_of. cbn. by rewrite Hn, Hs. Qed.

Lemma only_ensure P instance expected key on_found :
  P (okey_of expected) -> (forall e f, okey_of e = okey_of expected -> (exists s, view s !! key = Some f) -> only P (on_found e f)) ->
  only P (ensure instance expected key on_found).
Proof.
  intros HP Hf. unfold ensure. destruct (SetControllerReference _ _) as [m|e] eqn:Eo; [|apply only_ret].
  pose proof (owned_key _ _ _ Eo) as Hk.
  intros s a s' (r & s1 & Hq1 & Hq2)%ST_bind_Ret k Hnk. pose proof (kget_ok key s) as Hg.
  injection Hq1 as Hq1. rewrite Hq1 in Hg. destruct Hg as [Hv Hg]. rewrite <-Hv.
  destruct r as [found|[| |msg]]; revert Hq2.
  - intros Hq2. eapply Hf in Hq2; eauto.
  - intros Hq2. assert (only P (create_new (mkObj m (o_body expected)))) as Ho; [|by eapply Ho].
    apply only_bind; [apply only_Create; by rewrite Hk|]. intros r. apply only_ret.
  - by intros [= _ <-].
  - by intros [= _ <-].
Qed.

Lemma only_update_spec P e f : P (okey_of f) -> kind_of (o_body e) = kind_of (o_body f) -> only P (update_spec e f).
Proof.
  intros HP Hk. unfold update_spec. destruct (negb _); [|apply only_ret].
  apply only_bind; [|intros r; apply only_ret]. apply only_Update. unfold okey_of in *. cbn. by rewrite Hk.
Qed.

Lemma view_kind s k o : view s !! k = Some o -> kind_of (o_body o) = key_kind k.
Proof. intros <-%view_key. done. Qed.

Lemma only_remove P key : P key -> only P (remove key).
Proof.
  intros HP. unfold remove. apply only_bind; [apply only_Get|]. intros [o|[| |msg]]; try apply only_ret.
  apply only_bind; [by apply only_Delete|]. intros d. apply only_ret.
Qed.

(** ** Every step changes objects of its own kind *)

Definition of_kind (kd : string) (k : okey) : Prop := key_kind k = kd.

(** What the functions do with an object they find. *)
Definition plain_found (f : kobj -> kobj -> K outcome) : Prop :=
  f = nothing_to_do \/ f = update_spec \/ f = update_deployment.

Lemma only_plain kd f e o : plain_found f -> kind_of (o_body e) = kd -> kind_of (o_body o) = kd -> only (of_kind kd) (f e o).
Proof.
  intros Hf He Ho. destruct Hf as [->|[->| ->]].
  - apply only_ret.
  - apply only_update_spec; [done|congruence].
  - unfold update_deployment. destruct (o_body e), (o_body o); try apply only_ret.
    apply only_bind; [apply only_lift|]. intros []; [apply only_ret|].
    apply only_bind; [by apply only_Update|]. intros r. apply only_ret.
Qed.

Lemma only_ensure_kind instance expected key f :
  plain_found f -> key_kind key = kind_of (o_body expected) ->
  only (of_kind (kind_of (o_body expected))) (ensure instance expected key f).
Proof.
  intros Hf Hk. apply only_ensure; [done|]. intros e o He (s & Hs). apply only_plain; [done| |].
  - unfold okey_of in He. congruence.
  - rewrite <-Hk. by eapply view_kind.
Qed.

Lemma plain_nothing : plain_found nothing_to_do. Proof. by left. Qed.
Lemma plain_spec : plain_found update_spec. Proof. right. by left. Qed.
Lemma plain_deployment : plain_found update_deployment. Proof. right. by right. Qed.
#[local] Hint Resolve plain_nothing plain_spec plain_deployment : core.

(** The kinds a reconciliation works on apart from the webhook. *)
Definition object_kind (k : okey) : Prop :=
  key_kind k <> "MutatingWebhookConfiguration" /\ key_kind k <> "IntegrityShield" /\ key_kind k <> "Event".

Definition object_step (m : K outcome) : Prop := only object_kind m.

Lemma ensure_object instance expected key f :
  plain_found f -> key_kind key = kind_of (o_body expected) -> object_kind (kind_of (o_body expected), "", "") ->
  object_step (ensure instance expected key f).
Proof.
  intros Hf Hk Ho. eapply only_mono; [|by apply only_ensure_kind]. intros k. unfold of_kind, object_kind in *. cbn in *. by intros ->.
Qed.

Lemma built_kind_profile instance prof e :
  BuildResourceSigningProfileForIShield instance prof = Ret e -> kind_of (o_body e) = "ResourceSigningProfile".
Proof. unfold BuildResourceSigningProfileForIShield. destruct (pf_Spec prof); [|done]. by intros [= <-]. Qed.

Lemma built_kind_deployment instance e :
  BuildDeploymentForIShield instance = Ret e ->
  okey_of e = ("Deployment", is_Namespace instance, is_Name instance) /\ kind_of (o_body e) = "Deployment".
Proof. unfold BuildDeploymentForIShield. 
  destruct (lgc_EsConfig (iss_Logger (is_Spec instance))), (lgc_HttpConfig (iss_Logger (is_Spec instance))); try done.
  by intros [= <-].
Qed.

Lemma built_kind_config instance e instance' :
  BuildShieldConfigForIShield instance Scheme Getenv getCommonProfilesPath = Ret (e, instance') ->
  kind_of (o_body e) = "ShieldConfig".
Proof.
  by intros (ec0 & ec & cond & _ & -> & _)%BuildShieldConfig_shape.
Qed.

Lemma addCertValues_spec instance e s e' s' :
  addCertValues instance e s = Ret (e', s') -> s' = s /\ okey_of e' = okey_of e.
Proof.
  unfold addCertValues. destruct (match GenerateCert _ _ _ _ with Ok _ => _ | Err _ => _ end) as [[ca key] crt].
  intros [= <- <-]. split; [done|]. unfold okey_of. destruct (o_body e) as [| | | | | | | | | |data type| | | | |] eqn:Eb; rewrite ?Eb; try done.
  destruct (data !! "tls.crt"), (data !! "tls.key"), (data !! "ca.crt"); cbn; by rewrite ?Eb.
Qed.

Lemma TlsSecret_frame instance : object_step (createOrUpdateTlsSecret instance).
Proof.
  unfold object_step, createOrUpdateTlsSecret, createOrUpdateCertSecret.
  destruct (SetControllerReference _ _) as [m|e] eqn:Eo; [|apply only_ret]. pose proof (owned_key _ _ _ Eo) as Hk.
  apply only_bind; [apply only_Get|]. intros r s o s' (e & s1 & [-> He]%addCertValues_spec & Hq)%ST_bind_Ret.
  revert Hq. destruct r as [f|[| |msg]]; try apply only_ret. apply only_bind; [|intros r; apply only_ret].
  apply only_Create. rewrite He, Hk. by repeat split.
Qed.

Ltac object_step_tac := apply ensure_object; [auto|reflexivity|by repeat split].

Lemma object_steps_frame instance : Forall object_step (object_steps instance).
Proof.
  unfold object_steps, admin_steps. rewrite !Forall_app. split; [|split; [|split; [|split]]].
  - constructor; [object_step_tac|constructor].
  - apply Forall_fmap, Forall_true. intros prof. cbn. unfold object_step, createOrUpdateResourceSigningProfileCR.
    intros s o s' (e & s1 & [He ->]%st_lift_Ret & Hq)%ST_bind_Ret. pose proof (built_kind_profile _ _ _ He) as Hk.
    revert Hq. apply (ensure_object instance e); [auto|done|rewrite Hk; by repeat split].
  - repeat constructor; try object_step_tac. apply TlsSecret_frame.
  - destruct (admin_enabled instance); repeat constructor; object_step_tac.
  - repeat constructor; try object_step_tac.
    unfold object_step, createOrUpdateWebhookDeployment, createOrUpdateDeployment.
    intros s o s' (e & s1 & [He ->]%st_lift_Ret & Hq)%ST_bind_Ret. pose proof (built_kind_deployment _ _ He) as [_ Hk].
    revert Hq. apply (ensure_object instance e); [auto|done|rewrite Hk; by repeat split].
Qed.

Lemma run_steps_frame P steps : Forall (only P) steps -> only P (run_steps steps).
Proof.
  induction 1 as [|m steps Hm _ IH]; cbn [run_steps]; [apply only_ret|].
  apply only_bind; [done|]. intros [res [e|]]; [apply only_ret|]. destruct (cr_Requeue res); [apply only_ret|done].
Qed.

Lemma run_steps_snoc steps m s o s' :
  run_steps (steps ++ [m]) s = Ret (o, s') ->
  exists o1 s1, run_steps steps s = Ret (o1, s1) /\
    ((o = o1 /\ s' = s1 /\ (is_Some o1.2 \/ cr_Requeue o1.1 = true)) \/ (exists o2, m s1 = Ret (o2, s'))).
Proof.
  revert s. induction steps as [|m0 steps IH]; intros s; cbn [run_steps app].
  - intros ([res err] & s1 & Hm & Hq)%ST_bind_Ret. eexists _, s. split; [reflexivity|]. right. exists (res, err).
    destruct err as [e|]; [by injection Hq as _ <-|]. destruct (cr_Requeue res); by injection Hq as _ <-.
  - intros ([res err] & s1 & Hm & Hq)%ST_bind_Ret. rewrite (ST_bind_run _ _ _ _ _ Hm).
    destruct err as [e|]; [injection Hq as <- <-; eexists _, _; split; [reflexivity|]; left; split; [done|]; split; [done|]; by left; eexists|].
    destruct (cr_Requeue res) eqn:Er; [injection Hq as <- <-; eexists _, _; split; [reflexivity|]; left; by auto|]. by apply IH.
Qed.

Lemma unless_stopped_Ret o k s o' s' :
  unless_stopped o k s = Ret (o', s') -> (o' = o /\ s' = s) \/ (o.2 = None /\ cr_Requeue o.1 = false /\ k s = Ret (o', s')).
Proof.
  unfold unless_stopped. destruct o as [res [e|]]; cbn; [intros [= <- <-]; auto|].
  destruct (cr_Requeue res); [intros [= <- <-]; auto|auto].
Qed.

Lemma ready_count_frame P instance keys : forall n, only P (ready_count instance keys n).
Proof.
  induction keys as [|k keys IH]; intros n; cbn [ready_count]; [apply only_ret|].
  apply only_bind; [apply only_Get|]. intros [o|e]; [apply IH|apply only_ret].
Qed.

(** The names of an instance do not change when its configuration is filled in. *)
Definition same_names (i1 i2 : IntegrityShield) : Prop := exists ec, i2 = set_ShieldConfig i1 ec.

Lemma built_same_names instance e instance' :
  BuildShieldConfigForIShield instance Scheme Getenv getCommonProfilesPath = Ret (e, instance') -> same_names instance instance'.
Proof.
  intros (ec0 & ec & cond & _ & _ & -> & _)%BuildShieldConfig_shape. by eexists.
Qed.

#[local] Arguments object_steps : simpl never.
#[local] Arguments run_steps : simpl never.

(** A reconciliation up to the webhook step only works on other objects. *)
Lemma install_phases instance s o s' :
  install Getenv Scheme instance s = Ret (o, s') ->
  exists s1, (forall k, ~ object_kind k -> view s1 !! k = view s !! k) /\
    (s' = s1 \/ exists instance' o2, same_names instance instance' /\ webhook_step instance' s1 = Ret (o2, s')).
Proof.
  intros ([ready key] & s0 & Hk & Hq)%ST_bind_Ret.
  assert (forall k, ~ object_kind k -> view s0 !! k = view s !! k) as H01.
  { intros k Hn. unfold isKeyRingReady in Hk. apply ST_bind_Ret in Hk as ([n key'] & s2 & Hk & [= _ _ <-]).
    by eapply (ready_count_frame object_kind). }
  destruct ready; cbn in Hq; [|injection Hq as _ <-; eauto].
  apply ST_bind_Ret in Hq as (o1 & s1 & Hcrd & Hq).
  assert (only object_kind (run_steps (crd_steps instance))) as Hf1.
  { apply run_steps_frame. repeat constructor; object_step_tac. }
  apply unless_stopped_Ret in Hq as [[-> ->]|(_ & _ & Hq)].
  { exists s1. split; [|by left]. intros k Hn. rewrite <-H01 by done. by eapply Hf1. }
  apply ST_bind_Ret in Hq as (helm & s2 & [Hh ->]%st_lift_Ret & Hq). apply ST_bind_Ret in Hq as (o2 & s2 & Hhelm & Hq).
  assert (only object_kind (run_steps (if helm then [createOrUpdateHelmReleaseMetadataCRD instance] else []))) as Hf2.
  { apply run_steps_frame. destruct helm; repeat constructor; object_step_tac. }
  assert (forall k, ~ object_kind k -> view s2 !! k = view s !! k) as H02.
  { intros k Hn. rewrite <-H01 by done. rewrite (Hf2 _ _ _ Hhelm k Hn). by eapply Hf1. }
  apply unless_stopped_Ret in Hq as [[-> ->]|(_ & _ & Hq)]; [by eauto|].
  apply ST_bind_Ret in Hq as ([o3 instance'] & s3 & Hcr & Hq). unfold createOrUpdateShieldConfigCR in Hcr.
  apply ST_bind_Ret in Hcr as ([e i'] & s4 & [Hb ->]%st_lift_Ret & Hcr). apply ST_bind_Ret in Hcr as (o4 & s5 & Hens & [= <- <- <-]).
  pose proof (built_kind_config _ _ _ Hb) as Hk3.
  assert (forall k, ~ object_kind k -> view s5 !! k = view s !! k) as H03.
  { intros k Hn. rewrite <-H02 by done. revert Hens k Hn.
    apply (ensure_object i' e (in_namespace i' e) update_spec); [auto|done|rewrite Hk3; by repeat split]. }
  apply unless_stopped_Ret in Hq as [[-> ->]|(_ & _ & Hq)]; [by eauto|].
  apply run_steps_snoc in Hq as (o5 & s6 & Hobj & Hq).
  assert (forall k, ~ object_kind k -> view s6 !! k = view s !! k) as H06.
  { intros k Hn. rewrite <-H03 by done. by eapply (run_steps_frame _ _ (object_steps_frame i')). }
  exists s6. split; [done|]. destruct Hq as [(_ & -> & _)|(o6 & Hw)]; [by left|].
  right. exists i', o6. split; [by eapply built_same_names|done].
Qed.

(** ** The webhook *)

Definition webhook_kind (k : okey) : Prop := key_kind k = "MutatingWebhookConfiguration".
Definition tls_key (instance : IntegrityShield) : okey := ("Secret", is_Namespace instance, GetWebhookServerTlsSecretName instance).
Definition deployment_key (instance : IntegrityShield) : okey := ("Deployment", is_Namespace instance, is_Name instance).

Lemma webhook_event_frame instance evt wh : only (of_kind "Event") (createOrUpdateWebhookEvent instance evt wh).
Proof.
  unfold createOrUpdateWebhookEvent. apply only_bind; [apply only_Now|]. intros t. apply only_bind; [apply only_Get|].
  intros [found|[| |msg]]; [|apply only_bind; [by apply only_Create|intros c; apply only_ret]|apply only_ret..].
  destruct (o_body found); try apply only_ret. apply only_bind; [by apply only_Update|]. intros u. apply only_ret.
Qed.

(** What a new webhook trusts: the authority in the secret that could be read. *)
Definition trusted_ca (instance : IntegrityShield) (s : kstate) (cab : option (option string)) : Prop :=
  (forall b, cab = Some b -> exists o, view s !! tls_key instance = Some o /\ ca_entry o = Some b) /\
  (KubeApiUp -> forall o, view s !! tls_key instance = Some o -> cab = ca_entry o).

Lemma set_CABundle_key e b : okey_of (set_CABundle e b) = okey_of e.
Proof.
  unfold set_CABundle, okey_of. destruct (o_body e) as [| | | | | | | | | | | | |[|w ws]| |] eqn:Eb; cbn; by rewrite ?Eb.
Qed.

Lemma create_webhook_spec instance expected s o s' k wh :
  kind_of (o_body expected) = "MutatingWebhookConfiguration" ->
  create_webhook instance expected s = Ret (o, s') -> webhook_kind k -> view s !! k = None -> view s' !! k = Some wh ->
  (forall k', ~ webhook_kind k' -> ~ of_kind "Event" k' -> view s' !! k' = view s !! k') /\
  exists cab, trusted_ca instance s cab /\
    wh = stored_as (match cab with Some b => set_CABundle expected b | None => expected end).
Proof.
  intros Hkind Hq Hk Hnone Hsome. apply ST_bind_Ret in Hq as (sec & s1 & [= Hsec] & Hq).
  pose proof (kget_ok (tls_key instance) s) as Hg. unfold tls_key in Hg. rewrite Hsec in Hg. destruct Hg as [Hv Hg].
  set (cab := match sec with KOk o => ca_entry o | KErr _ => None end).
  assert (trusted_ca instance s cab) as Hcab.
  { unfold cab. split.
    - intros b Hb. destruct sec as [o1|e]; [|done]. exists o1. by split.
    - intros Hkup o1 Ho1%kget_up. unfold tls_key in Ho1. rewrite Hsec in Ho1. cbn in Ho1. by rewrite Ho1. }
  set (e' := match cab with Some b => set_CABundle expected b | None => expected end).
  assert (okey_of e' = okey_of expected) as He' by (unfold e'; destruct cab; [apply set_CABundle_key|done]).
  assert (webhook_kind (okey_of e')) as Hwk by (rewrite He'; done).
  apply ST_bind_Ret in Hq as (r & s2 & Hc & Hq).
  assert (r_Create e' s1 = Ret (r, s2)) as Hc' by (unfold e', cab; destruct sec as [o1|e]; [destruct (ca_entry o1)|]; done).
  pose proof (only_Create webhook_kind e' Hwk _ _ _ Hc') as Hfr.
  injection Hc' as Hc'. pose proof (kcreate_ok e' s1) as Hcok. rewrite Hc' in Hcok.
  assert (view s' !! k = view s2 !! k /\ forall k', ~ of_kind "Event" k' -> view s' !! k' = view s2 !! k') as [Hk2 Hrest].
  { destruct r as [[]|[| |msg]]; try (injection Hq as _ <-; done).
    apply ST_bind_Ret in Hq as (ev & s3 & Hev & [= _ <-]). pose proof (webhook_event_frame _ _ _ _ _ _ Hev) as Hef.
    split; [apply Hef; unfold of_kind; by rewrite Hk|done]. }
  split; [intros k' Hn1 Hn2; rewrite Hrest, Hfr by done; by rewrite Hv|].
  exists cab. split; [done|]. fold e'. rewrite Hk2 in Hsome.
  destruct r as [[]|[| |msg]]; [|rewrite Hcok, Hv in Hsome; congruence|destruct Hcok as [_ Hcok]; rewrite Hcok, Hv in Hsome; congruence
    |rewrite Hcok, Hv in Hsome; congruence].
  destruct Hcok as [_ Hcok]. rewrite Hcok in Hsome. destruct (decide (okey_of e' = k)) as [<-|Hne].
  - rewrite lookup_insert_eq in Hsome. by injection Hsome.
  - rewrite lookup_insert_ne, Hv in Hsome by done. congruence.
Qed.

(** ** Removal *)

(** A computation that creates no object of a kind. *)
Definition creates_none {A} (P : okey -> Prop) (m : K A) : Prop :=
  forall s a s', m s = Ret (a, s') -> forall k, P k -> view s !! k = None -> view s' !! k = None.

Lemma creates_none_bind {A B} P (m : K A) (f : A -> K B) :
  creates_none P m -> (forall a, creates_none P (f a)) -> creates_none P (m ≫= f).
Proof. intros Hm Hf s b s' (a & s1 & Hq1 & Hq2)%ST_bind_Ret k Hk Hn. eapply Hf; eauto. Qed.

Lemma only_creates_none {A} P Q (m : K A) : only Q m -> (forall k, P k -> ~ Q k) -> creates_none P m.
Proof. intros Hm Hpq s a s' Hr k Hk Hn. by rewrite (Hm _ _ _ Hr k (Hpq k Hk)). Qed.

(** Removing an object ends without an error only when the object is gone. *)
Lemma remove_spec key s o s' :
  remove key s = Ret (o, s') ->
  (forall k, view s !! k = None -> view s' !! k = None) /\ (o.2 = None -> view s' !! key = None).
Proof.
  intros (r & s1 & [= Hg] & Hq)%ST_bind_Ret. pose proof (kget_ok key s) as Hgo. rewrite Hg in Hgo. destruct Hgo as [Hv Hgo].
  destruct r as [o1|[| |msg]].
  - apply ST_bind_Ret in Hq as (d & s2 & [= Hd] & Hq). pose proof (kdelete_ok key s1) as Hdo. rewrite Hd in Hdo.
    destruct d as [[]|e]; injection Hq as <- <-; rewrite Hdo, ?Hv; cbn; [|done].
    split; [|intros _; apply lookup_delete_eq]. intros k Hk. apply lookup_delete_None. auto.
  - injection Hq as <- <-. rewrite Hv. done.
  - injection Hq as <- <-. by rewrite Hv.
  - injection Hq as <- <-. by rewrite Hv.
Qed.

(** The cluster-scoped objects of an installation. *)
Definition webhook_key (instance : IntegrityShield) : okey := ("MutatingWebhookConfiguration", "", GetWebhookConfigName instance).
Definition crd_key (name : string) : okey := ("CustomResourceDefinition", "", name).
Definition cluster_children (instance : IntegrityShield) (helm : bool) : list okey :=
  [webhook_key instance; ("PodSecurityPolicy", "", GetPodSecurityPolicyName instance)] ++
  (if admin_enabled instance
   then [("ClusterRoleBinding", "", DefaultIShieldAdminClusterRoleBindingName); ("ClusterRole", "", DefaultIShieldAdminClusterRoleName)]
   else []) ++
  [("ClusterRoleBinding", "", GetClusterRoleBindingName instance); ("ClusterRole", "", GetClusterRoleName instance)] ++
  (if helm then [crd_key DefaultHelmReleaseMetadataCRDName] else []) ++
  [ crd_key DefaultResourceSigningProfileCRDName; crd_key DefaultResourceSignatureCRDName;
    crd_key DefaultSignerConfigCRDName; crd_key DefaultShieldConfigCRDName ].

Definition removes (key : okey) (m : K outcome) : Prop := forall s o s', m s = Ret (o, s') ->
  (forall k, view s !! k = None -> view s' !! k = None) /\ (o.2 = None -> view s' !! key = None) /\
  (forall k, key_kind k <> key_kind key -> view s' !! k = view s !! k).

Lemma remove_removes key : removes key (remove key).
Proof.
  intros s o s' Hr. pose proof (remove_spec _ _ _ _ Hr) as [H1' H2']. split; [done|]. split; [done|].
  intros k Hk. eapply (only_remove (fun k => key_kind k = key_kind key)); eauto.
Qed.

Lemma deleteWebhook_removes instance : removes (webhook_key instance) (deleteWebhook instance).
Proof.
  intros s o s' (e & s1 & [He ->]%st_lift_Ret & Hq)%ST_bind_Ret.
  assert (in_cluster e = webhook_key instance) as Hk.
  { unfold BuildMutatingWebhookConfigurationForIShield in He. destruct (iss_ShieldConfig _); [|done]. by injection He as <-. }
  rewrite Hk in Hq. by apply remove_removes.
Qed.

Lemma delete_steps_remove instance helm : Forall2 removes (cluster_children instance helm) (delete_steps instance helm).
Proof.
  unfold cluster_children, delete_steps.
  apply Forall2_app; [|apply Forall2_app; [|apply Forall2_app; [|apply Forall2_app]]].
  all: try destruct (admin_enabled instance); try destruct helm;
    repeat (apply List.Forall2_cons; [first [apply deleteWebhook_removes|apply remove_removes]|]); apply List.Forall2_nil.
Qed.

Lemma run_deletes_spec keys steps :
  Forall2 removes keys steps -> forall s e s', run_deletes steps s = Ret (e, s') ->
  (forall k, view s !! k = None -> view s' !! k = None) /\
  (e = None -> forall k, k ∈ keys -> view s' !! k = None) /\
  (forall k, (forall k', k' ∈ keys -> key_kind k <> key_kind k') -> view s' !! k = view s !! k).
Proof.
  induction 1 as [|key m keys steps Hm _ IH]; intros s e s'; cbn [run_deletes].
  - intros [= <- <-]. split; [done|]. split; [intros _ k Hk; by apply elem_of_nil in Hk|done].
  - intros (o & s1 & Hr & Hq)%ST_bind_Ret. apply Hm in Hr as (Hn1 & Hgone & Hfr). destruct (o.2) as [e1|] eqn:Eo.
    + injection Hq as <- <-. split; [done|]. split; [done|]. intros k Hk. apply Hfr, Hk. left.
    + apply IH in Hq as (Hn2 & Hgone2 & Hfr2). split; [auto|]. split.
      * intros -> k [->|Hk]%elem_of_cons; [by apply Hn2, Hgone|by apply Hgone2].
      * intros k Hk. rewrite Hfr2 by (intros k' Hk'; apply Hk; by right). apply Hfr, Hk. left.
Qed.

Lemma children_kinds instance helm k : k ∈ cluster_children instance helm -> key_kind k <> "IntegrityShield".
Proof.
  unfold cluster_children. rewrite !elem_of_app. intros Hk.
  destruct (admin_enabled instance), helm; rewrite ?elem_of_cons, ?elem_of_nil in Hk; naive_solver.
Qed.

Lemma removeString_spec l x y : y ∈ removeString l x <-> y ∈ l /\ y <> x.
Proof.
  unfold removeString. rewrite list_elem_of_In, filter_In, <-list_elem_of_In, negb_true_iff, bool_decide_eq_false. done.
Qed.


(** ** Registration *)

(** The webhook as it is built, with an owner. *)
Definition built_webhook (instance : IntegrityShield) (e : kobj) : Prop :=
  exists e0, BuildMutatingWebhookConfigurationForIShield instance = Ret e0 /\
    o_body e = o_body e0 /\ km_Name (o_meta e) = km_Name (o_meta e0).

Lemma available_spec instance s b s' :
  isDeploymentAvailable instance s = Ret (b, s') -> view s' = view s /\
  (b = true -> exists m spec avail, view s !! deployment_key instance = Some (mkObj m (BDeployment spec avail)) /\ (0 < avail)%Z).
Proof.
  intros (r & s1 & [= Hg] & [= <- <-])%ST_bind_Ret. pose proof (kget_ok (deployment_key instance) s) as Hgo.
  unfold deployment_key in Hgo. rewrite Hg in Hgo. destruct Hgo as [Hv Hgo]. split; [done|].
  destruct r as [[m b]|e]; [|done]. destruct b as [| | | | | | | | | | |spec avail| | | |]; try done. cbn.
  intros Hz%Z.ltb_lt. exists m, spec, avail. by split.
Qed.

Lemma webhook_step_spec instance s o s' k wh :
  webhook_step instance s = Ret (o, s') -> webhook_kind k -> view s !! k = None -> view s' !! k = Some wh ->
  (exists m spec avail, view s' !! deployment_key instance = Some (mkObj m (BDeployment spec avail)) /\ (0 < avail)%Z) /\
  exists e cab, built_webhook instance e /\ trusted_ca instance s' cab /\
    wh = stored_as (match cab with Some b => set_CABundle e b | None => e end).
Proof.
  intros (avail & s1 & [Hv Hav]%available_spec & Hq)%ST_bind_Ret Hk Hnone Hsome. destruct avail.
  - destruct (Hav eq_refl) as (m & spec & av & Hdep & Hpos).
    apply ST_bind_Ret in Hq as (e0 & s2 & [He0 ->]%st_lift_Ret & Hq). pose proof He0 as Hkind.
    unfold BuildMutatingWebhookConfigurationForIShield in Hkind. destruct (iss_ShieldConfig _) as [ec|]; [|done].
    injection Hkind as Hkind. assert (kind_of (o_body e0) = "MutatingWebhookConfiguration") as Hke by (by rewrite <-Hkind).
    destruct (SetControllerReference instance (o_meta e0)) as [m1|msg] eqn:Eo; [|injection Hq as _ <-; rewrite Hv in Hsome; congruence].
    apply ST_bind_Ret in Hq as (r & s3 & [= Hg] & Hq).
    match type of Hg with kget ?x _ = _ => pose proof (kget_ok x s1) as Hgo end. rewrite Hg in Hgo. destruct Hgo as [Hv3 _].
    rewrite Hv in Hv3. destruct r as [f|[| |msg]]; try (injection Hq as _ <-; rewrite Hv3 in Hsome; congruence).
    rewrite <-Hv3 in Hnone. pose proof (create_webhook_spec instance (mkObj m1 (o_body e0)) _ _ _ _ _ Hke Hq Hk Hnone Hsome) as (Hfr & cab & [Hc1 Hc2] & ->).
    assert (forall k', ~ webhook_kind k' -> ~ of_kind "Event" k' -> view s' !! k' = view s !! k') as Hfr'
      by (intros; rewrite Hfr by done; by rewrite Hv3).
    split; [exists m, spec, av; by rewrite Hfr'|]. eexists _, cab. split; [|split; [|reflexivity]].
    + exists e0. split; [done|]. cbn. split; [done|]. by apply owner_keeps in Eo as (? & _).
    + unfold trusted_ca, tls_key in *. rewrite Hfr' by done. rewrite <-Hv3. done.
  - apply deleteWebhook_removes in Hq as [Hq _]. rewrite Hq in Hsome; [done|]. by rewrite Hv.
Qed.

Lemma finalize_creates_none m instance : creates_none webhook_kind (finalize m instance).
Proof.
  unfold finalize. destruct (containsString _ _); [|by eapply only_creates_none; [apply only_ret|intros k _ HF; exact HF]].
  apply creates_none_bind.
  - intros s a s' (helm & s1 & [_ ->]%st_lift_Ret & Hd)%ST_bind_Ret k _.
    apply (run_deletes_spec _ _ (delete_steps_remove _ _)) in Hd as (Hn & _). apply Hn.
  - intros [e|]; [by eapply only_creates_none; [apply only_ret|intros k _ HF; exact HF]|].
    apply (only_creates_none _ (of_kind "IntegrityShield")); [|intros k Hk Hk'; unfold of_kind, webhook_kind in *; congruence].
    apply only_bind; [by apply only_Update|]. intros u. apply only_ret.
Qed.

End facts.
