(* ===== verification/ControllerLiveness.v ===== *)
(** * Reconciliation comes to an end

    On an API server that is up, each call of [Reconcile] puts one more object of
    the installation right, until all of them are; the number of calls is bounded
    by the number of objects. *)
From S2P Require Import Prelude GoStrings GoJson Common ShieldConfig Signing GoState OperatorTypes KubeObjects OperatorResources.
From S2P Require Import Certificates Controller ControllerFacts.
From stdpp Require Import options.

Notation okey := (string * string * string)%type (only parsing).

(** Owner references can be set. *)
Class OwnerUp `{KubeApi, !ControllerLibs} : Prop :=
  owner_up instance m : exists m', SetControllerReference instance m = Ok m'.

(** What the server stores of a deployment compares as equal to what was submitted. *)
Class AdmitsDeployment `{KubeApiOk} : Prop :=
  admit_deployment m spec n : pt_Containers (dep_Template spec) <> [] ->
    exists m' spec' n', stored_as (mkObj m (BDeployment spec n)) = mkObj m' (BDeployment spec' n') /\
      EqualDeployments m spec m' spec' = Ret true.

(** Whether a stored deployment is what the operator wants. *)
Definition dep_good `{K8sStructs} (e f : kobj) : bool :=
  match o_body e, o_body f with
  | BDeployment spec _, BDeployment fspec _ =>
      match EqualDeployments (o_meta e) spec (o_meta f) fspec with Ret b => b | Panic => false end
  | _, _ => false
  end.

Definition requeued (o : outcome) : Prop := o.2 = None /\ cr_Requeue o.1 = true.

Section liveness.
Context `{KubeApiUp, !OperatorLibs, !OperatorFS, !ControllerLibs, !CertLib, !OwnerOk, !OwnerUp, !AdmitsDeployment}.
Context (Getenv : string -> string) (Scheme : option scheme).
#[local] Set Default Proof Using "Type*".
Notation K := (ST kstate).

(** The wanted deployment of the installation, and its key. *)
Context (e_dep : kobj) (dep_key : okey) (dep_kind : key_kind dep_key = "Deployment").

(** An object is in place: it is there, and the deployment is up to date. *)
Definition okb (s : kstate) (k : okey) : bool :=
  match view s !! k with
  | None => false
  | Some o => if decide (k = dep_key) then dep_good e_dep o else true
  end.

Definition not_event (k : okey) : Prop := key_kind k <> "Event".
Lemma dep_not_event : not_event dep_key.
Proof. unfold not_event. by rewrite dep_kind. Qed.

(** The deployment is available whenever it is there. *)
Definition available (o : kobj) : Prop := exists spec n, o_body o = BDeployment spec n /\ (0 < n)%Z.
Definition served (s : kstate) : Prop := forall o, view s !! dep_key = Some o -> available o.

(** A part of the reconciliation that puts the objects at [keys] in place, when
    those at [pre] are: either all of them were, and it goes on, or it puts one
    more in place and asks to be called again. *)
Record phase_post (keys : list okey) (s : kstate) (o : outcome) (s' : kstate) : Prop := {
  pp_frame : forall k, k ∉ keys -> not_event k -> view s' !! k = view s !! k;
  pp_mono : forall k, not_event k -> okb s k = true -> okb s' k = true;
  pp_served : o = finished -> served s';
  pp_outcome : (o = finished /\ forall k, k ∈ keys -> okb s' k = true) \/
               (requeued o /\ exists k, k ∈ keys /\ okb s k = false /\ okb s' k = true)
}.
Definition phase (pre keys : list okey) (m : K outcome) : Prop := forall s, served s ->
  (forall k, k ∈ pre -> okb s k = true) -> exists o s', m s = Ret (o, s') /\ phase_post keys s o s'.

Lemma view_same_okb s s' k : view s' !! k = view s !! k -> okb s' k = okb s k.
Proof. unfold okb. by intros ->. Qed.

Lemma okb_other s k o : k <> dep_key -> view s !! k = Some o -> okb s k = true.
Proof. unfold okb. intros Hne ->. by rewrite decide_False. Qed.

Lemma requeued_not_finished : ~ requeued finished.
Proof. by intros [_ ?]. Qed.

(** A step on one object. *)
Lemma phase_one k s o s' : not_event k -> served s ->
  (forall k', k' <> k -> not_event k' -> view s' !! k' = view s !! k') -> okb s' k = true ->
  (if okb s k then o = finished /\ (k = dep_key -> view s' !! k = view s !! k) else requeued o) ->
  phase_post [k] s o s'.
Proof.
  intros Hne Hs Hfr Hok Ho. split.
  - intros k' Hk'. apply Hfr. intros ->. apply Hk'. left.
  - intros k' Hk' Hb. destruct (decide (k' = k)) as [->|Hd]; [done|]. by rewrite (view_same_okb s s' k' (Hfr _ Hd Hk')).
  - intros ->. destruct (okb s k); [|by apply requeued_not_finished in Ho]. destruct Ho as [_ Hd].
    intros o Hdep. apply Hs. destruct (decide (k = dep_key)) as [<-|Hkd]; [by rewrite <-Hd|]. by rewrite <-Hfr by (done || apply dep_not_event).
  - destruct (okb s k) eqn:Eb; [left; split; [by destruct Ho|]; by intros k' ->%list_elem_of_singleton|].
    right. split; [done|]. exists k. by rewrite list_elem_of_singleton.
Qed.

Lemma phase_nil pre : phase pre [] (mret finished).
Proof.
  intros s Hs _. exists finished, s. split; [done|]. split; [done|done|done|]. left. split; [done|].
  intros k Hk. by apply elem_of_nil in Hk.
Qed.

Lemma phase_weaken pre pre' keys m : (forall k, k ∈ pre -> k ∈ pre') -> phase pre keys m -> phase pre' keys m.
Proof. intros Hsub Hm s Hs Hp. apply Hm; [done|]. intros k Hk. by apply Hp, Hsub. Qed.

(** Parts in a row. *)
Lemma phase_seq pre keys1 keys2 m1 (m2 : K outcome) :
  Forall not_event pre -> Forall not_event keys1 -> Forall not_event keys2 ->
  phase pre keys1 m1 -> phase (pre ++ keys1) keys2 m2 ->
  phase pre (keys1 ++ keys2) (o ← m1; unless_stopped o m2).
Proof.
  rewrite !Forall_forall. intros Hnp Hn1 Hn2 Hm1 Hm2 s Hs Hpre. destruct (Hm1 s Hs Hpre) as (o1 & s1 & Hr1 & Hp1).
  rewrite (ST_bind_run _ _ _ _ _ Hr1). destruct (pp_outcome _ _ _ _ Hp1) as [[-> Hall]|[[Hn Hrq] (k & Hk & Hb & Hb')]].
  - cbn. destruct (Hm2 s1) as (o2 & s2 & Hr2 & Hp2); [by apply (pp_served _ _ _ _ Hp1)| |].
    { intros k [Hk|Hk]%elem_of_app; [|by apply Hall]. apply (pp_mono _ _ _ _ Hp1); auto. }
    exists o2, s2. split; [done|]. split.
    + intros k [Hk1 Hk2]%not_elem_of_app Hke. rewrite (pp_frame _ _ _ _ Hp2 k Hk2 Hke). by apply (pp_frame _ _ _ _ Hp1).
    + intros k Hke Hb. apply (pp_mono _ _ _ _ Hp2); [done|]. by apply (pp_mono _ _ _ _ Hp1).
    + apply (pp_served _ _ _ _ Hp2).
    + destruct (pp_outcome _ _ _ _ Hp2) as [[-> Hall2]|(Hrq & k & Hk & Hb & Hb')].
      * left. split; [done|]. intros k [Hk|Hk]%elem_of_app; [|by apply Hall2]. apply (pp_mono _ _ _ _ Hp2); auto.
      * right. split; [done|]. exists k. split; [apply elem_of_app; by right|]. split; [|done].
        destruct (okb s k) eqn:Eb; [|done]. rewrite (pp_mono _ _ _ _ Hp1 k) in Hb; auto.
  - exists o1, s1. unfold unless_stopped. rewrite Hn, Hrq. split; [done|]. split.
    + intros k' [Hk1 _]%not_elem_of_app Hke. by apply (pp_frame _ _ _ _ Hp1).
    + apply (pp_mono _ _ _ _ Hp1).
    + apply (pp_served _ _ _ _ Hp1).
    + right. split; [by split|]. exists k. split; [apply elem_of_app; by left|done].
Qed.

Lemma run_steps_cons m steps s :
  run_steps (m :: steps) s = (o ← m; unless_stopped o (run_steps steps)) s.
Proof. cbn [run_steps]. unfold mbind, ST_bind. by destruct (m s) as [[[res [e|]] s1]|]. Qed.

Lemma phase_steps keys steps : forall pre, Forall not_event pre -> Forall not_event keys ->
  Forall2 (fun k m => phase [] [k] m) keys steps -> phase pre keys (run_steps steps).
Proof.
  intros pre Hp Hk Hf. revert pre Hp Hk. induction Hf as [|k m keys steps Hm _ IH]; intros pre Hp Hk; [apply phase_nil|].
  inversion Hk; subst. intros s Hs Hpre. rewrite run_steps_cons.
  eapply (phase_seq pre [k] keys m (run_steps steps)); auto.
  - eapply phase_weaken; [|exact Hm]. intros k' Hk'. by apply elem_of_nil in Hk'.
  - apply IH; [|done]. apply Forall_app. auto.
Qed.

(** ** Calls that cannot fail *)

Lemma get_run k s : exists s', r_Get k s = Ret (match view s !! k with Some o => KOk o | None => KErr NotFound end, s') /\ view s' = view s.
Proof.
  pose proof (kget_ok k s) as Hg. unfold r_Get. destruct (view s !! k) as [o|] eqn:E.
  - apply kget_up in E. destruct (kget k s) as [r s']. cbn in E. subst r. exists s'. by split; [|apply Hg].
  - apply kget_up_none in E. destruct (kget k s) as [r s']. cbn in E. subst r. exists s'. by split; [|apply Hg].
Qed.

Lemma create_run o s : view s !! okey_of o = None ->
  exists s', r_Create o s = Ret (KOk tt, s') /\ view s' = <[okey_of o := stored_as o]> (view s).
Proof.
  intros Hn. pose proof (kcreate_ok o s) as Hg. unfold r_Create. apply kcreate_up in Hn.
  destruct (kcreate o s) as [r s']. cbn in Hn. subst r. exists s'. by split; [|apply Hg].
Qed.

Lemma update_run o s : is_Some (view s !! okey_of o) ->
  exists s', r_Update o s = Ret (KOk tt, s') /\ view s' = <[okey_of o := stored_as o]> (view s).
Proof.
  intros Hn. pose proof (kupdate_ok o s) as Hg. unfold r_Update. apply kupdate_up in Hn.
  destruct (kupdate o s) as [r s']. cbn in Hn. subst r. exists s'. by split; [|apply Hg].
Qed.

Lemma create_new_run o s : view s !! okey_of o = None ->
  exists s', create_new o s = Ret (requeue_later, s') /\ view s' = <[okey_of o := stored_as o]> (view s).
Proof.
  intros (s' & Hr & Hv)%create_run. exists s'. split; [|done]. unfold create_new. by rewrite (ST_bind_run _ _ _ _ _ Hr).
Qed.

(** ** Steps *)

Lemma okb_insert s s' k o : k <> dep_key -> view s' = <[k := o]> (view s) -> okb s' k = true.
Proof. intros Hne Hv. eapply okb_other; [done|]. rewrite Hv. apply lookup_insert_eq. Qed.

(** The two ways a step on another object than the deployment can go. *)
Lemma phase_found k m : k <> dep_key -> not_event k ->
  (forall s, served s -> view s !! k = None -> exists s' o, m s = Ret (requeue_later, s') /\ view s' = <[k := o]> (view s)) ->
  (forall s f, served s -> view s !! k = Some f -> exists s', m s = Ret (finished, s') /\
     (view s' = view s \/ exists o, view s' = <[k := o]> (view s))) ->
  phase [] [k] m.
Proof.
  intros Hne Hke Hnew Hold s Hs _. destruct (view s !! k) as [f|] eqn:E.
  - destruct (Hold s f Hs E) as (s' & Hr & Hv). exists finished, s'. split; [done|].
    assert (forall k', k' <> k -> view s' !! k' = view s !! k') as Hfr.
    { intros k' Hk'. destruct Hv as [->|[o ->]]; [done|]. by rewrite lookup_insert_ne. }
    apply phase_one; [done|done|auto| |].
    + destruct Hv as [Hv|[o Hv]]; [eapply okb_other; [done|by rewrite Hv]|by eapply okb_insert].
    + by rewrite (okb_other s k f Hne E).
  - destruct (Hnew s Hs E) as (s' & o & Hr & Hv). exists requeue_later, s'. split; [done|].
    apply phase_one; [done|done| |by eapply okb_insert|unfold okb; by rewrite E].
    intros k' Hk' _. rewrite Hv. by rewrite lookup_insert_ne.
Qed.

Lemma phase_ensure instance e f :
  okey_of e <> dep_key -> not_event (okey_of e) -> f = nothing_to_do \/ f = update_spec ->
  phase [] [okey_of e] (ensure instance e (okey_of e) f).
Proof.
  intros Hne Hke Hf. destruct (owner_up instance (o_meta e)) as [m Hm]. pose proof (owned_key _ _ _ Hm) as Hk.
  apply phase_found; [done|done| |]; unfold ensure; rewrite Hm.
  - intros s _ E. destruct (get_run (okey_of e) s) as (s1 & Hg & Hv). rewrite E in Hg. rewrite (ST_bind_run _ _ _ _ _ Hg).
    destruct (create_new_run (mkObj m (o_body e)) s1) as (s2 & Hc & Hv2); [by rewrite Hk, Hv|]. rewrite Hk, Hv in Hv2. eauto.
  - intros s found _ E. destruct (get_run (okey_of e) s) as (s1 & Hg & Hv). rewrite E in Hg. rewrite (ST_bind_run _ _ _ _ _ Hg).
    destruct Hf as [->| ->]; [exists s1; by split; [|left]|]. unfold update_spec. destruct (negb _); [|exists s1; by split; [|left]].
    assert (okey_of (mkObj (o_meta found) (o_body e)) = okey_of e) as Hkf.
    { pose proof (view_key _ _ _ E) as Ev. unfold okey_of in Ev |- *. cbn. injection Ev as Ek En Em. rewrite Ek in En. by rewrite En, Em. }
    destruct (update_run (mkObj (o_meta found) (o_body e)) s1) as (s2 & Hu & Hv2); [rewrite Hkf, Hv, E; by eexists|].
    exists s2. cbn [o_body]. rewrite (ST_bind_run _ _ _ _ _ Hu). split; [done|]. right. rewrite Hkf, Hv in Hv2. by eexists.
Qed.

(** The same, with the keys as they are written. *)
Lemma phase_ensure_at instance e key k f :
  k = okey_of e -> key = okey_of e -> key_kind k <> "Deployment" -> not_event k -> f = nothing_to_do \/ f = update_spec ->
  phase [] [k] (ensure instance e key f).
Proof. intros -> -> Hk Hke Hf. apply phase_ensure; [|done|done]. intros He. rewrite He, dep_kind in Hk. done. Qed.

Ltac ensure_step := apply phase_ensure_at; [reflexivity|reflexivity|done|done|by auto].

Lemma phase_tls instance : phase [] [tls_key instance] (createOrUpdateTlsSecret instance).
Proof.
  assert (tls_key instance <> dep_key) as Hne by (intros He; pose proof dep_kind as Hd; rewrite <-He in Hd; done).
  set (e := BuildTlsSecretForIShield instance). destruct (owner_up instance (o_meta e)) as [m Hm].
  pose proof (owned_key _ _ _ Hm) as Hk. assert (okey_of e = tls_key instance) as He by done.
  assert (in_namespace instance (mkObj m (o_body e)) = tls_key instance) as Hin.
  { unfold in_namespace. apply owner_keeps in Hm as (Hn & _). cbn in *. by rewrite Hn. }
  assert (forall s, exists e', addCertValues instance (mkObj m (o_body e)) s = Ret (e', s)) as Hadd.
  { intros s. unfold addCertValues. destruct (match GenerateCert _ _ _ _ with Ok _ => _ | Err _ => _ end) as [[? ?] ?]. by eexists. }
  apply phase_found; [done|done| |]; unfold createOrUpdateTlsSecret, createOrUpdateCertSecret; fold e; rewrite Hm, Hin.
  - intros s _ E. destruct (get_run (tls_key instance) s) as (s1 & Hg & Hv). rewrite E in Hg. rewrite (ST_bind_run _ _ _ _ _ Hg).
    destruct (Hadd s1) as [e' Ha]. rewrite (ST_bind_run _ _ _ _ _ Ha). apply addCertValues_spec in Ha as [_ He'].
    destruct (create_new_run e' s1) as (s2 & Hc & Hv2); [by rewrite He', Hk, He, Hv|]. rewrite He', Hk, He, Hv in Hv2. eauto.
  - intros s found _ E. destruct (get_run (tls_key instance) s) as (s1 & Hg & Hv). rewrite E in Hg. rewrite (ST_bind_run _ _ _ _ _ Hg).
    destruct (Hadd s1) as [e' Ha]. rewrite (ST_bind_run _ _ _ _ _ Ha). exists s1. by split; [|left].
Qed.

(** ** The deployment *)

Section deployment.
Context (instance : IntegrityShield) (built : BuildDeploymentForIShield instance = Ret e_dep) (is_key : dep_key = deployment_key instance).

Lemma built_deployment : exists spec, o_body e_dep = BDeployment spec 0 /\ pt_Containers (dep_Template spec) <> [] /\ okey_of e_dep = dep_key.
Proof.
  rewrite is_key. revert built. unfold BuildDeploymentForIShield.
  destruct (lgc_EsConfig (iss_Logger (is_Spec instance))), (lgc_HttpConfig (iss_Logger (is_Spec instance))); try done.
  intros [= <-]. by eexists.
Qed.

Lemma admitted_good spec m n : o_body e_dep = BDeployment spec 0 -> pt_Containers (dep_Template spec) <> [] ->
  km_Labels m = km_Labels (o_meta e_dep) -> dep_good e_dep (stored_as (mkObj m (BDeployment spec n))) = true.
Proof.
  intros Hb Hc Hl. destruct (admit_deployment m spec n Hc) as (m' & spec' & n' & -> & Heq). unfold dep_good. rewrite Hb. cbn.
  unfold EqualDeployments in *. rewrite Hl in Heq. by rewrite Heq.
Qed.

Lemma EqualDeployments_total m spec m' spec' : pt_Containers (dep_Template spec) <> [] ->
  exists b, EqualDeployments m spec m' spec' = Ret b.
Proof.
  intros Hc. unfold EqualDeployments, EqualPods.
  repeat (match goal with |- context [if ?b then _ else _] => destruct b eqn:?; [by eexists|] end).
  destruct (pt_Containers (dep_Template spec)), (pt_Containers (dep_Template spec')); try done; by eexists.
Qed.

Lemma phase_deployment : phase [] [dep_key] (createOrUpdateWebhookDeployment instance).
Proof.
  destruct built_deployment as (spec & Hb & Hc & Hk). intros s Hs _.
  unfold createOrUpdateWebhookDeployment, createOrUpdateDeployment, ensure.
  rewrite (ST_bind_run _ _ s e_dep s) by (unfold st_lift; by rewrite built).
  destruct (owner_up instance (o_meta e_dep)) as [m Hm]. rewrite Hm. pose proof (owned_key _ _ _ Hm) as Hok.
  assert (in_namespace instance e_dep = dep_key) as ->.
  { rewrite is_key. unfold in_namespace, deployment_key. rewrite Hb. cbn. rewrite is_key in Hk. unfold okey_of in Hk. by injection Hk as _ _ ->. }
  apply owner_keeps in Hm as (Hn & Hns & Hl).
  destruct (get_run dep_key s) as (s1 & Hg & Hv). rewrite (ST_bind_run _ _ _ _ _ Hg).
  destruct (view s !! dep_key) as [f|] eqn:E.
  - pose proof (view_kind _ _ _ E) as Hkf. pose proof (view_key _ _ _ E) as Hvk. rewrite dep_kind in Hkf. destruct f as [mf bf]. cbn in Hkf.
    destruct bf as [| | | | | | | | | | |fspec avail| | | |]; try done. unfold update_deployment. cbn [o_body o_meta]. rewrite Hb.
    destruct (EqualDeployments_total m spec mf fspec Hc) as [b Heq]. rewrite (ST_bind_run _ _ s1 b s1) by (unfold st_lift; by rewrite Heq).
    assert (okb s dep_key = b) as Hokb.
    { unfold okb. rewrite E, decide_True by done. unfold dep_good. rewrite Hb. cbn. unfold EqualDeployments in *. rewrite <-Hl. by rewrite Heq. }
    destruct b.
    + exists finished, s1. split; [done|]. apply phase_one; [apply dep_not_event|done|by rewrite Hv| |rewrite Hokb; by rewrite Hv].
      rewrite <-Hokb. apply view_same_okb. by rewrite Hv.
    + match goal with |- context [r_Update ?x] => set (u := x) end.
      assert (okey_of u = dep_key) as Hu by exact Hvk.
      destruct (update_run u s1) as (s2 & Hr & Hv2); [rewrite Hu, Hv, E; by eexists|]. rewrite (ST_bind_run _ _ _ _ _ Hr).
      exists requeue, s2. split; [done|]. rewrite Hu, Hv in Hv2. apply phase_one; [apply dep_not_event|done| | |by rewrite Hokb].
      * intros k' Hk' _. rewrite Hv2. by rewrite lookup_insert_ne.
      * unfold okb. rewrite Hv2, lookup_insert_eq, decide_True by done. by apply admitted_good.
  - destruct (create_new_run (mkObj m (o_body e_dep)) s1) as (s2 & Hcr & Hv2); [by rewrite Hok, Hk, Hv|]. rewrite Hok, Hk, Hv in Hv2.
    exists requeue_later, s2. split; [done|]. apply phase_one; [apply dep_not_event|done| | |unfold okb; by rewrite E].
    + intros k' Hk' _. rewrite Hv2. by rewrite lookup_insert_ne.
    + unfold okb. rewrite Hv2, lookup_insert_eq, decide_True by done. rewrite Hb. by apply admitted_good.
Qed.

(** ** The webhook *)

Lemma event_run evt wh s : exists r s', createOrUpdateWebhookEvent instance evt wh s = Ret (r, s').
Proof.
  unfold createOrUpdateWebhookEvent, time_Now, r_Get, r_Create, r_Update, mbind, ST_bind. destruct (ktime s) as [t s1].
  destruct (kget _ s1) as [[f|[| |msg]] s2]; [|destruct (kcreate _ s2); by eexists _, _|by eexists _, _..].
  destruct (o_body f); try by eexists _, _. destruct (kupdate _ s2). by eexists _, _.
Qed.

Lemma phase_webhook : is_Some (iss_ShieldConfig (is_Spec instance)) -> phase [dep_key] [webhook_key instance] (webhook_step instance).
Proof.
  intros [ec Hec] s Hs Hpre. assert (webhook_key instance <> dep_key) as Hne by (intros He; pose proof dep_kind as Hd; rewrite <-He in Hd; done).
  unfold webhook_step. assert (exists s1, isDeploymentAvailable instance s = Ret (true, s1) /\ view s1 = view s) as (s1 & Ha & Hv1).
  { specialize (Hpre dep_key ltac:(left)). unfold okb in Hpre. destruct (view s !! dep_key) as [f|] eqn:E; [|done].
    destruct (Hs f E) as (spec & n & Hb & Hn). destruct (get_run dep_key s) as (s1 & Hg & Hv). rewrite E, is_key in Hg.
    exists s1. unfold isDeploymentAvailable. rewrite (ST_bind_run _ _ _ _ _ Hg), Hb. apply Z.ltb_lt in Hn. by rewrite Hn. }
  rewrite (ST_bind_run _ _ _ _ _ Ha). unfold createOrUpdateWebhook.
  assert (exists e0, BuildMutatingWebhookConfigurationForIShield instance = Ret e0 /\ okey_of e0 = webhook_key instance /\
    kind_of (o_body e0) = "MutatingWebhookConfiguration") as (e0 & He0 & Hk0 & Hkd0).
  { unfold BuildMutatingWebhookConfigurationForIShield. rewrite Hec. by eexists. }
  rewrite (ST_bind_run _ _ s1 e0 s1) by (unfold st_lift; by rewrite He0).
  destruct (owner_up instance (o_meta e0)) as [m Hm]. rewrite Hm. pose proof (owned_key _ _ _ Hm) as Hok.
  assert (in_cluster (mkObj m (o_body e0)) = webhook_key instance) as ->.
  { rewrite <-Hk0, <-Hok. unfold in_cluster, okey_of. cbn. by rewrite Hkd0. }
  destruct (get_run (webhook_key instance) s1) as (s2 & Hg & Hv2). rewrite (ST_bind_run _ _ _ _ _ Hg). rewrite Hv1 in *.
  destruct (view s !! webhook_key instance) as [f|] eqn:E.
  - exists finished, s2. split; [done|]. apply phase_one; [done|done|by rewrite Hv2|eapply okb_other; [done|by rewrite Hv2]|].
    rewrite (okb_other s _ f Hne E). by split; [|rewrite Hv2].
  - unfold create_webhook. destruct (get_run (tls_key instance) s2) as (s3 & Hg3 & Hv3). rewrite (ST_bind_run _ _ _ _ _ Hg3).
    match goal with |- context [r_Create ?x] => set (e1 := x) end.
    assert (okey_of e1 = webhook_key instance) as Hk1.
    { unfold e1. destruct (view s2 !! tls_key instance) as [o1|]; [destruct (ca_entry o1)|]; rewrite ?set_CABundle_key; by rewrite Hok, Hk0. }
    destruct (create_run e1 s3) as (s4 & Hc & Hv4); [by rewrite Hk1, Hv3, Hv2|]. rewrite (ST_bind_run _ _ _ _ _ Hc).
    destruct (event_run "ishield-webhook-reconciled" (km_Name (o_meta e1)) s4) as (r & s5 & Hev). rewrite (ST_bind_run _ _ _ _ _ Hev).
    pose proof (webhook_event_frame _ _ _ _ _ _ Hev) as Hfr. rewrite Hk1, Hv3, Hv2 in Hv4.
    exists requeue_later, s5. split; [done|]. apply phase_one; [done|done| | |unfold okb; by rewrite E].
    + intros k' Hk' Hne'. rewrite Hfr, Hv4 by done. by rewrite lookup_insert_ne.
    + eapply okb_other; [done|]. rewrite Hfr, Hv4 by done. apply lookup_insert_eq.
Qed.

(** ** All objects *)

Definition in_ns (kind name : string) : okey := (kind, is_Namespace instance, name).
Definition object_keys : list okey :=
  [in_ns "SignerConfig" (GetSignerConfigCRName instance)] ++
  (in_ns "ResourceSigningProfile" ∘ pf_Name <$> iss_ResourceSigningProfiles (is_Spec instance)) ++
  [ tls_key instance; in_ns "ServiceAccount" (GetServiceAccountName instance);
    ("ClusterRole", "", GetClusterRoleName instance); ("ClusterRoleBinding", "", GetClusterRoleBindingName instance);
    in_ns "Role" (GetDryRunRoleName instance); in_ns "RoleBinding" (GetDryRunRoleBindingName instance) ] ++
  (if admin_enabled instance
   then [ ("ClusterRole", "", DefaultIShieldAdminClusterRoleName); ("ClusterRoleBinding", "", DefaultIShieldAdminClusterRoleBindingName);
          in_ns "Role" (GetIShieldAdminRoleName instance); in_ns "RoleBinding" (GetIShieldAdminRoleBindingName instance) ]
   else []) ++
  [("PodSecurityPolicy", "", GetPodSecurityPolicyName instance); dep_key; in_ns "Service" (GetWebhookServiceName instance)].



Lemma phase_objects pre : Forall not_event pre -> Forall (fun p => is_Some (pf_Spec p)) (iss_ResourceSigningProfiles (is_Spec instance)) ->
  phase pre object_keys (run_steps (object_steps instance)).
Proof.
  intros Hpre Hprof. apply phase_steps; [done| |].
  - unfold object_keys. rewrite !Forall_app. destruct (admin_enabled instance); repeat split; repeat (constructor; try done);
      try apply dep_not_event; apply Forall_fmap, Forall_true; done.
  - unfold object_keys, object_steps. apply Forall2_app; [|apply Forall2_app; [|apply Forall2_app; [|apply Forall2_app]]].
    + constructor; [ensure_step|constructor].
    + induction Hprof as [|p ps [spec Hp] _ IH]; constructor; [|done]. intros s Hs Hq.
      unfold createOrUpdateResourceSigningProfileCR, BuildResourceSigningProfileForIShield. rewrite Hp.
      revert s Hs Hq. ensure_step.
    + constructor; [apply phase_tls|]. repeat (constructor; [ensure_step|]). constructor.
    + destruct (admin_enabled instance); repeat (constructor; [ensure_step|]); constructor.
    + constructor; [ensure_step|]. constructor; [apply phase_deployment|].
      constructor; [ensure_step|constructor].
Qed.
End deployment.

Lemma phase_ext pre keys (m m' : K outcome) : (forall s, m s = m' s) -> phase pre keys m' -> phase pre keys m.
Proof. intros Hm Hp s. rewrite Hm. apply Hp. Qed.

Lemma run_steps_app steps1 steps2 s :
  run_steps (steps1 ++ steps2) s = (o ← run_steps steps1; unless_stopped o (run_steps steps2)) s.
Proof.
  revert s. induction steps1 as [|m steps1 IH]; intros s; [done|]. cbn [app run_steps]. unfold mbind, ST_bind in *.
  destruct (m s) as [[[res [e|]] s1]|]; [done| |done]. destruct (cr_Requeue res) eqn:Er; [|apply IH].
  cbn. by rewrite Er.
Qed.

Lemma phase_single pre k m : Forall not_event pre -> not_event k -> phase pre [k] m -> phase pre [k] (run_steps [m]).
Proof.
  intros Hp Hk Hm. eapply phase_ext; [intros s; apply run_steps_cons|].
  eapply (phase_seq pre [k] [] m (mret finished)); auto using phase_nil.
Qed.

Lemma phase_post_start keys s s1 o s' : view s1 = view s -> phase_post keys s1 o s' -> phase_post keys s o s'.
Proof. intros Hv [Hf Hm Hs Ho]. unfold okb in *. rewrite Hv in *. by split. Qed.

Lemma ready_run instance keys : forall n s, (forall kc, kc ∈ keys -> okb s (in_ns instance "Secret" (kc_SecretName kc)) = true) ->
  exists s', ready_count instance keys n s = Ret (n + length keys, "", s') /\ view s' = view s.
Proof.
  induction keys as [|kc keys IH]; intros n s Hk; cbn [ready_count].
  - exists s. by rewrite Nat.add_0_r.
  - destruct (get_run (in_ns instance "Secret" (kc_SecretName kc)) s) as (s1 & Hg & Hv). rewrite (ST_bind_run _ _ _ _ _ Hg).
    specialize (Hk kc ltac:(left)) as Hkc. unfold okb in Hkc. destruct (view s !! _) as [o|] eqn:E; [|done].
    destruct (IH (S n) s1) as (s2 & Hr & Hv2).
    { intros kc' Hkc'. rewrite (view_same_okb s s1) by (by rewrite Hv). apply Hk. by right. }
    exists s2. rewrite Hr, Hv2, Hv. cbn. by rewrite Nat.add_succ_r.
Qed.

(** ** A round *)

(** What a resource leads to: everything can be built. *)
Record builds (instance : IntegrityShield) (helm : bool) (cfg : kobj) (filled : IntegrityShield) : Prop := {
  b_helm : helm_enabled instance = Ret helm;
  b_config : BuildShieldConfigForIShield instance Scheme Getenv getCommonProfilesPath = Ret (cfg, filled);
  b_profiles : Forall (fun p => is_Some (pf_Spec p)) (iss_ResourceSigningProfiles (is_Spec filled));
  b_deployment : BuildDeploymentForIShield filled = Ret e_dep;
  b_dep_key : dep_key = deployment_key filled
}.

Definition install_keys (helm : bool) (cfg : kobj) (filled : IntegrityShield) : list okey :=
  [ crd_key DefaultShieldConfigCRDName; crd_key DefaultSignerConfigCRDName; crd_key DefaultResourceSignatureCRDName;
    crd_key DefaultResourceSigningProfileCRDName ] ++
  (if helm then [crd_key DefaultHelmReleaseMetadataCRDName] else []) ++
  [okey_of cfg] ++ object_keys filled ++ [webhook_key filled].

Definition keyring_keys (instance : IntegrityShield) : list okey :=
  (fun kc => in_ns instance "Secret" (kc_SecretName kc)) <$> iss_KeyConfig (is_Spec instance).

Lemma config_built instance helm cfg filled : builds instance helm cfg filled ->
  okey_of cfg = in_namespace filled cfg /\ kind_of (o_body cfg) = "ShieldConfig" /\ is_Some (iss_ShieldConfig (is_Spec filled)) /\
  iss_KeyConfig (is_Spec filled) = iss_KeyConfig (is_Spec instance) /\ is_Namespace filled = is_Namespace instance.
Proof.
  intros [_ (ec0 & ec & cond & _ & -> & -> & _)%BuildShieldConfig_shape _ _ _]. repeat split. by eexists.
Qed.

Lemma object_keys_not_event filled : Forall not_event (object_keys filled).
Proof.
  unfold object_keys. rewrite !Forall_app. destruct (admin_enabled filled); repeat split; repeat (constructor; try done);
    try apply dep_not_event; apply Forall_fmap, Forall_true; done.
Qed.

Lemma keyring_not_event instance : Forall not_event (keyring_keys instance).
Proof. apply Forall_fmap, Forall_true. done. Qed.

Lemma config_step_run instance cfg filled rest s :
  BuildShieldConfigForIShield instance Scheme Getenv getCommonProfilesPath = Ret (cfg, filled) ->
  (r ← createOrUpdateShieldConfigCR Getenv Scheme instance;
   let '(o, instance) := r : outcome * IntegrityShield in unless_stopped o (rest instance)) s =
  (o ← ensure filled cfg (in_namespace filled cfg) update_spec; unless_stopped o (rest filled)) s.
Proof.
  intros Hb. unfold createOrUpdateShieldConfigCR, mbind, ST_bind, st_lift. rewrite Hb.
  by destruct (ensure _ _ _ _ s) as [[o s']|].
Qed.

Lemma phase_install_objects pre instance helm cfg filled : builds instance helm cfg filled -> Forall not_event pre ->
  phase pre (install_keys helm cfg filled) (install_objects Getenv Scheme instance).
Proof.
  intros Hb Hpre. destruct (config_built _ _ _ _ Hb) as (Hck & Hckd & Hsc & _).
  assert (key_kind (okey_of cfg) = "ShieldConfig") as Hck2 by exact Hckd.
  assert (not_event (okey_of cfg)) as Hce by (unfold not_event; by rewrite Hck2).
  destruct Hb as [Hhelm Hcfg Hprof Hdep Hkey]. unfold install_objects, install_keys.
  pose proof (object_keys_not_event filled) as Hobj.
  assert (Forall not_event (object_keys filled ++ [webhook_key filled])) as Htail by (apply Forall_app; split; [done|by constructor]).
  assert (Forall not_event (okey_of cfg :: object_keys filled ++ [webhook_key filled])) as Htail2 by (by constructor).
  assert (Forall not_event (if helm then [crd_key DefaultHelmReleaseMetadataCRDName] else [])) as Hhl by (destruct helm; by repeat constructor).
  apply phase_seq; [done|by repeat constructor|by apply Forall_app; split| |].
  { apply phase_steps; [done|by repeat constructor|]. repeat (constructor; [ensure_step|]). constructor. }
  eapply phase_ext; [intros s; apply (ST_bind_run _ _ s helm s); unfold st_lift; by rewrite Hhelm|].
  match goal with |- phase ?p _ _ => assert (Forall not_event p) as Hp1 by (apply Forall_app; split; [done|by repeat constructor]) end.
  apply phase_seq; [done|done|done| |].
  { apply phase_steps; [done|done|]. destruct helm; repeat (constructor; [ensure_step|]); constructor. }
  eapply phase_ext; [intros s; apply (config_step_run instance cfg filled (fun i => run_steps (object_steps i ++ [webhook_step i])) s Hcfg)|].
  match goal with |- phase ?p _ _ => assert (Forall not_event p) as Hp2 by (apply Forall_app; split; done) end.
  apply (phase_seq _ [okey_of cfg]); [done|by constructor|done| |].
  { eapply phase_weaken; [|apply phase_ensure_at; [done|by rewrite Hck|by rewrite Hck2|done|by auto]].
    intros k Hk. by apply elem_of_nil in Hk. }
  match goal with |- phase ?p _ _ => assert (Forall not_event p) as Hp3 by (apply Forall_app; split; [done|by constructor]) end.
  eapply phase_ext; [intros s; apply run_steps_app|].
  apply phase_seq; [done|done|by constructor|by apply phase_objects|].
  apply phase_single; [by apply Forall_app; split|done|].
  eapply phase_weaken; [|by apply phase_webhook]. intros k ->%list_elem_of_singleton. apply elem_of_app. right.
  unfold object_keys. rewrite !elem_of_app, !elem_of_cons. auto 10.
Qed.

Lemma phase_install instance helm cfg filled : builds instance helm cfg filled ->
  phase (keyring_keys instance) (install_keys helm cfg filled) (install Getenv Scheme instance).
Proof.
  intros Hb s Hs Hpre. destruct (ready_run instance (iss_KeyConfig (is_Spec instance)) 0 s) as (s1 & Hr & Hv).
  { intros kc Hkc. apply Hpre. unfold keyring_keys. by apply (list_elem_of_fmap_2 (fun kc => in_ns instance "Secret" (kc_SecretName kc))). }
  unfold install, isKeyRingReady. rewrite (ST_bind_run _ _ s (true, "") s1).
  2:{ rewrite (ST_bind_run _ _ _ _ _ Hr). cbn. by rewrite Nat.eqb_refl. }
  destruct (phase_install_objects (keyring_keys instance) instance helm cfg filled Hb (keyring_not_event instance) s1) as (o & s' & Hrun & Hp).
  - unfold served. by rewrite Hv.
  - unfold okb. by rewrite Hv.
  - exists o, s'. split; [exact Hrun|]. by eapply phase_post_start.
Qed.

(** ** Rounds until nothing is left to do *)

Section rounds.
Context (cr : IntegrityShield) (m : KMeta) (ns name : string) (helm : bool) (cfg : kobj) (filled : IntegrityShield).
Context (Hb : builds (effective cr) helm cfg filled) (Halive : under_deletion (effective cr) = false).
Notation cr_key := ("IntegrityShield", ns, name).
Notation keys := (install_keys helm cfg filled).

(** The resource is there and so are the secrets with the keys. *)
Definition requested (s : kstate) : Prop :=
  view s !! cr_key = Some (mkObj m (BIntegrityShield cr)) /\ forall k, k ∈ keyring_keys (effective cr) -> okb s k = true.

Lemma cr_key_not_installed : cr_key ∉ keys.
Proof.
  destruct (config_built _ _ _ _ Hb) as (_ & Hckd & _). assert (key_kind (okey_of cfg) = "ShieldConfig") as Hck by exact Hckd.
  assert (forall k, k ∈ keys -> key_kind k <> "IntegrityShield") as Hall; [|by intros Hin%Hall].
  apply Forall_forall. unfold install_keys, object_keys. rewrite !Forall_app.
  destruct helm, (admin_enabled filled); repeat split; repeat (constructor; try done); try (by rewrite Hck); try (by rewrite dep_kind);
    apply Forall_fmap, Forall_true; done.
Qed.

Lemma round s : served s -> requested s ->
  exists o s', Reconcile Getenv Scheme ns name s = Ret (o, s') /\ phase_post keys s o s' /\ requested s'.
Proof.
  intros Hs [Hcr Hkr]. destruct (get_run cr_key s) as (s1 & Hg & Hv). rewrite Hcr in Hg.
  unfold Reconcile. rewrite (ST_bind_run _ _ _ _ _ Hg). cbn [o_body o_meta]. rewrite Halive.
  destruct (phase_install _ _ _ _ Hb s1) as (o & s' & Hrun & Hp).
  { unfold served. by rewrite Hv. }
  { unfold okb. by rewrite Hv. }
  exists o, s'. split; [done|]. apply (phase_post_start _ s) in Hp; [|done]. split; [done|]. split.
  - rewrite (pp_frame _ _ _ _ Hp); [done|apply cr_key_not_installed|done].
  - intros k Hk. apply (pp_mono _ _ _ _ Hp); [|by apply Hkr]. pose proof (keyring_not_event (effective cr)) as Hf.
    rewrite Forall_forall in Hf. by apply Hf.
Qed.

(** Between two calls the cluster may change on its own: the pods of the
    deployment come up. *)
Context (env : kstate -> kstate).
Record pods_come_up : Prop := {
  env_frame : forall s k, k <> dep_key -> not_event k -> view (env s) !! k = view s !! k;
  env_dep : forall s, match view s !! dep_key with
    | None => view (env s) !! dep_key = None
    | Some o => exists o', view (env s) !! dep_key = Some o' /\ dep_good e_dep o' = dep_good e_dep o /\ available o'
    end
}.
Context (Henv : pods_come_up).

(** The manager calls again for as long as it is asked to. *)
Fixpoint reconcile_until (fuel : nat) (s : kstate) : go (outcome * kstate) :=
  match fuel with
  | 0 => Ret (requeue, s)
  | S fuel' =>
      match Reconcile Getenv Scheme ns name (env s) with
      | Panic => Panic
      | Ret (o, s') => match o.2 with
                       | Some _ => Ret (o, s')
                       | None => if cr_Requeue o.1 then reconcile_until fuel' s' else Ret (o, s')
                       end
      end
  end.

Lemma env_okb s k : not_event k -> okb (env s) k = okb s k.
Proof.
  intros Hk. destruct (decide (k = dep_key)) as [->|Hne]; [|apply view_same_okb; by apply (env_frame Henv)].
  pose proof (env_dep Henv s) as He. unfold okb. destruct (view s !! dep_key) as [o|]; [|by rewrite He].
  destruct He as (o' & -> & Hg & _). by rewrite !decide_True by done.
Qed.

Lemma env_served s : served (env s).
Proof.
  intros o Ho. pose proof (env_dep Henv s) as He. destruct (view s !! dep_key) as [o1|]; [|congruence].
  destruct He as (o' & Ho' & _ & Ha). congruence.
Qed.

(** The objects that are missing or out of date. *)
Definition missing (s : kstate) : list okey := List.filter (fun k => negb (okb s k)) keys.


Lemma round_env s : requested s -> requested (env s).
Proof.
  intros [Hcr Hk]. split.
  - rewrite (env_frame Henv); [done| |done]. intros He. pose proof dep_kind as Hd. rewrite <-He in Hd. done.
  - intros k Hin. rewrite env_okb; [by apply Hk|]. pose proof (keyring_not_event (effective cr)) as Hf.
    rewrite Forall_forall in Hf. by apply Hf.
Qed.

Lemma install_keys_not_event : Forall not_event keys.
Proof.
  destruct (config_built _ _ _ _ Hb) as (_ & Hckd & _). assert (not_event (okey_of cfg)) by (unfold not_event, key_kind, okey_of; cbn; by rewrite Hckd).
  unfold install_keys. rewrite !Forall_app. repeat split; try apply object_keys_not_event; try destruct helm; by repeat constructor.
Qed.

Lemma converges fuel s : requested s -> length (missing s) < fuel ->
  exists s', reconcile_until fuel s = Ret (finished, s') /\ forall k, k ∈ keys -> okb s' k = true.
Proof.
  pose proof install_keys_not_event as Hne. rewrite Forall_forall in Hne.
  revert s. induction fuel as [|fuel IH]; intros s Hreq Hlt; [lia|]. cbn [reconcile_until].
  destruct (round (env s) (env_served s) (round_env s Hreq)) as (o & s' & -> & Hp & Hreq').
  destruct (pp_outcome _ _ _ _ Hp) as [[-> Hall]|([Hn Hq] & k & Hk & Hbad & Hgood)]; [by exists s'|].
  rewrite Hn, Hq. apply IH; [done|]. assert (length (missing s') < length (missing s)); [|lia].
  apply filter_shrinks.
  - intros k' Hk' Hm. apply negb_true_iff. apply negb_true_iff in Hm. destruct (okb s k') eqn:E; [|done].
    rewrite (pp_mono _ _ _ _ Hp k') in Hm; auto. by rewrite env_okb by auto.
  - exists k. rewrite env_okb in Hbad by auto. by rewrite Hbad, Hgood.
Qed.
End rounds.

End liveness.
