(* ===== verification/OperatorFacts.v ===== *)
(** * What an installation gives the server

    The operator writes the configuration the server runs on.  Here the two sides
    are put together: which of the installed objects the server protects, which
    keys it can verify with, whom its certificate is for, and what of a changed
    resource reaches the running deployment. *)
From S2P Require Import Prelude GoStrings GoJson Common Policy ShieldConfig Signing GoState OperatorTypes KubeObjects OperatorResources.
From S2P Require Import Certificates Controller ControllerFacts ControllerLiveness.
From stdpp Require Import options.

(** ** The objects the server protects *)

(** The kinds of the Go types, as the API server calls them. *)
Definition type_kind (t : gotype) : string :=
  match t with
  | TDeployment => "Deployment" | TCRD => "CustomResourceDefinition" | TShieldConfig => "ShieldConfig"
  | TSignerConfig => "SignerConfig" | TRSP => "ResourceSigningProfile" | TSecret => "Secret"
  | TServiceAccount => "ServiceAccount" | TClusterRole => "ClusterRole" | TClusterRoleBinding => "ClusterRoleBinding"
  | TRole => "Role" | TRoleBinding => "RoleBinding" | TPSP => "PodSecurityPolicy"
  end.
Definition knows_types (sch : scheme) : Prop := forall t, getTypeFromObj t sch = type_kind t.

(** The reference of a request on the object at a key. *)
Definition key_ref (apiVersion : string) (k : okey) : ResourceRef :=
  let '(kind, namespace, name) := k in mkResourceRef name namespace kind apiVersion.

(** The kinds the list of the shield's own resources leaves out. *)
Definition unlisted : list string := ["Service"; "PodSecurityPolicy"; "MutatingWebhookConfiguration"].

Section protection.
Context `{K8sStructs, !OperatorLibs}.

Definition server_resource (cr : IntegrityShield) (sch : scheme) (Getenv : string -> string) (k : okey) : Prop :=
  exists r, r ∈ (GetIShieldResourceList cr (Some sch) Getenv).2 /\ ref_Name r = k.2 /\ ref_Namespace r = k.1.2 /\ ref_Kind r = k.1.1.

Lemma IsServerResource_iff cond r :
  IsServerResource cond r = true <->
  exists r', r' ∈ irc_ServerResources cond /\ ref_Name r' = ref_Name r /\ ref_Namespace r' = ref_Namespace r /\ ref_Kind r' = ref_Kind r.
Proof. unfold IsServerResource. rewrite existsb_true. by setoid_rewrite EqualsWithoutVersionCheck_iff. Qed.

Lemma listed cr sch Getenv k :
  mkResourceRef k.2 k.1.2 k.1.1 "" ∈ (GetIShieldResourceList cr (Some sch) Getenv).2 -> server_resource cr sch Getenv k.
Proof. intros Hin. eexists. split; [exact Hin|done]. Qed.

(** The kinds in the list. *)
Lemma listed_kinds cr sch Getenv : knows_types sch -> is_Namespace cr <> "" ->
  Forall (fun r => ref_Kind r <> "Service" /\ ref_Kind r <> "MutatingWebhookConfiguration" /\
                   (ref_Kind r = "PodSecurityPolicy" -> ref_Namespace r <> "")) (GetIShieldResourceList cr (Some sch) Getenv).2.
Proof.
  intros Hsch Hns. cbn -[getTypeFromObj]. rewrite !Hsch. rewrite !Forall_cons. repeat split; try done.
  apply Forall_fmap, Forall_true. by intros prof.
Qed.

Context `{!OperatorFS}.
#[local] Opaque getTypeFromObj.

Ltac listed_tac Hsch :=
  first [ left; unfold unlisted, key_kind; cbn; rewrite !elem_of_cons; by auto
        | right; apply listed; cbn [GetIShieldResourceList snd fst key_kind]; rewrite !Hsch;
          repeat first [apply list_elem_of_here|apply list_elem_of_further] ].

(** Every installed object of a listed kind is in the list. *)
Lemma installed_listed cr sch Getenv helm cfg filled k :
  knows_types sch -> BuildShieldConfigForIShield cr (Some sch) Getenv getCommonProfilesPath = Ret (cfg, filled) ->
  k ∈ install_keys (deployment_key filled) helm cfg filled -> key_kind k ∉ unlisted -> server_resource cr sch Getenv k.
Proof.
  intros Hsch Hb. assert (okey_of cfg = ("ShieldConfig", is_Namespace cr, GetShieldConfigCRName cr) /\ exists ec, filled = set_ShieldConfig cr ec)
    as [Hcfg [ec ->]].
  { apply BuildShieldConfig_shape in Hb as (ec0 & ec & cond & _ & -> & -> & _). split; [done|by eexists]. }
  assert (Forall (fun k => key_kind k ∈ unlisted \/ server_resource cr sch Getenv k)
    (install_keys (deployment_key (set_ShieldConfig cr ec)) helm cfg (set_ShieldConfig cr ec))) as Hall.
  { unfold install_keys, object_keys. rewrite Hcfg, !Forall_app.
    destruct helm, (admin_enabled (set_ShieldConfig cr ec)); rewrite ?Forall_cons, ?Forall_nil; repeat split; try listed_tac Hsch;
      apply Forall_fmap, Forall_forall; intros prof Hp; right; apply listed; cbn [GetIShieldResourceList snd]; rewrite !Hsch;
      apply elem_of_app; right; apply list_elem_of_fmap; by exists prof. }
  intros Hk Hun. rewrite Forall_forall in Hall. by destruct (Hall k Hk).
Qed.

Lemma installed_scopes cr sch Getenv helm cfg filled k :
  BuildShieldConfigForIShield cr (Some sch) Getenv getCommonProfilesPath = Ret (cfg, filled) ->
  k ∈ install_keys (deployment_key filled) helm cfg filled -> key_kind k = "PodSecurityPolicy" -> k.1.2 = "".
Proof.
  intros (ec0 & ec & cond & _ & -> & -> & _)%BuildShieldConfig_shape. revert k. refine (proj1 (Forall_forall _ _) _). unfold install_keys, object_keys. rewrite !Forall_app.
  destruct helm, (admin_enabled (set_ShieldConfig cr ec)); rewrite ?Forall_cons, ?Forall_nil; repeat split; try done;
    by apply Forall_fmap, Forall_true.
Qed.

(** C16: every object the operator installs is a resource the server protects as
    its own, whatever version a request names, except the service, the pod
    security policy (which is listed under a namespace it does not have) and the
    webhook configuration. *)
Theorem installed_objects_protected cr sch Getenv helm cfg filled :
  knows_types sch -> is_Namespace cr <> "" ->
  BuildShieldConfigForIShield cr (Some sch) Getenv getCommonProfilesPath = Ret (cfg, filled) ->
  exists ec cond, o_body cfg = BShieldConfig (Some ec) /\ cfg_IShieldResourceCondition ec = Some cond /\
    forall k apiVersion, k ∈ install_keys (deployment_key filled) helm cfg filled ->
      IsServerResource cond (key_ref apiVersion k) = true <-> key_kind k ∉ unlisted.
Proof.
  intros Hsch Hns Hb. pose proof (fun k => installed_listed cr sch Getenv helm cfg filled k Hsch Hb) as Hin.
  pose proof (listed_kinds cr sch Getenv Hsch Hns) as Hkinds. rewrite Forall_forall in Hkinds.
  destruct (BuildShieldConfig_shape _ _ _ _ _ _ Hb) as (ec0 & ec & cond & _ & Hcfg & _ & Hcond & Hlist & _).
  apply (f_equal snd) in Hlist. cbn [snd] in Hlist.
  exists ec, cond. split; [by rewrite Hcfg|]. split; [done|]. intros [[kind namespace] name] av Hk.
  rewrite IsServerResource_iff, Hlist. split; [|intros Hun; by destruct (Hin _ Hk Hun) as (r & Hr & Hrest); exists r].
  intros (r & Hr & Hn & Hnsp & Hkd) Hun. destruct (Hkinds r Hr) as (H1' & H2' & H3'). cbn in *. subst kind.
  pose proof (installed_scopes cr sch Getenv helm cfg filled _ Hb Hk) as Hsc. cbn in Hsc.
  unfold unlisted in Hun. rewrite !elem_of_cons, elem_of_nil in Hun. destruct Hun as [?|[Hp|[?|[]]]]; [done| |done].
  apply H3'; [done|]. rewrite Hnsp. by apply Hsc.
Qed.
End protection.

(** ** Keys *)

Definition slash : ascii := "/"%char.
Fixpoint count_slashes (s : string) : nat :=
  match s with EmptyString => 0 | String c s' => (if decide (c = slash) then 1 else 0) + count_slashes s' end.

Lemma count_slashes_app a b : count_slashes (a +:+ b) = count_slashes a + count_slashes b.
Proof. induction a as [|c a IH]; [done|]. cbn. rewrite IH. lia. Qed.

(** A text is cut at its first slash in one way. *)
Lemma cut_at_slash a b r r' : count_slashes a = 0 -> count_slashes b = 0 ->
  a +:+ "/" +:+ r = b +:+ "/" +:+ r' -> a = b /\ r = r'.
Proof.
  revert b. induction a as [|c a IH]; intros [|d b] Ha Hb Heq; cbn in *.
  - by injection Heq.
  - injection Heq as <- _. rewrite decide_True in Hb by done. done.
  - injection Heq as -> _. rewrite decide_True in Ha by done. done.
  - injection Heq as -> Heq. destruct (decide (d = slash)); [done|]. destruct (IH b Ha Hb Heq) as [-> ->]. done.
Qed.

(** A key directory is found in the path of a key only under the name and the
    type of that key. *)
Lemma key_dir_in_path name type file name' type' :
  count_slashes name = 0 -> count_slashes type = 0 -> count_slashes file = 0 -> count_slashes type' = 0 ->
  Contains ("/" +:+ name +:+ "/" +:+ type +:+ "/" +:+ file) ("/" +:+ name' +:+ "/" +:+ type' +:+ "/") = true ->
  name' = name /\ type' = type.
Proof.
  intros Hn Ht Hf Ht' (a & b & Heq)%Contains_spec. pose proof (f_equal count_slashes Heq) as Hc.
  rewrite !str_app_assoc in Heq. rewrite !count_slashes_app, Hn, Ht, Hf, Ht' in Hc. cbn in Hc.
  apply (cut_at_slash "" a) in Heq as [<- Heq]; [|done|lia].
  apply cut_at_slash in Heq as [<- Heq]; [|done|lia]. by apply cut_at_slash in Heq as [<- _].
Qed.

Definition class_type (c : key_class) : string := match c with KeyPGP => SignatureTypePGP | KeyX509 => SignatureTypeX509 end.

Lemma classify_own name file c cands : count_slashes name = 0 -> count_slashes file = 0 -> name ∈ cands ->
  classify ("/" +:+ name +:+ "/" +:+ class_type c +:+ "/" +:+ file) cands = Some c.
Proof.
  intros Hn Hf Hin. assert (count_slashes (class_type c) = 0) as Hc by (by destruct c).
  induction cands as [|name' cands IH]; [by apply elem_of_nil in Hin|]. cbn [classify].
  destruct (Contains _ ("/" +:+ name' +:+ "/" +:+ SignatureTypePGP +:+ "/")) eqn:Ep.
  { apply key_dir_in_path in Ep as [_ Hp]; try done. by destruct c. }
  destruct (Contains _ ("/" +:+ name' +:+ "/" +:+ SignatureTypeX509 +:+ "/")) eqn:Ex.
  { apply key_dir_in_path in Ex as [_ Hx]; try done. by destruct c. }
  apply IH. apply elem_of_cons in Hin as [<-|Hin]; [|done]. exfalso.
  assert (Contains ("/" +:+ name +:+ "/" +:+ class_type c +:+ "/" +:+ file) ("/" +:+ name +:+ "/" +:+ class_type c +:+ "/") = true) as Hcon.
  { apply HasPrefix_Contains, HasPrefix_spec. exists file. by rewrite !str_app_assoc. }
  destruct c; cbn [class_type] in *; congruence.
Qed.

Section keys.
Context `{K8sStructs, !OperatorLibs}.

(** The key is in the pod: a volume with the secret of the key is mounted where
    the path leads. *)
Definition mounted (cr : IntegrityShield) (es : EsConfig) (kc : KeyConfig) (path : string) : Prop :=
  exists vm vol, vm ∈ server_mounts cr /\ vol ∈ pod_volumes cr es /\ vm_Name vm = vol_Name vol /\
    vol_Source vol = SecretSource (kc_SecretName kc) 420 /\ HasPrefix path (vm_MountPath vm) = true.

Lemma key_mounted cr ec es kc path :
  kc ∈ iss_KeyConfig (is_Spec cr) -> key_path kc = Some path -> mounted (set_ShieldConfig cr ec) es kc path.
Proof.
  intros Hin Hp. exists (key_mount kc), (SecretVolume (kc_Name kc) (kc_SecretName kc)). split; [|split; [|split; [|split]]]; [| |done|done|].
  - apply elem_of_app. right. by apply list_elem_of_fmap_2.
  - unfold pod_volumes. rewrite !elem_of_app. right. left.
    by apply (list_elem_of_fmap_2 (fun keyConf => SecretVolume (kc_Name keyConf) (kc_SecretName keyConf))).
  - unfold key_path in Hp. apply HasPrefix_spec. unfold key_mount. cbn [vm_MountPath].
    destruct (bool_decide (key_type kc = SignatureTypePGP)).
    + injection Hp as <-. eexists. by rewrite !str_app_assoc.
    + destruct (bool_decide (key_type kc = SignatureTypeX509)); [|done]. injection Hp as <-. exists "". by rewrite str_app_nil_r.
Qed.

Lemma key_path_shape kc c : key_type kc = class_type c -> count_slashes (kc_FileName kc) = 0 ->
  exists file, count_slashes file = 0 /\ key_path kc = Some ("/" +:+ kc_Name kc +:+ "/" +:+ class_type c +:+ "/" +:+ file).
Proof.
  intros Ht Hf. unfold key_path. rewrite Ht. destruct c; cbn [class_type].
  - rewrite bool_decide_true by done. eexists. split; [|reflexivity]. by destruct (bool_decide _).
  - rewrite bool_decide_false, bool_decide_true by done. exists "". by split.
Qed.

End keys.

(** ** Roll-outs *)

Section rollout.
Context `{K8sStructs, !OperatorLibs}.

Definition sidecars (cr : IntegrityShield) : nat :=
  (if default false (lgc_Enabled (iss_Logger (is_Spec cr))) then 1 else 0) +
  (if default false (obc_Enabled (iss_Observer (is_Spec cr))) then 1 else 0).

(** The parts of a resource that reach a deployment which exists already. *)
Record same_deployment (cr1 cr2 : IntegrityShield) : Prop := {
  sd_labels : iss_MetaLabels (is_Spec cr1) = iss_MetaLabels (is_Spec cr2);
  sd_selector : iss_SelectorLabels (is_Spec cr1) = iss_SelectorLabels (is_Spec cr2);
  sd_account : GetServiceAccountName cr1 = GetServiceAccountName cr2;
  sd_sidecars : sidecars cr1 = sidecars cr2;
  sd_name : srv_Name (iss_Server (is_Spec cr1)) = srv_Name (iss_Server (is_Spec cr2));
  sd_image : srv_Image (iss_Server (is_Spec cr1)) = srv_Image (iss_Server (is_Spec cr2));
  sd_pull : srv_ImagePullPolicy (iss_Server (is_Spec cr1)) = srv_ImagePullPolicy (iss_Server (is_Spec cr2));
  sd_context : srv_SecurityContext (iss_Server (is_Spec cr1)) = srv_SecurityContext (iss_Server (is_Spec cr2));
  sd_port : srv_Port (iss_Server (is_Spec cr1)) = srv_Port (iss_Server (is_Spec cr2));
  sd_mounts : server_mounts cr1 = server_mounts cr2;
  sd_env : server_env cr1 = server_env cr2
}.

Lemma EqualContainers_server cr1 cr2 :
  EqualContainers (server_container cr1) (server_container cr2) = true <->
  srv_Name (iss_Server (is_Spec cr2)) = srv_Name (iss_Server (is_Spec cr1)) /\
  srv_Image (iss_Server (is_Spec cr2)) = srv_Image (iss_Server (is_Spec cr1)) /\
  srv_ImagePullPolicy (iss_Server (is_Spec cr2)) = srv_ImagePullPolicy (iss_Server (is_Spec cr1)) /\
  server_mounts cr2 = server_mounts cr1 /\
  srv_SecurityContext (iss_Server (is_Spec cr2)) = srv_SecurityContext (iss_Server (is_Spec cr1)) /\
  srv_Port (iss_Server (is_Spec cr2)) = srv_Port (iss_Server (is_Spec cr1)) /\ server_env cr2 = server_env cr1.
Proof.
  unfold EqualContainers, server_container. cbn. rewrite !andb_true_iff, !bool_decide_eq_true.
  split; [intros [[[[[[[? ?] ?] ?] ?] ?] _] ?]|intros (-> & -> & -> & -> & -> & -> & ->)]; [|done].
  repeat split; congruence.
Qed.

(** A changed resource is rolled out to an existing deployment exactly when
    one of these parts changed; the number of replicas, the images and settings of
    the logger and the observer, volumes and resources are not among them. *)
Theorem deployment_change_detected cr1 cr2 e1 e2 :
  BuildDeploymentForIShield cr1 = Ret e1 -> BuildDeploymentForIShield cr2 = Ret e2 ->
  dep_good e1 e2 = true <-> same_deployment cr1 cr2.
Proof.
  unfold BuildDeploymentForIShield. destruct (lgc_EsConfig (iss_Logger (is_Spec cr1))) as [es1|], (lgc_HttpConfig (iss_Logger (is_Spec cr1))) as [h1|]; try done.
  destruct (lgc_EsConfig (iss_Logger (is_Spec cr2))) as [es2|], (lgc_HttpConfig (iss_Logger (is_Spec cr2))) as [h2|]; try done.
  intros [= <-] [= <-]. unfold dep_good, EqualDeployments, EqualPods, EqualLabels, EqualAnnotations. cbn [o_body o_meta km_Labels meta dep_Template
    pt_Labels pt_Annotations pt_ServiceAccountName pt_Containers app].
  assert (forall cr es h, length (server_container cr :: (if default false (lgc_Enabled (iss_Logger (is_Spec cr))) then [logger_container cr es h] else []) ++
    (if default false (obc_Enabled (iss_Observer (is_Spec cr))) then [observer_container cr] else [])) = S (sidecars cr)) as Hlen.
  { intros cr es h. unfold sidecars. cbn. rewrite length_app. by repeat destruct (default false _). }
  rewrite !Hlen. split.
  - repeat (match goal with |- context [negb ?b] => destruct b eqn:?; cbn [negb] end; [|done]). intros Heq%EqualContainers_server.
    bool_prop. match goal with E : Nat.eqb _ _ = true |- _ => apply Nat.eqb_eq in E; injection E as E end.
    destruct Heq as (? & ? & ? & ? & ? & ? & ?). by split.
  - intros []. rewrite !bool_decide_true by done. cbn [negb]. rewrite (proj2 (Nat.eqb_eq _ _)) by congruence. cbn [negb].
    apply EqualContainers_server. by repeat split.
Qed.
End rollout.

(** ** Certificates *)

Section certificates.
Context `{KubeApiOk, !OperatorLibs, !OperatorFS, !ControllerLibs, !CertLib, !OwnerOk}.
#[local] Set Default Proof Using "Type*".

Definition tls_data (ca key crt : option string) : gmap string (option string) :=
  <["ca.crt" := ca]> (<["tls.key" := key]> (<["tls.crt" := crt]> (<["tls.crt" := None]> (<["tls.key" := None]> {["ca.crt" := None]})))).

(** A new TLS secret holds a certificate for the name under which the webhook
    reaches the server, issued by the authority stored with it; only when no
    certificate could be made are its entries empty. *)
Theorem tls_secret_for_webhook instance s o s' sec :
  createOrUpdateTlsSecret instance s = Ret (o, s') -> view s !! tls_key instance = None -> view s' !! tls_key instance = Some sec ->
  exists m ca key crt, sec = stored_as (mkObj m (BSecret (tls_data ca key crt) "kubernetes.io/tls")) /\
    ((exists caP keyP crtP, ca = Some caP /\ key = Some keyP /\ crt = Some crtP /\
        forall e wh, BuildMutatingWebhookConfigurationForIShield instance = Ret e -> o_body e = BWebhook [wh] ->
          certifies (wh_ServiceName wh +:+ "." +:+ wh_ServiceNamespace wh +:+ ".svc") caP keyP crtP) \/
     (ca = None /\ key = None /\ crt = None /\
      exists draw clock err, GenerateCert (GetWebhookServiceName instance) (is_Namespace instance) draw clock = Err err)).
Proof.
  unfold createOrUpdateTlsSecret, createOrUpdateCertSecret. destruct (SetControllerReference _ _) as [m|e] eqn:Eo.
  2:{ intros [= _ <-] Hn Hs. congruence. }
  intros (r & s1 & [= Hg] & Hq)%ST_bind_Ret Hn Hs. match type of Hg with kget ?k _ = _ => pose proof (kget_ok k s) as Hgo end.
  rewrite Hg in Hgo. destruct Hgo as [Hv _]. apply ST_bind_Ret in Hq as (e' & s2 & Ha & Hq).
  pose proof (addCertValues_spec _ _ _ _ _ Ha) as [-> Hk]. unfold addCertValues in Ha. cbn [o_body BuildTlsSecretForIShield o_meta] in Ha.
  destruct r as [f|[| |msg]]; try (injection Hq as _ <-; congruence).
  apply ST_bind_Ret in Hq as (c & s3 & [= Hc] & Hq). assert (s3 = s') as -> by (by injection Hq). clear Hq.
  pose proof (kcreate_ok e' s1) as Hco. rewrite Hc in Hco. destruct c as [[]|[| |msg]]; [|rewrite Hco in Hs; congruence|destruct Hco as [_ Hco]; rewrite Hco in Hs; congruence|rewrite Hco in Hs; congruence].
  destruct Hco as [_ Hco]. rewrite Hk, (owned_key _ _ _ Eo) in Hco. rewrite Hco, lookup_insert_eq in Hs. injection Hs as <-.
  destruct (GenerateCert _ _ _ _) as [[[ca key] crt]|err] eqn:Eg; injection Ha as <-.
  - exists m, (Some ca), (Some key), (Some crt). split; [done|]. left. exists ca, key, crt. split; [done|]. split; [done|]. split; [done|].
    intros e wh He Hb. apply GenerateCert_certifies in Eg. revert He. unfold BuildMutatingWebhookConfigurationForIShield.
    destruct (iss_ShieldConfig _); [|done]. intros [= <-]. cbn in Hb. injection Hb as <-. done.
  - exists m, None, None, None. split; [done|]. right. split; [done|]. split; [done|]. split; [done|]. eauto.
Qed.
End certificates.
