(* ===== verification/Deployed.v ===== *)
(** * The processes of an installation together

    The operator starts the server and the observer with an environment and a
    shared volume.  Here the three programs are put together: which configuration
    the server loads and how often, where the observer looks for the server's log,
    and what the observer's counts say about the server's decisions. *)
From S2P Require Import Prelude GoStrings GoJson MapNode Common ReqContext ShieldConfig Signing World CheckContext.
From S2P Require Import Server GoState ContextLog Observer OperatorTypes KubeObjects OperatorResources.
From stdpp Require Import options.

(** [os.Getenv] in a container that was started with these variables. *)
Definition container_env `{K8sStructs} (c : Container) (name : string) : string :=
  match List.find (fun ev => bool_decide (ev_Name ev = name)) (default [] (ctr_Env c)) with
  | Some ev => ev_Value ev
  | None => ""
  end.

Section deployed.
Context `{K8sStructs, !OperatorLibs}.

(** A deployed server and the observer next to it load the shield
    configuration the operator installs; the server looks for a change of it every
    twenty seconds, whatever interval is configured in the custom resource. *)
Theorem deployed_server_config cr sch Getenv paths cfg filled :
  BuildShieldConfigForIShield cr sch Getenv paths = Ret (cfg, filled) ->
  (-2147483648 <= srv_ShieldCmReloadSec (iss_Server (is_Spec cr)) <= 2147483647)%Z ->
  let senv := container_env (server_container filled) in
  let observer := NewIntegrityShieldObserver (container_env (observer_container filled)) in
  okey_of cfg = ("ShieldConfig", senv "SHIELD_NS", senv "SHIELD_CONFIG_NAME") /\
  okey_of cfg = ("ShieldConfig", ol_IShiledNamespace (ob_loader observer), ol_ShieldConfigName (ob_loader observer)) /\
  reload_interval (senv "SHIELD_CM_RELOAD_SEC") = 20%Z.
Proof.
  intros (ec0 & ec & cond & _ & -> & -> & _)%BuildShieldConfig_shape Hr senv observer. split; [done|]. split; [done|].
  apply (reload_interval_default (H1 := senv)). right. exists (srv_ShieldCmReloadSec (iss_Server (is_Spec cr))).
  apply Atoi_FormatInt. unfold int64_min, int64_max. cbn. lia.
Qed.

(** The observer reads the file the server writes its context log to, unless
    the configuration names another one, and both see it on the same volume. *)
Theorem observer_reads_server_log cr ec :
  (forall lc, cfg_Log ec = Some lc -> lg_ContextLogFile lc = "") ->
  let file := lg_ContextLogFile (LogConfig ec) in
  ob_EventsFilePath (NewIntegrityShieldObserver (container_env (observer_container cr))) = file /\
  exists vm dir_rest, HasPrefix file (vm_MountPath vm) = true /\ file = vm_MountPath vm +:+ dir_rest /\
    (forall c, c ∈ [server_container cr; observer_container cr] -> exists mounts, ctr_VolumeMounts c = Some mounts /\ vm ∈ mounts).
Proof.
  intros Hlog file. assert (file = "/ishield-app/public/events.txt") as ->.
  { unfold file, LogConfig. destruct (cfg_Log ec) as [lc|]; cbn; [by rewrite (Hlog lc)|done]. }
  split; [done|]. exists (mkVolumeMount "/ishield-app/public" "log-volume" false), "/events.txt". split; [done|]. split; [done|].
  intros c Hc. exists (server_mounts cr). rewrite !elem_of_cons, elem_of_nil in Hc.
  destruct Hc as [->|[->|[]]]; (split; [done|]); apply elem_of_app; left; right; right; left.
Qed.
End deployed.

(** ** Counting decisions *)

(** What a reader of a line sees of a logged value; byte strings are encoded. *)
Definition logged (v : logval) : option value :=
  match v with
  | LStr s => Some (VScalar (SStr s))
  | LBool b => Some (VScalar (SBool b))
  | LBytes _ => None
  end.

(** A line with the record of a decision decodes to an object with its fields. *)
Definition line_of (record : list (string * logval)) (line : string) : Prop :=
  exists m, UnmarshalMap line = Some m /\
    forall k v x, MapNode.assoc k record = Some v -> logged v = Some x -> MapNode.assoc k m = Some x.

Record decision := mkDecision { d_ctx : CheckContext; d_reqc : ReqContext; d_time : string }.
Definition record_of (d : decision) : list (string * logval) := convertToLogRecord (d_ctx d) (d_reqc d) (d_time d).

Lemma allowed_recorded d : MapNode.assoc "allowed" (record_of d) = Some (LBool (ctx_Allow (d_ctx d))).
Proof. reflexivity. Qed.

(** Over lines of the context log, the observer counts each decision once and, as
    denied, exactly those that denied. *)
Lemma counts_of_lines (ds : list decision) lines :
  Forall2 (fun d => line_of (record_of d)) ds lines ->
  count_events (readEventLines lines) = length ds /\
  count_denied (readEventLines lines) = length (List.filter (fun d => negb (ctx_Allow (d_ctx d))) ds).
Proof.
  intros Hl. assert (omap event_allowed (readEventLines lines) = (fun d => ctx_Allow (d_ctx d)) <$> ds) as Heq.
  { unfold readEventLines. induction Hl as [|d line ds lines (m & Hm & Hf) _ IH]; [done|]. cbn [omap list_omap]. rewrite Hm.
    cbn [omap list_omap]. unfold event_allowed at 1. rewrite (Hf "allowed" _ _ (allowed_recorded d) eq_refl). cbn. by f_equal. }
  unfold count_events, count_denied. rewrite Heq. split; [by rewrite length_fmap|].
  clear. induction ds as [|d ds IH]; [done|]. cbn. destruct (ctx_Allow (d_ctx d)); cbn; [done|by f_equal].
Qed.

(** The lines a log keeps are the newest ones. *)
Lemma kept_lines limit lines :
  exists k, foldl (log_append limit) [] lines = drop k lines /\ ((Z.of_nat (slen (unlines lines)) <= limit)%Z -> k = 0).
Proof.
  destruct (decide (Z.of_nat (slen (unlines lines)) <= limit)%Z) as [Hl|Hl].
  - exists 0. by rewrite log_append_fits.
  - destruct (log_append_suffix limit [] lines) as [old Hold]. cbn [app] in Hold. exists (length old). split; [|done].
    rewrite Hold at 2. by rewrite drop_app_length.
Qed.

Section counting.
Context `{K8sStructs, !OperatorLibs} (marshal : list (string * logval) -> string).

End counting.
