(* ===== verification/OperatorSamples.v ===== *)
(** * Installations evaluated from end to end

    A store of objects that satisfies the laws of the API server, a custom
    resource, and the theorems about the operator applied to them. *)
From S2P Require Import ContextLog.
From S2P Require Import Prelude GoStrings GoJson MapNode Common ReqContext Profile SigningProfile Policy ShieldConfig Signing World CheckContext.
From S2P Require Import Server GoState Observer OperatorTypes KubeObjects OperatorResources Certificates Controller ControllerFacts.
From S2P Require Import ControllerLiveness OperatorFacts Deployed.
From stdpp Require Import options.

(** ** A store *)

#[export] Instance sample_structs : K8sStructs := {| kstruct := string |}.

Record store := mkStore { st_objects : gmap (string * string * string) kobj; st_clock : Z }.
Definition well_keyed (kv : (string * string * string) * kobj) : Prop := okey_of kv.2 = kv.1.
#[export] Instance well_keyed_dec kv : Decision (well_keyed kv) := decide (okey_of kv.2 = kv.1).
Definition contents (s : store) : gmap (string * string * string) kobj := filter well_keyed (st_objects s).
Definition with_objects (s : store) (m : gmap (string * string * string) kobj) : store := mkStore m (st_clock s).

#[export] Instance store_api : KubeApi := {|
  kstate := store;
  kget k s := (match contents s !! k with Some o => KOk o | None => KErr NotFound end, s);
  kcreate o s := match contents s !! okey_of o with
                 | Some _ => (KErr AlreadyExists, s)
                 | None => (KOk tt, with_objects s (<[okey_of o := o]> (st_objects s)))
                 end;
  kupdate o s := match contents s !! okey_of o with
                 | Some _ => (KOk tt, with_objects s (<[okey_of o := o]> (st_objects s)))
                 | None => (KErr NotFound, s)
                 end;
  kdelete k s := match contents s !! k with
                 | Some _ => (KOk tt, with_objects s (delete k (st_objects s)))
                 | None => (KErr NotFound, s)
                 end;
  ktime s := (st_clock s, mkStore (st_objects s) (st_clock s + 1))
|}.

Lemma contents_insert s o : contents (with_objects s (<[okey_of o := o]> (st_objects s))) = <[okey_of o := o]> (contents s).
Proof. unfold contents. cbn. by rewrite map_filter_insert_True. Qed.

Lemma contents_key s k o : contents s !! k = Some o -> okey_of o = k.
Proof. unfold contents. by intros [_ ?]%map_lookup_filter_Some. Qed.

#[export] Program Instance store_ok : KubeApiOk := {| view := contents; stored_as o := o |}.
Next Obligation. done. Qed.
Next Obligation. intros s k o. apply contents_key. Qed.
Next Obligation. intros k s. cbn. split; [done|]. by destruct (contents s !! k). Qed.
Next Obligation.
  intros o s. cbn. destruct (contents s !! okey_of o) eqn:E; [by split; [eexists|]|]. split; [done|]. apply contents_insert.
Qed.
Next Obligation.
  intros o s. cbn. destruct (contents s !! okey_of o) eqn:E; [|done]. split; [by eexists|]. apply contents_insert.
Qed.
Next Obligation. intros k s. cbn. destruct (contents s !! k); [|done]. unfold contents. cbn. apply map_filter_delete. Qed.
Next Obligation. done. Qed.

#[export] Instance store_up : KubeApiUp.
Proof.
  split; cbn.
  - by intros k s o ->.
  - by intros k s ->.
  - by intros o s ->.
  - by intros o s [x ->].
  - by intros k s [x ->].
Qed.

#[export] Instance store_libs : ControllerLibs := {|
  SetControllerReference instance m :=
    Ok (mkKMeta (km_Name m) (km_Namespace m) (km_Labels m) (km_Annotations m) (is_Name instance :: km_OwnerReferences m) (km_ResourceVersion m));
  spec_DeepEqual a b := bool_decide (kind_of a = kind_of b);
  draw_of s := Z.to_nat (st_clock s);
  clock_of s n := (st_clock s + Z.of_nat n)%Z
|}.

#[export] Instance store_owner : OwnerOk.
Proof. by intros i m m' [= <-]. Qed.
#[export] Instance store_owner_up : OwnerUp.
Proof. intros i m. by eexists. Qed.

Lemma EqualContainers_refl c : EqualContainers c c = true.
Proof. unfold EqualContainers. by rewrite !bool_decide_true. Qed.

#[export] Instance store_admits : AdmitsDeployment.
Proof.
  intros m spec n Hc. exists m, spec, n. split; [done|]. unfold EqualDeployments, EqualPods, EqualLabels, EqualAnnotations.
  rewrite !bool_decide_true, Nat.eqb_refl by done. cbn. destruct (pt_Containers _) as [|c l]; [done|]. by rewrite EqualContainers_refl.
Qed.

(** The other parameters: no files apart from a token, no preset profiles, keys
    that are numbers. *)
Definition sample_token : string := "header.claims.signature".
#[export] Instance sample_libs : OperatorLibs := {|
  ReadFile path := if bool_decide (path = SATokenPath) then Ok sample_token else Err "no such file";
  DecodeSegment seg := Err "illegal base64 data";
  filepath_Clean path := path;
  yaml_CommonProfile s := (None, None);
  yaml_WebhookRules s := [];
  YAMLToJSON s := Err "no yaml";
  marshal_CR cr := Err "not marshalled";
  StrategicMergePatch a b := Err "not merged";
  unmarshal_CR s := Err "not a resource"
|}.
#[export] Instance sample_fs : OperatorFS := {|
  Stat_IsNotExist path := false; Getwd := "/"; filepath_Join l := Join l "/"; ReadDir path := ["README.md"] |}.
#[export] Instance sample_certs : CertLib := {|
  rsa_key := nat; rsa_public := nat; PublicKey k := k; rsa_GenerateKey draw := Ok draw;
  CreateCertificate draw cert parent pub key := Ok (ct_CommonName cert +:+ " by " +:+ ct_CommonName parent);
  pem_Encode type bytes := Ok (type +:+ ":" +:+ bytes);
  MarshalPKCS1PrivateKey k := Itoa k;
  add_years t n := (t + n)%Z
|}.
Definition sample_scheme : scheme := fun t => Ok [mkGVK "group" "v1" (type_kind t)].
Definition sample_getenv (name : string) : string :=
  if bool_decide (name = "POD_NAME") then "integrity-shield-operator-abc-12" else "shield-ns".

(** ** A custom resource *)

Definition no_rule : AdmRule := mkAdmRule ["*"] ["*"] ["*"] None.
Definition empty_config (plugins : list PluginConfig) : ShieldConfig :=
  mkShieldConfig None None None [] [] "enforce" plugins None "" "" "" [] "" "" "" None "" "" "" "" [].
Definition sample_key : KeyConfig := mkKeyConfig "sample-signer" "" "keyring-secret" "".
Definition sample_profile : ProfileConfig :=
  mkProfileConfig (Some (mkRSPSpec false None [] [] [] [] [] [] [])) "sample-rsp".

Definition sample_spec (replicas : Z) (loggerImage : string) : IntegrityShieldSpec :=
  {| iss_MaxSurge := None; iss_MaxUnavailable := None; iss_ReplicaCount := Some replicas;
     iss_MetaLabels := Some {["app" := "ishield"]}; iss_SelectorLabels := Some {["app" := "ishield"]}; iss_NodeSelector := None;
     iss_Affinity := None; iss_Tolerations := []; iss_ImagePullSecrets := []; iss_IgnoreDefaultIShieldCR := true;
     iss_Security := mkSecurityConfig "ishield-sa" "ishield-scc" "ishield-cr" "ishield-crb" "ishield-psp" None [] false;
     iss_KeyConfig := [sample_key];
     iss_Server := mkServerContainer "server" None "Always" "server:1" 8443 "" "" true 60 60;
     iss_Logger := mkLoggerContainer (Some true) "logger" None "Always" loggerImage true (Some (mkHttpConfig false "")) ""
                     (Some (mkEsConfig false "" "" 9200 false "" "" "" "")) "";
     iss_Observer := mkObserverContainer (Some true) "observer" None "Always" "observer:1" "";
     iss_RegKeySecret := mkRegKeySecret "" ""; iss_ShieldConfigCrName := "ishield-config";
     iss_ShieldConfig := Some (empty_config [mkPluginConfig "helm" true]);
     iss_IgnoreRules := []; iss_IgnoreAttrs := []; iss_SignerConfig := None;
     iss_ResourceSigningProfiles := [sample_profile];
     iss_WebhookServerTlsSecretName := "ishield-tls"; iss_WebhookServiceName := "ishield-server";
     iss_WebhookConfigName := "ishield-webhook"; iss_WebhookNamespacedResource := no_rule; iss_WebhookClusterResource := no_rule |}.

Definition sample_cr (deletion : option Z) : IntegrityShield :=
  mkIntegrityShield "IntegrityShield" "apis.integrityshield.io/v1alpha1" "ishield" "shield-ns" [CleanupFinalizerName] deletion
    (sample_spec 1 "logger:1").

Definition cr_meta : KMeta := meta "ishield" "shield-ns" None.
Definition key_secret : kobj := mkObj (meta "keyring-secret" "shield-ns" None) (BSecret {["pubring.gpg" := Some "key"]} "Opaque").
Definition put (o : kobj) (m : gmap (string * string * string) kobj) : gmap (string * string * string) kobj := <[okey_of o := o]> m.
Definition requested_store (deletion : option Z) : store :=
  mkStore (put (mkObj cr_meta (BIntegrityShield (sample_cr deletion))) (put key_secret ∅)) 100.

Notation sample_build := (BuildShieldConfigForIShield (sample_cr None) (Some sample_scheme) sample_getenv getCommonProfilesPath).
Definition built : kobj * IntegrityShield :=
  match sample_build with Ret b => b | Panic => (key_secret, sample_cr None) end.
Definition built_deployment_obj : kobj := match BuildDeploymentForIShield built.2 with Ret e => e | Panic => key_secret end.
Notation sample_dep_key := (deployment_key (H := sample_structs) built.2).

(** The pods of the deployment come up between two calls. *)
Definition come_up (o : kobj) : kobj :=
  match o_body o with BDeployment spec _ => mkObj (o_meta o) (BDeployment spec 1) | _ => o end.
Definition sample_env (s : store) : store := with_objects s (alter come_up sample_dep_key (st_objects s)).

Lemma sample_builds : builds sample_getenv (Some sample_scheme) built_deployment_obj sample_dep_key (effective (sample_cr None)) true built.1 built.2.
Proof. split; [reflexivity|vm_compute; reflexivity|repeat constructor; by eexists|vm_compute; reflexivity|reflexivity]. Qed.

Lemma come_up_key o : okey_of (come_up o) = okey_of o.
Proof. unfold come_up. by destruct o as [m []]. Qed.

Lemma contents_lookup s k : contents s !! k = (st_objects s !! k ≫= fun o => if decide (okey_of o = k) then Some o else None).
Proof.
  unfold contents. rewrite map_lookup_filter. destruct (st_objects s !! k) as [o|]; [|done]. cbn. unfold guard, well_keyed. cbn.
  by destruct (decide _).
Qed.

Lemma sample_pods : pods_come_up built_deployment_obj sample_dep_key sample_env.
Proof.
  split.
  - intros s k Hk _. cbn [view store_ok]. rewrite !contents_lookup. cbn. by rewrite lookup_alter_ne.
  - intros s. cbn [view store_ok]. rewrite !contents_lookup. unfold sample_env. cbn [st_objects with_objects]. rewrite lookup_alter_eq.
    destruct (st_objects s !! sample_dep_key) as [o|] eqn:E; [|done]. cbn. rewrite come_up_key.
    destruct (decide (okey_of o = sample_dep_key)) as [Hk|Hk]; [|done]. exists (come_up o). split; [done|].
    destruct o as [m b]. unfold okey_of in Hk. cbn in Hk. destruct b; try done. split; [done|]. by exists spec, 1%Z.
Qed.

(** ** Installation and removal *)

Notation sample_rounds := (reconcile_until sample_getenv (Some sample_scheme) "shield-ns" "ishield" sample_env).
Notation sample_reconcile := (Reconcile sample_getenv (Some sample_scheme) "shield-ns" "ishield").
Definition state_of (r : go (outcome * store)) : store := match r with Ret (_, s) => s | Panic => requested_store None end.
Definition installed_store : store := Eval vm_compute in state_of (sample_rounds 40 (requested_store None)).

Definition cr_of (deletion : option Z) : kobj := mkObj cr_meta (BIntegrityShield (sample_cr deletion)).
Lemma sample_requested : requested built_deployment_obj sample_dep_key (sample_cr None) cr_meta "shield-ns" "ishield" (requested_store None).
Proof. split; [vm_compute; reflexivity|]. intros k ->%list_elem_of_singleton. vm_compute. reflexivity. Qed.

(** One round for each object of the sample, and the last one. *)
Example rounds_taken :
  (match sample_rounds 22 (requested_store None) with Ret (o, _) => cr_Requeue o.1 | Panic => false end,
   match sample_rounds 23 (requested_store None) with Ret (o, _) => cr_Requeue o.1 | Panic => true end,
   length (install_keys sample_dep_key true built.1 built.2)) = (true, false, 22).
Proof. vm_compute. reflexivity. Qed.


Definition deleting_store : @kstate _ store_api := with_objects installed_store (put (cr_of (Some 5%Z)) (st_objects installed_store)).


Definition unregistered_store : @kstate _ store_api := with_objects installed_store (delete (webhook_key built.2) (st_objects installed_store)).


(** ** What the installation gives the server *)

Lemma sample_scheme_knows : knows_types sample_scheme.
Proof. by intros []. Qed.

Lemma installed_objects_protected_witness : exists ec cond,
  o_body built.1 = BShieldConfig (Some ec) /\ cfg_IShieldResourceCondition ec = Some cond /\
  forall k apiVersion, k ∈ install_keys sample_dep_key true built.1 built.2 ->
    IsServerResource cond (key_ref apiVersion k) = true <-> key_kind k ∉ unlisted.
Proof.
  apply (installed_objects_protected (sample_cr None) sample_scheme sample_getenv true built.1 built.2 sample_scheme_knows); [discriminate|].
  vm_compute. reflexivity.
Defined.

Definition signer : SignerCondition := mkSignerCondition "signer" "sample-signer" [].
Definition signer_config : SignerConfig :=
  mkSignerConfig [mkSignerConfigCondition ScopeUndefined ["secure-ns"] [] ["signer"]] [signer] [] "".
Definition sample_es : EsConfig := mkEsConfig false "" "" 9200 false "" "" "" "".


(** Another number of replicas and another logger. *)
Definition scaled_cr : IntegrityShield :=
  mkIntegrityShield "IntegrityShield" "apis.integrityshield.io/v1alpha1" "ishield" "shield-ns" [CleanupFinalizerName] None
    (sample_spec 3 "logger:2").
Definition deployment_of (cr : IntegrityShield) : kobj := match BuildDeploymentForIShield cr with Ret e => e | Panic => key_secret end.

Lemma deployment_change_detected_witness :
  dep_good (deployment_of scaled_cr) (deployment_of (sample_cr None)) = true.
Proof. apply (deployment_change_detected scaled_cr (sample_cr None)); [reflexivity|reflexivity|]. by split. Defined.

Lemma tls_secret_for_webhook_witness : exists sec m ca key crt,
  sec = stored_as (mkObj m (BSecret (tls_data ca key crt) "kubernetes.io/tls")) /\
    ((exists caP keyP crtP, ca = Some caP /\ key = Some keyP /\ crt = Some crtP /\
        forall e wh, BuildMutatingWebhookConfigurationForIShield built.2 = Ret e -> o_body e = BWebhook [wh] ->
          certifies (wh_ServiceName wh +:+ "." +:+ wh_ServiceNamespace wh +:+ ".svc") caP keyP crtP) \/
     (ca = None /\ key = None /\ crt = None /\
      exists draw clock err, GenerateCert (GetWebhookServiceName built.2) (is_Namespace built.2) draw clock = Err err)).
Proof.
  set (s0 := requested_store None : @kstate _ store_api).
  assert (match createOrUpdateTlsSecret built.2 s0 with
          | Ret (_, s') => match view s' !! tls_key built.2 with Some _ => true | None => false end
          | Panic => false
          end = true) as Hr by (vm_compute; reflexivity).
  destruct (createOrUpdateTlsSecret built.2 s0) as [[o s']|] eqn:E; [|discriminate Hr].
  destruct (view s' !! tls_key built.2) as [sec|] eqn:Es; [|discriminate Hr]. exists sec.
  apply (tls_secret_for_webhook built.2 s0 o s' sec); [exact E|vm_compute; reflexivity|exact Es].
Defined.

(** ** The processes together *)

Lemma deployed_server_config_witness :
  let senv := container_env (server_container built.2) in
  let observer := NewIntegrityShieldObserver (container_env (observer_container built.2)) in
  okey_of built.1 = ("ShieldConfig", senv "SHIELD_NS", senv "SHIELD_CONFIG_NAME") /\
  okey_of built.1 = ("ShieldConfig", ol_IShiledNamespace (ob_loader observer), ol_ShieldConfigName (ob_loader observer)) /\
  reload_interval (senv "SHIELD_CM_RELOAD_SEC") = 20%Z.
Proof.
  apply (deployed_server_config (sample_cr None) (Some sample_scheme) sample_getenv getCommonProfilesPath); [vm_compute; reflexivity|].
  cbn. lia.
Defined.

Lemma observer_reads_server_log_witness :
  let file := lg_ContextLogFile (LogConfig (empty_config [])) in
  ob_EventsFilePath (NewIntegrityShieldObserver (container_env (observer_container built.2))) = file /\
  exists vm dir_rest, HasPrefix file (vm_MountPath vm) = true /\ file = vm_MountPath vm +:+ dir_rest /\
    (forall c, c ∈ [server_container built.2; observer_container built.2] -> exists mounts, ctr_VolumeMounts c = Some mounts /\ vm ∈ mounts).
Proof. apply (observer_reads_server_log built.2 (empty_config [])). discriminate. Defined.

(** A line of the log, as the JSON encoder writes a record. *)
Definition log_value (v : logval) : string :=
  match v with
  | LStr s => marshal_str s
  | LBool b => if b then "true" else "false"
  | LBytes None => "null"
  | LBytes (Some s) => marshal_str s
  end.
Definition log_line (record : list (string * logval)) : string :=
  "{" +:+ Join ((fun kv => marshal_str kv.1 +:+ ":" +:+ log_value kv.2) <$> record) "," +:+ "}".
Definition read_value (v : logval) : value := match logged v with Some x => x | None => VNull end.

Lemma assoc_read k record v x : MapNode.assoc k record = Some v -> logged v = Some x ->
  MapNode.assoc k ((fun kv => (kv.1, read_value kv.2)) <$> record) = Some x.
Proof.
  intros Ha Hl. induction record as [|[k' v'] record IH]; [done|]. cbn in *. destruct (bool_decide (k = k')); [|by apply IH].
  injection Ha as ->. unfold read_value. by rewrite Hl.
Qed.

Lemma line_reads record line :
  UnmarshalMap line = Some ((fun kv => (kv.1, read_value kv.2)) <$> record) -> line_of record line.
Proof. intros Hu. eexists. split; [exact Hu|]. intros k v x. apply assoc_read. Qed.

Definition sample_decision (allow : bool) : decision :=
  mkDecision (ctx_decide allow false 0 "a message" InitCheckContext)
    (mkReqContext "Namespaced" false (Some "{}") None "" "uid" "secure-ns" "cm" "" "v1" "ConfigMap" "CREATE" sample_meta sample_meta
       "" "" "cm" "user" [] "" "" "") "2021-01-01T00:00:00.000Z".

Definition logging_config : ShieldConfig :=
  mkShieldConfig None
    (Some (mkLoggingScopeConfig "info" false false false None (Some (mkLogScopeConfig true [] [])) "" "" "" 0)) None [] [] EnforceMode [] None
    "ishield" "ishield" "ishield" [] "" "" "" None "" "" "" "" [].

