(* ===== verification/Permissions.v ===== *)
(** * What the server asks of the API server, and what it may ask

    The operator defines the custom resources and gives the service account of the
    server its roles ([resources/crd.go], [resources/role.go]); the server and the
    observer, which runs in the same pod, ask for objects through their clients.
    Here the two meet: every resource that is asked for is defined, and which of the
    calls the roles allow. *)
From S2P Require Import Prelude GoStrings Common Profile SigningProfile Policy ShieldConfig Signing GoState.
From S2P Require Import ResourceSignature World RestClients OperatorTypes KubeObjects OperatorResources.
From S2P Require Import OperatorSamples.
From stdpp Require Import options.

(** ** Calls *)

(** The attributes a request is authorized by. *)
Record access := mkAccess { ac_verb : string; ac_group : string; ac_resource : string; ac_namespace : string }.

(** How Kubernetes reads the verb of a request to a resource. *)
Definition request_verb `{RestLib} {A} (rq : rest_request A) : string :=
  match rq_verb rq, rq_name rq with
  | GET, Some _ => "get"
  | GET, None => match rq_params rq with ListParams o => if lo_Watch o then "watch" else "list" | _ => "list" end
  | POST, _ => "create"
  | PUT, _ => "update"
  | PATCH _, _ => "patch"
  | DELETE, Some _ => "delete"
  | DELETE, None => "deletecollection"
  end.
Definition access_of `{RestLib} {A} (rq : rest_request A) : access :=
  mkAccess (request_verb rq) (default "" (fst <$> client_GroupVersion (rq_client rq))) (rq_resource rq) (rq_namespace rq).

Section calls.
Context `{RestLib}.
Context `{!Resource SignerConfigRes, !Resource ResourceSignature, !Resource ResourceSigningProfile, !Resource ShieldConfigRes,
          !Resource HelmReleaseMetadataRes}.

(** The calls of the server, the Helm plug-in and the observer for custom resources:
    [LoadProfiles], [LoadSignerConfigs] in the loaders and in [observer/loader.go],
    [LoadSignatures] in [resSigLoader.go], [ReadProfile] and [WriteStatus] in
    [updateRSPStatus], [ReadShieldConfig] in [LoadShieldConfig] and [observer/loader.go],
    [ReadReleaseMetadata] in [GetHelmReleaseMetadata], [ObserveSignatures] in
    [observer/loader.go]. *)
Inductive custom_call :=
| LoadProfiles
| LoadSignerConfigs
| LoadSignatures (namespace labelSelector : string)
| ReadProfile (namespace name : string)
| WriteStatus (namespace : string) (rsp : ResourceSigningProfile)
| ReadShieldConfig (name : string)
| ReadReleaseMetadata (namespace name : string)
| ObserveSignatures.

(** A request of some kind of object. *)
Definition any_request : Type := { A : Type & rest_request A }.
Definition any {A} (rq : rest_request A) : any_request := existT A rq.

(** The clients, made from one configuration. *)
Record clients := mkClients { cl_SignerConfig : rest_Interface; cl_ResourceSignature : rest_Interface;
  cl_ResourceSigningProfile : rest_Interface; cl_ShieldConfig : rest_Interface; cl_HelmReleaseMetadata : rest_Interface }.
Record made_from (config : rest_Config) (c : clients) : Prop := {
  made_SignerConfig : cp_NewForConfig signerconfig_client config = Ok (cl_SignerConfig c);
  made_ResourceSignature : cp_NewForConfig resourcesignature_client config = Ok (cl_ResourceSignature c);
  made_ResourceSigningProfile : cp_NewForConfig resourcesigningprofile_client config = Ok (cl_ResourceSigningProfile c);
  made_ShieldConfig : cp_NewForConfig shieldconfig_client config = Ok (cl_ShieldConfig c);
  made_HelmReleaseMetadata : cp_NewForConfig helmreleasemetadata_client config = Ok (cl_HelmReleaseMetadata c) }.

Definition custom_request (c : clients) (shieldNamespace : string) (k : custom_call) : any_request :=
  let rsps := cp_getter resourcesigningprofile_client (cl_ResourceSigningProfile c) in
  let rsigs := cp_getter resourcesignature_client (cl_ResourceSignature c) in
  match k with
  | LoadProfiles => any (List_request (A := ResourceSigningProfile) "resourcesigningprofiles" (rsps "") emptyListOptions)
  | LoadSignerConfigs =>
      any (List_request (A := SignerConfigRes) "signerconfigs" (cp_getter signerconfig_client (cl_SignerConfig c) shieldNamespace) emptyListOptions)
  | LoadSignatures namespace labelSelector =>
      any (List_request (A := ResourceSignature) "resourcesignatures" (rsigs namespace) (mkListOptions labelSelector None false))
  | ReadProfile namespace name =>
      any (Get_request (A := ResourceSigningProfile) "resourcesigningprofiles" (rsps namespace) name emptyOptions)
  | WriteStatus namespace rsp => any (Update_request "resourcesigningprofiles" (rsps namespace) rsp emptyOptions)
  | ReadShieldConfig name =>
      any (Get_request (A := ShieldConfigRes) "shieldconfigs" (cp_getter shieldconfig_client (cl_ShieldConfig c) shieldNamespace) name emptyOptions)
  | ReadReleaseMetadata namespace name =>
      any (Get_request (A := HelmReleaseMetadataRes) "helmreleasemetadatas"
             (cp_getter helmreleasemetadata_client (cl_HelmReleaseMetadata c) namespace) name emptyOptions)
  | ObserveSignatures => any (List_request (A := ResourceSignature) "resourcesignatures" (rsigs "") emptyListOptions)
  end.
End calls.

(** The calls through the clients of the Kubernetes library: core resources
    ([namespaceLoader.go], [createOrUpdateEvent], [FindReleaseSecret], the observer's
    [loader.go] and [report]), dry runs of an object of any kind and the object a
    patch is for ([dryrun.go]). *)
Inductive core_call :=
| ListNamespaces
| ReadEvent (namespace : string)
| CreateNewEvent (namespace : string)
| UpdateOldEvent (namespace : string)
| ListSecrets (namespace : string)
| DryRunNamespaced (group resource : string)
| DryRunCluster (group resource : string)
| ReadCurrent (group resource namespace : string)
| ListPods
| ReadSummary
| CreateSummary
| UpdateSummary.

Definition core_access (shieldNamespace : string) (k : core_call) : access :=
  match k with
  | ListNamespaces => mkAccess "list" "" "namespaces" ""
  | ReadEvent ns => mkAccess "get" "" "events" ns
  | CreateNewEvent ns => mkAccess "create" "" "events" ns
  | UpdateOldEvent ns => mkAccess "update" "" "events" ns
  | ListSecrets ns => mkAccess "list" "" "secrets" ns
  | DryRunNamespaced group resource => mkAccess "create" group resource shieldNamespace
  | DryRunCluster group resource => mkAccess "create" group resource ""
  | ReadCurrent group resource ns => mkAccess "get" group resource ns
  | ListPods => mkAccess "list" "" "pods" shieldNamespace
  | ReadSummary => mkAccess "get" "" "configmaps" shieldNamespace
  | CreateSummary => mkAccess "create" "" "configmaps" shieldNamespace
  | UpdateSummary => mkAccess "update" "" "configmaps" shieldNamespace
  end.

(** ** Specification: roles *)

Definition lists (l : list string) (x : string) : bool := bool_decide ("*" ∈ l) || bool_decide (x ∈ l).
Definition rule_covers (a : access) (r : PolicyRule) : bool :=
  lists (pr_Verbs r) (ac_verb a) && lists (pr_APIGroups r) (ac_group a) && lists (pr_Resources r) (ac_resource a).

Section roles.
Context `{K8sStructs}.

(** A binding that names the account refers to a role whose rules cover the call; a
    role of a namespace covers the calls in that namespace only. *)
Definition is_subject (sa ns : string) (s : Subject) : bool :=
  bool_decide (sub_Kind s = "ServiceAccount") && bool_decide (sub_Name s = sa) && bool_decide (sub_Namespace s = ns).
Definition rules_of (objs : list kobj) (kind ns name : string) : list PolicyRule :=
  mjoin ((fun o => match o_body o with
                   | BClusterRole rules => if bool_decide (kind = "ClusterRole" /\ km_Name (o_meta o) = name) then rules else []
                   | BRole rules => if bool_decide (kind = "Role" /\ km_Name (o_meta o) = name /\ km_Namespace (o_meta o) = ns) then rules else []
                   | _ => []
                   end) <$> objs).
Definition permitted (objs : list kobj) (sa ns : string) (a : access) : bool :=
  existsb (fun o => match o_body o with
    | BClusterRoleBinding subjects ref =>
        existsb (is_subject sa ns) subjects && existsb (rule_covers a) (rules_of objs (rr_Kind ref) "" (rr_Name ref))
    | BRoleBinding subjects ref =>
        bool_decide (ac_namespace a <> "" /\ km_Namespace (o_meta o) = ac_namespace a) &&
        existsb (is_subject sa ns) subjects && existsb (rule_covers a) (rules_of objs (rr_Kind ref) (km_Namespace (o_meta o)) (rr_Name ref))
    | _ => false
    end) objs.

(** What the operator installs for the account of the server. *)
Definition server_roles (cr : IntegrityShield) : list kobj :=
  [BuildClusterRoleForIShield cr; BuildClusterRoleBindingForIShield cr; BuildRoleForIShield cr; BuildRoleBindingForIShield cr].
Definition server_may (cr : IntegrityShield) : access -> bool := permitted (server_roles cr) (GetServiceAccountName cr) (is_Namespace cr).

(** ** Specification: definitions of custom resources *)

(** A definition serves a request when the group, the version, the plural name and
    the scope are those of the request. *)
Definition serves `{RestLib} (crd : kobj) (rq : any_request) : Prop :=
  let rq := projT2 rq in
  exists spec v, o_body crd = BCRD spec /\ v ∈ crd_Versions spec /\ crv_Served v = true /\
    client_GroupVersion (rq_client rq) = Some (crd_Group spec, crv_Name v) /\ client_APIPath (rq_client rq) = "/apis" /\
    rq_resource rq = crn_Plural (crd_Names spec) /\ crd_Scope spec = "Namespaced" /\
    km_Name (o_meta crd) = crn_Plural (crd_Names spec) +:+ "." +:+ crd_Group spec.

(** What the operator defines for a resource, depending on whether the Helm plug-in
    is enabled, and the call only that plug-in makes. *)
Definition custom_definitions (cr : IntegrityShield) (helm : bool) : list kobj :=
  [BuildShieldConfigCRD cr; BuildSignerConfigCRD cr; BuildResourceSignatureCRD cr; BuildResourceSigningProfileCRD cr] ++
  (if helm then [BuildHelmReleaseMetadataCRD cr] else []).
Definition of_plugin (k : custom_call) : bool := match k with ReadReleaseMetadata _ _ => true | _ => false end.
End roles.

(** ** Facts *)

Section facts.
Context `{K8sStructs}.

Definition cluster_rules (cr : IntegrityShield) : list PolicyRule :=
  match o_body (BuildClusterRoleForIShield cr) with BClusterRole rules => rules | _ => [] end.

Lemma own_subject cr : is_subject (GetServiceAccountName cr) (is_Namespace cr) (server_subject cr) = true.
Proof. unfold is_subject. cbn. by rewrite !bool_decide_true. Qed.

Lemma rules_of_cluster_role cr : rules_of (server_roles cr) "ClusterRole" "" (sec_ClusterRole (iss_Security (is_Spec cr))) = cluster_rules cr.
Proof.
  unfold rules_of, server_roles, cluster_rules, BuildClusterRoleForIShield, BuildClusterRoleBindingForIShield, BuildRoleForIShield,
    BuildRoleBindingForIShield.
  cbn [fmap list_fmap mjoin list_join o_body o_meta km_Name km_Namespace meta].
  rewrite bool_decide_true by done. rewrite bool_decide_false by naive_solver. done.
Qed.

Lemma rules_of_dry_run_role cr :
  rules_of (server_roles cr) "Role" (is_Namespace cr) (sec_ClusterRole (iss_Security (is_Spec cr)) +:+ "-sim") =
  [mkPolicyRule ["*"] ["*"] ["get"; "list"; "create"; "update"]].
Proof.
  unfold rules_of, server_roles, BuildClusterRoleForIShield, BuildClusterRoleBindingForIShield, BuildRoleForIShield,
    BuildRoleBindingForIShield.
  cbn [fmap list_fmap mjoin list_join o_body o_meta km_Name km_Namespace meta].
  rewrite bool_decide_false by naive_solver. rewrite bool_decide_true by done. done.
Qed.

Lemma lists_star x l : lists ("*" :: l) x = true.
Proof. unfold lists. by rewrite bool_decide_true by left. Qed.

(** What the account may do: the rules of the cluster role everywhere, and reading,
    creating and updating anything in the namespace of the shield. *)
Lemma server_may_eq cr a : is_Namespace cr <> "" ->
  server_may cr a = existsb (rule_covers a) (cluster_rules cr) ||
    bool_decide (ac_namespace a = is_Namespace cr) && lists ["get"; "list"; "create"; "update"] (ac_verb a).
Proof.
  intros Hns. unfold server_may, permitted. generalize (rules_of_cluster_role cr) (rules_of_dry_run_role cr).
  generalize (rules_of (server_roles cr)) as rules. intros rules Hc Hr.
  unfold server_roles, BuildClusterRoleForIShield, BuildClusterRoleBindingForIShield, BuildRoleForIShield, BuildRoleBindingForIShield.
  cbn [existsb o_body o_meta km_Namespace meta rr_Kind rr_Name].
  rewrite own_subject, Hc, Hr. cbn [orb andb existsb]. rewrite !orb_false_r, andb_true_r.
  f_equal. unfold rule_covers. cbn [pr_Verbs pr_APIGroups pr_Resources]. rewrite !lists_star, !andb_true_r. f_equal.
  apply bool_decide_ext. split; [by intros [_ ->]|by intros ->].
Qed.

(** The rules of the namespace, and the one that lets everything be read. *)
Lemma may_in_namespace cr a : is_Namespace cr <> "" -> ac_namespace a = is_Namespace cr ->
  lists ["get"; "list"; "create"; "update"] (ac_verb a) = true -> server_may cr a = true.
Proof. intros Hns Ha Hv. rewrite server_may_eq, Hv, bool_decide_true by done. apply orb_true_r. Qed.

Lemma may_read cr a : is_Namespace cr <> "" -> ac_verb a = "get" -> server_may cr a = true.
Proof.
  intros Hns Hv. rewrite server_may_eq by done. apply orb_true_iff. left. apply existsb_true.
  exists (mkPolicyRule ["*"] ["*"] ["get"]). split; [do 3 right; left|]. unfold rule_covers. cbn [pr_Verbs pr_APIGroups pr_Resources].
  by rewrite !lists_star, Hv.
Qed.

(** The kinds of objects without a namespace that a dry run may create. *)
Definition may_dry_run_in_cluster (group resource : string) : bool :=
  bool_decide ((group, resource) ∈ [("", "events"); ("apiextensions.k8s.io", "customresourcedefinitions")]).

Lemma create_in_cluster cr a : ac_verb a = "create" ->
  existsb (rule_covers a) (cluster_rules cr) = may_dry_run_in_cluster (ac_group a) (ac_resource a).
Proof.
  intros Hv. unfold cluster_rules, rule_covers, lists, may_dry_run_in_cluster.
  cbn [existsb o_body BuildClusterRoleForIShield pr_Verbs pr_APIGroups pr_Resources].
  rewrite Hv. apply eq_true_iff_eq.
  rewrite !orb_true_iff, !andb_true_iff, !orb_true_iff, !bool_decide_eq_true, !elem_of_cons, !elem_of_nil, !pair_equal_spec.
  clear Hv. naive_solver.
Qed.

(** Every request goes to the group of the custom resources. *)
Lemma custom_request_group `{RestLibOk}
    `{!Resource SignerConfigRes, !Resource ResourceSignature, !Resource ResourceSigningProfile, !Resource ShieldConfigRes,
      !Resource HelmReleaseMetadataRes} config c ns k : made_from config c ->
  let client := rq_client (projT2 (custom_request c ns k)) in
  client_GroupVersion client = Some (GroupName, "v1alpha1") /\ client_APIPath client = "/apis".
Proof.
  intros [Hsc Hrs Hrsp Hshc Hhrm].
  destruct k; [exact (client_group _ _ _ Hrsp)|exact (client_group _ _ _ Hsc)|exact (client_group _ _ _ Hrs)|exact (client_group _ _ _ Hrsp)
    |exact (client_group _ _ _ Hrsp)|exact (client_group _ _ _ Hshc)|exact (client_group _ _ _ Hhrm)|exact (client_group _ _ _ Hrs)].
Qed.

(** The calls of the handler are among these: what its view of the cluster holds is what
    the API server answers to them. *)
Lemma cluster_asks `{RestLib, CoreApi}
    `{!Resource SignerConfigRes, !Resource ResourceSignature, !Resource ResourceSigningProfile, !Resource ShieldConfigRes,
      !Resource HelmReleaseMetadataRes} (server : Z -> forall A, rest_request A -> res string) config c t ns :
  made_from config c -> let cluster := clients_cluster server config in
  let ask k := server t _ (projT2 (custom_request c ns k)) in
  list_RSP (Cluster := cluster) t = to_option (outcome_of (decoded [] IntoList (ask LoadProfiles))) /\
  list_SignerConfigs (Cluster := cluster) t ns = to_option (outcome_of (decoded [] IntoList (ask LoadSignerConfigs))) /\
  (forall rns sel, list_ResourceSignatures (Cluster := cluster) t rns sel =
     to_option (outcome_of (decoded [] IntoList (ask (LoadSignatures rns sel))))) /\
  (forall rns name, get_RSP (Cluster := cluster) t rns name = outcome_of (decoded zero Into (ask (ReadProfile rns name)))) /\
  (forall rns rsp, put_RSP (Cluster := cluster) t rns rsp =
     match outcome_of (decoded (B := ResourceSigningProfile) zero Into (ask (WriteStatus rns rsp))) with Ok _ => Ok tt | Err e => Err e end).
Proof.
  intros [Hsc Hrs Hrsp _ _] cluster ask. subst cluster ask. cbn -[cp_NewForConfig]. unfold with_client.
  rewrite Hsc, Hrs, Hrsp. split_and!; reflexivity.
Qed.

(** C18: with the roles the operator installs, the account of the server may make every
    call of the server and of the observer, except that an object without a namespace
    can be created in a dry run only when it is a definition of custom resources, or
    of the kind of events. *)
Theorem server_calls_permitted `{RestLibOk}
    `{!Resource SignerConfigRes, !Resource ResourceSignature, !Resource ResourceSigningProfile, !Resource ShieldConfigRes,
      !Resource HelmReleaseMetadataRes} cr config c :
  is_Namespace cr <> "" -> made_from config c ->
  (forall k, server_may cr (access_of (projT2 (custom_request c (is_Namespace cr) k))) = true) /\
  (forall k, server_may cr (core_access (is_Namespace cr) k) =
     match k with DryRunCluster group resource => may_dry_run_in_cluster group resource | _ => true end).
Proof.
  intros Hns Hc. split; intros k.
  - destruct (custom_request_group config c (is_Namespace cr) k Hc) as [Hg _]. rewrite server_may_eq by done.
    unfold access_of, cluster_rules. rewrite Hg. by destruct k.
  - destruct k as [|ns|ns|ns|ns|g r|g r|g r ns| | | |];
      try (by apply may_in_namespace); try (by apply may_read); rewrite server_may_eq by done; try reflexivity.
    rewrite (bool_decide_false (_ = is_Namespace cr)) by (intros Hn; by apply Hns). cbn [andb].
    rewrite orb_false_r. by apply create_in_cluster.
Qed.

Lemma serves_plural `{RestLib} {A} crd name names (rq : rest_request A) ns :
  crd = buildCRD name ns names -> name = crn_Plural names +:+ ".apis.integrityshield.io" -> client_GroupVersion (rq_client rq) = Some (GroupName, "v1alpha1") ->
  client_APIPath (rq_client rq) = "/apis" -> rq_resource rq = crn_Plural names -> serves crd (any rq).
Proof.
  intros -> -> Hg Hp Hr. unfold serves, any. cbn [projT2]. eexists _, _. split; [reflexivity|]. split; [left|].
  split_and!; [done|exact Hg|exact Hp|exact Hr|done|done].
Qed.

(** C19: whatever configuration the clients are made from, each custom resource the
    server, the observer and an enabled plug-in ask for is served under a definition the operator
    installs: the group, the version, the plural name and the name of the definition agree. *)
Theorem custom_resources_served `{RestLibOk}
    `{!Resource SignerConfigRes, !Resource ResourceSignature, !Resource ResourceSigningProfile, !Resource ShieldConfigRes,
      !Resource HelmReleaseMetadataRes} cr helm config c k :
  made_from config c -> (of_plugin k = true -> helm = true) ->
  exists crd, crd ∈ custom_definitions cr helm /\ serves crd (custom_request c (is_Namespace cr) k).
Proof.
  intros Hc Hk. destruct (custom_request_group config c (is_Namespace cr) k Hc) as [Hg Hp].
  destruct k; [exists (BuildResourceSigningProfileCRD cr)|exists (BuildSignerConfigCRD cr)|exists (BuildResourceSignatureCRD cr)
    |exists (BuildResourceSigningProfileCRD cr)|exists (BuildResourceSigningProfileCRD cr)|exists (BuildShieldConfigCRD cr)
    |rewrite (Hk eq_refl); exists (BuildHelmReleaseMetadataCRD cr)|exists (BuildResourceSignatureCRD cr)];
    (split; [unfold custom_definitions; set_solver|eapply serves_plural; [reflexivity|reflexivity|exact Hg|exact Hp|reflexivity]]).
Qed.
End facts.

(** ** Witnesses *)

(** A library whose clients are their configurations, and answers that are never
    decoded. *)
#[local] Instance sample_rest : RestLib := {|
  rest_Interface := rest_Config; RESTClientFor cfg := Ok cfg; client_GroupVersion := rcf_GroupVersion; client_APIPath := rcf_APIPath;
  DefaultKubernetesUserAgent := "shield/v0.0.0"; DiscoveryClient := rest_Config; NewDiscoveryClientForConfig cfg := Ok cfg;
  NewDiscoveryClient cfg := cfg; NewTokenBucketRateLimiter qps burst := (qps, burst); k8s_options := unit; emptyOptions := tt |}.
#[local] Instance sample_rest_ok : RestLibOk.
Proof. by intros cfg c [= ->]. Defined.
Definition undecoded {A} (zero : A) (name : A -> string) : Resource A :=
  {| RestClients.zero := zero; obj_Name := name; Into s := (zero, Some s); IntoList s := ([], Some s) |}.
#[local] Instance signer_configs : Resource SignerConfigRes := undecoded emptySignerConfigRes (fun o => om_Name (scr_meta o)).
#[local] Instance signatures : Resource ResourceSignature := undecoded (mkResourceSignature emptyMeta []) (fun o => om_Name (rsig_meta o)).
#[local] Instance profiles : Resource ResourceSigningProfile := undecoded (mkRSP emptyMeta emptyRSPSpec emptyRSPStatus) (fun o => om_Name (rsp_meta o)).
#[local] Instance shield_configs : Resource ShieldConfigRes := undecoded (mkShieldConfigRes emptyMeta None (mkResourceState "" "")) (fun o => om_Name (shc_meta o)).
#[local] Instance release_metadatas : Resource HelmReleaseMetadataRes :=
  undecoded (mkHelmReleaseMetadataRes emptyMeta (mkHelmReleaseMetadataSpec "" "" "" "" "" "") (mkResourceState "" "")) (fun o => om_Name (hrm_meta o)).
Definition sample_config : rest_Config := mkRestConfig None "" None "" None 0 0.
Definition sample_client : rest_Interface := setConfigDefaults signerconfig_GroupVersion sample_config.
Definition sample_clients : clients := mkClients sample_client sample_client sample_client sample_client sample_client.
Lemma sample_made : made_from sample_config sample_clients.
Proof. by split. Defined.

Lemma server_calls_permitted_witness :
  server_may (sample_cr None) (access_of (projT2 (custom_request sample_clients "shield-ns" (LoadSignatures "app" "sigResource=x")))) = true /\
  server_may (sample_cr None) (core_access "shield-ns" (DryRunNamespaced "apps" "deployments")) = true /\
  server_may (sample_cr None) (core_access "shield-ns" (DryRunCluster "rbac.authorization.k8s.io" "clusterroles")) = false.
Proof.
  assert (Hns : is_Namespace (sample_cr None) <> "") by discriminate.
  destruct (server_calls_permitted (sample_cr None) sample_config sample_clients Hns sample_made) as [Hcustom Hcore].
  split; [exact (Hcustom (LoadSignatures "app" "sigResource=x"))|]. split.
  - exact (Hcore (DryRunNamespaced "apps" "deployments")).
  - exact (Hcore (DryRunCluster "rbac.authorization.k8s.io" "clusterroles")).
Defined.

Lemma custom_resources_served_witness :
  exists crd, crd ∈ custom_definitions (sample_cr None) true /\ serves crd (custom_request sample_clients "shield-ns" (ReadReleaseMetadata "app" "wordpress")).
Proof. exact (custom_resources_served (sample_cr None) true sample_config sample_clients (ReadReleaseMetadata "app" "wordpress") sample_made (fun _ => eq_refl)). Defined.
